(* ===== verification/_CoqProject ===== *)
-Q . S2P
Prelude.v
SystemConfig.v
VehicleData.v
FreeRtos.v
BmsAlgo.v
VcuSafety.v
IRelayActuator.v
VcuLogic.v
RelayManager.v
VcuLogicCorrect.v
VcuTick.v
VcuTickCorrect.v
CanParse.v
CanManager.v
CanManagerCorrect.v
OfflineBuffer.v
UplinkScheduler.v
Telemetry.v
E22Config.v
LoraLink.v
EspLoraHal.v
E22Diagnostic.v
HMIHelpers.v
DisplayHMI.v
BmsNextionPacket.v
AksSystem.v
HmiTask.v
LoraTask.v
Watchdog.v
OutageSim.v
EndToEnd.v
Firmware.v
Timing.v
BusToGround.v
CanReplay.v
NativeTests.v
