(* ===== verification/Prelude.v ===== *)
(** * TUFAN-AKS: a verification development of the vehicle control firmware

    The repository holds the firmware of an electric race car's control computer
    (ESP32, FreeRTOS) under [ESP_AKS/].  Four tasks run on it:

    - the CAN task receives battery, motor and charger frames, keeps one telemetry
      record with freshness flags, and publishes a copy in a one-slot mailbox;
    - the VCU task, every 20 ms, hands the mailbox's record to the state machine that
      decides whether the ten contactors may be closed, and drives the relay board;
    - the HMI task shows the record on a Nextion panel and reads touch commands;
    - the LoRa task configures an E22 radio at boot, sends the record to the ground
      station while heartbeats arrive, and buffers it while they do not.

    Two more programs share its libraries: a bench image that reads the radio's registers,
    and a host tool that feeds recorded CAN logs to the parsers.

    The tasks interact through the mailbox (CAN to the others), the event queue and two atomic
    flags of the state machine (CAN faults, touch commands) and the actuator latch of the
    relay driver.

    ** Correspondence of the files

    Every definition that models code is preceded by a comment [[src path:lines symbol]].

    - [Prelude]: machine integers, the state monad [M], the fuel monad [F] and their
      triples, list lemmas, tactics.
    - [SystemConfig], [VehicleData]: [include/SystemConfig.h] (the constants the modelled
      code uses), [lib/VehicleData].
    - [FreeRtos]: the interface of the FreeRTOS queue the code relies on.
    - [BmsAlgo]: [lib/BmsAlgo/BmsAlgo.cpp], [lib/BmsModel].
    - [VcuSafety]: the inline conditions and interlocks of [lib/VcuLogic/VcuLogic.h].
    - [IRelayActuator]: the abstract class and its contract; [VcuLogic]: the state machine
      of [lib/VcuLogic/VcuLogic.cpp]; [VcuLogicCorrect]: its abstract machine, refinement
      and safety theorems, proved against the contract.
    - [RelayManager]: [lib/RelayManager] over an SPI master with the MCP23S17 behind it;
      the adapter of [main.cpp] as an instance of the contract.
    - [CanParse], [CanManager], [CanManagerCorrect]: [lib/CanParse], [lib/CanManager]
      over the TWAI driver.
    - [OfflineBuffer], [UplinkScheduler]: [lib/OfflineBuffer], and the scheduler, link
      monitor, heartbeat and retry rules of [lib/LoraLink].
    - [Telemetry]: [lib/Telemetry], and [parse_uks_frame] of [tools/e2e/contract.py], which
      states what the ground station accepts.
    - [E22Config], [LoraLink]: [lib/E22Config], and the radio's boot configuration over the
      abstract class [ILoraHal]; [EspLoraHal]: the implementation of that class in
      [main.cpp] over the ESP-IDF drivers, which discharges the contract [LoraLink] assumes.
    - [E22Diagnostic]: the bench image [src/e22_diagnostic.cpp].
    - [HMIHelpers], [DisplayHMI], [BmsNextionPacket]: [lib/HMIHelpers], [lib/DisplayHMI],
      the battery page of [lib/BmsAlgo].
    - [VcuTick]: the tick of [VcuLogic] as a program of small steps between which other
      tasks post events and the world changes; [VcuTickCorrect]: its invariant and the
      opening of the contactors under any schedule.
    - [AksSystem]: the composition root [src/main.cpp]: start-up, adapters, CAN and VCU
      task bodies, any interleaving of task iterations as a step relation.
    - [HmiTask], [LoraTask]: the other two task bodies of [main.cpp].
    - [Firmware]: the four tasks of [main.cpp] on one machine, preempting each other;
      [Timing]: its schedules with the times of the steps, and the periods of the control
      unit and the panel ([main.cpp], the delays that end the two loops).
    - [Watchdog]: no code of its own but the watchdog's timeout in [sdkconfig.esp32dev]; how
      long the LoRa task leaves its watchdog unfed, and the CAN task at its start-up.
    - [OutageSim]: [tools/e2e] without its tests: the rest of the contract, the offline
      buffer and the simulator of the LoRa task.
    - [EndToEnd]: no code of its own; the theorem from a received CAN frame to open
      contactors across the CAN and VCU tasks; [BusToGround]: likewise, from the CAN bus
      through the mailbox and the LoRa task to the receiver's decoder, in any schedule.
    - [CanReplay]: the host tool [tools/can_replay/can_replay.cpp].
    - [NativeTests]: the assertions of [test/test_native_*], evaluated on the model.

    ** Modelling conventions

    An [intN_t] or [uintN_t] is a [Z] with its conversions written out ([u8], [i16], ...).
    Static variables and members are fields of a record, the C++ object; a function that
    changes them takes and returns it, directly ([VcuLogic], [OfflineBuffer],
    [UplinkScheduler]) or in the state monad [M] (the drivers).  Code outside the
    repository (FreeRTOS, the ESP-IDF drivers, the chips behind them) is a type class of
    operations, with its documented behaviour as laws in a second class where a theorem
    needs them; each group of theorems has an instance by a concrete simulated device
    ([Bench], [FakeTwai], [FakeE22], [FakeEsp], [FakePanel], [Vehicle], ...), at which the witnesses
    evaluate the model.  Mutexes only make their critical sections atomic in the model.
    The tasks interleave iteration by iteration in [AksSystem] and [EndToEnd]; in [Firmware]
    and [BusToGround] they preempt each other at every access to what they share (the
    mailbox, the two flags and the queue of the control unit, its state, the relay mask), and
    the frames of one receive loop are the only ones handled in one step.  A binary32 computation is
    [SpecFloat]'s; the order of its operations is that of the source.

    Steps take no time of their own.  Where a theorem is about time, the schedule carries the
    time at which each step ended ([Timing], microseconds), or the device behind the calls
    has a clock that each call moves on ([EspLoraHal], [Watchdog]; the clock of the
    [LoraHalContract] in milliseconds and kernel ticks).

    ** What the theorems show

    - Composed system, under preemption: from any reachable state in which the control unit
      is in a safe state, has a priority request pending or is about to test a critical
      record, it opens all contactors within a bounded number of its iterations, whatever
      the schedule (requests of the CAN task cost no iteration, however many it posts);
      the safety invariant holds at
      every point of every task ([Firmware]); a preempted tick has the effect of an
      uninterrupted one with the posts moved out of it ([VcuTick]).  Whatever the bus
      carries, the receiver drops of the frames on the air exactly those whose rpm or motor
      voltage is outside its contract ([BusToGround]).
    - Real time: with the control unit's iterations at most 22.7 ms apart and the panel's
      task asleep for its 100 ms, the contactors are open 250 ms after an alarm when nobody
      asks for a RESET, 700 ms after it when RESETs come but the cause stands, and 160 ms
      after the dispatch of an E-STOP touch ([Timing]).  The LoRa task never lets its 5 s
      watchdog run out, although the radio's configuration, 4.1 s of waiting at worst, does
      not feed it ([Watchdog]).
    - Composed system, by iterations: a critical record in the mailbox ([AksSystem]) and the
      CAN cycle that receives a pack voltage outside the critical limits, through the
      callback's event and the fault flag, whatever the freshness of the other frames,
      unless a RESET is queued at that moment ([EndToEnd]), open all contactors within a
      bounded number of cycles from every reachable state.
    - State machine: each call of [run] is a step of a seven-rule abstract machine; the
      reachability invariant; priority events act on the next tick however full the queue
      is; a safe state opens the contactors within one tick per queued event plus one; the
      READY and RESET interlocks, as equivalences with a measured envelope; the shutdown
      order; three behaviours that depart from the comments ([VcuLogicCorrect],
      [VcuSafety]).
    - Relay driver: commands reach the chip or the fault is latched; no intermediate chip
      state of start-up or recovery energises an uncommanded contactor.
    - CAN: well-typed parsers, round trips, the invariant of the whole receive path, the
      freshness rule on the wrapping tick counter, the debounce, the fault notification.
    - Uplink: the ring buffer refines a bounded FIFO, replay keeps order and loses
      nothing the sender refused, an outage of 60 s fits and every moment of it is near a
      sample; the Python simulator of the end-to-end tests sends, byte for byte, what the
      firmware sends ([OutageSim]).  From power-on, whatever the
      hardware does, the LoRa task ends its start-up with the radio in normal mode, with the
      effect of the verdict its configuration logs (untouched when AUX never became ready;
      written, or refused and as it was; "confirmed" only with the registers of the
      contract), or gives up and leaves the radio alone; what it then transmits is a gapless
      numbered sequence of frames of mailbox records, and the receiver's parser accepts those
      of records within its contract and reads them back field by field; while the link is
      down it sends nothing ([LoraTask]).
    - Bench image and host tool: the diagnostic ends, sends no write command and reports
      the radio's own registers; the replay tool reads back every line the sniffer prints
      (with at least one byte) and its exit code states the rules it checks.
    - Panel: framed touch commands, start-up and iterations that end whatever the drivers
      answer, the panel's contents after a refresh, a byte budget
      with convergence; percentage, temperature and cell voltages are shown as "no data" when
      they are stale, pack voltage, current, rpm and speed are not; the panel's battery page
      shows a record that stays for 28.5 s of iterations half a second apart, but for a zero
      voltage that was never sent since power-on.
    - Battery algorithm: [computePack] equals a reference report defined on whole lists;
      its fail-safe results.

    ** Fuel

    Loops with a bound of their own are structural.  The others have fuel and a theorem
    that enough is available: [waitAuxReady] one unit per 10 ms of its timeout and four
    more (every round waits for at least one tick of the 100 Hz kernel, perhaps for less
    than 10 ms), the diagnostic's wait one unit per tick and one more, [uart_setup] one unit
    per attempt it makes (5), the touch loop the number of pending bytes plus one (so that
    some fuel is enough for every iteration of the HMI task, [hmi_cycle_ends]), the start-up
    of the LoRa task 204 ([LORA_START_FUEL]), the outage simulator one unit per tick, the
    receive loop [CAN_RX_DRAIN_MAX] (32, its bound in the source).  A printed integer has at
    most 20 digits.

    ** Not modelled

    Log output of the firmware (the variables that throttle it are modelled, and so is the
    log of the diagnostic image, which is its result), the one feed of the watchdog that begins
    an iteration of the CAN and VCU tasks (those of the HMI and LoRa tasks are), stack
    statistics, the text of the replay tool's report, the stubs and runners of the
    native tests, the embedded tests and the pytest files of [tools/e2e], build and SDK
    configuration.  Preemption inside the receive loop of the CAN task, which in this build touches
    nothing the other tasks read but through the steps that follow it, and inside the
    refresh of the panel, which no other task touches, is not modelled: each is one step.
    That the control unit keeps the period [Timing] asks for, and the driver calls the times
    [Watchdog] asks for, is a property of the kernel and the drivers and an assumption here;
    how long the panel's task works on the bytes it receives is not bounded, since nothing
    in the code bounds them. *)
From stdpp Require Export base list option decidable tactics numbers.
From Stdlib Require Export ZArith Lia Bool.
From Stdlib Require Ascii String.
Export (notations) String.

Open Scope Z_scope.

(** ** Machine-width integers

    A [uintN_t] value is a [Z] in [0, 2^N); a conversion to it wraps.  A signed
    [intN_t] is a [Z] in [-2^(N-1), 2^(N-1)); a conversion to it is the two's
    complement one that the target compilers implement. *)
Definition wrapu (w z : Z) : Z := z mod 2 ^ w.
Definition wraps (w z : Z) : Z := (z + 2 ^ (w - 1)) mod 2 ^ w - 2 ^ (w - 1).

Definition u8 (z : Z) : Z := wrapu 8 z.
Definition u16 (z : Z) : Z := wrapu 16 z.
Definition u32 (z : Z) : Z := wrapu 32 z.
Definition u64 (z : Z) : Z := wrapu 64 z.
Definition i8 (z : Z) : Z := wraps 8 z.
Definition i16 (z : Z) : Z := wraps 16 z.
Definition i32 (z : Z) : Z := wraps 32 z.

(** Value ranges of the C types. *)
Definition is_u8 (z : Z) : Prop := 0 <= z < 256.
Definition is_u16 (z : Z) : Prop := 0 <= z < 65536.
Definition is_u32 (z : Z) : Prop := 0 <= z < 4294967296.
Definition is_u64 (z : Z) : Prop := 0 <= z < 18446744073709551616.
Definition is_i8 (z : Z) : Prop := -128 <= z < 128.
Definition is_i16 (z : Z) : Prop := -32768 <= z < 32768.
Definition is_i32 (z : Z) : Prop := -2147483648 <= z < 2147483648.

(** [(hi << 8) | lo] on two bytes, the big-endian read the parsers use. *)
Definition be16 (hi lo : Z) : Z := Z.lor (Z.shiftl hi 8) lo.

(** Bytes of a big-endian 16-bit field, for the encoders of the round trips. *)
Definition hi8 (z : Z) : Z := (z mod 65536) / 256.
Definition lo8 (z : Z) : Z := z mod 256.

(** Array read with a constant in-range index ([data[i]]). *)
Definition byte_at (l : list Z) (i : nat) : Z := nth i l 0.

(** Text is a list of character codes. *)
Definition chars (s : String.string) : list Z :=
  List.map (λ a, Z.of_N (Ascii.N_of_ascii a)) (String.list_ascii_of_string s).

(** The [n] low upper-case hexadecimal digits of a number, as [%02X] and [%08X] print it. *)
Definition hex_char (d : Z) : Z := if d <? 10 then 48 + d else 55 + d.
Fixpoint print_hex (n : nat) (v : Z) : list Z :=
  match n with
  | O => []
  | S n => print_hex n (v / 16) ++ [hex_char (v mod 16)]
  end.

(** ** A state monad

    [M S A] threads the state [S] of the objects a routine works on; the
    notations [x ← m; k] and [m ;; k] are stdpp's. *)
Definition M (S A : Type) : Type := S → A * S.
#[export] Instance M_ret S : MRet (M S) := λ A a s, (a, s).
#[export] Instance M_bind S : MBind (M S) := λ A B f m s, let '(a, s') := m s in f a s'.
Definition get {S} : M S S := λ s, (s, s).
Definition gets {S A} (f : S → A) : M S A := λ s, (f s, s).
Definition modify {S} (f : S → S) : M S () := λ s, ((), f s).
Definition run_state {S A} (m : M S A) (s : S) : S := snd (m s).

(** Computations with a fuelled loop; [None] is out of fuel. *)
Definition F (H A : Type) : Type := H → option (A * H).
#[export] Instance F_ret H : MRet (F H) := λ A a h, Some (a, h).
#[export] Instance F_bind H : MBind (F H) := λ A B f m h, '(a, h') ← m h; f a h'.
Definition lift {H A} (m : M H A) : F H A := λ h, Some (m h).

(** Triples for the two monads: what holds before, and of the result and state after;
    [ftriple] includes that the fuel suffices. *)
Definition triple {S A} (P : S → Prop) (m : M S A) (Q : A → S → Prop) : Prop :=
  ∀ s, P s → Q (m s).1 (m s).2.
Definition ftriple {S A} (P : S → Prop) (m : F S A) (Q : A → S → Prop) : Prop :=
  ∀ s, P s → ∃ a s', m s = Some (a, s') ∧ Q a s'.

Create HintDb aks.
Create Rewrite HintDb aks.

(** ** Tactics *)

(** Unfolds the range predicates and the wrapping conversions for [lia]. *)
Ltac widths :=
  unfold u8, u16, u32, u64, i8, i16, i32, is_u8, is_u16, is_u32, is_u64, is_i8,
    is_i16, is_i32, wrapu, wraps in *.

(** Arithmetic with division and modulo by constants. *)
Ltac zlia := widths; cbn [Z.sub Z.pow Z.pow_pos Pos.iter Z.mul Pos.mul Z.pos_sub Pos.pred_double Z.add Z.opp] in *;
  Z.to_euclidean_division_equations; lia.

(** Splits every conditional and match of a guarded handler. *)
Ltac branches := repeat (case_match; simplify_eq/=).

(** ** Generic lemmas *)

Lemma triple_ret {S A} (x : A) (Q : A → S → Prop) : triple (Q x) (mret x) Q.
Proof. by intros s Hs. Qed.
Lemma triple_bind {S A B} P (m : M S A) R (k : A → M S B) Q :
  triple P m R → (∀ a, triple (R a) (k a) Q) → triple P (m ≫= k) Q.
Proof.
  intros Hm Hk s Hs. specialize (Hm s Hs). unfold mbind, M_bind. destruct (m s) as [a s1]. by apply Hk.
Qed.
Lemma triple_pure {S A} (P : S → Prop) (φ : Prop) (m : M S A) Q :
  (φ → triple P m Q) → triple (λ s, P s ∧ φ) m Q.
Proof. intros Hm s [Hs Hp]. by apply Hm. Qed.
Lemma ftriple_ret {S A} (x : A) (Q : A → S → Prop) : ftriple (Q x) (mret x) Q.
Proof. intros s Hs. by exists x, s. Qed.
Lemma ftriple_lift {S A} P (m : M S A) Q : triple P m Q → ftriple P (lift m) Q.
Proof. intros Hm s Hs. exists (m s).1, (m s).2. split; [unfold lift; by destruct (m s)|by apply Hm]. Qed.
Lemma ftriple_bind {S A B} P (m : F S A) R (k : A → F S B) Q :
  ftriple P m R → (∀ a, ftriple (R a) (k a) Q) → ftriple P (m ≫= k) Q.
Proof.
  intros Hm Hk s Hs. destruct (Hm s Hs) as (a & s1 & E & Hr). destruct (Hk a s1 Hr) as (b & s2 & E2 & Hq).
  exists b, s2. split; [|done]. unfold mbind, F_bind. rewrite E. exact E2.
Qed.

Lemma ftriple_ex {S A X} (φ : X → Prop) (P : X → S → Prop) (m : F S A) Q :
  (∀ x, φ x → ftriple (P x) m Q) → ftriple (λ s, ∃ x, φ x ∧ P x s) m Q.
Proof. intros Hm s (x & Hx & Hs). by apply (Hm x). Qed.
Lemma ftriple_or {S A} (P1 P2 : S → Prop) (m : F S A) Q :
  ftriple P1 m Q → ftriple P2 m Q → ftriple (λ s, P1 s ∨ P2 s) m Q.
Proof. intros H1 H2 s [Hs|Hs]; auto. Qed.
Lemma ftriple_mono {S A} (P : S → Prop) (m : F S A) Q Q' :
  ftriple P m Q → (∀ a s, Q a s → Q' a s) → ftriple P m Q'.
Proof. intros Hm Hq s Hs. destruct (Hm s Hs) as (a & s' & E & Ha). eauto. Qed.


(** One command of a program in [M] or [F], by the tactic [t]. *)
Ltac step t := eapply triple_bind; [t|intros ?; cbn beta].
Ltac fstep t := eapply ftriple_bind; [t|intros ?; cbn beta].

Lemma u8_range z : is_u8 (u8 z).
Proof. unfold is_u8, u8, wrapu. change (2 ^ 8) with 256. apply Z.mod_pos_bound. lia. Qed.
Lemma u16_range z : is_u16 (u16 z).
Proof. unfold is_u16, u16, wrapu. change (2 ^ 16) with 65536. apply Z.mod_pos_bound. lia. Qed.
Lemma u32_range z : is_u32 (u32 z).
Proof. unfold is_u32, u32, wrapu. change (2 ^ 32) with 4294967296. apply Z.mod_pos_bound. lia. Qed.
Lemma i8_range z : is_i8 (i8 z).
Proof. unfold is_i8, i8, wraps. change (2 ^ 8) with 256. change (2 ^ (8 - 1)) with 128.
  pose proof (Z.mod_pos_bound (z + 128) 256). lia. Qed.
Lemma i16_range z : is_i16 (i16 z).
Proof. unfold is_i16, i16, wraps. change (2 ^ 16) with 65536. change (2 ^ (16 - 1)) with 32768.
  pose proof (Z.mod_pos_bound (z + 32768) 65536). lia. Qed.
Lemma i32_range z : is_i32 (i32 z).
Proof. unfold is_i32, i32, wraps. change (2 ^ 32) with 4294967296.
  change (2 ^ (32 - 1)) with 2147483648.
  pose proof (Z.mod_pos_bound (z + 2147483648) 4294967296). lia. Qed.

Lemma u8_id z : is_u8 z → u8 z = z.
Proof. apply Z.mod_small. Qed.
Lemma u16_id z : is_u16 z → u16 z = z.
Proof. apply Z.mod_small. Qed.
Lemma u32_id z : is_u32 z → u32 z = z.
Proof. apply Z.mod_small. Qed.
Lemma u64_id z : is_u64 z → u64 z = z.
Proof. apply Z.mod_small. Qed.
Lemma i8_id z : is_i8 z → i8 z = z.
Proof. unfold is_i8, i8, wraps. change (2 ^ 8) with 256. change (2 ^ (8 - 1)) with 128.
  intros. rewrite Z.mod_small; lia. Qed.
Lemma i16_id z : is_i16 z → i16 z = z.
Proof. unfold is_i16, i16, wraps. change (2 ^ 16) with 65536. change (2 ^ (16 - 1)) with 32768.
  intros. rewrite Z.mod_small; lia. Qed.
Lemma i32_id z : is_i32 z → i32 z = z.
Proof. unfold is_i32, i32, wraps. change (2 ^ 32) with 4294967296.
  change (2 ^ (32 - 1)) with 2147483648. intros. rewrite Z.mod_small; lia. Qed.

Lemma be16_eq hi lo : is_u8 lo → be16 hi lo = hi * 256 + lo.
Proof.
  intros Hlo. unfold be16.
  assert (Hd : Z.land (Z.shiftl hi 8) lo = 0).
  { apply Z.bits_inj'. intros n Hn. rewrite Z.land_spec, Z.bits_0.
    destruct (Z.lt_ge_cases n 8) as [H|H]; [by rewrite Z.shiftl_spec_low|].
    destruct Hlo as [Hlo0 Hlo]. rewrite (Z.bits_above_log2 lo n), andb_false_r; [done|lia|].
    destruct (Z.eq_dec lo 0) as [->|Hne]; [cbn; lia|].
    assert (Z.log2 lo < 8); [|lia]. apply Z.log2_lt_pow2; lia. }
  pose proof (Z.add_lor_land (Z.shiftl hi 8) lo) as E.
  rewrite Z.shiftl_mul_pow2 in * by lia. lia.
Qed.

Lemma be16_range hi lo : is_u8 hi → is_u8 lo → is_u16 (be16 hi lo).
Proof. intros Hh Hl. rewrite be16_eq by done. unfold is_u8, is_u16 in *. lia. Qed.

Lemma hi8_range z : is_u8 (hi8 z).
Proof. unfold is_u8, hi8. Z.to_euclidean_division_equations; lia. Qed.
Lemma lo8_range z : is_u8 (lo8 z).
Proof. unfold is_u8, lo8. Z.to_euclidean_division_equations; lia. Qed.
Lemma be16_split z : be16 (hi8 z) (lo8 z) = z mod 65536.
Proof.
  rewrite be16_eq by apply lo8_range. unfold hi8, lo8.
  Z.to_euclidean_division_equations; lia.
Qed.

Lemma nth_map_seq {A} (f : nat → A) n i d : (i < n)%nat → nth i (map f (seq 0 n)) d = f i.
Proof.
  intros Hi. rewrite (nth_indep _ d (f 0%nat)) by (rewrite length_map, length_seq; done).
  rewrite (map_nth f). by rewrite seq_nth.
Qed.

Lemma nth_insert (l : list Z) i j v d : (i < length l)%nat →
  nth j (<[i:=v]> l) d = if decide (j = i) then v else nth j l d.
Proof.
  intros Hi. rewrite !nth_lookup. destruct (decide (j = i)) as [->|Hne].
  - by rewrite list_lookup_insert_eq.
  - by rewrite list_lookup_insert_ne.
Qed.

Lemma nth_replicate {A} (x d : A) n i : (i < n)%nat → nth i (replicate n x) d = x.
Proof. revert i. induction n as [|n IH]; intros [|i] Hi; cbn; auto with lia. Qed.

#[export] Hint Resolve u8_range u16_range u32_range i8_range i16_range i32_range
  be16_range hi8_range lo8_range : aks.
#[export] Hint Rewrite be16_split : aks.
