(* ===== verification/SystemConfig.v ===== *)
(** Constants of [include/SystemConfig.h]: CAN identifiers, pins, periods, timeouts and the
    battery thresholds, under the names of the header, with the checks a reader of the
    header would make by eye.  Ports and hosts of the drivers have no counterpart: they
    select hardware behind the drivers' interfaces. *)
From S2P Require Import Prelude.

(** ** CAN identifiers and receive path *)
(* [src ESP_AKS/include/SystemConfig.h:16-16 CAN_ID_MOTOR_STATUS] *)
Definition CAN_ID_MOTOR_STATUS : Z := 512. (* 0x200 *)
(* [src ESP_AKS/include/SystemConfig.h:24-24 CAN_ID_LB_BMS_E000] *)
Definition CAN_ID_LB_BMS_E000 : Z := 57344. (* 0x0000E000 *)
(* [src ESP_AKS/include/SystemConfig.h:25-25 CAN_ID_LB_BMS_E001] *)
Definition CAN_ID_LB_BMS_E001 : Z := 57345. (* 0x0000E001 *)
(* [src ESP_AKS/include/SystemConfig.h:26-26 CAN_ID_LB_BMS_E002] *)
Definition CAN_ID_LB_BMS_E002 : Z := 57346. (* 0x0000E002 *)
(* [src ESP_AKS/include/SystemConfig.h:27-27 CAN_ID_LB_BMS_E003] *)
Definition CAN_ID_LB_BMS_E003 : Z := 57347. (* 0x0000E003 *)
(* [src ESP_AKS/include/SystemConfig.h:28-28 CAN_ID_LB_BMS_E004] *)
Definition CAN_ID_LB_BMS_E004 : Z := 57348. (* 0x0000E004 *)
(* [src ESP_AKS/include/SystemConfig.h:29-29 CAN_ID_LB_BMS_E005] *)
Definition CAN_ID_LB_BMS_E005 : Z := 57349. (* 0x0000E005 *)
(* [src ESP_AKS/include/SystemConfig.h:30-30 CAN_ID_LB_BMS_E006] *)
Definition CAN_ID_LB_BMS_E006 : Z := 57350. (* 0x0000E006 *)
(* [src ESP_AKS/include/SystemConfig.h:31-31 CAN_ID_LB_BMS_E015] *)
Definition CAN_ID_LB_BMS_E015 : Z := 57365. (* 0x0000E015 *)
(* [src ESP_AKS/include/SystemConfig.h:32-32 CAN_ID_LB_BMS_E016] *)
Definition CAN_ID_LB_BMS_E016 : Z := 57366. (* 0x0000E016 *)
(* [src ESP_AKS/include/SystemConfig.h:33-33 CAN_ID_LB_BMS_E017] *)
Definition CAN_ID_LB_BMS_E017 : Z := 57367. (* 0x0000E017 *)
(* [src ESP_AKS/include/SystemConfig.h:34-34 CAN_ID_LB_BMS_E018] *)
Definition CAN_ID_LB_BMS_E018 : Z := 57368. (* 0x0000E018 *)
(* [src ESP_AKS/include/SystemConfig.h:35-35 CAN_ID_LB_BMS_E019] *)
Definition CAN_ID_LB_BMS_E019 : Z := 57369. (* 0x0000E019 *)
(* [src ESP_AKS/include/SystemConfig.h:36-36 CAN_ID_LB_BMS_E020] *)
Definition CAN_ID_LB_BMS_E020 : Z := 57376. (* 0x0000E020 *)
(* [src ESP_AKS/include/SystemConfig.h:37-37 CAN_ID_LB_BMS_E032] *)
Definition CAN_ID_LB_BMS_E032 : Z := 57394. (* 0x0000E032 *)
(* [src ESP_AKS/include/SystemConfig.h:38-38 CAN_ID_LB_BMS_E033] *)
Definition CAN_ID_LB_BMS_E033 : Z := 57395. (* 0x0000E033 *)
(* [src ESP_AKS/include/SystemConfig.h:48-48 CAN_ID_LB_CHARGER_CMD] *)
Definition CAN_ID_LB_CHARGER_CMD : Z := 403105268. (* 0x1806E5F4 *)
(* [src ESP_AKS/include/SystemConfig.h:52-52 CAN_ID_LB_STD_0x000] *)
Definition CAN_ID_LB_STD_0x000 : Z := 0. (* 0x000 *)
(* [src ESP_AKS/include/SystemConfig.h:65-65 CAN_RX_QUEUE_LEN] *)
Definition CAN_RX_QUEUE_LEN : Z := 32.
(* [src ESP_AKS/include/SystemConfig.h:68-68 CAN_RX_DRAIN_MAX] *)
Definition CAN_RX_DRAIN_MAX : Z := CAN_RX_QUEUE_LEN.
(* [src ESP_AKS/include/SystemConfig.h:71-71 CAN_RX_STATS_LOG_INTERVAL_MS] *)
Definition CAN_RX_STATS_LOG_INTERVAL_MS : Z := 1000.

(** ** HMI commands *)
(* [src ESP_AKS/include/SystemConfig.h:82-82 HMI_CMD_START] *)
Definition HMI_CMD_START : Z := 1.
(* [src ESP_AKS/include/SystemConfig.h:83-83 HMI_CMD_RESET] *)
Definition HMI_CMD_RESET : Z := 2.
(* [src ESP_AKS/include/SystemConfig.h:84-84 HMI_CMD_EMERGENCY_STOP] *)
Definition HMI_CMD_EMERGENCY_STOP : Z := 3.
(* [src ESP_AKS/include/SystemConfig.h:85-85 HMI_CMD_DRIVE_ENABLE] *)
Definition HMI_CMD_DRIVE_ENABLE : Z := 4.

(** ** LoRa radio, uplink and link monitor *)
(* [src ESP_AKS/include/SystemConfig.h:105-105 LORA_TX_PERIOD_MS] *)
Definition LORA_TX_PERIOD_MS : Z := 500.
(* [src ESP_AKS/include/SystemConfig.h:106-106 LORA_RX_TIMEOUT_MS] *)
Definition LORA_RX_TIMEOUT_MS : Z := 20.
(* [src ESP_AKS/include/SystemConfig.h:112-112 LORA_TEL_FRAME_MAX_BYTES] *)
Definition LORA_TEL_FRAME_MAX_BYTES : Z := 120.
(* [src ESP_AKS/include/SystemConfig.h:94-94 LORA_AUX_PIN] *)
Definition LORA_AUX_PIN : Z := 35.
(* [src ESP_AKS/include/SystemConfig.h:95-95 LORA_M0_PIN] *)
Definition LORA_M0_PIN : Z := 25.
(* [src ESP_AKS/include/SystemConfig.h:96-96 LORA_M1_PIN] *)
Definition LORA_M1_PIN : Z := 26.
(* [src ESP_AKS/include/SystemConfig.h:97-97 LORA_UART_BAUD] *)
Definition LORA_UART_BAUD : Z := 9600.
(* [src ESP_AKS/include/SystemConfig.h:113-113 LORA_MODE_NORMAL_M0_LEVEL] *)
Definition LORA_MODE_NORMAL_M0_LEVEL : Z := 0.
(* [src ESP_AKS/include/SystemConfig.h:114-114 LORA_MODE_NORMAL_M1_LEVEL] *)
Definition LORA_MODE_NORMAL_M1_LEVEL : Z := 0.
(* [src ESP_AKS/include/SystemConfig.h:117-117 LORA_MODE_CONFIG_M0_LEVEL] *)
Definition LORA_MODE_CONFIG_M0_LEVEL : Z := 0.
(* [src ESP_AKS/include/SystemConfig.h:118-118 LORA_MODE_CONFIG_M1_LEVEL] *)
Definition LORA_MODE_CONFIG_M1_LEVEL : Z := 1.
(* [src ESP_AKS/include/SystemConfig.h:119-119 LORA_AUX_READY_LEVEL] *)
Definition LORA_AUX_READY_LEVEL : Z := 1.
(* [src ESP_AKS/include/SystemConfig.h:120-120 LORA_PROTOCOL_VERSION] *)
Definition LORA_PROTOCOL_VERSION : Z := 2.
(* [src ESP_AKS/include/SystemConfig.h:126-126 LORA_AUX_MODE_TIMEOUT_MS] *)
Definition LORA_AUX_MODE_TIMEOUT_MS : Z := 500.
(* [src ESP_AKS/include/SystemConfig.h:127-127 LORA_AUX_CFG_TIMEOUT_MS] *)
Definition LORA_AUX_CFG_TIMEOUT_MS : Z := 2000.
(* [src ESP_AKS/include/SystemConfig.h:128-128 LORA_CFG_READ_TIMEOUT_MS] *)
Definition LORA_CFG_READ_TIMEOUT_MS : Z := 500.
(* [src ESP_AKS/include/SystemConfig.h:179-179 UKS_HEARTBEAT_BYTE] *)
Definition UKS_HEARTBEAT_BYTE : Z := 176. (* 0xB0 *)
(* [src ESP_AKS/include/SystemConfig.h:189-189 LINK_TIMEOUT_MS] *)
Definition LINK_TIMEOUT_MS : Z := 9000.
(* [src ESP_AKS/include/SystemConfig.h:195-195 BOOT_LINK_GRACE_MS] *)
Definition BOOT_LINK_GRACE_MS : Z := 5000.
(* [src ESP_AKS/include/SystemConfig.h:202-202 OFFLINE_SAMPLE_PERIOD_MS] *)
Definition OFFLINE_SAMPLE_PERIOD_MS : Z := 1000.
(* [src ESP_AKS/include/SystemConfig.h:207-207 REPLAY_BURST_PER_TICK] *)
Definition REPLAY_BURST_PER_TICK : Z := 1.
(** The condition of the compile-time assertion on the uplink's load. *)
(* [src ESP_AKS/include/SystemConfig.h:223-226 static_assert] *)
Definition link_budget_ok : bool :=
  (1 + REPLAY_BURST_PER_TICK) * LORA_TEL_FRAME_MAX_BYTES * 1000 / LORA_TX_PERIOD_MS
  <=? LORA_UART_BAUD * 8 / 100.
(* [src ESP_AKS/include/SystemConfig.h:237-237 LORA_UART_MAX_INIT_ATTEMPTS] *)
Definition LORA_UART_MAX_INIT_ATTEMPTS : Z := 5.
(* [src ESP_AKS/include/SystemConfig.h:240-240 LORA_UNKNOWN_BYTE_WARN_INTERVAL_MS] *)
Definition LORA_UNKNOWN_BYTE_WARN_INTERVAL_MS : Z := 10000.

(** ** Pins *)
(* [src ESP_AKS/include/SystemConfig.h:55-55 CAN_TX_PIN] *)
Definition CAN_TX_PIN : Z := 5.
(* [src ESP_AKS/include/SystemConfig.h:56-56 CAN_RX_PIN] *)
Definition CAN_RX_PIN : Z := 4.
(* [src ESP_AKS/include/SystemConfig.h:78-78 HMI_TX_PIN] *)
Definition HMI_TX_PIN : Z := 33.
(* [src ESP_AKS/include/SystemConfig.h:79-79 HMI_RX_PIN] *)
Definition HMI_RX_PIN : Z := 32.
(* [src ESP_AKS/include/SystemConfig.h:92-92 LORA_TX_PIN] *)
Definition LORA_TX_PIN : Z := 16.
(* [src ESP_AKS/include/SystemConfig.h:93-93 LORA_RX_PIN] *)
Definition LORA_RX_PIN : Z := 17.
(* [src ESP_AKS/include/SystemConfig.h:132-132 RELAY_SPI_MOSI] *)
Definition RELAY_SPI_MOSI : Z := 23.
(* [src ESP_AKS/include/SystemConfig.h:133-133 RELAY_SPI_MISO] *)
Definition RELAY_SPI_MISO : Z := 19.
(* [src ESP_AKS/include/SystemConfig.h:134-134 RELAY_SPI_CLK] *)
Definition RELAY_SPI_CLK : Z := 18.
(* [src ESP_AKS/include/SystemConfig.h:135-135 RELAY_SPI_CS] *)
Definition RELAY_SPI_CS : Z := 14.

(** All pins the firmware drives or reads, and the driven ones. *)
Definition output_pins : list Z :=
  [CAN_TX_PIN; HMI_TX_PIN; LORA_TX_PIN; LORA_M0_PIN; LORA_M1_PIN; RELAY_SPI_MOSI; RELAY_SPI_CLK; RELAY_SPI_CS].
Definition input_pins : list Z := [CAN_RX_PIN; HMI_RX_PIN; LORA_RX_PIN; LORA_AUX_PIN; RELAY_SPI_MISO].

(** ** Relays *)
(* [src ESP_AKS/include/SystemConfig.h:164-164 RELAY_TOTAL_CHANNELS] *)
Definition RELAY_TOTAL_CHANNELS : Z := 10.
(** The relay channels by role. *)
(* [src ESP_AKS/include/SystemConfig.h:153-153 RELAY_CH_POS_0] *)
Definition RELAY_CH_POS_0 : Z := 0.
(* [src ESP_AKS/include/SystemConfig.h:154-154 RELAY_CH_POS_1] *)
Definition RELAY_CH_POS_1 : Z := 1.
(* [src ESP_AKS/include/SystemConfig.h:155-155 RELAY_CH_POS_2] *)
Definition RELAY_CH_POS_2 : Z := 2.
(* [src ESP_AKS/include/SystemConfig.h:156-156 RELAY_CH_POS_3] *)
Definition RELAY_CH_POS_3 : Z := 3.
(* [src ESP_AKS/include/SystemConfig.h:157-157 RELAY_CH_POS_4] *)
Definition RELAY_CH_POS_4 : Z := 4.
(* [src ESP_AKS/include/SystemConfig.h:158-158 RELAY_CH_POS_5] *)
Definition RELAY_CH_POS_5 : Z := 5.
(* [src ESP_AKS/include/SystemConfig.h:159-159 RELAY_CH_POS_6] *)
Definition RELAY_CH_POS_6 : Z := 6.
(* [src ESP_AKS/include/SystemConfig.h:160-160 RELAY_CH_POS_7] *)
Definition RELAY_CH_POS_7 : Z := 7.
(* [src ESP_AKS/include/SystemConfig.h:161-161 RELAY_CH_POS_8] *)
Definition RELAY_CH_POS_8 : Z := 8.
(* [src ESP_AKS/include/SystemConfig.h:162-162 RELAY_CH_POS_9] *)
Definition RELAY_CH_POS_9 : Z := 9.
(* [src ESP_AKS/include/SystemConfig.h:174-174 RELAY_VERIFY_PERIOD_MS] *)
Definition RELAY_VERIFY_PERIOD_MS : Z := 100.

(** ** Task priorities *)
(* [src ESP_AKS/include/SystemConfig.h:250-250 TASK_PRIORITY_VCU] *)
Definition TASK_PRIORITY_VCU : Z := 10.
(* [src ESP_AKS/include/SystemConfig.h:251-251 TASK_PRIORITY_CAN] *)
Definition TASK_PRIORITY_CAN : Z := 8.
(* [src ESP_AKS/include/SystemConfig.h:252-252 TASK_PRIORITY_LORA] *)
Definition TASK_PRIORITY_LORA : Z := 5.
(* [src ESP_AKS/include/SystemConfig.h:253-253 TASK_PRIORITY_HMI] *)
Definition TASK_PRIORITY_HMI : Z := 2.

(** ** Motor driver integration and shutdown sequence *)
(* [src ESP_AKS/include/SystemConfig.h:257-257 MOTOR_DRIVER_PRESENT] *)
Definition MOTOR_DRIVER_PRESENT : Z := 0.
(* [src ESP_AKS/include/SystemConfig.h:266-266 MOTOR_ERROR_DEBOUNCE_FRAMES] *)
Definition MOTOR_ERROR_DEBOUNCE_FRAMES : Z := 3.
(* [src ESP_AKS/include/SystemConfig.h:280-280 VCU_CONTACTOR_OPEN_DELAY_MS] *)
Definition VCU_CONTACTOR_OPEN_DELAY_MS : Z := 20.

(** ** Battery thresholds *)
(* [src ESP_AKS/include/SystemConfig.h:306-306 BMS_WARN_MIN_PACK_VOLTAGE_DECI_V] *)
Definition BMS_WARN_MIN_PACK_VOLTAGE_DECI_V : Z := 720.
(* [src ESP_AKS/include/SystemConfig.h:307-307 BMS_CRITICAL_MIN_PACK_VOLTAGE_DECI_V] *)
Definition BMS_CRITICAL_MIN_PACK_VOLTAGE_DECI_V : Z := 600.
(* [src ESP_AKS/include/SystemConfig.h:308-308 BMS_WARN_MAX_PACK_VOLTAGE_DECI_V] *)
Definition BMS_WARN_MAX_PACK_VOLTAGE_DECI_V : Z := 852.
(* [src ESP_AKS/include/SystemConfig.h:309-309 BMS_CRITICAL_MAX_PACK_VOLTAGE_DECI_V] *)
Definition BMS_CRITICAL_MAX_PACK_VOLTAGE_DECI_V : Z := 876.
(* [src ESP_AKS/include/SystemConfig.h:319-319 BMS_WARN_MAX_TEMP_C] *)
Definition BMS_WARN_MAX_TEMP_C : Z := 55.
(* [src ESP_AKS/include/SystemConfig.h:320-320 BMS_CRITICAL_MAX_TEMP_C] *)
Definition BMS_CRITICAL_MAX_TEMP_C : Z := 70.
(* [src ESP_AKS/include/SystemConfig.h:338-338 BMS_WARN_MAX_CHARGE_CURRENT_CENTI_A] *)
Definition BMS_WARN_MAX_CHARGE_CURRENT_CENTI_A : Z := 1100.
(* [src ESP_AKS/include/SystemConfig.h:339-339 BMS_CRITICAL_MAX_CHARGE_CURRENT_CENTI_A] *)
Definition BMS_CRITICAL_MAX_CHARGE_CURRENT_CENTI_A : Z := 1300.
(* [src ESP_AKS/include/SystemConfig.h:340-340 BMS_WARN_MAX_DISCHARGE_CURRENT_CENTI_A] *)
Definition BMS_WARN_MAX_DISCHARGE_CURRENT_CENTI_A : Z := 900.
(* [src ESP_AKS/include/SystemConfig.h:341-341 BMS_CRITICAL_MAX_DISCHARGE_CURRENT_CENTI_A] *)
Definition BMS_CRITICAL_MAX_DISCHARGE_CURRENT_CENTI_A : Z := 1500.
(* [src ESP_AKS/include/SystemConfig.h:346-346 BMS_CRITICAL_MIN_CELL_VOLTAGE_MV] *)
Definition BMS_CRITICAL_MIN_CELL_VOLTAGE_MV : Z := 2500.
(* [src ESP_AKS/include/SystemConfig.h:347-347 BMS_CRITICAL_MAX_CELL_VOLTAGE_MV] *)
Definition BMS_CRITICAL_MAX_CELL_VOLTAGE_MV : Z := 3650.

(** ** Freshness timeouts *)
(* [src ESP_AKS/include/SystemConfig.h:354-354 CAN_MOTOR_STATUS_TIMEOUT_MS] *)
Definition CAN_MOTOR_STATUS_TIMEOUT_MS : Z := 1500.
(* [src ESP_AKS/include/SystemConfig.h:355-355 CAN_BMS_STATUS_TIMEOUT_MS] *)
Definition CAN_BMS_STATUS_TIMEOUT_MS : Z := 500.
(* [src ESP_AKS/include/SystemConfig.h:356-356 CAN_CELL_VOLTAGE_TIMEOUT_MS] *)
Definition CAN_CELL_VOLTAGE_TIMEOUT_MS : Z := 500.
(* [src ESP_AKS/include/SystemConfig.h:360-360 CAN_CHARGER_TIMEOUT_MS] *)
Definition CAN_CHARGER_TIMEOUT_MS : Z := 2000.
(* [src ESP_AKS/include/SystemConfig.h:365-365 TEL_SANITIZE_WARN_THROTTLE_MS] *)
Definition TEL_SANITIZE_WARN_THROTTLE_MS : Z := 10000.

(** ** Checks *)

(** No pin has two users, and no output is on one of the chip's input-only pins (34 to 39). *)
Lemma pins_distinct : NoDup (output_pins ++ input_pins) ∧ Forall (λ p, p < 34) output_pins.
Proof. split; [by apply (bool_decide_unpack _); vm_compute|repeat constructor]. Qed.

(** The channels are numbered without a gap. *)
Lemma channels_complete :
  [RELAY_CH_POS_0; RELAY_CH_POS_1; RELAY_CH_POS_2; RELAY_CH_POS_3; RELAY_CH_POS_4; RELAY_CH_POS_5;
   RELAY_CH_POS_6; RELAY_CH_POS_7; RELAY_CH_POS_8; RELAY_CH_POS_9]
  = map Z.of_nat (seq 0 (Z.to_nat RELAY_TOTAL_CHANNELS)).
Proof. done. Qed.

(** The compile-time assertion holds. *)
Lemma link_budget_holds : link_budget_ok = true.
Proof. done. Qed.
