(* ===== verification/VehicleData.v ===== *)
(** [lib/VehicleData]: the telemetry record that the CAN parser writes, that the
    task queues carry, and that the uplink sends. *)
From S2P Require Import Prelude.

(* [src ESP_AKS/lib/VehicleData/VehicleData.h:16-51 TelemetryData] *)
Record TelemetryData := {
  TEL_motorRpm : Z;                     (* int16_t *)
  TEL_motorVoltageDeciV : Z;            (* uint16_t *)
  TEL_motorErrorFlags : Z;              (* uint8_t *)
  TEL_motorDataValid : bool;
  TEL_motorTimeoutActive : bool;
  TEL_bmsCellVoltages : list Z;         (* uint16_t[24] *)
  TEL_bmsCellVoltageMaxDeciMv : Z;      (* uint16_t *)
  TEL_bmsCellVoltageMinDeciMv : Z;      (* uint16_t *)
  TEL_bmsCellVoltageAvgDeciMv : Z;      (* uint16_t *)
  TEL_bmsSystemState : Z;               (* uint8_t *)
  TEL_cellVoltageDataValid : bool;
  TEL_cellVoltageTimeoutActive : bool;
  TEL_bmsPackVoltageDeciV : Z;          (* uint16_t *)
  TEL_bmsCurrentCentiA : Z;             (* int32_t *)
  TEL_bmsSocHundredths : Z;             (* uint16_t *)
  TEL_bmsSoc2Hundredths : Z;            (* uint16_t *)
  TEL_bmsTempHighestC : Z;              (* int8_t *)
  TEL_bmsTempLowestC : Z;               (* int8_t *)
  TEL_bmsDataValid : bool;
  TEL_bmsTimeoutActive : bool;
  TEL_timestampMs : Z;                  (* uint32_t *)
  TEL_speedKmhX10 : Z;                  (* uint16_t *)
}.

(** [TelemetryData{}]: every member zero. *)
(* [src ESP_AKS/lib/VehicleData/VehicleData.h:16-51 TelemetryData] *)
Definition TelemetryData_zero : TelemetryData := {|
  TEL_motorRpm := 0; TEL_motorVoltageDeciV := 0; TEL_motorErrorFlags := 0;
  TEL_motorDataValid := false; TEL_motorTimeoutActive := false;
  TEL_bmsCellVoltages := replicate 24 0;
  TEL_bmsCellVoltageMaxDeciMv := 0; TEL_bmsCellVoltageMinDeciMv := 0;
  TEL_bmsCellVoltageAvgDeciMv := 0; TEL_bmsSystemState := 0;
  TEL_cellVoltageDataValid := false; TEL_cellVoltageTimeoutActive := false;
  TEL_bmsPackVoltageDeciV := 0; TEL_bmsCurrentCentiA := 0;
  TEL_bmsSocHundredths := 0; TEL_bmsSoc2Hundredths := 0;
  TEL_bmsTempHighestC := 0; TEL_bmsTempLowestC := 0;
  TEL_bmsDataValid := false; TEL_bmsTimeoutActive := false;
  TEL_timestampMs := 0; TEL_speedKmhX10 := 0;
|}.

(** Well-typedness: every member is in the range of its C type. *)
Record telemetry_wf (d : TelemetryData) : Prop := {
  wf_rpm : is_i16 (TEL_motorRpm d);
  wf_mvolt : is_u16 (TEL_motorVoltageDeciV d);
  wf_merr : is_u8 (TEL_motorErrorFlags d);
  wf_cells_len : length (TEL_bmsCellVoltages d) = 24%nat;
  wf_cells : Forall is_u16 (TEL_bmsCellVoltages d);
  wf_cmax : is_u16 (TEL_bmsCellVoltageMaxDeciMv d);
  wf_cmin : is_u16 (TEL_bmsCellVoltageMinDeciMv d);
  wf_cavg : is_u16 (TEL_bmsCellVoltageAvgDeciMv d);
  wf_sys : is_u8 (TEL_bmsSystemState d);
  wf_packv : is_u16 (TEL_bmsPackVoltageDeciV d);
  wf_current : is_i32 (TEL_bmsCurrentCentiA d);
  wf_soc : is_u16 (TEL_bmsSocHundredths d);
  wf_soc2 : is_u16 (TEL_bmsSoc2Hundredths d);
  wf_thigh : is_i8 (TEL_bmsTempHighestC d);
  wf_tlow : is_i8 (TEL_bmsTempLowestC d);
  wf_ts : is_u32 (TEL_timestampMs d);
  wf_speed : is_u16 (TEL_speedKmhX10 d);
}.

#[export] Instance TelemetryData_eq_dec : EqDecision TelemetryData.
Proof. solve_decision. Defined.

#[export] Instance TelemetryData_inhabited : Inhabited TelemetryData :=
  populate TelemetryData_zero.

Lemma telemetry_zero_wf : telemetry_wf TelemetryData_zero.
Proof.
  constructor; cbn; try (widths; lia).
  repeat constructor; widths; lia.
Qed.
#[export] Hint Resolve telemetry_zero_wf : aks.
