(* ===== verification/FreeRtos.v ===== *)
(** The FreeRTOS services the firmware calls, as interfaces.

    The kernel is not part of the repository: a queue is an abstract type with
    the operations the code uses ([FreeRtosQueue]) and the documented behaviour
    the theorems rely on ([FreeRtosQueueLaws]: a bounded FIFO that refuses an
    item when full, because the code always sends with a zero timeout).
    [ListQueue] is a concrete queue that has this behaviour; the witnesses run
    on it. *)
From S2P Require Import Prelude.

Class FreeRtosQueue (Q A : Type) := {
  xQueueCreate : nat → option Q;             (* NULL when out of memory *)
  xQueueSend : A → Q → bool * Q;             (* pdTRUE? ; zero timeout *)
  xQueueReceive : Q → option (A * Q);        (* None = pdFALSE; zero timeout *)
  xQueuePeek : Q → option A;
  xQueueOverwrite : A → Q → Q;
}.

Class FreeRtosQueueLaws (Q A : Type) `{FreeRtosQueue Q A} := {
  q_items : Q → list A;
  q_capacity : Q → nat;
  q_create n q : xQueueCreate n = Some q → q_items q = [] ∧ q_capacity q = n;
  q_send_ok a q q' b : xQueueSend a q = (b, q') →
    q_capacity q' = q_capacity q ∧
    ((length (q_items q) < q_capacity q)%nat → b = true ∧ q_items q' = q_items q ++ [a]) ∧
    ((q_capacity q <= length (q_items q))%nat → b = false ∧ q_items q' = q_items q);
  q_receive_nil q : q_items q = [] → xQueueReceive q = None;
  q_receive_cons q a l : q_items q = a :: l →
    ∃ q', xQueueReceive q = Some (a, q') ∧ q_items q' = l ∧ q_capacity q' = q_capacity q;
  q_peek q : xQueuePeek q = head (q_items q);
  q_overwrite a q : q_capacity q = 1%nat →
    q_items (xQueueOverwrite a q) = [a] ∧ q_capacity (xQueueOverwrite a q) = 1%nat;
}.

(** A list-backed queue with that behaviour. *)
Record ListQueue (A : Type) := { lq_items : list A; lq_capacity : nat }.
Arguments lq_items {A}. Arguments lq_capacity {A}.
Arguments Build_ListQueue {A}.

#[export] Instance ListQueue_ops A : FreeRtosQueue (ListQueue A) A := {
  xQueueCreate n := Some (Build_ListQueue [] n);
  xQueueSend a q :=
    if (length (lq_items q) <? lq_capacity q)%nat
    then (true, Build_ListQueue (lq_items q ++ [a]) (lq_capacity q)) else (false, q);
  xQueueReceive q :=
    match lq_items q with [] => None | a :: l => Some (a, Build_ListQueue l (lq_capacity q)) end;
  xQueuePeek q := head (lq_items q);
  xQueueOverwrite a q := Build_ListQueue [a] (lq_capacity q);
}.

#[export] Instance ListQueue_laws A : FreeRtosQueueLaws (ListQueue A) A.
Proof.
  refine {| q_items := lq_items; q_capacity := lq_capacity |}.
  - intros n q Hq. by simplify_eq/=.
  - intros a q q' b. unfold xQueueSend, ListQueue_ops.
    destruct (Nat.ltb_spec (length (lq_items q)) (lq_capacity q)) as [Hlt|Hge];
      intros E; inversion E; subst; cbn; repeat split; try lia.
  - intros q Hq. cbn. by rewrite Hq.
  - intros q a l Hq. cbn. rewrite Hq. eauto.
  - done.
  - intros a q Hc. done.
Defined.
