(* ===== verification/BmsAlgo.v ===== *)
(** [lib/BmsModel] and [lib/BmsAlgo]: the 24-cell pack snapshot and [computePack],
    which turns it into pack voltage, extreme cells, balancing flags, state of
    charge and a warning level. *)
From S2P Require Import Prelude.

(** ** Constants *)
(* [src ESP_AKS/lib/BmsModel/BmsModel.h:17-17 BMS_CELL_COUNT] *)
Definition BMS_CELL_COUNT : nat := 24.
(* [src ESP_AKS/lib/BmsAlgo/BmsAlgo.h:25-25 BMS_BALANCE_THRESHOLD_MV] *)
Definition BMS_BALANCE_THRESHOLD_MV : Z := 50.
(* [src ESP_AKS/lib/BmsAlgo/BmsAlgo.h:30-30 BMS_BALANCE_TOP_MARGIN_MV] *)
Definition BMS_BALANCE_TOP_MARGIN_MV : Z := 5.
(* [src ESP_AKS/lib/BmsAlgo/BmsAlgo.h:51-51 BMS_SOC_EMPTY_MV] *)
Definition BMS_SOC_EMPTY_MV : Z := 2500.
(* [src ESP_AKS/lib/BmsAlgo/BmsAlgo.h:52-52 BMS_SOC_FULL_MV] *)
Definition BMS_SOC_FULL_MV : Z := 3650.
(* [src ESP_AKS/lib/BmsAlgo/BmsAlgo.h:68-68 BMS_CELL_UNDERVOLT_CRIT_MV] *)
Definition BMS_CELL_UNDERVOLT_CRIT_MV : Z := 2500.
(* [src ESP_AKS/lib/BmsAlgo/BmsAlgo.h:69-69 BMS_CELL_OVERVOLT_CRIT_MV] *)
Definition BMS_CELL_OVERVOLT_CRIT_MV : Z := 3650.
(* [src ESP_AKS/lib/BmsAlgo/BmsAlgo.h:75-75 BMS_TEMP_OVERTEMP_CRIT_C] *)
Definition BMS_TEMP_OVERTEMP_CRIT_C : Z := 70.
(* [src ESP_AKS/lib/BmsAlgo/BmsAlgo.h:82-82 BMS_CELL_UNDERVOLT_WARN_MV] *)
Definition BMS_CELL_UNDERVOLT_WARN_MV : Z := 2800.
(* [src ESP_AKS/lib/BmsAlgo/BmsAlgo.h:83-83 BMS_CELL_OVERVOLT_WARN_MV] *)
Definition BMS_CELL_OVERVOLT_WARN_MV : Z := 3550.
(* [src ESP_AKS/lib/BmsAlgo/BmsAlgo.h:84-84 BMS_TEMP_OVERTEMP_WARN_C] *)
Definition BMS_TEMP_OVERTEMP_WARN_C : Z := 55.
(* [src ESP_AKS/lib/BmsAlgo/BmsComputed.h:18-18 BMS_WARN_OK] *)
Definition BMS_WARN_OK : Z := 0.
(* [src ESP_AKS/lib/BmsAlgo/BmsComputed.h:19-19 BMS_WARN_WARNING] *)
Definition BMS_WARN_WARNING : Z := 1.
(* [src ESP_AKS/lib/BmsAlgo/BmsComputed.h:20-20 BMS_WARN_CRITICAL] *)
Definition BMS_WARN_CRITICAL : Z := 2.
(* [src ESP_AKS/lib/BmsAlgo/BmsComputed.h:25-25 BMS_WARN_NO_DATA] *)
Definition BMS_WARN_NO_DATA : Z := 3.

(** ** Data *)
(* [src ESP_AKS/lib/BmsModel/BmsModel.h:22-33 BmsPackData] *)
Record BmsPackData := {
  cellVoltageMv : list Z;   (* uint16_t[24] *)
  cellTempC : list Z;       (* int16_t[24] *)
  packCurrentMa : Z;        (* int32_t *)
  isValid : bool;
  cellDataValid : bool;
}.

(* [src ESP_AKS/lib/BmsAlgo/BmsComputed.h:30-51 BmsComputed] *)
Record BmsComputed := {
  packVoltageMv : Z;        (* uint32_t *)
  cellMaxMv : Z;            (* uint16_t *)
  cellMinMv : Z;            (* uint16_t *)
  cellMaxIndex : Z;         (* uint8_t *)
  cellMinIndex : Z;         (* uint8_t *)
  cellDeltaMv : Z;          (* uint16_t *)
  socPercent : Z;           (* uint8_t *)
  balanceFlag : list bool;  (* bool[24] *)
  warningLevel : Z;         (* uint8_t *)
  tempMaxC : Z;             (* int16_t *)
  tempMinC : Z;             (* int16_t *)
}.

(** [BmsComputed{}] *)
(* [src ESP_AKS/lib/BmsAlgo/BmsComputed.h:30-51 BmsComputed] *)
Definition BmsComputed_zero : BmsComputed := {|
  packVoltageMv := 0; cellMaxMv := 0; cellMinMv := 0; cellMaxIndex := 0;
  cellMinIndex := 0; cellDeltaMv := 0; socPercent := 0;
  balanceFlag := replicate BMS_CELL_COUNT false; warningLevel := 0;
  tempMaxC := 0; tempMinC := 0 |}.

(** ** computePack *)
(* [src ESP_AKS/lib/BmsAlgo/BmsAlgo.cpp:10-16 makeSafeInvalid] *)
Definition makeSafeInvalid : BmsComputed :=
  {| BmsComputed_zero with warningLevel := BMS_WARN_CRITICAL; socPercent := 0 |}.

(* [src ESP_AKS/lib/BmsAlgo/BmsAlgo.cpp:25-32 makeNoCellData] *)
Definition makeNoCellData : BmsComputed :=
  {| BmsComputed_zero with warningLevel := BMS_WARN_NO_DATA; socPercent := 0 |}.

(* [src ESP_AKS/lib/BmsAlgo/BmsAlgo.cpp:35-42 socFromAvgMv] *)
Definition socFromAvgMv (avgMv : Z) : Z :=
  if avgMv <=? BMS_SOC_EMPTY_MV then 0
  else if BMS_SOC_FULL_MV <=? avgMv then 100
  else
    let span := BMS_SOC_FULL_MV - BMS_SOC_EMPTY_MV in
    let above := u32 (avgMv - BMS_SOC_EMPTY_MV) in
    u8 (u32 (above * 100) / span).

(** The locals of the single pass over the cells. *)
(* [src ESP_AKS/lib/BmsAlgo/BmsAlgo.cpp:61-67 computePack] *)
Record scan_acc := {
  sumMv : Z; maxMv : Z; minMv : Z; maxIdx : Z; minIdx : Z; tMax : Z; tMin : Z }.

(* [src ESP_AKS/lib/BmsAlgo/BmsAlgo.cpp:69-78 computePack] *)
Definition scan_cell (inp : BmsPackData) (a : scan_acc) (i : nat) : scan_acc :=
  let v := nth i (cellVoltageMv inp) 0 in
  let t := nth i (cellTempC inp) 0 in
  {| sumMv := u32 (sumMv a + v);
     maxMv := if maxMv a <? v then v else maxMv a;
     maxIdx := if maxMv a <? v then Z.of_nat i else maxIdx a;
     minMv := if v <? minMv a then v else minMv a;
     minIdx := if v <? minMv a then Z.of_nat i else minIdx a;
     tMax := if tMax a <? t then t else tMax a;
     tMin := if t <? tMin a then t else tMin a |}.

(* [src ESP_AKS/lib/BmsAlgo/BmsAlgo.cpp:61-78 computePack] *)
Definition scan_cells (inp : BmsPackData) (n : nat) : scan_acc :=
  let v0 := nth 0 (cellVoltageMv inp) 0 in
  let t0 := nth 0 (cellTempC inp) 0 in
  fold_left (scan_cell inp) (seq 0 n)
    {| sumMv := 0; maxMv := v0; minMv := v0; maxIdx := 0; minIdx := 0;
       tMax := t0; tMin := t0 |}.

(* [src ESP_AKS/lib/BmsAlgo/BmsAlgo.cpp:96-111 computePack] *)
Definition balance_flags (inp : BmsPackData) (delta maxv : Z) : list bool :=
  if BMS_BALANCE_THRESHOLD_MV <? delta then
    let lowBound :=
      if BMS_BALANCE_TOP_MARGIN_MV <? maxv then u16 (maxv - BMS_BALANCE_TOP_MARGIN_MV) else 0 in
    map (λ i, lowBound <=? nth i (cellVoltageMv inp) 0) (seq 0 BMS_CELL_COUNT)
  else replicate BMS_CELL_COUNT false.

(* [src ESP_AKS/lib/BmsAlgo/BmsAlgo.cpp:113-130 computePack] *)
Definition warning_level (minv maxv tmax : Z) : Z :=
  if (minv <? BMS_CELL_UNDERVOLT_CRIT_MV) || (BMS_CELL_OVERVOLT_CRIT_MV <? maxv)
     || (BMS_TEMP_OVERTEMP_CRIT_C <=? tmax)
  then BMS_WARN_CRITICAL
  else if (minv <? BMS_CELL_UNDERVOLT_WARN_MV) || (BMS_CELL_OVERVOLT_WARN_MV <? maxv)
     || (BMS_TEMP_OVERTEMP_WARN_C <=? tmax)
  then BMS_WARN_WARNING
  else BMS_WARN_OK.

(* [src ESP_AKS/lib/BmsAlgo/BmsAlgo.cpp:46-133 computePack] *)
Definition computePack (inp : BmsPackData) : BmsComputed :=
  if negb (isValid inp) then makeSafeInvalid
  else if negb (cellDataValid inp) then makeNoCellData
  else
    let a := scan_cells inp BMS_CELL_COUNT in
    let delta := u16 (maxMv a - minMv a) in
    let avgMv := sumMv a / Z.of_nat BMS_CELL_COUNT in
    {| packVoltageMv := sumMv a;
       cellMaxMv := maxMv a;
       cellMinMv := minMv a;
       cellMaxIndex := u8 (maxIdx a);
       cellMinIndex := u8 (minIdx a);
       cellDeltaMv := delta;
       socPercent := socFromAvgMv avgMv;
       balanceFlag := balance_flags inp delta (maxMv a);
       warningLevel := warning_level (minMv a) (maxMv a) (tMax a);
       tempMaxC := tMax a;
       tempMinC := tMin a |}.

(** ** Well-typed snapshots *)
Record pack_wf (inp : BmsPackData) : Prop := {
  pw_cells : length (cellVoltageMv inp) = BMS_CELL_COUNT;
  pw_temps : length (cellTempC inp) = BMS_CELL_COUNT;
  pw_u16 : ∀ i, (i < BMS_CELL_COUNT)%nat → is_u16 (nth i (cellVoltageMv inp) 0);
  pw_i16 : ∀ i, (i < BMS_CELL_COUNT)%nat → is_i16 (nth i (cellTempC inp) 0);
}.

(** Reference sum of the first [n] cells. *)
Fixpoint cell_sum (inp : BmsPackData) (n : nat) : Z :=
  match n with
  | O => 0
  | S n => cell_sum inp n + nth n (cellVoltageMv inp) 0
  end.

(** ** The reference: the report of a pack, field by field on whole lists *)

Definition total (l : list Z) : Z := foldr Z.add 0 l.
Definition maximum (l : list Z) : Z := foldr Z.max (hd 0 l) l.
Definition minimum (l : list Z) : Z := foldr Z.min (hd 0 l) l.
Fixpoint index_of (x : Z) (l : list Z) : Z :=
  match l with
  | [] => 0
  | y :: l => if y =? x then 0 else 1 + index_of x l
  end.
(** Some cell outside [lo..hi] or some sensor at [t] or more. *)
Definition outside (lo hi t : Z) (cells temps : list Z) : bool :=
  existsb (λ v, (v <? lo) || (hi <? v)) cells || existsb (λ x, t <=? x) temps.

Definition pack_report (cells temps : list Z) : BmsComputed :=
  let spread := maximum cells - minimum cells in
  {| packVoltageMv := total cells;
     cellMaxMv := maximum cells; cellMinMv := minimum cells;
     cellMaxIndex := index_of (maximum cells) cells; cellMinIndex := index_of (minimum cells) cells;
     cellDeltaMv := spread;
     socPercent := Z.max 0 (Z.min 100 ((total cells / 24 - 2500) * 100 / 1150));
     balanceFlag := map (λ v, (50 <? spread) && (maximum cells - 5 <=? v)) cells;
     warningLevel := if outside 2500 3650 70 cells temps then BMS_WARN_CRITICAL
                     else if outside 2800 3550 55 cells temps then BMS_WARN_WARNING
                     else BMS_WARN_OK;
     tempMaxC := maximum temps; tempMinC := minimum temps |}.

(** What the pass has established after the cells below [n]. *)
Record scan_inv (inp : BmsPackData) (n : nat) (a : scan_acc) : Prop := {
  si_sum : sumMv a = cell_sum inp n;
  si_sum_bound : 0 <= sumMv a <= 65535 * Z.of_nat n;
  si_max_at : ∃ k, (k < Nat.max n 1)%nat ∧ maxIdx a = Z.of_nat k ∧
    nth k (cellVoltageMv inp) 0 = maxMv a ∧
    ∀ j, (j < k)%nat → nth j (cellVoltageMv inp) 0 < maxMv a;
  si_min_at : ∃ k, (k < Nat.max n 1)%nat ∧ minIdx a = Z.of_nat k ∧
    nth k (cellVoltageMv inp) 0 = minMv a ∧
    ∀ j, (j < k)%nat → minMv a < nth j (cellVoltageMv inp) 0;
  si_max : ∀ j, (j < n)%nat → nth j (cellVoltageMv inp) 0 <= maxMv a;
  si_min : ∀ j, (j < n)%nat → minMv a <= nth j (cellVoltageMv inp) 0;
  si_tmax_at : ∃ k, (k < Nat.max n 1)%nat ∧ nth k (cellTempC inp) 0 = tMax a;
  si_tmin_at : ∃ k, (k < Nat.max n 1)%nat ∧ nth k (cellTempC inp) 0 = tMin a;
  si_tmax : ∀ j, (j < n)%nat → nth j (cellTempC inp) 0 <= tMax a;
  si_tmin : ∀ j, (j < n)%nat → tMin a <= nth j (cellTempC inp) 0;
}.

(** A snapshot for the witnesses. *)
Definition demo_pack (cells : list Z) (t : Z) : BmsPackData :=
  {| cellVoltageMv := cells; cellTempC := replicate 24 t; packCurrentMa := 0;
     isValid := true; cellDataValid := true |}.
Definition demo_cells : list Z := 3300 :: 3371 :: replicate 21 3318 ++ [3368].

(** ** The pass over the cells *)
Lemma scan_cells_S inp n : scan_cells inp (S n) = scan_cell inp (scan_cells inp n) n.
Proof. unfold scan_cells. by rewrite seq_S, fold_left_app. Qed.

Lemma scan_cells_inv inp n :
  pack_wf inp → (n <= BMS_CELL_COUNT)%nat → scan_inv inp n (scan_cells inp n).
Proof.
  intros Hwf. induction n as [|n IH]; intros Hn.
  - constructor; cbn; try lia; exists 0%nat; split_and!; try done; lia.
  - rewrite scan_cells_S. specialize (IH ltac:(lia)).
    pose proof (pw_u16 _ Hwf n ltac:(lia)) as Hv. unfold BMS_CELL_COUNT, is_u16 in *.
    destruct IH as [Hs Hb (k1&?&?&?&Hf1) (k2&?&?&?&Hf2) Hmx Hmn (k3&?&?) (k4&?&?) Htx Htn].
    set (a := scan_cells inp n) in *. unfold scan_cell. constructor; cbn [sumMv maxMv minMv maxIdx minIdx tMax tMin cell_sum].
    + rewrite u32_id; [lia|]. unfold is_u32. lia.
    + rewrite u32_id; unfold is_u32; lia.
    + destruct (Z.ltb_spec (maxMv a) (nth n (cellVoltageMv inp) 0)).
      * exists n. split_and!; auto; [lia|]. intros j Hj. specialize (Hmx j Hj). lia.
      * exists k1. split_and!; auto; lia.
    + destruct (Z.ltb_spec (nth n (cellVoltageMv inp) 0) (minMv a)).
      * exists n. split_and!; auto; [lia|]. intros j Hj. specialize (Hmn j Hj). lia.
      * exists k2. split_and!; auto; lia.
    + intros j Hj. destruct (decide (j = n)) as [->|]; [|specialize (Hmx j ltac:(lia))];
        case_match; lia.
    + intros j Hj. destruct (decide (j = n)) as [->|]; [|specialize (Hmn j ltac:(lia))];
        case_match; lia.
    + destruct (Z.ltb_spec (tMax a) (nth n (cellTempC inp) 0)); [exists n|exists k3]; split; auto; lia.
    + destruct (Z.ltb_spec (nth n (cellTempC inp) 0) (tMin a)); [exists n|exists k4]; split; auto; lia.
    + intros j Hj. destruct (decide (j = n)) as [->|]; [|specialize (Htx j ltac:(lia))];
        case_match; lia.
    + intros j Hj. destruct (decide (j = n)) as [->|]; [|specialize (Htn j ltac:(lia))];
        case_match; lia.
Qed.

(** The valid-data branch of [computePack]. *)
Lemma computePack_valid inp :
  isValid inp = true → cellDataValid inp = true →
  computePack inp =
    let a := scan_cells inp BMS_CELL_COUNT in
    {| packVoltageMv := sumMv a; cellMaxMv := maxMv a; cellMinMv := minMv a;
       cellMaxIndex := u8 (maxIdx a); cellMinIndex := u8 (minIdx a);
       cellDeltaMv := u16 (maxMv a - minMv a);
       socPercent := socFromAvgMv (sumMv a / Z.of_nat BMS_CELL_COUNT);
       balanceFlag := balance_flags inp (u16 (maxMv a - minMv a)) (maxMv a);
       warningLevel := warning_level (minMv a) (maxMv a) (tMax a);
       tempMaxC := tMax a; tempMinC := tMin a |}.
Proof. intros H1 H2. unfold computePack. by rewrite H1, H2. Qed.

(** Facts about a valid snapshot, from the invariant at [n = 24]. *)
Lemma scan_final inp : pack_wf inp → scan_inv inp BMS_CELL_COUNT (scan_cells inp BMS_CELL_COUNT).
Proof. intros Hwf. apply scan_cells_inv; [done|lia]. Qed.

Lemma scan_range inp : pack_wf inp →
  let a := scan_cells inp BMS_CELL_COUNT in
  is_u16 (maxMv a) ∧ is_u16 (minMv a) ∧ minMv a <= maxMv a.
Proof.
  intros Hwf a. destruct (scan_final _ Hwf) as [_ _ (k1&Hk1&_&E1&_) (k2&Hk2&_&E2&_) Hmx _ _ _ _ _].
  fold a in E1, E2, Hmx. unfold BMS_CELL_COUNT in *. rewrite <- E1 at 1. rewrite <- E2 at 1.
  split_and!; [apply (pw_u16 _ Hwf); unfold BMS_CELL_COUNT; lia..|].
  rewrite <- E2. apply Hmx. lia.
Qed.

Lemma scan_delta inp : pack_wf inp →
  let a := scan_cells inp BMS_CELL_COUNT in u16 (maxMv a - minMv a) = maxMv a - minMv a.
Proof.
  intros Hwf a. destruct (scan_range _ Hwf) as (?&?&?). apply u16_id.
  unfold is_u16 in *. fold a in H, H0, H1. lia.
Qed.

Lemma socFromAvgMv_spec avg : is_u32 avg →
  socFromAvgMv avg = Z.max 0 (Z.min 100 ((avg - 2500) * 100 / 1150)).
Proof.
  unfold socFromAvgMv, BMS_SOC_EMPTY_MV, BMS_SOC_FULL_MV, is_u32. intros H.
  destruct (Z.leb_spec avg 2500); [Z.to_euclidean_division_equations; lia|].
  destruct (Z.leb_spec 3650 avg); [Z.to_euclidean_division_equations; lia|].
  rewrite (u32_id (avg - 2500)) by (unfold is_u32; lia).
  rewrite (u32_id ((avg - 2500) * 100)) by (unfold is_u32; lia).
  change (3650 - 2500) with 1150.
  rewrite u8_id by (unfold is_u8; Z.to_euclidean_division_equations; lia).
  Z.to_euclidean_division_equations; lia.
Qed.

(** On a valid snapshot [computePack] reports the exact sum of the 24 cells
    (no 32-bit wrap), the highest and the lowest cell with the index of their
    first occurrence, and their exact difference. *)
Theorem computePack_extremes inp :
  pack_wf inp → isValid inp = true → cellDataValid inp = true →
  let c := computePack inp in
  packVoltageMv c = cell_sum inp BMS_CELL_COUNT ∧
  (∃ k, (k < BMS_CELL_COUNT)%nat ∧ cellMaxIndex c = Z.of_nat k ∧
     nth k (cellVoltageMv inp) 0 = cellMaxMv c ∧
     (∀ j, (j < k)%nat → nth j (cellVoltageMv inp) 0 < cellMaxMv c) ∧
     (∀ j, (j < BMS_CELL_COUNT)%nat → nth j (cellVoltageMv inp) 0 <= cellMaxMv c)) ∧
  (∃ k, (k < BMS_CELL_COUNT)%nat ∧ cellMinIndex c = Z.of_nat k ∧
     nth k (cellVoltageMv inp) 0 = cellMinMv c ∧
     (∀ j, (j < k)%nat → cellMinMv c < nth j (cellVoltageMv inp) 0) ∧
     (∀ j, (j < BMS_CELL_COUNT)%nat → cellMinMv c <= nth j (cellVoltageMv inp) 0)) ∧
  cellDeltaMv c = cellMaxMv c - cellMinMv c.
Proof.
  intros Hwf H1 H2. rewrite computePack_valid by done. cbn [packVoltageMv cellMaxIndex cellMaxMv
    cellMinIndex cellMinMv cellDeltaMv].
  destruct (scan_final _ Hwf) as [Hs _ (k1&Hk1&E1&?&?) (k2&Hk2&E2&?&?) ? ? _ _ _ _].
  unfold BMS_CELL_COUNT in *. split_and!; [done| | |by apply scan_delta].
  - exists k1. rewrite E1, u8_id by (unfold is_u8; lia). split_and!; auto; lia.
  - exists k2. rewrite E2, u8_id by (unfold is_u8; lia). split_and!; auto; lia.
Qed.

(** Balancing: a cell is flagged for discharge exactly when the spread exceeds
    50 mV and the cell is within 5 mV of the highest one; a cell at the minimum
    voltage is never discharged. *)
Theorem computePack_balance inp :
  pack_wf inp → isValid inp = true → cellDataValid inp = true →
  let c := computePack inp in
  length (balanceFlag c) = BMS_CELL_COUNT ∧
  (∀ i, (i < BMS_CELL_COUNT)%nat →
     nth i (balanceFlag c) false = true ↔
     50 < cellMaxMv c - cellMinMv c ∧ cellMaxMv c - 5 <= nth i (cellVoltageMv inp) 0) ∧
  (∀ i, (i < BMS_CELL_COUNT)%nat → nth i (cellVoltageMv inp) 0 = cellMinMv c →
     nth i (balanceFlag c) false = false).
Proof.
  intros Hwf H1 H2. rewrite computePack_valid by done. cbn [balanceFlag cellMaxMv cellMinMv].
  destruct (scan_range _ Hwf) as (Hmx&Hmn&Hle). rewrite scan_delta by done.
  set (a := scan_cells inp BMS_CELL_COUNT) in *.
  assert (Hflag : ∀ i, (i < BMS_CELL_COUNT)%nat →
     nth i (balance_flags inp (maxMv a - minMv a) (maxMv a)) false = true ↔
     50 < maxMv a - minMv a ∧ maxMv a - 5 <= nth i (cellVoltageMv inp) 0).
  { intros i Hi. pose proof (pw_u16 _ Hwf i Hi) as Hv. unfold is_u16 in *.
    unfold balance_flags, BMS_BALANCE_THRESHOLD_MV, BMS_BALANCE_TOP_MARGIN_MV.
    destruct (Z.ltb_spec 50 (maxMv a - minMv a)).
    - rewrite nth_map_seq by done. destruct (Z.ltb_spec 5 (maxMv a)); [|lia].
      rewrite u16_id by (unfold is_u16; lia). lia.
    - rewrite nth_replicate by done. lia. }
  split_and!; [|done|].
  - unfold balance_flags. case_match; [by rewrite length_map, length_seq|by rewrite length_replicate].
  - intros i Hi Hmin. apply not_true_is_false. rewrite Hflag by done. lia.
Qed.

(** State of charge: the linear position of the average cell between 2500 mV
    and 3650 mV, clamped to 0..100, never wrapping, and monotone in the pack sum. *)
Theorem computePack_soc inp inp' :
  pack_wf inp → isValid inp = true → cellDataValid inp = true →
  pack_wf inp' → isValid inp' = true → cellDataValid inp' = true →
  socPercent (computePack inp) =
    Z.max 0 (Z.min 100 ((cell_sum inp BMS_CELL_COUNT / 24 - 2500) * 100 / 1150)) ∧
  0 <= socPercent (computePack inp) <= 100 ∧
  (cell_sum inp BMS_CELL_COUNT <= cell_sum inp' BMS_CELL_COUNT →
   socPercent (computePack inp) <= socPercent (computePack inp')).
Proof.
  assert (Heq : ∀ i, pack_wf i → isValid i = true → cellDataValid i = true →
    socPercent (computePack i) =
      Z.max 0 (Z.min 100 ((cell_sum i BMS_CELL_COUNT / 24 - 2500) * 100 / 1150))).
  { intros i Hwf H1 H2. rewrite computePack_valid by done. cbn [socPercent].
    destruct (scan_final _ Hwf) as [Hs Hb _ _ _ _ _ _ _ _].
    change (Z.of_nat BMS_CELL_COUNT) with 24 in *. rewrite socFromAvgMv_spec, Hs; [done|].
    unfold is_u32. Z.to_euclidean_division_equations; lia. }
  intros. rewrite !Heq by done. split_and!; [done|lia|lia|]. intros Hle.
  Z.to_euclidean_division_equations; lia.
Qed.

(** Warning level of a valid snapshot, against the condition on the cells: it is
    CRITICAL exactly when some cell is outside 2500..3650 mV or some sensor reads
    at least 70 degrees; otherwise WARNING exactly when some cell is outside
    2800..3550 mV or some sensor reads at least 55; otherwise OK. *)
Theorem computePack_warning inp :
  pack_wf inp → isValid inp = true → cellDataValid inp = true →
  let out lo hi t := ∃ i, (i < BMS_CELL_COUNT)%nat ∧
    (nth i (cellVoltageMv inp) 0 < lo ∨ hi < nth i (cellVoltageMv inp) 0 ∨
     t <= nth i (cellTempC inp) 0) in
  let w := warningLevel (computePack inp) in
  (w = BMS_WARN_CRITICAL ↔ out 2500 3650 70) ∧
  (w = BMS_WARN_WARNING ↔ ¬ out 2500 3650 70 ∧ out 2800 3550 55) ∧
  (w = BMS_WARN_OK ↔ ¬ out 2800 3550 55).
Proof.
  intros Hwf H1 H2 out w.
  destruct (scan_final _ Hwf) as [_ _ (k1&?&_&E1&_) (k2&?&_&E2&_) Hmx Hmn (k3&?&E3) _ Htx _].
  set (a := scan_cells inp BMS_CELL_COUNT) in *. unfold BMS_CELL_COUNT in *.
  assert (Hout : ∀ lo hi t, out lo hi t ↔ minMv a < lo ∨ hi < maxMv a ∨ t <= tMax a).
  { intros lo hi t. unfold out, BMS_CELL_COUNT. split.
    - intros (i & Hi & Hc). specialize (Hmx i Hi). specialize (Hmn i Hi). specialize (Htx i Hi). lia.
    - intros [?|[?|?]]; [exists k2|exists k1|exists k3]; (split; [lia|]); lia. }
  rewrite !Hout. subst w. rewrite computePack_valid by done. cbn [warningLevel]. fold a.
  change BMS_CELL_COUNT with 24%nat. fold a.
  unfold warning_level, BMS_WARN_CRITICAL, BMS_WARN_WARNING, BMS_WARN_OK,
    BMS_CELL_UNDERVOLT_CRIT_MV, BMS_CELL_OVERVOLT_CRIT_MV, BMS_TEMP_OVERTEMP_CRIT_C,
    BMS_CELL_UNDERVOLT_WARN_MV, BMS_CELL_OVERVOLT_WARN_MV, BMS_TEMP_OVERTEMP_WARN_C.
  destruct (_ || _) eqn:Hc; [lia|]. destruct (_ || _) eqn:Hw in |- *; lia.
Qed.

(** ** Equivalence with the reference *)

Lemma maximum_unique l k : (k < length l)%nat → (∀ j, (j < length l)%nat → nth j l 0 <= nth k l 0) →
  maximum l = nth k l 0.
Proof.
  assert (Hf : ∀ x l, x <= foldr Z.max x l ∧ (∀ y, In y l → y <= foldr Z.max x l) ∧
    (foldr Z.max x l = x ∨ In (foldr Z.max x l) l)).
  { intros x l'. induction l' as [|y l' (H1 & H2 & H3)]; [cbn; split_and!; auto; [lia|done]|]. cbn.
    split; [lia|]. split; [intros z [->|Hz]; [|specialize (H2 z Hz)]; lia|].
    destruct (Z.max_spec y (foldr Z.max x l')) as [[_ ->]|[_ ->]]; [destruct H3; auto|auto]. }
  intros Hk Hl. unfold maximum. destruct (Hf (hd 0 l) l) as (_ & H2 & H3).
  pose proof (H2 _ (nth_In l 0 Hk)). destruct l as [|y l]; [cbn in Hk; lia|]. cbn [hd] in *.
  assert (Hin : In (foldr Z.max y (y :: l)) (y :: l)) by (destruct H3 as [->|]; [by left|done]).
  destruct (In_nth _ _ 0 Hin) as (j & Hj & E). specialize (Hl j Hj). lia.
Qed.

Lemma minimum_unique l k : (k < length l)%nat → (∀ j, (j < length l)%nat → nth k l 0 <= nth j l 0) →
  minimum l = nth k l 0.
Proof.
  assert (Hopp : ∀ x l, foldr Z.min x l = - foldr Z.max (- x) (map Z.opp l)).
  { intros x l'. induction l' as [|y l' IH]; cbn; lia. }
  intros Hk Hl. unfold minimum. rewrite Hopp. destruct l as [|y l]; [cbn in Hk; lia|].
  pose proof (maximum_unique (map Z.opp (y :: l)) k) as Hm. rewrite length_map in Hm.
  change 0 with (- 0) in Hm. rewrite !(map_nth Z.opp) in Hm. unfold maximum in Hm. cbn [hd map] in Hm |- *.
  rewrite Hm; [lia|done|]. intros j Hj. change (- y :: map Z.opp l) with (map Z.opp (y :: l)).
  change (- 0) with (Z.opp 0). rewrite (map_nth Z.opp). specialize (Hl j Hj). lia.
Qed.

Lemma index_of_unique l k : (k < length l)%nat → (∀ j, (j < k)%nat → nth j l 0 ≠ nth k l 0) →
  index_of (nth k l 0) l = Z.of_nat k.
Proof.
  revert k. induction l as [|y l IH]; intros k Hk Hl; [cbn in Hk; lia|]. destruct k as [|k]; cbn [nth index_of].
  - by rewrite Z.eqb_refl.
  - rewrite (proj2 (Z.eqb_neq _ _)) by (apply (Hl 0%nat); lia).
    rewrite IH; [lia|cbn in Hk; lia|]. intros j Hj. apply (Hl (S j)). lia.
Qed.

Lemma cell_sum_total inp n : cell_sum inp n = total (take n (cellVoltageMv inp)).
Proof.
  assert (Happ : ∀ l l', total (l ++ l') = total l + total l').
  { intros l l'. unfold total. induction l as [|x l IH]; cbn; lia. }
  induction n as [|n IH]; [done|]. cbn [cell_sum]. rewrite IH. destruct (decide (n < length (cellVoltageMv inp))%nat) as [Hn|Hn].
  - destruct (lookup_lt_is_Some_2 _ _ Hn) as [x Hx]. rewrite (take_S_r _ _ x Hx), Happ, nth_lookup, Hx. cbn. lia.
  - rewrite nth_overflow, !take_ge by lia. lia.
Qed.

Lemma outside_exists inp lo hi t : pack_wf inp →
  outside lo hi t (cellVoltageMv inp) (cellTempC inp) = true ↔
  ∃ i, (i < BMS_CELL_COUNT)%nat ∧
    (nth i (cellVoltageMv inp) 0 < lo ∨ hi < nth i (cellVoltageMv inp) 0 ∨ t <= nth i (cellTempC inp) 0).
Proof.
  intros [Hc Ht _ _]. unfold outside. rewrite orb_true_iff, !existsb_exists. split.
  - intros [(v & Hv & Hb)|(v & Hv & Hb)]; destruct (In_nth _ _ 0 Hv) as (i & Hi & <-); exists i; split; lia.
  - intros (i & Hi & Hb). assert (Hi1 : (i < length (cellVoltageMv inp))%nat) by lia.
    assert (Hi2 : (i < length (cellTempC inp))%nat) by lia.
    pose proof (nth_In (cellVoltageMv inp) 0 Hi1). pose proof (nth_In (cellTempC inp) 0 Hi2).
    destruct Hb as [Hb|[Hb|Hb]]; [left|left|right]; eexists; (split; [eassumption|]); lia.
Qed.

(** The temperature extremes. *)
Lemma computePack_temps inp :
  pack_wf inp → isValid inp = true → cellDataValid inp = true →
  maximum (cellTempC inp) = tempMaxC (computePack inp) ∧ minimum (cellTempC inp) = tempMinC (computePack inp).
Proof.
  intros Hwf H1 H2. pose proof (pw_temps _ Hwf) as Ht. rewrite computePack_valid by done. cbn [tempMaxC tempMinC].
  destruct (scan_final _ Hwf) as [_ _ _ _ _ _ (k1 & Hk1 & E1) (k2 & Hk2 & E2) Hx Hn].
  unfold BMS_CELL_COUNT in *. rewrite <- E1, <- E2. rewrite <- E1 in Hx. rewrite <- E2 in Hn.
  split; [apply maximum_unique|apply minimum_unique]; rewrite Ht; auto; lia.
Qed.

(** The flags and the level, on whole lists. *)
Lemma computePack_flags inp :
  pack_wf inp → isValid inp = true → cellDataValid inp = true →
  map (λ v, (50 <? cellDeltaMv (computePack inp)) && (cellMaxMv (computePack inp) - 5 <=? v))
    (cellVoltageMv inp) = balanceFlag (computePack inp).
Proof.
  intros Hwf H1 H2. pose proof (pw_cells _ Hwf) as Hc.
  destruct (computePack_balance inp Hwf H1 H2) as (Lb & Hb & _).
  destruct (computePack_extremes inp Hwf H1 H2) as (_ & _ & _ & Ed).
  apply nth_ext with (d := (λ v, (50 <? cellDeltaMv (computePack inp)) && (cellMaxMv (computePack inp) - 5 <=? v)) 0)
    (d' := false); rewrite length_map, Hc; [done|]. intros i Hi.
  rewrite (map_nth (λ v, _)). apply eq_true_iff_eq. rewrite (Hb i Hi), Ed, andb_true_iff. lia.
Qed.

Lemma computePack_level inp :
  pack_wf inp → isValid inp = true → cellDataValid inp = true →
  (if outside 2500 3650 70 (cellVoltageMv inp) (cellTempC inp) then BMS_WARN_CRITICAL
   else if outside 2800 3550 55 (cellVoltageMv inp) (cellTempC inp) then BMS_WARN_WARNING else BMS_WARN_OK)
  = warningLevel (computePack inp).
Proof.
  intros Hwf H1 H2. destruct (computePack_warning inp Hwf H1 H2) as (W1 & W2 & W3).
  rewrite <- !outside_exists in W1 by done. rewrite <- !outside_exists in W2 by done.
  rewrite <- !outside_exists in W3 by done.
  destruct (outside 2500 _ _ _ _); [symmetry; by apply W1|].
  destruct (outside 2800 _ _ _ _); symmetry; [by apply W2|by apply W3].
Qed.

(** [C31] [computePack], a single pass over machine integers, computes the reference report:
    for every well-typed snapshot with valid data, each field equals its definition on the
    whole lists of cells and temperatures (sum, extremes with their first positions, spread,
    state of charge, discharge flags, warning level, temperature extremes), with no wrap. *)
Theorem computePack_reference inp :
  pack_wf inp → isValid inp = true → cellDataValid inp = true →
  computePack inp = pack_report (cellVoltageMv inp) (cellTempC inp).
Proof.
  intros Hwf H1 H2. pose proof Hwf as [Hc Ht _ _].
  destruct (computePack_extremes inp Hwf H1 H2) as
    (Es & (k1 & Hk1 & Ei1 & Ev1 & Hf1 & Ha1) & (k2 & Hk2 & Ei2 & Ev2 & Hf2 & Ha2) & Ed).
  destruct (computePack_soc inp inp Hwf H1 H2 Hwf H1 H2) as (Eo & _).
  destruct (computePack_temps inp Hwf H1 H2) as (Et1 & Et2).
  assert (Em : maximum (cellVoltageMv inp) = cellMaxMv (computePack inp)).
  { rewrite <- Ev1. apply maximum_unique; rewrite Hc; [done|]. intros j Hj. rewrite Ev1. by apply Ha1. }
  assert (En : minimum (cellVoltageMv inp) = cellMinMv (computePack inp)).
  { rewrite <- Ev2. apply minimum_unique; rewrite Hc; [done|]. intros j Hj. rewrite Ev2. by apply Ha2. }
  assert (Esum : packVoltageMv (computePack inp) = total (cellVoltageMv inp)).
  { rewrite Es, cell_sum_total. by rewrite take_ge by lia. }
  unfold pack_report. rewrite Em, En, <- Ed, <- Esum, Et1, Et2.
  assert (Hix : index_of (cellMaxMv (computePack inp)) (cellVoltageMv inp) = cellMaxIndex (computePack inp)).
  { rewrite Ei1, <- Ev1. apply index_of_unique; [lia|]. intros j Hj. rewrite Ev1. specialize (Hf1 j Hj). lia. }
  assert (Hin : index_of (cellMinMv (computePack inp)) (cellVoltageMv inp) = cellMinIndex (computePack inp)).
  { rewrite Ei2, <- Ev2. apply index_of_unique; [lia|]. intros j Hj. rewrite Ev2. specialize (Hf2 j Hj). lia. }
  rewrite <- Es in Eo. rewrite Hix, Hin, computePack_flags, computePack_level, <- Eo by done.
  by destruct (computePack inp).
Qed.


(** ** Concrete snapshots *)
Lemma demo_pack_wf cells t :
  length cells = BMS_CELL_COUNT → forallb (λ v, (0 <=? v) && (v <? 65536)) cells = true →
  is_i16 t → pack_wf (demo_pack cells t).
Proof.
  intros Hl Hb Ht. rewrite forallb_forall in Hb. constructor; cbn [demo_pack cellVoltageMv cellTempC]; auto.
  - intros i Hi. assert (Hin : In (nth i cells 0) cells) by (apply nth_In; lia).
    specialize (Hb _ Hin). unfold is_u16. lia.
  - intros i Hi. by rewrite nth_replicate.
Qed.

Ltac demo := apply demo_pack_wf; [done|by vm_compute|split; lia].

Lemma computePack_extremes_witness :
  cellMaxIndex (computePack (demo_pack demo_cells 25)) = 1 ∧
  cell_sum (demo_pack demo_cells 25) 24 = packVoltageMv (computePack (demo_pack demo_cells 25)).
Proof.
  split; [by vm_compute|].
  destruct (computePack_extremes (demo_pack demo_cells 25)) as [E _]; [|done|done|by rewrite E].
  demo.
Defined.

Lemma computePack_balance_witness :
  nth 23 (balanceFlag (computePack (demo_pack demo_cells 25))) false = true ∧
  nth 0 (balanceFlag (computePack (demo_pack demo_cells 25))) false = false.
Proof.
  destruct (computePack_balance (demo_pack demo_cells 25)) as (_ & Hf & Hm); [|done|done|].
  { demo. }
  split; [apply Hf; [vm_compute; lia|split; by vm_compute]|apply Hm; [vm_compute; lia|by vm_compute]].
Defined.

Lemma computePack_soc_witness :
  socPercent (computePack (demo_pack demo_cells 25)) = 71 ∧
  socPercent (computePack (demo_pack demo_cells 25)) <=
  socPercent (computePack (demo_pack (replicate 24 3400) 25)).
Proof.
  split; [by vm_compute|].
  apply (computePack_soc (demo_pack demo_cells 25) (demo_pack (replicate 24 3400) 25));
    [demo|done|done|demo|done|done|by vm_compute].
Defined.

Lemma computePack_warning_witness :
  warningLevel (computePack (demo_pack demo_cells 70)) = BMS_WARN_CRITICAL.
Proof.
  apply (computePack_warning (demo_pack demo_cells 70)); [demo|done|done|].
  exists 0%nat. split; [vm_compute; lia|]. right; right. by vm_compute.
Defined.


Lemma computePack_reference_witness :
  computePack (demo_pack demo_cells 25) = pack_report demo_cells (replicate 24 25) ∧
  cellMaxIndex (pack_report demo_cells (replicate 24 25)) = 1.
Proof. split; [apply (computePack_reference (demo_pack demo_cells 25)); [demo|done|done]|by vm_compute]. Defined.
