(* ===== verification/VcuSafety.v ===== *)
(** [lib/VcuLogic/VcuLogic.h]: the state and event types of the vehicle control
    unit and its pure safety predicates over a telemetry snapshot. *)
From S2P Require Import Prelude SystemConfig VehicleData BmsAlgo.

Module VcuState.
(* [src ESP_AKS/lib/VcuLogic/VcuLogic.h:10-17 VcuState] *)
Inductive t : Set := INIT | IDLE | READY | DRIVE | EMERGENCY_STOP | FAULT.
#[export] Instance eq_dec : EqDecision t.
Proof. solve_decision. Defined.
End VcuState.
Export (hints) VcuState.

Module VcuEvent.
(* [src ESP_AKS/lib/VcuLogic/VcuLogic.h:19-26 VcuEvent] *)
Inductive t : Set := NONE | START_REQUEST | DRIVE_ENABLE | EMERGENCY_STOP | FAULT_DETECTED | RESET.
#[export] Instance eq_dec : EqDecision t.
Proof. solve_decision. Defined.
End VcuEvent.
Export (hints) VcuEvent.

(* [src ESP_AKS/lib/VcuLogic/VcuLogic.h:49-52 isCurrentCritical] *)
Definition isCurrentCritical (c : Z) : bool :=
  (BMS_CRITICAL_MAX_CHARGE_CURRENT_CENTI_A <=? c) ||
  (c <=? - BMS_CRITICAL_MAX_DISCHARGE_CURRENT_CENTI_A).

(* [src ESP_AKS/lib/VcuLogic/VcuLogic.h:54-57 isCurrentWarning] *)
Definition isCurrentWarning (c : Z) : bool :=
  (BMS_WARN_MAX_CHARGE_CURRENT_CENTI_A <=? c) ||
  (c <=? - BMS_WARN_MAX_DISCHARGE_CURRENT_CENTI_A).

(* [src ESP_AKS/lib/VcuLogic/VcuLogic.h:64-66 isTempCritical] *)
Definition isTempCritical (t : Z) : bool := BMS_CRITICAL_MAX_TEMP_C <=? t.

(* [src ESP_AKS/lib/VcuLogic/VcuLogic.h:68-70 isTempWarning] *)
Definition isTempWarning (t : Z) : bool := BMS_WARN_MAX_TEMP_C <=? t.

(* [src ESP_AKS/lib/VcuLogic/VcuLogic.h:72-93 hasWarningCondition] *)
Definition hasWarningCondition (d : TelemetryData) : bool :=
  if negb (TEL_bmsDataValid d) then false
  else if TEL_cellVoltageDataValid d &&
          ((TEL_bmsCellVoltageMinDeciMv d <? BMS_CELL_UNDERVOLT_WARN_MV) ||
           (BMS_CELL_OVERVOLT_WARN_MV <? TEL_bmsCellVoltageMaxDeciMv d)) then true
  else
    (TEL_bmsPackVoltageDeciV d <=? BMS_WARN_MIN_PACK_VOLTAGE_DECI_V) ||
    (BMS_WARN_MAX_PACK_VOLTAGE_DECI_V <=? TEL_bmsPackVoltageDeciV d) ||
    isTempWarning (TEL_bmsTempHighestC d) ||
    isCurrentWarning (TEL_bmsCurrentCentiA d).

(* [src ESP_AKS/lib/VcuLogic/VcuLogic.h:95-131 hasCriticalCondition] *)
Definition hasCriticalCondition (d : TelemetryData) (currentState : VcuState.t) : bool :=
  if negb (TEL_motorErrorFlags d =? 0) ||
     (TEL_bmsDataValid d && (TEL_bmsSystemState d =? 4)) then true
  else if TEL_motorTimeoutActive d && negb (bool_decide (currentState = VcuState.IDLE)) then true
  else if TEL_bmsTimeoutActive d && negb (bool_decide (currentState = VcuState.IDLE)) then true
  else if negb (TEL_bmsDataValid d) then false
  else if TEL_cellVoltageDataValid d &&
          ((TEL_bmsCellVoltageMinDeciMv d <? BMS_CELL_UNDERVOLT_CRIT_MV) ||
           (BMS_CELL_OVERVOLT_CRIT_MV <? TEL_bmsCellVoltageMaxDeciMv d)) then true
  else
    (TEL_bmsPackVoltageDeciV d <=? BMS_CRITICAL_MIN_PACK_VOLTAGE_DECI_V) ||
    (BMS_CRITICAL_MAX_PACK_VOLTAGE_DECI_V <=? TEL_bmsPackVoltageDeciV d) ||
    isTempCritical (TEL_bmsTempHighestC d) ||
    isCurrentCritical (TEL_bmsCurrentCentiA d).

(* [src ESP_AKS/lib/VcuLogic/VcuLogic.h:133-144 isResetInterlockSatisfied] *)
Definition isResetInterlockSatisfied (d : TelemetryData) (currentState : VcuState.t) : bool :=
  if negb (TEL_motorErrorFlags d =? 0) ||
     (TEL_bmsDataValid d && (TEL_bmsSystemState d =? 4)) then false
  else if hasCriticalCondition d currentState then false
  else true.

(* [src ESP_AKS/lib/VcuLogic/VcuLogic.h:152-170 isReadyEntryPermitted] *)
Definition isReadyEntryPermitted (d : TelemetryData) : bool :=
  if negb (TEL_bmsDataValid d) then false
  else if hasCriticalCondition d VcuState.IDLE then false
  else if hasWarningCondition d then false
  else if negb (MOTOR_DRIVER_PRESENT =? 0) && negb (TEL_motorDataValid d) then false
  else true.

(** The reasons the log distinguishes; the code compares the addresses of the
    string literals, here the constructors. *)
(* [src ESP_AKS/lib/VcuLogic/VcuLogic.cpp:453-465 readyRejectReason] *)
Inductive RejectReason : Set :=
  | reject_bmsDataValid | reject_critical | reject_warning | reject_motorDataValid
  | reject_unknown | reject_actuator_fault.
#[export] Instance RejectReason_eq_dec : EqDecision RejectReason.
Proof. solve_decision. Defined.

(* [src ESP_AKS/lib/VcuLogic/VcuLogic.cpp:453-465 readyRejectReason] *)
Definition readyRejectReason (d : TelemetryData) : RejectReason :=
  if negb (TEL_bmsDataValid d) then reject_bmsDataValid
  else if hasCriticalCondition d VcuState.IDLE then reject_critical
  else if hasWarningCondition d then reject_warning
  else if negb (MOTOR_DRIVER_PRESENT =? 0) && negb (TEL_motorDataValid d) then reject_motorDataValid
  else reject_unknown.

(** The measured envelope in which the high-voltage bus may be energised. *)
Record ready_envelope (d : TelemetryData) : Prop := {
  re_valid : TEL_bmsDataValid d = true;
  re_motor : TEL_motorErrorFlags d = 0;
  re_sys : TEL_bmsSystemState d ≠ 4;
  re_pack : 720 < TEL_bmsPackVoltageDeciV d < 852;
  re_temp : TEL_bmsTempHighestC d < 55;
  re_current : -900 < TEL_bmsCurrentCentiA d < 1100;
  re_cells : TEL_cellVoltageDataValid d = true →
    2800 <= TEL_bmsCellVoltageMinDeciMv d ∧ TEL_bmsCellVoltageMaxDeciMv d <= 3550;
}.

(** A nominal snapshot for the witnesses. *)
Definition nominal_telemetry : TelemetryData :=
  {| TelemetryData_zero with
     TEL_bmsDataValid := true; TEL_bmsPackVoltageDeciV := 790;
     TEL_bmsTempHighestC := 25; TEL_bmsTempLowestC := 23;
     TEL_bmsCellVoltageMinDeciMv := 32900; TEL_bmsCellVoltageMaxDeciMv := 33100;
     TEL_motorDataValid := true |}.

(** ** Proofs *)

(** Exposes the thresholds to [lia]. *)
Ltac thresholds :=
  unfold hasCriticalCondition, hasWarningCondition, isCurrentCritical, isCurrentWarning,
    isTempCritical, isTempWarning,
    BMS_CRITICAL_MAX_CHARGE_CURRENT_CENTI_A, BMS_CRITICAL_MAX_DISCHARGE_CURRENT_CENTI_A,
    BMS_WARN_MAX_CHARGE_CURRENT_CENTI_A, BMS_WARN_MAX_DISCHARGE_CURRENT_CENTI_A,
    BMS_CRITICAL_MAX_TEMP_C, BMS_WARN_MAX_TEMP_C, BMS_WARN_MIN_PACK_VOLTAGE_DECI_V,
    BMS_WARN_MAX_PACK_VOLTAGE_DECI_V, BMS_CRITICAL_MIN_PACK_VOLTAGE_DECI_V,
    BMS_CRITICAL_MAX_PACK_VOLTAGE_DECI_V, BMS_CELL_UNDERVOLT_WARN_MV,
    BMS_CELL_OVERVOLT_WARN_MV, BMS_CELL_UNDERVOLT_CRIT_MV, BMS_CELL_OVERVOLT_CRIT_MV in *.

(** [hasCriticalCondition] as a proposition. *)
Lemma hasCriticalCondition_iff d s :
  hasCriticalCondition d s = true ↔
  TEL_motorErrorFlags d ≠ 0 ∨
  (s ≠ VcuState.IDLE ∧ (TEL_motorTimeoutActive d = true ∨ TEL_bmsTimeoutActive d = true)) ∨
  (TEL_bmsDataValid d = true ∧
   (TEL_bmsSystemState d = 4 ∨
    (TEL_cellVoltageDataValid d = true ∧
      (TEL_bmsCellVoltageMinDeciMv d < 2500 ∨ 3650 < TEL_bmsCellVoltageMaxDeciMv d)) ∨
    TEL_bmsPackVoltageDeciV d <= 600 ∨ 876 <= TEL_bmsPackVoltageDeciV d ∨
    70 <= TEL_bmsTempHighestC d ∨
    1300 <= TEL_bmsCurrentCentiA d ∨ TEL_bmsCurrentCentiA d <= -1500)).
Proof.
  thresholds.
  destruct (TEL_bmsDataValid d), (TEL_cellVoltageDataValid d), (TEL_motorTimeoutActive d),
    (TEL_bmsTimeoutActive d), (bool_decide_reflect (s = VcuState.IDLE)); cbn [negb andb orb];
    repeat (case_match; cbn [negb andb orb] in * ); intuition (try discriminate; try congruence; try lia).
Qed.

Lemma hasWarningCondition_iff d :
  hasWarningCondition d = true ↔
  TEL_bmsDataValid d = true ∧
  ((TEL_cellVoltageDataValid d = true ∧
     (TEL_bmsCellVoltageMinDeciMv d < 2800 ∨ 3550 < TEL_bmsCellVoltageMaxDeciMv d)) ∨
   TEL_bmsPackVoltageDeciV d <= 720 ∨ 852 <= TEL_bmsPackVoltageDeciV d ∨
   55 <= TEL_bmsTempHighestC d ∨
   1100 <= TEL_bmsCurrentCentiA d ∨ TEL_bmsCurrentCentiA d <= -900).
Proof.
  thresholds.
  destruct (TEL_bmsDataValid d), (TEL_cellVoltageDataValid d); cbn [negb andb orb];
    repeat (case_match; cbn [negb andb orb] in * ); intuition (try discriminate; try lia).
Qed.

(** Outside IDLE at least as many conditions are critical as in IDLE. *)
Lemma critical_idle_any d s :
  hasCriticalCondition d VcuState.IDLE = true → hasCriticalCondition d s = true.
Proof. rewrite !hasCriticalCondition_iff. naive_solver. Qed.

Lemma critical_non_idle d s s' :
  s ≠ VcuState.IDLE → s' ≠ VcuState.IDLE → hasCriticalCondition d s = hasCriticalCondition d s'.
Proof.
  intros. apply eq_true_iff_eq. rewrite !hasCriticalCondition_iff. naive_solver.
Qed.

(** [C13] The READY interlock accepts a snapshot exactly when every measured quantity
    is strictly inside its warning band, no motor error is confirmed and the BMS
    reports no fault (with MOTOR_DRIVER_PRESENT = 0 the motor data are not asked). *)
Theorem ready_entry_iff_envelope d :
  isReadyEntryPermitted d = true ↔ ready_envelope d.
Proof.
  unfold isReadyEntryPermitted. change (MOTOR_DRIVER_PRESENT =? 0) with true. cbn [negb andb].
  assert (Hc := hasCriticalCondition_iff d VcuState.IDLE). assert (Hw := hasWarningCondition_iff d).
  destruct (TEL_bmsDataValid d) eqn:Hv; cbn [negb].
  2:{ split; [discriminate|]. intros []. congruence. }
  destruct (hasCriticalCondition d VcuState.IDLE), (hasWarningCondition d); split; try discriminate.
  1-3: intros [? ? ? ? ? ? Hcell]; exfalso; intuition lia.
  - intros _. constructor; [done|intuition lia..].
  - done.
Qed.

(** The interlock's own error-flag test is subsumed by the critical conditions. *)
Lemma reset_interlock_eq d s : isResetInterlockSatisfied d s = negb (hasCriticalCondition d s).
Proof.
  unfold isResetInterlockSatisfied. pose proof (hasCriticalCondition_iff d s) as Hc.
  destruct (_ || _) eqn:Hf, (hasCriticalCondition d s); try done.
  exfalso. assert (false = true); [|done]. apply Hc.
  apply orb_true_iff in Hf as [Hf|Hf]; [left|right; right]; [lia|].
  apply andb_true_iff in Hf as [? ?]. intuition lia.
Qed.

(** A RESET is accepted exactly when no condition is critical in the current
    state: the interlock's own error-flag test is subsumed, and in FAULT and
    EMERGENCY_STOP a motor or BMS timeout keeps it closed. *)
Theorem reset_interlock_iff d s :
  isResetInterlockSatisfied d s = negb (hasCriticalCondition d s) ∧
  (s ≠ VcuState.IDLE → TEL_motorTimeoutActive d = true ∨ TEL_bmsTimeoutActive d = true →
   isResetInterlockSatisfied d s = false).
Proof.
  split; [apply reset_interlock_eq|]. intros Hs Ht. rewrite reset_interlock_eq.
  assert (hasCriticalCondition d s = true) as ->; [|done].
  apply hasCriticalCondition_iff. auto.
Qed.

(** The warning band encloses the critical band of every measured signal, so a
    battery that blocks READY by a critical value also blocks it by a warning:
    with fresh BMS data and no error flag, critical in IDLE implies warning. *)
Theorem warning_covers_critical d :
  TEL_bmsDataValid d = true → TEL_motorErrorFlags d = 0 → TEL_bmsSystemState d ≠ 4 →
  hasCriticalCondition d VcuState.IDLE = true → hasWarningCondition d = true.
Proof.
  intros Hv Hm Hs. rewrite hasCriticalCondition_iff, hasWarningCondition_iff.
  intros [?|[[? _]|[_ Hc]]]; try congruence. split; [done|]. intuition lia.
Qed.

(** The logged reason is the condition that refused the entry. *)
Lemma readyRejectReason_unknown d :
  readyRejectReason d = reject_unknown ↔ isReadyEntryPermitted d = true.
Proof.
  unfold readyRejectReason, isReadyEntryPermitted.
  repeat case_match; split; intros; congruence.
Qed.

(** [C40] Unit mismatch.  [TEL_bmsCellVoltageMin/MaxDeciMv] carry tenths of a millivolt
    (raw field of frame 0xE001, raw/10 = mV) but are compared with limits in mV:
    whenever all cells are inside the specified 2.50..3.65 V, fresh cell data make
    the overvoltage test fire, so the snapshot is critical in every state and READY
    is refused; and no cell above 250 mV can ever trip the undervoltage test. *)
Theorem healthy_cells_are_critical d s :
  TEL_bmsDataValid d = true → TEL_cellVoltageDataValid d = true →
  (∀ mv, 10 * mv = TEL_bmsCellVoltageMaxDeciMv d → 2500 <= mv <= 3650 →
     hasCriticalCondition d s = true ∧ isReadyEntryPermitted d = false) ∧
  (∀ mv, 10 * mv = TEL_bmsCellVoltageMinDeciMv d → 250 <= mv →
     (TEL_bmsCellVoltageMinDeciMv d <? BMS_CELL_UNDERVOLT_CRIT_MV) = false).
Proof.
  intros Hv Hcv. split.
  - intros mv Hmv Hr. assert (Hc : ∀ s, hasCriticalCondition d s = true).
    { intros s'. apply hasCriticalCondition_iff. right; right. split; [done|].
      right; left. split; [done|]. right. lia. }
    split; [done|]. unfold isReadyEntryPermitted. by rewrite Hv, Hc.
  - intros mv Hmv Hr. unfold BMS_CELL_UNDERVOLT_CRIT_MV. lia.
Qed.

Lemma ready_entry_iff_envelope_nominal : isReadyEntryPermitted nominal_telemetry = true.
Proof. by vm_compute. Qed.

Lemma warning_covers_critical_witness :
  hasWarningCondition {| nominal_telemetry with TEL_bmsTempHighestC := 71 |} = true.
Proof. apply (warning_covers_critical {| nominal_telemetry with TEL_bmsTempHighestC := 71 |}); done. Defined.

(** The TUFAN bench values: cells at 3.29..3.31 V, pack at 79.0 V. *)
Lemma healthy_cells_are_critical_witness :
  hasCriticalCondition {| nominal_telemetry with TEL_cellVoltageDataValid := true |} VcuState.DRIVE = true ∧
  isReadyEntryPermitted {| nominal_telemetry with TEL_cellVoltageDataValid := true |} = false.
Proof.
  apply (proj1 (healthy_cells_are_critical
    {| nominal_telemetry with TEL_cellVoltageDataValid := true |} VcuState.DRIVE eq_refl eq_refl) 3310);
  [done|lia].
Defined.
