(* ===== verification/IRelayActuator.v ===== *)
(** [lib/VcuLogic/IRelayActuator.h]: the relay driver as the vehicle control unit
    sees it, and the contract it relies on.

    [W] is the world the driver acts on (driver object and hardware).  The
    contract [RelayActuatorContract] names the commanded contactor mask, the
    physical "all contactors open" condition and the latched actuator fault, and
    is proved for the real driver in [RelayManager.v]; the theorems of
    [VcuLogic.v] use nothing else. *)
From S2P Require Import Prelude SystemConfig.

(* [src ESP_AKS/lib/VcuLogic/IRelayActuator.h:26-52 IRelayActuator] *)
Class IRelayActuator (W : Type) := {
  allOn : W → W;
  allOff : bool → W → W;                (* silent *)
  setRelay : Z → bool → W → W;          (* channel, state *)
  verifyIfDue : Z → W → W;              (* nowMs *)
  verifyOutputs : W → bool * W;
  hasActuatorFault : W → bool;
  clearActuatorFault : W → W;
}.

(** Bits 0..9 set: every contactor of the positive bank. *)
Definition all_contactors : Z := Z.ones RELAY_TOTAL_CHANNELS.

Class RelayActuatorContract (W : Type) `{IRelayActuator W} := {
  ra_ok : W → Prop;            (* the driver is initialised and well formed *)
  ra_commanded : W → Z;        (* mask of the contactors commanded closed *)
  ra_open : W → Prop;          (* the outputs de-energise every contactor *)
  ra_ok_allOn w : ra_ok w → ra_ok (allOn w);
  ra_ok_allOff s w : ra_ok w → ra_ok (allOff s w);
  ra_ok_verify t w : ra_ok w → ra_ok (verifyIfDue t w);
  ra_ok_clear w : ra_ok w → ra_ok (clearActuatorFault w);
  ra_allOn w : ra_ok w → ra_commanded (allOn w) = all_contactors;
  ra_allOff s w : ra_ok w → ra_commanded (allOff s w) = 0;
  ra_verify_commanded t w : ra_ok w → ra_commanded (verifyIfDue t w) = ra_commanded w;
  ra_clear_commanded w : ra_ok w → ra_commanded (clearActuatorFault w) = ra_commanded w;
  ra_allOff_confirmed s w : ra_ok w →
    hasActuatorFault (allOff s w) = false → ra_open (allOff s w);
  ra_latched_allOn w : ra_ok w → hasActuatorFault w = true → hasActuatorFault (allOn w) = true;
  ra_latched_allOff s w : ra_ok w → hasActuatorFault w = true → hasActuatorFault (allOff s w) = true;
  ra_latched_verify t w : ra_ok w → hasActuatorFault w = true → hasActuatorFault (verifyIfDue t w) = true;
  ra_cleared w : hasActuatorFault (clearActuatorFault w) = false;
}.

#[export] Hint Resolve ra_ok_allOn ra_ok_allOff ra_ok_verify ra_ok_clear ra_latched_allOn
  ra_latched_allOff ra_latched_verify : aks.
#[export] Hint Rewrite @ra_allOn @ra_allOff @ra_verify_commanded @ra_clear_commanded
  @ra_cleared using eauto with aks : aks.
