(* ===== verification/VcuLogic.v ===== *)
(** [lib/VcuLogic/VcuLogic.cpp]: the event-driven state machine of the vehicle
    control unit: [init], [run] (one 20 ms tick), [postEvent] and the handlers of
    the states, over the event queue and the relay driver interfaces.

    The module's static variables are the fields of [vcu]; the pointer to the
    relay driver is the instance argument (bound by [init] before [run] is ever
    called).  The snapshot mutex only makes [setTelemetryData] and the snapshot
    reads atomic, so the model keeps whether it was created.  Log output is not
    modelled; the variables that throttle it are. *)
From S2P Require Import Prelude SystemConfig VehicleData FreeRtos IRelayActuator VcuSafety.

(* [src ESP_AKS/lib/VcuLogic/VcuLogic.cpp:12-12 TASK_PERIOD_MS] *)
Definition TASK_PERIOD_MS : Z := 20.

(* [src ESP_AKS/lib/VcuLogic/VcuLogic.cpp:19-58 static state] *)
Record vcu (Q W : Type) := {
  s_state : VcuState.t;                          (* std::atomic *)
  s_eventQueue : option Q;
  s_stateTimer : Z;                              (* uint32_t *)
  s_uptimeMs : Z;                                (* uint32_t *)
  s_TEL_latestData : TelemetryData;
  s_VCU_warningLogged : bool;
  s_TEL_dataMutex : bool;                        (* created? *)
  s_eStopPending : bool;                         (* std::atomic *)
  s_faultPending : bool;                         (* std::atomic *)
  s_relaysOpenedInEstop : bool;
  s_relaysOpenedInFault : bool;
  s_lastEstopLogMs : Z;                          (* uint32_t *)
  s_lastFaultLogMs : Z;                          (* uint32_t *)
  s_lastReadyRejectReason : option RejectReason;
  s_lastReadyRejectLogMs : Z;                    (* uint32_t *)
  s_torqueSink : option (Z → W → W);
}.
Arguments s_state {Q W}. Arguments s_eventQueue {Q W}. Arguments s_stateTimer {Q W}.
Arguments s_uptimeMs {Q W}. Arguments s_TEL_latestData {Q W}.
Arguments s_VCU_warningLogged {Q W}. Arguments s_TEL_dataMutex {Q W}.
Arguments s_eStopPending {Q W}. Arguments s_faultPending {Q W}.
Arguments s_relaysOpenedInEstop {Q W}. Arguments s_relaysOpenedInFault {Q W}.
Arguments s_lastEstopLogMs {Q W}. Arguments s_lastFaultLogMs {Q W}.
Arguments s_lastReadyRejectReason {Q W}. Arguments s_lastReadyRejectLogMs {Q W}.
Arguments s_torqueSink {Q W}.

(** The static initialisers. *)
(* [src ESP_AKS/lib/VcuLogic/VcuLogic.cpp:19-58 static state] *)
Definition vcu_static {Q W} : vcu Q W := {|
  s_state := VcuState.INIT; s_eventQueue := None; s_stateTimer := 0; s_uptimeMs := 0;
  s_TEL_latestData := TelemetryData_zero; s_VCU_warningLogged := false;
  s_TEL_dataMutex := false; s_eStopPending := false; s_faultPending := false;
  s_relaysOpenedInEstop := false; s_relaysOpenedInFault := false;
  s_lastEstopLogMs := 0; s_lastFaultLogMs := 0; s_lastReadyRejectReason := None;
  s_lastReadyRejectLogMs := 0; s_torqueSink := None |}.

Section Vcu.
Context {Q W : Type} `{FreeRtosQueue Q VcuEvent.t} `{IRelayActuator W}.
Implicit Types (v : vcu Q W) (w : W).

(* [src ESP_AKS/lib/VcuLogic/VcuLogic.cpp:400-403 requestZeroTorque] *)
Definition requestZeroTorque v w : W :=
  match s_torqueSink v with Some sink => sink 0 w | None => w end.

(* [src ESP_AKS/lib/VcuLogic/VcuLogic.cpp:405-419 transitionTo] *)
Definition transitionTo (next : VcuState.t) v : vcu Q W :=
  let v := {| v with s_state := next; s_stateTimer := 0 |} in
  match next with
  | VcuState.EMERGENCY_STOP =>
      {| v with s_relaysOpenedInEstop := false; s_lastEstopLogMs := u32 (-1000) |}
  | VcuState.FAULT =>
      {| v with s_relaysOpenedInFault := false; s_lastFaultLogMs := u32 (-1000) |}
  | _ => v
  end.

(* [src ESP_AKS/lib/VcuLogic/VcuLogic.cpp:421-425 pollEvent] *)
Definition pollEvent v : option (VcuEvent.t * vcu Q W) :=
  match s_eventQueue v with
  | None => None
  | Some q =>
      match xQueueReceive q with
      | Some (e, q') => Some (e, {| v with s_eventQueue := Some q' |})
      | None => None
      end
  end.

(* [src ESP_AKS/lib/VcuLogic/VcuLogic.cpp:427-436 getTelemetrySnapshot] *)
Definition getTelemetrySnapshot v : TelemetryData := s_TEL_latestData v.

(* [src ESP_AKS/lib/VcuLogic/VcuLogic.cpp:81-100 init] *)
Definition init (xSemaphoreCreateMutex : bool) v w : vcu Q W * W :=
  let v := {| v with s_eventQueue := xQueueCreate 8 |} in
  match s_eventQueue v with
  | None => (v, w)
  | Some _ =>
      let v := {| v with s_TEL_dataMutex := xSemaphoreCreateMutex |} in
      if negb xSemaphoreCreateMutex then (v, w)
      else
        let w := allOff false w in
        (transitionTo VcuState.IDLE v, w)
  end.

(* [src ESP_AKS/lib/VcuLogic/VcuLogic.cpp:309-312 handleIdle] *)
Definition handleIdle v w : vcu Q W * W := (v, w).

(* [src ESP_AKS/lib/VcuLogic/VcuLogic.cpp:314-322 handleReady] *)
Definition handleReady v w : vcu Q W * W :=
  (v, if s_stateTimer v <=? TASK_PERIOD_MS then allOn w else w).

(* [src ESP_AKS/lib/VcuLogic/VcuLogic.cpp:324-329 handleDrive] *)
Definition handleDrive v w : vcu Q W * W := (v, w).

(* [src ESP_AKS/lib/VcuLogic/VcuLogic.cpp:331-363 handleEmergencyStop] *)
Definition handleEmergencyStop v w : vcu Q W * W :=
  let w := if s_stateTimer v <=? TASK_PERIOD_MS then requestZeroTorque v w else w in
  let '(v, w) :=
    if VCU_CONTACTOR_OPEN_DELAY_MS <=? s_stateTimer v then
      if negb (s_relaysOpenedInEstop v) then
        ({| v with s_relaysOpenedInEstop := true |}, allOff false w)
      else if 1000 <=? u32 (s_stateTimer v - s_lastEstopLogMs v) then (v, allOff true w)
      else (v, w)
    else (v, w) in
  if 1000 <=? u32 (s_stateTimer v - s_lastEstopLogMs v)
  then ({| v with s_lastEstopLogMs := s_stateTimer v |}, w)
  else (v, w).

(* [src ESP_AKS/lib/VcuLogic/VcuLogic.cpp:365-392 handleFault] *)
Definition handleFault v w : vcu Q W * W :=
  let w := if s_stateTimer v <=? TASK_PERIOD_MS then requestZeroTorque v w else w in
  let '(v, w) :=
    if VCU_CONTACTOR_OPEN_DELAY_MS <=? s_stateTimer v then
      if negb (s_relaysOpenedInFault v) then
        ({| v with s_relaysOpenedInFault := true |}, allOff false w)
      else if 1000 <=? u32 (s_stateTimer v - s_lastFaultLogMs v) then (v, allOff true w)
      else (v, w)
    else (v, w) in
  if 1000 <=? u32 (s_stateTimer v - s_lastFaultLogMs v)
  then ({| v with s_lastFaultLogMs := s_stateTimer v |}, w)
  else (v, w).

(** The START_REQUEST case of IDLE. *)
(* [src ESP_AKS/lib/VcuLogic/VcuLogic.cpp:204-226 run] *)
Definition handleStartRequest v w : vcu Q W :=
  let VCU_snap := getTelemetrySnapshot v in
  let actuatorFault := hasActuatorFault w in
  if isReadyEntryPermitted VCU_snap && negb actuatorFault then transitionTo VcuState.READY v
  else
    let reason := if actuatorFault then reject_actuator_fault else readyRejectReason VCU_snap in
    if negb (bool_decide (s_lastReadyRejectReason v = Some reason)) ||
       (1000 <=? u32 (s_stateTimer v - s_lastReadyRejectLogMs v))
    then {| v with s_lastReadyRejectReason := Some reason; s_lastReadyRejectLogMs := s_stateTimer v |}
    else v.

(** The handling of one polled event; [true] is the early [return] of [run]. *)
(* [src ESP_AKS/lib/VcuLogic/VcuLogic.cpp:171-237 run] *)
Definition handleEvent (event : VcuEvent.t) v w : bool * vcu Q W * W :=
  if bool_decide (event = VcuEvent.EMERGENCY_STOP) then
    (true, transitionTo VcuState.EMERGENCY_STOP v, w)
  else if bool_decide (event = VcuEvent.FAULT_DETECTED) then
    (true, if negb (bool_decide (s_state v = VcuState.FAULT))
           then transitionTo VcuState.FAULT v else v, w)
  else
    let currentState := s_state v in
    if bool_decide (event = VcuEvent.RESET) &&
       (bool_decide (currentState = VcuState.FAULT) ||
        bool_decide (currentState = VcuState.EMERGENCY_STOP)) then
      if negb (isResetInterlockSatisfied (getTelemetrySnapshot v) (s_state v)) then (true, v, w)
      else
        let w := clearActuatorFault w in
        (true, transitionTo VcuState.IDLE v, w)
    else
      match currentState with
      | VcuState.IDLE =>
          (false, if bool_decide (event = VcuEvent.START_REQUEST)
                  then handleStartRequest v w else v, w)
      | VcuState.READY =>
          (false, if bool_decide (event = VcuEvent.DRIVE_ENABLE)
                  then transitionTo VcuState.DRIVE v else v, w)
      | _ => (false, v, w)
      end.

(* [src ESP_AKS/lib/VcuLogic/VcuLogic.cpp:239-258 run] *)
Definition periodic v w : vcu Q W * W :=
  match s_state v with
  | VcuState.IDLE => handleIdle v w
  | VcuState.READY => handleReady v w
  | VcuState.DRIVE => handleDrive v w
  | VcuState.EMERGENCY_STOP => handleEmergencyStop v w
  | VcuState.FAULT => handleFault v w
  | VcuState.INIT => (v, w)
  end.

(* [src ESP_AKS/lib/VcuLogic/VcuLogic.cpp:162-169 run] *)
Definition noteWarning v : vcu Q W :=
  if hasWarningCondition (getTelemetrySnapshot v)
  then (if negb (s_VCU_warningLogged v) then {| v with s_VCU_warningLogged := true |} else v)
  else {| v with s_VCU_warningLogged := false |}.

(** The part of [run] below the two atomic bypass flags. *)
(* [src ESP_AKS/lib/VcuLogic/VcuLogic.cpp:127-259 run] *)
Definition run_checks v w : vcu Q W * W :=
  let w := verifyIfDue (s_uptimeMs v) w in
  let st := s_state v in
  if (bool_decide (st = VcuState.READY) || bool_decide (st = VcuState.DRIVE)) && hasActuatorFault w
  then (transitionTo VcuState.FAULT v, w)
  else
    let currentState := s_state v in
    if (bool_decide (currentState = VcuState.IDLE) || bool_decide (currentState = VcuState.READY)
        || bool_decide (currentState = VcuState.DRIVE))
       && hasCriticalCondition (getTelemetrySnapshot v) (s_state v)
    then (transitionTo VcuState.FAULT v, w)
    else
      let v := noteWarning v in
      match pollEvent v with
      | Some (event, v) =>
          let '(ret, v, w) := handleEvent event v w in
          if ret then (v, w) else periodic v w
      | None => periodic v w
      end.

(* [src ESP_AKS/lib/VcuLogic/VcuLogic.cpp:102-259 run] *)
Definition run v w : vcu Q W * W :=
  let v := {| v with s_stateTimer := u32 (s_stateTimer v + TASK_PERIOD_MS);
                     s_uptimeMs := u32 (s_uptimeMs v + TASK_PERIOD_MS) |} in
  let eStop := s_eStopPending v in
  let v := {| v with s_eStopPending := false |} in
  if eStop && negb (bool_decide (s_state v = VcuState.EMERGENCY_STOP))
  then (transitionTo VcuState.EMERGENCY_STOP v, w)
  else
    let fault := s_faultPending v in
    let v := {| v with s_faultPending := false |} in
    if fault && negb (bool_decide (s_state v = VcuState.FAULT))
    then (transitionTo VcuState.FAULT v, w)
    else run_checks v w.

(* [src ESP_AKS/lib/VcuLogic/VcuLogic.cpp:261-287 postEvent] *)
Definition postEvent (event : VcuEvent.t) v : vcu Q W :=
  match s_eventQueue v with
  | None => v
  | Some q =>
      match event with
      | VcuEvent.EMERGENCY_STOP => {| v with s_eStopPending := true |}
      | VcuEvent.FAULT_DETECTED => {| v with s_faultPending := true |}
      | _ => {| v with s_eventQueue := Some (snd (xQueueSend event q)) |}
      end
  end.

(* [src ESP_AKS/lib/VcuLogic/VcuLogic.cpp:289-291 getState] *)
Definition getState v : VcuState.t := s_state v.

(* [src ESP_AKS/lib/VcuLogic/VcuLogic.cpp:293-300 setTelemetryData] *)
Definition setTelemetryData (d : TelemetryData) v : vcu Q W :=
  if negb (s_TEL_dataMutex v) then v else {| v with s_TEL_latestData := d |}.

(* [src ESP_AKS/lib/VcuLogic/VcuLogic.cpp:302-304 setTorqueSink] *)
Definition setTorqueSink (sink : option (Z → W → W)) v : vcu Q W :=
  {| v with s_torqueSink := sink |}.

(** The native tests' reset: the queue is drained, the mutex kept; the actuator, here the
    world, is bound again by [init]. *)
(* [src ESP_AKS/lib/VcuLogic/VcuLogic.cpp:491-497 resetForTest] *)
Fixpoint drainEvents (fuel : nat) (q : Q) : option Q :=
  match xQueueReceive q, fuel with
  | None, _ => Some q
  | Some _, O => None
  | Some (_, q), S fuel => drainEvents fuel q
  end.

(* [src ESP_AKS/lib/VcuLogic/VcuLogic.cpp:473-498 resetForTest] *)
Definition resetForTest (fuel : nat) v : option (vcu Q W) :=
  let v := {| v with
    s_state := VcuState.INIT; s_stateTimer := 0; s_uptimeMs := 0; s_TEL_latestData := TelemetryData_zero;
    s_VCU_warningLogged := false; s_eStopPending := false; s_faultPending := false;
    s_relaysOpenedInEstop := false; s_relaysOpenedInFault := false;
    s_lastEstopLogMs := 0; s_lastFaultLogMs := 0;
    s_lastReadyRejectReason := None; s_lastReadyRejectLogMs := 0; s_torqueSink := None |} in
  match s_eventQueue v with
  | None => Some v
  | Some q => q ← drainEvents fuel q; Some {| v with s_eventQueue := Some q |}
  end.

End Vcu.
