(* ===== verification/RelayManager.v ===== *)
(** [lib/RelayManager]: the driver of the contactor bank, an MCP23S17 port expander
    on SPI whose outputs are active low.

    The driver object is the record [relay_mgr]; its methods are state-monad
    programs on the object and the SPI device ([RelayM]).  The ESP-IDF SPI driver
    with the chip behind it is a parameter ([SpiMaster]); the theorems assume only
    what the data sheet says of a completed transaction: a read returns the register
    and changes none ([Mcp23s17Read]), and, where the order of writes matters, a
    write stores its value ([Mcp23s17Write]).  A write may fail silently: that the
    outputs follow the command is established by the read-back. *)
From S2P Require Import Prelude SystemConfig IRelayActuator.

(* [src ESP_AKS/lib/RelayManager/RelayManager.h:6-6 MCP23S17_IODIRA] *)
Definition MCP23S17_IODIRA : Z := 0x00.
(* [src ESP_AKS/lib/RelayManager/RelayManager.h:7-7 MCP23S17_IODIRB] *)
Definition MCP23S17_IODIRB : Z := 0x01.
(* [src ESP_AKS/lib/RelayManager/RelayManager.h:8-8 MCP23S17_OLATA] *)
Definition MCP23S17_OLATA : Z := 0x14.
(* [src ESP_AKS/lib/RelayManager/RelayManager.h:9-9 MCP23S17_OLATB] *)
Definition MCP23S17_OLATB : Z := 0x15.
(* [src ESP_AKS/lib/RelayManager/RelayManager.h:10-10 MCP23S17_ADDR] *)
Definition MCP23S17_ADDR : Z := 0x40.
(* [src ESP_AKS/lib/RelayManager/RelayManager.h:11-11 MCP23S17_ADDR_READ] *)
Definition MCP23S17_ADDR_READ : Z := 0x41.

(** The ESP-IDF SPI master driver, with the device behind it. *)
Class SpiMaster (D : Type) := {
  spi_bus_initialize : D → bool * D;                     (* ESP_OK? *)
  spi_bus_add_device : D → bool * D;                     (* ESP_OK? *)
  spi_device_transmit : list Z → D → option (list Z) * D; (* rx bytes, None: error *)
}.

(** The registers of the chip, and that a completed read returns one of them. *)
Class Mcp23s17Read (D : Type) `{SpiMaster D} := {
  chip_reg : D → Z → Z;
  chip_reg_u8 d r : is_u8 (chip_reg d r);
  chip_read r d rx d' : spi_device_transmit [MCP23S17_ADDR_READ; r; 0] d = (Some rx, d') →
    byte_at rx 2 = chip_reg d r;
  chip_read_frame r d o d' : spi_device_transmit [MCP23S17_ADDR_READ; r; 0] d = (o, d') →
    ∀ r', chip_reg d' r' = chip_reg d r';
}.

(** A write transaction completes and stores its value, on a chip in working order;
    setting up the ESP32 side of the bus does not reach it. *)
Class Mcp23s17Write (D : Type) `{Mcp23s17Read D} := {
  chip_write r x d : is_u8 x → ∃ rx d',
    spi_device_transmit [MCP23S17_ADDR; r; x] d = (Some rx, d') ∧
    ∀ r', chip_reg d' r' = if r' =? r then x else chip_reg d r';
  chip_bus_init d b d' : spi_bus_initialize d = (b, d') → ∀ r, chip_reg d' r = chip_reg d r;
  chip_add_device d b d' : spi_bus_add_device d = (b, d') → ∀ r, chip_reg d' r = chip_reg d r;
}.

(* [src ESP_AKS/lib/RelayManager/RelayManager.h:70-78 RelayManager] *)
Record relay_mgr := {
  s_relayState : Z;          (* std::atomic<uint16_t>, logical state, bit = closed *)
  s_spiDev : bool;           (* not nullptr? *)
  s_initialized : bool;
  s_actuatorFault : bool;    (* std::atomic *)
  s_lastVerifyMs : Z;        (* uint32_t *)
  s_verifyStarted : bool;
}.

(** The members' initialisers. *)
(* [src ESP_AKS/lib/RelayManager/RelayManager.h:70-78 RelayManager] *)
Definition relay_mgr_static : relay_mgr := {|
  s_relayState := 0; s_spiDev := false; s_initialized := false; s_actuatorFault := false;
  s_lastVerifyMs := 0; s_verifyStarted := false |}.

(** The singleton and the device it drives. *)
Record relay_world (D : Type) := { rm : relay_mgr; dev : D }.
Arguments rm {D}. Arguments dev {D}. Arguments Build_relay_world {D}.

Section Driver.
Context {D : Type} `{SpiMaster D}.

Definition RelayM (A : Type) : Type := M (relay_world D) A.
Definition upd (f : relay_mgr → relay_mgr) : RelayM () :=
  modify (λ w, {| w with rm := f (rm w) |}).
Definition transmit (tx : list Z) : RelayM (option (list Z)) := λ w,
  let '(r, d) := spi_device_transmit tx (dev w) in (r, {| w with dev := d |}).

(* [src ESP_AKS/lib/RelayManager/RelayManager.cpp:137-151 writeRegister] *)
Definition writeRegister (reg value : Z) : RelayM () :=
  s ← gets rm;
  if negb (s_spiDev s) then mret ()
  else ret ← transmit [MCP23S17_ADDR; reg; value]; mret ().

(** [None] is [return false]. *)
(* [src ESP_AKS/lib/RelayManager/RelayManager.cpp:154-177 readRegister] *)
Definition readRegister (reg : Z) : RelayM (option Z) :=
  s ← gets rm;
  if negb (s_spiDev s) then mret None
  else
    ret ← transmit [MCP23S17_ADDR_READ; reg; 0];
    mret (match ret with Some rx => Some (byte_at rx 2) | None => None end).

(* [src ESP_AKS/lib/RelayManager/RelayManager.cpp:179-190 reinitAndReassert] *)
Definition reinitAndReassert : RelayM () :=
  writeRegister MCP23S17_OLATA 0xFF;;
  writeRegister MCP23S17_OLATB 0xFF;;
  writeRegister MCP23S17_IODIRA 0x00;;
  writeRegister MCP23S17_IODIRB 0x00;;
  s ← gets rm;
  let hw := u16 (Z.lnot (s_relayState s)) in
  writeRegister MCP23S17_OLATA (Z.land hw 0xFF);;
  writeRegister MCP23S17_OLATB (Z.land (Z.shiftr hw 8) 0xFF).

(** The four reads joined by [&&]: the first failure skips the rest. *)
(* [src ESP_AKS/lib/RelayManager/RelayManager.cpp:200-204 verifyOutputs] *)
Definition readBack : RelayM (option (Z * Z * Z * Z)) :=
  a ← readRegister MCP23S17_OLATA;
  match a with None => mret None | Some olatA =>
  b ← readRegister MCP23S17_OLATB;
  match b with None => mret None | Some olatB =>
  c ← readRegister MCP23S17_IODIRA;
  match c with None => mret None | Some iodirA =>
  d ← readRegister MCP23S17_IODIRB;
  match d with None => mret None | Some iodirB =>
  mret (Some (olatA, olatB, iodirA, iodirB))
  end end end end.

(* [src ESP_AKS/lib/RelayManager/RelayManager.cpp:192-234 verifyOutputs] *)
Definition verifyOutputs : RelayM bool :=
  s ← gets rm;
  if negb (s_initialized s) || negb (s_spiDev s) then mret true
  else
    let hw := u16 (Z.lnot (s_relayState s)) in
    let expOlatA := Z.land hw 0xFF in
    let expOlatB := Z.land (Z.shiftr hw 8) 0xFF in
    r ← readBack;
    let match_ := match r with
      | Some (olatA, olatB, iodirA, iodirB) =>
          (olatA =? expOlatA) && (olatB =? expOlatB) && (iodirA =? 0) && (iodirB =? 0)
      | None => false
      end in
    if match_ : bool then mret true
    else
      reinitAndReassert;;
      upd (λ s, {| s with s_actuatorFault := true |});;
      r2 ← readBack;                       (* only logged *)
      mret false.

(* [src ESP_AKS/lib/RelayManager/RelayManager.cpp:236-248 verifyIfDue] *)
Definition verifyIfDue (nowMs : Z) : RelayM () :=
  s ← gets rm;
  if negb (s_initialized s) then mret ()
  else if negb (s_verifyStarted s) then
    upd (λ s, {| s with s_verifyStarted := true; s_lastVerifyMs := nowMs |})
  else if u32 (nowMs - s_lastVerifyMs s) <? RELAY_VERIFY_PERIOD_MS then mret ()
  else
    upd (λ s, {| s with s_lastVerifyMs := nowMs |});;
    r ← verifyOutputs; mret ().

(* [src ESP_AKS/lib/RelayManager/RelayManager.cpp:13-60 begin] *)
Definition begin : RelayM bool :=
  ret ← (λ w, let '(ok, d) := spi_bus_initialize (dev w) in (ok, {| w with dev := d |}));
  if negb ret then mret false
  else
    ret ← (λ w, let '(ok, d) := spi_bus_add_device (dev w) in (ok, {| w with dev := d |}));
    if negb ret then mret false
    else
      upd (λ s, {| s with s_spiDev := true |});;
      writeRegister MCP23S17_OLATA 0xFF;;
      writeRegister MCP23S17_OLATB 0xFF;;
      writeRegister MCP23S17_IODIRA 0x00;;
      writeRegister MCP23S17_IODIRB 0x00;;
      upd (λ s, {| s with s_relayState := 0; s_initialized := true |});;
      r ← verifyOutputs;
      mret true.

(** Writes the active-low image of [cur] to the two output latches. *)
(* [src ESP_AKS/lib/RelayManager/RelayManager.cpp:77-80 setRelay] *)
Definition writeOutputs (cur : Z) : RelayM () :=
  let hw := u16 (Z.lnot cur) in
  writeRegister MCP23S17_OLATA (Z.land hw 0xFF);;
  writeRegister MCP23S17_OLATB (Z.land (Z.shiftr hw 8) 0xFF).

(* [src ESP_AKS/lib/RelayManager/RelayManager.cpp:62-86 setRelay] *)
Definition setRelay (channel : Z) (state : bool) : RelayM () :=
  s ← gets rm;
  if negb (s_initialized s) || (RELAY_TOTAL_CHANNELS <=? channel) then mret ()
  else
    let cur := if state then Z.lor (s_relayState s) (Z.shiftl 1 channel)
               else Z.land (s_relayState s) (Z.lnot (Z.shiftl 1 channel)) in
    upd (λ s, {| s with s_relayState := cur |});;
    writeOutputs cur;;
    r ← verifyOutputs; mret ().

(* [src ESP_AKS/lib/RelayManager/RelayManager.cpp:88-102 allOn] *)
Definition allOn : RelayM () :=
  s ← gets rm;
  if negb (s_initialized s) then mret ()
  else
    let cur := Z.shiftl 1 RELAY_TOTAL_CHANNELS - 1 in
    upd (λ s, {| s with s_relayState := cur |});;
    writeOutputs cur;;
    r ← verifyOutputs; mret ().

(* [src ESP_AKS/lib/RelayManager/RelayManager.cpp:104-116 allOff] *)
Definition allOff (silent : bool) : RelayM () :=
  upd (λ s, {| s with s_relayState := 0 |});;
  (writeRegister MCP23S17_OLATA 0xFF;;
   writeRegister MCP23S17_OLATB 0xFF);;
  r ← verifyOutputs; mret ().

(* [src ESP_AKS/lib/RelayManager/RelayManager.cpp:118-124 getRelayState] *)
Definition getRelayState (channel : Z) (s : relay_mgr) : bool :=
  if RELAY_TOTAL_CHANNELS <=? channel then false
  else negb (Z.land (Z.shiftr (s_relayState s) channel) 1 =? 0).

(** The native tests' reset: the members as constructed. *)
(* [src ESP_AKS/lib/RelayManager/RelayManager.cpp:127-134 resetForTest] *)
Definition resetForTest (s : relay_mgr) : relay_mgr :=
  {| s_relayState := 0; s_initialized := false; s_spiDev := false; s_actuatorFault := false;
            s_lastVerifyMs := 0; s_verifyStarted := false |}.

(* [src ESP_AKS/lib/RelayManager/RelayManager.cpp:250-252 hasActuatorFault] *)
Definition hasActuatorFault (s : relay_mgr) : bool := s_actuatorFault s.

(* [src ESP_AKS/lib/RelayManager/RelayManager.cpp:254-256 clearActuatorFault] *)
Definition clearActuatorFault : RelayM () := upd (λ s, {| s with s_actuatorFault := false |}).

End Driver.

(** ** What the outputs do

    Channel [ch] is driven by bit [ch] of port A (0..7) or bit [ch - 8] of port B.
    Its contactor is energised when the pin is an output and drives low. *)
Section Outputs.
Context {D : Type} `{Mcp23s17Read D}.

Definition contactor_closed (d : D) (ch : Z) : bool :=
  if ch <? 8
  then negb (Z.testbit (chip_reg d MCP23S17_IODIRA) ch) && negb (Z.testbit (chip_reg d MCP23S17_OLATA) ch)
  else negb (Z.testbit (chip_reg d MCP23S17_IODIRB) (ch - 8)) &&
       negb (Z.testbit (chip_reg d MCP23S17_OLATB) (ch - 8)).

(** The registers hold the active-low image of [cur] on output pins. *)
Record driven (d : D) (cur : Z) : Prop := {
  dr_olata : chip_reg d MCP23S17_OLATA = Z.land (u16 (Z.lnot cur)) 0xFF;
  dr_olatb : chip_reg d MCP23S17_OLATB = Z.land (Z.shiftr (u16 (Z.lnot cur)) 8) 0xFF;
  dr_iodira : chip_reg d MCP23S17_IODIRA = 0;
  dr_iodirb : chip_reg d MCP23S17_IODIRB = 0;
}.

(** The latch images, bit by bit. *)
Lemma olata_bit cur ch : 0 <= ch < 8 →
  Z.testbit (Z.land (u16 (Z.lnot cur)) 0xFF) ch = negb (Z.testbit cur ch).
Proof.
  intros Hch. change 0xFF with (Z.ones 8). rewrite Z.land_ones, Z.mod_pow2_bits_low by lia.
  unfold u16, wrapu. rewrite Z.mod_pow2_bits_low, Z.lnot_spec by lia. done.
Qed.
Lemma olatb_bit cur ch : 8 <= ch < 16 →
  Z.testbit (Z.land (Z.shiftr (u16 (Z.lnot cur)) 8) 0xFF) (ch - 8) = negb (Z.testbit cur ch).
Proof.
  intros Hch. change 0xFF with (Z.ones 8). rewrite Z.land_ones, Z.mod_pow2_bits_low by lia.
  rewrite Z.shiftr_spec by lia. replace (ch - 8 + 8) with ch by lia.
  unfold u16, wrapu. rewrite Z.mod_pow2_bits_low, Z.lnot_spec by lia. done.
Qed.

Lemma driven_contactors d cur ch : driven d cur → 0 <= ch < 16 →
  contactor_closed d ch = Z.testbit cur ch.
Proof.
  intros [Ha Hb Hia Hib] Hch. unfold contactor_closed. rewrite Ha, Hb, Hia, Hib, !Z.bits_0.
  destruct (Z.ltb_spec ch 8); cbn [negb andb];
    rewrite ?olata_bit, ?olatb_bit by lia; by rewrite negb_involutive.
Qed.

(** Every contactor that is energised is commanded. *)
Definition within_command (cur : Z) (d : D) : Prop :=
  ∀ ch, 0 <= ch < RELAY_TOTAL_CHANNELS → contactor_closed d ch = true → Z.testbit cur ch = true.

(** ** The methods, on the driver object and the registers *)

Implicit Types w : relay_world D.

Lemma writeRegister_rm r x w : rm (writeRegister r x w).2 = rm w.
Proof.
  unfold writeRegister, gets, transmit, mbind, M_bind. cbn.
  destruct (s_spiDev (rm w)); [|done]. cbn. by destruct (spi_device_transmit _ _).
Qed.

Lemma readRegister_spec r w :
  let '(o, w') := readRegister r w in
  rm w' = rm w ∧ (∀ r', chip_reg (dev w') r' = chip_reg (dev w) r') ∧
  (∀ x, o = Some x → x = chip_reg (dev w) r).
Proof.
  unfold readRegister, gets, transmit, mbind, M_bind. cbn.
  destruct (s_spiDev (rm w)); [|done]. cbn.
  destruct (spi_device_transmit _ _) as [o d'] eqn:E. cbn. split_and!; [done|by eapply chip_read_frame|].
  intros x. destruct o as [rx|]; [|done]. intros [= <-]. by eapply chip_read.
Qed.

Lemma readBack_spec w :
  let '(o, w') := readBack w in
  rm w' = rm w ∧ (∀ r', chip_reg (dev w') r' = chip_reg (dev w) r') ∧
  (∀ a b c d, o = Some (a, b, c, d) →
     a = chip_reg (dev w) MCP23S17_OLATA ∧ b = chip_reg (dev w) MCP23S17_OLATB ∧
     c = chip_reg (dev w) MCP23S17_IODIRA ∧ d = chip_reg (dev w) MCP23S17_IODIRB).
Proof.
  unfold readBack, mbind, M_bind.
  pose proof (readRegister_spec MCP23S17_OLATA w) as H1.
  destruct (readRegister MCP23S17_OLATA w) as [[a|] w1]; [|naive_solver].
  pose proof (readRegister_spec MCP23S17_OLATB w1) as H2.
  destruct (readRegister MCP23S17_OLATB w1) as [[b|] w2]; [|cbn; naive_solver congruence].
  pose proof (readRegister_spec MCP23S17_IODIRA w2) as H3.
  destruct (readRegister MCP23S17_IODIRA w2) as [[c|] w3]; [|cbn; naive_solver congruence].
  pose proof (readRegister_spec MCP23S17_IODIRB w3) as H4.
  destruct (readRegister MCP23S17_IODIRB w3) as [[d|] w4]; [|cbn; naive_solver congruence].
  cbn. naive_solver congruence.
Qed.

Lemma reinitAndReassert_rm w : rm (reinitAndReassert w).2 = rm w.
Proof.
  unfold reinitAndReassert, gets, mbind, M_bind.
  repeat match goal with
  | |- context [let '(_, _) := writeRegister ?r ?x ?v in _] =>
      let E := fresh in pose proof (writeRegister_rm r x v) as E;
      destruct (writeRegister r x v) as [[] ?]; cbn in E
  end. rewrite writeRegister_rm. congruence.
Qed.

(** The driver is initialised and its shadow state has only the ten channels. *)
Definition mgr_ok (s : relay_mgr) : Prop :=
  s_initialized s = true ∧ s_spiDev s = true ∧ 0 <= s_relayState s < 1024.

(** [verifyOutputs] answers true only if the registers hold the image of the command,
    otherwise it latches the fault; it never changes the command. *)
Lemma verifyOutputs_spec w : mgr_ok (rm w) →
  let '(b, w') := verifyOutputs w in
  rm w' = {| (rm w) with s_actuatorFault := s_actuatorFault (rm w) || negb b |} ∧
  (b = true → driven (dev w') (s_relayState (rm w))).
Proof.
  intros (Hi & Hs & _). unfold verifyOutputs, gets, mbind, M_bind. rewrite Hi, Hs. cbn [negb orb].
  pose proof (readBack_spec w) as Hr. destruct (readBack w) as [o w1].
  destruct Hr as (Hrm & Hreg & Hval).
  destruct (match o with Some _ => _ | None => false end) eqn:Hm.
  - cbn. split.
    { rewrite Hrm, orb_false_r. destruct (rm w). cbn in Hi, Hs. by subst. }
    intros _. destruct o as [[[[a b] c] d]|]; [|done].
    apply andb_true_iff in Hm as [[[?%Z.eqb_eq ?%Z.eqb_eq]%andb_true_iff ?%Z.eqb_eq]%andb_true_iff ?%Z.eqb_eq].
    destruct (Hval a b c d eq_refl) as (-> & -> & -> & ->).
    constructor; by rewrite Hreg.
  - pose proof (reinitAndReassert_rm w1) as Hrr. destruct (reinitAndReassert w1) as [[] w2].
    unfold upd, modify. pose proof (readBack_spec {| w2 with rm := {| (rm w2) with s_actuatorFault := true |} |}) as Hr2.
    destruct (readBack _) as [o2 w3]. cbn in *. destruct Hr2 as (-> & _ & _).
    rewrite Hrr, Hrm, orb_true_r. split; [|done].
    destruct (rm w). cbn in Hi, Hs. by subst.
Qed.

(** A method whose last action is [verifyOutputs]: unless it latched a fault, the
    outputs are the image of the command. *)
Definition confirmed w : Prop :=
  s_actuatorFault (rm w) = false → driven (dev w) (s_relayState (rm w)).

Lemma begin_ok w : (begin w).1 = true → mgr_ok (rm (begin w).2).
Proof.
  unfold begin, upd, modify, gets, mret, M_ret, mbind, M_bind.
  destruct (spi_bus_initialize (dev w)) as [[] d1]; cbn; [|discriminate].
  destruct (spi_bus_add_device d1) as [[] d2]; cbn; [|discriminate].
  repeat match goal with
  | |- context [let '(_, _) := writeRegister ?r ?x ?v in _] =>
      let E := fresh in pose proof (writeRegister_rm r x v) as E;
      destruct (writeRegister r x v) as [[] ?]; cbn [snd] in E
  end.
  match goal with |- context [verifyOutputs ?v] => set (w1 := v) end.
  assert (Hw1 : mgr_ok (rm w1)).
  { unfold mgr_ok, w1. cbn. split_and!; [done| |lia|lia].
    repeat match goal with E : rm ?a = _ |- context [rm ?a] => rewrite E; clear E end. done. }
  pose proof (verifyOutputs_spec w1 Hw1) as Hv. destruct (verifyOutputs w1) as [b w2].
  destruct Hv as [Hrm _]. intros _. cbn [snd]. rewrite Hrm. exact Hw1.
Qed.

Lemma verified w : mgr_ok (rm w) →
  let w' := (verifyOutputs w).2 in
  mgr_ok (rm w') ∧ s_relayState (rm w') = s_relayState (rm w) ∧ confirmed w' ∧
  (s_actuatorFault (rm w) = true → s_actuatorFault (rm w') = true).
Proof.
  intros Hok. pose proof (verifyOutputs_spec w Hok) as Hv.
  destruct (verifyOutputs w) as [b w']. destruct Hv as [Hrm Hd]. cbn. unfold confirmed, mgr_ok in *.
  rewrite Hrm. cbn. destruct (s_actuatorFault (rm w)), b; cbn in *; auto.
Qed.

(** The command path shared by [allOn], [allOff] and [setRelay]: the shadow state is
    stored, the latches written, the outputs verified. *)
Lemma command_spec cur (writes : RelayM ()) w :
  (∀ w, rm (writes w).2 = rm w) → 0 <= cur < 1024 → mgr_ok (rm w) →
  let m : RelayM () :=
    upd (λ s, {| s with s_relayState := cur |});; writes;; (r ← verifyOutputs; mret ()) in
  let w' := (m w).2 in
  mgr_ok (rm w') ∧ s_relayState (rm w') = cur ∧ confirmed w' ∧
  (s_actuatorFault (rm w) = true → s_actuatorFault (rm w') = true).
Proof.
  intros Hwr Hc (Hi & Hs & _). unfold upd, modify, mbind, M_bind. cbn zeta beta iota.
  set (w0 := {| w with rm := _ |}). specialize (Hwr w0).
  destruct (writes w0) as [[] w1]. cbn in Hwr.
  destruct (verified w1) as (Hok & Hst & Hcf & Hft).
  { rewrite Hwr. split_and!; cbn; auto; lia. }
  destruct (verifyOutputs w1) as [b w2]. cbn in *. rewrite Hst, Hwr.
  split_and!; try done. rewrite Hwr in Hft. done.
Qed.

Lemma two_writes_rm r x r' x' w :
  rm ((writeRegister r x;; writeRegister r' x' : RelayM ()) w).2 = rm w.
Proof.
  unfold mbind, M_bind. pose proof (writeRegister_rm r x w) as E.
  destruct (writeRegister r x w) as [[] w1]. cbn in E. by rewrite writeRegister_rm.
Qed.

(** What every command leaves behind. *)
Record commanded (cur : Z) w w' : Prop := {
  cm_ok : mgr_ok (rm w');
  cm_state : s_relayState (rm w') = cur;
  cm_confirmed : confirmed w';
  cm_latched : s_actuatorFault (rm w) = true → s_actuatorFault (rm w') = true;
}.

Lemma allOff_spec silent w : mgr_ok (rm w) → commanded 0 w (allOff silent w).2.
Proof.
  intros Hok. destruct (command_spec 0
    (writeRegister MCP23S17_OLATA 0xFF;; writeRegister MCP23S17_OLATB 0xFF) w)
    as (? & ? & ? & ?); [apply two_writes_rm|lia|done|by constructor].
Qed.

Lemma allOn_spec w : mgr_ok (rm w) → commanded 1023 w (allOn w).2.
Proof.
  intros Hok. destruct (command_spec 1023 (writeOutputs 1023) w)
    as (? & ? & ? & ?); [apply two_writes_rm|lia|done|].
  destruct Hok as (Hi & _). unfold allOn, gets, mbind, M_bind in *. rewrite Hi.
  by constructor.
Qed.

(** [setRelay] on a valid channel sets exactly that bit of the command. *)
Definition set_bit (cur ch : Z) (state : bool) : Z :=
  if state then Z.lor cur (Z.shiftl 1 ch) else Z.land cur (Z.lnot (Z.shiftl 1 ch)).

Lemma set_bit_spec cur ch state n : 0 <= ch → 0 <= n →
  Z.testbit (set_bit cur ch state) n = if n =? ch then state else Z.testbit cur n.
Proof.
  intros Hch Hn. unfold set_bit. rewrite Z.shiftl_1_l.
  destruct state; rewrite ?Z.lor_spec, ?Z.land_spec, ?Z.lnot_spec by done;
    rewrite Z.pow2_bits_eqb by done; destruct (Z.eqb_spec n ch) as [->|Hne];
    rewrite ?Z.eqb_refl; rewrite ?(proj2 (Z.eqb_neq ch n)) by done; cbn;
    by rewrite ?orb_true_r, ?orb_false_r, ?andb_false_r, ?andb_true_r.
Qed.

Lemma testbit_range cur n : 0 <= n → 0 <= cur → (∀ k, n <= k → Z.testbit cur k = false) →
  cur < 2 ^ n.
Proof.
  intros Hn Hc Hb. destruct (Z.eq_dec cur 0) as [->|Hne]; [lia|].
  apply Z.log2_lt_pow2; [lia|]. apply Z.nle_gt. intros Hle.
  specialize (Hb _ Hle). by rewrite Z.bit_log2 in Hb by lia.
Qed.

Lemma set_bit_range cur ch state : 0 <= cur < 1024 → 0 <= ch < 10 → 0 <= set_bit cur ch state < 1024.
Proof.
  intros Hc Hch. assert (0 <= set_bit cur ch state).
  { unfold set_bit. rewrite Z.shiftl_1_l. destruct state; [apply Z.lor_nonneg|apply Z.land_nonneg]; lia. }
  split; [done|]. change 1024 with (2 ^ 10). apply testbit_range; [done..|].
  intros k Hk. rewrite set_bit_spec by lia. rewrite (proj2 (Z.eqb_neq k ch)) by lia.
  apply Z.bits_above_log2; [lia|]. destruct (Z.eq_dec cur 0) as [->|]; [cbn; lia|].
  assert (Z.log2 cur < 10); [|lia]. apply Z.log2_lt_pow2; lia.
Qed.

Lemma setRelay_spec ch state w : mgr_ok (rm w) → 0 <= ch →
  if ch <? RELAY_TOTAL_CHANNELS
  then commanded (set_bit (s_relayState (rm w)) ch state) w (setRelay ch state w).2
  else setRelay ch state w = ((), w).
Proof.
  intros Hok Hch. unfold setRelay, gets, mbind, M_bind. rewrite (proj1 Hok). cbn [negb orb].
  unfold RELAY_TOTAL_CHANNELS in *. destruct (Z.ltb_spec ch 10) as [Hlt|Hge].
  2:{ by rewrite (proj2 (Z.leb_le 10 ch)) by lia. }
  rewrite (proj2 (Z.leb_gt 10 ch)) by lia.
  set (cur := set_bit (s_relayState (rm w)) ch state).
  assert (0 <= cur < 1024) by (apply set_bit_range; [apply Hok|lia]).
  destruct (command_spec cur (writeOutputs cur) w) as (? & ? & ? & ?);
    [apply two_writes_rm|done|done|by constructor].
Qed.

Lemma verifyIfDue_spec t w : mgr_ok (rm w) →
  let w' := (verifyIfDue t w).2 in
  mgr_ok (rm w') ∧ s_relayState (rm w') = s_relayState (rm w) ∧
  (s_actuatorFault (rm w) = true → s_actuatorFault (rm w') = true).
Proof.
  intros Hok. unfold verifyIfDue, gets, upd, modify, mbind, M_bind. rewrite (proj1 Hok).
  cbn [negb]. destruct (s_verifyStarted (rm w)); cbn [negb]; [|done].
  case_match; [done|]. set (w1 := {| w with rm := _ |}).
  destruct (verified w1) as (? & ? & _ & ?); [done|].
  by destruct (verifyOutputs w1) as [b w2].
Qed.

(** The singleton as the relay driver of [IRelayActuator.v]. *)
(* [src ESP_AKS/src/main.cpp:130-149 RelayActuatorAdapter] *)
#[export] Instance RelayActuatorAdapter : IRelayActuator (relay_world D) := {
  IRelayActuator.allOn w := (allOn w).2;
  IRelayActuator.allOff s w := (allOff s w).2;
  IRelayActuator.setRelay ch s w := (setRelay ch s w).2;
  IRelayActuator.verifyIfDue t w := (verifyIfDue t w).2;
  IRelayActuator.verifyOutputs w := verifyOutputs w;
  IRelayActuator.hasActuatorFault w := hasActuatorFault (rm w);
  IRelayActuator.clearActuatorFault w := (clearActuatorFault w).2;
}.

(** The driver keeps the contract the vehicle control unit relies on; its notion of
    "open" is physical: no contactor's output is energised. *)
#[export] Instance RelayManager_contract : RelayActuatorContract (relay_world D).
Proof.
  refine {| ra_ok w := mgr_ok (rm w); ra_commanded w := s_relayState (rm w);
    ra_open w := ∀ ch, 0 <= ch < RELAY_TOTAL_CHANNELS → contactor_closed (dev w) ch = false |}; cbn.
  - intros w Hw. apply (allOn_spec w Hw).
  - intros s w Hw. apply (allOff_spec s w Hw).
  - intros t w Hw. apply (verifyIfDue_spec t w Hw).
  - done.
  - intros w Hw. apply (allOn_spec w Hw).
  - intros s w Hw. apply (allOff_spec s w Hw).
  - intros t w Hw. apply (verifyIfDue_spec t w Hw).
  - done.
  - intros s w Hw Hf ch Hch. destruct (allOff_spec s w Hw) as [_ Hst Hc _].
    specialize (Hc Hf). rewrite Hst in Hc. unfold RELAY_TOTAL_CHANNELS in Hch.
    rewrite (driven_contactors _ _ ch Hc) by lia. apply Z.bits_0.
  - intros w Hw. apply (allOn_spec w Hw).
  - intros s w Hw. apply (allOff_spec s w Hw).
  - intros t w Hw. apply (verifyIfDue_spec t w Hw).
  - done.
Defined.

(** ** The properties *)

(** [C10] The outputs follow the command: after [allOn], [allOff], [setRelay] on a valid
    channel or [verifyOutputs], on an initialised driver and whatever the chip did with
    the writes, either the actuator fault is latched or every one of the ten contactors
    is energised exactly when its bit of the commanded state is set; and the commanded
    state is all ones, zero, the old one with that bit changed, or unchanged. *)
Theorem outputs_follow_command ch0 state silent w :
  mgr_ok (rm w) → 0 <= ch0 < RELAY_TOTAL_CHANNELS →
  let ok (cur : Z) (w' : relay_world D) :=
    s_relayState (rm w') = cur ∧
    (hasActuatorFault (rm w') = true ∨
     ∀ ch, 0 <= ch < RELAY_TOTAL_CHANNELS → contactor_closed (dev w') ch = Z.testbit cur ch) in
  ok 1023 (allOn w).2 ∧ ok 0 (allOff silent w).2 ∧
  ok (set_bit (s_relayState (rm w)) ch0 state) (setRelay ch0 state w).2 ∧
  ok (s_relayState (rm w)) (verifyOutputs w).2.
Proof.
  intros Hok Hch0 ok. pose proof (setRelay_spec ch0 state w Hok ltac:(lia)) as Hset.
  rewrite (proj2 (Z.ltb_lt _ _)) in Hset by lia. unfold RELAY_TOTAL_CHANNELS in *.
  assert (Hcm : ∀ cur w', commanded cur w w' → ok cur w').
  { intros cur w' [_ Hst Hcf _]. split; [done|]. unfold hasActuatorFault.
    destruct (s_actuatorFault (rm w')) eqn:Hf; [by left|right].
    intros ch Hch. specialize (Hcf Hf). rewrite Hst in Hcf. apply driven_contactors; [done|lia]. }
  split_and!; apply Hcm; [by apply allOn_spec|by apply allOff_spec|done|].
  destruct (verified w Hok) as (? & ? & ? & ?). by constructor.
Qed.

Lemma getRelayState_bit ch s : 0 <= ch < RELAY_TOTAL_CHANNELS →
  getRelayState ch s = Z.testbit (s_relayState s) ch.
Proof.
  intros Hch. unfold getRelayState. rewrite (proj2 (Z.leb_gt _ _)) by lia.
  change 1 with (Z.ones 1). rewrite Z.land_ones, <- Z.bit0_mod, Z.shiftr_spec by lia.
  rewrite Z.add_0_l. by destruct (Z.testbit _ _).
Qed.

Lemma resetForTest_static s : resetForTest s = relay_mgr_static.
Proof. done. Qed.

(** Reading back a channel after a command returns what was commanded: [setRelay]
    changes exactly one channel as [getRelayState] reports it, and calls with a channel
    outside the bank change nothing. *)
Theorem setRelay_getRelayState ch state w ch' :
  mgr_ok (rm w) → 0 <= ch → 0 <= ch' < RELAY_TOTAL_CHANNELS →
  getRelayState ch' (rm (setRelay ch state w).2) =
  if (ch' =? ch) && (ch <? RELAY_TOTAL_CHANNELS) then state else getRelayState ch' (rm w).
Proof.
  intros Hok Hch Hch'. pose proof (setRelay_spec ch state w Hok Hch) as Hs.
  rewrite !getRelayState_bit by done. destruct (ch <? RELAY_TOTAL_CHANNELS) eqn:E.
  - destruct Hs as [_ -> _ _]. rewrite set_bit_spec by lia. by rewrite andb_true_r.
  - rewrite Hs, andb_false_r. done.
Qed.

(** One tick of the vehicle control unit later (20 ms), [k] times. *)
Definition verify_ticks (t : Z) (k : nat) w : relay_world D :=
  foldl (λ w i, (verifyIfDue (u32 (t + 20 * Z.of_nat i)) w).2) w (seq 1 k).

(** Verification period: after a verification at [t], the calls of the next four
    20 ms ticks do nothing and the fifth reads the outputs back, also when the 32-bit
    millisecond counter wraps in between; so outputs that disagree with the command are
    noticed and latched within RELAY_VERIFY_PERIOD_MS. *)
Theorem verify_period t w :
  is_u32 t → mgr_ok (rm w) → s_verifyStarted (rm w) = true → s_lastVerifyMs (rm w) = t →
  verify_ticks t 4 w = w ∧
  verify_ticks t 5 w =
    (verifyOutputs {| w with rm := {| (rm w) with s_lastVerifyMs := u32 (t + 100) |} |}).2.
Proof.
  intros Ht (Hi & _) Hs Hl.
  assert (Hstep : ∀ k, 1 <= k <= 4 → (verifyIfDue (u32 (t + 20 * k)) w).2 = w).
  { intros k Hk. unfold verifyIfDue, gets, mbind, M_bind. rewrite Hi, Hs, Hl. cbn [negb].
    rewrite (proj2 (Z.ltb_lt _ _)); [done|]. unfold RELAY_VERIFY_PERIOD_MS. zlia. }
  assert (H4 : verify_ticks t 4 w = w).
  { unfold verify_ticks. cbn [seq foldl Z.of_nat Pos.of_succ_nat Pos.succ].
    by rewrite !Hstep by lia. }
  split; [done|]. unfold verify_ticks in *. rewrite seq_S, foldl_app, H4. cbn [foldl].
  unfold verifyIfDue, gets, upd, modify, mbind, M_bind. rewrite Hi, Hs, Hl. cbn [negb].
  change (20 * Z.of_nat (1 + 4)) with 100.
  rewrite (proj2 (Z.ltb_ge _ _)) by (unfold RELAY_VERIFY_PERIOD_MS; zlia).
  cbn beta iota. rewrite Hi, Hs. by destruct (verifyOutputs _).
Qed.
End Outputs.

(** ** Order of the writes

    A device that records every state of the chip it goes through, one after each
    SPI transaction. *)
Record traced (D : Type) := { td : D; visited : list D }.
Arguments td {D}. Arguments visited {D}. Arguments Build_traced {D}.

#[export] Instance traced_spi D `{SpiMaster D} : SpiMaster (traced D) := {
  spi_bus_initialize t :=
    let '(b, d) := spi_bus_initialize (td t) in (b, {| td := d; visited := visited t ++ [d] |});
  spi_bus_add_device t :=
    let '(b, d) := spi_bus_add_device (td t) in (b, {| td := d; visited := visited t ++ [d] |});
  spi_device_transmit tx t :=
    let '(r, d) := spi_device_transmit tx (td t) in (r, {| td := d; visited := visited t ++ [d] |});
}.

Section Order.
Context {D : Type} `{Mcp23s17Write D}.
Implicit Types w : relay_world (traced D).

(** The state so far: nothing energised beyond [cur], now or at any time before. *)
Record tame (cur : Z) w : Prop := {
  tm_spi : s_spiDev (rm w) = true;
  tm_cmd : s_relayState (rm w) = cur;
  tm_now : within_command cur (td (dev w));
  tm_past : Forall (within_command cur) (visited (dev w));
}.

Definition port_off (d : D) : Prop :=
  chip_reg d MCP23S17_OLATA = 0xFF ∧ chip_reg d MCP23S17_OLATB = 0xFF.

Lemma ff_bit n : 0 <= n < 8 → Z.testbit 0xFF n = true.
Proof. intros. change 0xFF with (Z.ones 8). apply Z.ones_spec_low. lia. Qed.

(** The writes of the safe sequences, on the set of energised contactors. *)
Lemma within_write cur (d d' : D) r x :
  (∀ r', chip_reg d' r' = if r' =? r then x else chip_reg d r') → within_command cur d →
  ((r = MCP23S17_OLATA ∨ r = MCP23S17_OLATB) ∧ x = 0xFF) ∨
  ((r = MCP23S17_IODIRA ∨ r = MCP23S17_IODIRB) ∧ port_off d) ∨
  (r = MCP23S17_OLATA ∧ x = Z.land (u16 (Z.lnot cur)) 0xFF) ∨
  (r = MCP23S17_OLATB ∧ x = Z.land (Z.shiftr (u16 (Z.lnot cur)) 8) 0xFF) →
  within_command cur d'.
Proof.
  unfold within_command, contactor_closed, RELAY_TOTAL_CHANNELS.
  intros Hr Hw Hcase ch Hch. specialize (Hw ch Hch). rewrite !Hr. clear Hr.
  destruct Hcase as [[[->| ->] ->]|[[[->| ->] [Ha Hb]]|[[-> ->]|[-> ->]]]]; cbn;
    destruct (Z.ltb_spec ch 8); try done;
    rewrite ?Ha, ?Hb, ?ff_bit, ?olata_bit, ?olatb_bit by lia;
    rewrite ?andb_false_r, ?negb_involutive; try done; by intros [_ ?]%andb_true_iff.
Qed.

Lemma tame_write cur r x w : tame cur w → is_u8 x →
  let d := td (dev w) in
  ((r = MCP23S17_OLATA ∨ r = MCP23S17_OLATB) ∧ x = 0xFF) ∨
  ((r = MCP23S17_IODIRA ∨ r = MCP23S17_IODIRB) ∧ port_off d) ∨
  (r = MCP23S17_OLATA ∧ x = Z.land (u16 (Z.lnot cur)) 0xFF) ∨
  (r = MCP23S17_OLATB ∧ x = Z.land (Z.shiftr (u16 (Z.lnot cur)) 8) 0xFF) →
  let w' := (writeRegister r x w).2 in
  tame cur w' ∧ rm w' = rm w ∧
  ∀ r', chip_reg (td (dev w')) r' = if r' =? r then x else chip_reg d r'.
Proof.
  intros [Hs Hcmd Hn Hp] Hx d Hcase. unfold writeRegister, gets, transmit, mbind, M_bind. rewrite Hs.
  destruct (chip_write r x d Hx) as (rx & d' & Et & Hreg). cbn. fold d. rewrite Et. cbn.
  assert (within_command cur d') by (by eapply within_write).
  split_and!; [|by destruct (rm w)|done].
  constructor; cbn; [done..|]. apply Forall_app_2; [done|by constructor].
Qed.

(** Predicate transformer style: [keeps_tame cur m] says [m] keeps [tame] and the object. *)
Definition keeps_tame {A} (cur : Z) (m : RelayM A) : Prop :=
  ∀ w, tame cur w → tame cur (m w).2 ∧ rm (m w).2 = rm w.

Lemma keeps_tame_bind {A B} cur (m : RelayM A) (f : A → RelayM B) :
  keeps_tame cur m → (∀ a, keeps_tame cur (f a)) → keeps_tame cur (mbind f m).
Proof.
  intros Hm Hf w Hw. unfold mbind, M_bind. destruct (Hm w Hw) as [Hw1 E1].
  destruct (m w) as [a w1]. cbn in *. destruct (Hf a w1 Hw1) as [Hw2 E2].
  destruct (f a w1) as [b w2]. cbn in *. split; [done|congruence].
Qed.
Lemma keeps_tame_ret {A} cur (a : A) : keeps_tame cur (mret a).
Proof. intros w Hw. done. Qed.

Lemma keeps_tame_read cur r : keeps_tame cur (readRegister r).
Proof.
  intros w [Hs Hcmd Hn Hp]. unfold readRegister, gets, transmit, mbind, M_bind. rewrite Hs. cbn.
  destruct (spi_device_transmit _ (td (dev w))) as [o d'] eqn:E. cbn.
  assert (within_command cur d').
  { intros ch Hch. unfold contactor_closed. rewrite !(chip_read_frame _ _ _ _ E). by apply Hn. }
  split; [|by destruct (rm w)]. constructor; cbn; [done..|].
  apply Forall_app_2; [done|by constructor].
Qed.

Lemma keeps_tame_readBack cur : keeps_tame cur readBack.
Proof.
  unfold readBack. repeat first
    [ apply keeps_tame_bind; [apply keeps_tame_read|intros [?|]] | apply keeps_tame_ret ].
Qed.

(** The safe initialisation order: latches high, then pins to outputs. *)
Lemma safe_init_spec cur w : tame cur w →
  ∃ w', tame cur w' ∧ rm w' = rm w ∧ ∀ A (k : RelayM A),
    (writeRegister MCP23S17_OLATA 0xFF;; writeRegister MCP23S17_OLATB 0xFF;;
     writeRegister MCP23S17_IODIRA 0x00;; writeRegister MCP23S17_IODIRB 0x00;; k) w = k w'.
Proof.
  intros Hw. unfold mbind, M_bind.
  destruct (tame_write cur MCP23S17_OLATA 0xFF w) as (T1 & E1 & R1); [done|widths; lia|auto|].
  destruct (writeRegister MCP23S17_OLATA 0xFF w) as [[] w1]. cbn [snd] in *.
  destruct (tame_write cur MCP23S17_OLATB 0xFF w1) as (T2 & E2 & R2); [done|widths; lia|auto|].
  destruct (writeRegister MCP23S17_OLATB 0xFF w1) as [[] w2]. cbn [snd] in *.
  assert (port_off (td (dev w2))) as Hoff2 by (split; by rewrite R2, ?R1).
  destruct (tame_write cur MCP23S17_IODIRA 0 w2) as (T3 & E3 & R3); [done|widths; lia|auto|].
  destruct (writeRegister MCP23S17_IODIRA 0 w2) as [[] w3]. cbn [snd] in *.
  assert (port_off (td (dev w3))) as Hoff3 by (unfold port_off in *; by rewrite !R3).
  destruct (tame_write cur MCP23S17_IODIRB 0 w3) as (T4 & E4 & R4); [done|widths; lia|auto|].
  destruct (writeRegister MCP23S17_IODIRB 0 w3) as [[] w4]. cbn [snd] in *.
  exists w4. split_and!; [done|congruence|done].
Qed.

Lemma land_ff_u8 x : is_u8 (Z.land x 0xFF).
Proof. change 0xFF with (Z.ones 8). rewrite Z.land_ones by lia. apply Z.mod_pos_bound. lia. Qed.

Lemma keeps_tame_reassert cur : keeps_tame cur (
  s ← gets rm;
  let hw := u16 (Z.lnot (s_relayState s)) in
  writeRegister MCP23S17_OLATA (Z.land hw 0xFF);;
  writeRegister MCP23S17_OLATB (Z.land (Z.shiftr hw 8) 0xFF)).
Proof.
  intros w Hw. unfold gets, mbind, M_bind. cbn zeta. rewrite (tm_cmd _ _ Hw).
  destruct (tame_write cur MCP23S17_OLATA (Z.land (u16 (Z.lnot cur)) 0xFF) w)
    as (T1 & E1 & _); [done|apply land_ff_u8|auto|].
  destruct (writeRegister MCP23S17_OLATA _ w) as [[] w1]. cbn [snd] in *.
  destruct (tame_write cur MCP23S17_OLATB (Z.land (Z.shiftr (u16 (Z.lnot cur)) 8) 0xFF) w1)
    as (T2 & E2 & _); [done|apply land_ff_u8|auto 10|]. by rewrite <- E1.
Qed.

Lemma keeps_tame_reinit cur : keeps_tame cur reinitAndReassert.
Proof.
  intros w Hw. destruct (safe_init_spec cur w Hw) as (w' & Hw' & Hrm & Hk).
  unfold reinitAndReassert. rewrite Hk. rewrite <- Hrm. by apply keeps_tame_reassert.
Qed.

Lemma tame_verifyOutputs cur w : tame cur w → tame cur (verifyOutputs w).2.
Proof.
  intros Hw. unfold verifyOutputs, gets, mbind, M_bind. case_match; [done|].
  destruct (keeps_tame_readBack cur w Hw) as [T1 E1].
  destruct (readBack w) as [o w1]. cbn [snd] in *. case_match; [done|].
  destruct (keeps_tame_reinit cur w1 T1) as [T2 E2].
  destruct (reinitAndReassert w1) as [[] w2]. cbn [snd] in *. unfold upd, modify.
  set (w3 := {| w2 with rm := _ |}). assert (T3 : tame cur w3) by (by destruct T2).
  destruct (keeps_tame_readBack cur w3 T3) as [T4 _]. by destruct (readBack w3).
Qed.

(** [C12] No spurious closing: on a chip in working order, whatever state of its registers
    [verifyOutputs] finds with no uncommanded contactor energised (such as the reset state
    after a brown-out, all pins inputs), every chip state it goes through while it reads
    back, re-initialises and re-asserts energises only commanded contactors. *)
Theorem recovery_within_command w :
  tame (s_relayState (rm w)) w →
  Forall (within_command (s_relayState (rm w))) (visited (dev (verifyOutputs w).2)).
Proof. intros Hw%tame_verifyOutputs. apply Hw. Qed.

(** [C11] Safe power-up: from the reset state of the chip (all pins inputs, output latches
    low, which is "closed" in the active-low wiring), [begin] goes through no chip state
    in which any contactor is energised, because the latches are written before the pins
    become outputs. *)
Theorem begin_never_energises (d : D) :
  chip_reg d MCP23S17_IODIRA = 0xFF → chip_reg d MCP23S17_IODIRB = 0xFF →
  Forall (λ d', ∀ ch, 0 <= ch < RELAY_TOTAL_CHANNELS → contactor_closed d' ch = false)
    (visited (dev (begin (Build_relay_world relay_mgr_static (Build_traced d []))).2)).
Proof.
  intros Ha Hb.
  assert (Hopen : ∀ d', (∀ r, chip_reg d' r = chip_reg d r) → within_command 0 d').
  { intros d' Hr ch Hch. unfold contactor_closed, RELAY_TOTAL_CHANNELS in *. rewrite !Hr, Ha, Hb.
    destruct (Z.ltb_spec ch 8); by rewrite ff_bit by lia. }
  enough (Hall : Forall (within_command 0)
    (visited (dev (begin (Build_relay_world relay_mgr_static (Build_traced d []))).2))).
  { eapply Forall_impl; [|exact Hall]. intros d' Hd ch Hch. specialize (Hd ch Hch). rewrite Z.bits_0 in Hd.
    destruct (contactor_closed d' ch); [by specialize (Hd eq_refl)|done]. }
  unfold begin, mbind, M_bind. cbn.
  destruct (spi_bus_initialize d) as [b1 d1] eqn:E1. cbn.
  pose proof (chip_bus_init _ _ _ E1) as R1.
  destruct b1; cbn; [|by repeat constructor; apply Hopen].
  destruct (spi_bus_add_device d1) as [b2 d2] eqn:E2. cbn.
  pose proof (chip_add_device _ _ _ E2) as R2.
  assert (R2' : ∀ r, chip_reg d2 r = chip_reg d r) by (intros r; by rewrite R2).
  destruct b2; cbn; [|by repeat constructor; apply Hopen].
  match goal with |- context [writeRegister MCP23S17_OLATA 255 ?x] => set (w := x) end.
  assert (Hw : tame 0 w).
  { constructor; cbn; [done..|by apply Hopen|]. repeat constructor; by apply Hopen. }
  destruct (safe_init_spec 0 w Hw) as (w' & Hw' & Hrm & Hk).
  specialize (Hk _ (upd (λ s, {| s with s_relayState := 0; s_initialized := true |});;
    r ← verifyOutputs; mret true)).
  unfold mbind, M_bind, upd, modify in Hk. rewrite Hk.
  set (w2 := {| w' with rm := _ |}). assert (Hw2 : tame 0 w2) by (by destruct Hw').
  apply tame_verifyOutputs in Hw2. destruct (verifyOutputs w2) as [b w3]. apply Hw2.
Qed.
End Order.

(** ** A simulated chip, for the witnesses *)
Module FakeChip.
Record t := { regs : Z → Z }.

#[export] Instance spi : SpiMaster t := {
  spi_bus_initialize d := (true, d);
  spi_bus_add_device d := (true, d);
  spi_device_transmit tx d :=
    if byte_at tx 0 =? MCP23S17_ADDR_READ then (Some [0; 0; u8 (regs d (byte_at tx 1))], d)
    else (Some [0; 0; 0],
          {| regs r := if r =? byte_at tx 1 then byte_at tx 2 else regs d r |});
}.
#[export] Instance reads : Mcp23s17Read t.
Proof.
  refine {| chip_reg d r := u8 (regs d r) |}; cbn.
  - intros. apply u8_range.
  - by intros r d rx d' [= <- <-].
  - by intros r d o d' [= <- <-].
Defined.
#[export] Instance writes : Mcp23s17Write t.
Proof.
  constructor; cbn.
  - intros r x d Hx. eexists _, _. split; [done|]. cbn. intros r'.
    destruct (r' =? r); [by apply u8_id|done].
  - by intros d b d' [= <- <-].
  - by intros d b d' [= <- <-].
Qed.

(** The chip after power-on or brown-out: all pins inputs, latches low. *)
Definition reset_chip : t := {| regs r := if r <=? 1 then 0xFF else 0 |}.
Definition started : relay_world t := (begin (Build_relay_world relay_mgr_static reset_chip)).2.
Definition closed : relay_world t := (allOn started).2.
(** Contactors commanded closed, then the chip browns out. *)
Definition browned_out : relay_world (traced t) :=
  Build_relay_world (rm closed) (Build_traced reset_chip []).
End FakeChip.
Export (hints) FakeChip.

Lemma fake_started_ok : mgr_ok (rm FakeChip.started).
Proof. by vm_compute. Qed.

Lemma outputs_follow_command_witness :
  contactor_closed (dev (allOn FakeChip.started).2) 9 = true.
Proof.
  destruct (outputs_follow_command 0 true false FakeChip.started) as ((_ & [Hf|Ho]) & _);
    [apply fake_started_ok|by vm_compute|by vm_compute in Hf|].
  rewrite (Ho 9); by vm_compute.
Defined.

Lemma setRelay_getRelayState_witness :
  getRelayState 3 (rm (setRelay 3 true FakeChip.started).2) = true ∧
  getRelayState 3 (rm (setRelay 12 true FakeChip.started).2) = false.
Proof.
  split.
  - rewrite (setRelay_getRelayState 3 true FakeChip.started 3);
      [done|apply fake_started_ok|by vm_compute..].
  - rewrite (setRelay_getRelayState 12 true FakeChip.started 3);
      [by vm_compute|apply fake_started_ok|by vm_compute..].
Defined.

(** Across the wrap of the millisecond counter. *)
Definition armed_verify : relay_world FakeChip.t := (verifyIfDue 4294967256 FakeChip.started).2.
Lemma verify_period_witness : verify_ticks 4294967256 4 armed_verify = armed_verify.
Proof.
  destruct (verify_period 4294967256 armed_verify) as [E _];
    [by vm_compute|by vm_compute|by vm_compute|by vm_compute|exact E].
Defined.

Lemma recovery_within_command_witness :
  length (visited (dev (verifyOutputs FakeChip.browned_out).2)) = 14%nat ∧
  Forall (within_command 1023) (visited (dev (verifyOutputs FakeChip.browned_out).2)).
Proof.
  split; [by vm_compute|].
  apply (recovery_within_command FakeChip.browned_out).
  constructor; [by vm_compute..| |by constructor].
  intros ch Hch. unfold contactor_closed. cbn.
  destruct (Z.ltb_spec ch 8); rewrite ff_bit; [done| |done|];
    unfold RELAY_TOTAL_CHANNELS in Hch; lia.
Defined.

Lemma begin_never_energises_witness :
  Forall (λ d', ∀ ch, 0 <= ch < RELAY_TOTAL_CHANNELS → contactor_closed d' ch = false)
    (visited (dev (begin (Build_relay_world relay_mgr_static
                            (Build_traced FakeChip.reset_chip []))).2)).
Proof. apply (begin_never_energises FakeChip.reset_chip); by vm_compute. Defined.
