(* ===== verification/VcuLogicCorrect.v ===== *)
(** The theorems about [VcuLogic.v], proved against the queue laws and the relay
    driver contract only: a refinement of [run] to an abstract machine on (state,
    commanded contactor mask), the priority of the bypass flags, the reachability
    invariant, and the bounded opening of the contactors in the safe states. *)
From S2P Require Import Prelude SystemConfig VehicleData FreeRtos IRelayActuator VcuSafety VcuLogic.
From stdpp Require Import relations.
Open Scope Z_scope.

Definition is_safe_state (s : VcuState.t) : Prop :=
  s = VcuState.EMERGENCY_STOP ∨ s = VcuState.FAULT.
Definition is_live_state (s : VcuState.t) : Prop := s = VcuState.READY ∨ s = VcuState.DRIVE.

(** A condition critical in any state is critical in the safe states. *)
Lemma critical_in_safe d s s' : hasCriticalCondition d s = true → is_safe_state s' →
  hasCriticalCondition d s' = true.
Proof.
  unfold hasCriticalCondition. intros Hc [->| ->];
    rewrite !(bool_decide_eq_false_2 (_ = VcuState.IDLE)) by done;
    destruct (negb (TEL_motorErrorFlags d =? 0) || _); [done| |done|];
    destruct (TEL_motorTimeoutActive d), (TEL_bmsTimeoutActive d); cbn [andb negb] in *; done.
Qed.

(** ** The abstract machine

    One tick on (state, mask of the contactors commanded closed), with the inputs
    of the tick: the two bypass flags, the oldest queued event, the telemetry
    snapshot and the latched actuator fault. *)
Record tick_input := {
  in_estop : bool;
  in_fault : bool;
  in_event : option VcuEvent.t;
  in_data : TelemetryData;
  in_actuator : bool;
}.

(** The safe state a tick must enter before anything else, if any: the bypass
    flags first (E-STOP before FAULT), then the actuator fault of a live bus, then
    a critical measurement. *)
Definition preempt (i : tick_input) (s : VcuState.t) : option VcuState.t :=
  if in_estop i && negb (bool_decide (s = VcuState.EMERGENCY_STOP))
  then Some VcuState.EMERGENCY_STOP
  else if in_fault i && negb (bool_decide (s = VcuState.FAULT)) then Some VcuState.FAULT
  else match s with
       | VcuState.READY | VcuState.DRIVE =>
           if in_actuator i || hasCriticalCondition (in_data i) s
           then Some VcuState.FAULT else None
       | VcuState.IDLE =>
           if hasCriticalCondition (in_data i) s then Some VcuState.FAULT else None
       | _ => None
       end.

Inductive abs_step (i : tick_input) : VcuState.t * Z → VcuState.t * Z → Prop :=
  | abs_preempt s m s' : preempt i s = Some s' → abs_step i (s, m) (s', m)
  | abs_start m : preempt i VcuState.IDLE = None →
      in_event i = Some VcuEvent.START_REQUEST → isReadyEntryPermitted (in_data i) = true →
      in_actuator i = false →
      abs_step i (VcuState.IDLE, m) (VcuState.READY, all_contactors)
  | abs_drive m : preempt i VcuState.READY = None →
      in_event i = Some VcuEvent.DRIVE_ENABLE →
      abs_step i (VcuState.READY, m) (VcuState.DRIVE, m)
  | abs_reset s m : preempt i s = None → in_event i = Some VcuEvent.RESET →
      is_safe_state s → hasCriticalCondition (in_data i) s = false →
      abs_step i (s, m) (VcuState.IDLE, m)
  | abs_reassert m : preempt i VcuState.READY = None →
      abs_step i (VcuState.READY, m) (VcuState.READY, all_contactors)
  | abs_open s m : preempt i s = None → is_safe_state s → abs_step i (s, m) (s, 0)
  | abs_stay s m : preempt i s = None → abs_step i (s, m) (s, m).

#[local] Arguments noteWarning : simpl never.

Section Correct.
Context {Q W : Type} `{FreeRtosQueueLaws Q VcuEvent.t} `{RelayActuatorContract W}.
Implicit Types (v : vcu Q W) (w : W).

(** The sink does not touch the relay driver ([CanManager::sendTorqueCommand]
    only writes to the CAN controller). *)
Definition sink_frame (sink : Z → W → W) : Prop := ∀ t w, ra_ok w →
  ra_ok (sink t w) ∧ ra_commanded (sink t w) = ra_commanded w ∧
  hasActuatorFault (sink t w) = hasActuatorFault w.
Definition sink_ok v : Prop := ∀ sink, s_torqueSink v = Some sink → sink_frame sink.

Definition queued v : list VcuEvent.t :=
  match s_eventQueue v with Some q => q_items q | None => [] end.

(** The inputs [run] reads in one tick. *)
Definition inputs v w : tick_input := {|
  in_estop := s_eStopPending v; in_fault := s_faultPending v;
  in_event := head (queued v); in_data := s_TEL_latestData v;
  in_actuator := hasActuatorFault (verifyIfDue (u32 (s_uptimeMs v + TASK_PERIOD_MS)) w) |}.

(** ** Frame lemmas *)

Lemma requestZeroTorque_frame v w : sink_ok v → ra_ok w →
  ra_ok (requestZeroTorque v w) ∧ ra_commanded (requestZeroTorque v w) = ra_commanded w ∧
  hasActuatorFault (requestZeroTorque v w) = hasActuatorFault w.
Proof.
  intros Hs Hw. unfold requestZeroTorque. destruct (s_torqueSink v) as [k|] eqn:E; [|done].
  by apply Hs.
Qed.

Lemma transitionTo_state next v : s_state (transitionTo next v) = next.
Proof. by destruct next. Qed.
Lemma transitionTo_timer next v : s_stateTimer (transitionTo next v) = 0.
Proof. by destruct next. Qed.
Lemma transitionTo_frame next v :
  s_eventQueue (transitionTo next v) = s_eventQueue v ∧
  s_torqueSink (transitionTo next v) = s_torqueSink v ∧
  s_eStopPending (transitionTo next v) = s_eStopPending v ∧
  s_faultPending (transitionTo next v) = s_faultPending v ∧
  s_TEL_latestData (transitionTo next v) = s_TEL_latestData v ∧
  s_TEL_dataMutex (transitionTo next v) = s_TEL_dataMutex v.
Proof. by destruct next. Qed.

Lemma pollEvent_spec v :
  match queued v with
  | [] => pollEvent v = None
  | e :: l => ∃ q q', s_eventQueue v = Some q ∧ q_items q' = l ∧ q_capacity q' = q_capacity q ∧
      pollEvent v = Some (e, {| v with s_eventQueue := Some q' |})
  end.
Proof.
  unfold pollEvent, queued. destruct (s_eventQueue v) as [q|] eqn:E; [|done].
  destruct (q_items q) as [|e l] eqn:Eq.
  - by rewrite q_receive_nil.
  - destruct (q_receive_cons q e l Eq) as (q' & Hr & Hl & Hc). rewrite Hr. eauto 10.
Qed.

Lemma noteWarning_eq v :
  ∃ b, noteWarning v = {| v with s_VCU_warningLogged := b |}.
Proof.
  unfold noteWarning. repeat case_match; [by eexists| |by eexists].
  exists (s_VCU_warningLogged v). by destruct v.
Qed.

(** The two safe-state handlers, as one relation: they keep everything but their
    own bookkeeping, and either leave the relays or command every contactor open. *)
Record handler_effect v w v' w' : Prop := {
  he_state : s_state v' = s_state v;
  he_timer : s_stateTimer v' = s_stateTimer v;
  he_queue : s_eventQueue v' = s_eventQueue v;
  he_sink : s_torqueSink v' = s_torqueSink v;
  he_estop : s_eStopPending v' = s_eStopPending v;
  he_fault : s_faultPending v' = s_faultPending v;
  he_data : s_TEL_latestData v' = s_TEL_latestData v;
  he_mutex : s_TEL_dataMutex v' = s_TEL_dataMutex v;
  he_ok : ra_ok w';
}.

Lemma zero_torque_guarded v w (b : bool) : sink_ok v → ra_ok w →
  let w' := if b then requestZeroTorque v w else w in
  ra_ok w' ∧ ra_commanded w' = ra_commanded w.
Proof.
  intros Hs Hw. destruct (requestZeroTorque_frame v w Hs Hw) as (? & ? & _). by destruct b.
Qed.

Ltac safe_handler :=
  branches; (split; [constructor; cbn; auto with aks|]);
  (repeat split); intros; autorewrite with aks in *; auto using ra_allOff_confirmed;
  congruence.

Lemma handleEmergencyStop_spec v w v' w' : sink_ok v → ra_ok w →
  handleEmergencyStop v w = (v', w') →
  handler_effect v w v' w' ∧
  s_relaysOpenedInFault v' = s_relaysOpenedInFault v ∧
  (if VCU_CONTACTOR_OPEN_DELAY_MS <=? s_stateTimer v
   then s_relaysOpenedInEstop v' = true ∧
        (s_relaysOpenedInEstop v = false → ra_commanded w' = 0) ∧
        (s_relaysOpenedInEstop v = false → hasActuatorFault w' = false → ra_open w')
   else s_relaysOpenedInEstop v' = s_relaysOpenedInEstop v) ∧
  (ra_commanded w' = ra_commanded w ∨ ra_commanded w' = 0).
Proof.
  intros Hs Hw E. unfold handleEmergencyStop in E.
  destruct (zero_torque_guarded v w (s_stateTimer v <=? TASK_PERIOD_MS) Hs Hw) as (Hz & Hzc).
  set (w1 := if s_stateTimer v <=? TASK_PERIOD_MS then _ else _) in *. clearbody w1.
  destruct (s_relaysOpenedInEstop v) eqn:Ho; cbn [negb] in E; safe_handler.
Qed.

Lemma handleFault_spec v w v' w' : sink_ok v → ra_ok w →
  handleFault v w = (v', w') →
  handler_effect v w v' w' ∧
  s_relaysOpenedInEstop v' = s_relaysOpenedInEstop v ∧
  (if VCU_CONTACTOR_OPEN_DELAY_MS <=? s_stateTimer v
   then s_relaysOpenedInFault v' = true ∧
        (s_relaysOpenedInFault v = false → ra_commanded w' = 0) ∧
        (s_relaysOpenedInFault v = false → hasActuatorFault w' = false → ra_open w')
   else s_relaysOpenedInFault v' = s_relaysOpenedInFault v) ∧
  (ra_commanded w' = ra_commanded w ∨ ra_commanded w' = 0).
Proof.
  intros Hs Hw E. unfold handleFault in E.
  destruct (zero_torque_guarded v w (s_stateTimer v <=? TASK_PERIOD_MS) Hs Hw) as (Hz & Hzc).
  set (w1 := if s_stateTimer v <=? TASK_PERIOD_MS then _ else _) in *. clearbody w1.
  destruct (s_relaysOpenedInFault v) eqn:Ho; cbn [negb] in E; safe_handler.
Qed.

(** The periodic handler of a state, whatever the state. *)
Lemma periodic_spec v w v' w' : sink_ok v → ra_ok w → periodic v w = (v', w') →
  handler_effect v w v' w' ∧
  match s_state v with
  | VcuState.READY => (if s_stateTimer v <=? TASK_PERIOD_MS then ra_commanded w' = all_contactors
                       else w' = w) ∧ v' = v
  | VcuState.EMERGENCY_STOP | VcuState.FAULT =>
      ra_commanded w' = ra_commanded w ∨ ra_commanded w' = 0
  | _ => v' = v ∧ w' = w
  end.
Proof.
  intros Hs Hw. unfold periodic. destruct (s_state v) eqn:Hst; intros E.
  1,2,4: unfold handleIdle, handleDrive in E; by simplify_eq.
  - unfold handleReady in E. simplify_eq. split; [constructor; by repeat case_match; auto with aks|].
    case_match; autorewrite with aks; done.
  - apply handleEmergencyStop_spec in E; naive_solver.
  - apply handleFault_spec in E; naive_solver.
Qed.

(** ** One event *)

(** What [run] keeps through one tick, besides state and relays. *)
Record keeps v w v' w' : Prop := {
  k_ok : ra_ok w → ra_ok w';
  k_sink : s_torqueSink v' = s_torqueSink v;
  k_data : s_TEL_latestData v' = s_TEL_latestData v;
  k_mutex : s_TEL_dataMutex v' = s_TEL_dataMutex v;
}.
Lemma keeps_trans v1 w1 v2 w2 v3 w3 :
  keeps v1 w1 v2 w2 → keeps v2 w2 v3 w3 → keeps v1 w1 v3 w3.
Proof. intros [] []. constructor; [auto|congruence..]. Qed.

(** [handleEvent] returns early exactly for the priority events and a RESET in a
    safe state; otherwise it changes the state only along START_REQUEST and
    DRIVE_ENABLE, and never touches the relays. *)
Lemma handleEvent_spec e v w ret v' w' : handleEvent e v w = (ret, v', w') →
  keeps v w v' w' ∧ s_eventQueue v' = s_eventQueue v ∧
  s_eStopPending v' = s_eStopPending v ∧ s_faultPending v' = s_faultPending v ∧
  (ra_ok w → ra_commanded w' = ra_commanded w) ∧
  if ret then
    (e = VcuEvent.EMERGENCY_STOP ∧ v' = transitionTo VcuState.EMERGENCY_STOP v) ∨
    (e = VcuEvent.FAULT_DETECTED ∧ s_state v' = VcuState.FAULT ∧
       (v' = v ∨ v' = transitionTo VcuState.FAULT v)) ∨
    (e = VcuEvent.RESET ∧ is_safe_state (s_state v) ∧
      ((hasCriticalCondition (s_TEL_latestData v) (s_state v) = false ∧
        v' = transitionTo VcuState.IDLE v ∧ w' = clearActuatorFault w) ∨
       (hasCriticalCondition (s_TEL_latestData v) (s_state v) = true ∧ v' = v ∧ w' = w)))
  else
    w' = w ∧
    ((s_state v' = s_state v ∧ s_stateTimer v' = s_stateTimer v ∧
      s_relaysOpenedInEstop v' = s_relaysOpenedInEstop v ∧
      s_relaysOpenedInFault v' = s_relaysOpenedInFault v) ∨
     (e = VcuEvent.START_REQUEST ∧ s_state v = VcuState.IDLE ∧
      isReadyEntryPermitted (s_TEL_latestData v) = true ∧ hasActuatorFault w = false ∧
      v' = transitionTo VcuState.READY v) ∨
     (e = VcuEvent.DRIVE_ENABLE ∧ s_state v = VcuState.READY ∧
      v' = transitionTo VcuState.DRIVE v)).
Proof.
  intros E. unfold handleEvent, handleStartRequest, getTelemetrySnapshot in E.
  rewrite reset_interlock_eq, negb_involutive in E.
  destruct (s_state v) eqn:Hst, e; cbn in E; branches;
    repeat match goal with
    | H : _ && _ = true |- _ => apply andb_true_iff in H as [? ?]
    | H : negb _ = true |- _ => apply negb_true_iff in H
    end;
    (split; [constructor; cbn; auto with aks|]); (repeat split); auto; intros;
    autorewrite with aks; unfold is_safe_state; auto 10.
Qed.

(** The queue carries no priority event: [postEvent] diverts them to the flags. *)
Definition bypass_free v : Prop :=
  Forall (λ e, e ≠ VcuEvent.EMERGENCY_STOP ∧ e ≠ VcuEvent.FAULT_DETECTED) (queued v).

(** The inputs of the part of the tick below the bypass flags. *)
Definition check_inputs v w : tick_input := {|
  in_estop := false; in_fault := false; in_event := head (queued v);
  in_data := s_TEL_latestData v;
  in_actuator := hasActuatorFault (verifyIfDue (s_uptimeMs v) w) |}.

(** [run_checks] stops at the preemption, or polls one event and runs the handler. *)
Lemma run_checks_cases v w :
  let w1 := verifyIfDue (s_uptimeMs v) w in
  run_checks v w =
  match preempt (check_inputs v w) (s_state v) with
  | Some _ => (transitionTo VcuState.FAULT v, w1)
  | None =>
      match pollEvent (noteWarning v) with
      | Some (e, v') =>
          let '(ret, v'', w'') := handleEvent e v' w1 in
          if ret then (v'', w'') else periodic v'' w''
      | None => periodic (noteWarning v) w1
      end
  end.
Proof.
  unfold run_checks, preempt, check_inputs, getTelemetrySnapshot. cbn.
  destruct (s_state v) eqn:Hst; cbn; destruct (hasActuatorFault _); cbn;
    destruct (hasCriticalCondition _ _); reflexivity.
Qed.

Lemma preempt_check_FAULT v w s : preempt (check_inputs v w) (s_state v) = Some s → s = VcuState.FAULT.
Proof. unfold preempt, check_inputs. cbn. repeat case_match; by intros [= <-]. Qed.

(** One tick of the periodic handler, seen from the abstract machine. *)
Lemma periodic_abs i v w v' w' : sink_ok v → ra_ok w → periodic v w = (v', w') →
  preempt i (s_state v) = None →
  abs_step i (s_state v, ra_commanded w) (s_state v', ra_commanded w').
Proof.
  intros Hs Hw E Hp. destruct (periodic_spec _ _ _ _ Hs Hw E) as ([] & Hm).
  rewrite he_state0. destruct (s_state v) eqn:Hst;
    try (destruct Hm as [_ ->]; by apply abs_stay).
  - destruct Hm as [Hm _]. case_match; [rewrite Hm; by apply abs_reassert|].
    rewrite Hm. by apply abs_stay.
  - destruct Hm as [-> | ->]; [by apply abs_stay|apply abs_open; [done|by left]].
  - destruct Hm as [-> | ->]; [by apply abs_stay|apply abs_open; [done|by right]].
Qed.

Lemma queued_note v : queued (noteWarning v) = queued v.
Proof. destruct (noteWarning_eq v) as [b ->]. done. Qed.
Lemma noteWarning_keeps v w : keeps v w (noteWarning v) w ∧ s_state (noteWarning v) = s_state v ∧
  s_stateTimer (noteWarning v) = s_stateTimer v.
Proof. destruct (noteWarning_eq v) as [b ->]. split; [by constructor|done]. Qed.

Lemma run_checks_refines v w v' w' :
  sink_ok v → ra_ok w → bypass_free v → run_checks v w = (v', w') →
  abs_step (check_inputs v w) (s_state v, ra_commanded w) (s_state v', ra_commanded w').
Proof.
  intros Hs Hw Hb. rewrite run_checks_cases. cbn zeta.
  set (w1 := verifyIfDue (s_uptimeMs v) w).
  assert (Hw1 : ra_ok w1) by (subst w1; auto with aks).
  assert (Hc1 : ra_commanded w1 = ra_commanded w) by (subst w1; by rewrite ra_verify_commanded).
  destruct (preempt _ _) as [s|] eqn:Hp.
  { pose proof (preempt_check_FAULT _ _ _ Hp). intros [= <- <-].
    cbn. rewrite Hc1. subst. by apply abs_preempt. }
  destruct (noteWarning_keeps v w) as ([_ Hnk Hnd _] & Hns & Hnt).
  pose proof (pollEvent_spec (noteWarning v)) as Hpoll. rewrite queued_note in Hpoll.
  unfold bypass_free in Hb.
  destruct (queued v) as [|e l] eqn:Hq.
  { rewrite Hpoll. intros E. rewrite <- Hc1, <- Hns.
    apply periodic_abs; auto; [|by rewrite Hns]. intros k Hk. apply Hs. congruence. }
  destruct Hpoll as (q & q' & _ & _ & _ & ->).
  apply Forall_cons_1 in Hb as [[He1 He2] _].
  set (v1 := {| _ with s_eventQueue := _ |}).
  assert (Hst1 : s_state v1 = s_state v) by done.
  assert (Hd1 : s_TEL_latestData v1 = s_TEL_latestData v) by done.
  assert (Hk1 : s_torqueSink v1 = s_torqueSink v) by done. clearbody v1.
  destruct (handleEvent e _ w1) as [[ret v2] w2] eqn:Ev.
  apply handleEvent_spec in Ev as ([Hok2 Hks Hkd _] & _ & _ & _ & Hc2 & Hev).
  rewrite Hst1, Hd1 in Hev. destruct ret.
  - intros [= <- <-]. destruct Hev as [[? _]|[[? _]|(-> & Hsafe & [(Hcr & -> & ->)|(_ & -> & ->)])]];
      [done..| |].
    + cbn. rewrite Hc2, Hc1 by done. apply abs_reset; auto. cbn. by rewrite Hq.
    + cbn. rewrite Hst1, Hc1. by apply abs_stay.
  - destruct Hev as [-> Hev]. intros E.
    assert (Hs2 : sink_ok v2) by (intros k Hk; apply Hs; congruence).
    rewrite <- Hc1. destruct Hev as [(Hst & _)|[(-> & Hst & Hr & Ha & ->)|(-> & Hst & ->)]].
    + rewrite <- Hst. apply periodic_abs; auto. by rewrite Hst.
    + destruct (periodic_spec _ _ _ _ Hs2 Hw1 E) as ([] & Hm).
      rewrite he_state0. cbn in Hm. destruct Hm as [Hm _]. rewrite Hm, Hst. cbn.
      rewrite Hst in Hp. apply abs_start; cbn; auto. by rewrite Hq.
    + destruct (periodic_spec _ _ _ _ Hs2 Hw1 E) as ([] & Hm).
      rewrite he_state0. cbn in Hm. destruct Hm as [_ ->]. rewrite Hst. cbn.
      rewrite Hst in Hp. apply abs_drive; cbn; auto. by rewrite Hq.
Qed.

Lemma abs_step_ext i j s m x :
  preempt i s = preempt j s → in_event i = in_event j → in_data i = in_data j →
  in_actuator i = in_actuator j → abs_step i (s, m) x → abs_step j (s, m) x.
Proof.
  intros Hp He Hd Ha Hst. inversion Hst; subst; rewrite ?Hp, ?He, ?Hd, ?Ha in *.
  - by apply abs_preempt.
  - by apply abs_start.
  - by apply abs_drive.
  - by apply abs_reset.
  - by apply abs_reassert.
  - by apply abs_open.
  - by apply abs_stay.
Qed.

(** The state in which [run] starts its checks: timers advanced, flags consumed. *)
Definition ticked (fault : bool) v : vcu Q W :=
  {| v with s_stateTimer := u32 (s_stateTimer v + TASK_PERIOD_MS);
            s_uptimeMs := u32 (s_uptimeMs v + TASK_PERIOD_MS);
            s_eStopPending := false; s_faultPending := fault |}.

Lemma run_cases v w :
  run v w =
  if s_eStopPending v && negb (bool_decide (s_state v = VcuState.EMERGENCY_STOP))
  then (transitionTo VcuState.EMERGENCY_STOP (ticked (s_faultPending v) v), w)
  else if s_faultPending v && negb (bool_decide (s_state v = VcuState.FAULT))
  then (transitionTo VcuState.FAULT (ticked false v), w)
  else run_checks (ticked false v) w.
Proof. reflexivity. Qed.

Lemma preempt_ticked v w :
  s_eStopPending v && negb (bool_decide (s_state v = VcuState.EMERGENCY_STOP)) = false →
  s_faultPending v && negb (bool_decide (s_state v = VcuState.FAULT)) = false →
  preempt (check_inputs (ticked false v) w) (s_state v) = preempt (inputs v w) (s_state v).
Proof. intros He Hf. unfold preempt, inputs, check_inputs. cbn. by rewrite He, Hf. Qed.

Lemma run_abs_step v w :
  sink_ok v → ra_ok w → bypass_free v →
  abs_step (inputs v w) (s_state v, ra_commanded w)
    (s_state (fst (run v w)), ra_commanded (snd (run v w))).
Proof.
  intros Hs Hw Hb. rewrite run_cases.
  destruct (s_eStopPending v && _) eqn:He.
  { apply abs_preempt. unfold preempt, inputs. cbn. by rewrite He. }
  destruct (s_faultPending v && _) eqn:Hf.
  { apply abs_preempt. unfold preempt, inputs. cbn. by rewrite He, Hf. }
  destruct (run_checks _ w) as [v' w'] eqn:E.
  apply run_checks_refines in E; auto. revert E. apply abs_step_ext; try done.
  by apply preempt_ticked.
Qed.

(** ** Frame of one tick *)

Lemma transitionTo_keeps next v w : keeps v w (transitionTo next v) w.
Proof. by constructor; destruct next. Qed.
Lemma ticked_keeps b v w : keeps v w (ticked b v) w.
Proof. by constructor. Qed.

(** The queue after a tick: unchanged or without its oldest event. *)
Definition queue_advance v v' : Prop :=
  s_eventQueue v' = s_eventQueue v ∨
  ∃ q q' e, s_eventQueue v = Some q ∧ s_eventQueue v' = Some q' ∧
    q_items q = e :: q_items q' ∧ q_capacity q' = q_capacity q.

(** Whether the handler of the current safe state has opened the contactors. *)
Definition opened v : bool :=
  match s_state v with
  | VcuState.EMERGENCY_STOP => s_relaysOpenedInEstop v
  | VcuState.FAULT => s_relaysOpenedInFault v
  | _ => false
  end.

Lemma opened_transition next v : opened (transitionTo next v) = false.
Proof. by destruct next. Qed.

Lemma periodic_opened v w v' w' : sink_ok v → ra_ok w → periodic v w = (v', w') →
  opened v' = true → ra_commanded w' = 0 ∨ (opened v = true ∧ ra_commanded w' = ra_commanded w).
Proof.
  intros Hs Hw E Ho. destruct (periodic_spec _ _ _ _ Hs Hw E) as ([] & _).
  revert E Ho. unfold periodic, opened. rewrite he_state0.
  destruct (s_state v); intros E Ho; try done.
  - destruct (handleEmergencyStop_spec _ _ _ _ Hs Hw E) as (_ & _ & Hc & Hm).
    destruct (s_relaysOpenedInEstop v), (_ <=? _); naive_solver.
  - destruct (handleFault_spec _ _ _ _ Hs Hw E) as (_ & _ & Hc & Hm).
    destruct (s_relaysOpenedInFault v), (_ <=? _); naive_solver.
Qed.

(** What a tick below the bypass flags preserves. *)
Record tick_frame v w v' w' : Prop := {
  tf_keeps : keeps v w v' w';
  tf_queue : queue_advance v v';
  tf_estop : s_eStopPending v' = s_eStopPending v;
  tf_fault : s_faultPending v' = s_faultPending v;
  tf_opened : opened v' = true →
    ra_commanded w' = 0 ∨ (opened v = true ∧ ra_commanded w' = ra_commanded w);
}.

Lemma periodic_frame v w v' w' : sink_ok v → ra_ok w → periodic v w = (v', w') →
  tick_frame v w v' w'.
Proof.
  intros Hs Hw E. destruct (periodic_spec _ _ _ _ Hs Hw E) as ([] & _).
  constructor; auto; [by constructor|by left|by eapply periodic_opened].
Qed.

Lemma handleEvent_opened e v w ret v' w' : handleEvent e v w = (ret, v', w') →
  opened v' = true → opened v = true ∧ (ra_ok w → ra_commanded w' = ra_commanded w).
Proof.
  intros (_ & _ & _ & _ & Hc & Hev)%handleEvent_spec Ho. split; [|done].
  destruct ret.
  - destruct Hev as [[_ ->]|[(_ & _ & [->| ->])|(_ & _ & [(_ & -> & _)|(_ & -> & _)])]];
      rewrite ?opened_transition in Ho; done.
  - destruct Hev as [_ [(Hst & _ & He & Hf)|[(_ & _ & _ & _ & ->)|(_ & _ & ->)]]];
      rewrite ?opened_transition in Ho; try done.
    unfold opened in *. by rewrite <- Hst, <- He, <- Hf.
Qed.

Lemma tick_frame_event v w v1 v2 w2 v3 w3 q q' e ret :
  s_eventQueue v = Some q → q_items q = e :: q_items q' → q_capacity q' = q_capacity q →
  v1 = {| v with s_eventQueue := Some q' |} → sink_ok v → ra_ok w →
  handleEvent e v1 w = (ret, v2, w2) →
  (if ret then (v2, w2) else periodic v2 w2) = (v3, w3) → tick_frame v w v3 w3.
Proof.
  intros Hq Hi Hcap -> Hs Hw Ev E.
  pose proof (handleEvent_opened _ _ _ _ _ _ Ev) as Ho.
  apply handleEvent_spec in Ev as ([Hok Hk Hd Hm] & Hq2 & He & Hf & Hc & _). cbn in *.
  assert (Hs2 : sink_ok v2) by (intros k ?; apply Hs; congruence).
  destruct ret.
  - simplify_eq. constructor; try congruence; [by constructor| |].
    + right. exists q, q', e. by rewrite Hq2.
    + intros Hop. right. destruct (Ho Hop). auto.
  - pose proof (periodic_opened _ _ _ _ Hs2 (Hok Hw) E) as Ho3.
    destruct (periodic_spec _ _ _ _ Hs2 (Hok Hw) E) as ([] & _).
    constructor; try congruence; [constructor; [auto|congruence..]| |].
    + right. exists q, q', e. by rewrite he_queue0, Hq2.
    + intros Hop. destruct (Ho3 Hop) as [?|[Hop2 Heq]]; [by left|right].
      destruct (Ho Hop2) as [? ?]. rewrite Heq. auto.
Qed.

Lemma run_checks_frame v w v' w' : sink_ok v → ra_ok w → run_checks v w = (v', w') →
  tick_frame v w v' w'.
Proof.
  intros Hs Hw. rewrite run_checks_cases. cbn zeta.
  set (w1 := verifyIfDue (s_uptimeMs v) w).
  assert (Hw1 : ra_ok w1) by (subst w1; auto with aks).
  assert (Hc1 : ra_commanded w1 = ra_commanded w) by (subst w1; by rewrite ra_verify_commanded).
  enough (∀ v0 x, sink_ok v0 → tick_frame v0 w1 x.1 x.2 →
            (∃ b, v0 = {| v with s_VCU_warningLogged := b |}) → tick_frame v w x.1 x.2) as Hfr.
  - destruct (preempt _ _) as [s|].
    { intros [= <- <-]. by constructor; [constructor|left|..]. }
    pose proof (pollEvent_spec (noteWarning v)) as Hpoll.
    destruct (noteWarning_eq v) as [b Hb].
    assert (Hsn : sink_ok (noteWarning v)) by (by rewrite Hb).
    intros E. change v' with (v', w').1. change w' with (v', w').2 at 2.
    eapply Hfr; [exact Hsn| |by eexists]. cbn [fst snd]. revert E Hpoll.
    destruct (queued (noteWarning v)) as [|e l] eqn:Hq.
    { intros E Hpoll. rewrite Hpoll in E. by eapply periodic_frame. }
    intros E (q & q' & Hqq & Hql & Hcap & Hp). rewrite Hp in E.
    destruct (handleEvent e _ w1) as [[ret v2] w2] eqn:Ev.
    eapply tick_frame_event; [exact Hqq| |exact Hcap|done..|exact Ev|exact E].
    rewrite Hql. unfold queued in Hq. by rewrite Hqq in Hq.
  - intros v0 x Hs0 [[] Hqa ? ? Hop] [b ->]. constructor; cbn in *; auto.
    + constructor; auto.
    + by rewrite <- Hc1.
Qed.

Lemma run_frame v w v' w' : sink_ok v → ra_ok w → run v w = (v', w') →
  keeps v w v' w' ∧ queue_advance v v' ∧
  (opened v' = true →
     ra_commanded w' = 0 ∨ (opened v = true ∧ ra_commanded w' = ra_commanded w)).
Proof.
  intros Hs Hw. rewrite run_cases. repeat case_match.
  1,2: intros [= <- <-]; split_and!; [by constructor|by left|done].
  intros [[] ? _ _ ?]%run_checks_frame; auto.
  split_and!; auto. by constructor.
Qed.

(** ** Reachable states *)

(** What other tasks do between two ticks: post an event, publish telemetry; and
    what the relay hardware may do on its own: anything but changing the command or
    clearing the latch. *)
Inductive vcu_step : vcu Q W * W → vcu Q W * W → Prop :=
  | step_run v w : vcu_step (v, w) (run v w)
  | step_post e v w : vcu_step (v, w) (postEvent e v, w)
  | step_telemetry d v w : vcu_step (v, w) (setTelemetryData d v, w)
  | step_hardware v w w' : (ra_ok w → ra_ok w') → ra_commanded w' = ra_commanded w →
      (hasActuatorFault w = true → hasActuatorFault w' = true) → vcu_step (v, w) (v, w').

(** Boot: the sink is bound, [init] succeeds on an initialised relay driver. *)
Inductive vcu_boot : vcu Q W * W → Prop :=
  | boot sink q w : (∀ k, sink = Some k → sink_frame k) → ra_ok w →
      xQueueCreate 8 = Some q → vcu_boot (init true (setTorqueSink sink vcu_static) w).

Definition reachable (x : vcu Q W * W) : Prop := ∃ x0, vcu_boot x0 ∧ rtc vcu_step x0 x.

Record vcu_inv v w : Prop := {
  vi_ok : ra_ok w;
  vi_sink : sink_ok v;
  vi_queue : ∃ q, s_eventQueue v = Some q ∧ q_capacity q = 8%nat ∧ (length (q_items q) <= 8)%nat;
  vi_bypass : bypass_free v;
  vi_state : s_state v ≠ VcuState.INIT;
  vi_mutex : s_TEL_dataMutex v = true;
  vi_live : is_live_state (s_state v) → ra_commanded w = all_contactors;
  vi_opened : opened v = true → ra_commanded w = 0;
  vi_mask : ra_commanded w = 0 ∨ ra_commanded w = all_contactors;
}.

Lemma preempt_safe i s s' : preempt i s = Some s' → is_safe_state s'.
Proof. unfold preempt, is_safe_state. repeat case_match; intros [= <-]; auto. Qed.

Lemma safe_not_live s : is_safe_state s → ¬ is_live_state s ∧ s ≠ VcuState.INIT.
Proof. unfold is_safe_state, is_live_state. naive_solver. Qed.

(** The native tests' reset ends, and leaves the object as constructed but for the mutex and
    an empty queue. *)
Lemma drainEvents_ends fuel (q : Q) : (length (q_items q) <= fuel)%nat →
  ∃ q', drainEvents fuel q = Some q' ∧ q_items q' = [] ∧ q_capacity q' = q_capacity q.
Proof.
  revert q. induction fuel as [|fuel IH]; intros q Hl; cbn [drainEvents].
  - destruct (q_items q) as [|e l] eqn:E; [|cbn in Hl; lia]. rewrite q_receive_nil by done. by exists q.
  - destruct (q_items q) as [|e l] eqn:E; [rewrite q_receive_nil by done; by exists q|].
    destruct (q_receive_cons q e l E) as (q1 & -> & E1 & Ec). destruct (IH q1) as (q' & -> & ? & ?).
    { rewrite E1. cbn in Hl. lia. }
    exists q'. split_and!; [done..|congruence].
Qed.
Lemma reset_as_constructed fuel v q : s_eventQueue v = Some q → (length (q_items q) <= fuel)%nat →
  ∃ q', resetForTest fuel v = Some {| (vcu_static (Q:=Q) (W:=W)) with s_TEL_dataMutex := s_TEL_dataMutex v; s_eventQueue := Some q' |} ∧
    q_items q' = [].
Proof.
  intros Eq Hl. destruct (drainEvents_ends fuel q Hl) as (q' & E & Hi & _). exists q'. split; [|done].
  unfold resetForTest. cbn. by rewrite Eq, E.
Qed.

(** The invariant of the abstract machine. *)
Lemma abs_step_inv i s m s' m' : abs_step i (s, m) (s', m') →
  (is_live_state s → m = all_contactors) → s ≠ VcuState.INIT →
  m = 0 ∨ m = all_contactors →
  (is_live_state s' → m' = all_contactors) ∧ s' ≠ VcuState.INIT ∧ (m' = 0 ∨ m' = all_contactors).
Proof.
  intros Hst Hl Hi Hm.
  inversion Hst as [? ? ? Hp|? ? He|? ? He|? ? ? He Hs|? ?|? ? ? Hs|? ? ?]; subst; auto.
  - apply preempt_safe, safe_not_live in Hp as [? ?]. naive_solver.
  - split_and!; auto. intros _. apply Hl. by left.
  - unfold is_live_state. split_and!; auto; naive_solver.
  - apply safe_not_live in Hs as [? ?]. naive_solver.
Qed.

Lemma inv_run v w : vcu_inv v w → vcu_inv (run v w).1 (run v w).2.
Proof.
  intros [Hok Hs (q & Hq & Hcap & Hlen) Hb Hst Hmx Hlive Hop Hmask].
  pose proof (run_abs_step v w Hs Hok Hb) as Habs.
  destruct (run v w) as [v' w'] eqn:E.
  destruct (run_frame _ _ _ _ Hs Hok E) as ([Hk1 Hk2 Hk3 Hk4] & Hqa & Ho). cbn in *.
  constructor.
  - auto.
  - intros k ?. apply Hs. congruence.
  - destruct Hqa as [->|(q1 & q2 & e & Hq1 & Hq2 & Hi & Hc)]; [eauto|].
    exists q2. simplify_eq. rewrite Hi in Hlen. cbn in Hlen. rewrite Hc. auto with lia.
  - unfold bypass_free, queued in *. destruct Hqa as [->|(q1 & q2 & e & Hq1 & Hq2 & Hi & Hc)]; [done|].
    rewrite Hq1 in Hb. rewrite Hq2. rewrite Hi in Hb. by apply Forall_cons_1 in Hb as [_ ?].
  - by destruct (abs_step_inv _ _ _ _ _ Habs) as (_ & ? & _).
  - congruence.
  - by destruct (abs_step_inv _ _ _ _ _ Habs) as (? & _ & _).
  - intros Hop'. destruct (Ho Hop') as [?|[? ->]]; auto.
  - by destruct (abs_step_inv _ _ _ _ _ Habs) as (_ & _ & ?).
Qed.

(** Ordinary events are appended when there is room and dropped otherwise; the
    priority events set their flag and leave the queue. *)
Lemma postEvent_queue e v q : s_eventQueue v = Some q →
  ∃ q', s_eventQueue (postEvent e v) = Some q' ∧ q_capacity q' = q_capacity q ∧
    (q_items q' = q_items q ∨
     (q_items q' = q_items q ++ [e] ∧ (length (q_items q) < q_capacity q)%nat ∧
      e ≠ VcuEvent.EMERGENCY_STOP ∧ e ≠ VcuEvent.FAULT_DETECTED)).
Proof.
  intros Hq. unfold postEvent. rewrite Hq. destruct e; try (by eauto 10).
  all: cbn; destruct (xQueueSend _ q) as [b q'] eqn:Hs; cbn;
    destruct (q_send_ok _ _ _ _ Hs) as (Hc & Hlt & Hge);
    (destruct (decide (length (q_items q) < q_capacity q)%nat) as [Hl|Hl];
      [destruct (Hlt Hl)|destruct (Hge ltac:(lia))]); eauto 15.
Qed.

Lemma postEvent_frame e v :
  s_state (postEvent e v) = s_state v ∧ opened (postEvent e v) = opened v ∧
  s_torqueSink (postEvent e v) = s_torqueSink v ∧
  s_TEL_dataMutex (postEvent e v) = s_TEL_dataMutex v ∧
  s_TEL_latestData (postEvent e v) = s_TEL_latestData v ∧
  s_stateTimer (postEvent e v) = s_stateTimer v ∧ s_uptimeMs (postEvent e v) = s_uptimeMs v.
Proof. unfold postEvent. destruct (s_eventQueue v), e; done. Qed.

Lemma inv_post e v w : vcu_inv v w → vcu_inv (postEvent e v) w.
Proof.
  intros [Hok Hs (q & Hq & Hcap & Hlen) Hb Hst Hmx Hlive Hop Hmask].
  destruct (postEvent_frame e v) as (Es & Eo & Ek & Em & _).
  destruct (postEvent_queue e v q Hq) as (q' & Hq' & Hcap' & Hi).
  constructor; rewrite ?Es, ?Eo, ?Em; auto.
  - intros k ?. apply Hs. congruence.
  - exists q'. split_and!; [done|congruence|].
    destruct Hi as [->|(-> & ? & _)]; [done|]. rewrite length_app. cbn. lia.
  - unfold bypass_free, queued in *. rewrite Hq in Hb. rewrite Hq'.
    destruct Hi as [->|(-> & _ & ?)]; [done|]. apply Forall_app_2; [done|by constructor].
Qed.

Lemma inv_telemetry d v w : vcu_inv v w → vcu_inv (setTelemetryData d v) w.
Proof. unfold setTelemetryData. case_match; [done|]. by intros []. Qed.

Lemma inv_boot x : vcu_boot x → vcu_inv x.1 x.2.
Proof.
  intros [sink q w Hk Hw Hq]. unfold init, setTorqueSink. cbn. rewrite Hq. cbn.
  destruct (q_create _ _ Hq) as [Hi Hc].
  constructor; cbn; autorewrite with aks; auto with aks; try done.
  - exists q. rewrite Hi. cbn. auto with lia.
  - unfold bypass_free, queued. cbn. by rewrite Hi.
  - intros [?|?]; done.
Qed.

Lemma inv_reachable x : reachable x → vcu_inv x.1 x.2.
Proof.
  intros (x0 & H0b & Hr). apply inv_boot in H0b. induction Hr as [|x y z Hst _ IH]; [done|].
  apply IH. destruct Hst as [v w|e v w|d v w|v w w' Ho Hc Hf]; cbn in *.
  - by apply inv_run.
  - by apply inv_post.
  - by apply inv_telemetry.
  - destruct H0b. constructor; rewrite ?Hc; auto.
Qed.

Lemma reach_run v w : reachable (v, w) → reachable ((run v w).1, (run v w).2).
Proof.
  intros (x0 & H0b & Hr). exists x0. split; [done|]. rewrite <- surjective_pairing.
  eapply rtc_r; [done|]. constructor.
Qed.
Lemma reach_post e v w : reachable (v, w) → reachable (postEvent e v, w).
Proof. intros (x0 & ? & ?). exists x0. split; [done|]. eapply rtc_r; [done|constructor]. Qed.
Lemma reach_telemetry d v w : reachable (v, w) → reachable (setTelemetryData d v, w).
Proof. intros (x0 & ? & ?). exists x0. split; [done|]. eapply rtc_r; [done|constructor]. Qed.

(** ** The properties *)

(** [C7] Refinement: from boot, under any interleaving of ticks, posted events,
    telemetry updates and hardware changes, one call of [run] is one step of the
    abstract machine on the state and the commanded contactor mask.  So the tick
    enters the safe state its inputs demand first (E-STOP, fault, actuator fault of
    a live bus, critical measurement) without touching the relays; the contactors
    are commanded closed only in READY, which is entered from IDLE only by a
    START_REQUEST that the interlock accepts with no actuator fault latched; DRIVE
    only from READY by DRIVE_ENABLE; a safe state is left only by an accepted RESET. *)
Theorem run_refines v w :
  reachable (v, w) →
  abs_step (inputs v w) (s_state v, ra_commanded w)
    (s_state (run v w).1, ra_commanded (run v w).2).
Proof. intros []%inv_reachable. by apply run_abs_step. Qed.

(** Reachability invariant: after boot the machine never returns to INIT; in READY
    and DRIVE every contactor is commanded closed; once a safe state has opened the
    contactors they stay commanded open while it lasts; the commanded mask is always
    all or nothing; the event queue holds at most 8 events and no priority event. *)
Theorem vcu_reachable_invariant v w :
  reachable (v, w) →
  s_state v ≠ VcuState.INIT ∧
  (is_live_state (s_state v) → ra_commanded w = all_contactors) ∧
  (opened v = true → ra_commanded w = 0) ∧
  (ra_commanded w = 0 ∨ ra_commanded w = all_contactors) ∧
  (length (queued v) <= 8)%nat ∧ bypass_free v.
Proof.
  intros [_ _ (q & Hq & _ & Hl) ? ? _ ? ? ?]%inv_reachable.
  cbn in *. split_and!; auto. unfold queued. by rewrite Hq.
Qed.

Definition postAll (evs : list VcuEvent.t) v : vcu Q W := foldl (flip postEvent) v evs.

Lemma postAll_frame evs v :
  s_state (postAll evs v) = s_state v ∧
  (s_eventQueue v ≠ None → s_eventQueue (postAll evs v) ≠ None) ∧
  (s_eStopPending v = true → s_eStopPending (postAll evs v) = true) ∧
  (s_faultPending v = true → s_faultPending (postAll evs v) = true) ∧
  (s_eStopPending v = false → VcuEvent.EMERGENCY_STOP ∉ evs →
   s_eStopPending (postAll evs v) = false).
Proof.
  revert v. induction evs as [|e evs IH]; intros v; [done|].
  change (postAll (e :: evs) v) with (postAll evs (postEvent e v)).
  destruct (IH (postEvent e v)) as (-> & Hq & He & Hf & Hn).
  unfold postEvent in *. destruct (s_eventQueue v) as [q|] eqn:Eq.
  2:{ split_and!; auto. intros ? ?. apply Hn; [done|]. set_solver. }
  destruct e; cbn in Hq, He, Hf, Hn; split_and!; auto; rewrite not_elem_of_cons;
    intros ? []; auto; done.
Qed.

Lemma postAll_flag evs v : s_eventQueue v ≠ None →
  (VcuEvent.EMERGENCY_STOP ∈ evs → s_eStopPending (postAll evs v) = true) ∧
  (VcuEvent.FAULT_DETECTED ∈ evs → s_faultPending (postAll evs v) = true).
Proof.
  revert v. induction evs as [|e evs IH]; intros v Hq;
    [|change (postAll (e :: evs) v) with (postAll evs (postEvent e v))].
  { split; intros ?%not_elem_of_nil; done. }
  destruct (postAll_frame evs (postEvent e v)) as (_ & _ & He & Hf & _).
  destruct (IH (postEvent e v)) as [IHe IHf].
  { destruct (postAll_frame [e] v) as (_ & Hq' & _). by apply Hq'. }
  split; intros [<-|?]%elem_of_cons; auto; [apply He|apply Hf];
    unfold postEvent; by destruct (s_eventQueue v).
Qed.

(** [C9] Priority events are never lost: however many events are posted between two
    ticks, in any order and however full the queue, if an EMERGENCY_STOP is among
    them the next tick enters EMERGENCY_STOP (from any other state) and keeps a
    simultaneous fault request pending; if only a FAULT_DETECTED is among them the
    next tick enters FAULT (from any other state).  Neither touches the relays. *)
Theorem priority_events_not_lost evs v w :
  s_eventQueue v ≠ None →
  let v1 := postAll evs v in
  (VcuEvent.EMERGENCY_STOP ∈ evs → s_state v ≠ VcuState.EMERGENCY_STOP →
     s_state (run v1 w).1 = VcuState.EMERGENCY_STOP ∧ (run v1 w).2 = w ∧
     s_faultPending (run v1 w).1 = s_faultPending v1) ∧
  (VcuEvent.FAULT_DETECTED ∈ evs → VcuEvent.EMERGENCY_STOP ∉ evs → s_eStopPending v = false →
     s_state v ≠ VcuState.FAULT →
     s_state (run v1 w).1 = VcuState.FAULT ∧ (run v1 w).2 = w).
Proof.
  intros Hq v1. destruct (postAll_frame evs v) as (Hst & _ & _ & _ & Hn).
  destruct (postAll_flag evs v Hq) as [He Hf]. rewrite run_cases. fold v1 in Hst, He, Hf, Hn.
  rewrite !Hst. split.
  - intros Hin Hne. rewrite He by done. rewrite bool_decide_false by done. done.
  - intros Hin Hnin Hp Hne. rewrite Hn, Hf by done.
    rewrite (bool_decide_false (_ = VcuState.FAULT)) by done. done.
Qed.

(** ** Opening the contactors in a safe state *)

(** A safe state in which no bypass flag is raised and the contactors are not yet
    opened; [n] ticks may pass before the state timer wraps. *)
Record awaiting_open (n : nat) v w : Prop := {
  ao_ok : ra_ok w;
  ao_sink : sink_ok v;
  ao_safe : is_safe_state (s_state v);
  ao_estop : s_eStopPending v = false;
  ao_fault : s_faultPending v = false;
  ao_timer : 0 <= s_stateTimer v < 4294967296 - 20 * Z.of_nat n;
  ao_opened : opened v = false;
}.

(** The handler of a safe state, on its first tick. *)
Lemma periodic_opens v w v' w' : sink_ok v → ra_ok w → is_safe_state (s_state v) →
  VCU_CONTACTOR_OPEN_DELAY_MS <= s_stateTimer v → opened v = false →
  periodic v w = (v', w') →
  s_state v' = s_state v ∧ opened v' = true ∧ ra_commanded w' = 0 ∧
  (hasActuatorFault w' = false → ra_open w').
Proof.
  intros Hs Hw Hsafe Ht Ho E. destruct (periodic_spec _ _ _ _ Hs Hw E) as ([] & _).
  apply Z.leb_le in Ht. unfold opened in *. rewrite he_state0. split; [done|].
  unfold periodic in E. destruct Hsafe as [Hst|Hst]; rewrite Hst in *.
  - destruct (handleEmergencyStop_spec _ _ _ _ Hs Hw E) as (_ & _ & Hc & _).
    rewrite Ht in Hc. naive_solver.
  - destruct (handleFault_spec _ _ _ _ Hs Hw E) as (_ & _ & Hc & _).
    rewrite Ht in Hc. naive_solver.
Qed.

(** In a safe state with no flag raised, [run] polls one event and runs the handler. *)
Lemma run_safe v w : is_safe_state (s_state v) →
  s_eStopPending v = false → s_faultPending v = false →
  let w1 := verifyIfDue (u32 (s_uptimeMs v + TASK_PERIOD_MS)) w in
  run v w =
    match pollEvent (noteWarning (ticked false v)) with
    | Some (e, v') =>
        let '(ret, v'', w'') := handleEvent e v' w1 in
        if ret then (v'', w'') else periodic v'' w''
    | None => periodic (noteWarning (ticked false v)) w1
    end.
Proof.
  intros Hsafe He Hf. rewrite run_cases, He, Hf. cbn [andb]. rewrite run_checks_cases.
  assert (preempt (check_inputs (ticked false v) w) (s_state (ticked false v)) = None) as ->; [|done].
  unfold preempt. cbn. by destruct Hsafe as [->| ->].
Qed.

Lemma safe_tick n v w : awaiting_open (S n) v w →
  hasCriticalCondition (s_TEL_latestData v) (s_state v) = true ∨ VcuEvent.RESET ∉ queued v →
  bypass_free v →
  let '(v', w') := run v w in
  s_state v' = s_state v ∧
  ((opened v' = true ∧ ra_commanded w' = 0 ∧ (hasActuatorFault w' = false → ra_open w')) ∨
   (queued v = VcuEvent.RESET :: queued v' ∧ awaiting_open n v' w' ∧
    s_TEL_latestData v' = s_TEL_latestData v)).
Proof.
  intros [Hok Hs Hsafe He Hf Ht Ho] Hcr Hb. rewrite run_safe by done. cbn zeta.
  set (w1 := verifyIfDue _ w). assert (Hw1 : ra_ok w1) by (subst w1; auto with aks).
  destruct (noteWarning_eq (ticked false v)) as [b Hnw]. rewrite Hnw.
  set (v0 := {| _ with s_VCU_warningLogged := b |}).
  assert (Htm : s_stateTimer v0 = s_stateTimer v + 20).
  { cbn. unfold TASK_PERIOD_MS. rewrite u32_id; [done|]. unfold is_u32. lia. }
  pose proof (pollEvent_spec v0) as Hpoll. change (queued v0) with (queued v) in Hpoll.
  unfold bypass_free in Hb. destruct (queued v) as [|e l] eqn:Hq.
  { rewrite Hpoll. destruct (periodic v0 w1) as [v' w'] eqn:E.
    assert (VCU_CONTACTOR_OPEN_DELAY_MS <= s_stateTimer v0) by (unfold VCU_CONTACTOR_OPEN_DELAY_MS; lia).
    destruct (periodic_opens v0 w1 v' w') as (? & ?); auto. }
  destruct Hpoll as (q & q' & _ & Hl & _ & ->).
  apply Forall_cons_1 in Hb as [[He1 He2] _].
  destruct (handleEvent e _ w1) as [[ret v2] w2] eqn:Ev.
  apply handleEvent_spec in Ev as ([Hok2 Hk2 Hd2 _] & Hq2 & Hp2 & Hf2 & _ & Hev). cbn in *.
  destruct ret.
  - destruct Hev as [[? _]|[[? _]|(-> & _ & [(Hcr' & _)|(_ & -> & ->)])]]; [done..| |].
    { destruct Hcr as [?|Hni]; [congruence|]. by destruct Hni; left. }
    split; [done|]. right. split; [by rewrite <- Hl|split; [|done]].
    constructor; cbn in *; auto; lia.
  - destruct Hev as [-> [(Hst & Ht2 & Hoe & Hof)|[(_ & Hst & _)|(_ & Hst & _)]]];
      [|destruct Hsafe; congruence..].
    destruct (periodic v2 w1) as [v' w'] eqn:E. cbn in *.
    apply periodic_opens in E as (? & ?); auto.
    + split; [congruence|by left].
    + intros k ?. apply Hs. congruence.
    + by rewrite Hst.
    + unfold VCU_CONTACTOR_OPEN_DELAY_MS. lia.
    + unfold opened. by rewrite Hst, Hoe, Hof.
Qed.

Definition runs (n : nat) (x : vcu Q W * W) : vcu Q W * W := Nat.iter n (λ x, run x.1 x.2) x.

Lemma awaiting_open_runs n v w : length (queued v) = n → awaiting_open (S n) v w →
  hasCriticalCondition (s_TEL_latestData v) (s_state v) = true ∨ VcuEvent.RESET ∉ queued v →
  bypass_free v →
  ∃ k, (k <= n)%nat ∧ let x := runs (S k) (v, w) in
    s_state x.1 = s_state v ∧ opened x.1 = true ∧ ra_commanded x.2 = 0 ∧
    (hasActuatorFault x.2 = false → ra_open x.2).
Proof.
  revert v w. induction n as [|n IH]; intros v w Hn Ha Hcr Hb.
  all: pose proof (safe_tick _ v w Ha Hcr Hb) as Ht; destruct (run v w) as [v' w'] eqn:E;
    destruct Ht as [Hst [Hop|(Hq & Ha' & Hd)]];
    [exists 0%nat; split; [lia|]; unfold runs; cbn; by rewrite E|].
  { by rewrite Hq in Hn. }
  rewrite Hq in Hn, Hcr. unfold bypass_free in Hb. rewrite Hq in Hb.
  apply Forall_cons_1 in Hb as [_ Hb].
  destruct (IH v' w') as (k & Hk & Hx); auto.
  { rewrite Hst, Hd. destruct Hcr; [by left|right; set_solver]. }
  exists (S k). split; [lia|]. cbn zeta in *. unfold runs in *.
  rewrite Nat.iter_succ_r. cbn [fst snd]. by rewrite E, <- Hst.
Qed.

(** Bounded opening: when a safe state has just been entered, no bypass flag is
    raised and either the cause persists (so RESET is refused) or no RESET is queued,
    then within one tick per queued event plus one (at most 9 ticks, 180 ms, with the
    queue of 8) every contactor is commanded open, still in that state; and unless the
    read-back latched an actuator fault, the outputs really de-energise them. *)
Theorem safe_state_opens_contactors v w :
  reachable (v, w) → is_safe_state (s_state v) → s_stateTimer v = 0 → opened v = false →
  s_eStopPending v = false → s_faultPending v = false →
  hasCriticalCondition (s_TEL_latestData v) (s_state v) = true ∨ VcuEvent.RESET ∉ queued v →
  ∃ n, (n <= S (length (queued v)) <= 9)%nat ∧ let x := runs n (v, w) in
    s_state x.1 = s_state v ∧ ra_commanded x.2 = 0 ∧
    (hasActuatorFault x.2 = false → ra_open x.2).
Proof.
  intros Hr%inv_reachable Hsafe Ht Ho He Hf Hcr. destruct Hr as [Hok Hs (q & Hq & _ & Hl) Hb _ _ _ _ _].
  cbn in *. assert (Hlen : (length (queued v) <= 8)%nat) by (unfold queued; by rewrite Hq).
  destruct (awaiting_open_runs (length (queued v)) v w) as (k & Hk & Hx); auto.
  { constructor; auto. lia. }
  exists (S k). split; [lia|]. naive_solver.
Qed.

(** The commands the handler of a safe state gives on the tick that opens. *)
Lemma periodic_opening_commands v w : is_safe_state (s_state v) → opened v = false →
  VCU_CONTACTOR_OPEN_DELAY_MS <= s_stateTimer v →
  (periodic v w).2 =
    allOff false (if s_stateTimer v <=? TASK_PERIOD_MS then requestZeroTorque v w else w).
Proof.
  intros Hsafe Ho Ht%Z.leb_le. unfold opened in Ho. unfold periodic.
  destruct Hsafe as [Hst|Hst]; rewrite Hst in *;
    unfold handleEmergencyStop, handleFault; rewrite Ht, Ho; cbn [negb]; by repeat case_match.
Qed.

Lemma periodic_keeps_state v w : is_safe_state (s_state v) → s_state (periodic v w).1 = s_state v.
Proof.
  unfold periodic. intros [Hst|Hst]; rewrite Hst; unfold handleEmergencyStop, handleFault;
    by repeat case_match; simplify_eq.
Qed.

(** A tick of a safe state whose polled event, if any, is not a RESET. *)
Lemma run_safe_handler v w : is_safe_state (s_state v) →
  s_eStopPending v = false → s_faultPending v = false → bypass_free v →
  head (queued v) ≠ Some VcuEvent.RESET →
  ∃ v1, run v w = periodic v1 (verifyIfDue (u32 (s_uptimeMs v + TASK_PERIOD_MS)) w) ∧
    s_state v1 = s_state v ∧ opened v1 = opened v ∧ s_torqueSink v1 = s_torqueSink v ∧
    s_stateTimer v1 = u32 (s_stateTimer v + TASK_PERIOD_MS).
Proof.
  intros Hsafe He Hf Hb Hh. rewrite run_safe by done. cbn zeta. set (w1 := verifyIfDue _ w).
  destruct (noteWarning_eq (ticked false v)) as [b ->].
  set (v0 := {| _ with s_VCU_warningLogged := b |}).
  pose proof (pollEvent_spec v0) as Hpoll. change (queued v0) with (queued v) in Hpoll.
  unfold bypass_free in Hb. destruct (queued v) as [|e l] eqn:Hq.
  { rewrite Hpoll. by exists v0. }
  destruct Hpoll as (q & q' & _ & _ & _ & ->). apply Forall_cons_1 in Hb as [[He1 He2] _].
  destruct (handleEvent e _ w1) as [[ret v2] w2] eqn:Ev.
  apply handleEvent_spec in Ev as ([_ Hk _ _] & _ & _ & _ & _ & Hev). cbn in Hk, Hev.
  destruct ret; [naive_solver|].
  destruct Hev as [-> [(Hst & Ht & Hoe & Hof)|[(_ & Hst & _)|(_ & Hst & _)]]];
    [|destruct Hsafe; congruence..].
  exists v2. unfold opened. by rewrite Hst, Ht, Hoe, Hof.
Qed.

(** A tick of a safe state whose polled event is a RESET: the handler does not run. *)
Lemma run_safe_reset v w l : is_safe_state (s_state v) →
  s_eStopPending v = false → s_faultPending v = false →
  queued v = VcuEvent.RESET :: l →
  let w1 := verifyIfDue (u32 (s_uptimeMs v + TASK_PERIOD_MS)) w in
  ∃ v1 q', s_eventQueue v1 = Some q' ∧ q_items q' = l ∧
    opened v1 = opened v ∧ s_state v1 = s_state v ∧
    s_stateTimer v1 = u32 (s_stateTimer v + TASK_PERIOD_MS) ∧
    s_uptimeMs v1 = u32 (s_uptimeMs v + TASK_PERIOD_MS) ∧
    s_eStopPending v1 = false ∧ s_faultPending v1 = false ∧
    run v w = if hasCriticalCondition (s_TEL_latestData v) (s_state v) then (v1, w1)
              else (transitionTo VcuState.IDLE v1, clearActuatorFault w1).
Proof.
  intros Hsafe He Hf Hq. rewrite run_safe by done. cbn zeta. set (w1 := verifyIfDue _ w).
  destruct (noteWarning_eq (ticked false v)) as [b ->].
  set (v0 := {| _ with s_VCU_warningLogged := b |}).
  pose proof (pollEvent_spec v0) as Hpoll. change (queued v0) with (queued v) in Hpoll.
  rewrite Hq in Hpoll. destruct Hpoll as (q & q' & _ & Hl & _ & ->).
  exists {| v0 with s_eventQueue := Some q' |}, q'. split_and!; try done.
  unfold handleEvent. cbn. unfold getTelemetrySnapshot. rewrite reset_interlock_eq, negb_involutive.
  cbn. destruct (hasCriticalCondition _ _); by destruct Hsafe as [->| ->].
Qed.

(** A priority request for the safe state the machine is not in. *)
Definition preempted (v : vcu Q W) : bool :=
  (s_eStopPending v && negb (bool_decide (s_state v = VcuState.EMERGENCY_STOP))) ||
  (s_faultPending v && negb (bool_decide (s_state v = VcuState.FAULT))).
Definition unflagged (v : vcu Q W) : vcu Q W :=
  {| v with s_eStopPending := false; s_faultPending := false |}.

(** A priority flag for the state the machine is in is dropped, and the tick goes on. *)
Lemma run_unflagged v w : preempted v = false → run v w = run (unflagged v) w.
Proof.
  unfold preempted, run. cbn -[run_checks]. intros [-> ->]%orb_false_iff. done.
Qed.
Lemma run_preempted v w : is_safe_state (s_state v) → preempted v = true →
  let '(v', w') := run v w in
  w' = w ∧ is_safe_state (s_state v') ∧ s_state v' ≠ s_state v ∧ s_stateTimer v' = 0 ∧ opened v' = false.
Proof.
  unfold preempted, run. cbn -[run_checks]. intros Hs Hp.
  destruct Hs as [Hst|Hst]; rewrite Hst in Hp |- *; cbn in Hp; rewrite ?andb_false_r, ?andb_true_r in *;
    cbn in Hp; rewrite ?orb_false_r in Hp; cbn -[run_checks]; rewrite Hp; cbn; split_and!; auto.
  all: by (left + right).
Qed.

(** [C37] Shutdown order.  The first tick after entering a safe state does one of four
    things to the actuators.  A pending priority request for the other safe state enters
    that one and touches nothing, and the next tick is a first tick again.  Otherwise the
    head of the event queue decides.  Not a RESET (or no event): the zero-torque request is
    issued and then, in the same tick, the contactors are commanded open (the comments
    promise a wait of VCU_CONTACTOR_OPEN_DELAY_MS between the two).  A RESET that is
    refused: neither, in the same state; only the periodic read-back runs.  A RESET that is
    accepted: neither, and the machine is in IDLE. *)
Theorem zero_torque_before_open v w :
  is_safe_state (s_state v) → s_stateTimer v = 0 → opened v = false → bypass_free v →
  let w1 := verifyIfDue (u32 (s_uptimeMs v + TASK_PERIOD_MS)) w in
  let '(v', w') := run v w in
  if preempted v then
    w' = w ∧ is_safe_state (s_state v') ∧ s_state v' ≠ s_state v ∧ s_stateTimer v' = 0 ∧ opened v' = false
  else if bool_decide (head (queued v) = Some VcuEvent.RESET) then
    if hasCriticalCondition (s_TEL_latestData v) (s_state v)
    then s_state v' = s_state v ∧ opened v' = false ∧ w' = w1
    else s_state v' = VcuState.IDLE ∧ w' = clearActuatorFault w1
  else s_state v' = s_state v ∧ w' = allOff false (requestZeroTorque v w1).
Proof.
  intros Hsafe Ht Ho Hb w1. destruct (preempted v) eqn:Hp; [by apply run_preempted|].
  rewrite run_unflagged by done. case_bool_decide as Hh.
  - destruct (queued v) as [|e l] eqn:Hq; [done|]. injection Hh as ->.
    destruct (run_safe_reset (unflagged v) w l) as (v1 & q1 & _ & _ & Ho1 & Hst1 & _ & _ & _ & _ & E); [done..|].
    rewrite E. change (opened (unflagged v)) with (opened v) in Ho1.
    change (s_TEL_latestData (unflagged v)) with (s_TEL_latestData v).
    change (s_state (unflagged v)) with (s_state v) in *. destruct (hasCriticalCondition _ _); [|done].
    split_and!; [done|congruence|done].
  - destruct (run_safe_handler (unflagged v) w) as (v1 & -> & Hst & Ho1 & Hk & Ht1); [done..|].
    change (opened (unflagged v)) with (opened v) in Ho1. change (s_state (unflagged v)) with (s_state v) in Hst.
    change (s_stateTimer (unflagged v)) with (s_stateTimer v) in Ht1.
    rewrite Ht in Ht1. change (u32 (0 + TASK_PERIOD_MS)) with 20 in Ht1.
    pose proof (periodic_opening_commands v1 w1) as Hc. rewrite Hst, Ho1, Ht1 in Hc.
    specialize (Hc Hsafe Ho ltac:(done)). change (20 <=? TASK_PERIOD_MS) with true in Hc.
    pose proof (periodic_keeps_state v1 w1) as Hk1. rewrite Hst in Hk1. specialize (Hk1 Hsafe).
    change (s_uptimeMs (unflagged v)) with (s_uptimeMs v). fold w1.
    destruct (periodic v1 w1) as [v' w']. cbn [fst snd] in *. split; [done|]. rewrite Hc.
    unfold requestZeroTorque. rewrite Hk. done.
Qed.

(** A refused RESET that is polled on the first tick after entering a safe state
    returns before the handler; the next tick opens the contactors but its timer is
    already past the zero-torque window, so no zero-torque request is ever issued. *)
Theorem refused_reset_skips_zero_torque v w :
  is_safe_state (s_state v) → s_stateTimer v = 0 → opened v = false →
  s_eStopPending v = false → s_faultPending v = false →
  queued v = [VcuEvent.RESET] → hasCriticalCondition (s_TEL_latestData v) (s_state v) = true →
  let t1 := u32 (s_uptimeMs v + TASK_PERIOD_MS) in
  (runs 1 (v, w)).2 = verifyIfDue t1 w ∧
  (runs 2 (v, w)).2 = allOff false (verifyIfDue (u32 (t1 + TASK_PERIOD_MS)) (verifyIfDue t1 w)).
Proof.
  intros Hsafe Ht Ho He Hf Hq Hcr t1.
  destruct (run_safe_reset v w [] Hsafe He Hf Hq)
    as (v1 & q1 & Hq1 & Hi1 & Ho1 & Hst1 & Ht1 & Hu1 & He1 & Hf1 & E).
  rewrite Hcr in E. fold t1 in Hu1, E. unfold runs. cbn. rewrite E. cbn. split; [done|].
  assert (Hq1' : queued v1 = []) by (unfold queued; by rewrite Hq1).
  destruct (run_safe_handler v1 (verifyIfDue t1 w)) as (v2 & -> & Hst2 & Ho2 & _ & Ht2); auto.
  { by rewrite Hst1. } { unfold bypass_free. by rewrite Hq1'. } { by rewrite Hq1'. }
  rewrite Ht in Ht1. change (u32 (0 + _)) with 20 in Ht1. rewrite Ht1 in Ht2.
  change (u32 (20 + _)) with 40 in Ht2.
  rewrite periodic_opening_commands; rewrite ?Hst2, ?Hst1, ?Ho2, ?Ho1, ?Ht2, ?Hu1; auto; done.
Qed.

(** [C38] Reset race: with the bus live and no critical measurement, an EMERGENCY_STOP
    followed by a RESET before the next tick ends, two ticks later, in IDLE with every
    contactor still commanded closed: the RESET is polled before the handler of
    EMERGENCY_STOP has run, and IDLE opens nothing. *)
Theorem estop_then_reset_leaves_contactors_closed v w :
  reachable (v, w) → is_live_state (s_state v) → queued v = [] → s_faultPending v = false →
  hasCriticalCondition (s_TEL_latestData v) VcuState.EMERGENCY_STOP = false →
  let v1 := postAll [VcuEvent.EMERGENCY_STOP; VcuEvent.RESET] v in
  s_state (runs 1 (v1, w)).1 = VcuState.EMERGENCY_STOP ∧
  s_state (runs 2 (v1, w)).1 = VcuState.IDLE ∧
  ra_commanded (runs 2 (v1, w)).2 = all_contactors.
Proof.
  intros Hr%inv_reachable Hl Hq Hf Hcr v1.
  destruct Hr as [Hok Hs (q & Hq0 & Hc & _) _ _ _ Hlive _ _]. cbn [fst snd] in *.
  assert (∃ q1, v1 = {| v with s_eStopPending := true; s_eventQueue := Some q1 |} ∧
                q_items q1 = [VcuEvent.RESET]) as (q1 & Hv1 & Hi1).
  { unfold v1, postAll, foldl, flip, postEvent. rewrite Hq0. cbn. rewrite ?Hq0.
    destruct (xQueueSend VcuEvent.RESET q) as [b q1] eqn:Hsend.
    destruct (q_send_ok _ _ _ _ Hsend) as (_ & Hlt & _).
    unfold queued in Hq. rewrite Hq0 in Hq. rewrite Hq, Hc in Hlt. cbn in Hlt.
    exists q1. split; [done|]. apply Hlt. lia. }
  clearbody v1.
  assert (E1 : run v1 w = (transitionTo VcuState.EMERGENCY_STOP (ticked false v1), w)).
  { rewrite run_cases, Hv1. cbn. rewrite Hf. rewrite bool_decide_false; [done|].
    by destruct Hl as [->| ->]. }
  change (runs 2 (v1, w)) with (run (runs 1 (v1, w)).1 (runs 1 (v1, w)).2).
  change (runs 1 (v1, w)) with (run v1 w). rewrite E1. cbn [fst snd].
  set (v2 := transitionTo _ _).
  destruct (run_safe_reset v2 w []) as (v3 & q3 & _ & _ & _ & _ & _ & _ & _ & _ & E2); try done.
  { by left. } { subst v2. rewrite Hv1. unfold queued. cbn. by rewrite Hi1. }
  assert (s_TEL_latestData v2 = s_TEL_latestData v) as Hd by (subst v2; by rewrite Hv1).
  rewrite Hd in E2. change (s_state v2) with VcuState.EMERGENCY_STOP in E2. rewrite Hcr in E2.
  rewrite E2. cbn. split_and!; auto.
  rewrite ra_clear_commanded, ra_verify_commanded; auto with aks.
Qed.
End Correct.

(** ** A bench for the witnesses

    A relay bank that does what it is told and records the commands, a list-backed
    queue, and a torque sink that records its requests. *)
Module Bench.
Inductive command : Set := CmdAllOn | CmdAllOff | CmdSet (ch : Z) (on : bool) | CmdTorque (t : Z).
Record bench := { b_mask : Z; b_fault : bool; b_log : list command }.

#[export] Instance bench_relays : IRelayActuator bench := {
  allOn w := {| w with b_mask := all_contactors; b_log := b_log w ++ [CmdAllOn] |};
  allOff _ w := {| w with b_mask := 0; b_log := b_log w ++ [CmdAllOff] |};
  setRelay ch s w := {| w with b_mask := if s then Z.setbit (b_mask w) ch
                                         else Z.clearbit (b_mask w) ch;
                               b_log := b_log w ++ [CmdSet ch s] |};
  verifyIfDue _ w := w;
  verifyOutputs w := (negb (b_fault w), w);
  hasActuatorFault := b_fault;
  clearActuatorFault w := {| w with b_fault := false |};
}.
#[export] Instance bench_contract : RelayActuatorContract bench.
Proof.
  refine {| ra_ok _ := True; ra_commanded := b_mask; ra_open w := b_mask w = 0 |}; done.
Defined.

Definition sink (t : Z) (w : bench) : bench := {| w with b_log := b_log w ++ [CmdTorque t] |}.
Definition w0 : bench := Build_bench 0 false [].
Definition V := vcu (ListQueue VcuEvent.t) bench.
Definition booted : V * bench := init true (setTorqueSink (Some sink) vcu_static) w0.

(** Boot, fresh nominal telemetry, START_REQUEST, one tick: READY. *)
Definition armed : V := setTelemetryData nominal_telemetry booted.1.
Definition started : V := postEvent VcuEvent.START_REQUEST armed.
Definition ready : V * bench := run started booted.2.
(** The same with an overheated pack reported one tick later: FAULT, just entered. *)
Definition hot_telemetry := {| nominal_telemetry with TEL_bmsTempHighestC := 71 |}.
Definition overheated : V := setTelemetryData hot_telemetry ready.1.
Definition faulted : V * bench := run overheated ready.2.
Definition faulted_reset : V * bench := (postEvent VcuEvent.RESET faulted.1, faulted.2).

Lemma booted_reachable : reachable (booted.1, booted.2).
Proof.
  exists booted. split; [|done].
  eapply (boot (Some sink) (Build_ListQueue [] 8)); [|done..].
  intros k [= <-]. done.
Qed.
Lemma ready_reachable : reachable (ready.1, ready.2).
Proof. apply reach_run, reach_post, reach_telemetry. exact booted_reachable. Qed.
Lemma faulted_reachable : reachable (faulted.1, faulted.2).
Proof. apply reach_run, reach_telemetry. exact ready_reachable. Qed.
Lemma faulted_reset_reachable : reachable (faulted_reset.1, faulted_reset.2).
Proof. apply reach_post. exact faulted_reachable. Qed.
End Bench.
Import Bench.

Lemma run_refines_witness :
  s_state ready.1 = VcuState.READY ∧
  abs_step (inputs ready.1 ready.2) (s_state ready.1, ra_commanded ready.2)
    (s_state (run ready.1 ready.2).1, ra_commanded (run ready.1 ready.2).2).
Proof. split; [by vm_compute|]. apply (run_refines ready.1 ready.2). exact ready_reachable. Defined.

Lemma vcu_reachable_invariant_witness : ra_commanded ready.2 = all_contactors.
Proof.
  apply (vcu_reachable_invariant ready.1 ready.2 ready_reachable). left. by vm_compute.
Defined.

(** A START flood fills the queue; the E-STOP behind it still acts on the next tick. *)
Definition flood : list VcuEvent.t := repeat VcuEvent.START_REQUEST 20 ++ [VcuEvent.EMERGENCY_STOP].
Lemma priority_events_not_lost_witness :
  s_state (run (postAll flood ready.1) ready.2).1 = VcuState.EMERGENCY_STOP.
Proof.
  destruct (priority_events_not_lost flood ready.1 ready.2) as [He _]; [by vm_compute|].
  destruct He as [He _]; [|by vm_compute|exact He].
  apply elem_of_app. right. by left.
Defined.

Lemma safe_state_opens_contactors_witness :
  ∃ n, (n <= S (length (queued faulted_reset.1)) <= 9)%nat ∧
    s_state (runs n (faulted_reset.1, faulted_reset.2)).1 = s_state faulted_reset.1 ∧
    ra_commanded (runs n (faulted_reset.1, faulted_reset.2)).2 = 0.
Proof.
  destruct (safe_state_opens_contactors faulted_reset.1 faulted_reset.2 faulted_reset_reachable)
    as (n & Hn & Hs & Hm & _);
    [right; by vm_compute|by vm_compute..|left; by vm_compute|].
  exists n. split; [exact Hn|]. split; [exact Hs|exact Hm].
Defined.

Lemma zero_torque_before_open_witness :
  b_log (run faulted.1 faulted.2).2 = [CmdAllOff; CmdAllOn; CmdTorque 0; CmdAllOff].
Proof.
  pose proof (zero_torque_before_open faulted.1 faulted.2 ltac:(right; by vm_compute)
    ltac:(by vm_compute) ltac:(by vm_compute) ltac:(by vm_compute)) as H. cbv zeta in H.
  replace (preempted faulted.1) with false in H by (by vm_compute).
  replace (bool_decide (head (queued faulted.1) = Some VcuEvent.RESET)) with false in H by (by vm_compute).
  destruct (run faulted.1 faulted.2) as [v' w']. destruct H as [_ ->]. by vm_compute.
Defined.

(** No torque request in the log. *)
Lemma refused_reset_skips_zero_torque_witness :
  b_log (runs 2 (faulted_reset.1, faulted_reset.2)).2 = [CmdAllOff; CmdAllOn; CmdAllOff].
Proof.
  destruct (refused_reset_skips_zero_torque faulted_reset.1 faulted_reset.2) as [_ E];
    [right; by vm_compute|by vm_compute..|].
  etrans; [exact (f_equal b_log E)|by vm_compute].
Defined.

Lemma estop_then_reset_leaves_contactors_closed_witness :
  let x := runs 2 (postAll [VcuEvent.EMERGENCY_STOP; VcuEvent.RESET] ready.1, ready.2) in
  s_state x.1 = VcuState.IDLE ∧ ra_commanded x.2 = all_contactors.
Proof.
  destruct (estop_then_reset_leaves_contactors_closed ready.1 ready.2 ready_reachable)
    as (_ & Hs & Hm); [left; by vm_compute|by vm_compute..|].
  split; [exact Hs|exact Hm].
Defined.
