(* ===== verification/VcuTick.v ===== *)
(** One tick of the control unit under preemption: [run] of [VcuLogic.v] as a program of
    small steps, each with at most one access to what other tasks share with it (the two
    bypass flags, the event queue, the world of the relay driver), and schedules in which
    other tasks post events and the world changes between any two steps.

    The record of telemetry, the state and the timers are written by this task alone: only
    it calls [setTelemetryData] and [run].  A schedule is a list of actions, so that
    executions are computed; [Own] is one step of [run], [Begin] the start of the task's
    next iteration with the record it peeked in the mailbox. *)
From S2P Require Import Prelude SystemConfig VehicleData FreeRtos IRelayActuator VcuSafety VcuLogic VcuLogicCorrect.
From stdpp Require Import relations sorting.
Open Scope Z_scope.

(** The points of [run] between two steps; [Done] is outside of it. *)
(* [src ESP_AKS/lib/VcuLogic/VcuLogic.cpp:102-259 run] *)
Inductive point :=
  | AtTimers | AtEstop | AtFault | AtVerify | AtActuator | AtCritical | AtWarning | AtPoll
  | AtEvent (e : VcuEvent.t) | AtPeriodic | Done.
#[export] Instance point_eq_dec : EqDecision point.
Proof. solve_decision. Defined.

Section Tick.
Context {Q W : Type} `{FreeRtosQueue Q VcuEvent.t} `{IRelayActuator W}.
Implicit Types (v : vcu Q W) (w : W).
Abbreviation tick_state := (point * vcu Q W * W)%type.

(* [src ESP_AKS/lib/VcuLogic/VcuLogic.cpp:102-259 run] *)
Definition tick_step (x : tick_state) : tick_state :=
  let '(k, v, w) := x in
  match k with
  | AtTimers =>
      (AtEstop, {| v with s_stateTimer := u32 (s_stateTimer v + TASK_PERIOD_MS);
                          s_uptimeMs := u32 (s_uptimeMs v + TASK_PERIOD_MS) |}, w)
  | AtEstop =>
      let eStop := s_eStopPending v in
      let v := {| v with s_eStopPending := false |} in
      if eStop && negb (bool_decide (s_state v = VcuState.EMERGENCY_STOP))
      then (Done, transitionTo VcuState.EMERGENCY_STOP v, w) else (AtFault, v, w)
  | AtFault =>
      let fault := s_faultPending v in
      let v := {| v with s_faultPending := false |} in
      if fault && negb (bool_decide (s_state v = VcuState.FAULT))
      then (Done, transitionTo VcuState.FAULT v, w) else (AtVerify, v, w)
  | AtVerify => (AtActuator, v, verifyIfDue (s_uptimeMs v) w)
  | AtActuator =>
      let st := s_state v in
      if (bool_decide (st = VcuState.READY) || bool_decide (st = VcuState.DRIVE)) && hasActuatorFault w
      then (Done, transitionTo VcuState.FAULT v, w) else (AtCritical, v, w)
  | AtCritical =>
      let currentState := s_state v in
      if (bool_decide (currentState = VcuState.IDLE) || bool_decide (currentState = VcuState.READY)
          || bool_decide (currentState = VcuState.DRIVE))
         && hasCriticalCondition (getTelemetrySnapshot v) (s_state v)
      then (Done, transitionTo VcuState.FAULT v, w) else (AtWarning, v, w)
  | AtWarning => (AtPoll, noteWarning v, w)
  | AtPoll =>
      match pollEvent v with
      | Some (event, v) => (AtEvent event, v, w)
      | None => (AtPeriodic, v, w)
      end
  | AtEvent event =>
      let '(ret, v, w) := handleEvent event v w in ((if ret : bool then Done else AtPeriodic), v, w)
  | AtPeriodic => let '(v, w) := periodic v w in (Done, v, w)
  | Done => (Done, v, w)
  end.

(** What happens next, and where: [ticks] counts the ticks that have ended. *)
Inductive action :=
  | Begin (mail : option TelemetryData)
  | Own
  | Post (e : VcuEvent.t)
  | Env (f : W → W).

Record config := { here : point; unit_ : vcu Q W; world : W; ticks : nat }.

(* [src ESP_AKS/src/main.cpp:217-232 vTask_VCU_Logic] *)
Definition act (x : config) (a : action) : config :=
  match a with
  | Begin mail =>
      if decide (here x = Done)
      then {| x with here := AtTimers;
                     unit_ := match mail with Some d => setTelemetryData d (unit_ x) | None => unit_ x end |}
      else x
  | Own =>
      let '(k, v, w) := tick_step (here x, unit_ x, world x) in
      {| here := k; unit_ := v; world := w;
         ticks := if decide (here x ≠ Done ∧ k = Done) then S (ticks x) else ticks x |}
  | Post e => {| x with unit_ := postEvent e (unit_ x) |}
  | Env f => {| x with world := f (world x) |}
  end.

Definition exec (sched : list action) (x : config) : config := foldl act x sched.

Definition posts (sched : list action) : list VcuEvent.t :=
  omap (λ a, match a with Post e => Some e | _ => None end) sched.

Lemma exec_app s1 s2 x : exec (s1 ++ s2) x = exec s2 (exec s1 x).
Proof. apply foldl_app. Qed.
Lemma exec_snoc s a x : exec (s ++ [a]) x = act (exec s x) a.
Proof. by rewrite exec_app. Qed.
End Tick.
Arguments action W : clear implicits.
Arguments config Q W : clear implicits.

(** ** A tick that nothing preempts *)
Ltac ifs := repeat match goal with |- context [if ?b then _ else _] => destruct b end.
Section Sequential.
Context {Q W : Type} `{FreeRtosQueue Q VcuEvent.t} `{IRelayActuator W}.
Implicit Types (v : vcu Q W) (w : W).

Lemma iter_done n v w : Nat.iter n tick_step (Done, v, w) = (Done, v, w).
Proof. induction n as [|n IH]; [done|]. by rewrite Nat.iter_succ, IH. Qed.

(** One step of a run of [n] more, on the left. *)
Lemma iter_left n (x : point * vcu Q W * W) : Nat.iter (S n) tick_step x = Nat.iter n tick_step (tick_step x).
Proof. apply Nat.iter_succ_r. Qed.

Lemma steps_checks v w : Nat.iter 7 tick_step (AtVerify, v, w) = (Done, (run_checks v w).1, (run_checks v w).2).
Proof.
  unfold run_checks. do 2 rewrite iter_left. cbn [tick_step].
  destruct (_ && hasActuatorFault _); [apply iter_done|]. rewrite iter_left. cbn [tick_step].
  destruct (_ && hasCriticalCondition _ _); [apply iter_done|]. do 2 rewrite iter_left. cbn [tick_step].
  destruct (pollEvent (noteWarning v)) as [[e v1]|]; rewrite iter_left; cbn [tick_step].
  - destruct (handleEvent e v1 _) as [[[] v2] w2]; [apply iter_done|]. rewrite iter_left. cbn [tick_step].
    by destruct (periodic v2 w2).
  - destruct (periodic (noteWarning v) _) as [v2 w2]. apply iter_done.
Qed.

Lemma steps_run v w : Nat.iter 10 tick_step (AtTimers, v, w) = (Done, (run v w).1, (run v w).2).
Proof.
  unfold run. do 2 rewrite iter_left. cbn [tick_step s_eStopPending s_state].
  destruct (s_eStopPending v && _); [apply iter_done|]. rewrite iter_left. cbn [tick_step s_faultPending s_state].
  destruct (s_faultPending v && _); [apply iter_done|]. apply steps_checks.
Qed.

(** The points at which an event of a kind is read. *)
Definition reads (k : point) (e : VcuEvent.t) : bool :=
  match k, e with
  | AtEstop, VcuEvent.EMERGENCY_STOP => true
  | AtFault, VcuEvent.FAULT_DETECTED => true
  | AtPoll, (VcuEvent.EMERGENCY_STOP | VcuEvent.FAULT_DETECTED) => false
  | AtPoll, _ => true
  | _, _ => false
  end.

(** Events of a kind that the tick has already read, or never will, at a point. *)
Definition late (k : point) (e : VcuEvent.t) : bool :=
  match e with
  | VcuEvent.EMERGENCY_STOP => negb (bool_decide (k = AtTimers)) && negb (bool_decide (k = AtEstop))
  | VcuEvent.FAULT_DETECTED =>
      negb (bool_decide (k = AtTimers)) && negb (bool_decide (k = AtEstop)) && negb (bool_decide (k = AtFault))
  | _ => match k with AtEvent _ | AtPeriodic | Done => true | _ => false end
  end.

(** The fields other tasks write, and a change of them alone. *)
Definition with_shared (es fs : bool) (q : option Q) v : vcu Q W :=
  {| v with s_eStopPending := es; s_faultPending := fs; s_eventQueue := q |}.

Definition post_fields (e : VcuEvent.t) (es fs : bool) (q : option Q) : bool * bool * option Q :=
  match q with
  | None => (es, fs, q)
  | Some q0 =>
      match e with
      | VcuEvent.EMERGENCY_STOP => (true, fs, q)
      | VcuEvent.FAULT_DETECTED => (es, true, q)
      | _ => (es, fs, Some (snd (xQueueSend e q0)))
      end
  end.

Lemma post_shared e v :
  postEvent e v = let '(es, fs, q) := post_fields e (s_eStopPending v) (s_faultPending v) (s_eventQueue v) in
                  with_shared es fs q v.
Proof. destruct v as [a [q|]]; [|done]. by destruct e. Qed.

(** A step that neither reads nor writes the shared fields. *)
Definition blind {A} (g : vcu Q W → A * vcu Q W) : Prop :=
  ∀ es fs q v, g (with_shared es fs q v) = ((g v).1, with_shared es fs q (g v).2).

Lemma blind_post {A} (g : vcu Q W → A * vcu Q W) e v :
  blind g → g (postEvent e v) = ((g v).1, postEvent e (g v).2).
Proof.
  intros Hg. rewrite (post_shared e v), (post_shared e (g v).2).
  assert (Hv : (g v).2 = with_shared (s_eStopPending v) (s_faultPending v) (s_eventQueue v) (g v).2).
  { assert (Es : v = with_shared (s_eStopPending v) (s_faultPending v) (s_eventQueue v) v) by (by destruct v).
    rewrite Es at 1. by rewrite Hg. }
  rewrite Hv. cbn [with_shared s_eStopPending s_faultPending s_eventQueue].
  destruct (post_fields _ _ _ _) as [[es fs] q]. rewrite Hg. by rewrite Hv.
Qed.

Lemma handleEvent_shared es fs q e v w :
  handleEvent e (with_shared es fs q v) w =
  let '(ret, v', w') := handleEvent e v w in (ret, with_shared es fs q v', w').
Proof.
  destruct v. unfold handleEvent, handleStartRequest, getTelemetrySnapshot, with_shared; cbn.
  by repeat (case_match; cbn).
Qed.
Lemma periodic_shared es fs q v w :
  periodic (with_shared es fs q v) w = let '(v', w') := periodic v w in (with_shared es fs q v', w').
Proof.
  destruct v. unfold periodic, handleIdle, handleReady, handleDrive, handleEmergencyStop, handleFault,
    requestZeroTorque, with_shared; cbn.
  by repeat (case_match; cbn; simplify_eq/=).
Qed.

Definition step_at (k : point) w (v : vcu Q W) : (point * W) * vcu Q W :=
  let '(k, v, w) := tick_step (k, v, w) in ((k, w), v).

Lemma blind_step k w : k ≠ AtEstop → k ≠ AtFault → k ≠ AtPoll → blind (step_at k w).
Proof.
  intros H1 H2 H3 es fs q v. destruct k as [| | | | | | | |e| |]; try done; unfold step_at; cbn [tick_step].
  - destruct v. unfold with_shared. cbn. by ifs.
  - destruct v. unfold with_shared, getTelemetrySnapshot. cbn. by ifs.
  - destruct v. unfold with_shared, noteWarning, getTelemetrySnapshot. cbn. by ifs.
  - rewrite handleEvent_shared. by destruct (handleEvent e v w) as [[[] ?] ?].
  - rewrite periodic_shared. by destruct (periodic v w).
Qed.

(** A post commutes with every step that does not read its kind. *)
Lemma step_post e k v w : reads k e = false →
  tick_step (k, postEvent e v, w) =
  let '(k', v', w') := tick_step (k, v, w) in (k', postEvent e v', w').
Proof.
  intros Hr. destruct (decide (k = AtEstop ∨ k = AtFault ∨ k = AtPoll)) as [[->|[->| ->]]|Hk].
  1,2: rewrite !post_shared; destruct v as [a [q|]]; destruct e; try done; cbn; by ifs.
  - destruct v as [a [q|]]; [|done]. destruct e; try done; cbn; by destruct (xQueueReceive q) as [[? ?]|].
  - pose proof (blind_post (step_at k w) e v (blind_step k w ltac:(tauto) ltac:(tauto) ltac:(tauto))) as Hb.
    unfold step_at in Hb. destruct (tick_step (k, v, w)) as [[k1 v1] w1].
    destruct (tick_step (k, postEvent e v, w)) as [[k2 v2] w2]. cbn in Hb. by simplify_eq.
Qed.

(** Posts of different kinds commute. *)
Definition ordinary (e : VcuEvent.t) : bool :=
  match e with VcuEvent.EMERGENCY_STOP | VcuEvent.FAULT_DETECTED => false | _ => true end.

Lemma post_post e1 e2 v : (ordinary e1 = true → ordinary e2 = false) →
  postEvent e1 (postEvent e2 v) = postEvent e2 (postEvent e1 v).
Proof.
  intros Ho. destruct v as [a [q|]]; [|done]. destruct e1, e2; cbn in *; try done; by specialize (Ho eq_refl).
Qed.
End Sequential.

(** ** Moving the posts out of a tick *)
Section Linearise.
Context {Q W : Type} `{FreeRtosQueue Q VcuEvent.t} `{IRelayActuator W}.
Implicit Types (v : vcu Q W) (w : W) (x : config Q W) (sched : list (action W)).

Definition add_posts (l : list VcuEvent.t) x : config Q W := {| x with unit_ := postAll l (unit_ x) |}.
Definition is_post (a : action W) : bool := match a with Post _ => true | _ => false end.
Definition in_tick (a : action W) : bool := match a with Begin _ => false | _ => true end.
(** The schedule without its posts. *)
Definition quiet sched : list (action W) := filter (λ a, is_post a = false) sched.

Lemma late_step k v w e : late k e = true → late (tick_step (k, v, w)).1.1 e = true.
Proof.
  intros Hl. destruct k; cbn [tick_step]; try (destruct e; done).
  all: repeat case_match; cbn; by destruct e.
Qed.
Lemma read_late k v w e : reads k e = true → late (tick_step (k, v, w)).1.1 e = true.
Proof.
  intros Hr. destruct k; try done; cbn [tick_step]; [by destruct e; try done; ifs..|].
  destruct (pollEvent v) as [[? ?]|]; by destruct e.
Qed.

Lemma late_act x a e : in_tick a = true → late (here x) e = true → late (here (act x a)) e = true.
Proof.
  intros Ha Hl. destruct a; try done. cbn [act].
  pose proof (late_step (here x) (unit_ x) (world x) e Hl). by destruct (tick_step _) as [[k v] w].
Qed.

Lemma act_own_post x e : reads (here x) e = false →
  act (add_posts [e] x) Own = add_posts [e] (act x Own).
Proof.
  intros Hr. cbn [act add_posts here unit_ world ticks]. unfold postAll. cbn [foldl flip].
  rewrite step_post by done. by destruct (tick_step _) as [[k v] w].
Qed.

Lemma act_quiet_post x a e : in_tick a = true → is_post a = false → (a = Own → reads (here x) e = false) →
  act (add_posts [e] x) a = add_posts [e] (act x a).
Proof. intros Ht Hp Hr. destruct a; try done. by apply act_own_post, Hr. Qed.

Lemma add_posts_snoc l e x : add_posts (l ++ [e]) x = add_posts [e] (add_posts l x).
Proof. unfold add_posts, postAll. by rewrite foldl_app. Qed.

Lemma reads_not_late k e : late k e = true → reads k e = false.
Proof. by destruct k, e. Qed.

Lemma act_quiet_posts x a l : in_tick a = true → is_post a = false →
  Forall (λ e, late (here x) e = true) l → act (add_posts l x) a = add_posts l (act x a).
Proof.
  intros Ht Hp. induction l as [|e l IH] using rev_ind; intros Hl.
  { assert (Hn : ∀ y, add_posts [] y = y) by (by intros []). by rewrite !Hn. }
  apply Forall_app in Hl as [Hl He]. apply Forall_cons_1 in He as [He _].
  rewrite !add_posts_snoc, <- IH by done. apply act_quiet_post; [done..|].
  intros _. by apply reads_not_late.
Qed.

(** A post that no step of a quiet schedule has read may as well come first. *)
Lemma exec_post_first q x e : Forall (λ a, in_tick a = true ∧ is_post a = false) q →
  late (here (exec q x)) e = false → exec q (add_posts [e] x) = add_posts [e] (exec q x).
Proof.
  induction q as [|a q IH] using rev_ind; intros Hq Hl; [done|].
  apply Forall_app in Hq as [Hq Ha]. apply Forall_cons_1 in Ha as [[Ht Hp] _].
  rewrite !exec_snoc in *.
  destruct (late (here (exec q x)) e) eqn:El.
  { apply (late_act _ _ _ Ht) in El. congruence. }
  rewrite IH by done. apply act_quiet_post; [done..|]. intros ->.
  destruct (reads (here (exec q x)) e) eqn:Er; [|done]. cbn [act] in Hl.
  apply (read_late _ (unit_ (exec q x)) (world (exec q x))) in Er.
  destruct (tick_step _) as [[k v] w]. cbn in *. congruence.
Qed.

Lemma posts_commute l e v : (ordinary e = true → Forall (λ e', ordinary e' = false) l) →
  postEvent e (postAll l v) = postAll l (postEvent e v).
Proof.
  intros Ho. revert v. induction l as [|e' l IH]; intros v; [done|]. unfold postAll in *. cbn [foldl flip].
  rewrite IH; [|by intros He; apply Ho, Forall_cons_1 in He as [_ ?]].
  f_equal. apply post_post. intros He. by apply Ho, Forall_cons_1 in He as [? _].
Qed.

(** Ordinary events are late from the poll on. *)
Lemma late_ordinary k e e' : ordinary e = true → ordinary e' = true → late k e = late k e'.
Proof. by destruct e, e', k. Qed.

Lemma quiet_snoc sched a : quiet (sched ++ [a]) = quiet sched ++ (if is_post a then [] else [a]).
Proof. unfold quiet. rewrite filter_app. by destruct a. Qed.
Lemma posts_snoc sched a :
  posts (sched ++ [a]) = posts sched ++ (match a with Post e => [e] | _ => [] end).
Proof. unfold posts. rewrite omap_app. by destruct a. Qed.
Lemma quiet_in_tick sched : Forall (λ a, in_tick a = true) sched →
  Forall (λ a, in_tick a = true ∧ is_post a = false) (quiet sched).
Proof.
  intros Hs. apply Forall_forall. intros a [Ha Hin]%list_elem_of_filter.
  rewrite Forall_forall in Hs. auto.
Qed.

Lemma schedule_linearises sched x : Forall (λ a, in_tick a = true) sched →
  ∃ before after, before ++ after ≡ₚ posts sched ∧
    filter (λ e, ordinary e = true) (before ++ after) = filter (λ e, ordinary e = true) (posts sched) ∧
    Forall (λ e, late (here (exec sched x)) e = true) after ∧
    exec sched x = add_posts after (exec (quiet sched) (add_posts before x)).
Proof.
  induction sched as [|a sched IH] using rev_ind; intros Hs.
  { exists [], []. by split_and!; [| |constructor|destruct x]. }
  apply Forall_app in Hs as [Hs Ha]. apply Forall_cons_1 in Ha as [Ha _].
  destruct (IH Hs) as (before & after & Hp & Ho & Hl & E). rewrite exec_snoc, quiet_snoc, posts_snoc.
  set (z := exec (quiet sched) (add_posts before x)) in *.
  assert (Hz : here (exec sched x) = here z) by (by rewrite E).
  destruct (is_post a) eqn:Ep.
  2:{ exists before, after. destruct a as [m| |e|f]; try done; rewrite app_nil_r, exec_snoc; fold z.
      all: split_and!; [done|done|eapply Forall_impl; [exact Hl|intros e He; by apply late_act]|].
      all: rewrite E; apply act_quiet_posts; [done|done|]; by rewrite <- Hz. }
  destruct a as [| |e|]; try done. cbn [act]. rewrite app_nil_r.
  change {| (exec sched x) with unit_ := _ |} with (add_posts [e] (exec sched x)).
  change (here (add_posts [e] (exec sched x))) with (here (exec sched x)).
  destruct (late (here (exec sched x)) e) eqn:El.
  - exists before, (after ++ [e]). rewrite app_assoc. split_and!.
    + by rewrite Hp.
    + by rewrite !filter_app, <- filter_app, Ho.
    + apply Forall_app. by split; [|constructor].
    + rewrite E. by rewrite add_posts_snoc.
  - assert (Hoa : ordinary e = true → Forall (λ e', ordinary e' = false) after).
    { intros Hoe. eapply Forall_impl; [exact Hl|]. intros e' He'. cbn in He'.
      destruct (ordinary e') eqn:Ho'; [|done]. rewrite (late_ordinary _ e' e) in He' by done. congruence. }
    exists (before ++ [e]), after. split_and!.
    + rewrite <- Hp. rewrite <- app_assoc. cbn [app]. rewrite <- (Permutation_cons_append (before ++ after)).
      by rewrite <- Permutation_middle.
    + rewrite !filter_app in *. rewrite <- Ho. rewrite <- !app_assoc. f_equal.
      destruct (ordinary e) eqn:Hoe.
      * assert (filter (λ e, ordinary e = true) after = []) as ->; [|by rewrite app_nil_r].
        specialize (Hoa eq_refl). clear -Hoa. induction Hoa as [|e' l He' _ IHl]; [done|].
        rewrite filter_cons_False; [done|congruence].
      * rewrite filter_cons_False by congruence. by rewrite app_nil_r.
    + done.
    + rewrite E, add_posts_snoc. rewrite exec_post_first.
      * fold z. unfold add_posts. cbn [here unit_ world ticks]. f_equal. by apply (posts_commute after e).
      * by apply quiet_in_tick.
      * fold z. by rewrite <- Hz.
Qed.

Lemma exec_owns n k v w t :
  ∃ t', exec (replicate n Own) {| here := k; unit_ := v; world := w; ticks := t |} =
  {| here := (Nat.iter n tick_step (k, v, w)).1.1; unit_ := (Nat.iter n tick_step (k, v, w)).1.2;
     world := (Nat.iter n tick_step (k, v, w)).2; ticks := t' |}.
Proof.
  revert k v w t. induction n as [|n IH]; intros k v w t; [by exists t|].
  rewrite iter_left. cbn [replicate]. unfold exec. cbn [foldl]. fold (exec (Q:=Q) (W:=W) (replicate n Own)).
  cbn [act here unit_ world ticks]. destruct (tick_step (k, v, w)) as [[k1 v1] w1]. apply IH.
Qed.

Lemma iter_run n v w k1 v1 w1 : Nat.iter n tick_step (AtTimers, v, w) = (k1, v1, w1) → k1 = Done →
  (v1, w1) = run v w.
Proof.
  intros E ->.
  assert (E1 : Nat.iter (10 + n) tick_step (AtTimers, v, w) = (Done, v1, w1))
    by (rewrite Nat.iter_add, E; apply iter_done).
  rewrite Nat.add_comm, Nat.iter_add, steps_run, iter_done in E1. destruct (run v w). cbn in *. congruence.
Qed.

(** [C8] A preempted tick is atomic.  Whatever other tasks post between the steps of one
    call of [run], in any order and however full the queue, the state machine and the world
    end as if some of these events had been posted before an uninterrupted [run] and the
    others after it; the events that go through the queue keep their order. *)
Theorem preempted_tick_is_atomic sched v w t :
  Forall (λ a, a = Own ∨ ∃ e, a = Post e) sched →
  let y := exec sched {| here := AtTimers; unit_ := v; world := w; ticks := t |} in
  here y = Done →
  ∃ before after, before ++ after ≡ₚ posts sched ∧
    filter (λ e, ordinary e = true) (before ++ after) = filter (λ e, ordinary e = true) (posts sched) ∧
    unit_ y = postAll after (run (postAll before v) w).1 ∧ world y = (run (postAll before v) w).2.
Proof.
  intros Hs y Hy. set (x := {| here := AtTimers; unit_ := v; world := w; ticks := t |}) in *.
  destruct (schedule_linearises sched x) as (before & after & Hp & Ho & _ & E).
  { eapply Forall_impl; [exact Hs|]. by intros a [->|[e ->]]. }
  exists before, after. split; [done|]. split; [done|]. fold y in E.
  assert (Hq : ∃ n, quiet sched = replicate n Own).
  { exists (length (quiet sched)). symmetry. apply replicate_as_Forall. split; [done|].
    apply Forall_forall. intros a [Ha Hin]%list_elem_of_filter. rewrite Forall_forall in Hs.
    destruct (Hs a Hin) as [->|[e ->]]; done. }
  destruct Hq as [n Hq]. rewrite Hq in E. unfold add_posts at 2 in E. cbn in E.
  destruct (exec_owns n AtTimers (postAll before v) w t) as [t' En].
  rewrite En in E. destruct (Nat.iter n tick_step _) as [[k1 v1] w1] eqn:Ei. cbn in E.
  rewrite E in Hy |- *. cbn in Hy |- *. apply iter_run in Ei; [|done]. by rewrite <- Ei.
Qed.
End Linearise.

(** ** On the bench of [VcuLogicCorrect] *)
Import Bench.
Module Burst.
(** Three events inside one tick, the E-STOP after its flag was read. *)
Definition burst : list (action bench) :=
  replicate 3 Own ++ Post VcuEvent.EMERGENCY_STOP :: Own :: Post VcuEvent.START_REQUEST ::
  replicate 4 Own ++ Post VcuEvent.RESET :: replicate 2 Own.
End Burst.
Import Burst.

Lemma preempted_tick_is_atomic_witness :
  ∃ before after, before ++ after ≡ₚ [VcuEvent.EMERGENCY_STOP; VcuEvent.START_REQUEST; VcuEvent.RESET] ∧
    s_state (run (postAll before armed) booted.2).1 = VcuState.READY ∧
    s_eStopPending (postAll after (run (postAll before armed) booted.2).1) = true.
Proof.
  destruct (preempted_tick_is_atomic burst armed booted.2 0) as (before & after & Hp & _ & Hu & Hw).
  - repeat (constructor; [first [by left|right; by eexists]|]). constructor.
  - by vm_compute.
  - exists before, after. split; [exact Hp|].
    assert (Hs : s_state (postAll after (run (postAll before armed) booted.2).1) = VcuState.READY)
      by (rewrite <- Hu; by vm_compute).
    rewrite (proj1 (postAll_frame after _)) in Hs. split; [exact Hs|]. rewrite <- Hu. by vm_compute.
Defined.
