(* ===== verification/VcuTickCorrect.v ===== *)
(** The control unit under preemption: the reachability invariant at every point of a tick,
    and the opening of the contactors in every interleaving of the unit's steps with the
    posts of other tasks and changes of the hardware.

    [need] bounds the ticks that may still end before the contactors are commanded open:
    one per RESET on its way, two per E-STOP, and one or two more.  Every step lowers it by
    the ticks it ends, except for the events other tasks post meanwhile.  FAULT requests cost
    nothing: the state E-STOP is one tick away from opening, or two with the one that a
    FAULT request may take, and in the state FAULT another request changes nothing. *)
From S2P Require Import Prelude SystemConfig VehicleData FreeRtos IRelayActuator VcuSafety VcuLogic VcuLogicCorrect.
From S2P Require Import VcuTick.
From stdpp Require Import relations.
Open Scope Z_scope.

(** ** The invariant under interference *)
Section Interference.
Context {Q W : Type} `{FreeRtosQueueLaws Q VcuEvent.t} `{RelayActuatorContract W}.
Implicit Types (v : vcu Q W) (w : W) (x : config Q W) (sched : list (action W)).

(** What the world may do to itself at any moment, within a tick too: anything but changing
    the command or clearing the latch. *)
Definition env_ok (f : W → W) : Prop := ∀ w, ra_ok w →
  ra_ok (f w) ∧ ra_commanded (f w) = ra_commanded w ∧
  (hasActuatorFault w = true → hasActuatorFault (f w) = true).
Definition action_ok (a : action W) : Prop := match a with Env f => env_ok f | _ => True end.

(** [vcu_inv] at every point of a tick: between the transition to READY and the handler that
    closes the contactors, a live state has not closed them yet. *)
Record fine_inv x : Prop := {
  fi_ok : ra_ok (world x);
  fi_sink : sink_ok (unit_ x);
  fi_queue : ∃ q, s_eventQueue (unit_ x) = Some q ∧ q_capacity q = 8%nat ∧ (length (q_items q) <= 8)%nat;
  fi_bypass : bypass_free (unit_ x);
  fi_state : s_state (unit_ x) ≠ VcuState.INIT;
  fi_mutex : s_TEL_dataMutex (unit_ x) = true;
  fi_live : is_live_state (s_state (unit_ x)) → ra_commanded (world x) = all_contactors ∨
    (here x = AtPeriodic ∧ s_state (unit_ x) = VcuState.READY ∧ s_stateTimer (unit_ x) = 0);
  fi_opened : opened (unit_ x) = true → ra_commanded (world x) = 0;
  fi_mask : ra_commanded (world x) = 0 ∨ ra_commanded (world x) = all_contactors;
  fi_event : ∀ e, here x = AtEvent e → e ≠ VcuEvent.EMERGENCY_STOP ∧ e ≠ VcuEvent.FAULT_DETECTED;
}.

Lemma fine_vcu_inv x : fine_inv x → here x = Done → vcu_inv (unit_ x) (world x).
Proof. intros [] Hd. constructor; auto. intros Hl. by destruct (fi_live0 Hl) as [?|[? _]]; [|congruence]. Qed.
Lemma vcu_fine_inv x : vcu_inv (unit_ x) (world x) → here x = Done → fine_inv x.
Proof. intros [] Hd. constructor; auto. rewrite Hd. done. Qed.

(** A step to [k'] that changes only fields the invariant does not mention. *)
Lemma fine_skip k' v' w' t x : fine_inv x → here x ≠ AtPeriodic → (∀ e, k' ≠ AtEvent e) →
  s_eventQueue v' = s_eventQueue (unit_ x) → s_torqueSink v' = s_torqueSink (unit_ x) →
  s_TEL_dataMutex v' = s_TEL_dataMutex (unit_ x) → s_state v' = s_state (unit_ x) →
  opened v' = opened (unit_ x) → ra_ok w' → ra_commanded w' = ra_commanded (world x) →
  fine_inv {| here := k'; unit_ := v'; world := w'; ticks := t |}.
Proof.
  intros [] Hp He Eq Ek Em Es Eo Hok Ec. constructor; cbn; rewrite ?Eq, ?Em, ?Es, ?Eo, ?Ec; auto.
  - intros k Hk. apply fi_sink0. congruence.
  - unfold bypass_free, queued in *. by rewrite Eq.
  - intros Hl. destruct (fi_live0 Hl) as [?|[? _]]; [by left|done].
  - intros e ->. by destruct (He e).
Qed.

(** The early returns into a safe state. *)
Lemma fine_enter next v' t x : fine_inv x → is_safe_state next →
  s_eventQueue v' = s_eventQueue (unit_ x) → s_torqueSink v' = s_torqueSink (unit_ x) →
  s_TEL_dataMutex v' = s_TEL_dataMutex (unit_ x) →
  fine_inv {| here := Done; unit_ := transitionTo next v'; world := world x; ticks := t |}.
Proof.
  intros [] Hs Eq Ek Em. destruct (transitionTo_frame next v') as (Fq & Fk & _ & _ & _ & Fm).
  destruct (safe_not_live _ Hs) as [Hl Hi].
  constructor; cbn; rewrite ?Fq, ?Fm, ?transitionTo_state, ?Eq, ?Em; auto.
  - intros k Hk. apply fi_sink0. congruence.
  - unfold bypass_free, queued in *. by rewrite Fq, Eq.
  - done.
  - by rewrite opened_transition.
Qed.

Lemma fine_event e v' w' ret t x : fine_inv x → here x = AtEvent e →
  handleEvent e (unit_ x) (world x) = (ret, v', w') →
  fine_inv {| here := if ret : bool then Done else AtPeriodic; unit_ := v'; world := w'; ticks := t |}.
Proof.
  intros [] Hh E. destruct (fi_event0 _ Hh) as [He1 He2].
  pose proof (handleEvent_opened _ _ _ _ _ _ E) as Ho.
  apply handleEvent_spec in E as ([Ok Ek _ Em] & Eq & _ & _ & Ec & Hc).
  assert (Hne : here x ≠ AtPeriodic) by congruence.
  assert (Hl0 : is_live_state (s_state (unit_ x)) → ra_commanded (world x) = all_contactors).
  { intros Hl. by destruct (fi_live0 Hl) as [?|[? _]]. }
  specialize (Ok fi_ok0). specialize (Ec fi_ok0).
  constructor; cbn; rewrite ?Eq, ?Em, ?Ec; auto.
  - intros k Hk. apply fi_sink0. congruence.
  - unfold bypass_free, queued in *. by rewrite Eq.
  - destruct ret; [destruct Hc as [[? _]|[[? _]|(_ & _ & [(_ & -> & _)|(_ & -> & _)])]]
      |destruct Hc as [_ [(-> & _)|[(_ & _ & _ & _ & ->)|(_ & _ & ->)]]]]; done.
  - destruct ret.
    + destruct Hc as [[? _]|[[? _]|(_ & Hs & [(_ & -> & _)|(_ & -> & _)])]]; [done..| |].
      * intros [?|?]; done.
      * intros Hl. by destruct (safe_not_live _ Hs).
    + destruct Hc as [_ [(Es & _)|[(_ & _ & _ & _ & ->)|(_ & Es & ->)]]].
      * rewrite Es. auto.
      * right. by split_and!.
      * intros _. left. apply Hl0. left. exact Es.
  - intros Hop. by destruct (Ho Hop) as [?%fi_opened0 _].
  - intros e' He'. by destruct ret.
Qed.

Lemma fine_periodic v' w' t x : fine_inv x → here x = AtPeriodic → periodic (unit_ x) (world x) = (v', w') →
  fine_inv {| here := Done; unit_ := v'; world := w'; ticks := t |}.
Proof.
  intros [] Hh E. pose proof (periodic_opened _ _ _ _ fi_sink0 fi_ok0 E) as Ho.
  destruct (periodic_spec _ _ _ _ fi_sink0 fi_ok0 E) as ([Es _ Eq Ek _ _ _ Em Ok] & Hc).
  assert (Hm : ra_commanded w' = ra_commanded (world x) ∨ ra_commanded w' = 0 ∨ ra_commanded w' = all_contactors).
  { destruct (s_state (unit_ x)); try (destruct Hc as [_ ->]; by left); [|naive_solver..].
    destruct Hc as [Hc _]. case_match; [auto|subst; auto]. }
  constructor; cbn; rewrite ?Eq, ?Es, ?Em; auto.
  - intros k Hk. apply fi_sink0. congruence.
  - unfold bypass_free, queued in *. by rewrite Eq.
  - intros Hl. left. specialize (fi_live0 Hl). destruct Hl as [Hl|Hl]; rewrite Hl in Hc.
    + destruct Hc as [Hc _]. destruct fi_live0 as [Hall|(_ & _ & Ht)].
      * case_match; [done|by subst].
      * rewrite Ht in Hc. exact Hc.
    + destruct Hc as [_ ->]. destruct fi_live0 as [?|(_ & ? & _)]; [done|congruence].
  - intros Hop. destruct (Ho Hop) as [?|[Hop0 ->]]; auto.
  - destruct Hm as [->|?]; auto.
Qed.

Lemma fine_own x : fine_inv x → fine_inv (act x Own).
Proof.
  intros Hx. cbn [act]. destruct (here x) eqn:Hh; cbn [tick_step].
  - by apply (fine_skip _ _ _ _ x); rewrite ?Hh; try done; apply Hx.
  - destruct (_ && _).
    + apply fine_enter; try done. by left.
    + by apply (fine_skip _ _ _ _ x); rewrite ?Hh; try done; apply Hx.
  - destruct (_ && _).
    + apply fine_enter; try done. by right.
    + by apply (fine_skip _ _ _ _ x); rewrite ?Hh; try done; apply Hx.
  - pose proof (fi_ok _ Hx). apply (fine_skip _ _ _ _ x); rewrite ?Hh; auto with aks.
    by apply ra_verify_commanded.
  - destruct (_ && _).
    + apply fine_enter; try done. by right.
    + by apply (fine_skip _ _ _ _ x); rewrite ?Hh; try done; apply Hx.
  - destruct (_ && _).
    + apply fine_enter; try done. by right.
    + by apply (fine_skip _ _ _ _ x); rewrite ?Hh; try done; apply Hx.
  - destruct (noteWarning_eq (unit_ x)) as [b ->].
    by apply (fine_skip _ _ _ _ x); rewrite ?Hh; try done; apply Hx.
  - pose proof (pollEvent_spec (unit_ x)) as Hp. destruct (queued (unit_ x)) as [|e l] eqn:Eq.
    { rewrite Hp. destruct Hx. constructor; cbn; auto; try done.
      intros Hl. destruct (fi_live0 Hl) as [?|[? _]]; [by left|congruence]. }
    destruct Hp as (q & q' & Hq & Hl & Hc & ->). destruct Hx.
    destruct fi_queue0 as (q0 & Hq0 & Hc0 & Hl0). unfold bypass_free in fi_bypass0. rewrite Eq in fi_bypass0.
    apply Forall_cons_1 in fi_bypass0 as [He Hb]. constructor; cbn; auto.
    + exists q'. split; [done|]. unfold queued in Eq. rewrite Hq in Eq, Hq0. simplify_eq. rewrite Eq in Hl0.
      cbn in Hl0. rewrite Hc. auto with lia.
    + unfold bypass_free, queued. cbn. by rewrite Hl.
    + intros Hlv. destruct (fi_live0 Hlv) as [?|[? _]]; [by left|congruence].
    + intros e' [= <-]. done.
  - destruct (handleEvent e _ _) as [[ret v'] w'] eqn:E. by apply (fine_event e v' w' ret _ x).
  - destruct (periodic _ _) as [v' w'] eqn:E. by apply (fine_periodic v' w' _ x).
  - by apply (fine_skip _ _ _ _ x); rewrite ?Hh; try done; apply Hx.
Qed.

Lemma fine_act x a : fine_inv x → action_ok a → fine_inv (act x a).
Proof.
  intros Hx Ha. destruct a as [mail| |e|f]; cbn [act].
  - destruct (decide _) as [Hd|]; [|done].
    assert (Hv : vcu_inv (match mail with Some d => setTelemetryData d (unit_ x) | None => unit_ x end) (world x)).
    { destruct mail; [apply inv_telemetry|]; by apply fine_vcu_inv. }
    destruct Hv. by constructor; cbn; auto.
  - by apply fine_own.
  - destruct Hx. destruct (postEvent_frame e (unit_ x)) as (Es & Eo & Ek & Em & Ed & Et & _).
    destruct fi_queue0 as (q & Hq & Hc & Hl). destruct (postEvent_queue e _ q Hq) as (q' & Hq' & Hc' & Hi).
    constructor; cbn; rewrite ?Es, ?Eo, ?Em, ?Et; auto.
    + intros k ?. apply fi_sink0. congruence.
    + exists q'. split_and!; [done|congruence|]. destruct Hi as [->|(-> & ? & _)]; [done|]. rewrite length_app. cbn. lia.
    + unfold bypass_free, queued in *. rewrite Hq in fi_bypass0. rewrite Hq'.
      destruct Hi as [->|(-> & _ & ?)]; [done|]. apply Forall_app_2; [done|by constructor].
  - destruct Hx. destruct (Ha _ fi_ok0) as (Ho & Ec & _). constructor; cbn; rewrite ?Ec; auto.
Qed.

Lemma fine_exec sched x : fine_inv x → Forall action_ok sched → fine_inv (exec sched x).
Proof.
  revert x. induction sched as [|a sched IH]; intros x Hx Ha; [done|].
  apply Forall_cons_1 in Ha as [Ha Hs]. apply IH; [by apply fine_act|done].
Qed.
End Interference.

(** ** Opening the contactors, whatever interferes *)
Section Liveness.
Context {Q W : Type} `{FreeRtosQueueLaws Q VcuEvent.t} `{RelayActuatorContract W}.
Implicit Types (v : vcu Q W) (w : W) (x y : config Q W) (sched : list (action W)).

(** The ticks that an event may keep from opening: an E-STOP takes one to change the state
    FAULT and lets a FAULT request change it back, a RESET is polled instead of the handler. *)
Definition cost (e : VcuEvent.t) : nat :=
  match e with VcuEvent.EMERGENCY_STOP => 2 | VcuEvent.RESET => 1 | _ => 0 end.
Definition urgent_posts sched : nat := sum_list (cost <$> posts sched).
Definition resets v : nat := length (filter (λ e, e = VcuEvent.RESET) (queued v)).
Definition weight v : nat := resets v + 2 * Nat.b2n (s_eStopPending v).

(** Critical in every state but IDLE. *)
Definition critical (d : TelemetryData) : Prop := hasCriticalCondition d VcuState.FAULT = true.

(** The cause of the stop stands ([true]: every record taken from the mailbox is critical)
    or nobody asks for a RESET ([false]). *)
Variable standing : bool.

Definition promised (a : action W) : Prop :=
  action_ok a ∧
  match a with
  | Begin mail => standing = true → ∃ d, mail = Some d ∧ critical d
  | Post e => standing = false → e ≠ VcuEvent.RESET
  | _ => True
  end.
Definition kept x : Prop :=
  (standing = true → here x ≠ Done → critical (s_TEL_latestData (unit_ x))) ∧
  (standing = false → VcuEvent.RESET ∉ queued (unit_ x) ∧ here x ≠ AtEvent VcuEvent.RESET).

(** The points before the test of the critical conditions, in order. *)
Definition rank (k : point) : nat :=
  match k with
  | Done => 0 | AtTimers => 1 | AtEstop => 2 | AtFault => 3 | AtVerify => 4 | AtActuator => 5
  | AtCritical => 6 | AtWarning => 7 | AtPoll => 8 | AtEvent _ => 9 | AtPeriodic => 10
  end.
(** A safe state, or a cause that this tick or the next turns into one. *)
Definition alarmed x : Prop :=
  is_safe_state (s_state (unit_ x)) ∨
  (s_eStopPending (unit_ x) = true ∧ (rank (here x) <= 2)%nat) ∨
  (s_faultPending (unit_ x) = true ∧ (rank (here x) <= 3)%nat) ∨
  (standing = true ∧ is_live_state (s_state (unit_ x)) ∧ (rank (here x) <= 6)%nat).

#[local] Instance safe_dec s : Decision (is_safe_state s).
Proof. unfold is_safe_state. apply _. Defined.

(** How many ticks may still end before the contactors are commanded open. *)
Definition base (s : VcuState.t) : nat := match s with VcuState.FAULT => 1 | _ => 2 end.
Definition need x : nat :=
  weight (unit_ x) + base (s_state (unit_ x)) + (if decide (here x = AtEvent VcuEvent.RESET) then 1 else 0).

Definition opening x : Prop :=
  ra_commanded (world x) = 0 ∧ (hasActuatorFault (world x) = false → ra_open (world x)).


Lemma critical_safe d s : critical d → is_safe_state s → hasCriticalCondition d s = true.
Proof. intros Hc Hs. by apply (critical_in_safe d VcuState.FAULT). Qed.
Lemma critical_live d s : critical d → is_live_state s → hasCriticalCondition d s = true.
Proof.
  unfold critical, hasCriticalCondition. intros Hc [->| ->]; exact Hc.
Qed.

Lemma weight_transition next v : weight (transitionTo next v) = weight v.
Proof. by destruct next. Qed.

Lemma resets_none v : VcuEvent.RESET ∉ queued v → resets v = 0%nat.
Proof.
  unfold resets. generalize (queued v). intros l. induction l as [|e l IH]; [done|].
  intros [Hne Hl]%not_elem_of_cons. rewrite filter_cons_False by congruence. auto.
Qed.
Lemma resets_length v : (resets v <= length (queued v))%nat.
Proof. apply length_filter. Qed.

Lemma weight_estop v : (weight {| v with s_eStopPending := false |} + 2 * Nat.b2n (s_eStopPending v) = weight v)%nat.
Proof. unfold weight, resets, queued. cbn. lia. Qed.
Lemma weight_fault v : weight {| v with s_faultPending := false |} = weight v.
Proof. done. Qed.
Lemma base_range s : (1 <= base s <= 2)%nat.
Proof. destruct s; cbn; lia. Qed.
Lemma need_least x : (1 <= need x)%nat.
Proof. pose proof (base_range (s_state (unit_ x))). unfold need. lia. Qed.

(** A step of [run] that ends the tick in a safe state at the cost of one unit, or goes on. *)
Lemma need_entered k v w t x next : k = Done →
  (weight v + base next + S (ticks x) <= need x + ticks x)%nat → t = S (ticks x) →
  (need {| here := k; unit_ := transitionTo next v; world := w; ticks := t |} + t <= need x + ticks x)%nat.
Proof.
  intros -> Hw ->. unfold need at 1. cbn [here unit_]. rewrite weight_transition, transitionTo_state.
  rewrite decide_False by done. lia.
Qed.

(** The state timer: it advances at the start of a tick and restarts with a transition, and
    does not wrap within the given number of ticks to come. *)
Definition clocked x (begins : nat) : Prop :=
  0 <= s_stateTimer (unit_ x) ∧
  s_stateTimer (unit_ x) + 20 * (Z.of_nat begins + (if decide (here x = AtTimers) then 1 else 0)) < 4294967296.
(** In a safe state past the start of a tick, the delay before opening is over. *)
Definition delayed x : Prop :=
  is_safe_state (s_state (unit_ x)) → (2 <= rank (here x))%nat → 20 <= s_stateTimer (unit_ x).
Definition timed x (begins : nat) : Prop := clocked x begins ∧ delayed x.

Lemma own_timer x : fine_inv x → here x ≠ AtTimers →
  let y := act x Own in
  (s_stateTimer (unit_ y) = s_stateTimer (unit_ x) ∧ s_state (unit_ y) = s_state (unit_ x)) ∨
  (s_stateTimer (unit_ y) = 0 ∧ (here y = Done ∨ ¬ is_safe_state (s_state (unit_ y)))).
Proof.
  intros Hx Hh. cbn zeta. cbn [act]. destruct (here x) eqn:Hk; cbn [tick_step]; try done; try (by left).
  1-4: ifs; cbn [here unit_]; rewrite ?transitionTo_timer; auto.
  - left. by destruct (noteWarning_eq (unit_ x)) as [b ->].
  - left. pose proof (pollEvent_spec (unit_ x)) as Hp. destruct (queued (unit_ x)) as [|e l]; [by rewrite Hp|].
    by destruct Hp as (q & q' & _ & _ & _ & ->).
  - destruct (handleEvent e _ _) as [[ret v'] w'] eqn:E. cbn [here unit_].
    apply handleEvent_spec in E as (_ & _ & _ & _ & _ & Hc). destruct ret.
    + destruct Hc as [[_ ->]|[(_ & Es & [->| ->])|(_ & _ & [(_ & -> & _)|(_ & -> & _)])]];
        rewrite ?transitionTo_timer; auto.
    + destruct Hc as [_ [(-> & -> & _)|[(_ & _ & _ & _ & ->)|(_ & _ & ->)]]]; [by left|right..];
        rewrite ?transitionTo_timer; (split; [done|right]); cbn; by intros [?|?].
  - destruct (periodic _ _) as [v' w'] eqn:E. cbn [here unit_]. left.
    by destruct (periodic_spec _ _ _ _ (fi_sink _ Hx) (fi_ok _ Hx) E) as ([-> -> _ _ _ _ _ _ _] & _).
Qed.

Lemma clocked_act x a n : fine_inv x → clocked x (match a with Begin _ => S n | _ => n end) →
  clocked (act x a) n ∧ (delayed x → delayed (act x a)).
Proof.
  intros Hx (H0t & Hb). unfold clocked, delayed. destruct a as [mail| |e|f].
  - cbn [act]. destruct (decide (here x = Done)) as [Hd|Hd].
    + cbn [here unit_]. rewrite decide_True by done. rewrite decide_False in Hb by congruence.
      assert (Et : s_stateTimer (match mail with Some d => setTelemetryData d (unit_ x) | None => unit_ x end) =
        s_stateTimer (unit_ x)) by (destruct mail; [unfold setTelemetryData; by case_match|done]).
      rewrite Et. split_and!; [lia..|]. cbn. lia.
    + split_and!; [done|lia|done].
  - destruct (decide (here x = AtTimers)) as [Hd|Hd].
    + cbn [act]. rewrite Hd. cbn [tick_step here unit_ rank s_stateTimer s_state]. unfold TASK_PERIOD_MS.
      rewrite u32_id by (unfold is_u32; lia). rewrite decide_False by done. split_and!; [lia..|]. lia.
    + pose proof (own_timer x Hx Hd) as Ht. cbn zeta in Ht.
      assert (Hn : here (act x Own) ≠ AtTimers ∧ (2 <= rank (here (act x Own)) → 2 <= rank (here x))%nat).
      { cbn [act]. destruct (here x); try done; cbn [tick_step]; repeat case_match; simplify_eq/=; split; (done || lia). }
      destruct Hn as [Hn Hr]. rewrite decide_False by done.
      destruct Ht as [[Et Es]|[Et Hd2]]; rewrite Et; rewrite ?Es.
      * split_and!; [done|lia|]. intros Hs ? ?. apply Hs; auto.
      * split_and!; [lia..|]. intros _ Hsf Hrk. destruct Hd2 as [Hd2|?]; [|done]. rewrite Hd2 in Hrk. cbn in Hrk. lia.
  - cbn [act here unit_]. destruct (postEvent_frame e (unit_ x)) as (Es & _ & _ & _ & _ & Et & _). by rewrite Et, Es.
  - done.
Qed.

Lemma timed_act x a n : fine_inv x → timed x (match a with Begin _ => S n | _ => n end) → timed (act x a) n.
Proof. intros Hx [Hc Hd]. destruct (clocked_act x a n Hx Hc). split; auto. Qed.

(** What a step of [run] keeps of the alarm, and what it costs. *)
Definition progress x y : Prop :=
  alarmed y ∧ kept y ∧ (need y + ticks y <= need x + ticks x)%nat.

Lemma progress_refl x : alarmed x → kept x → progress x x.
Proof. unfold progress. auto with lia. Qed.

(** A transition into a safe state that ends the tick. *)
Lemma progress_enter x next v' : is_safe_state next → kept x →
  queued v' = queued (unit_ x) → s_TEL_latestData v' = s_TEL_latestData (unit_ x) →
  here x ≠ Done →
  (weight v' + base next < need x)%nat →
  progress x {| here := Done; unit_ := transitionTo next v'; world := world x; ticks := S (ticks x) |}.
Proof.
  intros Hs Hk Eq Ed Hh Hw. destruct (transitionTo_frame next v') as (Fq & _ & _ & _ & Fd & _).
  unfold progress. split_and!.
  - left. cbn. by rewrite transitionTo_state.
  - destruct Hk as [Hk1 Hk2]. split; cbn; [done|]. intros Hst. destruct (Hk2 Hst) as [Hq _].
    split; [|done]. unfold queued in *. rewrite Fq. by rewrite Eq.
  - apply need_entered; [done|lia|done].
Qed.

(** A step to another point with no transition. *)
Lemma progress_skip x k' v' w' : kept x → here x ≠ Done → k' ≠ Done → (∀ e, k' ≠ AtEvent e) →
  s_state v' = s_state (unit_ x) → queued v' = queued (unit_ x) →
  s_TEL_latestData v' = s_TEL_latestData (unit_ x) → (weight v' <= weight (unit_ x))%nat →
  alarmed {| here := k'; unit_ := v'; world := w'; ticks := ticks x |} →
  progress x {| here := k'; unit_ := v'; world := w'; ticks := ticks x |}.
Proof.
  intros [Hk1 Hk2] Hh Hd He Es Eq Ed Hw Ha. unfold progress. split_and!; [done| |].
  - split; cbn; rewrite ?Ed, ?Eq; [auto|]. intros Hst. destruct (Hk2 Hst). by split.
  - unfold need. cbn [here unit_ ticks]. rewrite Es. rewrite (decide_False (P := k' = _)) by done. lia.
Qed.

Lemma own_unsafe x : fine_inv x → kept x → alarmed x → ¬ is_safe_state (s_state (unit_ x)) →
  progress x (act x Own) ∧ ra_commanded (world (act x Own)) = ra_commanded (world x).
Proof.
  intros Hx Hk Ha Hn. destruct Ha as [?|Ha]; [done|].
  assert (Hne : s_state (unit_ x) ≠ VcuState.EMERGENCY_STOP ∧ s_state (unit_ x) ≠ VcuState.FAULT)
    by (unfold is_safe_state in Hn; tauto).
  assert (Hneed : (weight (unit_ x) + 2 <= need x)%nat).
  { unfold need. assert (base (s_state (unit_ x)) = 2)%nat by (destruct (s_state (unit_ x)); by try tauto). lia. }
  cbn [act]. destruct (here x) eqn:Hh; cbn [rank] in Ha; cbn [tick_step]; try (exfalso; lia).
  - split; [|done]. apply progress_skip; rewrite ?Hh; try done. right. cbn. naive_solver lia.
  - rewrite bool_decide_eq_false_2 by (cbn; tauto). rewrite andb_true_r.
    destruct (s_eStopPending (unit_ x)) eqn:He; (split; [|done]).
    + apply progress_enter; rewrite ?Hh; try done; [by left|].
      pose proof (weight_estop (unit_ x)) as Hw. rewrite He in Hw. cbn in Hw |- *. lia.
    + apply progress_skip; rewrite ?Hh; try done.
      * pose proof (weight_estop (unit_ x)). cbn in *. lia.
      * right. cbn. naive_solver lia.
  - rewrite bool_decide_eq_false_2 by (cbn; tauto). rewrite andb_true_r.
    destruct (s_faultPending (unit_ x)) eqn:He; (split; [|done]).
    + apply progress_enter; rewrite ?Hh; try done; [by right|].
      cbn [base]. rewrite weight_fault. lia.
    + apply progress_skip; rewrite ?Hh; try done. right. cbn. naive_solver lia.
  - split; [|by apply ra_verify_commanded, Hx].
    apply progress_skip; rewrite ?Hh; try done. right. cbn. naive_solver lia.
  - destruct (_ && _); (split; [|done]).
    + apply progress_enter; rewrite ?Hh; try done; [by right|cbn [base]; lia].
    + apply progress_skip; rewrite ?Hh; try done. right. cbn. naive_solver lia.
  - assert (Hl : standing = true ∧ is_live_state (s_state (unit_ x))) by naive_solver lia.
    destruct Hl as [Hst Hl]. destruct Hk as [Hk1 Hk2].
    unfold getTelemetrySnapshot. rewrite (critical_live _ _ (Hk1 Hst ltac:(congruence)) Hl).
    assert (bool_decide (s_state (unit_ x) = VcuState.READY) || bool_decide (s_state (unit_ x) = VcuState.DRIVE) = true)
      as E by (by destruct Hl as [-> | ->]).
    rewrite <- orb_assoc, E, orb_true_r. cbn [andb]. split; [|done].
    apply progress_enter; rewrite ?Hh; try done; [by right|cbn [base]; lia].
  - split; [|done]. rewrite decide_False by tauto. destruct x as [k v w t]. cbn in Hh |- *. subst k.
    apply progress_refl; [right; cbn; exact Ha|done].
Qed.

(** In a safe state, below the handler: it stays one. *)
Definition safe_progress x y : Prop :=
  is_safe_state (s_state (unit_ y)) ∧ progress x y ∧ ra_commanded (world y) = ra_commanded (world x).

Lemma safe_skip x k' v' w' : kept x → is_safe_state (s_state (unit_ x)) → here x ≠ Done → k' ≠ Done →
  (∀ e, k' ≠ AtEvent e) → s_state v' = s_state (unit_ x) → queued v' = queued (unit_ x) →
  s_TEL_latestData v' = s_TEL_latestData (unit_ x) → (weight v' <= weight (unit_ x))%nat →
  ra_commanded w' = ra_commanded (world x) →
  safe_progress x {| here := k'; unit_ := v'; world := w'; ticks := ticks x |}.
Proof.
  intros Hk Hs Hh Hd He Es Eq Ed Hw Ec. unfold safe_progress. cbn [unit_ world]. rewrite Es.
  split_and!; [done| |done]. apply progress_skip; try done. left. cbn. by rewrite Es.
Qed.

Lemma safe_enter x next v' : kept x → is_safe_state (s_state (unit_ x)) → is_safe_state next →
  here x ≠ Done → queued v' = queued (unit_ x) → s_TEL_latestData v' = s_TEL_latestData (unit_ x) →
  (weight v' + base next < weight (unit_ x) + base (s_state (unit_ x)))%nat →
  safe_progress x {| here := Done; unit_ := transitionTo next v'; world := world x; ticks := S (ticks x) |}.
Proof.
  intros Hk Hs Hn Hh Eq Ed Hw. unfold safe_progress. cbn [unit_ world]. rewrite transitionTo_state.
  split_and!; [done| |done]. apply progress_enter; try done. unfold need. lia.
Qed.

Lemma own_safe_checks x : fine_inv x → kept x → is_safe_state (s_state (unit_ x)) →
  (1 <= rank (here x) <= 7)%nat → safe_progress x (act x Own).
Proof.
  intros Hx Hk Hs Hr. cbn [act]. destruct (here x) eqn:Hh; cbn [rank tick_step] in *; try lia.
  - apply safe_skip; rewrite ?Hh; done.
  - pose proof (weight_estop (unit_ x)) as Hw. pose proof (base_range (s_state (unit_ x))) as Hb.
    destruct (s_eStopPending (unit_ x)) eqn:He; [destruct (bool_decide _)|]; cbn [andb negb Nat.b2n] in *.
    2: apply safe_enter; rewrite ?Hh; try done; [by left|cbn [base]; lia].
    all: apply safe_skip; rewrite ?Hh; try done; lia.
  - destruct (s_faultPending (unit_ x)) eqn:He; [destruct (bool_decide_reflect (s_state (unit_ x) = VcuState.FAULT)) as [E|E]|];
      cbn [andb negb s_state] in *; rewrite ?bool_decide_eq_true_2, ?bool_decide_eq_false_2 by done; cbn [negb].
    2: apply safe_enter; rewrite ?Hh; try done; [by right|].
    2: { destruct Hs as [Hs|Hs]; [|done]. rewrite Hs. unfold weight, resets, queued. cbn. lia. }
    all: by apply safe_skip; rewrite ?Hh.
  - apply safe_skip; rewrite ?Hh; try done. by apply ra_verify_commanded, Hx.
  - assert (E : bool_decide (s_state (unit_ x) = VcuState.READY) || bool_decide (s_state (unit_ x) = VcuState.DRIVE) = false)
      by (by destruct Hs as [-> | ->]).
    rewrite E. apply safe_skip; rewrite ?Hh; done.
  - assert (E : bool_decide (s_state (unit_ x) = VcuState.IDLE) || bool_decide (s_state (unit_ x) = VcuState.READY)
      || bool_decide (s_state (unit_ x) = VcuState.DRIVE) = false) by (by destruct Hs as [-> | ->]).
    rewrite E. apply safe_skip; rewrite ?Hh; done.
  - destruct (noteWarning_eq (unit_ x)) as [b ->]. apply safe_skip; rewrite ?Hh; done.
Qed.

Lemma own_safe_poll x : kept x → is_safe_state (s_state (unit_ x)) → here x = AtPoll →
  safe_progress x (act x Own).
Proof.
  intros Hk Hs Hh. cbn [act]. rewrite Hh. cbn [tick_step].
  pose proof (pollEvent_spec (unit_ x)) as Hp. destruct (queued (unit_ x)) as [|e l] eqn:Eq.
  { rewrite Hp. apply safe_skip; rewrite ?Hh; done. }
  destruct Hp as (q & q' & Hq & Hl & _ & ->). rewrite decide_False by (intros [_ ?]; done).
  destruct Hk as [Hk1 Hk2].
  assert (Hw : (weight {| (unit_ x) with s_eventQueue := Some q' |} +
    (if decide (e = VcuEvent.RESET) then 1 else 0) = weight (unit_ x))%nat).
  { unfold weight, resets. rewrite Eq. unfold queued. cbn [s_eventQueue s_eStopPending].
    rewrite Hl, filter_cons. case_decide; cbn [length]; lia. }
  unfold safe_progress. cbn [unit_ world]. split_and!; [done| |done]. unfold progress.
  split_and!; [by left| |].
  - split; cbn; [intros Hst _; apply Hk1; [done|congruence]|]. intros Hst.
    destruct (Hk2 Hst) as [Hq2 _]. rewrite Eq in Hq2. apply not_elem_of_cons in Hq2 as [Hne Hq2].
    split; [unfold queued; cbn; by rewrite Hl|congruence].
  - unfold need. cbn [here unit_ ticks s_state]. rewrite Hh, (decide_False (P := AtPoll = _)) by done.
    destruct (decide (e = VcuEvent.RESET)) as [->|].
    + rewrite decide_True by done. lia.
    + rewrite decide_False by congruence. lia.
Qed.

(** The polled event: a RESET is refused, since the cause stands, and the others change nothing here. *)
Lemma own_safe_event x e : fine_inv x → kept x → is_safe_state (s_state (unit_ x)) → here x = AtEvent e →
  safe_progress x (act x Own).
Proof.
  intros Hx [Hk1 Hk2] Hs Hh. cbn [act]. rewrite Hh. cbn [tick_step].
  destruct (handleEvent e _ _) as [[ret v'] w'] eqn:E.
  apply handleEvent_spec in E as ([_ _ Ed _] & Eq & Ee & Ef & Ec & Hc). specialize (Ec (fi_ok _ Hx)).
  destruct (fi_event _ Hx _ Hh) as [He1 He2].
  assert (Eqd : queued v' = queued (unit_ x)) by (unfold queued; by rewrite Eq).
  assert (Ew : weight v' = weight (unit_ x)) by (unfold weight, resets; by rewrite Eqd, Ee).
  assert (Hcase : s_state v' = s_state (unit_ x) ∧ (ret = true → e = VcuEvent.RESET)).
  { destruct ret.
    - destruct Hc as [[? _]|[[? _]|(-> & _ & [(Hcr & _)|(_ & -> & _)])]]; [done..| |done].
      destruct standing.
      + rewrite (critical_safe _ _ (Hk1 eq_refl ltac:(congruence)) Hs) in Hcr. done.
      + destruct (Hk2 eq_refl) as [_ ?]. congruence.
    - destruct Hc as [_ [(-> & _)|[(_ & Hst & _)|(_ & Hst & _)]]]; [done|..];
        rewrite Hst in Hs; by destruct Hs. }
  destruct Hcase as [Es Hret]. unfold safe_progress. cbn [unit_ world]. rewrite Es.
  split_and!; [done| |done]. unfold progress. split_and!; [left; cbn; by rewrite Es| |].
  - split; cbn; rewrite ?Ed, ?Eqd; [intros Hst _; apply Hk1; [done|congruence]|].
    intros Hst. destruct (Hk2 Hst). split; [done|by destruct ret].
  - unfold need. cbn [here unit_ ticks]. rewrite Ew, Es, Hh.
    rewrite (decide_False (P := (if ret then _ else _) = _)) by (by destruct ret).
    destruct ret.
    + rewrite (Hret eq_refl). rewrite (decide_True (P := AtEvent VcuEvent.RESET = _)) by done.
      rewrite decide_True by done. lia.
    + rewrite (decide_False (P := _ ∧ _)) by (by intros []). case_decide; lia.
Qed.

(** The handler opens the contactors unless they are open. *)
Lemma own_safe_periodic x : fine_inv x → kept x → is_safe_state (s_state (unit_ x)) →
  here x = AtPeriodic →
  let y := act x Own in
  is_safe_state (s_state (unit_ y)) ∧ kept y ∧
  (ra_commanded (world y) = ra_commanded (world x) ∨ ra_commanded (world y) = 0) ∧
  (delayed x → ra_commanded (world x) ≠ 0 → opening y).
Proof.
  intros Hx [Hk1 Hk2] Hs Hh. cbn zeta. cbn [act]. rewrite Hh. cbn [tick_step].
  destruct (periodic _ _) as [v' w'] eqn:E.
  pose proof (periodic_spec _ _ _ _ (fi_sink _ Hx) (fi_ok _ Hx) E) as ([Es _ Eq _ Ee Ef Ed _ _] & Hc).
  assert (Eqd : queued v' = queued (unit_ x)) by (unfold queued; by rewrite Eq).
  cbn [unit_ world]. rewrite Es.
  split_and!; [done| |by destruct Hs as [Hs|Hs]; rewrite Hs in Hc|].
  - split; cbn; [done|]. rewrite Eqd. intros Hst. by destruct (Hk2 Hst).
  - intros Ht Hm. cbn [world].
    destruct (opened (unit_ x)) eqn:Ho; [by rewrite (fi_opened _ Hx Ho) in Hm|].
    assert (Hge : VCU_CONTACTOR_OPEN_DELAY_MS <= s_stateTimer (unit_ x)).
    { unfold VCU_CONTACTOR_OPEN_DELAY_MS. apply Ht; [done|]. rewrite Hh. cbn. lia. }
    by destruct (periodic_opens _ _ _ _ (fi_sink _ Hx) (fi_ok _ Hx) Hs Hge Ho E) as (_ & _ & ? & ?).
Qed.

(** The other actions. *)
Lemma weight_post e v : (weight (postEvent e v) <= weight v + cost e)%nat.
Proof.
  unfold weight, resets, queued, postEvent. destruct (s_eventQueue v) as [q|] eqn:Eq; [|rewrite Eq; lia].
  destruct e; cbn; rewrite ?Eq; try (destruct (s_eStopPending v); cbn; lia).
  all: match goal with |- context [xQueueSend ?e ?q0] => destruct (xQueueSend e q0) as [b q'] eqn:Hs end; cbn.
  all: destruct (q_send_ok _ _ _ _ Hs) as (_ & Hlt & Hge);
    match type of Hlt with (?n < ?m)%nat → _ => destruct (decide (n < m)%nat) as [Hl|Hl] end;
    [destruct (Hlt Hl) as [_ ->]; rewrite filter_app, length_app; cbn;
     match goal with |- context [decide (?a = ?b)] => destruct (decide (a = b)) end; try done; cbn; lia
    |destruct (Hge ltac:(lia)) as [_ ->]; lia].
Qed.

Lemma post_reset e v : e ≠ VcuEvent.RESET → VcuEvent.RESET ∉ queued v → VcuEvent.RESET ∉ queued (postEvent e v).
Proof.
  intros He Hq. unfold queued in *. destruct (s_eventQueue v) as [q|] eqn:Eq;
    [|by unfold postEvent; rewrite Eq; rewrite Eq].
  destruct (postEvent_queue e v q Eq) as (q' & -> & _ & [->|(-> & _)]); [done|].
  rewrite elem_of_app, list_elem_of_singleton. naive_solver.
Qed.

Lemma other_act x a : fine_inv x → kept x → promised a → a ≠ Own →
  let y := act x a in
  kept y ∧ s_state (unit_ y) = s_state (unit_ x) ∧ (alarmed x → alarmed y) ∧
  (need y + ticks y <= need x + ticks x + urgent_posts [a])%nat ∧
  ra_commanded (world y) = ra_commanded (world x).
Proof.
  intros Hx [Hk1 Hk2] [Ha Hp] Ho. cbn zeta. destruct a as [mail| |e|f]; [|done| |].
  - cbn [act]. destruct (decide (here x = Done)) as [Hd|Hd]; [|by split_and!; try done; cbn; lia].
    assert (Hv : ∃ d, (match mail with Some d => setTelemetryData d (unit_ x) | None => unit_ x end) =
      {| (unit_ x) with s_TEL_latestData := d |} ∧ (standing = true → critical d)).
    { destruct mail as [d|].
      - exists d. split; [unfold setTelemetryData; by rewrite (fi_mutex _ Hx)|].
        intros Hst. by destruct (Hp Hst) as (d' & [= <-] & ?).
      - exists (s_TEL_latestData (unit_ x)). split; [by destruct (unit_ x)|].
        intros Hst. by destruct (Hp Hst) as (d' & ? & _). }
    destruct Hv as (d & -> & Hd2). split_and!; try done.
    + split; cbn; [by auto|]. intros Hst. destruct (Hk2 Hst). by split.
    + unfold alarmed. cbn. rewrite Hd. cbn. naive_solver lia.
    + unfold need. cbn [unit_ here ticks s_state]. rewrite Hd, !(decide_False (P := _ = AtEvent _)) by done.
      change (weight {| (unit_ x) with s_TEL_latestData := d |}) with (weight (unit_ x)). lia.
  - cbn [act unit_ world]. destruct (postEvent_frame e (unit_ x)) as (Es & _ & _ & _ & Ed & _).
    split_and!; [|done| | |done].
    + split; cbn; rewrite ?Ed; [done|]. intros Hst. destruct (Hk2 Hst). split; [|done]. apply post_reset; auto.
    + unfold alarmed. cbn. rewrite Es. unfold postEvent. destruct (s_eventQueue (unit_ x)), e; cbn; naive_solver.
    + unfold need, urgent_posts, posts. cbn. rewrite Es. pose proof (weight_post e (unit_ x)). lia.
  - cbn [act unit_ world]. split_and!; try done; [cbn; unfold need; cbn; lia|].
    by destruct (Ha _ (fi_ok _ Hx)) as (_ & -> & _).
Qed.

(** The contactors are open in a safe state: it lasts. *)
Definition settled x : Prop := is_safe_state (s_state (unit_ x)) ∧ kept x ∧ ra_commanded (world x) = 0.

Lemma own_step x : fine_inv x → kept x → alarmed x →
  (progress x (act x Own) ∧ ra_commanded (world (act x Own)) = ra_commanded (world x)) ∨
  (is_safe_state (s_state (unit_ (act x Own))) ∧ kept (act x Own) ∧
   (ra_commanded (world (act x Own)) = ra_commanded (world x) ∨ ra_commanded (world (act x Own)) = 0) ∧
   (delayed x → ra_commanded (world x) ≠ 0 → opening (act x Own))).
Proof.
  intros Hx Hk Ha. destruct (decide (is_safe_state (s_state (unit_ x)))) as [Hs|Hs].
  2:{ left. by apply own_unsafe. }
  assert (Hsp : ∀ P, safe_progress x (act x Own) → (progress x (act x Own) ∧
    ra_commanded (world (act x Own)) = ra_commanded (world x)) ∨ P) by (intros P (_ & ? & ?); by left).
  destruct (here x) eqn:Hh.
  1-7: apply Hsp, own_safe_checks; [done..|rewrite Hh; cbn; lia].
  - by apply Hsp, own_safe_poll.
  - by eapply Hsp, own_safe_event.
  - right. by apply own_safe_periodic.
  - left. cbn [act]. rewrite Hh. cbn [tick_step]. rewrite decide_False by tauto.
    destruct x as [k v w t]. cbn in Hh |- *. subst k. split; [|done]. by apply progress_refl.
Qed.

Lemma settled_own x : fine_inv x → settled x → settled (act x Own).
Proof.
  intros Hx (Hs & Hk & Hm). assert (Hc : safe_progress x (act x Own) → settled (act x Own)).
  { intros (? & (_ & ? & _) & E). split_and!; [done..|by rewrite E]. }
  destruct (here x) eqn:Hh.
  1-7: apply Hc, own_safe_checks; [done..|rewrite Hh; cbn; lia].
  - by apply Hc, own_safe_poll.
  - by eapply Hc, own_safe_event.
  - destruct (own_safe_periodic x Hx Hk Hs Hh) as (? & ? & [E|E] & _); (split_and!; [done..|congruence]).
  - cbn [act]. rewrite Hh. cbn [tick_step]. destruct x as [k v w t]. cbn in Hh |- *. subst k. by split_and!.
Qed.

#[local] Instance own_dec (a : action W) : Decision (a = Own).
Proof. destruct a; by (left + right). Defined.

Definition is_begin (a : action W) : bool := match a with Begin _ => true | _ => false end.
Definition begins sched : nat := length (filter (λ a, is_begin a = true) sched).

Lemma urgent_cons a sched : urgent_posts (a :: sched) = (urgent_posts [a] + urgent_posts sched)%nat.
Proof. unfold urgent_posts, posts. destruct a as [| |e|]; cbn; lia. Qed.

Lemma settled_exec sched x : fine_inv x → settled x → Forall promised sched → settled (exec sched x).
Proof.
  revert x. induction sched as [|a sched IH]; intros x Hx Hs Hp; [done|].
  apply Forall_cons_1 in Hp as [Ha Hp]. change (exec (a :: sched) x) with (exec sched (act x a)).
  apply IH; [by apply fine_act, Ha| |done].
  destruct (decide (a = Own)) as [->|Hn].
  { by apply settled_own. }
  destruct Hs as (Hs & Hk & Hm). destruct (other_act x a Hx Hk Ha Hn) as (? & Es & _ & _ & Ec).
  split_and!; [by rewrite Es|done|by rewrite Ec].
Qed.

Lemma alarm_exec sched x : fine_inv x → kept x → alarmed x → timed x (begins sched) → Forall promised sched →
  (settled (exec sched x) ∧
   (ra_commanded (world x) ≠ 0 → ∃ pre post, sched = pre ++ post ∧ opening (exec pre x))) ∨
  (1 <= need (exec sched x) ∧ need (exec sched x) + ticks (exec sched x) <= need x + ticks x + urgent_posts sched)%nat.
Proof.
  revert x. induction sched as [|a sched IH]; intros x Hx Hk Ha Ht Hp.
  { right. cbn. split; [apply need_least|lia]. }
  apply Forall_cons_1 in Hp as [Hpa Hp]. change (exec (a :: sched) x) with (exec sched (act x a)).
  assert (Hx' : fine_inv (act x a)) by (by apply fine_act, Hpa).
  assert (Ht' : timed (act x a) (begins sched)) by (apply timed_act; [done|by destruct a]).
  assert (Hgo : kept (act x a) → alarmed (act x a) →
    (need (act x a) + ticks (act x a) <= need x + ticks x + urgent_posts [a])%nat →
    ra_commanded (world (act x a)) = ra_commanded (world x) →
    (settled (exec sched (act x a)) ∧
     (ra_commanded (world x) ≠ 0 → ∃ pre post, a :: sched = pre ++ post ∧ opening (exec pre x))) ∨
    (1 <= need (exec sched (act x a)) ∧
     need (exec sched (act x a)) + ticks (exec sched (act x a)) <= need x + ticks x + urgent_posts (a :: sched))%nat).
  { intros Hk' Ha' Hn Hm. rewrite urgent_cons.
    destruct (IH (act x a) Hx' Hk' Ha' Ht' Hp) as [[Hs Hop]|[? ?]]; [left|right; lia].
    split; [done|]. intros Hm'. destruct Hop as (pre & post & -> & Hop); [congruence|]. by exists (a :: pre), post. }
  destruct (decide (a = Own)) as [->|Hn].
  - destruct (own_step x Hx Hk Ha) as [[(Ha' & Hk' & Hn) Ec]|(Hs & Hk' & Hc & Hop)].
    + apply Hgo; try done. lia.
    + left. split; [|intros Hm; exists [Own], sched; split; [done|apply Hop; [apply Ht|done]]].
      apply settled_exec; try done. split_and!; [done..|].
      destruct (decide (ra_commanded (world x) = 0)) as [E|E]; [|apply Hop; [apply Ht|done]].
      destruct Hc; congruence.
  - destruct (other_act x a Hx Hk Hpa Hn) as (Hk' & _ & Ha' & Hn' & Ec). apply Hgo; auto.
Qed.

(** ** From any point of a tick *)

Definition alerted x : Prop :=
  is_safe_state (s_state (unit_ x)) ∨ s_eStopPending (unit_ x) = true ∨ s_faultPending (unit_ x) = true ∨
  (standing = true ∧ is_live_state (s_state (unit_ x)) ∧ (rank (here x) <= 6)%nat).

Lemma alerted_alarmed x : alerted x → here x = Done → alarmed x.
Proof. unfold alerted, alarmed. intros Ha ->. cbn. naive_solver lia. Qed.
Lemma alarmed_alerted x : alarmed x → alerted x.
Proof. unfold alerted, alarmed. naive_solver. Qed.

(** A step past the flags keeps them. *)
Lemma own_flags x : fine_inv x → (4 <= rank (here x))%nat →
  s_eStopPending (unit_ (act x Own)) = s_eStopPending (unit_ x) ∧
  s_faultPending (unit_ (act x Own)) = s_faultPending (unit_ x).
Proof.
  intros Hx Hr. cbn [act]. destruct (here x) eqn:Hh; cbn [rank tick_step] in *; try lia; try done.
  1,2: by ifs.
  - by destruct (noteWarning_eq (unit_ x)) as [b ->].
  - pose proof (pollEvent_spec (unit_ x)) as Hp. destruct (queued (unit_ x)) as [|e l]; [by rewrite Hp|].
    by destruct Hp as (q & q' & _ & _ & _ & ->).
  - destruct (handleEvent e _ _) as [[ret v'] w'] eqn:E. cbn [unit_].
    by apply handleEvent_spec in E as (_ & _ & -> & -> & _).
  - destruct (periodic _ _) as [v' w'] eqn:E. cbn [unit_].
    by destruct (periodic_spec _ _ _ _ (fi_sink _ Hx) (fi_ok _ Hx) E) as ([_ _ _ _ -> -> _ _ _] & _).
Qed.

Lemma own_queue x : fine_inv x →
  s_TEL_latestData (unit_ (act x Own)) = s_TEL_latestData (unit_ x) ∧
  (here (act x Own) = Done ∨ here x ≠ Done) ∧
  ((queued (unit_ (act x Own)) = queued (unit_ x) ∧ ∀ e, here (act x Own) ≠ AtEvent e) ∨
   ∃ e, queued (unit_ x) = e :: queued (unit_ (act x Own)) ∧ here (act x Own) = AtEvent e).
Proof.
  intros Hx. cbn [act]. destruct (here x) eqn:Hh; cbn [tick_step].
  1-6: ifs; cbn; auto.
  - destruct (noteWarning_eq (unit_ x)) as [b ->]. auto.
  - pose proof (pollEvent_spec (unit_ x)) as Hp. destruct (queued (unit_ x)) as [|e l] eqn:Eq.
    + rewrite Hp. cbn [unit_ here]. rewrite Eq. auto.
    + destruct Hp as (q & q' & _ & Hl & _ & ->). cbn [unit_ here]. split_and!; [done|auto|right].
      exists e. unfold queued. cbn. by rewrite Hl.
  - destruct (handleEvent e _ _) as [[ret v'] w'] eqn:E. cbn [unit_ here].
    apply handleEvent_spec in E as ([_ _ Ed _] & Eq & _). unfold queued. rewrite Ed, Eq.
    split_and!; [done|auto|left]. by destruct ret.
  - destruct (periodic _ _) as [v' w'] eqn:E. cbn [unit_ here].
    destruct (periodic_spec _ _ _ _ (fi_sink _ Hx) (fi_ok _ Hx) E) as ([_ _ Eq _ _ _ Ed _ _] & _).
    unfold queued. rewrite Ed, Eq. auto.
  - auto.
Qed.

Lemma kept_own x : fine_inv x → kept x → kept (act x Own).
Proof.
  intros Hx [Hk1 Hk2]. destruct (own_queue x Hx) as (Ed & Hd & Hq). split.
  - rewrite Ed. intros Hst Hn. apply Hk1; [done|]. by destruct Hd.
  - intros Hst. destruct (Hk2 Hst) as [Hnin _]. destruct Hq as [[Eq Hn]|(e & Eq & Hn)]; rewrite ?Eq in *; [done|].
    apply not_elem_of_cons in Hnin as [Hne Hnin]. split; [done|]. rewrite Hn. congruence.
Qed.

Lemma alerted_act x a : fine_inv x → kept x → alerted x → promised a → alerted (act x a) ∧ kept (act x a).
Proof.
  intros Hx Hk Ha Hp. destruct (decide (a = Own)) as [->|Hn].
  2:{ destruct (other_act x a Hx Hk Hp Hn) as (Hk' & Es & _). split; [|done].
      unfold alerted in *. rewrite Es. destruct a as [mail| |e|f]; [|done| |done]; cbn [act].
      - destruct (decide (here x = Done)) as [Hd|]; [|done]. cbn [unit_ here rank].
        assert (Ef : ∀ d, s_eStopPending (setTelemetryData d (unit_ x)) = s_eStopPending (unit_ x) ∧
          s_faultPending (setTelemetryData d (unit_ x)) = s_faultPending (unit_ x))
          by (intros d; unfold setTelemetryData; by case_match).
        destruct mail as [d|]; [destruct (Ef d) as [-> ->]|]; naive_solver lia.
      - cbn [unit_ here]. unfold postEvent. destruct (s_eventQueue (unit_ x)), e; cbn; naive_solver. }
  split; [|by apply kept_own].
  destruct (decide (alarmed x)) as [Hal|Hal].
  { destruct (own_step x Hx Hk Hal) as [[(Hal' & _) _]|(Hs & _)]; [by apply alarmed_alerted|by left]. }
  destruct (decide (4 <= rank (here x))%nat) as [Hr|Hr].
  { destruct (own_flags x Hx Hr) as [Ee Ef]. unfold alerted. rewrite Ee, Ef.
    unfold alerted, alarmed in Ha, Hal. naive_solver. }
  assert (He : here x = AtFault ∧ s_eStopPending (unit_ x) = true).
  { unfold alerted, alarmed in Ha, Hal. destruct (here x); cbn in *; naive_solver lia. }
  destruct He as [Hh He]. cbn [act]. rewrite Hh. cbn [tick_step]. right; left. by destruct (_ && _).
Qed.

Lemma weight_act x a : fine_inv x → (weight (unit_ (act x a)) <= weight (unit_ x) + urgent_posts [a])%nat.
Proof.
  intros Hx. destruct a as [mail| |e|f].
  - cbn [act]. destruct (decide (here x = Done)); [|cbn; lia].
    assert (E : ∀ d, weight (setTelemetryData d (unit_ x)) = weight (unit_ x))
      by (intros d; unfold setTelemetryData; by case_match).
    destruct mail; cbn [unit_]; rewrite ?E; lia.
  - assert (Hf : (Nat.b2n (s_eStopPending (unit_ (act x Own))) <= Nat.b2n (s_eStopPending (unit_ x)))%nat).
    { destruct (decide (4 <= rank (here x))%nat) as [Hr|Hr]; [by destruct (own_flags x Hx Hr) as [-> _]|].
      cbn [act]. destruct (here x); cbn in Hr; try lia; cbn [tick_step]; ifs; cbn; lia. }
    destruct (own_queue x Hx) as (_ & _ & Hq). unfold weight, resets.
    destruct Hq as [[-> _]|(e & -> & _)]; [lia|]. rewrite filter_cons. case_decide; cbn [length]; lia.
  - cbn [act unit_]. pose proof (weight_post e (unit_ x)) as Hw. unfold urgent_posts, posts. cbn. lia.
  - cbn. lia.
Qed.

(** The tick in flight ends, and with it the need to know its point. *)
Lemma finish_tick sched x : fine_inv x → kept x → alerted x → clocked x (begins sched) → Forall promised sched →
  (ticks x < ticks (exec sched x))%nat →
  ∃ s1 s2, sched = s1 ++ s2 ∧ let z := exec s1 x in
    here z = Done ∧ (ticks z <= S (ticks x))%nat ∧ fine_inv z ∧ kept z ∧ alarmed z ∧ timed z (begins s2) ∧
    (weight (unit_ z) + urgent_posts s2 <= weight (unit_ x) + urgent_posts sched)%nat.
Proof.
  revert x. induction sched as [|a sched IH]; intros x Hx Hk Ha Hc Hp Ht; [cbn in Ht; lia|].
  assert (Hdone : ∀ z, fine_inv z → kept z → alerted z → ∀ s, clocked z (begins s) → here z = Done →
    alarmed z ∧ timed z (begins s)).
  { intros z _ _ Haz s Hcz Hd. split; [by apply alerted_alarmed|]. split; [done|].
    intros _ Hr. rewrite Hd in Hr. cbn in Hr. lia. }
  destruct (decide (here x = Done)) as [Hd|Hd].
  { exists [], (a :: sched). destruct (Hdone x Hx Hk Ha (a :: sched) Hc Hd). cbn. split_and!; try done; lia. }
  apply Forall_cons_1 in Hp as [Hpa Hp].
  assert (Hx' : fine_inv (act x a)) by (by apply fine_act, Hpa).
  destruct (alerted_act x a Hx Hk Ha Hpa) as [Ha' Hk'].
  assert (Hc' : clocked (act x a) (begins sched)) by (apply clocked_act; [done|by destruct a]).
  pose proof (weight_act x a Hx) as Hw. change (exec (a :: sched) x) with (exec sched (act x a)) in Ht.
  rewrite urgent_cons.
  assert (Htk : ticks (act x a) = ticks x ∨ (ticks (act x a) = S (ticks x) ∧ here (act x a) = Done)).
  { destruct a; cbn [act]; [by case_decide; left| |by left..].
    destruct (tick_step _) as [[k v] w]. cbn [ticks here]. case_decide as E; [right|by left]. by destruct E. }
  destruct Htk as [Htk|[Htk Hd']].
  - destruct (IH (act x a)) as (s1 & s2 & -> & Hz); try done; [lia|].
    exists (a :: s1), s2. split; [done|]. cbn zeta in *. change (exec (a :: s1) x) with (exec s1 (act x a)).
    destruct Hz as (? & ? & ? & ? & ? & ? & ?). split_and!; try done; lia.
  - exists [a], sched. destruct (Hdone (act x a) Hx' Hk' Ha' sched Hc' Hd').
    cbn zeta. change (exec [a] x) with (act x a). split_and!; try done; lia.
Qed.
End Liveness.

Section Opening.
Context {Q W : Type} `{FreeRtosQueueLaws Q VcuEvent.t} `{RelayActuatorContract W}.
Implicit Types (x : config Q W) (sched : list (action W)).

(** Start-up, then any schedule. *)
Definition fine_reachable x : Prop :=
  ∃ x0 sched, vcu_boot (unit_ x0, world x0) ∧ here x0 = Done ∧ Forall action_ok sched ∧ x = exec sched x0.

Lemma fine_reachable_inv x : fine_reachable x → fine_inv x.
Proof.
  intros (x0 & sched & Hb & Hd & Ha & ->). apply fine_exec; [|done].
  apply vcu_fine_inv; [|done]. exact (inv_boot _ Hb).
Qed.

(** The contactors open, whatever interferes.  Take the unit in any state it can
    reach under preemption, within a tick or between two, in a safe state or with an E-STOP
    or FAULT request pending, or in READY or DRIVE with a critical record to be tested; let
    every record taken from the mailbox be critical, or let no RESET be queued or posted.
    Then in every interleaving of the unit's steps with the posts of other tasks and changes
    of the hardware, once two ticks (three, from within a tick), one per RESET and two per
    E-STOP pending at the start or posted meanwhile have ended, the unit is in a safe state with every contactor commanded open; and, from between two
    ticks, at one moment on the way, unless the driver latched an actuator fault, the
    contactors were open. *)
Lemma alarm_opens (standing : bool) sched x :
  fine_reachable x → alerted standing x → kept standing x → Forall (promised standing) sched →
  0 <= s_stateTimer (unit_ x) < 4294967296 - 20 * (Z.of_nat (begins sched) + 1) →
  (ticks x + weight (unit_ x) + urgent_posts sched + (if decide (here x = Done) then 2 else 3)
    <= ticks (exec sched x))%nat →
  let y := exec sched x in
  is_safe_state (s_state (unit_ y)) ∧ ra_commanded (world y) = 0 ∧
  (here x = Done → ra_commanded (world x) ≠ 0 → ∃ pre post, sched = pre ++ post ∧ opening (exec pre x)).
Proof.
  intros Hr Ha Hk Hp Ht Hn. cbn zeta. pose proof (fine_reachable_inv x Hr) as Hx.
  assert (Hc : clocked x (begins sched)) by (split; [lia|]; destruct (decide (here x = AtTimers)); lia).
  destruct (finish_tick standing sched x) as (s1 & s2 & Es & Hz); try done; [destruct (decide (here x = Done)); lia|]. cbn zeta in Hz.
  assert (Hs : ∃ s1 s2, sched = s1 ++ s2 ∧ let z := exec s1 x in fine_inv z ∧ kept standing z ∧ alarmed standing z ∧
    timed z (begins s2) ∧ (need z + ticks z + urgent_posts s2 < 1 + ticks (exec sched x))%nat ∧ (here x = Done → s1 = [])).
  { destruct (decide (here x = Done)) as [Hd|Hd].
    - exists [], sched. split; [done|]. cbn. split_and!; try done.
      + by apply alerted_alarmed.
      + split; [done|]. intros _ Hrk. rewrite Hd in Hrk. cbn in Hrk. lia.
      + assert (need x <= weight (unit_ x) + 2)%nat; [|lia]. unfold need. rewrite Hd, decide_False by done.
        pose proof (base_range (s_state (unit_ x))). lia.
    - exists s1, s2. split; [done|]. destruct Hz as (Hd' & Htk & Hz1 & Hz2 & Hz3 & Hz4 & Hw).
      split_and!; try done.
      assert (need (exec s1 x) <= weight (unit_ (exec s1 x)) + 2)%nat; [|lia]. unfold need. rewrite Hd', decide_False by done.
      pose proof (base_range (s_state (unit_ (exec s1 x)))). lia. }
  clear s1 s2 Es Hz. destruct Hs as (s1 & s2 & -> & Hx1 & Hk1 & Ha1 & Ht1 & Hn1 & Hnil).
  apply Forall_app in Hp as [_ Hp]. rewrite exec_app in *.
  destruct (alarm_exec standing s2 (exec s1 x) Hx1) as [[(Hs & _ & Hm) Hop]|[H1n Hle]]; try done; [|lia].
  split_and!; try done. intros Hd Hm'. rewrite (Hnil Hd) in *. by apply Hop.
Qed.
End Opening.
