(* ===== verification/CanParse.v ===== *)
(** [lib/CanParse]: the pure CAN payload parsers.

    A [twai_message_t] is a record with its eight data bytes.  A parser that takes
    [TelemetryData& out] is a function of the old value: [None] is [return false]
    with [out] untouched, [Some] the new value. *)
From S2P Require Import Prelude SystemConfig VehicleData.

(** The fields of the ESP-IDF frame structure the code reads. *)
Record twai_message_t := {
  identifier : Z;           (* uint32_t *)
  extd : bool;
  rtr : bool;
  data_length_code : Z;     (* uint8_t *)
  data : list Z;            (* uint8_t[8] *)
}.

(* [src ESP_AKS/lib/CanParse/CanParse.h:21-27 MotorStatus] *)
Record MotorStatus := {
  rpm : Z;                  (* int16_t *)
  motorVoltageDeciV : Z;    (* uint16_t *)
  errorFlags : Z;           (* uint8_t *)
  isRunning : bool;
  isValid : bool;
}.
(* [src ESP_AKS/lib/CanParse/CanParse.h:33-36 ChargerCommand] *)
Record ChargerCommand := {
  chargeVoltageSetpointDeciV : Z;   (* uint16_t *)
  chargeCurrentSetpointDeciA : Z;   (* uint16_t *)
}.

(** The big-endian 16-bit field at byte [i], [(data[i] << 8) | data[i + 1]]. *)
Definition field16 (msg : twai_message_t) (i : nat) : Z :=
  be16 (byte_at (data msg) i) (byte_at (data msg) (S i)).

(* [src ESP_AKS/lib/CanParse/CanParse.cpp:5-24 parseMotorStatus] *)
Definition parseMotorStatus (msg : twai_message_t) : option MotorStatus :=
  if data_length_code msg <? 8 then None
  else Some {|
    rpm := i16 (field16 msg 0);
    motorVoltageDeciV := u16 (field16 msg 2);
    errorFlags := Z.land (byte_at (data msg) 7) 0xFE;
    isRunning := negb (Z.land (byte_at (data msg) 7) 0x01 =? 0);
    isValid := true |}.

(* [src ESP_AKS/lib/CanParse/CanParse.cpp:32-53 parseLbBmsE000] *)
Definition parseLbBmsE000 (msg : twai_message_t) (out : TelemetryData) : option TelemetryData :=
  if data_length_code msg <? 8 then None
  else
    let raw_current := i16 (field16 msg 0) in
    Some {| out with
      TEL_bmsCurrentCentiA := i32 (raw_current * 10);
      TEL_bmsPackVoltageDeciV := u16 (field16 msg 2);
      TEL_bmsSocHundredths := u16 (field16 msg 4);
      TEL_bmsSoc2Hundredths := u16 (field16 msg 6);
      TEL_bmsDataValid := true |}.

(* [src ESP_AKS/lib/CanParse/CanParse.cpp:56-69 parseCharger1806E5F4] *)
Definition parseCharger1806E5F4 (msg : twai_message_t) : option ChargerCommand :=
  if data_length_code msg <? 4 then None
  else Some {|
    chargeVoltageSetpointDeciV := u16 (field16 msg 0);
    chargeCurrentSetpointDeciA := u16 (field16 msg 2) |}.

(* [src ESP_AKS/lib/CanParse/CanParse.cpp:79-96 parseLbBmsE001] *)
Definition parseLbBmsE001 (msg : twai_message_t) (out : TelemetryData) : option TelemetryData :=
  if data_length_code msg <? 8 then None
  else
    let temp1 := i8 (byte_at (data msg) 6) in
    let temp2 := i8 (byte_at (data msg) 7) in
    Some {| out with
      TEL_bmsCellVoltageMinDeciMv := u16 (field16 msg 0);
      TEL_bmsCellVoltageMaxDeciMv := u16 (field16 msg 2);
      TEL_bmsCellVoltageAvgDeciMv := u16 (field16 msg 4);
      TEL_bmsTempHighestC := if temp2 <=? temp1 then temp1 else temp2;
      TEL_bmsTempLowestC := if temp1 <=? temp2 then temp1 else temp2 |}.

(** The frames whose fields are not known: accepted when not empty, nothing stored. *)
(* [src ESP_AKS/lib/CanParse/CanParse.cpp:99-103 parseLbBmsE002] *)
Definition parseLbBmsE002 (msg : twai_message_t) (out : TelemetryData) : option TelemetryData :=
  if 0 <? data_length_code msg then Some out else None.
(* [src ESP_AKS/lib/CanParse/CanParse.cpp:106-110 parseLbBmsE003] *)
Definition parseLbBmsE003 (msg : twai_message_t) (out : TelemetryData) : option TelemetryData :=
  if 0 <? data_length_code msg then Some out else None.
(* [src ESP_AKS/lib/CanParse/CanParse.cpp:113-117 parseLbBmsE004] *)
Definition parseLbBmsE004 (msg : twai_message_t) (out : TelemetryData) : option TelemetryData :=
  if 0 <? data_length_code msg then Some out else None.
(* [src ESP_AKS/lib/CanParse/CanParse.cpp:120-124 parseLbBmsE005] *)
Definition parseLbBmsE005 (msg : twai_message_t) (out : TelemetryData) : option TelemetryData :=
  if 0 <? data_length_code msg then Some out else None.
(* [src ESP_AKS/lib/CanParse/CanParse.cpp:127-131 parseLbBmsE006] *)
Definition parseLbBmsE006 (msg : twai_message_t) (out : TelemetryData) : option TelemetryData :=
  if 0 <? data_length_code msg then Some out else None.
(* [src ESP_AKS/lib/CanParse/CanParse.cpp:134-138 parseLbBmsE032] *)
Definition parseLbBmsE032 (msg : twai_message_t) (out : TelemetryData) : option TelemetryData :=
  if 0 <? data_length_code msg then Some out else None.
(* [src ESP_AKS/lib/CanParse/CanParse.cpp:141-145 parseLbBmsE033] *)
Definition parseLbBmsE033 (msg : twai_message_t) (out : TelemetryData) : option TelemetryData :=
  if 0 <? data_length_code msg then Some out else None.

(** Four cell voltages, in mV, from the tenths of a millivolt of the frame. *)
Definition store4 (k : nat) (msg : twai_message_t) (cells : list Z) : list Z :=
  <[(k + 3)%nat := u16 (field16 msg 6 / 10)]>
  (<[(k + 2)%nat := u16 (field16 msg 4 / 10)]>
  (<[(k + 1)%nat := u16 (field16 msg 2 / 10)]>
  (<[k := u16 (field16 msg 0 / 10)]> cells))).

(* [src ESP_AKS/lib/CanParse/CanParse.cpp:147-154 parseLbBmsE015] *)
Definition parseLbBmsE015 (msg : twai_message_t) (out : TelemetryData) : option TelemetryData :=
  if data_length_code msg <? 8 then None
  else Some {| out with TEL_bmsCellVoltages := store4 0 msg (TEL_bmsCellVoltages out) |}.
(* [src ESP_AKS/lib/CanParse/CanParse.cpp:156-163 parseLbBmsE016] *)
Definition parseLbBmsE016 (msg : twai_message_t) (out : TelemetryData) : option TelemetryData :=
  if data_length_code msg <? 8 then None
  else Some {| out with TEL_bmsCellVoltages := store4 4 msg (TEL_bmsCellVoltages out) |}.
(* [src ESP_AKS/lib/CanParse/CanParse.cpp:165-172 parseLbBmsE017] *)
Definition parseLbBmsE017 (msg : twai_message_t) (out : TelemetryData) : option TelemetryData :=
  if data_length_code msg <? 8 then None
  else Some {| out with TEL_bmsCellVoltages := store4 8 msg (TEL_bmsCellVoltages out) |}.
(* [src ESP_AKS/lib/CanParse/CanParse.cpp:174-181 parseLbBmsE018] *)
Definition parseLbBmsE018 (msg : twai_message_t) (out : TelemetryData) : option TelemetryData :=
  if data_length_code msg <? 8 then None
  else Some {| out with TEL_bmsCellVoltages := store4 12 msg (TEL_bmsCellVoltages out) |}.
(* [src ESP_AKS/lib/CanParse/CanParse.cpp:183-190 parseLbBmsE019] *)
Definition parseLbBmsE019 (msg : twai_message_t) (out : TelemetryData) : option TelemetryData :=
  if data_length_code msg <? 8 then None
  else Some {| out with TEL_bmsCellVoltages := store4 16 msg (TEL_bmsCellVoltages out) |}.
(* [src ESP_AKS/lib/CanParse/CanParse.cpp:192-199 parseLbBmsE020] *)
Definition parseLbBmsE020 (msg : twai_message_t) (out : TelemetryData) : option TelemetryData :=
  if data_length_code msg <? 8 then None
  else Some {| out with TEL_bmsCellVoltages := store4 20 msg (TEL_bmsCellVoltages out) |}.

(* [src ESP_AKS/lib/CanParse/CanParse.h:111-115 BmsPackVoltageFault] *)
Inductive BmsPackVoltageFault : Set := PackNone | UNDERVOLTAGE | OVERVOLTAGE.
#[export] Instance BmsPackVoltageFault_eq_dec : EqDecision BmsPackVoltageFault.
Proof. solve_decision. Defined.

(* [src ESP_AKS/lib/CanParse/CanParse.cpp:201-209 checkPackVoltageFault] *)
Definition checkPackVoltageFault (packVoltageDeciV criticalMinDeciV criticalMaxDeciV : Z) :
    BmsPackVoltageFault :=
  if packVoltageDeciV <=? criticalMinDeciV then UNDERVOLTAGE
  else if criticalMaxDeciV <=? packVoltageDeciV then OVERVOLTAGE
  else PackNone.

(* [src ESP_AKS/lib/CanParse/CanParse.cpp:211-219 isMotorStatusTimedOut] *)
Definition isMotorStatusTimedOut (hasSeen lastValid : bool) (now lastTick timeoutTicks : Z) : bool :=
  if negb hasSeen || negb lastValid then false
  else timeoutTicks <=? u32 (now - lastTick).

(* [src ESP_AKS/lib/CanParse/CanParse.cpp:221-229 isBmsStatusTimedOut] *)
Definition isBmsStatusTimedOut (hasSeen lastValid : bool) (now lastTick timeoutTicks : Z) : bool :=
  if negb hasSeen || negb lastValid then false
  else timeoutTicks <=? u32 (now - lastTick).

(** ** Encoders of the senders, for the round trips *)

Definition frame (id : Z) (ext : bool) (bytes : list Z) : twai_message_t := {|
  identifier := id; extd := ext; rtr := false;
  data_length_code := Z.of_nat (length bytes); data := bytes |}.

Definition encodeE000 (current packV soc soc2 : Z) : twai_message_t :=
  frame CAN_ID_LB_BMS_E000 true
    [hi8 current; lo8 current; hi8 packV; lo8 packV; hi8 soc; lo8 soc; hi8 soc2; lo8 soc2].
Definition encodeE001 (cmin cmax cavg t1 t2 : Z) : twai_message_t :=
  frame CAN_ID_LB_BMS_E001 true
    [hi8 cmin; lo8 cmin; hi8 cmax; lo8 cmax; hi8 cavg; lo8 cavg; u8 t1; u8 t2].
Definition encodeMotor (r volt flags : Z) : twai_message_t :=
  frame CAN_ID_MOTOR_STATUS false [hi8 r; lo8 r; hi8 volt; lo8 volt; 0; 0; 0; flags].
Definition encodeCharger (volt cur : Z) : twai_message_t :=
  frame CAN_ID_LB_CHARGER_CMD true [hi8 volt; lo8 volt; hi8 cur; lo8 cur; 0; 0; 0; 0].

(** ** Proofs *)

Lemma i16_of_mod z : is_i16 z → i16 (z mod 65536) = z.
Proof. intros. zlia. Qed.
Lemma u16_of_mod z : is_u16 z → u16 (z mod 65536) = z.
Proof. intros. zlia. Qed.
Lemma i8_of_u8 z : is_i8 z → i8 (u8 z) = z.
Proof. intros. zlia. Qed.
Lemma i32_times10 z : is_i16 z → i32 (z * 10) = z * 10.
Proof. intros. apply i32_id. widths. lia. Qed.

Lemma land_fe z : is_u8 z → Z.land z 0xFE = z - z mod 2.
Proof.
  intros Hz. rewrite <- (Z2Nat.id z) by (widths; lia).
  assert (Hn : (Z.to_nat z < 256)%nat) by (widths; lia). revert Hn. generalize (Z.to_nat z).
  intros n Hn. do 256 (destruct n as [|n]; [by vm_compute|]). lia.
Qed.

(** Evaluates a parser on an encoded frame. *)
Ltac decode :=
  unfold field16, byte_at; cbn [data nth frame]; autorewrite with aks;
  rewrite ?i16_of_mod, ?u16_of_mod, ?i8_of_u8, ?i32_times10 by done.

(** [C33] Round trips: what a sender packs big-endian into the E000, E001, motor and
    charger frames is what the parsers store, with the scaling of the tables (current in
    0.01 A), the higher and lower of the two temperatures, and the running bit of the
    motor status split from its error flags; no other telemetry field changes. *)
Theorem frames_round_trip out current packV soc soc2 cmin cmax cavg t1 t2 r flags :
  is_i16 current → is_u16 packV → is_u16 soc → is_u16 soc2 →
  is_u16 cmin → is_u16 cmax → is_u16 cavg → is_i8 t1 → is_i8 t2 → is_i16 r → is_u8 flags →
  parseLbBmsE000 (encodeE000 current packV soc soc2) out =
    Some {| out with TEL_bmsCurrentCentiA := current * 10; TEL_bmsPackVoltageDeciV := packV;
                     TEL_bmsSocHundredths := soc; TEL_bmsSoc2Hundredths := soc2;
                     TEL_bmsDataValid := true |} ∧
  parseLbBmsE001 (encodeE001 cmin cmax cavg t1 t2) out =
    Some {| out with TEL_bmsCellVoltageMinDeciMv := cmin; TEL_bmsCellVoltageMaxDeciMv := cmax;
                     TEL_bmsCellVoltageAvgDeciMv := cavg;
                     TEL_bmsTempHighestC := Z.max t1 t2; TEL_bmsTempLowestC := Z.min t1 t2 |} ∧
  parseMotorStatus (encodeMotor r packV flags) =
    Some {| rpm := r; motorVoltageDeciV := packV; errorFlags := flags - flags mod 2;
            isRunning := Z.odd flags; isValid := true |} ∧
  parseCharger1806E5F4 (encodeCharger packV soc) =
    Some {| chargeVoltageSetpointDeciV := packV; chargeCurrentSetpointDeciA := soc |}.
Proof.
  intros Hc Hp Hs Hs2 Hmin Hmax Havg Ht1 Ht2 Hr Hf. split_and!.
  - unfold parseLbBmsE000, encodeE000. cbn [data_length_code frame length]. cbn [Z.of_nat Z.ltb].
    decode. done.
  - unfold parseLbBmsE001, encodeE001. decode. cbn. do 2 f_equal; case_match; lia.
  - unfold parseMotorStatus, encodeMotor. decode. cbn. do 2 f_equal.
    + by apply land_fe.
    + change 1 with (Z.ones 1). rewrite Z.land_ones by lia. change (2 ^ 1) with 2.
      rewrite Zmod_odd. by destruct (Z.odd flags).
  - unfold parseCharger1806E5F4, encodeCharger. decode. done.
Qed.

(** ** Short frames and well-typedness *)

(** The parsers of the table, by frame: what the CAN task dispatches to. *)
Definition bms_parsers : list (twai_message_t → TelemetryData → option TelemetryData) :=
  [parseLbBmsE000; parseLbBmsE001; parseLbBmsE015; parseLbBmsE016; parseLbBmsE017;
   parseLbBmsE018; parseLbBmsE019; parseLbBmsE020].

Definition bytes_ok (msg : twai_message_t) : Prop := Forall is_u8 (data msg).

Lemma byte_at_u8 msg i : bytes_ok msg → is_u8 (byte_at (data msg) i).
Proof.
  intros Hb. unfold byte_at. destruct (nth_in_or_default i (data msg) 0) as [Hin| ->].
  - unfold bytes_ok in Hb. rewrite List.Forall_forall in Hb. by apply Hb.
  - widths. lia.
Qed.
Lemma field16_u16 msg i : bytes_ok msg → is_u16 (field16 msg i).
Proof. intros. apply be16_range; by apply byte_at_u8. Qed.

Lemma store4_wf k msg cells : Forall is_u16 cells → length cells = 24%nat →
  Forall is_u16 (store4 k msg cells) ∧ length (store4 k msg cells) = 24%nat.
Proof.
  intros Hc Hl. unfold store4. split; [|by rewrite !length_insert].
  repeat apply Forall_insert; auto with aks.
Qed.

Lemma i32_current msg : is_i32 (i32 (i16 (field16 msg 0) * 10)).
Proof. auto with aks. Qed.

Lemma minmax_i8 a b : is_i8 a → is_i8 b → is_i8 (if b <=? a then a else b).
Proof. by case_match. Qed.

Lemma parser_typed parse msg out out' : parse ∈ bms_parsers → telemetry_wf out →
  parse msg out = Some out' → telemetry_wf out'.
Proof.
  intros Hin Hwf. unfold bms_parsers in Hin. rewrite !elem_of_cons, elem_of_nil in Hin.
  assert (Hcells : ∀ k, telemetry_wf {| out with
     TEL_bmsCellVoltages := store4 k msg (TEL_bmsCellVoltages out) |}).
  { intros k. destruct Hwf. destruct (store4_wf k msg (TEL_bmsCellVoltages out)); auto.
    by constructor. }
  destruct Hin as [->|[->|[->|[->|[->|[->|[->|[->|[]]]]]]]]];
    unfold parseLbBmsE000, parseLbBmsE001, parseLbBmsE015, parseLbBmsE016, parseLbBmsE017,
      parseLbBmsE018, parseLbBmsE019, parseLbBmsE020; case_match; intros [= <-]; auto.
  all: destruct Hwf; constructor; cbn; auto with aks; by case_match; auto with aks.
Qed.

(** [C34] Every BMS parser refuses a frame with fewer than eight bytes (the telemetry
    then stays as it was) and accepts any other; the stored record is well typed, so no
    field overflows whatever bytes the bus carries. *)
Theorem parsers_total_and_typed parse msg out :
  parse ∈ bms_parsers → telemetry_wf out →
  (data_length_code msg < 8 → parse msg out = None) ∧
  (8 <= data_length_code msg → ∃ out', parse msg out = Some out' ∧ telemetry_wf out').
Proof.
  intros Hin Hwf. pose proof (parser_typed parse msg out) as Ht.
  assert (Hd : (data_length_code msg < 8 → parse msg out = None) ∧
               (8 <= data_length_code msg → is_Some (parse msg out))).
  { unfold bms_parsers in Hin. rewrite !elem_of_cons, elem_of_nil in Hin.
    destruct Hin as [->|[->|[->|[->|[->|[->|[->|[->|[]]]]]]]]];
      unfold parseLbBmsE000, parseLbBmsE001, parseLbBmsE015, parseLbBmsE016, parseLbBmsE017,
        parseLbBmsE018, parseLbBmsE019, parseLbBmsE020;
      destruct (Z.ltb_spec (data_length_code msg) 8); split; intros; eauto; lia. }
  destruct Hd as [Hs Hl]. split; [done|]. intros [out' E]%Hl. eauto.
Qed.

Ltac nat_eq_cases := try lia;
  repeat match goal with |- context [decide (?a = ?b)] => destruct (decide (a = b)); try lia end.

Lemma store4_nth k msg cells i f : k = (4 * f)%nat → (f < 6)%nat → (i < 24)%nat →
  length cells = 24%nat → bytes_ok msg →
  nth i (store4 k msg cells) 0 =
    if (i / 4 =? f)%nat then field16 msg (2 * (i mod 4)) / 10 else nth i cells 0.
Proof.
  intros -> Hf Hi Hl Hb. unfold store4. rewrite !nth_insert by (rewrite ?length_insert; lia).
  assert (Hu : ∀ j, u16 (field16 msg j / 10) = field16 msg j / 10).
  { intros j. apply u16_id. pose proof (field16_u16 msg j Hb). zlia. }
  rewrite !Hu. pose proof (Nat.div_mod_eq i 4) as Hdm.
  pose proof (Nat.mod_upper_bound i 4 ltac:(lia)) as Hr.
  destruct (Nat.eqb_spec (i / 4) f) as [<-|Hne].
  - revert Hdm Hr. generalize (i / 4)%nat. destruct (i mod 4)%nat as [|[|[|[|r]]]]; intros q Hdm Hr;
      nat_eq_cases; done.
  - nat_eq_cases; done.
Qed.

(** The cell frames: frame number [f] of E015..E020 stores cells 4f..4f+3 in mV and
    no other cell, so the six frames together fill all 24. *)
Theorem cell_frames_store parse f msg out i :
  [parseLbBmsE015; parseLbBmsE016; parseLbBmsE017; parseLbBmsE018; parseLbBmsE019;
   parseLbBmsE020] !! f = Some parse →
  telemetry_wf out → bytes_ok msg → 8 <= data_length_code msg → (i < 24)%nat →
  ∃ out', parse msg out = Some out' ∧
    nth i (TEL_bmsCellVoltages out') 0 =
      if (i / 4 =? f)%nat then field16 msg (2 * (i mod 4)) / 10
      else nth i (TEL_bmsCellVoltages out) 0.
Proof.
  intros Hp Hwf Hb Hd Hi.
  assert (∃ out', parse msg out = Some out' ∧
    TEL_bmsCellVoltages out' = store4 (4 * f) msg (TEL_bmsCellVoltages out)) as (out' & -> & Hc).
  { do 6 (destruct f as [|f]; [cbn in Hp; injection Hp as <-;
      unfold parseLbBmsE015, parseLbBmsE016, parseLbBmsE017, parseLbBmsE018, parseLbBmsE019,
        parseLbBmsE020; rewrite (proj2 (Z.ltb_ge _ _)) by lia; by eexists|]). done. }
  assert (Hf : (f < 6)%nat) by (apply lookup_lt_Some in Hp; done).
  exists out'. split; [done|]. rewrite Hc. by apply store4_nth; destruct Hwf.
Qed.

(** A timeout measured on the wrapping tick counter: exact whenever less than a full
    period of the counter has passed. *)
Lemma elapsed_u32 t dt : 0 <= dt < 4294967296 → u32 (u32 (t + dt) - u32 t) = dt.
Proof. intros. zlia. Qed.

Lemma timed_out_iff t dt timeout : 0 <= dt < 4294967296 →
  isMotorStatusTimedOut true true (u32 (t + dt)) (u32 t) timeout = (timeout <=? dt).
Proof. intros. unfold isMotorStatusTimedOut. cbn. by rewrite elapsed_u32. Qed.

Lemma frames_round_trip_witness :
  parseLbBmsE000 (encodeE000 (-150) 790 8765 8700) TelemetryData_zero =
    Some {| TelemetryData_zero with TEL_bmsCurrentCentiA := -1500; TEL_bmsPackVoltageDeciV := 790;
              TEL_bmsSocHundredths := 8765; TEL_bmsSoc2Hundredths := 8700;
              TEL_bmsDataValid := true |}.
Proof.
  apply (frames_round_trip TelemetryData_zero (-150) 790 8765 8700 32900 33100 33000 25 23 (-400) 3);
    widths; lia.
Defined.

Lemma parsers_total_and_typed_witness :
  parseLbBmsE001 (frame CAN_ID_LB_BMS_E001 true [1; 2; 3]) TelemetryData_zero = None.
Proof.
  apply (parsers_total_and_typed parseLbBmsE001); [|apply telemetry_zero_wf|by vm_compute].
  unfold bms_parsers. right. left.
Defined.

(** Cell 6 is the third cell of frame E016. *)
Lemma cell_frames_store_witness :
  ∃ out', parseLbBmsE016 (frame CAN_ID_LB_BMS_E016 true [128; 0; 128; 1; 129; 128; 130; 0])
            TelemetryData_zero = Some out' ∧ nth 6 (TEL_bmsCellVoltages out') 0 = 3315.
Proof.
  apply (cell_frames_store parseLbBmsE016 1
           (frame CAN_ID_LB_BMS_E016 true [128; 0; 128; 1; 129; 128; 130; 0])
           TelemetryData_zero 6); [done|apply telemetry_zero_wf| |by vm_compute|lia].
  repeat constructor; by vm_compute.
Defined.
