(* ===== verification/CanManager.v ===== *)
(** [lib/CanManager]: the CAN task's object: bit-rate detection, the receive loop, the
    frame handlers with the pure helpers of [BmsFreshness.h], [MotorFaultDebounce.h] and
    [MotorTorque.h], and the freshness rules.

    The methods are state-monad programs over the object, the TWAI driver with the tick
    counter behind it ([TwaiDriver], a parameter: ESP-IDF is not part of the repository)
    and the list of events handed to the registered callback.  The mutex only makes the
    accessors atomic, so the model keeps whether it exists.  Log output is not modelled;
    the variables that throttle it are. *)
From S2P Require Import Prelude SystemConfig VehicleData CanParse.

(* [src ESP_AKS/lib/CanManager/CanManager.h:15-18 CAN_Event] *)
Inductive CAN_Event : Set := CAN_NONE | CAN_FAULT_DETECTED.

(** ** The pure helpers *)

(* [src ESP_AKS/lib/CanManager/BmsFreshness.h:23-26 BmsFreshnessResult] *)
Record BmsFreshnessResult := { dataValid : bool; timeoutActive : bool }.

(* [src ESP_AKS/lib/CanManager/BmsFreshness.h:29-34 bms_id_fresh] *)
Definition bms_id_fresh (seen : bool) (now lastTick timeoutTicks : Z) : bool :=
  if negb seen then false else u32 (now - lastTick) <? timeoutTicks.

(* [src ESP_AKS/lib/CanManager/BmsFreshness.h:37-52 bms_evaluate_freshness] *)
Definition bms_evaluate_freshness (sawE000 : bool) (lastE000 : Z) (sawE001 : bool)
    (lastE001 now timeoutTicks : Z) : BmsFreshnessResult :=
  let e000Fresh := bms_id_fresh sawE000 now lastE000 timeoutTicks in
  let e001Fresh := bms_id_fresh sawE001 now lastE001 timeoutTicks in
  let e000Stale := sawE000 && negb e000Fresh in
  let e001Stale := sawE001 && negb e001Fresh in
  {| dataValid := e000Fresh && e001Fresh; timeoutActive := e000Stale || e001Stale |}.

(** Returns the answer and the new counter. *)
(* [src ESP_AKS/lib/CanManager/MotorFaultDebounce.h:24-34 motorErrorFaultConfirmed] *)
Definition motorErrorFaultConfirmed (errorFlags consecutiveCount debounceFrames : Z) : bool * Z :=
  if errorFlags =? 0 then (false, 0)
  else
    let consecutiveCount :=
      if consecutiveCount <? 0xFFFF then consecutiveCount + 1 else consecutiveCount in
    (debounceFrames <=? consecutiveCount, consecutiveCount).

(* [src ESP_AKS/lib/CanManager/MotorTorque.h:13-15 frameEnabled] *)
Definition frameEnabled : bool := negb (MOTOR_DRIVER_PRESENT =? 0).

(** ** The driver *)

Inductive rx_result := RxOk (msg : twai_message_t) | RxTimeout | RxError.
Record twai_alerts := { BUS_OFF : bool; BUS_RECOVERED : bool; RX_QUEUE_FULL : bool }.

Class TwaiDriver (D : Type) := {
  xSemaphoreCreateMutex : D → bool * D;
  vSemaphoreDelete : D → D;
  twai_driver_install : Z → D → bool * D;      (* bit rate in kbit/s; ESP_OK? *)
  twai_driver_uninstall : D → D;
  twai_start : D → bool * D;
  twai_stop : D → D;
  twai_receive : Z → D → rx_result * D;        (* ticks to wait *)
  twai_read_alerts : D → option twai_alerts * D;
  twai_initiate_recovery : D → D;
  xTaskGetTickCount : D → Z * D;
  pdMS_TO_TICKS : Z → Z;
}.

(** What the theorems rely on: the receive queue is a FIFO of frames of eight bytes that
    only a receive consumes, and the tick rate is 100 Hz (CONFIG_FREERTOS_HZ). *)
Class TwaiLaws (D : Type) `{TwaiDriver D} := {
  rx_pending : D → list twai_message_t;
  rx_nil d : rx_pending d = [] → twai_receive 0 d = (RxTimeout, d);
  rx_cons d m l : rx_pending d = m :: l →
    ∃ d', twai_receive 0 d = (RxOk m, d') ∧ rx_pending d' = l;
  rx_bytes t d m d' : twai_receive t d = (RxOk m, d') → bytes_ok m;
  tick_pending d : rx_pending (xTaskGetTickCount d).2 = rx_pending d;
  tick_range d : is_u32 (xTaskGetTickCount d).1;
  tick_rate ms : 0 <= ms <= 60000 → pdMS_TO_TICKS ms = ms / 10;
}.

(* [src ESP_AKS/lib/CanManager/CanManager.h:74-136 CanManager] *)
Record CanMgr := {
  rx_queue_len : Z;
  t_config : Z;                          (* bit rate in kbit/s *)
  isInitialized : bool;
  s_motorStatus : MotorStatus;
  s_telemetryData : TelemetryData;
  s_mutex : bool;                        (* created? *)
  CAN_lastMotorStatusTick : Z;           (* TickType_t, 32 bit *)
  CAN_hasSeenMotorStatus : bool;
  CAN_motorTimeoutLogged : bool;
  CAN_motorErrorConsecutive : Z;         (* uint16_t *)
  CAN_busOffLogged : bool;
  CAN_busRecoveredLogged : bool;
  CAN_rxQueueFullCount : Z;              (* uint32_t *)
  CAN_rxRemoteFrameCount : Z;            (* uint32_t *)
  CAN_lastRxQueueFullLogTick : Z;
  CAN_torqueSkipLogged : bool;
  CAN_lastBmsE000Tick : Z;
  CAN_hasSeen_BmsE000 : bool;
  CAN_lastBmsE001Tick : Z;
  CAN_hasSeen_BmsE001 : bool;
  CAN_bmsTimeoutLogged : bool;
  CAN_lastCellVoltageTick : Z;
  CAN_hasSeen_CellVoltage : bool;
  CAN_cellVoltageTimeoutLogged : bool;
  CAN_cellVoltageSeenMask : Z;           (* uint8_t *)
  CAN_cellVoltageComplete : bool;
  CAN_bmsPackFaultFlags : Z;             (* uint8_t *)
  s_chargerCommand : ChargerCommand;
  CAN_lastChargerTick : Z;
  CAN_hasSeenCharger : bool;
  CAN_chargerValid : bool;
  CAN_chargerStaleLogged : bool;
  CAN_eventCallback : bool;              (* bound? *)
}.

(** The constructor and the members' initialisers. *)
(* [src ESP_AKS/lib/CanManager/CanManager.cpp:10-13 CanManager] *)
Definition CanMgr_static : CanMgr := {|
  rx_queue_len := 5; t_config := 500; isInitialized := false;
  s_motorStatus := Build_MotorStatus 0 0 0 false false;
  s_telemetryData := TelemetryData_zero; s_mutex := false;
  CAN_lastMotorStatusTick := 0; CAN_hasSeenMotorStatus := false; CAN_motorTimeoutLogged := false;
  CAN_motorErrorConsecutive := 0; CAN_busOffLogged := false; CAN_busRecoveredLogged := false;
  CAN_rxQueueFullCount := 0; CAN_rxRemoteFrameCount := 0; CAN_lastRxQueueFullLogTick := 0;
  CAN_torqueSkipLogged := false; CAN_lastBmsE000Tick := 0; CAN_hasSeen_BmsE000 := false;
  CAN_lastBmsE001Tick := 0; CAN_hasSeen_BmsE001 := false; CAN_bmsTimeoutLogged := false;
  CAN_lastCellVoltageTick := 0; CAN_hasSeen_CellVoltage := false;
  CAN_cellVoltageTimeoutLogged := false; CAN_cellVoltageSeenMask := 0;
  CAN_cellVoltageComplete := false; CAN_bmsPackFaultFlags := 0;
  s_chargerCommand := Build_ChargerCommand 0 0; CAN_lastChargerTick := 0;
  CAN_hasSeenCharger := false; CAN_chargerValid := false; CAN_chargerStaleLogged := false;
  CAN_eventCallback := false |}.

(** The object, the driver, and the events given to the callback so far. *)
Record can_world (D : Type) := { cm : CanMgr; drv : D; emitted : list CAN_Event }.
Arguments cm {D}. Arguments drv {D}. Arguments emitted {D}. Arguments Build_can_world {D}.

(* [src ESP_AKS/lib/CanManager/CanManager.cpp:15-19 setEventCallback] *)
Definition setEventCallback (bound : bool) (c : CanMgr) : CanMgr :=
  {| c with CAN_eventCallback := bound |}.

Section Can.
Context {D : Type} `{TwaiDriver D}.

Definition CanM (A : Type) : Type := M (can_world D) A.
Definition setc (f : CanMgr → CanMgr) : CanM () := modify (λ w, {| w with cm := f (cm w) |}).
Definition call {A} (f : D → A * D) : CanM A := λ w,
  let '(a, d) := f (drv w) in (a, {| w with drv := d |}).
Definition call_ (f : D → D) : CanM () := modify (λ w, {| w with drv := f (drv w) |}).
Definition tel (f : TelemetryData → TelemetryData) (c : CanMgr) : CanMgr :=
  {| c with s_telemetryData := f (s_telemetryData c) |}.

(** One iteration of the bit-rate search; [true] when frames arrive at this rate. *)
(* [src ESP_AKS/lib/CanManager/CanManager.cpp:45-60 begin] *)
Definition tryBitrate (rate : Z) : CanM bool :=
  ok ← call (twai_driver_install rate);
  if negb ok then mret false
  else
    started ← call twai_start;
    if started : bool then
      r ← call (twai_receive (pdMS_TO_TICKS 1000));
      match r with
      | RxOk _ => setc (λ c, {| c with t_config := rate |});; mret true
      | _ => call_ twai_stop;; call_ twai_driver_uninstall;; mret false
      end
    else call_ twai_driver_uninstall;; mret false.

(* [src ESP_AKS/lib/CanManager/CanManager.cpp:37-60 begin] *)
Fixpoint detectBitrate (rates : list Z) : CanM bool :=
  match rates with
  | [] => mret false
  | rate :: rest =>
      found ← tryBitrate rate;
      if found : bool then mret true else detectBitrate rest
  end.

(* [src ESP_AKS/lib/CanManager/CanManager.cpp:21-84 begin] *)
Definition begin : CanM bool :=
  c ← gets cm;
  if isInitialized c then mret true
  else
    m ← call xSemaphoreCreateMutex;
    setc (λ c, {| c with s_mutex := m |});;
    if negb m then mret false
    else
      setc (λ c, {| c with rx_queue_len := CAN_RX_QUEUE_LEN |});;
      baudFound ← detectBitrate [500; 125; 250];
      if baudFound : bool then setc (λ c, {| c with isInitialized := true |});; mret true
      else
        setc (λ c, {| c with t_config := 500 |});;
        ok ← call (twai_driver_install 500);
        if negb ok then
          call_ vSemaphoreDelete;; setc (λ c, {| c with s_mutex := false |});; mret false
        else
          ok ← call twai_start;
          if negb ok then
            call_ twai_driver_uninstall;; call_ vSemaphoreDelete;;
            setc (λ c, {| c with s_mutex := false |});; mret false
          else setc (λ c, {| c with isInitialized := true |});; mret true.

(** With MOTOR_DRIVER_PRESENT = 0 no frame is produced. *)
(* [src ESP_AKS/lib/CanManager/CanManager.cpp:91-118 sendTorqueCommand] *)
Definition sendTorqueCommand (torqueValue : Z) : CanM bool :=
  c ← gets cm;
  if negb (isInitialized c) then mret false
  else if frameEnabled then mret false
  else
    (if negb (CAN_torqueSkipLogged c)
     then setc (λ c, {| c with CAN_torqueSkipLogged := true |}) else mret ());;
    mret false.

(* [src ESP_AKS/lib/CanManager/CanManager.cpp:719-729 notifyFaultIfNeeded] *)
Definition notifyFaultIfNeeded (CAN_previousFlags CAN_currentFlags : Z) : CanM () :=
  if (CAN_currentFlags =? 0) || (CAN_currentFlags =? CAN_previousFlags) then mret ()
  else
    c ← gets cm;
    if CAN_eventCallback c
    then modify (λ w, {| w with emitted := emitted w ++ [CAN_FAULT_DETECTED] |})
    else mret ().

(* [src ESP_AKS/lib/CanManager/CanManager.cpp:274-325 handleMotorStatus] *)
Definition handleMotorStatus (msg : twai_message_t) : CanM () :=
  match parseMotorStatus msg with
  | None => mret ()
  | Some parsed =>
      c ← gets cm;
      if negb (s_mutex c) then mret ()
      else
        let CAN_previousConfirmedFlags := TEL_motorErrorFlags (s_telemetryData c) in
        now ← call xTaskGetTickCount;
        setc (λ c, {| c with s_motorStatus := parsed; CAN_lastMotorStatusTick := now;
                             CAN_hasSeenMotorStatus := true; CAN_motorTimeoutLogged := false |});;
        let '(confirmed, count) :=
          motorErrorFaultConfirmed (errorFlags parsed) (CAN_motorErrorConsecutive c)
            MOTOR_ERROR_DEBOUNCE_FRAMES in
        setc (λ c, {| c with CAN_motorErrorConsecutive := count |});;
        let CAN_confirmedErrorFlags := if confirmed then errorFlags parsed else 0 in
        setc (tel (λ t, {| t with
          TEL_motorRpm := i16 (u16 (if rpm parsed <? 0 then - rpm parsed else rpm parsed));
          TEL_motorVoltageDeciV := motorVoltageDeciV parsed;
          TEL_motorErrorFlags := CAN_confirmedErrorFlags;
          TEL_motorDataValid := isValid parsed;
          TEL_motorTimeoutActive := false |}));;
        notifyFaultIfNeeded CAN_previousConfirmedFlags CAN_confirmedErrorFlags
  end.

(* [src ESP_AKS/lib/CanManager/CanManager.cpp:331-400 handleLbBmsE000] *)
Definition handleLbBmsE000 (msg : twai_message_t) : CanM () :=
  c ← gets cm;
  if negb (s_mutex c) then mret ()
  else
    match parseLbBmsE000 msg TelemetryData_zero with
    | None => mret ()
    | Some parsed =>
        let CAN_packVoltFault := checkPackVoltageFault (TEL_bmsPackVoltageDeciV parsed)
          BMS_CRITICAL_MIN_PACK_VOLTAGE_DECI_V BMS_CRITICAL_MAX_PACK_VOLTAGE_DECI_V in
        let CAN_newPackFaultFlags :=
          Z.lor (if bool_decide (CAN_packVoltFault = UNDERVOLTAGE) then 0x01 else 0)
                (if bool_decide (CAN_packVoltFault = OVERVOLTAGE) then 0x02 else 0) in
        setc (tel (λ t, {| t with
          TEL_bmsPackVoltageDeciV := TEL_bmsPackVoltageDeciV parsed;
          TEL_bmsCurrentCentiA := TEL_bmsCurrentCentiA parsed;
          TEL_bmsSocHundredths := TEL_bmsSocHundredths parsed;
          TEL_bmsSoc2Hundredths := TEL_bmsSoc2Hundredths parsed |}));;
        now ← call xTaskGetTickCount;
        setc (λ c, {| c with CAN_lastBmsE000Tick := now; CAN_hasSeen_BmsE000 := true |});;
        let CAN_previousPackFaultFlags := CAN_bmsPackFaultFlags c in
        setc (λ c, {| c with CAN_bmsPackFaultFlags := CAN_newPackFaultFlags |});;
        notifyFaultIfNeeded CAN_previousPackFaultFlags CAN_newPackFaultFlags
    end.

(* [src ESP_AKS/lib/CanManager/CanManager.cpp:402-429 handleLbBmsE001] *)
Definition handleLbBmsE001 (msg : twai_message_t) : CanM () :=
  c ← gets cm;
  if negb (s_mutex c) then mret ()
  else
    match parseLbBmsE001 msg TelemetryData_zero with
    | None => mret ()
    | Some parsed =>
        setc (tel (λ t, {| t with
          TEL_bmsCellVoltageMinDeciMv := TEL_bmsCellVoltageMinDeciMv parsed;
          TEL_bmsCellVoltageMaxDeciMv := TEL_bmsCellVoltageMaxDeciMv parsed;
          TEL_bmsCellVoltageAvgDeciMv := TEL_bmsCellVoltageAvgDeciMv parsed;
          TEL_bmsTempHighestC := TEL_bmsTempHighestC parsed;
          TEL_bmsTempLowestC := TEL_bmsTempLowestC parsed |}));;
        now ← call xTaskGetTickCount;
        setc (λ c, {| c with CAN_lastBmsE001Tick := now; CAN_hasSeen_BmsE001 := true |})
    end.

(** [for (i = 4k; i < 4k+4; i++) dst[i] = src[i]]. *)
Definition copy4 (k : nat) (src dst : list Z) : list Z :=
  foldl (λ dst i, <[i := nth i src 0]> dst) dst (seq (4 * k) 4).

(** The body shared by the six cell-voltage handlers, for frame [k]. *)
(* [src ESP_AKS/lib/CanManager/CanManager.cpp:431-441 handleLbBmsE015] *)
Definition handleCells (k : nat)
    (parse : twai_message_t → TelemetryData → option TelemetryData)
    (msg : twai_message_t) : CanM () :=
  match parse msg TelemetryData_zero with
  | None => mret ()
  | Some parsed =>
      setc (tel (λ t, {| t with TEL_bmsCellVoltages :=
        copy4 k (TEL_bmsCellVoltages parsed) (TEL_bmsCellVoltages t) |}));;
      now ← call xTaskGetTickCount;
      setc (λ c, {| c with CAN_lastCellVoltageTick := now; CAN_hasSeen_CellVoltage := true;
        CAN_cellVoltageSeenMask := Z.lor (CAN_cellVoltageSeenMask c) (Z.shiftl 1 (Z.of_nat k)) |});;
      c ← gets cm;
      if CAN_cellVoltageSeenMask c =? 0x3F
      then setc (λ c, {| (tel (λ t, {| t with TEL_cellVoltageDataValid := true |}) c) with
                         CAN_cellVoltageComplete := true |})
      else mret ()
  end.
(* [src ESP_AKS/lib/CanManager/CanManager.cpp:431-441 handleLbBmsE015] *)
Definition handleLbBmsE015 : twai_message_t → CanM () := handleCells 0 parseLbBmsE015.
(* [src ESP_AKS/lib/CanManager/CanManager.cpp:442-452 handleLbBmsE016] *)
Definition handleLbBmsE016 : twai_message_t → CanM () := handleCells 1 parseLbBmsE016.
(* [src ESP_AKS/lib/CanManager/CanManager.cpp:453-463 handleLbBmsE017] *)
Definition handleLbBmsE017 : twai_message_t → CanM () := handleCells 2 parseLbBmsE017.
(* [src ESP_AKS/lib/CanManager/CanManager.cpp:464-474 handleLbBmsE018] *)
Definition handleLbBmsE018 : twai_message_t → CanM () := handleCells 3 parseLbBmsE018.
(* [src ESP_AKS/lib/CanManager/CanManager.cpp:475-485 handleLbBmsE019] *)
Definition handleLbBmsE019 : twai_message_t → CanM () := handleCells 4 parseLbBmsE019.
(* [src ESP_AKS/lib/CanManager/CanManager.cpp:486-496 handleLbBmsE020] *)
Definition handleLbBmsE020 : twai_message_t → CanM () := handleCells 5 parseLbBmsE020.

(* [src ESP_AKS/lib/CanManager/CanManager.cpp:501-527 handleCharger1806E5F4] *)
Definition handleCharger1806E5F4 (msg : twai_message_t) : CanM () :=
  c ← gets cm;
  if negb (s_mutex c) then mret ()
  else
    match parseCharger1806E5F4 msg with
    | None => mret ()
    | Some parsed =>
        now ← call xTaskGetTickCount;
        setc (λ c, {| c with s_chargerCommand := parsed; CAN_lastChargerTick := now;
                             CAN_hasSeenCharger := true; CAN_chargerValid := true;
                             CAN_chargerStaleLogged := false |})
    end.

(** Only logs the raw bytes. *)
(* [src ESP_AKS/lib/CanManager/CanManager.cpp:529-575 handleLbBmsStub] *)
Definition handleLbBmsStub (msg : twai_message_t) (canId : Z) : CanM () := mret ().

(* [src ESP_AKS/lib/CanManager/CanManager.cpp:188-242 processRxMessages] *)
Definition dispatch (msg : twai_message_t) : CanM () :=
  let id := identifier msg in
  if extd msg then
    if id =? CAN_ID_LB_BMS_E000 then handleLbBmsE000 msg
    else if id =? CAN_ID_LB_CHARGER_CMD then handleCharger1806E5F4 msg
    else if id =? CAN_ID_LB_BMS_E001 then handleLbBmsE001 msg
    else if (id =? CAN_ID_LB_BMS_E002) || (id =? CAN_ID_LB_BMS_E003) || (id =? CAN_ID_LB_BMS_E004)
         || (id =? CAN_ID_LB_BMS_E005) || (id =? CAN_ID_LB_BMS_E006) then handleLbBmsStub msg id
    else if id =? CAN_ID_LB_BMS_E015 then handleLbBmsE015 msg
    else if id =? CAN_ID_LB_BMS_E016 then handleLbBmsE016 msg
    else if id =? CAN_ID_LB_BMS_E017 then handleLbBmsE017 msg
    else if id =? CAN_ID_LB_BMS_E018 then handleLbBmsE018 msg
    else if id =? CAN_ID_LB_BMS_E019 then handleLbBmsE019 msg
    else if id =? CAN_ID_LB_BMS_E020 then handleLbBmsE020 msg
    else if (id =? CAN_ID_LB_BMS_E032) || (id =? CAN_ID_LB_BMS_E033) then handleLbBmsStub msg id
    else mret ()
  else
    if id =? CAN_ID_MOTOR_STATUS then handleMotorStatus msg
    else if id =? CAN_ID_LB_STD_0x000 then handleLbBmsStub msg id
    else mret ().

(** One received frame: remote frames are counted and skipped. *)
(* [src ESP_AKS/lib/CanManager/CanManager.cpp:183-242 processRxMessages] *)
Definition handleFrame (msg : twai_message_t) : CanM () :=
  if rtr msg
  then setc (λ c, {| c with CAN_rxRemoteFrameCount := u32 (CAN_rxRemoteFrameCount c + 1) |})
  else dispatch msg.

(** The receive loop; the bound is the loop's own. *)
(* [src ESP_AKS/lib/CanManager/CanManager.cpp:166-243 processRxMessages] *)
Fixpoint drain (n : nat) : CanM () :=
  match n with
  | O => mret ()
  | S n =>
      r ← call (twai_receive 0);
      match r with
      | RxOk msg => handleFrame msg;; drain n
      | _ => mret ()
      end
  end.

(* [src ESP_AKS/lib/CanManager/CanManager.cpp:577-603 updateMotorStatusValidity] *)
Definition updateMotorStatusValidity : CanM () :=
  c ← gets cm;
  if negb (s_mutex c) then mret ()
  else
    now ← call xTaskGetTickCount;
    if isMotorStatusTimedOut (CAN_hasSeenMotorStatus c) (isValid (s_motorStatus c)) now
         (CAN_lastMotorStatusTick c) (pdMS_TO_TICKS CAN_MOTOR_STATUS_TIMEOUT_MS)
    then
      setc (λ c, {| (tel (λ t, {| t with TEL_motorDataValid := false;
                                         TEL_motorTimeoutActive := true |}) c) with
        s_motorStatus := {| (s_motorStatus c) with isValid := false |};
        CAN_motorTimeoutLogged := true |})
    else mret ().

(* [src ESP_AKS/lib/CanManager/CanManager.cpp:605-649 updateBmsValidity] *)
Definition updateBmsValidity : CanM () :=
  c ← gets cm;
  if negb (s_mutex c) then mret ()
  else
    now ← call xTaskGetTickCount;
    let CAN_timeoutTicks := pdMS_TO_TICKS CAN_BMS_STATUS_TIMEOUT_MS in
    let CAN_bmsFresh := bms_evaluate_freshness (CAN_hasSeen_BmsE000 c) (CAN_lastBmsE000Tick c)
      (CAN_hasSeen_BmsE001 c) (CAN_lastBmsE001Tick c) now CAN_timeoutTicks in
    setc (λ c, {| (tel (λ t, {| t with TEL_bmsDataValid := dataValid CAN_bmsFresh;
                                       TEL_bmsTimeoutActive := timeoutActive CAN_bmsFresh |}) c) with
      CAN_bmsTimeoutLogged := timeoutActive CAN_bmsFresh |}).

(* [src ESP_AKS/lib/CanManager/CanManager.cpp:651-675 updateCellVoltageValidity] *)
Definition updateCellVoltageValidity : CanM () :=
  c ← gets cm;
  if negb (s_mutex c) then mret ()
  else
    now ← call xTaskGetTickCount;
    if CAN_hasSeen_CellVoltage c &&
       (pdMS_TO_TICKS CAN_CELL_VOLTAGE_TIMEOUT_MS <=? u32 (now - CAN_lastCellVoltageTick c))
    then
      (if TEL_cellVoltageDataValid (s_telemetryData c)
       then setc (λ c, {| (tel (λ t, {| t with TEL_cellVoltageDataValid := false |}) c) with
                          CAN_cellVoltageComplete := false; CAN_cellVoltageSeenMask := 0 |})
       else mret ());;
      setc (λ c, {| (tel (λ t, {| t with TEL_cellVoltageTimeoutActive := true |}) c) with
                    CAN_cellVoltageTimeoutLogged := true |})
    else if TEL_cellVoltageDataValid (s_telemetryData c)
    then setc (λ c, {| (tel (λ t, {| t with TEL_cellVoltageTimeoutActive := false |}) c) with
                       CAN_cellVoltageTimeoutLogged := false |})
    else mret ().

(* [src ESP_AKS/lib/CanManager/CanManager.cpp:677-704 updateChargerValidity] *)
Definition updateChargerValidity : CanM () :=
  c ← gets cm;
  if negb (s_mutex c) then mret ()
  else
    now ← call xTaskGetTickCount;
    if isBmsStatusTimedOut (CAN_hasSeenCharger c) (CAN_chargerValid c) now (CAN_lastChargerTick c)
         (pdMS_TO_TICKS CAN_CHARGER_TIMEOUT_MS)
    then setc (λ c, {| c with CAN_chargerValid := false; CAN_chargerStaleLogged := true |})
    else mret ().

(* [src ESP_AKS/lib/CanManager/CanManager.cpp:131-164 processRxMessages] *)
Definition handleAlerts : CanM () :=
  a ← call twai_read_alerts;
  match a with
  | None => mret ()
  | Some alerts =>
      c ← gets cm;
      (if BUS_OFF alerts then
         (if negb (CAN_busOffLogged c)
          then setc (λ c, {| c with CAN_busOffLogged := true; CAN_busRecoveredLogged := false |})
          else mret ());;
         call_ twai_initiate_recovery
       else mret ());;
      c ← gets cm;
      (if BUS_RECOVERED alerts then
         (if negb (CAN_busRecoveredLogged c)
          then setc (λ c, {| c with CAN_busRecoveredLogged := true; CAN_busOffLogged := false |})
          else mret ());;
         (ok ← call twai_start; mret ())
       else mret ());;
      if RX_QUEUE_FULL alerts then
        setc (λ c, {| c with CAN_rxQueueFullCount := u32 (CAN_rxQueueFullCount c + 1) |});;
        now ← call xTaskGetTickCount;
        c ← gets cm;
        if pdMS_TO_TICKS CAN_RX_STATS_LOG_INTERVAL_MS <=? u32 (now - CAN_lastRxQueueFullLogTick c)
        then setc (λ c, {| c with CAN_lastRxQueueFullLogTick := now |})
        else mret ()
      else mret ()
  end.

(* [src ESP_AKS/lib/CanManager/CanManager.cpp:127-249 processRxMessages] *)
Definition processRxMessages : CanM () :=
  c ← gets cm;
  if negb (isInitialized c) then mret ()
  else
    handleAlerts;;
    drain (Z.to_nat CAN_RX_DRAIN_MAX);;
    updateMotorStatusValidity;;
    updateBmsValidity;;
    updateCellVoltageValidity;;
    updateChargerValidity.

(* [src ESP_AKS/lib/CanManager/CanManager.cpp:251-260 getMotorStatus] *)
Definition getMotorStatus (c : CanMgr) : MotorStatus := s_motorStatus c.

(* [src ESP_AKS/lib/CanManager/CanManager.cpp:262-272 getTelemetryData] *)
Definition getTelemetryData (c : CanMgr) : TelemetryData := s_telemetryData c.

(* [src ESP_AKS/lib/CanManager/CanManager.cpp:706-717 getChargerCommand] *)
Definition getChargerCommand (c : CanMgr) : bool * ChargerCommand :=
  if negb (s_mutex c) then (false, s_chargerCommand c)
  else (CAN_chargerValid c, s_chargerCommand c).

End Can.
