(* ===== verification/CanManagerCorrect.v ===== *)
(** The theorems about [CanManager.v]: the object invariant of the receive path, the
    motor-fault debounce over frame sequences, freshness on the wrapping tick counter,
    the bounded receive loop, and fault notification. *)
From S2P Require Import Prelude SystemConfig VehicleData CanParse CanManager VcuSafety.

(** ** Invariants of monadic programs *)

Definition preserves {S A} (I : S → Prop) (m : M S A) : Prop := ∀ s, I s → I (m s).2.

Lemma preserves_ret {S A} (I : S → Prop) (a : A) : preserves I (mret a).
Proof. by intros s. Qed.
Lemma preserves_bind {S A B} (I : S → Prop) (m : M S A) (f : A → M S B) :
  preserves I m → (∀ a, preserves I (f a)) → preserves I (mbind f m).
Proof.
  intros Hm Hf s Hs. unfold mbind, M_bind. specialize (Hm s Hs).
  destruct (m s) as [a s']. by apply Hf.
Qed.
(** A read of the state keeps what was read for the continuation. *)
Lemma preserves_gets {S A B} (I : S → Prop) (g : S → A) (f : A → M S B) :
  (∀ s, I s → I (f (g s) s).2) → preserves I (mbind f (gets g)).
Proof. intros Hf s Hs. by apply Hf. Qed.
Lemma preserves_if {S A} (I : S → Prop) (b : bool) (m1 m2 : M S A) :
  preserves I m1 → preserves I m2 → preserves I (if b then m1 else m2).
Proof. by destruct b. Qed.

#[export] Hint Resolve preserves_ret preserves_if : aks.

#[local] Arguments notifyFaultIfNeeded : simpl never.
#[local] Arguments copy4 : simpl never.

Section Correct.
Context {D : Type} `{TwaiDriver D}.

(** The object invariant.  [TEL_bmsSystemState] is never written, so the BMS-fault
    test of the control unit (state 4) can never fire. *)
Record can_inv (c : CanMgr) : Prop := {
  ci_wf : telemetry_wf (s_telemetryData c);
  ci_sys : TEL_bmsSystemState (s_telemetryData c) = 0;
  ci_mask : 0 <= CAN_cellVoltageSeenMask c < 64;
  ci_complete : TEL_cellVoltageDataValid (s_telemetryData c) = CAN_cellVoltageComplete c;
  ci_cells : CAN_cellVoltageComplete c = true ↔ CAN_cellVoltageSeenMask c = 0x3F;
  ci_bms : TEL_bmsDataValid (s_telemetryData c) = true →
           TEL_bmsTimeoutActive (s_telemetryData c) = false;
  ci_motor : TEL_motorTimeoutActive (s_telemetryData c) = true →
             TEL_motorDataValid (s_telemetryData c) = false;
  ci_count : is_u16 (CAN_motorErrorConsecutive c);
  ci_confirmed : TEL_motorErrorFlags (s_telemetryData c) ≠ 0 →
                 MOTOR_ERROR_DEBOUNCE_FRAMES <= CAN_motorErrorConsecutive c;
}.

Definition INV (w : can_world D) : Prop := can_inv (cm w).

Lemma preserves_call {A} (f : D → A * D) : preserves INV (call f).
Proof. intros w Hw. unfold call. by destruct (f (drv w)). Qed.
Lemma preserves_call_ (f : D → D) : preserves INV (call_ f).
Proof. by intros w Hw. Qed.
Lemma preserves_setc f : (∀ c, can_inv c → can_inv (f c)) → preserves INV (setc f).
Proof. intros Hf w Hw. by apply Hf. Qed.

(** Steps through a program with [preserves_*]. *)
Ltac walk := repeat first
  [ apply preserves_ret | apply preserves_call | apply preserves_call_
  | apply preserves_if | apply preserves_bind; [|intros ?]
  | match goal with |- preserves _ (match ?x with _ => _ end) => destruct x end ].

(** [setc] on fields the invariant does not mention. *)
Ltac inv_frame := apply preserves_setc; intros ? []; by constructor.

Lemma motorErrorFaultConfirmed_spec flags n : is_u16 n →
  let '(b, n') := motorErrorFaultConfirmed flags n MOTOR_ERROR_DEBOUNCE_FRAMES in
  is_u16 n' ∧ (b = true → flags ≠ 0 ∧ MOTOR_ERROR_DEBOUNCE_FRAMES <= n').
Proof.
  intros Hn. unfold motorErrorFaultConfirmed. widths. destruct (Z.eqb_spec flags 0); [done|].
  destruct (Z.ltb_spec n 0xFFFF); (split; [lia|]); intros ?%Z.leb_le; lia.
Qed.

Lemma parseMotorStatus_spec msg p : parseMotorStatus msg = Some p → bytes_ok msg →
  is_i16 (rpm p) ∧ is_u16 (motorVoltageDeciV p) ∧ is_u8 (errorFlags p) ∧ isValid p = true.
Proof.
  unfold parseMotorStatus. case_match; [done|]. intros [= <-] Hb. cbn.
  split_and!; auto with aks. rewrite land_fe by (by apply byte_at_u8).
  pose proof (byte_at_u8 msg 7 Hb). zlia.
Qed.

Lemma preserves_notify a b : preserves INV (notifyFaultIfNeeded a b).
Proof.
  unfold notifyFaultIfNeeded. apply preserves_if; [apply preserves_ret|].
  apply preserves_gets. intros w Hw. by case_match.
Qed.

Lemma preserves_motor msg : bytes_ok msg → preserves INV (handleMotorStatus msg).
Proof.
  intros Hb. unfold handleMotorStatus. destruct (parseMotorStatus msg) as [p|] eqn:Hp; [|walk].
  destruct (parseMotorStatus_spec _ _ Hp Hb) as (Hr & Hv & He & Hval).
  intros w Hw. unfold gets, mbind, M_bind. destruct (negb _); [done|].
  unfold call. destruct (xTaskGetTickCount (drv w)) as [now d]. unfold setc, modify. cbn zeta beta iota.
  pose proof (motorErrorFaultConfirmed_spec (errorFlags p) (CAN_motorErrorConsecutive (cm w))
    (ci_count _ Hw)) as Hc.
  destruct (motorErrorFaultConfirmed _ _ _) as [b n]. destruct Hc as [Hn Hbn].
  apply preserves_notify. destruct Hw as [Hwf ? ? ? ? ? ? ? ?]. constructor; cbn in *; auto.
  - destruct Hwf. constructor; cbn; auto with aks. destruct b; [done|widths; lia].
  - done.
  - destruct b; [|done]. intros _. by apply Hbn.
Qed.

Ltac in_parsers := unfold bms_parsers; rewrite !elem_of_cons; auto 10.

(** Runs the reads, the tick counter and the stores of a handler. *)
Ltac run_handler := unfold gets, mbind, M_bind, call, setc, modify; cbn zeta beta iota.

Lemma preserves_E000 msg : preserves INV (handleLbBmsE000 msg).
Proof.
  intros w Hw. unfold handleLbBmsE000. run_handler. destruct (negb _); [done|].
  destruct (parseLbBmsE000 _ _) as [p|] eqn:Hp; [|done]. cbn.
  apply parser_typed in Hp as []; [|in_parsers|apply telemetry_zero_wf].
  destruct (xTaskGetTickCount (drv w)) as [now d]. cbn.
  apply preserves_notify. destruct Hw as [Hwf]. constructor; cbn; auto.
  by destruct Hwf; constructor.
Qed.

Lemma preserves_E001 msg : preserves INV (handleLbBmsE001 msg).
Proof.
  intros w Hw. unfold handleLbBmsE001. run_handler. destruct (negb _); [done|].
  destruct (parseLbBmsE001 _ _) as [p|] eqn:Hp; [|done]. cbn.
  apply parser_typed in Hp as []; [|in_parsers|apply telemetry_zero_wf].
  destruct (xTaskGetTickCount (drv w)) as [now d].
  destruct Hw as [Hwf]. constructor; cbn; auto. by destruct Hwf; constructor.
Qed.

(** Copying four cells keeps the array well typed. *)
Lemma copy4_wf k src dst : Forall is_u16 src → Forall is_u16 dst → length dst = 24%nat →
  Forall is_u16 (copy4 k src dst) ∧ length (copy4 k src dst) = 24%nat.
Proof.
  intros Hs. unfold copy4. generalize (seq (4 * k) 4). intros l. revert dst.
  induction l as [|i l IH]; intros dst Hd Hl; [done|]. cbn. apply IH; [|by rewrite length_insert].
  apply Forall_insert; [done|]. destruct (nth_in_or_default i src 0) as [Hin| ->]; [|widths; lia].
  rewrite List.Forall_forall in Hs. by apply Hs.
Qed.

Lemma lor_mask m k : 0 <= m < 64 → (k < 6)%nat → 0 <= Z.lor m (Z.shiftl 1 (Z.of_nat k)) < 64.
Proof.
  intros Hm Hk. rewrite Z.shiftl_1_l. assert (0 <= 2 ^ Z.of_nat k < 2 ^ 6).
  { split; [lia|]. apply Z.pow_lt_mono_r; lia. }
  assert (0 <= Z.lor m (2 ^ Z.of_nat k)) by (apply Z.lor_nonneg; lia).
  split; [done|]. destruct (Z.eq_dec (Z.lor m (2 ^ Z.of_nat k)) 0) as [->|]; [done|].
  change 64 with (2 ^ 6). apply Z.log2_lt_pow2; [lia|]. rewrite Z.log2_lor by lia.
  apply Z.max_lub_lt; [|rewrite Z.log2_pow2; lia].
  destruct (Z.eq_dec m 0) as [->|]; [done|]. apply Z.log2_lt_pow2; lia.
Qed.

Lemma preserves_cells k parse msg : (k < 6)%nat → parse ∈ bms_parsers →
  preserves INV (handleCells k parse msg).
Proof.
  intros Hk Hin w Hw. unfold handleCells. destruct (parse msg TelemetryData_zero) as [p|] eqn:Hp; [|done].
  apply parser_typed in Hp as Hpw; [|done|apply telemetry_zero_wf].
  run_handler. destruct (xTaskGetTickCount (drv _)) as [now d]. cbn.
  destruct Hw as [Hwf Hsys Hmask Hcomp Hcells ? ? ? ?].
  pose proof (lor_mask _ _ Hmask Hk) as Hmask'.
  destruct (copy4_wf k (TEL_bmsCellVoltages p) (TEL_bmsCellVoltages (s_telemetryData (cm w))))
    as [Hc4 Hl4]; [apply Hpw|apply Hwf|apply Hwf|].
  destruct (Z.eqb_spec (Z.lor (CAN_cellVoltageSeenMask (cm w)) (Z.shiftl 1 (Z.of_nat k))) 0x3F)
    as [E|E]; cbn; constructor; cbn; auto; try (destruct Hwf; by constructor).
  split; [|done]. intros Hc. apply Hcells in Hc. exfalso. apply E. rewrite Hc.
  do 6 (destruct k as [|k]; [done|]). lia.
Qed.

Lemma preserves_charger msg : preserves INV (handleCharger1806E5F4 msg).
Proof.
  intros w Hw. unfold handleCharger1806E5F4. run_handler. destruct (negb _); [done|].
  destruct (parseCharger1806E5F4 msg); [|done]. destruct (xTaskGetTickCount (drv w)) as [now d].
  by destruct Hw.
Qed.

Lemma preserves_frame msg : bytes_ok msg → preserves INV (handleFrame msg).
Proof.
  intros Hb. unfold handleFrame, dispatch, handleLbBmsStub, handleLbBmsE015, handleLbBmsE016,
    handleLbBmsE017, handleLbBmsE018, handleLbBmsE019, handleLbBmsE020.
  repeat apply preserves_if; auto using preserves_ret, preserves_E000, preserves_E001,
    preserves_charger, preserves_motor.
  - inv_frame.
  - apply preserves_cells; [lia|in_parsers].
  - apply preserves_cells; [lia|in_parsers].
  - apply preserves_cells; [lia|in_parsers].
  - apply preserves_cells; [lia|in_parsers].
  - apply preserves_cells; [lia|in_parsers].
  - apply preserves_cells; [lia|in_parsers].
Qed.

Lemma bms_fresh_exclusive s0 l0 s1 l1 now t :
  dataValid (bms_evaluate_freshness s0 l0 s1 l1 now t) = true →
  timeoutActive (bms_evaluate_freshness s0 l0 s1 l1 now t) = false.
Proof.
  cbn. destruct (bms_id_fresh s0 now l0 t), (bms_id_fresh s1 now l1 t); try done.
  by rewrite !andb_false_r.
Qed.

Lemma preserves_updates :
  preserves INV updateMotorStatusValidity ∧ preserves INV updateBmsValidity ∧
  preserves INV updateCellVoltageValidity ∧ preserves INV updateChargerValidity.
Proof.
  split_and!; intros w Hw.
  - unfold updateMotorStatusValidity. run_handler. destruct (negb _); [done|].
    destruct (xTaskGetTickCount (drv w)) as [now d]. destruct (isMotorStatusTimedOut _ _ _ _ _); [|done].
    destruct Hw as [[]]. constructor; cbn; auto. by constructor.
  - unfold updateBmsValidity. run_handler. destruct (negb _); [done|].
    destruct (xTaskGetTickCount (drv w)) as [now d].
    destruct Hw as [[]]. constructor; cbn; auto; [by constructor|].
    apply (bms_fresh_exclusive (CAN_hasSeen_BmsE000 (cm w)) _ (CAN_hasSeen_BmsE001 (cm w))).
  - unfold updateCellVoltageValidity. run_handler. destruct (negb _); [done|].
    destruct (xTaskGetTickCount (drv w)) as [now d]. pose proof Hw as [[] ? ? Hcomp Hcells ? ? ? ?].
    destruct (_ && _); [destruct (TEL_cellVoltageDataValid _) eqn:Hv|case_match; [|done]];
      constructor; cbn in *; auto; try (by constructor); congruence.
  - unfold updateChargerValidity. run_handler. destruct (negb _); [done|].
    destruct (xTaskGetTickCount (drv w)) as [now d]. case_match; [|done]. by destruct Hw.
Qed.

(** From here on, with the documented behaviour of the driver. *)
Context `{!TwaiLaws D}.
Implicit Types w : can_world D.

Lemma preserves_drain n : preserves INV (drain n).
Proof.
  induction n as [|n IH]; [by intros w|]. intros w Hw. cbn. unfold mbind, M_bind, call.
  destruct (twai_receive 0 (drv w)) as [[m| |] d] eqn:E; [|done..].
  pose proof (preserves_frame m (rx_bytes _ _ _ _ E) {| w with drv := d |} Hw) as Hf.
  destruct (handleFrame m _) as [[] w1]. by apply IH.
Qed.

Lemma preserves_alerts : preserves INV handleAlerts.
Proof.
  unfold handleAlerts. apply preserves_bind; [apply preserves_call|]. intros [a|]; [|apply preserves_ret].
  apply preserves_bind; [by intros w|]. intros c. apply preserves_bind.
  { walk. inv_frame. }
  intros _. apply preserves_bind; [by intros w|]. intros c'. apply preserves_bind.
  { walk. inv_frame. }
  intros _. apply preserves_if; [|apply preserves_ret]. apply preserves_bind; [inv_frame|].
  intros _. apply preserves_bind; [apply preserves_call|]. intros now.
  apply preserves_bind; [by intros w|]. intros c''. walk. inv_frame.
Qed.

Lemma preserves_process : preserves INV processRxMessages.
Proof.
  destruct preserves_updates as (? & ? & ? & ?). unfold processRxMessages.
  apply preserves_bind; [by intros w|]. intros c. apply preserves_if; [apply preserves_ret|].
  apply preserves_bind; [apply preserves_alerts|]. intros _.
  apply preserves_bind; [apply preserves_drain|]. intros _.
  repeat (apply preserves_bind; [done|intros _]). done.
Qed.

Lemma preserves_begin : preserves INV begin.
Proof.
  assert (Htry : ∀ r, preserves INV (tryBitrate r)).
  { intros r. unfold tryBitrate. walk. inv_frame. }
  assert (Hdet : ∀ l, preserves INV (detectBitrate l)).
  { intros l. induction l as [|r l IH]; cbn; [walk|]. apply preserves_bind; [done|]. intros b. by walk. }
  unfold begin. apply preserves_bind; [by intros w|]. intros c.
  apply preserves_if; [walk|]. apply preserves_bind; [walk|]. intros m.
  apply preserves_bind; [inv_frame|]. intros _. apply preserves_if; [walk|].
  apply preserves_bind; [inv_frame|]. intros _. apply preserves_bind; [done|]. intros b.
  walk; inv_frame.
Qed.

Lemma static_inv : can_inv CanMgr_static.
Proof. constructor; cbn; auto with aks; try done; widths; lia. Qed.

Definition ticks (n : nat) w : can_world D := Nat.iter n (λ w, (processRxMessages w).2) w.

(** [C14] Object invariant: from construction, after [begin] and any number of calls of
    [processRxMessages] on any traffic, the telemetry is well typed; the cell data are
    valid exactly when all six cell frames were seen since the last reset of the mask;
    the BMS data are never valid and timed out at once, nor are timed-out motor data
    valid; a motor error is reported only after MOTOR_ERROR_DEBOUNCE_FRAMES consecutive
    frames; and [TEL_bmsSystemState] stays 0, so no code path can report a BMS fault. *)
Theorem can_object_invariant (d : D) n :
  can_inv (cm (ticks n (begin (Build_can_world CanMgr_static d [])).2)).
Proof.
  assert (H0i : INV (begin (Build_can_world CanMgr_static d [])).2).
  { apply preserves_begin. apply static_inv. }
  revert H0i. generalize (begin (Build_can_world CanMgr_static d [])).2. intros w Hw.
  induction n as [|n IH]; [done|]. by apply preserves_process.
Qed.

(** ** The receive loop *)

Definition same_queue {A} (m : CanM (D := D) A) : Prop :=
  ∀ w, rx_pending (drv (m w).2) = rx_pending (drv w).

Lemma same_queue_bind {A B} (m : CanM A) (f : A → CanM B) :
  same_queue m → (∀ a, same_queue (f a)) → same_queue (mbind f m).
Proof.
  intros Hm Hf w. unfold mbind, M_bind. specialize (Hm w). destruct (m w) as [a w1].
  rewrite (Hf a w1). done.
Qed.
Lemma same_queue_tick : same_queue (call xTaskGetTickCount).
Proof. intros w. unfold call. pose proof (tick_pending (drv w)). by destruct (xTaskGetTickCount _). Qed.

Ltac walk_queue := repeat first
  [ apply same_queue_tick | apply same_queue_bind; [|intros ?] | by intros ?
  | match goal with |- same_queue (match ?x with _ => _ end) => destruct x end ].

Lemma same_queue_frame msg : same_queue (handleFrame msg).
Proof.
  assert (Hn : ∀ a b, same_queue (notifyFaultIfNeeded a b)) by (intros; unfold notifyFaultIfNeeded; walk_queue).
  assert (Hc : ∀ k p, same_queue (handleCells k p msg)) by (intros; unfold handleCells; walk_queue).
  unfold handleFrame, dispatch. walk_queue; try apply Hc.
  all: unfold handleLbBmsE000, handleLbBmsE001, handleCharger1806E5F4, handleMotorStatus;
    walk_queue; apply Hn.
Qed.

Lemma drain_pending n w : rx_pending (drv (drain n w).2) = drop n (rx_pending (drv w)).
Proof.
  revert w. induction n as [|n IH]; intros w; [done|]. cbn. unfold mbind, M_bind, call.
  destruct (rx_pending (drv w)) as [|m l] eqn:Hq.
  { rewrite rx_nil by done. cbn. by rewrite Hq. }
  destruct (rx_cons _ _ _ Hq) as (d' & -> & Hl).
  pose proof (same_queue_frame m {| w with drv := d' |}) as Hf.
  destruct (handleFrame m _) as [[] w1]. cbn in Hf. by rewrite IH, Hf, Hl.
Qed.

(** The receive loop terminates after at most CAN_RX_DRAIN_MAX frames and empties a
    queue of any length the driver is configured for (CAN_RX_QUEUE_LEN), however the
    handlers react; a remote frame only increments its counter. *)
Theorem drain_empties_queue w msg :
  (length (rx_pending (drv w)) <= Z.to_nat CAN_RX_QUEUE_LEN)%nat →
  rx_pending (drv (drain (Z.to_nat CAN_RX_DRAIN_MAX) w).2) = [] ∧
  (rtr msg = true →
   cm (handleFrame msg w).2 =
     {| (cm w) with CAN_rxRemoteFrameCount := u32 (CAN_rxRemoteFrameCount (cm w) + 1) |}).
Proof.
  intros Hl. split.
  - rewrite drain_pending. apply drop_ge. exact Hl.
  - intros Hr. unfold handleFrame. by rewrite Hr.
Qed.

(** ** Freshness *)

(** [C15] Freshness on the wrapping tick counter: if frame E000 was last handled at time
    [t0] and E001 at [t1] (true times in ticks, less than a period of the 32-bit counter
    ago), then after [updateBmsValidity] at time [t] the BMS data are valid exactly when
    both frames were seen less than 500 ms ago, and the timeout that the control unit
    escalates is active exactly when a frame that was seen is at least 500 ms old. *)
Theorem bms_valid_iff_fresh t0 t1 t d' w :
  s_mutex (cm w) = true →
  CAN_lastBmsE000Tick (cm w) = u32 t0 → CAN_lastBmsE001Tick (cm w) = u32 t1 →
  0 <= t - t0 < 4294967296 → 0 <= t - t1 < 4294967296 →
  xTaskGetTickCount (drv w) = (u32 t, d') →
  let tel := s_telemetryData (cm (updateBmsValidity w).2) in
  (TEL_bmsDataValid tel = true ↔
     (CAN_hasSeen_BmsE000 (cm w) = true ∧ 10 * (t - t0) < CAN_BMS_STATUS_TIMEOUT_MS) ∧
     (CAN_hasSeen_BmsE001 (cm w) = true ∧ 10 * (t - t1) < CAN_BMS_STATUS_TIMEOUT_MS)) ∧
  (TEL_bmsTimeoutActive tel = true ↔
     (CAN_hasSeen_BmsE000 (cm w) = true ∧ CAN_BMS_STATUS_TIMEOUT_MS <= 10 * (t - t0)) ∨
     (CAN_hasSeen_BmsE001 (cm w) = true ∧ CAN_BMS_STATUS_TIMEOUT_MS <= 10 * (t - t1))).
Proof.
  intros Hm H0t H1t Hd0 Hd1 Ht. unfold updateBmsValidity. run_handler. rewrite Hm. cbn. rewrite Ht. cbn.
  unfold bms_id_fresh, CAN_BMS_STATUS_TIMEOUT_MS. rewrite H0t, H1t, tick_rate by lia.
  assert (E : ∀ a, 0 <= t - a < 4294967296 → u32 (u32 t - u32 a) = t - a).
  { intros a Ha. rewrite <- (elapsed_u32 a (t - a)) by done. do 2 f_equal. f_equal. lia. }
  rewrite !E by done. change (500 / 10) with 50.
  destruct (CAN_hasSeen_BmsE000 _), (CAN_hasSeen_BmsE001 _); cbn;
    destruct (Z.ltb_spec (t - t0) 50), (Z.ltb_spec (t - t1) 50); cbn;
    (split; split; [intros ?|intros [[? ?] [? ?]]|intros ?|intros [[? ?]|[? ?]]]); try done; try lia; auto with lia.
Qed.

(** ** Motor error debounce *)

Definition handleAll (l : list twai_message_t) : CanM (D := D) () :=
  foldr (λ m k, handleMotorStatus m;; k) (mret ()) l.

(** What one motor frame does to the debounce state. *)
Lemma handleMotorStatus_debounce msg p w : s_mutex (cm w) = true →
  parseMotorStatus msg = Some p →
  let c' := cm (handleMotorStatus msg w).2 in
  let r := motorErrorFaultConfirmed (errorFlags p) (CAN_motorErrorConsecutive (cm w))
             MOTOR_ERROR_DEBOUNCE_FRAMES in
  s_mutex c' = true ∧ CAN_motorErrorConsecutive c' = r.2 ∧
  TEL_motorErrorFlags (s_telemetryData c') = (if r.1 then errorFlags p else 0) ∧
  TEL_motorRpm (s_telemetryData c') = i16 (u16 (Z.abs (rpm p))).
Proof.
  intros Hm Hp. unfold handleMotorStatus. rewrite Hp. run_handler. rewrite Hm. cbn.
  destruct (xTaskGetTickCount (drv w)) as [now d]. cbn.
  destruct (motorErrorFaultConfirmed _ _ _) as [b n]. cbn.
  assert (Hcm : ∀ a b w', cm (notifyFaultIfNeeded (D := D) a b w').2 = cm w').
  { intros a b' w'. unfold notifyFaultIfNeeded. run_handler. by repeat case_match. }
  rewrite Hcm. cbn. split_and!; try done. do 2 f_equal. case_match; lia.
Qed.

(** Length of the run of error frames at the end of the sequence. *)
Definition run_length (flags : list Z) : nat :=
  foldl (λ n f, if f =? 0 then O else S n) O flags.

Lemma run_length_snoc l f : run_length (l ++ [f]) = if f =? 0 then O else S (run_length l).
Proof. unfold run_length. by rewrite foldl_app. Qed.

Lemma run_length_ge_3 l : (3 <= run_length l)%nat ↔
  ∃ pre a b c, l = pre ++ [a; b; c] ∧ a ≠ 0 ∧ b ≠ 0 ∧ c ≠ 0.
Proof.
  split.
  - destruct l as [|c l _] using rev_ind; [cbn; lia|]. rewrite run_length_snoc.
    destruct (Z.eqb_spec c 0); [lia|].
    destruct l as [|b l _] using rev_ind; [cbn; lia|]. rewrite run_length_snoc.
    destruct (Z.eqb_spec b 0); [lia|].
    destruct l as [|a l _] using rev_ind; [cbn; lia|]. rewrite run_length_snoc.
    destruct (Z.eqb_spec a 0); [lia|]. intros _. exists l, a, b, c. by rewrite <- !app_assoc.
  - intros (pre & a & b & c & -> & Ha & Hb & Hc).
    change [a; b; c] with ([a] ++ [b] ++ [c]). rewrite !app_assoc, !run_length_snoc.
    rewrite !(proj2 (Z.eqb_neq _ _)) by done. lia.
Qed.

Lemma handleAll_snoc l m w : (handleAll (l ++ [m]) w).2 = (handleMotorStatus m (handleAll l w).2).2.
Proof.
  revert w. induction l as [|x l IH]; intros w.
  - cbn. unfold mbind, M_bind. by destruct (handleMotorStatus m w).
  - cbn. unfold mbind, M_bind. destruct (handleMotorStatus x w) as [[] w1]. apply IH.
Qed.

(** The debounce state after a sequence of frames. *)
Lemma handleAll_debounce l ps w : s_mutex (cm w) = true → CAN_motorErrorConsecutive (cm w) = 0 →
  TEL_motorErrorFlags (s_telemetryData (cm w)) = 0 →
  Forall2 (λ m p, parseMotorStatus m = Some p) l ps →
  let c' := cm (handleAll l w).2 in let n := run_length (map errorFlags ps) in
  s_mutex c' = true ∧ CAN_motorErrorConsecutive c' = Z.min (Z.of_nat n) 0xFFFF ∧
  (TEL_motorErrorFlags (s_telemetryData c') ≠ 0 ↔ (3 <= n)%nat).
Proof.
  intros Hm Hc Hf. revert ps. induction l as [|m l IH] using rev_ind; intros ps Hps.
  { apply Forall2_nil_inv_l in Hps as ->. cbn. split_and!; [done|done|]. split; [done|lia]. }
  apply Forall2_app_inv_l in Hps as (ps1 & ps2 & Hps1 & Hps2 & ->).
  apply Forall2_cons_inv_l in Hps2 as (p & ps3 & Hp & ->%Forall2_nil_inv_l & ->).
  destruct (IH _ Hps1) as (Hm1 & Hc1 & _). cbn zeta. rewrite handleAll_snoc.
  destruct (handleMotorStatus_debounce m p _ Hm1 Hp) as (Hm2 & Hc2 & Hf2 & _).
  rewrite Hc2, Hf2, Hc1. rewrite map_app. cbn [map]. rewrite run_length_snoc.
  split; [done|]. unfold motorErrorFaultConfirmed, MOTOR_ERROR_DEBOUNCE_FRAMES.
  destruct (Z.eqb_spec (errorFlags p) 0) as [E|E]; [cbn; split; [done|split; [done|lia]]|].
  set (n := run_length _). clearbody n. cbn [fst snd].
  split; [destruct (Z.ltb_spec (Z.min (Z.of_nat n) 65535) 65535); lia|].
  destruct (Z.leb_spec 3 (if Z.min (Z.of_nat n) 65535 <? 65535
    then Z.min (Z.of_nat n) 65535 + 1 else Z.min (Z.of_nat n) 65535)) as [Hl|Hl];
    revert Hl; (destruct (Z.ltb_spec (Z.min (Z.of_nat n) 65535) 65535); intros Hl;
      (split; [intros ?; lia|intros ?; first [done|lia]])).
Qed.

(** [C16] Debounce: after any sequence of motor frames (from a clean state) the motor error
    that the control unit sees is set exactly when the last three frames all carried an
    error flag: one or two spurious frames never open the contactors, a clean frame
    clears, and the counter saturates instead of wrapping on long error bursts. *)
Theorem motor_fault_debounced l ps w :
  s_mutex (cm w) = true → CAN_motorErrorConsecutive (cm w) = 0 →
  TEL_motorErrorFlags (s_telemetryData (cm w)) = 0 →
  Forall2 (λ m p, parseMotorStatus m = Some p) l ps →
  TEL_motorErrorFlags (s_telemetryData (cm (handleAll l w).2)) ≠ 0 ↔
  ∃ pre a b c, map errorFlags ps = pre ++ [a; b; c] ∧ a ≠ 0 ∧ b ≠ 0 ∧ c ≠ 0.
Proof.
  intros. rewrite <- run_length_ge_3. by eapply handleAll_debounce.
Qed.

(** Motor speed: the telemetry holds the magnitude of the signed speed of the frame
    for every value but the most negative: -32768 is stored as -32768, because its
    magnitude does not fit the signed field. *)
Theorem motor_rpm_magnitude msg p w :
  s_mutex (cm w) = true → parseMotorStatus msg = Some p → bytes_ok msg →
  TEL_motorRpm (s_telemetryData (cm (handleMotorStatus msg w).2)) =
    if rpm p =? -32768 then -32768 else Z.abs (rpm p).
Proof.
  intros Hm Hp Hb. destruct (handleMotorStatus_debounce msg p w Hm Hp) as (_ & _ & _ & ->).
  destruct (parseMotorStatus_spec _ _ Hp Hb) as (Hr & _).
  destruct (Z.eqb_spec (rpm p) (-32768)) as [->|]; [done|].
  rewrite u16_id by (widths; lia). apply i16_id. widths. lia.
Qed.

(** ** Pack voltage faults *)

(** The flag [handleLbBmsE000] derives from a pack voltage: 1 under, 2 over, 0 inside. *)
Definition pack_flag (packV : Z) : Z := if packV <=? 600 then 1 else if 876 <=? packV then 2 else 0.

Lemma pack_flag_eq v :
  Z.lor (if bool_decide (checkPackVoltageFault v BMS_CRITICAL_MIN_PACK_VOLTAGE_DECI_V
                           BMS_CRITICAL_MAX_PACK_VOLTAGE_DECI_V = UNDERVOLTAGE) then 1 else 0)
        (if bool_decide (checkPackVoltageFault v BMS_CRITICAL_MIN_PACK_VOLTAGE_DECI_V
                           BMS_CRITICAL_MAX_PACK_VOLTAGE_DECI_V = OVERVOLTAGE) then 2 else 0)
  = pack_flag v.
Proof.
  unfold checkPackVoltageFault, pack_flag, BMS_CRITICAL_MIN_PACK_VOLTAGE_DECI_V,
    BMS_CRITICAL_MAX_PACK_VOLTAGE_DECI_V.
  by destruct (v <=? 600), (876 <=? v).
Qed.

Lemma notify_effect a b w : CAN_eventCallback (cm w) = true →
  cm (notifyFaultIfNeeded a b w).2 = cm w ∧
  emitted (notifyFaultIfNeeded a b w).2 =
    emitted w ++ (if (b =? 0) || (b =? a) then [] else [CAN_FAULT_DETECTED]).
Proof.
  intros Hcb. unfold notifyFaultIfNeeded. destruct (_ || _); run_handler.
  - by rewrite app_nil_r.
  - by rewrite Hcb.
Qed.

Lemma handleLbBmsE000_effect msg p w : s_mutex (cm w) = true → CAN_eventCallback (cm w) = true →
  parseLbBmsE000 msg TelemetryData_zero = Some p →
  let w' := (handleLbBmsE000 msg w).2 in
  let f := pack_flag (TEL_bmsPackVoltageDeciV p) in
  CAN_bmsPackFaultFlags (cm w') = f ∧ s_mutex (cm w') = true ∧ CAN_eventCallback (cm w') = true ∧
  TEL_bmsPackVoltageDeciV (s_telemetryData (cm w')) = TEL_bmsPackVoltageDeciV p ∧
  emitted w' = emitted w ++
    (if (f =? 0) || (f =? CAN_bmsPackFaultFlags (cm w)) then [] else [CAN_FAULT_DETECTED]).
Proof.
  intros Hm Hcb Hp. unfold handleLbBmsE000. run_handler. rewrite Hm. cbn [negb]. rewrite Hp.
  cbn zeta beta iota. rewrite pack_flag_eq.
  destruct (xTaskGetTickCount (drv w)) as [now d] eqn:Et. cbn. rewrite Et. cbn.
  set (w1 := {| cm := _; drv := d; emitted := _ |}).
  destruct (notify_effect (CAN_bmsPackFaultFlags (cm w)) (pack_flag (TEL_bmsPackVoltageDeciV p)) w1 Hcb)
    as [-> ->]. done.
Qed.

(** [C17] Pack voltage notification: an E000 frame whose pack voltage is in the critical
    range gives the callback exactly one FAULT_DETECTED when the kind of violation
    changed since the last frame and none when it persists or the voltage is inside; the
    critical range is the one the control unit itself treats as critical, so with valid
    BMS data the two checks agree. *)
Theorem pack_voltage_fault_notified msg p w d s :
  s_mutex (cm w) = true → CAN_eventCallback (cm w) = true →
  parseLbBmsE000 msg TelemetryData_zero = Some p →
  let w' := (handleLbBmsE000 msg w).2 in
  let f := pack_flag (TEL_bmsPackVoltageDeciV p) in
  emitted w' = emitted w ++
    (if (f =? 0) || (f =? CAN_bmsPackFaultFlags (cm w)) then [] else [CAN_FAULT_DETECTED]) ∧
  emitted (handleLbBmsE000 msg w').2 = emitted w' ∧
  (f ≠ 0 → TEL_bmsDataValid d = true →
   TEL_bmsPackVoltageDeciV d = TEL_bmsPackVoltageDeciV p → hasCriticalCondition d s = true).
Proof.
  intros Hm Hcb Hp w' f.
  destruct (handleLbBmsE000_effect msg p w Hm Hcb Hp) as (Hf & Hm' & Hcb' & _ & He).
  destruct (handleLbBmsE000_effect msg p w' Hm' Hcb' Hp) as (_ & _ & _ & _ & He').
  split_and!.
  - exact He.
  - rewrite He'. fold f. fold w' f in Hf. rewrite Hf, Z.eqb_refl, orb_true_r. apply app_nil_r.
  - intros Hne Hv Hpv. apply hasCriticalCondition_iff. right; right. split; [done|].
    rewrite Hpv. unfold f, pack_flag in Hne. right; right.
    destruct (Z.leb_spec (TEL_bmsPackVoltageDeciV p) 600); [by left|].
    destruct (Z.leb_spec 876 (TEL_bmsPackVoltageDeciV p)); [by right; left|done].
Qed.

(** ** Cell voltages *)

(** The first cell frame arrives and the freshness rule runs. *)
Definition cell_round (msg : twai_message_t) w : can_world D :=
  (updateCellVoltageValidity (handleLbBmsE015 msg w).2).2.

Definition cells_after_4 (w : can_world D) : list Z :=
  drop 4 (TEL_bmsCellVoltages (s_telemetryData (cm w))).

Lemma drop_copy4_0 src dst : drop 4 (copy4 0 src dst) = drop 4 dst.
Proof. by do 4 (destruct dst as [|? dst]; [done|]). Qed.

Lemma cell_round_valid msg w :
  (∀ d, let '(t1, d1) := xTaskGetTickCount d in u32 ((xTaskGetTickCount d1).1 - t1) < 50) →
  8 <= data_length_code msg → s_mutex (cm w) = true →
  TEL_cellVoltageDataValid (s_telemetryData (cm w)) = true →
  let w' := cell_round msg w in
  s_mutex (cm w') = true ∧ TEL_cellVoltageDataValid (s_telemetryData (cm w')) = true ∧
  cells_after_4 w' = cells_after_4 w.
Proof.
  intros Hclk Hd Hm Hv. unfold cell_round, cells_after_4, handleLbBmsE015, handleCells, parseLbBmsE015.
  rewrite (proj2 (Z.ltb_ge _ _)) by lia. run_handler. cbn.
  specialize (Hclk (drv w)). destruct (xTaskGetTickCount (drv w)) as [t1 d1]. cbn.
  unfold updateCellVoltageValidity. case_match; run_handler; cbn; rewrite Hm; cbn;
    destruct (xTaskGetTickCount d1) as [t2 d2]; cbn in *; rewrite tick_rate by (by vm_compute);
    change (CAN_CELL_VOLTAGE_TIMEOUT_MS / 10) with 50;
    rewrite (proj2 (Z.leb_gt _ _)) by lia; cbn; rewrite ?Hv; cbn; by rewrite drop_copy4_0.
Qed.

(** [C39] Stale cells count as fresh: once all six cell frames have been seen, the first
    frame alone, arriving within the timeout, keeps the cell data valid for ever, while
    the other twenty cells keep the values they had; the rule that cell data are valid
    only while all cells are fresh does not hold. *)
Theorem one_cell_frame_keeps_all_valid msg w n :
  (∀ d, let '(t1, d1) := xTaskGetTickCount d in u32 ((xTaskGetTickCount d1).1 - t1) < 50) →
  8 <= data_length_code msg → s_mutex (cm w) = true →
  TEL_cellVoltageDataValid (s_telemetryData (cm w)) = true →
  let w' := Nat.iter n (cell_round msg) w in
  TEL_cellVoltageDataValid (s_telemetryData (cm w')) = true ∧ cells_after_4 w' = cells_after_4 w.
Proof.
  intros Hclk Hd Hm Hv.
  enough (let w' := Nat.iter n (cell_round msg) w in s_mutex (cm w') = true ∧
    TEL_cellVoltageDataValid (s_telemetryData (cm w')) = true ∧ cells_after_4 w' = cells_after_4 w)
    as (_ & ? & ?) by done.
  induction n as [|n (IHm & IHv & IHc)]; [done|].
  destruct (cell_round_valid msg _ Hclk Hd IHm IHv) as (? & ? & Hc).
  split_and!; [done..|]. etrans; [exact Hc|done].
Qed.
End Correct.

(** ** A simulated controller, for the witnesses

    A list of received frames and a tick counter that advances on every read. *)
Module FakeTwai.
Record t := { pending : list twai_message_t; clock : Z }.
Definition wire (m : twai_message_t) : twai_message_t := {| m with data := map u8 (data m) |}.

#[export] Instance driver : TwaiDriver t := {
  xSemaphoreCreateMutex d := (true, d);
  vSemaphoreDelete d := d;
  twai_driver_install _ d := (true, d);
  twai_driver_uninstall d := d;
  twai_start d := (true, d);
  twai_stop d := d;
  twai_receive _ d := match pending d with
    | [] => (RxTimeout, d) | m :: l => (RxOk (wire m), {| d with pending := l |}) end;
  twai_read_alerts d := (None, d);
  twai_initiate_recovery d := d;
  xTaskGetTickCount d := (u32 (clock d), {| d with clock := clock d + 1 |});
  pdMS_TO_TICKS ms := ms / 10;
}.
#[export] Instance laws : TwaiLaws t.
Proof.
  refine {| rx_pending d := map wire (pending d) |}.
  - intros d Hn. cbn. by destruct (pending d).
  - intros d m l Hc. cbn in *. destruct (pending d) as [|m' l'] eqn:E; [done|].
    cbn in Hc. simplify_eq. by eexists.
  - intros w d m d' E. cbn in E. destruct (pending d); simplify_eq.
    unfold bytes_ok, wire. cbn. apply Forall_map, Forall_true. intros. apply u8_range.
  - done.
  - intros d. apply u32_range.
  - done.
Defined.

Lemma clock_steps (d : t) :
  let '(t1, d1) := xTaskGetTickCount d in u32 ((xTaskGetTickCount d1).1 - t1) < 50.
Proof. cbn. rewrite (elapsed_u32 (clock d) 1); lia. Qed.

Definition zero8 := [0; 0; 0; 0; 0; 0; 0; 0].
Definition cell_frame (id : Z) : twai_message_t := frame id true [128; 0; 128; 1; 128; 2; 128; 3].
(** Started on a bus that already carries traffic. *)
Definition d0 : t := {| pending := [encodeMotor 100 240 1]; clock := 7 |}.
Definition w0 : can_world t :=
  let w := (begin (Build_can_world (setEventCallback true CanMgr_static) d0 [])).2 in
  {| w with drv := {| (drv w) with pending :=
       map cell_frame [CAN_ID_LB_BMS_E015; CAN_ID_LB_BMS_E016; CAN_ID_LB_BMS_E017;
                       CAN_ID_LB_BMS_E018; CAN_ID_LB_BMS_E019; CAN_ID_LB_BMS_E020] |} |}.
Definition w1 : can_world t := (processRxMessages w0).2.
End FakeTwai.
Export (hints) FakeTwai.

Lemma drain_empties_queue_witness :
  rx_pending (drv (drain (Z.to_nat CAN_RX_DRAIN_MAX) FakeTwai.w0).2) = [].
Proof.
  destruct (drain_empties_queue FakeTwai.w0 (FakeTwai.cell_frame 0)) as [E _]; [|exact E].
  apply Nat.leb_le. by vm_compute.
Defined.

Definition fresh_world : can_world FakeTwai.t :=
  {| FakeTwai.w1 with cm := {| (cm FakeTwai.w1) with
       CAN_lastBmsE000Tick := 4294967290; CAN_lastBmsE001Tick := 4294967280;
       CAN_hasSeen_BmsE000 := true; CAN_hasSeen_BmsE001 := true |};
     drv := {| FakeTwai.pending := []; FakeTwai.clock := 4294967296 + 35 |} |}.

(** Across the wrap of the counter: E000 41 ticks old, E001 51 ticks old. *)
Lemma bms_valid_iff_fresh_witness :
  TEL_bmsTimeoutActive (s_telemetryData (cm (updateBmsValidity fresh_world).2)) = true.
Proof.
  destruct (bms_valid_iff_fresh 4294967290 4294967280 (4294967296 + 35)
    {| FakeTwai.pending := []; FakeTwai.clock := 4294967296 + 36 |} fresh_world) as [_ E];
    [by vm_compute|by vm_compute|by vm_compute|lia|lia|by vm_compute|].
  apply E. right. split; [by vm_compute|]. unfold CAN_BMS_STATUS_TIMEOUT_MS. lia.
Defined.

Definition motor_error : twai_message_t := encodeMotor 500 720 6.
Definition motor_clean : twai_message_t := encodeMotor 500 720 1.
Definition motor_error_status := Build_MotorStatus 500 720 6 false true.
Definition motor_clean_status := Build_MotorStatus 500 720 0 true true.

Lemma motor_fault_debounced_witness :
  TEL_motorErrorFlags (s_telemetryData (cm (handleAll
    [motor_error; motor_error; motor_clean; motor_error; motor_error; motor_error] FakeTwai.w1).2)) ≠ 0.
Proof.
  apply (motor_fault_debounced
    [motor_error; motor_error; motor_clean; motor_error; motor_error; motor_error]
    [motor_error_status; motor_error_status; motor_clean_status; motor_error_status;
     motor_error_status; motor_error_status] FakeTwai.w1);
    [by vm_compute|by vm_compute|by vm_compute|repeat constructor|].
  exists [6; 6; 0], 6, 6, 6. by vm_compute.
Defined.

Lemma motor_rpm_magnitude_witness :
  TEL_motorRpm (s_telemetryData (cm (handleMotorStatus (encodeMotor (-32768) 720 1) FakeTwai.w1).2))
    = -32768.
Proof.
  rewrite (motor_rpm_magnitude (encodeMotor (-32768) 720 1)
    (Build_MotorStatus (-32768) 720 0 true true) FakeTwai.w1); [done|by vm_compute|by vm_compute|].
  repeat constructor; by vm_compute.
Defined.

Definition undervolt : twai_message_t := encodeE000 0 590 5000 5000.
Lemma pack_voltage_fault_notified_witness :
  emitted (handleLbBmsE000 undervolt FakeTwai.w1).2 = [CAN_FAULT_DETECTED].
Proof.
  destruct (pack_voltage_fault_notified undervolt
    {| TelemetryData_zero with TEL_bmsPackVoltageDeciV := 590; TEL_bmsSocHundredths := 5000;
         TEL_bmsSoc2Hundredths := 5000; TEL_bmsDataValid := true |}
    FakeTwai.w1 nominal_telemetry VcuState.IDLE) as [E _]; [by vm_compute..|].
  etrans; [exact E|by vm_compute].
Defined.

Lemma one_cell_frame_keeps_all_valid_witness :
  TEL_cellVoltageDataValid (s_telemetryData (cm
    (Nat.iter 1000 (cell_round (FakeTwai.cell_frame CAN_ID_LB_BMS_E015)) FakeTwai.w1))) = true.
Proof.
  destruct (one_cell_frame_keeps_all_valid (FakeTwai.cell_frame CAN_ID_LB_BMS_E015) FakeTwai.w1 1000)
    as [E _]; [apply FakeTwai.clock_steps|by vm_compute|by vm_compute|by vm_compute|exact E].
Defined.
