(* ===== verification/OfflineBuffer.v ===== *)
(** [lib/OfflineBuffer]: the circular FIFO that keeps telemetry while the radio link
    is down, and its refinement of a bounded list that drops the oldest entry. *)
From S2P Require Import Prelude VehicleData.

(* [src ESP_AKS/lib/OfflineBuffer/OfflineBuffer.h:11-11 OB_CAPACITY] *)
Definition OB_CAPACITY : nat := 75.

(** The file's static variables ([int] indices, never negative). *)
(* [src ESP_AKS/lib/OfflineBuffer/OfflineBuffer.cpp:3-6 static state] *)
Record ob := {
  s_buf : list TelemetryData;   (* [OB_CAPACITY] slots *)
  s_head : nat;
  s_tail : nat;
  s_count : nat;
}.
(* [src ESP_AKS/lib/OfflineBuffer/OfflineBuffer.cpp:3-6 static state] *)
Definition ob_static : ob := {|
  s_buf := replicate OB_CAPACITY TelemetryData_zero; s_head := 0; s_tail := 0; s_count := 0 |}.

(* [src ESP_AKS/lib/OfflineBuffer/OfflineBuffer.cpp:8-12 ob_reset] *)
Definition ob_reset (b : ob) : ob := {| b with s_head := 0; s_tail := 0; s_count := 0 |}.

Definition next (i : nat) : nat := ((i + 1) mod OB_CAPACITY)%nat.

(* [src ESP_AKS/lib/OfflineBuffer/OfflineBuffer.cpp:14-24 ob_push] *)
Definition ob_push (data : TelemetryData) (b : ob) : bool * ob :=
  let b := if (s_count b =? OB_CAPACITY)%nat
           then {| b with s_head := next (s_head b); s_count := (s_count b - 1)%nat |} else b in
  let b := {| b with s_buf := <[s_tail b := data]> (s_buf b) |} in
  let b := {| b with s_tail := next (s_tail b); s_count := (s_count b + 1)%nat |} in
  (true, b).

(** [None] is [return false]. *)
(* [src ESP_AKS/lib/OfflineBuffer/OfflineBuffer.cpp:26-32 ob_pop] *)
Definition ob_pop (b : ob) : option TelemetryData * ob :=
  if (s_count b =? 0)%nat then (None, b)
  else (Some (nth (s_head b) (s_buf b) TelemetryData_zero),
        {| b with s_head := next (s_head b); s_count := (s_count b - 1)%nat |}).

(* [src ESP_AKS/lib/OfflineBuffer/OfflineBuffer.cpp:34-38 ob_peek] *)
Definition ob_peek (b : ob) : option TelemetryData :=
  if (s_count b =? 0)%nat then None else Some (nth (s_head b) (s_buf b) TelemetryData_zero).

(* [src ESP_AKS/lib/OfflineBuffer/OfflineBuffer.cpp:40-45 ob_drop_front] *)
Definition ob_drop_front (b : ob) : bool * ob :=
  if (s_count b =? 0)%nat then (false, b)
  else (true, {| b with s_head := next (s_head b); s_count := (s_count b - 1)%nat |}).

(* [src ESP_AKS/lib/OfflineBuffer/OfflineBuffer.cpp:47-49 ob_count] *)
Definition ob_count (b : ob) : nat := s_count b.

(* [src ESP_AKS/lib/OfflineBuffer/OfflineBuffer.cpp:51-53 ob_is_empty] *)
Definition ob_is_empty (b : ob) : bool := (s_count b =? 0)%nat.

(* [src ESP_AKS/lib/OfflineBuffer/OfflineBuffer.h:27-33 offline_should_sample] *)
Definition offline_should_sample (now_ms last_sample_ms : Z) (has_sample : bool) (period_ms : Z) : bool :=
  if negb has_sample then true else period_ms <=? u64 (now_ms - last_sample_ms).

(** ** The abstract buffer: a list, oldest first *)

Definition contents (b : ob) : list TelemetryData :=
  map (λ i, nth ((s_head b + i) mod OB_CAPACITY) (s_buf b) TelemetryData_zero) (seq 0 (s_count b)).

Definition bounded_push (x : TelemetryData) (l : list TelemetryData) : list TelemetryData :=
  (if (length l =? OB_CAPACITY)%nat then tail l else l) ++ [x].

Record ob_inv (b : ob) : Prop := {
  oi_len : length (s_buf b) = OB_CAPACITY;
  oi_head : (s_head b < OB_CAPACITY)%nat;
  oi_tail : s_tail b = ((s_head b + s_count b) mod OB_CAPACITY)%nat;
  oi_count : (s_count b <= OB_CAPACITY)%nat;
}.

(** ** Proofs *)

#[local] Arguments Nat.modulo : simpl never.
#[local] Arguments next : simpl never.
#[local] Arguments OB_CAPACITY : simpl never.

Lemma contents_length b : length (contents b) = s_count b.
Proof. unfold contents. by rewrite length_map, length_seq. Qed.

Lemma cap_pos : OB_CAPACITY ≠ 0%nat.
Proof. done. Qed.

Lemma ob_static_inv : ob_inv ob_static.
Proof. constructor; cbn; [done|unfold OB_CAPACITY; lia|done|lia]. Qed.

(** Removing the front: the shared step of pop, drop and of a push on a full buffer. *)
Lemma drop_head b : ob_inv b → s_count b ≠ 0%nat →
  let b' := {| b with s_head := next (s_head b); s_count := (s_count b - 1)%nat |} in
  ob_inv b' ∧ contents b = nth (s_head b) (s_buf b) TelemetryData_zero :: contents b'.
Proof.
  intros [Hl Hh Ht Hc] Hn b'. split.
  - constructor; cbn; [done| | |lia].
    + apply Nat.mod_upper_bound, cap_pos.
    + unfold next. rewrite Nat.Div0.add_mod_idemp_l, Ht. f_equal. lia.
  - unfold contents. cbn. destruct (s_count b) as [|n]; [done|].
    rewrite Nat.sub_1_r. cbn [seq map Nat.pred]. rewrite Nat.add_0_r, (Nat.mod_small (s_head b)) by done.
    f_equal. rewrite <- seq_shift, map_map. apply map_ext. intros i. unfold next.
    rewrite Nat.Div0.add_mod_idemp_l. do 2 f_equal. lia.
Qed.

(** Writing at the tail of a buffer that is not full. *)
Lemma write_tail b x : ob_inv b → (s_count b < OB_CAPACITY)%nat →
  let b' := {| b with s_buf := <[s_tail b := x]> (s_buf b);
                      s_tail := next (s_tail b); s_count := (s_count b + 1)%nat |} in
  ob_inv b' ∧ contents b' = contents b ++ [x].
Proof.
  intros [Hl Hh Ht Hc] Hlt b'. split.
  - constructor; cbn; [by rewrite length_insert|done| |lia].
    unfold next. rewrite Ht, Nat.Div0.add_mod_idemp_l. f_equal. lia.
  - unfold contents. cbn. rewrite seq_app, map_app. cbn. f_equal.
    + apply map_ext_in. intros i Hi%in_seq. rewrite !nth_lookup. f_equal.
      apply list_lookup_insert_ne. rewrite Ht. intros E.
      assert (Hi' : (i < s_count b)%nat) by lia. revert E. unfold OB_CAPACITY in *.
      rewrite (Nat.Div0.mod_eq (s_head b + s_count b)), (Nat.Div0.mod_eq (s_head b + i)).
      assert ((s_head b + s_count b) / 75 <= 1)%nat by (apply Nat.lt_succ_r, Nat.Div0.div_lt_upper_bound; lia).
      assert ((s_head b + i) / 75 <= 1)%nat by (apply Nat.lt_succ_r, Nat.Div0.div_lt_upper_bound; lia).
      pose proof (Nat.Div0.mul_div_le (s_head b + s_count b) 75).
      pose proof (Nat.Div0.mul_div_le (s_head b + i) 75). lia.
    + f_equal. rewrite <- Ht, nth_lookup, list_lookup_insert_eq; [done|].
      rewrite Hl, Ht. apply Nat.mod_upper_bound, cap_pos.
Qed.

Lemma ob_push_spec x b : ob_inv b →
  ob_inv (ob_push x b).2 ∧ (ob_push x b).1 = true ∧
  contents (ob_push x b).2 = bounded_push x (contents b).
Proof.
  intros Hi. unfold ob_push, bounded_push. rewrite contents_length.
  destruct (Nat.eqb_spec (s_count b) OB_CAPACITY) as [E|E].
  - destruct (drop_head b Hi) as [Hi' Hc]; [rewrite E; done|].
    destruct (write_tail _ x Hi') as [Hi2 Hc2]; [cbn; rewrite E; unfold OB_CAPACITY; lia|].
    split_and!; [exact Hi2|done|]. rewrite Hc. exact Hc2.
  - destruct (write_tail b x Hi) as [Hi2 Hc2]; [destruct Hi; lia|]. done.
Qed.

Lemma ob_drop_front_spec b : ob_inv b →
  ob_inv (ob_drop_front b).2 ∧ contents (ob_drop_front b).2 = tail (contents b) ∧
  (ob_drop_front b).1 = negb (ob_is_empty b).
Proof.
  intros Hi. unfold ob_drop_front, ob_is_empty. destruct (Nat.eqb_spec (s_count b) 0) as [E|E].
  - split_and!; [done| |done]. cbn.
    assert (contents b = []) as -> by (apply length_zero_iff_nil; by rewrite contents_length). done.
  - destruct (drop_head b Hi E) as [Hi' Hc]. split_and!; [done| |done]. by rewrite Hc.
Qed.

Lemma ob_peek_spec b : ob_inv b → ob_peek b = head (contents b).
Proof.
  intros Hi. unfold ob_peek. destruct (Nat.eqb_spec (s_count b) 0) as [E|E].
  - assert (contents b = []) as -> by (apply length_zero_iff_nil; by rewrite contents_length). done.
  - destruct (drop_head b Hi E) as [_ Hc]. by rewrite Hc.
Qed.

(** [C18] The ring buffer refines a bounded list, oldest first: [ob_push] appends and, on a
    full buffer, drops exactly the oldest entry; [ob_peek] reads the oldest, [ob_pop] and
    [ob_drop_front] remove it and fail exactly on an empty buffer; the counters agree with
    the list and every operation keeps the index invariant. *)
Theorem offline_buffer_refines_fifo b x :
  ob_inv b →
  let l := contents b in
  (ob_inv (ob_push x b).2 ∧ contents (ob_push x b).2 = bounded_push x l) ∧
  (ob_inv (ob_drop_front b).2 ∧ contents (ob_drop_front b).2 = tail l ∧
   (ob_drop_front b).1 = negb (bool_decide (l = []))) ∧
  ob_pop b = (head l, (ob_drop_front b).2) ∧ ob_peek b = head l ∧
  ob_count b = length l ∧ ob_is_empty b = bool_decide (l = []) ∧
  (length l <= OB_CAPACITY)%nat ∧ contents (ob_reset b) = [].
Proof.
  intros Hi l.
  assert (He : ob_is_empty b = bool_decide (l = [])).
  { unfold ob_is_empty. subst l. destruct (Nat.eqb_spec (s_count b) 0) as [E|E]; symmetry.
    - apply bool_decide_eq_true, length_zero_iff_nil. by rewrite contents_length.
    - apply bool_decide_eq_false. intros Hn. apply E. by rewrite <- contents_length, Hn. }
  destruct (ob_push_spec x b Hi) as (? & _ & ?).
  destruct (ob_drop_front_spec b Hi) as (? & ? & Hd).
  split_and!; try done.
  - by rewrite Hd, He.
  - subst l. rewrite <- ob_peek_spec by done. unfold ob_pop, ob_peek, ob_drop_front. by case_match.
  - by apply ob_peek_spec.
  - subst l. by rewrite contents_length.
  - subst l. rewrite contents_length. apply Hi.
Qed.

Lemma offline_buffer_refines_fifo_witness :
  contents (ob_push TelemetryData_zero ob_static).2 = [TelemetryData_zero].
Proof.
  destruct (offline_buffer_refines_fifo ob_static TelemetryData_zero ob_static_inv) as ((_ & E) & _).
  etrans; [exact E|by vm_compute].
Defined.
