(* ===== verification/UplinkScheduler.v ===== *)
(** [lib/LoraLink] without its hardware part: [LinkMonitor.h], [LoraRxHandler.h],
    [UartInitRetry.h] and the uplink scheduler: heartbeat tracking, the link state
    machine, sampling into the offline buffer while the link is down, and replay.

    Times are [uint64_t] milliseconds; the injected send callback is a function on an
    arbitrary world [W] that answers whether the packet went out. *)
From S2P Require Import Prelude SystemConfig VehicleData OfflineBuffer.

(* [src ESP_AKS/lib/LoraLink/LinkMonitor.h:8-13 link_check_timeout] *)
Definition link_check_timeout (now_ms last_hb_ms timeout_ms : Z) : bool :=
  if last_hb_ms =? 0 then false else timeout_ms <? u64 (now_ms - last_hb_ms).

(* [src ESP_AKS/lib/LoraLink/LinkMonitor.h:23-32 link_check_timeout_with_boot_grace] *)
Definition link_check_timeout_with_boot_grace
    (now_ms last_hb_ms timeout_ms boot_ms boot_grace_ms : Z) : bool :=
  if last_hb_ms =? 0 then boot_grace_ms <? u64 (now_ms - boot_ms)
  else link_check_timeout now_ms last_hb_ms timeout_ms.

(* [src ESP_AKS/lib/LoraLink/LoraRxHandler.h:8-8 LoraRxByteKind] *)
Inductive LoraRxByteKind : Set := KIND_HEARTBEAT | KIND_UNKNOWN.

(* [src ESP_AKS/lib/LoraLink/LoraRxHandler.h:10-13 lora_classify_rx_byte] *)
Definition lora_classify_rx_byte (rx_byte : Z) : LoraRxByteKind :=
  if rx_byte =? UKS_HEARTBEAT_BYTE then KIND_HEARTBEAT else KIND_UNKNOWN.

(** Returns the answer, the new count and the new time of the last warning. *)
(* [src ESP_AKS/lib/LoraLink/LoraRxHandler.h:18-27 lora_note_unknown_byte] *)
Definition lora_note_unknown_byte (now_ms count last_warn_ms warn_interval_ms : Z) : bool * Z * Z :=
  let count := u32 (count + 1) in
  if warn_interval_ms <=? u64 (now_ms - last_warn_ms) then (true, count, now_ms)
  else (false, count, last_warn_ms).

(* [src ESP_AKS/lib/LoraLink/UartInitRetry.h:15-18 UartInitDecision] *)
Inductive UartInitDecision : Set := UART_RETRY | GIVE_UP_DISABLED.

(* [src ESP_AKS/lib/LoraLink/UartInitRetry.h:23-28 uart_init_retry_decision] *)
Definition uart_init_retry_decision (failedAttempts maxAttempts : Z) : UartInitDecision :=
  if maxAttempts <=? failedAttempts then GIVE_UP_DISABLED else UART_RETRY.

(* [src ESP_AKS/lib/LoraLink/UplinkScheduler.h:72-98 UplinkScheduler] *)
Record UplinkScheduler := {
  m_linkTimeoutMs : Z;                 (* uint32_t *)
  m_bootGraceMs : Z;                   (* uint32_t *)
  m_offlineSamplePeriodMs : Z;         (* uint32_t *)
  m_replayBurstPerTick : Z;            (* uint8_t *)
  m_unknownByteWarnIntervalMs : Z;     (* uint32_t *)
  m_linkDown : bool;                   (* std::atomic *)
  m_lastHeartbeatMs : Z;               (* std::atomic<uint64_t>, 0: none yet *)
  m_unknownRxByteCount : Z;            (* uint32_t *)
  m_lastUnknownRxByteWarnMs : Z;       (* uint64_t *)
  m_lastOfflineSampleMs : Z;           (* uint64_t *)
  m_offlineFirstTs : Z;                (* uint32_t *)
  m_offlineLastTs : Z;                 (* uint32_t *)
  m_offlineHasSamples : bool;
}.

(* [src ESP_AKS/lib/LoraLink/UplinkScheduler.cpp:3-11 UplinkScheduler] *)
Definition newUplinkScheduler (linkTimeoutMs bootGraceMs offlineSamplePeriodMs replayBurstPerTick
    unknownByteWarnIntervalMs : Z) : UplinkScheduler := {|
  m_linkTimeoutMs := linkTimeoutMs; m_bootGraceMs := bootGraceMs;
  m_offlineSamplePeriodMs := offlineSamplePeriodMs; m_replayBurstPerTick := replayBurstPerTick;
  m_unknownByteWarnIntervalMs := unknownByteWarnIntervalMs;
  m_linkDown := false; m_lastHeartbeatMs := 0; m_unknownRxByteCount := 0;
  m_lastUnknownRxByteWarnMs := 0; m_lastOfflineSampleMs := 0; m_offlineFirstTs := 0;
  m_offlineLastTs := 0; m_offlineHasSamples := false |}.

(* [src ESP_AKS/lib/LoraLink/UplinkScheduler.h:34-34 RxResult] *)
Inductive RxResult : Set := HEARTBEAT | UNKNOWN_QUIET | UNKNOWN_WARN.

(* [src ESP_AKS/lib/LoraLink/UplinkScheduler.h:37-46 LinkTransition] *)
Record LinkTransition := {
  changed : bool;
  linkDown : bool;
  becameDown : bool;
  becameUp : bool;
  hadSamples : bool;
  bufferedCount : nat;
  firstTs : Z;
  lastTs : Z;
}.

(* [src ESP_AKS/lib/LoraLink/UplinkScheduler.cpp:13-27 onRxByte] *)
Definition onRxByte (rxByte nowMs : Z) (u : UplinkScheduler) : RxResult * UplinkScheduler :=
  match lora_classify_rx_byte rxByte with
  | KIND_HEARTBEAT => (HEARTBEAT, {| u with m_lastHeartbeatMs := nowMs |})
  | KIND_UNKNOWN =>
      let '(warn, count, lastWarn) := lora_note_unknown_byte nowMs (m_unknownRxByteCount u)
        (m_lastUnknownRxByteWarnMs u) (m_unknownByteWarnIntervalMs u) in
      let u := {| u with m_unknownRxByteCount := count; m_lastUnknownRxByteWarnMs := lastWarn |} in
      (if warn : bool then UNKNOWN_WARN else UNKNOWN_QUIET, u)
  end.

(* [src ESP_AKS/lib/LoraLink/UplinkScheduler.cpp:29-59 updateLink] *)
Definition updateLink (nowMs bootMs : Z) (b : ob) (u : UplinkScheduler) :
    LinkTransition * UplinkScheduler :=
  let lastHeartbeatMs := m_lastHeartbeatMs u in
  let timeout := link_check_timeout_with_boot_grace nowMs lastHeartbeatMs (m_linkTimeoutMs u)
    bootMs (m_bootGraceMs u) in
  let down := m_linkDown u in
  let tr := Build_LinkTransition false down false false false 0 0 0 in
  if timeout && negb down then
    ({| tr with changed := true; becameDown := true; linkDown := true |},
     {| u with m_linkDown := true; m_lastOfflineSampleMs := 0; m_offlineHasSamples := false |})
  else if negb timeout && down && negb (lastHeartbeatMs =? 0) then
    ({| tr with changed := true; becameUp := true; linkDown := false;
                hadSamples := m_offlineHasSamples u; bufferedCount := ob_count b;
                firstTs := m_offlineFirstTs u; lastTs := m_offlineLastTs u |},
     {| u with m_linkDown := false |})
  else (tr, u).

(* [src ESP_AKS/lib/LoraLink/UplinkScheduler.h:61-61 isLinkDown] *)
Definition isLinkDown (u : UplinkScheduler) : bool := m_linkDown u.

(* [src ESP_AKS/lib/LoraLink/UplinkScheduler.cpp:61-76 offlineSample] *)
Definition offlineSample (nowMs : Z) (live : TelemetryData) (x : UplinkScheduler * ob) :
    bool * (UplinkScheduler * ob) :=
  let '(u, b) := x in
  if negb (offline_should_sample nowMs (m_lastOfflineSampleMs u) (m_offlineHasSamples u)
             (m_offlineSamplePeriodMs u)) then (false, (u, b))
  else
    let u := {| u with m_lastOfflineSampleMs := nowMs |} in
    let b := (ob_push live b).2 in
    let u := if negb (m_offlineHasSamples u)
             then {| u with m_offlineFirstTs := TEL_timestampMs live; m_offlineHasSamples := true |}
             else u in
    (true, ({| u with m_offlineLastTs := TEL_timestampMs live |}, b)).

Section Tx.
Context {W : Type} (send : TelemetryData → bool → W → bool * W).   (* packet, isReplay *)

(** The replay loop; the bound is the loop's own. *)
(* [src ESP_AKS/lib/LoraLink/UplinkScheduler.cpp:85-93 onTxTickLinkUp] *)
Fixpoint replay (burst : nat) (b : ob) (w : W) : nat * ob * W :=
  match burst with
  | O => (O, b, w)
  | S burst =>
      match ob_peek b with
      | None => (O, b, w)
      | Some pkt =>
          let '(ok, w) := send pkt true w in
          if negb ok then (O, b, w)
          else
            let b := (ob_drop_front b).2 in
            let '(sent, b, w) := replay burst b w in
            (S sent, b, w)
      end
  end.

(* [src ESP_AKS/lib/LoraLink/UplinkScheduler.cpp:78-102 onTxTickLinkUp] *)
Definition onTxTickLinkUp (haveLive : bool) (live : TelemetryData) (u : UplinkScheduler)
    (b : ob) (w : W) : nat * ob * W :=
  let '(sent, b, w) := replay (Z.to_nat (m_replayBurstPerTick u)) b w in
  if haveLive then
    let '(ok, w) := send live false w in
    ((if ok : bool then S sent else sent), b, w)
  else (sent, b, w).
End Tx.

(** The link state machine over one [updateLink], as a formula. *)
Lemma updateLink_down nowMs bootMs b u :
  m_linkDown (updateLink nowMs bootMs b u).2 =
  if m_lastHeartbeatMs u =? 0
  then m_linkDown u || (m_bootGraceMs u <? u64 (nowMs - bootMs))
  else m_linkTimeoutMs u <? u64 (nowMs - m_lastHeartbeatMs u).
Proof.
  unfold updateLink, link_check_timeout_with_boot_grace, link_check_timeout.
  destruct (m_lastHeartbeatMs u =? 0).
  - destruct (m_bootGraceMs u <? _), (m_linkDown u) eqn:E; by cbn.
  - destruct (m_linkTimeoutMs u <? _), (m_linkDown u) eqn:E; by cbn.
Qed.

Lemma onRxByte_heartbeat byte nowMs u :
  m_lastHeartbeatMs (onRxByte byte nowMs u).2 =
    if byte =? UKS_HEARTBEAT_BYTE then nowMs else m_lastHeartbeatMs u.
Proof.
  unfold onRxByte, lora_classify_rx_byte. destruct (byte =? UKS_HEARTBEAT_BYTE); [done|].
  unfold lora_note_unknown_byte. by destruct (_ <=? _).
Qed.

(** [C21] Link supervision: once a heartbeat byte has been received at a time [hb] > 0,
    whatever other bytes follow, the link is reported down exactly when more than
    LINK_TIMEOUT_MS have passed since; before any heartbeat it goes down exactly when the
    boot grace is over and stays down until one arrives; and a transition is reported
    exactly when the state changes. *)
Theorem link_state_follows_heartbeats hb now boot bytes b u :
  0 < hb → hb <= now → now < 18446744073709551616 → 0 <= boot <= now →
  m_linkTimeoutMs u = LINK_TIMEOUT_MS → m_bootGraceMs u = BOOT_LINK_GRACE_MS →
  let rx (u : UplinkScheduler) (l : list Z) := foldl (λ u x, (onRxByte x now u).2) u l in
  let u1 := rx (onRxByte UKS_HEARTBEAT_BYTE hb u).2 (filter (λ x, x ≠ UKS_HEARTBEAT_BYTE) bytes) in
  (isLinkDown (updateLink now boot b u1).2 = true ↔ LINK_TIMEOUT_MS < now - hb) ∧
  (m_lastHeartbeatMs u = 0 →
     (isLinkDown (updateLink now boot b u).2 = true ↔
        m_linkDown u = true ∨ BOOT_LINK_GRACE_MS < now - boot)) ∧
  changed (updateLink now boot b u).1 =
    xorb (isLinkDown u) (isLinkDown (updateLink now boot b u).2).
Proof.
  intros Hhb Hle Hnow Hboot Hto Hgr rx u1. unfold isLinkDown. split_and!.
  - assert (Hu1 : m_lastHeartbeatMs u1 = hb ∧ m_linkTimeoutMs u1 = LINK_TIMEOUT_MS).
    { subst u1 rx. rewrite <- Hto. change (m_linkTimeoutMs u) with (m_linkTimeoutMs (onRxByte UKS_HEARTBEAT_BYTE hb u).2).
      assert (E0 : m_lastHeartbeatMs (onRxByte UKS_HEARTBEAT_BYTE hb u).2 = hb) by (by rewrite onRxByte_heartbeat).
      revert E0. generalize (onRxByte UKS_HEARTBEAT_BYTE hb u).2.
      induction bytes as [|x bytes IH]; intros v Ev; [done|].
      rewrite filter_cons. destruct (decide (x ≠ UKS_HEARTBEAT_BYTE)) as [Hx|Hx]; [|by apply IH].
      cbn. assert (Et : m_linkTimeoutMs (onRxByte x now v).2 = m_linkTimeoutMs v).
      { unfold onRxByte, lora_note_unknown_byte. destruct (lora_classify_rx_byte x); [done|].
        by destruct (_ <=? _). }
      rewrite <- Et. apply IH. rewrite onRxByte_heartbeat.
      by rewrite (proj2 (Z.eqb_neq _ _)) by done. }
    destruct Hu1 as [E1 E2]. rewrite updateLink_down, E1, E2.
    rewrite (proj2 (Z.eqb_neq hb 0)) by lia. rewrite u64_id by (unfold is_u64; lia).
    apply Z.ltb_lt.
  - intros Hz. rewrite updateLink_down, Hz, Hgr. cbn [Z.eqb].
    rewrite u64_id by (unfold is_u64; lia). rewrite orb_true_iff, Z.ltb_lt. done.
  - unfold updateLink. destruct (m_linkDown u) eqn:E; repeat case_match; cbn; rewrite ?E;
      try done; by rewrite andb_false_r in *.
Qed.

(** ** Replay *)

(** The send callback with a record of the packets it accepted. *)
Definition recorded {W} (send : TelemetryData → bool → W → bool * W)
    (pkt : TelemetryData) (isReplay : bool) (x : W * list (TelemetryData * bool)) :=
  let '(ok, w) := send pkt isReplay x.1 in
  (ok, (w, if ok : bool then x.2 ++ [(pkt, isReplay)] else x.2)).

Section Replay.
Context {W : Type} (send : TelemetryData → bool → W → bool * W).

Lemma replay_spec n b w log : ob_inv b →
  let '(k, b', (w', log')) := replay (recorded send) n b (w, log) in
  (k <= n)%nat ∧ (k <= length (contents b))%nat ∧ ob_inv b' ∧ contents b' = drop k (contents b) ∧
  log' = log ++ map (λ p, (p, true)) (take k (contents b)).
Proof.
  revert b w log. induction n as [|n IH]; intros b w log Hi; cbn [replay].
  { cbn. rewrite app_nil_r. split_and!; auto; lia. }
  rewrite ob_peek_spec by done. destruct (contents b) as [|p l] eqn:Hc; cbn [head].
  { cbn. rewrite app_nil_r, Hc. split_and!; auto; lia. }
  unfold recorded at 1. cbn [fst snd]. destruct (send p true w) as [ok w1]. destruct ok; cbn [negb].
  2:{ cbn. rewrite app_nil_r. split_and!; auto; lia. }
  destruct (ob_drop_front_spec b Hi) as (Hi' & Hc' & _). rewrite Hc in Hc'. cbn in Hc'.
  specialize (IH (ob_drop_front b).2 w1 (log ++ [(p, true)]) Hi').
  destruct (replay _ n _ _) as [[k b'] [w' log']]. destruct IH as (Hk & Hkl & Hi2 & Hc2 & Hlog).
  rewrite Hc' in *. cbn [length]. split_and!; [lia|lia|done|done|].
  rewrite Hlog. cbn. by rewrite <- app_assoc.
Qed.

(** What a transmit tick does to a world in which each call of [send] adds at most one
    packet to the stream [ds]. *)
Section Stream.
Variables (ok : TelemetryData → Prop) (P : list TelemetryData → W → Prop).
Hypothesis send_adds : ∀ ds pkt isReplay w, ok pkt → P ds w →
  ∃ ds', (length ds' <= 1)%nat ∧ P (ds ++ ds') (send pkt isReplay w).2.

Lemma replay_adds n b w ds : ob_inv b → Forall ok (contents b) → P ds w →
  let '(_, b', w') := replay send n b w in
  ob_inv b' ∧ (∃ k, (k <= n)%nat ∧ contents b' = drop k (contents b)) ∧
  ∃ ds', (length ds' <= n)%nat ∧ P (ds ++ ds') w'.
Proof.
  revert b w ds. induction n as [|n IH]; intros b w ds Hi Hok Hw; cbn [replay].
  { split; [done|]. split; [exists 0%nat; split; [lia|done]|]. exists []. rewrite app_nil_r. split; [cbn; lia|done]. }
  rewrite ob_peek_spec by done. destruct (contents b) as [|p l] eqn:Hc; cbn [head].
  { split; [done|]. split; [exists 0%nat; split; [lia|done]|]. exists []. rewrite app_nil_r. split; [cbn; lia|done]. }
  inversion Hok as [|? ? Hp Hl]; subst. destruct (send_adds ds p true w Hp Hw) as (d1 & Hd1 & Hw1).
  destruct (send p true w) as [sent w1]. cbn [snd] in Hw1. destruct sent; cbn [negb].
  2:{ split; [done|]. split; [exists 0%nat; split; [lia|done]|]. exists d1. split; [lia|done]. }
  destruct (ob_drop_front_spec b Hi) as (Hi' & Hc' & _). rewrite Hc in Hc'. cbn in Hc'.
  specialize (IH (ob_drop_front b).2 w1 (ds ++ d1) Hi'). rewrite Hc' in IH.
  destruct (replay _ n _ _) as [[k b'] w']. destruct (IH Hl Hw1) as (Hi2 & (k2 & Hk2 & E) & d2 & Hd2 & Hw2).
  split; [done|]. split; [exists (S k2); split; [lia|done]|]. exists (d1 ++ d2). rewrite length_app, app_assoc.
  split; [lia|done].
Qed.

Lemma onTxTick_adds haveLive live u b w ds : ob_inv b → Forall ok (contents b) →
  (haveLive = true → ok live) → P ds w →
  let '(_, b', w') := onTxTickLinkUp send haveLive live u b w in
  ob_inv b' ∧ (∃ k, (k <= Z.to_nat (m_replayBurstPerTick u))%nat ∧ contents b' = drop k (contents b)) ∧
  ∃ ds', (length ds' <= 1 + Z.to_nat (m_replayBurstPerTick u))%nat ∧ P (ds ++ ds') w'.
Proof.
  intros Hi Hok Hl Hw. unfold onTxTickLinkUp.
  pose proof (replay_adds (Z.to_nat (m_replayBurstPerTick u)) b w ds Hi Hok Hw) as Hr.
  destruct (replay _ _ _ _) as [[k b'] w']. destruct Hr as (Hi' & Hk & d1 & Hd1 & Hw1).
  destruct haveLive; [|split; [done|]; split; [done|]; exists d1; split; [lia|done]].
  destruct (send_adds (ds ++ d1) live false w' (Hl eq_refl) Hw1) as (d2 & Hd2 & Hw2).
  destruct (send live false w') as [[] w2]; cbn [snd] in Hw2;
    (split; [done|]; split; [done|]; exists (d1 ++ d2); rewrite length_app, app_assoc; split; [lia|done]).
Qed.
End Stream.

(** [C19] Replay loses and reorders nothing: one transmit tick sends, oldest first, at most
    the configured burst of buffered packets, removes from the buffer exactly those the
    radio accepted (a refusal leaves the packet and ends the burst), then offers the live
    packet once; the count returned is the number accepted. *)
Theorem replay_in_order_no_loss haveLive live u b w log :
  ob_inv b →
  let '(sent, b', (w', log')) := onTxTickLinkUp (recorded send) haveLive live u b (w, log) in
  ∃ k last, (k <= Z.to_nat (m_replayBurstPerTick u))%nat ∧ (k <= length (contents b))%nat ∧
    contents b = take k (contents b) ++ contents b' ∧ ob_inv b' ∧
    log' = log ++ map (λ p, (p, true)) (take k (contents b)) ++ last ∧
    (last = [] ∨ (haveLive = true ∧ last = [(live, false)])) ∧
    sent = (k + length last)%nat.
Proof.
  intros Hi. unfold onTxTickLinkUp.
  pose proof (replay_spec (Z.to_nat (m_replayBurstPerTick u)) b w log Hi) as Hr.
  destruct (replay _ _ _ _) as [[k b'] [w' log']]. destruct Hr as (Hk & Hkl & Hi' & Hc & Hlog).
  assert (Hsplit : contents b = take k (contents b) ++ contents b') by (by rewrite Hc, take_drop).
  destruct haveLive.
  - unfold recorded. cbn [fst snd]. destruct (send live false w') as [ok w2]. destruct ok.
    + exists k, [(live, false)]. split_and!; [done..| |auto|cbn; lia]. by rewrite Hlog, <- app_assoc.
    + exists k, []. split_and!; [done..| |auto|cbn; lia]. by rewrite app_nil_r.
  - exists k, []. split_and!; [done..| |auto|cbn; lia]. by rewrite app_nil_r.
Qed.
End Replay.

(** ** Outages *)

(** The calls of [offlineSample] during an outage: times and live packets. *)
Definition outage (calls : list (Z * TelemetryData)) (x : UplinkScheduler * ob) : UplinkScheduler * ob :=
  foldl (λ x c, (offlineSample c.1 c.2 x).2) x calls.

(** Calls in time order, between [lo] and [hi]. *)
Inductive in_order (hi : Z) : Z → list (Z * TelemetryData) → Prop :=
  | ord_nil lo : in_order hi lo []
  | ord_cons lo t d l : lo <= t <= hi → in_order hi t l → in_order hi lo ((t, d) :: l).

Lemma in_order_weaken hi lo lo' l : lo' <= lo → in_order hi lo l → in_order hi lo' l.
Proof. intros Hl Ho. inversion Ho; subst; [constructor|]. constructor; [lia|done]. Qed.

Lemma bounded_push_room x l : (length l < 75)%nat → bounded_push x l = l ++ [x].
Proof.
  intros Hl. unfold bounded_push. by rewrite (proj2 (Nat.eqb_neq _ _)) by (unfold OB_CAPACITY; lia).
Qed.

(** One call after the first sample of the outage. *)
Lemma offlineSample_next u b t d : m_offlineHasSamples u = true →
  m_offlineSamplePeriodMs u = OFFLINE_SAMPLE_PERIOD_MS →
  0 <= m_lastOfflineSampleMs u <= t → t < 18446744073709551616 →
  if 1000 <=? t - m_lastOfflineSampleMs u
  then ∃ u', offlineSample t d (u, b) = (true, (u', (ob_push d b).2)) ∧
         m_offlineHasSamples u' = true ∧ m_lastOfflineSampleMs u' = t ∧
         m_offlineSamplePeriodMs u' = OFFLINE_SAMPLE_PERIOD_MS
  else offlineSample t d (u, b) = (false, (u, b)).
Proof.
  intros Hh Hp Hl Ht. unfold offlineSample, offline_should_sample.
  destruct u. cbn in *. subst. cbn. rewrite u64_id by (unfold is_u64; lia).
  unfold OFFLINE_SAMPLE_PERIOD_MS. destruct (1000 <=? _); cbn; eauto 10.
Qed.

(** The first call of an outage always samples. *)
Lemma offlineSample_first u b t d : m_offlineHasSamples u = false →
  m_offlineSamplePeriodMs u = OFFLINE_SAMPLE_PERIOD_MS →
  ∃ u', offlineSample t d (u, b) = (true, (u', (ob_push d b).2)) ∧
    m_offlineHasSamples u' = true ∧ m_lastOfflineSampleMs u' = t ∧
    m_offlineSamplePeriodMs u' = OFFLINE_SAMPLE_PERIOD_MS.
Proof.
  intros Hh Hp. unfold offlineSample, offline_should_sample.
  destruct u. cbn in *. subst. cbn. eauto 10.
Qed.

(** A sample taken less than a period before a call, or at it. *)
Definition covers (last : Z) (c : Z * TelemetryData) : Prop := last <= c.1 < last + OFFLINE_SAMPLE_PERIOD_MS.

(** After the first sample, samples are at least a period apart, and cover every call. *)
Lemma outage_from hi u b last calls :
  ob_inv b → m_offlineHasSamples u = true → m_lastOfflineSampleMs u = last →
  m_offlineSamplePeriodMs u = OFFLINE_SAMPLE_PERIOD_MS →
  0 <= last → hi < 18446744073709551616 → in_order hi last calls →
  1000 * (Z.of_nat (length (contents b)) - 75) + (hi - last) <= 0 →
  ∃ samples, contents (outage calls (u, b)).2 = contents b ++ map snd samples ∧
    ob_inv (outage calls (u, b)).2 ∧ sublist samples calls ∧
    (samples = [] ∨ 1000 * Z.of_nat (length samples) <= hi - last) ∧
    ∀ c, c ∈ calls → covers last c ∨ ∃ s, s ∈ samples ∧ covers s.1 c.
Proof.
  intros Hi Hh Hl Hp H0 Hhi Ho. revert u b last Hi Hh Hl Hp H0 Ho.
  induction calls as [|[t d] calls IH]; intros u b last Hi Hh Hl Hp H0 Ho Hfit.
  { exists []. rewrite app_nil_r. split_and!; auto. by intros ? []%not_elem_of_nil. }
  inversion Ho as [|? ? ? ? Ht Ho']; subst.
  change (outage ((t, d) :: calls) (u, b)) with (outage calls (offlineSample t d (u, b)).2).
  pose proof (offlineSample_next u b t d Hh Hp ltac:(lia) ltac:(lia)) as Hn.
  destruct (Z.leb_spec 1000 (t - m_lastOfflineSampleMs u)) as [Hs|Hs].
  - destruct Hn as (u' & -> & Hh' & Hl' & Hp'). cbn [snd].
    destruct (ob_push_spec d b Hi) as (Hi' & _ & Hc).
    rewrite bounded_push_room in Hc by lia.
    destruct (IH u' (ob_push d b).2 t) as (samples & Hcs & His & Hsub & Hlen & Hcov); auto; [lia| |].
    { rewrite Hc, length_app. cbn [length]. lia. }
    exists ((t, d) :: samples). rewrite Hcs, Hc, <- app_assoc. split_and!; auto.
    + by constructor.
    + right. cbn [length]. destruct Hlen as [->|Hlen]; cbn [length]; lia.
    + assert (Hself : covers t (t, d)) by (unfold covers, OFFLINE_SAMPLE_PERIOD_MS; cbn; lia).
      intros c [->|Hin]%elem_of_cons; right; [exists (t, d); split; [left|exact Hself]|].
      destruct (Hcov c Hin) as [?|(s & Hs' & ?)]; [exists (t, d); by split; [left|]|exists s; by split; [right|]].
  - rewrite Hn. cbn [snd].
    destruct (IH u b (m_lastOfflineSampleMs u)) as (samples & Hcs & His & Hsub & Hlen & Hcov); auto.
    { eapply in_order_weaken; [|done]. lia. }
    exists samples. split_and!; auto; [by constructor|].
    intros c [->|Hin]%elem_of_cons; [left|auto]. unfold covers, OFFLINE_SAMPLE_PERIOD_MS. cbn. lia.
Qed.

(** [C20] A 60 s outage fits the buffer and leaves no gap: whatever the live packets and
    however often the transmit tick runs, an outage of at most 60 s adds at most 61 samples,
    starting with the first packet, so with at most 14 packets left from before nothing is
    dropped and the buffer holds exactly the old packets followed by the samples in time
    order; and every tick of the outage lies less than one period after a sample, so the
    record has no gap longer than the period and one tick. *)
Theorem outage_fits_buffer t0 t d calls u b :
  ob_inv b → m_offlineHasSamples u = false →
  m_offlineSamplePeriodMs u = OFFLINE_SAMPLE_PERIOD_MS →
  0 <= t0 <= t → t0 + 60000 < 18446744073709551616 → (length (contents b) <= 14)%nat →
  in_order (t0 + 60000) t0 ((t, d) :: calls) →
  ∃ samples, contents (outage ((t, d) :: calls) (u, b)).2 = contents b ++ map snd ((t, d) :: samples) ∧
    sublist samples calls ∧ (length ((t, d) :: samples) <= 61)%nat ∧
    ∀ c, c ∈ (t, d) :: calls → ∃ s, s ∈ (t, d) :: samples ∧ covers s.1 c.
Proof.
  intros Hi Hh Hp H0 Hhi Hl Ho. inversion Ho as [|? ? ? ? Ht Ho']; subst.
  change (outage ((t, d) :: calls) (u, b)) with (outage calls (offlineSample t d (u, b)).2).
  destruct (offlineSample_first u b t d Hh Hp) as (u' & -> & Hh' & Hl' & Hp'). cbn [snd].
  destruct (ob_push_spec d b Hi) as (Hi' & _ & Hc). rewrite bounded_push_room in Hc by lia.
  destruct (outage_from (t0 + 60000) u' (ob_push d b).2 t calls)
    as (samples & Hcs & _ & Hsub & Hn & Hcov); auto; [lia| |].
  { rewrite Hc, length_app. cbn [length]. lia. }
  exists samples. split_and!; [|done| |].
  - etrans; [exact Hcs|]. by rewrite Hc, <- app_assoc.
  - cbn. destruct Hn as [->|Hn]; cbn; lia.
  - assert (Hself : covers t (t, d)) by (unfold covers, OFFLINE_SAMPLE_PERIOD_MS; cbn; lia).
    intros c [->|Hin]%elem_of_cons; [exists (t, d); split; [left|exact Hself]|].
    destruct (Hcov c Hin) as [?|(s & Hs & ?)]; [exists (t, d); by split; [left|]|exists s; by split; [right|]].
Qed.

(** ** Witnesses *)

Definition scheduler : UplinkScheduler :=
  newUplinkScheduler LINK_TIMEOUT_MS BOOT_LINK_GRACE_MS OFFLINE_SAMPLE_PERIOD_MS 2 10000.

Lemma link_state_follows_heartbeats_witness :
  isLinkDown (updateLink 12000 0 ob_static (onRxByte UKS_HEARTBEAT_BYTE 2000 scheduler).2).2 = true.
Proof.
  destruct (link_state_follows_heartbeats 2000 12000 0 [] ob_static scheduler) as [E _];
    [lia..|done|done|]. apply E. by vm_compute.
Defined.

(** Three buffered packets, a radio that is always ready, burst 2. *)
Definition pkt (ts : Z) : TelemetryData := {| TelemetryData_zero with TEL_timestampMs := ts |}.
Definition buffered : ob :=
  (ob_push (pkt 3) (ob_push (pkt 2) (ob_push (pkt 1) ob_static).2).2).2.
Definition always_ready (p : TelemetryData) (r : bool) (w : unit) : bool * unit := (true, w).

Lemma buffered_inv : ob_inv buffered.
Proof. repeat apply ob_push_spec. apply ob_static_inv. Qed.

Lemma replay_in_order_no_loss_witness :
  let '(sent, b', _) := onTxTickLinkUp (recorded always_ready) true (pkt 9) scheduler buffered ((), []) in
  sent = 3%nat ∧ ob_inv b'.
Proof.
  pose proof (replay_in_order_no_loss always_ready true (pkt 9) scheduler buffered () [] buffered_inv) as H.
  destruct (onTxTickLinkUp _ _ _ _ _ _) as [[sent b'] [w' log']] eqn:E.
  destruct H as (k & last & _ & _ & _ & Hi & _). split; [|exact Hi].
  vm_compute in E. by inversion E.
Defined.

Lemma outage_fits_buffer_witness :
  ∃ samples, contents (outage [(5000, pkt 1); (5500, pkt 2); (6000, pkt 3)] (scheduler, ob_static)).2 =
    contents ob_static ++ map snd ((5000%Z, pkt 1) :: samples) ∧
    sublist samples [(5500%Z, pkt 2); (6000%Z, pkt 3)] ∧ (length ((5000%Z, pkt 1) :: samples) <= 61)%nat.
Proof.
  destruct (outage_fits_buffer 5000 5000 (pkt 1) [(5500, pkt 2); (6000, pkt 3)] scheduler ob_static)
    as (samples & E & Hsub & Hlen & _);
    [apply ob_static_inv|done|done|lia|lia|cbn; lia|repeat (constructor; [lia|]); constructor|by exists samples].
Defined.
