(* ===== verification/Telemetry.v ===== *)
(** [lib/Telemetry]: the speed computation, the sanitising gate and the CSV frame of the
    uplink.

    Frames are lists of ASCII codes.  The format directives [%d], [%u], [%lu], [%ld] of
    [snprintf] print decimal numbers ([print_int]); single-precision arithmetic is the
    IEEE 754 specification of the standard library ([SpecFloat], 24-bit significand).
    The UART driver is a parameter. *)
From S2P Require Import Prelude SystemConfig VehicleData.
From Stdlib Require Import SpecFloat.
Open Scope Z_scope.

(** ** Speed *)

Module F32.
Definition prec : Z := 24.
Definition emax : Z := 128.
Definition mul := SFmul prec emax.
Definition div := SFdiv prec emax.
(** The float nearest to [m * 2 ^ e]. *)
Definition make (m e : Z) : spec_float := binary_normalize prec emax m e false.
Definition of_Z (z : Z) : spec_float := make z 0.
(** [a >= b] on floats. *)
Definition geb (a b : spec_float) : bool := SFleb b a.
(** Conversion to an integer type: truncation toward zero. *)
Definition trunc (f : spec_float) : Z :=
  match f with
  | S754_finite s m e =>
      let z := if e <? 0 then Z.pos m / 2 ^ (- e) else Z.pos m * 2 ^ e in
      if s then - z else z
  | _ => 0
  end.
End F32.

(* [src ESP_AKS/lib/Telemetry/Telemetry.h:12-12 TEL_SPD_X10_MAX] *)
Definition TEL_SPD_X10_MAX : Z := 3000.

(** The nearest single-precision numbers to 0.56, 1.0 and 3.14159265. *)
(* [src ESP_AKS/include/VehicleParams.h:11-11 WHEEL_DIAMETER_M] *)
Definition WHEEL_DIAMETER_M : spec_float := F32.make 9395241 (-24).
(* [src ESP_AKS/include/VehicleParams.h:17-17 GEAR_RATIO] *)
Definition GEAR_RATIO : spec_float := F32.of_Z 1.
(* [src ESP_AKS/include/VehicleParams.h:24-24 MOTOR_RPM_IS_WHEEL_RPM] *)
Definition MOTOR_RPM_IS_WHEEL_RPM : bool := true.
Definition PI_F : spec_float := F32.make 13176795 (-22).

(* [src ESP_AKS/lib/Telemetry/Telemetry.h:30-40 rpmToSpeedKmhX10Impl] *)
Definition rpmToSpeedKmhX10Impl (rpm : Z) (wheelDiameterM gearRatio : spec_float)
    (motorRpmIsWheelRpm : bool) : Z :=
  let absRpm := F32.of_Z rpm in
  let wheelRpm := if motorRpmIsWheelRpm then absRpm else F32.div absRpm gearRatio in
  let km_h := F32.div (F32.mul (F32.mul (F32.mul wheelRpm PI_F) wheelDiameterM) (F32.of_Z 60))
                (F32.of_Z 1000) in
  let spd_x10 := F32.mul km_h (F32.of_Z 10) in
  if F32.geb spd_x10 (F32.of_Z TEL_SPD_X10_MAX) then TEL_SPD_X10_MAX
  else u16 (F32.trunc spd_x10).

(* [src ESP_AKS/lib/Telemetry/Telemetry.h:42-45 rpmToSpeedKmhX10] *)
Definition rpmToSpeedKmhX10 (rpm : Z) : Z :=
  rpmToSpeedKmhX10Impl rpm WHEEL_DIAMETER_M GEAR_RATIO MOTOR_RPM_IS_WHEEL_RPM.

(** ** Sanitising *)

(* [src ESP_AKS/lib/Telemetry/TelemetrySanitize.h:27-29 sanitizeSystemState] *)
Definition sanitizeSystemState (raw : Z) : Z := if (1 <=? raw) && (raw <=? 4) then raw else 4.

(* [src ESP_AKS/lib/Telemetry/TelemetrySanitize.h:32-34 sanitizeSoc] *)
Definition sanitizeSoc (raw : Z) : Z := if 10000 <? raw then 10000 else raw.

(* [src ESP_AKS/lib/Telemetry/TelemetrySanitize.h:41-43 sanitizeCurrent] *)
Definition sanitizeCurrent (raw : Z) : Z := if raw =? -2147483648 then -2147483647 else raw.

(* [src ESP_AKS/lib/Telemetry/TelemetrySanitize.h:50-56 sanitizeForUplink] *)
Definition sanitizeForUplink (raw : TelemetryData) : TelemetryData :=
  {| raw with
     TEL_bmsSystemState := sanitizeSystemState (TEL_bmsSystemState raw);
     TEL_bmsSocHundredths := sanitizeSoc (TEL_bmsSocHundredths raw);
     TEL_bmsCurrentCentiA := sanitizeCurrent (TEL_bmsCurrentCentiA raw) |}.

(** ** The frame *)

(** Decimal digits of a natural number below 10^20. *)
Fixpoint print_digits (fuel : nat) (n : Z) : list Z :=
  match fuel with
  | O => []
  | S fuel => if n <? 10 then [48 + n] else print_digits fuel (n / 10) ++ [48 + n mod 10]
  end.
Definition print_int (n : Z) : list Z :=
  if n <? 0 then 45 :: print_digits 20 (- n) else print_digits 20 n.

Definition comma : Z := 44.
Definition tel_tag : list Z := [84; 69; 76].          (* TEL *)
Definition crlf : list Z := [13; 10].

(** The printed values, in the order of the format string. *)
(* [src ESP_AKS/lib/Telemetry/Telemetry.cpp:30-48 sendStatus] *)
Definition frame_fields (seq : Z) (d : TelemetryData) : list Z :=
  [LORA_PROTOCOL_VERSION; seq; TEL_motorRpm d; TEL_motorVoltageDeciV d; TEL_motorErrorFlags d;
   Z.b2z (TEL_motorDataValid d); Z.b2z (TEL_motorTimeoutActive d);
   TEL_bmsCellVoltageMaxDeciMv d; TEL_bmsCellVoltageMinDeciMv d;
   TEL_bmsTempHighestC d; TEL_bmsTempLowestC d; TEL_bmsSystemState d;
   TEL_bmsPackVoltageDeciV d; TEL_bmsCurrentCentiA d; TEL_bmsSocHundredths d;
   Z.b2z (TEL_bmsDataValid d); TEL_timestampMs d; TEL_speedKmhX10 d].

(* [src ESP_AKS/lib/Telemetry/Telemetry.cpp:27-48 sendStatus] *)
Definition frame_bytes (seq : Z) (d : TelemetryData) : list Z :=
  tel_tag ++ concat (map (λ v, comma :: print_int v) (frame_fields seq d)) ++ crlf.

(* [src ESP_AKS/lib/Telemetry/Telemetry.h:76-78 Telemetry] *)
Record Telemetry := { TEL_isInitialized : bool; TEL_sequenceCounter : Z (* uint32_t *) }.

(* [src ESP_AKS/lib/Telemetry/Telemetry.cpp:10-10 Telemetry] *)
Definition newTelemetry : Telemetry := {| TEL_isInitialized := false; TEL_sequenceCounter := 0 |}.

(* [src ESP_AKS/lib/Telemetry/Telemetry.cpp:12-16 begin] *)
Definition telemetry_begin (t : Telemetry) : bool * Telemetry :=
  (true, {| TEL_isInitialized := true; TEL_sequenceCounter := 0 |}).

Section Send.
Context {W : Type} (uart_write_bytes : list Z → W → Z * W).   (* bytes written, or negative *)

(* [src ESP_AKS/lib/Telemetry/Telemetry.cpp:18-66 sendStatus] *)
Definition sendStatus (d : TelemetryData) (t : Telemetry) (w : W) : Telemetry * W :=
  if negb (TEL_isInitialized t) then (t, w)
  else
    let payload := frame_bytes (TEL_sequenceCounter t) d in
    let TEL_payloadLength := Z.of_nat (length payload) in
    if TEL_payloadLength <=? 0 then (t, w)
    else
      let TEL_txLength := if TEL_payloadLength <? 192 then TEL_payloadLength else 192 - 1 in
      let '(TEL_written, w) := uart_write_bytes (take (Z.to_nat TEL_txLength) payload) w in
      if TEL_written <? 0 then (t, w)
      else ({| t with TEL_sequenceCounter := u32 (TEL_sequenceCounter t + 1) |}, w).
End Send.

(** ** The receiver's acceptance rules

    The ground station is not part of the repository; its decoding rules are restated by
    the contract of the end-to-end tests, which is translated here.  Frames are ASCII, so
    that [str.isdigit] and [int] are the decimal ones. *)

(** [str.split]. *)
Fixpoint split_commas (acc : list Z) (l : list Z) : list (list Z) :=
  match l with
  | [] => [acc]
  | c :: l => if c =? comma then acc :: split_commas [] l else split_commas (acc ++ [c]) l
  end.

(** [str.rstrip] of the characters CR and LF. *)
Fixpoint strip_crlf (l : list Z) : list Z :=
  match l with
  | [] => []
  | c :: l' => if (c =? 13) || (c =? 10) then strip_crlf l' else l
  end.
Definition rstrip_crlf (l : list Z) : list Z := reverse (strip_crlf (reverse l)).

(** [int] of a token of digits with an optional sign. *)
Definition parse_digits (l : list Z) : Z := foldl (λ a c, a * 10 + (c - 48)) 0 l.
Definition parse_int (l : list Z) : Z :=
  match l with
  | c :: l' => if c =? 45 then - parse_digits l' else if c =? 43 then parse_digits l' else parse_digits l
  | [] => 0
  end.

(* [src ESP_AKS/tools/e2e/contract.py:38-38 TOKEN_COUNT] *)
Definition TOKEN_COUNT : nat := 19.
(* [src ESP_AKS/tools/e2e/contract.py:39-39 VER] *)
Definition VER : Z := 2.
(* [src ESP_AKS/tools/e2e/contract.py:83-83 TEL_RPM_MAX] *)
Definition TEL_RPM_MAX : Z := 20000.

(* [src ESP_AKS/tools/e2e/contract.py:58-80 FIELD_RANGES] *)
Definition FIELD_RANGES : list (Z * Z) :=
  [(0, 255); (0, 4294967295); (0, 65535); (-32768, 32767); (0, 255); (0, 1); (0, 1);
   (0, 65535); (0, 65535); (-128, 127); (-128, 127); (1, 4); (0, 65535);
   (-2147483647, 2147483647); (0, 10000); (0, 1); (0, 4294967295); (0, 3000)].

(* [src ESP_AKS/tools/e2e/contract.py:257-270 _is_strict_int_token] *)
Definition is_strict_int_token (tok : list Z) (allow_sign : bool) : bool :=
  let isdigit body := forallb (λ c, (48 <=? c) && (c <=? 57)) body in
  match tok with
  | [] => false
  | c :: rest =>
      let body := if allow_sign && ((c =? 45) || (c =? 43)) then rest else tok in
      negb (bool_decide (body = [])) && isdigit body
  end.

(** One token against its range. *)
(* [src ESP_AKS/tools/e2e/contract.py:240-247 parse_uks_frame] *)
Definition parse_field (range : Z * Z) (tok : list Z) : option Z :=
  let '(lo, hi) := range in
  if negb (is_strict_int_token tok (lo <? 0)) then None
  else let v := parse_int tok in if (v <? lo) || (hi <? v) then None else Some v.

Fixpoint parse_fields (ranges : list (Z * Z)) (toks : list (list Z)) : option (list Z) :=
  match ranges, toks with
  | r :: ranges, tok :: toks =>
      v ← parse_field r tok; vs ← parse_fields ranges toks; Some (v :: vs)
  | _, _ => Some []
  end.

(* [src ESP_AKS/tools/e2e/contract.py:217-219 UksRejection] *)
Inductive UksRejection := parse_fail | bad_tag | bad_version | range_fail.

(* [src ESP_AKS/tools/e2e/contract.py:222-254 parse_uks_frame] *)
Definition parse_uks_frame (line : list Z) : UksRejection + list Z :=
  let fields := split_commas [] (rstrip_crlf line) in
  if negb (length fields =? TOKEN_COUNT)%nat then inl parse_fail
  else if negb (bool_decide (hd [] fields = tel_tag)) then inl bad_tag
  else
    match parse_fields FIELD_RANGES (tl fields) with
    | None => inl parse_fail
    | Some values =>
        if negb (nth 0 values 0 =? VER) then inl bad_version
        else if TEL_RPM_MAX <? nth 2 values 0 then inl range_fail
        else inr values
    end.

(** ** Proofs *)

(** A few speeds: 100 rpm is 10.5 km/h; the clamp acts from 2843 rpm (300 km/h). *)
Lemma speed_samples :
  map rpmToSpeedKmhX10 [0; 100; 1000; 2842; 2843; 32768; 65535] = [0; 105; 1055; 2999; 3000; 3000; 3000].
Proof. by vm_compute. Qed.

Definition is_digit (c : Z) : Prop := 48 <= c <= 57.

Lemma print_digits_digit fuel n : 0 <= n → Forall is_digit (print_digits fuel n).
Proof.
  revert n. induction fuel as [|fuel IH]; intros n Hn; cbn [print_digits]; [constructor|].
  destruct (Z.ltb_spec n 10).
  - constructor; [|constructor]. unfold is_digit. lia.
  - apply Forall_app_2; [apply IH, Z.div_pos; lia|]. constructor; [|constructor].
    unfold is_digit. pose proof (Z.mod_pos_bound n 10). lia.
Qed.

Lemma parse_digits_snoc l c : parse_digits (l ++ [c]) = parse_digits l * 10 + (c - 48).
Proof. unfold parse_digits. by rewrite foldl_app. Qed.

Lemma parse_print_digits fuel n : 0 <= n < 10 ^ Z.of_nat fuel →
  parse_digits (print_digits fuel n) = n.
Proof.
  revert n. induction fuel as [|fuel IH]; intros n Hn; [cbn in *; lia|]. cbn [print_digits].
  destruct (Z.ltb_spec n 10); [cbn; lia|].
  rewrite Nat2Z.inj_succ, Z.pow_succ_r in Hn by lia.
  rewrite parse_digits_snoc, IH; [|split; [apply Z.div_pos; lia|apply Z.div_lt_upper_bound; lia]].
  pose proof (Z.div_mod n 10). lia.
Qed.

Lemma print_digits_length fuel n k : 0 <= n < 10 ^ Z.of_nat (S k) →
  (length (print_digits fuel n) <= S k)%nat.
Proof.
  revert n k. induction fuel as [|fuel IH]; intros n k Hn; cbn [print_digits]; [cbn; lia|].
  destruct (Z.ltb_spec n 10); [cbn; lia|]. rewrite length_app. cbn [length].
  destruct k as [|k]; [cbn in Hn; lia|].
  rewrite Nat2Z.inj_succ, Z.pow_succ_r in Hn by lia.
  assert (length (print_digits fuel (n / 10)) <= S k)%nat; [|lia].
  apply IH. split; [apply Z.div_pos; lia|apply Z.div_lt_upper_bound; lia].
Qed.

Lemma print_digits_not_nil fuel n : print_digits (S fuel) n ≠ [].
Proof. cbn [print_digits]. case_match; [done|]. intros E%app_eq_nil. by destruct E. Qed.

#[local] Arguments print_digits : simpl never.

Lemma parse_print_int n : - 10 ^ 20 < n < 10 ^ 20 → parse_int (print_int n) = n.
Proof.
  intros Hn. unfold print_int, parse_int. destruct (Z.ltb_spec n 0).
  - rewrite Z.eqb_refl, parse_print_digits; lia.
  - pose proof (print_digits_digit 20 n ltac:(lia)) as Hd.
    pose proof (parse_print_digits 20 n ltac:(lia)) as Hp.
    destruct (print_digits 20 n) as [|c l]; [done|]. apply Forall_cons_1 in Hd as [Hc _].
    unfold is_digit in Hc. rewrite !(proj2 (Z.eqb_neq _ _)) by lia. done.
Qed.

Lemma isdigit_digits l : Forall is_digit l → forallb (λ c, (48 <=? c) && (c <=? 57)) l = true.
Proof.
  intros Hl. apply forallb_forall. rewrite <- Forall_forall. eapply Forall_impl; [|exact Hl].
  unfold is_digit. lia.
Qed.

(** A printed number is a token the receiver reads back. *)
Lemma parse_field_print lo hi v : lo <= v <= hi → - 10 ^ 20 < v < 10 ^ 20 →
  parse_field (lo, hi) (print_int v) = Some v.
Proof.
  intros Hv Hb. unfold parse_field. rewrite parse_print_int by done.
  replace (is_strict_int_token _ _) with true.
  - cbn. destruct (Z.ltb_spec v lo), (Z.ltb_spec hi v); cbn; done || lia.
  - unfold print_int, is_strict_int_token. destruct (Z.ltb_spec v 0).
    + rewrite (proj2 (Z.ltb_lt lo 0)) by lia. cbn.
      rewrite bool_decide_eq_false_2 by apply print_digits_not_nil.
      by rewrite isdigit_digits by (apply print_digits_digit; lia).
    + pose proof (print_digits_digit 20 v ltac:(lia)) as Hd.
      destruct (print_digits 20 v) as [|c l] eqn:E; [by apply print_digits_not_nil in E|].
      pose proof (Forall_inv Hd) as Hc. unfold is_digit in Hc.
      rewrite !(proj2 (Z.eqb_neq c _)) by lia. rewrite andb_false_r.
      by rewrite isdigit_digits, bool_decide_eq_false_2.
Qed.

Lemma print_int_length n k : - 10 ^ Z.of_nat (S k) < n < 10 ^ Z.of_nat (S k) →
  (length (print_int n) <= S k + (if (n <? 0)%Z then 1 else 0))%nat.
Proof.
  intros Hn. unfold print_int. destruct (Z.ltb_spec n 0); cbn [length].
  - pose proof (print_digits_length 20 (- n) k). lia.
  - pose proof (print_digits_length 20 n k). lia.
Qed.

(** A printed number contains no separator. *)
Definition plain (c : Z) : Prop := c ≠ comma ∧ c ≠ 13 ∧ c ≠ 10.

Lemma print_int_plain n : Forall plain (print_int n).
Proof.
  assert (Hd : ∀ l, Forall is_digit l → Forall plain l).
  { intros l Hl. eapply Forall_impl; [|exact Hl]. unfold is_digit, plain, comma. lia. }
  unfold print_int. destruct (Z.ltb_spec n 0).
  - constructor; [done|]. apply Hd, print_digits_digit. lia.
  - apply Hd, print_digits_digit. lia.
Qed.

Lemma split_plain acc l rest : Forall plain l →
  split_commas acc (l ++ rest) = split_commas (acc ++ l) rest.
Proof.
  intros Hl. revert acc. induction Hl as [|c l [Hc _] _ IH]; intros acc; cbn.
  - by rewrite app_nil_r.
  - rewrite (proj2 (Z.eqb_neq _ _)) by done. rewrite IH. by rewrite <- app_assoc.
Qed.

Lemma split_fields acc vs :
  split_commas acc (concat (map (λ v, comma :: print_int v) vs)) = acc :: map print_int vs.
Proof.
  revert acc. induction vs as [|v vs IH]; intros acc; [done|]. cbn. f_equal.
  rewrite split_plain by apply print_int_plain. apply IH.
Qed.

Lemma rstrip_line l c : c ≠ 13 → c ≠ 10 → rstrip_crlf ((l ++ [c]) ++ crlf) = l ++ [c].
Proof.
  intros H1 H2. unfold rstrip_crlf, crlf. rewrite !reverse_app. cbn.
  rewrite !(proj2 (Z.eqb_neq c _)) by done. cbn.
  rewrite rev_append_rev. f_equal. unfold reverse. rewrite rev_append_rev, app_nil_r. apply rev_involutive.
Qed.

Lemma last_plain l : l ≠ [] → Forall plain l → ∃ l' c, l = l' ++ [c] ∧ c ≠ 13 ∧ c ≠ 10.
Proof.
  intros Hne Hl. destruct l as [|c l _] using rev_ind; [done|].
  apply Forall_app in Hl as [_ Hc%Forall_inv]. exists l, c. unfold plain in Hc. tauto.
Qed.

Lemma print_int_not_nil v : print_int v ≠ [].
Proof. unfold print_int. case_match; [done|apply print_digits_not_nil]. Qed.

(** Stripping the line end and splitting at the commas recovers the printed fields. *)
Lemma split_frame pre vs v : Forall plain pre →
  split_commas [] (rstrip_crlf (pre ++ concat (map (λ v, comma :: print_int v) (vs ++ [v])) ++ crlf))
  = pre :: map print_int (vs ++ [v]).
Proof.
  intros Hp. destruct (last_plain _ (print_int_not_nil v) (print_int_plain v)) as (l & c & E & H1 & H2).
  set (cs := concat _).
  assert (Hcs : ∃ l', pre ++ cs = l' ++ [c]).
  { unfold cs. rewrite map_app, concat_app. cbn. rewrite E, app_nil_r.
    eexists (pre ++ concat _ ++ comma :: l). by rewrite <- !app_assoc. }
  rewrite app_assoc. destruct Hcs as [l' Hl']. rewrite Hl', rstrip_line, <- Hl' by done.
  rewrite split_plain by done. apply split_fields.
Qed.

(** *** The speed is clamped

    The mantissa of a rounded single-precision number has at most 24 digits, so that a
    number below 3000 truncates below 3000. *)
Definition sf_nonneg (f : spec_float) : Prop :=
  match f with S754_zero s | S754_infinity s | S754_finite s _ _ => s = false | S754_nan => True end.

Lemma shr_1_m mrs : 0 <= shr_m mrs → shr_m (shr_1 mrs) = shr_m mrs / 2.
Proof.
  destruct mrs as [m r s]. cbn. intros Hm.
  destruct m as [|[p|p|]|]; cbn; try done; try lia.
  - rewrite Pos2Z.inj_xI. Z.to_euclidean_division_equations; lia.
  - rewrite Pos2Z.inj_xO. Z.to_euclidean_division_equations; lia.
Qed.

Lemma iter_shr_1_m p mrs : 0 <= shr_m mrs →
  shr_m (SpecFloat.iter_pos shr_1 p mrs) = shr_m mrs / 2 ^ Z.pos p.
Proof.
  revert mrs. induction p as [p IH|p IH|]; intros mrs Hm; cbn [SpecFloat.iter_pos].
  - assert (H1 : 0 <= shr_m (shr_1 mrs)) by (rewrite shr_1_m by done; apply Z.div_pos; lia).
    assert (H2 : 0 <= shr_m (SpecFloat.iter_pos shr_1 p (shr_1 mrs)))
      by (rewrite IH by done; apply Z.div_pos; lia).
    rewrite IH, IH, shr_1_m by done. rewrite !Z.div_div by lia. f_equal.
    replace (Z.pos p~1) with (Z.pos p + Z.pos p + 1) by lia. rewrite !Z.pow_add_r by lia. lia.
  - assert (H2 : 0 <= shr_m (SpecFloat.iter_pos shr_1 p mrs))
      by (rewrite IH by done; apply Z.div_pos; lia).
    rewrite IH, IH by done. rewrite Z.div_div by lia. f_equal.
    replace (Z.pos p~0) with (Z.pos p + Z.pos p) by lia. rewrite Z.pow_add_r by lia. lia.
  - rewrite shr_1_m by done. done.
Qed.

Lemma digits2_pos_bound p : Z.pos p < 2 ^ Z.pos (digits2_pos p).
Proof.
  induction p as [p IH|p IH|]; cbn [digits2_pos]; [| |done];
    rewrite Pos2Z.inj_succ, Z.pow_succ_r by lia; lia.
Qed.

Lemma shr_m_of_loc m l : shr_m (shr_record_of_loc m l) = m.
Proof. by destruct l as [|[]]. Qed.

Lemma shr_fexp_bound m e l mrs' e' : 0 <= m →
  shr_fexp F32.prec F32.emax m e l = (mrs', e') → 0 <= shr_m mrs' < 2 ^ 24.
Proof.
  intros Hm. unfold shr_fexp, shr. set (n := fexp _ _ _ - e).
  assert (Hn : Zdigits2 m - 24 <= n) by (unfold n, fexp, F32.prec; lia).
  assert (Hd : m < 2 ^ Zdigits2 m ∧ 0 <= Zdigits2 m).
  { destruct m as [|p|]; cbn [Zdigits2]; [done| |lia]. split; [apply digits2_pos_bound|lia]. }
  assert (Hle : n <= 0 → m < 2 ^ 24).
  { intros. eapply Z.lt_le_trans; [apply Hd|]. apply Z.pow_le_mono_r; lia. }
  destruct n as [|p|p]; intros [= <- <-]; rewrite ?iter_shr_1_m, shr_m_of_loc by
    (rewrite shr_m_of_loc; done); [split; [done|apply Hle; lia]| |split; [done|apply Hle; lia]].
  split; [apply Z.div_pos; lia|]. apply Z.div_lt_upper_bound; [lia|].
  rewrite <- Z.pow_add_r by lia. eapply Z.lt_le_trans; [apply Hd|]. apply Z.pow_le_mono_r; lia.
Qed.

Lemma round_bound s mx ex lx : 0 <= mx →
  match binary_round_aux F32.prec F32.emax s mx ex lx with
  | S754_finite s' m _ => s' = s ∧ Z.pos m < 2 ^ 24
  | S754_zero s' | S754_infinity s' => s' = s
  | S754_nan => True
  end.
Proof.
  intros Hm. unfold binary_round_aux.
  destruct (shr_fexp _ _ mx ex lx) as [mrs' e'] eqn:E1. apply shr_fexp_bound in E1; [|done].
  destruct (shr_fexp _ _ (round_nearest_even _ _) e' loc_Exact) as [mrs'' e''] eqn:E2.
  apply shr_fexp_bound in E2.
  - destruct (shr_m mrs'') as [|m|m]; [done| |done]. destruct (_ <=? _); [|done].
    split; [done|apply E2].
  - unfold round_nearest_even. repeat case_match; lia.
Qed.

Lemma round_nonneg mx ex lx : sf_nonneg (binary_round_aux F32.prec F32.emax false mx ex lx).
Proof.
  unfold binary_round_aux. destruct (shr_fexp _ _ mx ex lx) as [mrs' e'].
  destruct (shr_fexp _ _ (round_nearest_even _ _) e' loc_Exact) as [mrs'' e''].
  destruct (shr_m mrs''); [done| |done]. by destruct (_ <=? _).
Qed.

Lemma mul_nonneg a b : sf_nonneg a → sf_nonneg b → sf_nonneg (F32.mul a b).
Proof.
  destruct a as [[]|[]| |[] ma ea], b as [[]|[]| |[] mb eb]; cbn; try done. intros _ _.
  apply round_nonneg.
Qed.

Lemma div_nonneg a b : sf_nonneg a → sf_nonneg b → sf_nonneg (F32.div a b).
Proof.
  destruct a as [[]|[]| |[] ma ea], b as [[]|[]| |[] mb eb]; try done. intros _ _.
  unfold F32.div, SFdiv. destruct (SFdiv_core_binary _ _ _ _ _ _) as [[mz ez] lz].
  apply round_nonneg.
Qed.

Lemma make_nonneg m e : 0 <= m → sf_nonneg (F32.make m e).
Proof.
  destruct m as [|p|p]; [done| |lia]. intros _. unfold F32.make, binary_normalize, binary_round.
  destruct (shl_align _ _ _). apply round_nonneg.
Qed.

Lemma mul_mantissa a b s m e : F32.mul a b = S754_finite s m e → Z.pos m < 2 ^ 24.
Proof.
  destruct a as [?|?| |sa ma ea], b as [?|?| |sb mb eb]; cbn; try done. intros E.
  pose proof (round_bound (xorb sa sb) (Z.pos (ma * mb)) (ea + eb) loc_Exact ltac:(done)) as H.
  rewrite E in H. apply H.
Qed.

(** A non-negative single-precision number below 3000 truncates into [0, 3000). *)
Lemma trunc_below_3000 m e : Z.pos m < 2 ^ 24 →
  F32.geb (S754_finite false m e) (F32.of_Z TEL_SPD_X10_MAX) = false →
  0 <= F32.trunc (S754_finite false m e) < 3000.
Proof.
  intros Hm. change (F32.of_Z TEL_SPD_X10_MAX) with (S754_finite false 12288000 (-12)).
  unfold F32.geb, SFleb, SFcompare. intros Hc. cbn [F32.trunc].
  assert (He : e < -12 ∨ e = -12 ∧ Z.pos m < 12288000).
  { destruct (Z.compare_spec (-12) e) as [E|E|E]; [right|done|lia].
    split; [done|]. change (Pos.compare_cont Eq 12288000 m) with (12288000 ?= m)%positive in Hc.
    destruct (Pos.compare_spec 12288000 m); done || lia. }
  rewrite (proj2 (Z.ltb_lt e 0)) by lia. split; [apply Z.div_pos; lia|].
  apply Z.div_lt_upper_bound; [lia|]. destruct He as [He|[-> He]]; [|change (2 ^ (- -12)) with 4096; lia].
  assert (2 ^ 13 <= 2 ^ (- e)) by (apply Z.pow_le_mono_r; lia). lia.
Qed.

Lemma speed_clamped rpm wd gr b : 0 <= rpm → sf_nonneg wd → sf_nonneg gr →
  0 <= rpmToSpeedKmhX10Impl rpm wd gr b <= TEL_SPD_X10_MAX.
Proof.
  intros Hr Hw Hg. unfold rpmToSpeedKmhX10Impl. set (wheel := if b then _ else _).
  set (km_h := F32.div _ (F32.of_Z 1000)).
  assert (Hn : sf_nonneg (F32.mul km_h (F32.of_Z 10))).
  { assert (sf_nonneg wheel) 
      by (unfold wheel; destruct b; [|apply div_nonneg; [|done]]; by apply make_nonneg).
    unfold km_h, PI_F, F32.of_Z. repeat (apply mul_nonneg || apply div_nonneg); auto; by apply make_nonneg. }
  destruct (F32.geb _ _) eqn:Eg; [done|]. unfold TEL_SPD_X10_MAX.
  destruct (F32.mul km_h _) as [s|s| |s m e] eqn:E; try done. cbn in Hn. subst s.
  apply trunc_below_3000 in Eg; [|by eapply mul_mantissa]. rewrite u16_id by (widths; lia). lia.
Qed.

Lemma rpmToSpeedKmhX10_clamped rpm : 0 <= rpm → 0 <= rpmToSpeedKmhX10 rpm <= 3000.
Proof. intros. by apply speed_clamped. Qed.

(** *** The frame *)

#[local] Arguments print_int : simpl never.

Lemma b2z_range b : 0 <= Z.b2z b < 10.
Proof. destruct b; cbn; lia. Qed.

Lemma print_unsigned_length v k : 0 <= v < 10 ^ Z.of_nat (S k) → (length (print_int v) <= S k)%nat.
Proof.
  intros Hv. pose proof (print_int_length v k ltac:(lia)) as H.
  rewrite (proj2 (Z.ltb_ge v 0)) in H by lia. lia.
Qed.

Lemma print_signed_length v k : - 10 ^ Z.of_nat (S k) < v < 10 ^ Z.of_nat (S k) →
  (length (print_int v) <= S (S k))%nat.
Proof. intros Hv. pose proof (print_int_length v k Hv). case_match; lia. Qed.

(** The size of a frame: the widest value of each type, the tag and the line end. *)
Lemma frame_length seq d : telemetry_wf d → is_u32 seq → (length (frame_bytes seq d) <= 108)%nat.
Proof.
  intros [] Hseq. widths. unfold frame_bytes, frame_fields. cbn [map concat].
  repeat (rewrite length_app; cbn [length]).
  pose proof (print_unsigned_length LORA_PROTOCOL_VERSION 0 ltac:(done)).
  pose proof (print_unsigned_length seq 9 ltac:(cbn; lia)).
  pose proof (print_signed_length (TEL_motorRpm d) 4 ltac:(cbn; lia)).
  pose proof (print_unsigned_length (TEL_motorVoltageDeciV d) 4 ltac:(cbn; lia)).
  pose proof (print_unsigned_length (TEL_motorErrorFlags d) 2 ltac:(cbn; lia)).
  pose proof (λ b, print_unsigned_length (Z.b2z b) 0 (b2z_range b)) as Hb.
  pose proof (Hb (TEL_motorDataValid d)). pose proof (Hb (TEL_motorTimeoutActive d)).
  pose proof (Hb (TEL_bmsDataValid d)).
  pose proof (print_unsigned_length (TEL_bmsCellVoltageMaxDeciMv d) 4 ltac:(cbn; lia)).
  pose proof (print_unsigned_length (TEL_bmsCellVoltageMinDeciMv d) 4 ltac:(cbn; lia)).
  pose proof (print_signed_length (TEL_bmsTempHighestC d) 2 ltac:(cbn; lia)).
  pose proof (print_signed_length (TEL_bmsTempLowestC d) 2 ltac:(cbn; lia)).
  pose proof (print_unsigned_length (TEL_bmsSystemState d) 2 ltac:(cbn; lia)).
  pose proof (print_unsigned_length (TEL_bmsPackVoltageDeciV d) 4 ltac:(cbn; lia)).
  pose proof (print_signed_length (TEL_bmsCurrentCentiA d) 9 ltac:(cbn; lia)).
  pose proof (print_unsigned_length (TEL_bmsSocHundredths d) 4 ltac:(cbn; lia)).
  pose proof (print_unsigned_length (TEL_timestampMs d) 9 ltac:(cbn; lia)).
  pose proof (print_unsigned_length (TEL_speedKmhX10 d) 4 ltac:(cbn; lia)).
  unfold tel_tag, crlf. cbn [length]. lia.
Qed.

#[local] Arguments frame_bytes : simpl never.

Lemma sendStatus_sends {W} (uart_write_bytes : list Z → W → Z * W) d t w :
  telemetry_wf d → is_u32 (TEL_sequenceCounter t) → TEL_isInitialized t = true →
  sendStatus uart_write_bytes d t w =
    (let '(written, w') := uart_write_bytes (frame_bytes (TEL_sequenceCounter t) d) w in
     (if written <? 0 then t
      else {| t with TEL_sequenceCounter := u32 (TEL_sequenceCounter t + 1) |}, w')).
Proof.
  intros Hd Hs Hi. pose proof (frame_length _ _ Hd Hs) as Hl. unfold sendStatus. rewrite Hi. cbn [negb].
  set (payload := frame_bytes _ _) in *.
  assert (Hne : (0 < length payload)%nat) by (unfold payload, frame_bytes, tel_tag; cbn; lia).
  rewrite (proj2 (Z.leb_gt _ 0)), (proj2 (Z.ltb_lt _ 192)), Nat2Z.id, take_ge by lia.
  destruct (uart_write_bytes payload w) as [n w']. by destruct (n <? 0).
Qed.

(** On an initialised object [sendStatus] hands the UART the complete frame, which is
    at most [LORA_TEL_FRAME_MAX_BYTES] long and so neither cut by the 192-byte buffer nor
    larger than the room the caller reserved in the transmit ring; the sequence number
    advances (modulo 2^32) exactly when the driver accepted the frame. *)
Theorem sendStatus_whole_frame {W} (uart_write_bytes : list Z → W → Z * W) d t w :
  telemetry_wf d → is_u32 (TEL_sequenceCounter t) → TEL_isInitialized t = true →
  let payload := frame_bytes (TEL_sequenceCounter t) d in
  Z.of_nat (length payload) <= LORA_TEL_FRAME_MAX_BYTES ∧
  sendStatus uart_write_bytes d t w =
    (let '(written, w') := uart_write_bytes payload w in
     (if written <? 0 then t
      else {| t with TEL_sequenceCounter := u32 (TEL_sequenceCounter t + 1) |}, w')).
Proof.
  intros Hd Hs Hi payload. pose proof (frame_length _ _ Hd Hs).
  split; [unfold LORA_TEL_FRAME_MAX_BYTES, payload; lia|by apply sendStatus_sends].
Qed.

Lemma parse_fields_print ranges vs :
  Forall2 (λ r v, r.1 <= v <= r.2 ∧ - 10 ^ 20 < v < 10 ^ 20) ranges vs →
  parse_fields ranges (map print_int vs) = Some vs.
Proof.
  induction 1 as [|[lo hi] v ranges vs [Hv Hb] _ IH]; [done|].
  cbn [map parse_fields fst snd] in *. rewrite parse_field_print by done. cbn. by rewrite IH.
Qed.

(** On a frame, the receiver's parser is left with the fields' ranges. *)
Lemma parse_frame_eq seq d :
  parse_uks_frame (frame_bytes seq d) =
  match parse_fields FIELD_RANGES (map print_int (frame_fields seq d)) with
  | None => inl parse_fail
  | Some values =>
      if negb (nth 0 values 0 =? VER) then inl bad_version
      else if TEL_RPM_MAX <? nth 2 values 0 then inl range_fail
      else inr values
  end.
Proof.
  unfold parse_uks_frame, frame_bytes.
  set (vals := frame_fields seq d) in *. assert (Hvals : ∃ i l, vals = i ++ [l]).
  { unfold vals, frame_fields. eexists [_;_;_;_;_;_;_;_;_;_;_;_;_;_;_;_;_], _. reflexivity. }
  destruct Hvals as (i & l & Hil). rewrite Hil, split_frame, <- Hil
    by (repeat constructor; unfold comma; lia).
  cbn [length]. rewrite length_map. cbn [hd tl]. by rewrite bool_decide_eq_true_2.
Qed.

(** A frame that parses has every field in its range. *)
Lemma parse_fields_in_range ranges vs ws : length ranges = length vs →
  Forall (λ v, - 10 ^ 20 < v < 10 ^ 20) vs → parse_fields ranges (map print_int vs) = Some ws →
  Forall2 (λ r v, r.1 <= v <= r.2) ranges vs ∧ ws = vs.
Proof.
  intros Hl Hv. revert ranges ws Hl. induction Hv as [|v vs Hv _ IH]; intros [|[lo hi] ranges] ws Hl; try done.
  { intros [= <-]. by split. }
  cbn [map parse_fields]. unfold parse_field. rewrite parse_print_int by done.
  destruct (negb _); [done|]. cbn zeta.
  destruct (Z.ltb_spec v lo), (Z.ltb_spec hi v); try done. cbn [orb mbind option_bind].
  destruct (parse_fields ranges _) as [ws'|] eqn:E; [|done]. intros [= <-].
  destruct (IH ranges ws' ltac:(cbn in Hl; lia) E) as [IH1 ->]. split; [|done]. by constructor.
Qed.

Lemma sanitize_ranges d : telemetry_wf d →
  1 <= sanitizeSystemState (TEL_bmsSystemState d) <= 4 ∧
  0 <= sanitizeSoc (TEL_bmsSocHundredths d) <= 10000 ∧
  -2147483647 <= sanitizeCurrent (TEL_bmsCurrentCentiA d) <= 2147483647.
Proof.
  intros []. widths. unfold sanitizeSystemState, sanitizeSoc, sanitizeCurrent.
  repeat case_match; lia.
Qed.

(** The condition on a record: typed, with rpm, motor voltage and speed inside the contract. *)
Definition uplink_ok (d : TelemetryData) : Prop :=
  telemetry_wf d ∧ 0 <= TEL_motorRpm d <= TEL_RPM_MAX ∧ TEL_motorVoltageDeciV d <= 32767 ∧
  TEL_speedKmhX10 d <= TEL_SPD_X10_MAX.

Lemma sanitized_in_range seq d : uplink_ok d → is_u32 seq →
  Forall2 (λ r v, r.1 <= v <= r.2 ∧ - 10 ^ 20 < v < 10 ^ 20) FIELD_RANGES
    (frame_fields seq (sanitizeForUplink d)).
Proof.
  intros (Hd & Hr & Hv & Hsp) Hs. pose proof (sanitize_ranges d Hd) as (H1 & H2 & H3).
  pose proof (b2z_range (TEL_motorDataValid d)). pose proof (b2z_range (TEL_motorTimeoutActive d)).
  assert (Hb : ∀ b, Z.b2z b <= 1) by (intros []; cbn; lia). pose proof (Hb (TEL_motorDataValid d)).
  pose proof (Hb (TEL_motorTimeoutActive d)). pose proof (Hb (TEL_bmsDataValid d)).
  pose proof (b2z_range (TEL_bmsDataValid d)). destruct Hd. widths. unfold TEL_RPM_MAX, TEL_SPD_X10_MAX in *.
  unfold frame_fields, FIELD_RANGES, LORA_PROTOCOL_VERSION. cbn.
  repeat (apply Forall2_cons; [cbn; lia|]). constructor.
Qed.

(** Every frame that carries sanitised data is accepted by the receiver and read back
    field by field, whatever the buses delivered: a record whose rpm is a magnitude up to
    20000, whose motor voltage fits the signed range of the contract and whose speed is at
    most 300 km/h gives a line that the receiver splits into 19 tokens, all
    in their ranges, with values equal to the fields sent. *)
Theorem uplink_frame_accepted seq d :
  uplink_ok d → is_u32 seq →
  parse_uks_frame (frame_bytes seq (sanitizeForUplink d))
  = inr (frame_fields seq (sanitizeForUplink d)).
Proof.
  intros Hok Hs. rewrite parse_frame_eq, (parse_fields_print _ (frame_fields seq (sanitizeForUplink d)))
    by (by apply sanitized_in_range).
  cbn [nth frame_fields]. rewrite Z.eqb_refl. cbn [negb].
  destruct Hok as (_ & [_ Hr] & _). cbn. by rewrite (proj2 (Z.ltb_ge _ _)) by done.
Qed.

(** A record with such a speed is accepted exactly when its rpm is a magnitude up to 20000
    and its motor voltage fits the contract's signed field. *)
Lemma frame_accepted_iff seq d : telemetry_wf d → is_u32 seq → TEL_speedKmhX10 d <= TEL_SPD_X10_MAX →
  parse_uks_frame (frame_bytes seq (sanitizeForUplink d)) = inr (frame_fields seq (sanitizeForUplink d)) ↔
  0 <= TEL_motorRpm d <= TEL_RPM_MAX ∧ TEL_motorVoltageDeciV d <= 32767.
Proof.
  intros Hd Hs Hsp. split.
  - rewrite parse_frame_eq. destruct (parse_fields _ _) as [vs|] eqn:E; [|done].
    apply parse_fields_in_range in E as [Hf ->]; [|done|].
    + inversion Hf as [|? ? ? ? _ Hf1]. inversion Hf1 as [|? ? ? ? _ Hf2].
      inversion Hf2 as [|? ? ? ? Hrpm Hf3]. inversion Hf3 as [|? ? ? ? Hvolt _]. cbn in Hrpm, Hvolt |- *.
      destruct (Z.ltb_spec TEL_RPM_MAX (TEL_motorRpm d)); [done|]. lia.
    + pose proof (sanitize_ranges d Hd) as (? & ? & ?). pose proof (λ b, b2z_range b) as Hb.
      pose proof (Hb (TEL_motorDataValid d)). pose proof (Hb (TEL_motorTimeoutActive d)).
      pose proof (Hb (TEL_bmsDataValid d)). unfold TEL_SPD_X10_MAX in Hsp. destruct Hd. widths.
      unfold frame_fields, LORA_PROTOCOL_VERSION. cbn. repeat (apply Forall_cons; [cbn; lia|]). constructor.
  - intros [Hr Hv]. apply uplink_frame_accepted; [|done]. split; [done|]; split; [done|]; by split.
Qed.

(** *** Examples *)

Module Sample.
(** A record with extreme values: no BMS state, over-full SoC, the smallest current. *)
Definition data : TelemetryData :=
  {| TelemetryData_zero with
     TEL_motorRpm := 1000; TEL_motorVoltageDeciV := 750; TEL_speedKmhX10 := 1055;
     TEL_bmsSystemState := 0; TEL_bmsSocHundredths := 65535;
     TEL_bmsCurrentCentiA := -2147483648; TEL_timestampMs := 4294967295 |}.
Definition tel : Telemetry := {| TEL_isInitialized := true; TEL_sequenceCounter := 4294967295 |}.
(** A driver that collects what it is given and reports the number of bytes. *)
Definition uart (bytes : list Z) (log : list (list Z)) : Z * list (list Z) :=
  (Z.of_nat (length bytes), log ++ [bytes]).

Lemma data_wf : telemetry_wf data.
Proof. constructor; cbn; try (widths; lia). repeat constructor; widths; lia. Qed.

Lemma data_ok : uplink_ok data.
Proof. split; [exact data_wf|]. by split. Qed.
End Sample.

(** A voltage above the signed range of the contract makes the receiver drop the frame. *)
Lemma high_motor_voltage_rejected :
  parse_uks_frame (frame_bytes 0 (sanitizeForUplink
    {| Sample.data with TEL_motorVoltageDeciV := 32768 |})) = inl parse_fail.
Proof. by vm_compute. Qed.

Lemma sendStatus_whole_frame_witness :
  telemetry_wf Sample.data ∧
  sendStatus Sample.uart Sample.data Sample.tel []
  = ({| TEL_isInitialized := true; TEL_sequenceCounter := 0 |},
     [frame_bytes 4294967295 Sample.data]).
Proof.
  split; [exact Sample.data_wf|].
  destruct (sendStatus_whole_frame Sample.uart Sample.data Sample.tel []) as [_ E];
    [exact Sample.data_wf|split; done|done|].
  rewrite E. by vm_compute.
Defined.

Lemma uplink_frame_accepted_witness :
  parse_uks_frame (frame_bytes 7 (sanitizeForUplink Sample.data))
  = inr [2; 7; 1000; 750; 0; 0; 0; 0; 0; 0; 0; 4; 0; -2147483647; 10000; 0; 4294967295; 1055].
Proof.
  rewrite (uplink_frame_accepted 7 Sample.data);
    [done|exact Sample.data_ok|split; done].
Defined.
