(* ===== verification/E22Config.v ===== *)
(** [include/E22Regs.h] and [lib/E22Config]: the register commands of the E22 radio.

    An output buffer is [None] for a null pointer and otherwise the list of its cells; the
    declared size is passed separately, as in the code. *)
From S2P Require Import Prelude.

(* [src ESP_AKS/include/E22Regs.h:27-27 E22_CMD_WRITE] *)
Definition E22_CMD_WRITE : Z := 192.        (* 0xC0 *)
(* [src ESP_AKS/include/E22Regs.h:28-28 E22_CMD_READ] *)
Definition E22_CMD_READ : Z := 193.         (* 0xC1 *)
(* [src ESP_AKS/include/E22Regs.h:29-29 E22_CMD_WRITE_TEMP] *)
Definition E22_CMD_WRITE_TEMP : Z := 194.   (* 0xC2 *)
(* [src ESP_AKS/include/E22Regs.h:37-37 E22_REG_ADDR_ADDH] *)
Definition E22_REG_ADDR_ADDH : Z := 0.
(* [src ESP_AKS/include/E22Regs.h:38-38 E22_REG_ADDR_ADDL] *)
Definition E22_REG_ADDR_ADDL : Z := 1.
(* [src ESP_AKS/include/E22Regs.h:39-39 E22_REG_ADDR_NETID] *)
Definition E22_REG_ADDR_NETID : Z := 2.
(* [src ESP_AKS/include/E22Regs.h:40-40 E22_REG_ADDR_REG0] *)
Definition E22_REG_ADDR_REG0 : Z := 3.
(* [src ESP_AKS/include/E22Regs.h:41-41 E22_REG_ADDR_REG1] *)
Definition E22_REG_ADDR_REG1 : Z := 4.
(* [src ESP_AKS/include/E22Regs.h:42-42 E22_REG_ADDR_REG2] *)
Definition E22_REG_ADDR_REG2 : Z := 5.
(* [src ESP_AKS/include/E22Regs.h:43-43 E22_REG_ADDR_REG3] *)
Definition E22_REG_ADDR_REG3 : Z := 6.
(* [src ESP_AKS/include/E22Regs.h:44-44 E22_REG_ADDR_CRYPT_H] *)
Definition E22_REG_ADDR_CRYPT_H : Z := 7.
(* [src ESP_AKS/include/E22Regs.h:45-45 E22_REG_ADDR_CRYPT_L] *)
Definition E22_REG_ADDR_CRYPT_L : Z := 8.
(* [src ESP_AKS/include/E22Regs.h:47-47 E22_REG_BLOCK_START] *)
Definition E22_REG_BLOCK_START : Z := E22_REG_ADDR_ADDH.
(* [src ESP_AKS/include/E22Regs.h:48-48 E22_REG_BLOCK_LEN] *)
Definition E22_REG_BLOCK_LEN : Z := 9.

(* [src ESP_AKS/include/E22Regs.h:52-52 E22_CFG_ADDH] *)
Definition E22_CFG_ADDH : Z := 0.
(* [src ESP_AKS/include/E22Regs.h:53-53 E22_CFG_ADDL] *)
Definition E22_CFG_ADDL : Z := 0.
(* [src ESP_AKS/include/E22Regs.h:54-54 E22_CFG_NETID] *)
Definition E22_CFG_NETID : Z := 0.
(* [src ESP_AKS/include/E22Regs.h:56-56 E22_CFG_REG0] *)
Definition E22_CFG_REG0 : Z := 100.      (* 0x64 *)
(* [src ESP_AKS/include/E22Regs.h:59-59 E22_CFG_REG1] *)
Definition E22_CFG_REG1 : Z := 0.
(* [src ESP_AKS/include/E22Regs.h:61-61 E22_CFG_REG2] *)
Definition E22_CFG_REG2 : Z := 23.       (* 0x17 *)
(* [src ESP_AKS/include/E22Regs.h:63-63 E22_CFG_REG3] *)
Definition E22_CFG_REG3 : Z := 0.
(* [src ESP_AKS/include/E22Regs.h:86-86 E22_CRYPT_KEY] *)
Definition E22_CRYPT_KEY : Z := 23100.      (* 0x5A3C *)
(* [src ESP_AKS/include/E22Regs.h:87-87 E22_CFG_CRYPT_H] *)
Definition E22_CFG_CRYPT_H : Z := 90.       (* 0x5A *)
(* [src ESP_AKS/include/E22Regs.h:88-88 E22_CFG_CRYPT_L] *)
Definition E22_CFG_CRYPT_L : Z := 60.       (* 0x3C *)

(** The compile-time check that the two literals are the key's bytes. *)
(* [src ESP_AKS/lib/E22Config/E22Config.cpp:6-9 static_assert] *)
Definition crypt_static_assert : bool :=
  (E22_CFG_CRYPT_H =? Z.land (Z.shiftr E22_CRYPT_KEY 8) 0xFF) && (E22_CFG_CRYPT_L =? Z.land E22_CRYPT_KEY 0xFF).
Lemma crypt_static_assert_holds : crypt_static_assert = true.
Proof. by vm_compute. Qed.

(* [src ESP_AKS/lib/E22Config/E22Config.h:17-25 E22RegValues] *)
Record E22RegValues := {
  addh : Z; addl : Z; netid : Z; reg0 : Z; reg1 : Z; reg2 : Z; reg3 : Z;   (* uint8_t *)
}.
#[export] Instance E22RegValues_eq_dec : EqDecision E22RegValues.
Proof. solve_decision. Defined.

(* [src ESP_AKS/lib/E22Config/E22Config.h:28-31 E22_CONTRACT_REGS] *)
Definition E22_CONTRACT_REGS : E22RegValues :=
  {| addh := E22_CFG_ADDH; addl := E22_CFG_ADDL; netid := E22_CFG_NETID;
     reg0 := E22_CFG_REG0; reg1 := E22_CFG_REG1; reg2 := E22_CFG_REG2; reg3 := E22_CFG_REG3 |}.

(** Stores [bytes] in the first cells of a buffer. *)
Definition fill (bytes buf : list Z) : list Z := bytes ++ drop (length bytes) buf.

(* [src ESP_AKS/lib/E22Config/E22Config.cpp:11-17 e22_buildReadAllCommand] *)
Definition e22_buildReadAllCommand (outBuf : option (list Z)) (outBufSize : Z) : Z * option (list Z) :=
  match outBuf with
  | None => (0, None)
  | Some buf =>
      if outBufSize <? 3 then (0, outBuf)
      else (3, Some (fill [E22_CMD_READ; E22_REG_BLOCK_START; E22_REG_BLOCK_LEN] buf))
  end.

(* [src ESP_AKS/lib/E22Config/E22Config.cpp:19-37 e22_buildWriteCommand] *)
Definition e22_buildWriteCommand (regs : E22RegValues) (outBuf : option (list Z)) (outBufSize : Z) :
    Z * option (list Z) :=
  let total := 3 + E22_REG_BLOCK_LEN in
  match outBuf with
  | None => (0, None)
  | Some buf =>
      if outBufSize <? total then (0, outBuf)
      else (total, Some (fill [E22_CMD_WRITE; E22_REG_BLOCK_START; E22_REG_BLOCK_LEN;
                               addh regs; addl regs; netid regs; reg0 regs; reg1 regs; reg2 regs;
                               reg3 regs; E22_CFG_CRYPT_H; E22_CFG_CRYPT_L] buf))
  end.

(* [src ESP_AKS/lib/E22Config/E22Config.cpp:39-49 e22_buildWriteCryptTempCommand] *)
Definition e22_buildWriteCryptTempCommand (outBuf : option (list Z)) (outBufSize : Z) :
    Z * option (list Z) :=
  let total := 5 in
  match outBuf with
  | None => (0, None)
  | Some buf =>
      if outBufSize <? total then (0, outBuf)
      else (total, Some (fill [E22_CMD_WRITE_TEMP; E22_REG_ADDR_CRYPT_H; 2;
                               E22_CFG_CRYPT_H; E22_CFG_CRYPT_L] buf))
  end.

(* [src ESP_AKS/lib/E22Config/E22Config.cpp:51-54 e22_isErrorResponse] *)
Definition e22_isErrorResponse (resp : option (list Z)) (respLen : Z) : bool :=
  match resp with
  | None => false
  | Some r =>
      if respLen <? 3 then false
      else (byte_at r 0 =? 255) && (byte_at r 1 =? 255) && (byte_at r 2 =? 255)
  end.

(** [None]: the answer is rejected and the output is left alone. *)
(* [src ESP_AKS/lib/E22Config/E22Config.cpp:56-74 e22_parseRegResponse] *)
Definition e22_parseRegResponse (resp : option (list Z)) (respLen : Z) : option E22RegValues :=
  let expected := 3 + E22_REG_BLOCK_LEN in
  match resp with
  | None => None
  | Some r =>
      if respLen <? expected then None
      else if negb (byte_at r 0 =? E22_CMD_READ) then None
      else if negb (byte_at r 1 =? E22_REG_BLOCK_START) then None
      else if negb (byte_at r 2 =? E22_REG_BLOCK_LEN) then None
      else Some {| addh := byte_at r 3; addl := byte_at r 4; netid := byte_at r 5;
                   reg0 := byte_at r 6; reg1 := byte_at r 7; reg2 := byte_at r 8;
                   reg3 := byte_at r 9 |}
  end.

(* [src ESP_AKS/lib/E22Config/E22Config.cpp:76-80 e22_regsEqual] *)
Definition e22_regsEqual (a b : E22RegValues) : bool :=
  (addh a =? addh b) && (addl a =? addl b) && (netid a =? netid b) && (reg0 a =? reg0 b) &&
  (reg1 a =? reg1 b) && (reg2 a =? reg2 b) && (reg3 a =? reg3 b).

(** ** Proofs *)

(** The two static assertions of [E22Config.cpp]. *)
Lemma crypt_key_split :
  E22_CFG_CRYPT_H = Z.land (Z.shiftr E22_CRYPT_KEY 8) 255 ∧ E22_CFG_CRYPT_L = Z.land E22_CRYPT_KEY 255.
Proof. done. Qed.

Lemma e22_regsEqual_spec a b : reflect (a = b) (e22_regsEqual a b).
Proof.
  apply iff_reflect. destruct a, b. unfold e22_regsEqual. cbn. rewrite !andb_true_iff, !Z.eqb_eq.
  split; [by intros [=]|]. intros [[[[[[-> ->] ->] ->] ->] ->] ->]. done.
Qed.
