(* ===== verification/LoraLink.v ===== *)
(** [lib/LoraLink/LoraLink]: the boot configuration of the E22 radio over an abstract
    hardware layer.

    [H] is the state behind [ILoraHal] (pins, UART, clock and the radio itself).  The wait
    loop takes fuel; [None] is "out of fuel", and the theorem below shows that one unit per
    tick of the timeout (and four more) is enough.  What the code relies on is stated by
    [LoraHalContract]: a clock that delays push forward, mode pins that only
    [setModePins] moves, and the register semantics that the header of [E22Regs.h]
    documents. *)
From S2P Require Import Prelude SystemConfig E22Config.

(** The three places that dump a response. *)
Inductive dump_label : Set := DUMP_CURRENT | DUMP_CRYPT_TEMP | DUMP_CONFIRM.

(** The verdicts the configuration logs: on the volatile key, and on the permanent write. *)
(* [src ESP_AKS/lib/LoraLink/LoraLink.cpp:74-84 configureE22] *)
Inductive key_log : Set := KEY_REFUSED | KEY_UNANSWERED | KEY_WRITTEN.
(* [src ESP_AKS/lib/LoraLink/LoraLink.cpp:107-139 configureE22] *)
Inductive write_log : Set := WRITE_UNCONFIRMED | WRITE_REFUSED | WRITE_CONFIRMED | WRITE_MISMATCH.
(* [src ESP_AKS/lib/LoraLink/LoraLink.cpp:26-141 configureE22] *)
Inductive config_log : Set :=
  | CONFIG_NOT_ENTERED                 (* AUX timeout: nothing was sent *)
  | CONFIG_KEPT (key : key_log)        (* the registers were right already *)
  | CONFIG_WRITTEN (outcome : write_log).

(* [src ESP_AKS/lib/LoraLink/LoraLink.h:18-41 ILoraHal] *)
Class ILoraHal (H : Type) := {
  setModePins : Z → Z → M H ();
  isAuxReady : M H bool;
  auxRawLevel : M H Z;
  uartFlush : M H ();
  uartWrite : list Z → M H Z;
  uartRead : list Z → Z → M H (Z * list Z);   (* buffer and timeout; count and filled buffer *)
  delayMs : Z → M H ();
  nowMs : M H Z;                              (* uint64_t *)
  feedWatchdog : M H ();
  hexDumpE22 : dump_label → list Z → Z → M H ();
}.

Section LoraLink.
Context {H : Type} `{ILoraHal H}.

(* [src ESP_AKS/lib/LoraLink/LoraLink.cpp:12-16 waitAuxReady] *)
Fixpoint wait_loop (fuel : nat) (t0 timeoutMs : Z) : F H bool :=
  match fuel with
  | O => λ _, None
  | S fuel =>
      now ← lift nowMs;
      if u64 (now - t0) <? timeoutMs then
        ready ← lift isAuxReady;
        if ready : bool then mret true
        else lift (delayMs 10);; wait_loop fuel t0 timeoutMs
      else mret false
  end.

(* [src ESP_AKS/lib/LoraLink/LoraLink.cpp:10-18 waitAuxReady] *)
Definition waitAuxReady (fuel : nat) (timeoutMs : Z) : F H bool :=
  t0 ← lift nowMs; wait_loop fuel t0 timeoutMs.

(** A command built in a local buffer of [size] cells and written out. *)
Definition send_command (build : option (list Z) → Z → Z * option (list Z)) (size : Z) : M H Z :=
  let '(len, buf) := build (Some (replicate (Z.to_nat size) 0)) size in
  uartWrite (take (Z.to_nat len) (default [] buf)).

(** A read into a zeroed buffer, with its dump; the length is dumped as zero on an error. *)
Definition read_response (label : dump_label) (size : Z) : M H (Z * list Z) :=
  r ← uartRead (replicate (Z.to_nat size) 0) LORA_CFG_READ_TIMEOUT_MS;
  hexDumpE22 label r.2 (if 0 <? r.1 then r.1 else 0);; mret r.

Definition REG_BLOCK_SIZE : Z := 3 + E22_REG_BLOCK_LEN.

(** What the answer to the volatile write of the key says. *)
(* [src ESP_AKS/lib/LoraLink/LoraLink.cpp:74-84 configureE22] *)
Definition key_verdict (readLen : Z) (resp : list Z) : key_log :=
  if (0 <? readLen) && e22_isErrorResponse (Some resp) (u32 readLen) then KEY_REFUSED
  else if readLen <=? 0 then KEY_UNANSWERED else KEY_WRITTEN.

(** What the answer to the permanent write says. *)
(* [src ESP_AKS/lib/LoraLink/LoraLink.cpp:119-138 configureE22] *)
Definition write_verdict (readLen : Z) (resp : list Z) : write_log :=
  if (0 <? readLen) && e22_isErrorResponse (Some resp) (u32 readLen) then WRITE_REFUSED
  else
    match e22_parseRegResponse (Some resp) (u32 readLen) with
    | Some written => if e22_regsEqual written E22_CONTRACT_REGS then WRITE_CONFIRMED else WRITE_MISMATCH
    | None => WRITE_MISMATCH
    end.

(** Reads the block; [None] asks for a permanent write, an already correct block only gets
    the volatile key. *)
(* [src ESP_AKS/lib/LoraLink/LoraLink.cpp:31-93 configureE22] *)
Definition read_config : M H (option key_log) :=
  uartFlush;;
  send_command e22_buildReadAllCommand 3;;
  r ← read_response DUMP_CURRENT REG_BLOCK_SIZE;
  let '(readLen, readResp) := r in
  if (0 <? readLen) && e22_isErrorResponse (Some readResp) (u32 readLen) then mret None
  else
    match e22_parseRegResponse (Some readResp) (u32 readLen) with
    | Some current =>
        if e22_regsEqual current E22_CONTRACT_REGS then
          uartFlush;;
          send_command e22_buildWriteCryptTempCommand 5;;
          r ← read_response DUMP_CRYPT_TEMP 5;
          mret (Some (key_verdict r.1 r.2))
        else mret None
    | None => mret None
    end.

(** The permanent write and its confirmation. *)
(* [src ESP_AKS/lib/LoraLink/LoraLink.cpp:95-140 configureE22] *)
Definition write_config (fuel : nat) : F H write_log :=
  lift uartFlush;;
  lift (send_command (e22_buildWriteCommand E22_CONTRACT_REGS) REG_BLOCK_SIZE);;
  lift (delayMs 50);;
  flashDone ← waitAuxReady fuel LORA_AUX_CFG_TIMEOUT_MS;
  if flashDone : bool
  then r ← lift (read_response DUMP_CONFIRM REG_BLOCK_SIZE); mret (write_verdict r.1 r.2)
  else mret WRITE_UNCONFIRMED.

(** Read, and write when needed. *)
(* [src ESP_AKS/lib/LoraLink/LoraLink.cpp:30-141 configureE22] *)
Definition config_session (fuel : nat) : F H config_log :=
  kept ← lift read_config;
  match kept with
  | Some key => mret (CONFIG_KEPT key)
  | None => outcome ← write_config fuel; mret (CONFIG_WRITTEN outcome)
  end.

(** The configuration goes on to normal mode whatever its verdict, which is only logged. *)
(* [src ESP_AKS/lib/LoraLink/LoraLink.cpp:20-149 configureE22] *)
Definition configureE22 (fuel : nat) : F H config_log :=
  lift (setModePins LORA_MODE_CONFIG_M0_LEVEL LORA_MODE_CONFIG_M1_LEVEL);;
  ready ← waitAuxReady fuel LORA_AUX_MODE_TIMEOUT_MS;
  verdict ← (if ready : bool then config_session fuel else mret CONFIG_NOT_ENTERED);
  lift (setModePins LORA_MODE_NORMAL_M0_LEVEL LORA_MODE_NORMAL_M1_LEVEL);;
  waitAuxReady fuel LORA_AUX_MODE_TIMEOUT_MS;;
  lift auxRawLevel;;
  mret verdict.
End LoraLink.

Definition config_mode : Z * Z := (LORA_MODE_CONFIG_M0_LEVEL, LORA_MODE_CONFIG_M1_LEVEL).
Definition normal_mode : Z * Z := (LORA_MODE_NORMAL_M0_LEVEL, LORA_MODE_NORMAL_M1_LEVEL).

(** The three commands, as byte strings. *)
Definition read_command : list Z := [E22_CMD_READ; E22_REG_BLOCK_START; E22_REG_BLOCK_LEN].
Definition crypt_command : list Z :=
  [E22_CMD_WRITE_TEMP; E22_REG_ADDR_CRYPT_H; 2; E22_CFG_CRYPT_H; E22_CFG_CRYPT_L].
Definition write_command (r : E22RegValues) : list Z :=
  [E22_CMD_WRITE; E22_REG_BLOCK_START; E22_REG_BLOCK_LEN; addh r; addl r; netid r; reg0 r; reg1 r;
   reg2 r; reg3 r; E22_CFG_CRYPT_H; E22_CFG_CRYPT_L].

(** ** The contract of the hardware layer *)

(** What an observer sees: mode pins, the set-up of the UART (baud rate, pins, driver),
    bytes sent, the radio's registers and its key. *)
Record lora_view := {
  v_mode : Z * Z;
  v_uart : option Z * bool * bool;
  v_sent : list (list Z);
  v_regs : E22RegValues;
  v_key : Z * Z;
}.

Definition uart_ready : option Z * bool * bool := (Some LORA_UART_BAUD, true, true).

(** The radio listens to commands in configuration mode, over a UART that is set up. *)
Definition in_config (v : lora_view) : Prop := v_mode v = config_mode ∧ v_uart v = uart_ready.

Definition sent_to (data : list Z) (v : lora_view) : lora_view := {| v with v_sent := v_sent v ++ [data] |}.
Definition set_regs (r : E22RegValues) (v : lora_view) : lora_view := {| v with v_regs := r |}.
Definition set_key (v : lora_view) : lora_view := {| v with v_key := (E22_CFG_CRYPT_H, E22_CFG_CRYPT_L) |}.

(** What a command with the effect [f] leaves: the radio executes it, or answers FF FF FF or
    nothing (command not accepted, module not ready) and stays as it was. *)
Definition executed (data : list Z) (f : lora_view → lora_view) (v v' : lora_view) : Prop :=
  v' = sent_to data (f v) ∨ v' = sent_to data v.

Class LoraHalContract (H : Type) `{ILoraHal H} := {
  hal_view : H → lora_view;
  hal_clock : H → Z;                (* milliseconds, unbounded *)
  hal_ticks : H → Z;                (* kernel ticks of 10 ms, unbounded *)
  hal_jitter : Z;                   (* most time one call takes beyond its delay *)
  hal_jitter_range : 0 <= hal_jitter < 2 ^ 32;
  hal_nowMs h : (nowMs h).1 = u64 (hal_clock h);
  hal_nowMs_time h : hal_clock h <= hal_clock (nowMs h).2 <= hal_clock h + hal_jitter;
  hal_isAux_time h : hal_clock h <= hal_clock (isAuxReady h).2 <= hal_clock h + hal_jitter;
  hal_delay_time ms h : 10 <= ms <= 60000 →
    hal_clock h <= hal_clock (delayMs ms h).2 <= hal_clock h + ms + hal_jitter;
  (** A delay of at least a tick crosses a tick, though perhaps sooner than it says; ticks
      and milliseconds drift apart by at most two ticks. *)
  hal_drift h : - 10 <= hal_clock h - 10 * hal_ticks h <= 10;
  hal_nowMs_ticks h : hal_ticks h <= hal_ticks (nowMs h).2;
  hal_isAux_ticks h : hal_ticks h <= hal_ticks (isAuxReady h).2;
  hal_delay_ticks ms h : 10 <= ms <= 60000 → hal_ticks h + 1 <= hal_ticks (delayMs ms h).2;
  hal_nowMs_view h : hal_view (nowMs h).2 = hal_view h;
  hal_isAux_view h : hal_view (isAuxReady h).2 = hal_view h;
  hal_auxRaw_view h : hal_view (auxRawLevel h).2 = hal_view h;
  hal_delay_view ms h : hal_view (delayMs ms h).2 = hal_view h;
  hal_flush_view h : hal_view (uartFlush h).2 = hal_view h;
  hal_read_view buf t h : hal_view (uartRead buf t h).2 = hal_view h;
  hal_dump_view l buf n h : hal_view (hexDumpE22 l buf n h).2 = hal_view h;
  hal_mode_view m0 m1 h :
    hal_view (setModePins m0 m1 h).2 = {| (hal_view h) with v_mode := (m0, m1) |};
  (** In configuration mode the radio executes the documented commands, or refuses them. *)
  hal_write_read h : in_config (hal_view h) →
    hal_view (uartWrite read_command h).2 = sent_to read_command (hal_view h);
  hal_write_regs r h : in_config (hal_view h) →
    executed (write_command r) (λ v, set_key (set_regs r v)) (hal_view h) (hal_view (uartWrite (write_command r) h).2);
  hal_write_crypt h : in_config (hal_view h) →
    executed crypt_command set_key (hal_view h) (hal_view (uartWrite crypt_command h).2);
  (** A well-formed register answer reports the registers. *)
  hal_read_truth size t h r : in_config (hal_view h) →
    e22_parseRegResponse (Some (uartRead (replicate size 0) t h).1.2) (u32 (uartRead (replicate size 0) t h).1.1)
      = Some r →
    r = v_regs (hal_view h);
}.

(** ** Proofs *)

Section Boot.
Context {H : Type} `{LoraHalContract H}.

#[local] Hint Rewrite hal_nowMs_view hal_isAux_view hal_auxRaw_view hal_delay_view hal_flush_view
  hal_read_view hal_dump_view hal_mode_view : aks.

(** Every round crosses a tick, so the loop ends within one unit of fuel per tick of the
    timeout and four more. *)
Lemma wait_loop_ends fuel c0 k0 timeoutMs h :
  0 <= timeoutMs < 2 ^ 32 → hal_clock (H:=H) h >= c0 →
  hal_clock h - c0 <= timeoutMs + 3 * hal_jitter + 10 →
  - 10 <= c0 - 10 * k0 <= 10 → (0 < fuel)%nat →
  timeoutMs + 40 - 10 * (hal_ticks h - k0) <= 10 * Z.of_nat fuel →
  ∃ b h', wait_loop fuel (u64 c0) timeoutMs h = Some (b, h') ∧ hal_view h' = hal_view h.
Proof.
  intros Ht. revert h. pose proof (hal_jitter_range (H:=H)) as Hj.
  assert (Hu : ∀ d, 0 <= d <= timeoutMs + 3 * hal_jitter + 10 → u64 (u64 (c0 + d) - u64 c0) = d).
  { intros d Hd. unfold u64, wrapu. rewrite <- Zminus_mod, Z.add_simpl_l. apply Z.mod_small. lia. }
  induction fuel as [|fuel IH]; intros h Hc Hb Hk Hpos Hf; [lia|].
  cbn [wait_loop]. unfold mbind, F_bind, mret, F_ret, lift. cbn.
  pose proof (hal_drift h) as Hd.
  pose proof (hal_nowMs h) as Hn. pose proof (hal_nowMs_time h). pose proof (hal_nowMs_ticks h).
  pose proof (hal_nowMs_view h) as V1. destruct (nowMs h) as [now h1]. cbn in *. subst now.
  assert (E : u64 (u64 (c0 + (hal_clock h - c0)) - u64 c0) = hal_clock h - c0) by (apply Hu; lia).
  rewrite Zplus_minus in E. rewrite E.
  destruct (Z.ltb_spec (hal_clock h - c0) timeoutMs); [|by exists false, h1].
  pose proof (hal_isAux_time h1). pose proof (hal_isAux_ticks h1). pose proof (hal_isAux_view h1) as V2.
  destruct (isAuxReady h1) as [[] h2]; cbn in *; [exists true, h2; by rewrite V2|].
  pose proof (hal_delay_time 10 h2 ltac:(lia)). pose proof (hal_delay_ticks 10 h2 ltac:(lia)).
  pose proof (hal_delay_view 10 h2) as V3. destruct (delayMs 10 h2) as [[] h3]; cbn in *.
  destruct (IH h3) as (b & h' & Ew & V); [lia..|]. exists b, h'. split; [done|congruence].
Qed.

(** A wait ends, with one unit of fuel per tick of the timeout and four more, and changes
    nothing. *)
Lemma waitAuxReady_ends fuel timeoutMs h :
  0 <= timeoutMs < 2 ^ 32 → timeoutMs + 40 <= 10 * Z.of_nat fuel →
  ∃ b h', waitAuxReady fuel timeoutMs h = Some (b, h') ∧ hal_view (H:=H) h' = hal_view h.
Proof.
  intros Ht Hf. unfold waitAuxReady, mbind, F_bind, lift. cbn.
  pose proof (hal_jitter_range (H:=H)). pose proof (hal_drift h).
  pose proof (hal_nowMs h) as Hn. pose proof (hal_nowMs_time h). pose proof (hal_nowMs_ticks h).
  pose proof (hal_nowMs_view h) as V1. destruct (nowMs h) as [now h1]. cbn in *. subst now.
  destruct (wait_loop_ends fuel (hal_clock h) (hal_ticks h) timeoutMs h1) as (b & h' & E & V); [lia..|].
  exists b, h'. split; [done|congruence].
Qed.

Lemma read_response_view label size h : hal_view (H:=H) (read_response label size h).2 = hal_view h.
Proof.
  unfold read_response, mbind, M_bind, mret, M_ret. pose proof (hal_read_view (replicate (Z.to_nat size) 0) LORA_CFG_READ_TIMEOUT_MS h) as V1.
  destruct (uartRead _ _ h) as [[n buf] h1]. cbn in *.
  pose proof (hal_dump_view label buf (if 0 <? n then n else 0) h1) as V2.
  destruct (hexDumpE22 _ _ _ _) as [[] h2]. cbn in *. congruence.
Qed.

Lemma read_response_result label size h :
  (read_response label size h).1 = (uartRead (H:=H) (replicate (Z.to_nat size) 0) LORA_CFG_READ_TIMEOUT_MS h).1.
Proof.
  unfold read_response, mbind, M_bind, mret, M_ret. destruct (uartRead _ _ h) as [[n buf] h1]. cbn.
  by destruct (hexDumpE22 _ _ _ _).
Qed.

(** A command leaves the radio in configuration mode. *)
Lemma executed_config data f v v' : (∀ v, in_config (f v) ↔ in_config v) → executed data f v v' →
  in_config v → in_config v'.
Proof. intros Hf [->| ->] Hv; [by apply Hf in Hv|exact Hv]. Qed.

(** The outcome of the reading phase in configuration mode. *)
Lemma read_config_outcome h v : hal_view (H:=H) h = v → in_config v →
  let '(kept, h') := read_config h in
  match kept with
  | None => hal_view h' = sent_to read_command v
  | Some _ => v_regs v = E22_CONTRACT_REGS ∧ executed crypt_command set_key (sent_to read_command v) (hal_view h')
  end.
Proof.
  intros Hv Hm. unfold read_config, mbind, M_bind, mret, M_ret.
  pose proof (hal_flush_view h) as V1. destruct (uartFlush h) as [[] h1]. cbn in V1. rewrite Hv in V1.
  change (send_command e22_buildReadAllCommand 3) with (uartWrite (H:=H) read_command).
  pose proof (hal_write_read h1) as V2. rewrite V1 in V2. specialize (V2 Hm).
  destruct (uartWrite read_command h1) as [? h2]. cbn [snd] in V2.
  pose proof (read_response_view DUMP_CURRENT REG_BLOCK_SIZE h2) as V3.
  pose proof (read_response_result DUMP_CURRENT REG_BLOCK_SIZE h2) as R3.
  pose proof (hal_read_truth (Z.to_nat REG_BLOCK_SIZE) LORA_CFG_READ_TIMEOUT_MS h2) as T.
  rewrite <- R3, V2 in T. destruct (read_response DUMP_CURRENT _ h2) as [[n buf] h3].
  cbn [fst snd] in *. rewrite V2 in V3. clear R3. destruct (_ && _); [done|].
  destruct (e22_parseRegResponse (Some buf) (u32 n)) as [current|]; [|done].
  specialize (T current Hm eq_refl). cbn in T.
  destruct (e22_regsEqual_spec current E22_CONTRACT_REGS) as [Hc|]; [|done].
  pose proof (hal_flush_view h3) as V4. destruct (uartFlush h3) as [[] h4]. cbn in V4. rewrite V3 in V4.
  change (send_command e22_buildWriteCryptTempCommand 5) with (uartWrite (H:=H) crypt_command).
  pose proof (hal_write_crypt h4) as V5. rewrite V4 in V5. specialize (V5 Hm).
  destruct (uartWrite crypt_command h4) as [? h5]. cbn [snd] in V5.
  pose proof (read_response_view DUMP_CRYPT_TEMP 5 h5) as V6.
  destruct (read_response DUMP_CRYPT_TEMP 5 h5) as [? h6]. cbn [snd] in V6.
  split; [congruence|]. by rewrite V6.
Qed.

(** Only a well-formed answer with the contract's registers confirms the write. *)
Lemma write_verdict_confirmed n resp : write_verdict n resp = WRITE_CONFIRMED →
  e22_parseRegResponse (Some resp) (u32 n) = Some E22_CONTRACT_REGS.
Proof.
  unfold write_verdict. destruct (_ && _); [done|].
  destruct (e22_parseRegResponse _ _) as [r|]; [|done].
  destruct (e22_regsEqual_spec r E22_CONTRACT_REGS) as [->|]; done.
Qed.

Lemma write_config_outcome fuel h v : LORA_AUX_CFG_TIMEOUT_MS + 40 <= 10 * Z.of_nat fuel →
  hal_view (H:=H) h = v → in_config v →
  ∃ outcome h', write_config fuel h = Some (outcome, h') ∧
    executed (write_command E22_CONTRACT_REGS) (λ v, set_key (set_regs E22_CONTRACT_REGS v)) v (hal_view h') ∧
    (outcome = WRITE_CONFIRMED → v_regs (hal_view h') = E22_CONTRACT_REGS).
Proof.
  intros Hf Hv Hm. unfold write_config, mbind, F_bind, mret, F_ret, lift. cbn [option_bind mbind].
  pose proof (hal_flush_view h) as V1. destruct (uartFlush h) as [[] h1]. cbn in V1. rewrite Hv in V1.
  change (send_command (e22_buildWriteCommand E22_CONTRACT_REGS) REG_BLOCK_SIZE)
    with (uartWrite (H:=H) (write_command E22_CONTRACT_REGS)).
  pose proof (hal_write_regs E22_CONTRACT_REGS h1) as V2. rewrite V1 in V2. specialize (V2 Hm).
  destruct (uartWrite _ h1) as [? h2]. cbn [snd] in V2.
  pose proof (hal_delay_view 50 h2) as V3. destruct (delayMs 50 h2) as [[] h3]. cbn [snd] in V3.
  destruct (waitAuxReady_ends fuel LORA_AUX_CFG_TIMEOUT_MS h3) as (b & h4 & E & V4); [done|done|].
  rewrite E. cbn. rewrite V3 in V4. rewrite <- V4 in V2. destruct b; [|by exists WRITE_UNCONFIRMED, h4].
  pose proof (read_response_view DUMP_CONFIRM REG_BLOCK_SIZE h4) as V5.
  pose proof (read_response_result DUMP_CONFIRM REG_BLOCK_SIZE h4) as R5.
  pose proof (hal_read_truth (Z.to_nat REG_BLOCK_SIZE) LORA_CFG_READ_TIMEOUT_MS h4) as T.
  rewrite <- R5 in T. destruct (read_response DUMP_CONFIRM _ h4) as [[n buf] h5]. cbn [fst snd] in *.
  exists (write_verdict n buf), h5. rewrite V5. split; [done|]. split; [exact V2|].
  intros Hc%write_verdict_confirmed. symmetry. apply T; [|exact Hc].
  eapply executed_config; [|exact V2|exact Hm]. done.
Qed.

(** What the verdict says of the radio: the registers before, the bytes sent, and whether
    registers and key are the contract's or as before. *)
Definition config_effect (verdict : config_log) (v v' : lora_view) : Prop :=
  match verdict with
  | CONFIG_NOT_ENTERED => v' = v
  | CONFIG_KEPT _ =>
      v_regs v = E22_CONTRACT_REGS ∧ executed crypt_command set_key (sent_to read_command v) v'
  | CONFIG_WRITTEN outcome =>
      executed (write_command E22_CONTRACT_REGS) (λ v, set_key (set_regs E22_CONTRACT_REGS v))
        (sent_to read_command v) v' ∧
      (outcome = WRITE_CONFIRMED → v_regs v' = E22_CONTRACT_REGS)
  end.
Definition set_mode (m : Z * Z) (v : lora_view) : lora_view := {| v with v_mode := m |}.

Lemma config_session_outcome fuel h v : LORA_AUX_CFG_TIMEOUT_MS + 40 <= 10 * Z.of_nat fuel →
  hal_view (H:=H) h = v → in_config v →
  ∃ verdict h', config_session fuel h = Some (verdict, h') ∧ config_effect verdict v (hal_view h').
Proof.
  intros Hf Hv Hm. unfold config_session, mbind, F_bind, mret, F_ret, lift. cbn [option_bind].
  pose proof (read_config_outcome h v Hv Hm) as Hr. destruct (read_config h) as [[key|] h3].
  - exists (CONFIG_KEPT key), h3. by split.
  - destruct (write_config_outcome fuel h3 _ Hf Hr Hm) as (outcome & h4 & E4 & V4 & Hc).
    exists (CONFIG_WRITTEN outcome), h4. cbn [mbind option_bind]. rewrite E4. split; [done|]. by split.
Qed.

(** Everything but the mode commutes with the return to normal mode. *)
Lemma executed_mode m data f v v' : (∀ v, f (set_mode m v) = set_mode m (f v)) →
  executed data f v v' → executed data f (set_mode m v) (set_mode m v').
Proof. intros Hf [->| ->]; [left; by rewrite Hf|by right]. Qed.
Lemma effect_mode m verdict v v' : config_effect verdict v v' →
  config_effect verdict (set_mode m v) (set_mode m v').
Proof.
  destruct verdict; cbn.
  - by intros ->.
  - intros [Hr He]. split; [done|]. by apply (executed_mode m) in He.
  - intros [He Hc]. split; [|done]. by apply (executed_mode m) in He.
Qed.

(** With one unit of fuel per 10 ms of the longest timeout and four more, the boot
    configuration ends, and it always leaves the radio in normal mode, with the effect that
    its verdict describes: without AUX not a byte was sent; when the registers were already
    right, the permanent write is skipped and the key is written to RAM; otherwise the
    contract is written.  A radio that refuses a write keeps what it had, and the program
    goes on; but the verdict "confirmed" is given only when the registers are the
    contract's. *)
Theorem configureE22_outcome fuel h v :
  LORA_AUX_CFG_TIMEOUT_MS + 40 <= 10 * Z.of_nat fuel → hal_view (H:=H) h = v →
  v_uart v = uart_ready →
  ∃ verdict h', configureE22 fuel h = Some (verdict, h') ∧
    config_effect verdict (set_mode normal_mode v) (hal_view h').
Proof.
  intros Hf Hv Hu. unfold configureE22, mbind, F_bind, mret, F_ret, lift. cbn [option_bind].
  assert (Hm : LORA_AUX_MODE_TIMEOUT_MS + 40 <= 10 * Z.of_nat fuel)
    by (unfold LORA_AUX_MODE_TIMEOUT_MS, LORA_AUX_CFG_TIMEOUT_MS in *; lia).
  pose proof (hal_mode_view LORA_MODE_CONFIG_M0_LEVEL LORA_MODE_CONFIG_M1_LEVEL h) as V1.
  destruct (setModePins _ _ h) as [[] h1]. cbn [snd] in V1. rewrite Hv in V1.
  destruct (waitAuxReady_ends fuel LORA_AUX_MODE_TIMEOUT_MS h1) as (ready & h2 & E & V2); [done|done|].
  cbn [option_bind mbind]. rewrite E. cbn [mbind option_bind]. rewrite V1 in V2. clear E.
  assert (Hbody : ∃ verdict h3, (if ready then config_session fuel else λ h, Some (CONFIG_NOT_ENTERED, h)) h2
      = Some (verdict, h3) ∧ config_effect verdict (hal_view h2) (hal_view h3)).
  { destruct ready; [|by exists CONFIG_NOT_ENTERED, h2].
    apply (config_session_outcome fuel h2 _ Hf eq_refl). rewrite V2. by split. }
  destruct Hbody as (verdict & h3 & E3 & V3). rewrite E3. cbn [option_bind mbind].
  pose proof (hal_mode_view LORA_MODE_NORMAL_M0_LEVEL LORA_MODE_NORMAL_M1_LEVEL h3) as V4.
  destruct (setModePins _ _ h3) as [[] h4]. cbn [snd] in V4.
  destruct (waitAuxReady_ends fuel LORA_AUX_MODE_TIMEOUT_MS h4) as (b & h5 & E5 & V5); [done|done|].
  rewrite E5. cbn [option_bind mbind]. pose proof (hal_auxRaw_view h5) as V6. destruct (auxRawLevel h5) as [? h6].
  cbn [snd] in V6. exists verdict, h6. split; [done|]. rewrite V6, V5, V4.
  apply (effect_mode normal_mode) in V3. by rewrite V2 in V3.
Qed.
End Boot.

(** ** A radio *)

Module FakeE22.
Record state := { clock : Z; aux : bool; locked : bool; view : lora_view }.   (* [locked]: refuses writes *)

Definition answer (r : E22RegValues) : list Z :=
  [E22_CMD_READ; E22_REG_BLOCK_START; E22_REG_BLOCK_LEN;
   addh r; addl r; netid r; reg0 r; reg1 r; reg2 r; reg3 r; 0; 0].

(** The effect of a command on registers and key. *)
Definition execute (data : list Z) (v : lora_view) : lora_view :=
  match data with
  | [192; 0; 9; a; b; c; d; e; f; g; h; l] =>
      {| v with v_regs := Build_E22RegValues a b c d e f g; v_key := (h, l) |}
  | [194; 7; 2; h; l] => {| v with v_key := (h, l) |}
  | _ => v
  end.

#[export] Instance hal : ILoraHal state := {
  setModePins m0 m1 s := ((), {| s with view := {| (view s) with v_mode := (m0, m1) |} |});
  isAuxReady s := (aux s, s);
  auxRawLevel s := (1, s);
  uartFlush s := ((), s);
  uartWrite data s :=
    (Z.of_nat (length data),
     {| s with view := sent_to data (if locked s then view s else execute data (view s)) |});
  uartRead buf t s :=
    ((if (12 <=? length buf)%nat then (12, answer (v_regs (view s))) else (0, buf)), s);
  delayMs ms s := ((), {| s with clock := clock s + Z.max 1 ms |});   (* exactly the time asked *)
  nowMs s := (u64 (clock s), s);
  feedWatchdog s := ((), s);
  hexDumpE22 l buf n s := ((), s);
}.

Lemma read_truth size t h r :
  e22_parseRegResponse (Some (uartRead (replicate size 0) t h).1.2)
    (u32 (uartRead (replicate size 0) t h).1.1) = Some r → r = v_regs (view h).
Proof.
  unfold uartRead, hal. rewrite length_replicate. destruct (12 <=? size)%nat; [|done].
  destruct h as [? ? ? [? ? ? [] ?]]. by intros [=].
Qed.

#[export] Instance contract : LoraHalContract state.
Proof.
  refine {| hal_view := view; hal_clock := clock; hal_ticks s := clock s / 10; hal_jitter := 0;
            hal_read_truth := λ size t h r _, read_truth size t h r |};
    try done; try (by intros [] [? ? ? []]); try (by intros [] [? ? []]); try (by intros; cbn; zlia).
  - intros h _. cbn. by destruct (locked h).
  - intros [] h _. unfold executed. cbn. destruct (locked h); auto.
  - intros h _. unfold executed. cbn. destruct (locked h); auto.
Defined.

(** A factory-fresh radio, with the module ready after power-on. *)
Definition fresh : state :=
  {| clock := 0; aux := true; locked := false;
     view := {| v_mode := normal_mode; v_uart := uart_ready; v_sent := []; v_key := (0, 0);
                v_regs := Build_E22RegValues 0 0 0 98 0 23 0 |} |}.
End FakeE22.
Export (hints) FakeE22.

(** The same radio with its registers locked. *)
Definition FakeE22_locked : FakeE22.state := {| FakeE22.fresh with FakeE22.locked := true |}.

(** A fresh radio is written and confirmed; a locked one keeps its registers, and the
    confirmation notices. *)
Lemma configureE22_outcome_witness :
  (∃ s, configureE22 204 FakeE22.fresh = Some (CONFIG_WRITTEN WRITE_CONFIRMED, s) ∧
     v_regs (FakeE22.view s) = E22_CONTRACT_REGS) ∧
  option_map fst (configureE22 204 FakeE22_locked) = Some (CONFIG_WRITTEN WRITE_MISMATCH).
Proof.
  split; [|by vm_compute].
  destruct (configureE22_outcome (H:=FakeE22.state) 204 FakeE22.fresh _ ltac:(done) eq_refl eq_refl)
    as (verdict & s & E & Hc).
  assert (Ev : option_map fst (configureE22 204 FakeE22.fresh) = Some (CONFIG_WRITTEN WRITE_CONFIRMED)) by (by vm_compute).
  rewrite E in Ev. injection Ev as ->. exists s. split; [exact E|]. destruct Hc as [_ Hc]. by apply Hc.
Defined.
