(* ===== verification/EspLoraHal.v ===== *)
(** [src/main.cpp], [EspLoraHal]: the implementation of the radio's hardware layer on the
    ESP-IDF drivers, with the bounded retry of the UART set-up.

    The drivers are not part of the repository: [EspLora] lists the calls made on the
    radio's UART and pins, [EspLoraLaws] their documented behaviour together with the
    radio's.  The instance at the end discharges the contract that the theorems of
    [LoraLink.v] assume, so they hold of this implementation. *)
From S2P Require Import Prelude SystemConfig UplinkScheduler E22Config LoraLink.
Open Scope Z_scope.

Inductive gpio_mode := GPIO_MODE_INPUT | GPIO_MODE_OUTPUT.

(** The driver calls; a [bool] answers "ESP_OK".  The port is always the radio's. *)
Class EspLora (H : Type) := {
  gpio_config : Z → gpio_mode → M H bool;           (* pin mask *)
  gpio_set_level : Z → Z → M H ();
  gpio_get_level : Z → M H Z;
  uart_is_driver_installed : M H bool;
  uart_driver_delete : M H ();
  uart_param_config : Z → M H bool;                 (* baud rate; 8N1, no flow control *)
  uart_set_pin : M H bool;
  uart_driver_install : Z → Z → M H bool;           (* ring sizes *)
  uart_flush : M H ();
  uart_write_bytes : list Z → M H Z;
  uart_read_bytes : list Z → Z → M H (Z * list Z);  (* buffer, ticks; count and filled buffer *)
  uart_get_tx_buffer_free_size : M H (option Z);    (* None: not ESP_OK *)
  xTaskGetTickCount : M H Z;                        (* TickType_t, 32 bit *)
  vTaskDelay : Z → M H ();                          (* ticks *)
  esp_timer_get_time : M H Z;                       (* int64_t, microseconds *)
  esp_task_wdt_reset : M H ();
  printf : list Z → M H ();
  esp_pdMS_TO_TICKS : Z → Z;
}.

Section Hal.
Context {H : Type} `{EspLora H}.

(** The line of one register. *)
(* [src ESP_AKS/src/main.cpp:451-451 E22_logHexDump] *)
Definition register_line (i value : Z) : list Z :=
  chars "E22REG,0x" ++ print_hex 2 (E22_REG_BLOCK_START + i) ++ chars ",0x" ++ print_hex 2 value
  ++ [13; 10].

(** The loop over the registers from [i] on. *)
Fixpoint print_registers (n i : nat) (buf : list Z) : M H () :=
  match n with
  | O => mret ()
  | S n => printf (register_line (Z.of_nat i) (byte_at buf (3 + i)));; print_registers n (S i) buf
  end.

(* [src ESP_AKS/src/main.cpp:445-453 E22_logHexDump] *)
Definition E22_logHexDump (buf : list Z) (len : Z) : M H () :=
  if len <? 3 + E22_REG_BLOCK_LEN then mret ()
  else print_registers (Z.to_nat E22_REG_BLOCK_LEN) 0 buf.

(** The overrides of [ILoraHal]. *)
(* [src ESP_AKS/src/main.cpp:533-553 EspLoraHal] *)
#[export] Instance EspLoraHal : ILoraHal H := {
  setModePins m0Level m1Level := gpio_set_level LORA_M0_PIN m0Level;; gpio_set_level LORA_M1_PIN m1Level;
  isAuxReady := l ← gpio_get_level LORA_AUX_PIN; mret (l =? LORA_AUX_READY_LEVEL);
  auxRawLevel := gpio_get_level LORA_AUX_PIN;
  uartFlush := uart_flush;
  uartWrite data := uart_write_bytes data;
  uartRead buf timeoutMs := uart_read_bytes buf (esp_pdMS_TO_TICKS timeoutMs);
  delayMs ms := vTaskDelay (esp_pdMS_TO_TICKS ms);
  nowMs := t ← esp_timer_get_time; mret (u64 (Z.quot t 1000));
  feedWatchdog := esp_task_wdt_reset;
  hexDumpE22 label buf len := E22_logHexDump buf len;
}.

(** One attempt: a driver left over from a failed attempt is deleted first. *)
(* [src ESP_AKS/src/main.cpp:497-504 begin] *)
Definition uart_attempt : M H bool :=
  installed ← uart_is_driver_installed;
  (if installed : bool then uart_driver_delete else mret ());;
  err1 ← uart_param_config LORA_UART_BAUD;
  err2 ← uart_set_pin;
  err3 ← uart_driver_install 256 256;
  mret (err1 && err2 && err3).

(** The retry loop, whose own counter decides; the fuel is the number of attempts left. *)
(* [src ESP_AKS/src/main.cpp:491-531 begin] *)
Fixpoint uart_setup (fuel : nat) (failedAttempts : Z) : F H bool :=
  match fuel with
  | O => λ _, None
  | S fuel =>
      ok ← lift uart_attempt;
      if ok : bool then mret true
      else
        let failedAttempts := failedAttempts + 1 in
        match uart_init_retry_decision failedAttempts LORA_UART_MAX_INIT_ATTEMPTS with
        | GIVE_UP_DISABLED => mret false
        | UART_RETRY => lift (vTaskDelay (esp_pdMS_TO_TICKS 1000));; lift esp_task_wdt_reset;;
                        uart_setup fuel failedAttempts
        end
  end.

(** How the set-up of the pins and the UART can end: [ESP_ERROR_CHECK] restarts the chip
    when a pin cannot be configured. *)
Inductive hal_begin := HAL_ABORT | HAL_RESULT (ok : bool).

(* [src ESP_AKS/src/main.cpp:466-531 begin] *)
Definition hal_begin_ (fuel : nat) : F H hal_begin :=
  modePins ← lift (gpio_config (Z.lor (Z.shiftl 1 LORA_M0_PIN) (Z.shiftl 1 LORA_M1_PIN)) GPIO_MODE_OUTPUT);
  if negb modePins then mret HAL_ABORT
  else
    auxPin ← lift (gpio_config (Z.shiftl 1 LORA_AUX_PIN) GPIO_MODE_INPUT);
    if negb auxPin then mret HAL_ABORT
    else ok ← uart_setup fuel 0; mret (HAL_RESULT ok).
End Hal.

(** ** What the drivers and the radio do *)

(** The observed state: pins, bytes sent, registers and key of the radio; true time in
    microseconds; the phase of the tick interrupt; and the most a call takes. *)
Class EspLoraWorld (H : Type) := {
  esp_view : H → lora_view;
  esp_us : H → Z;
  esp_phase : Z;
  esp_jitter : Z;
}.
Arguments esp_phase H {_}. Arguments esp_jitter H {_}.

(** A call that only takes time. *)
Definition quiet {H A} `{EspLoraWorld H} (m : M H A) : Prop := ∀ h,
  esp_view (m h).2 = esp_view h ∧ esp_us h <= esp_us (m h).2 <= esp_us h + esp_jitter H.

(** The parts of the UART's set-up. *)
Definition set_baud (b : Z) (v : lora_view) : lora_view :=
  let '(_, p, d) := v_uart v in {| v with v_uart := (Some b, p, d) |}.
Definition set_pins (v : lora_view) : lora_view :=
  let '(b, _, d) := v_uart v in {| v with v_uart := (b, true, d) |}.
Definition set_driver (d : bool) (v : lora_view) : lora_view :=
  let '(b, p, _) := v_uart v in {| v with v_uart := (b, p, d) |}.

Definition tick_of {H} `{EspLoraWorld H} (h : H) : Z := (esp_us h + esp_phase H) / 10000.

Class EspLoraLaws (H : Type) `{EspLora H} `{EspLoraWorld H} := {
  esp_phase_range : 0 <= esp_phase H < 10000;
  esp_jitter_range : 0 <= esp_jitter H < 2 ^ 31;
  esp_us_range (h : H) : 0 <= esp_us h;
  esp_ms_to_ticks ms : 0 <= ms <= 60000 → esp_pdMS_TO_TICKS ms = ms / 10;   (* 100 Hz *)
  esp_quiet_get_level pin : quiet (gpio_get_level pin);
  esp_quiet_time : quiet esp_timer_get_time;
  esp_time h : (esp_timer_get_time h).1 = esp_us h;
  esp_quiet_tick : quiet xTaskGetTickCount;
  esp_tick h : (xTaskGetTickCount h).1 = u32 (tick_of h);
  esp_quiet_flush : quiet uart_flush;
  esp_quiet_wdt : quiet esp_task_wdt_reset;
  esp_quiet_free : quiet uart_get_tx_buffer_free_size;
  (** Setting the drivers up neither talks to the radio nor moves its pins; a call that
      fails changes nothing. *)
  esp_config_view pins mode h : esp_view (gpio_config pins mode h).2 = esp_view h;
  esp_installed_view h : esp_view (uart_is_driver_installed h).2 = esp_view h;
  esp_delete_view h : esp_view (uart_driver_delete h).2 = set_driver false (esp_view h);
  esp_param_view baud h : esp_view (uart_param_config baud h).2 =
    if (uart_param_config baud h).1 then set_baud baud (esp_view h) else esp_view h;
  esp_pin_view h : esp_view (uart_set_pin h).2 =
    if (uart_set_pin h).1 then set_pins (esp_view h) else esp_view h;
  esp_install_view rx tx h : esp_view (uart_driver_install rx tx h).2 =
    if (uart_driver_install rx tx h).1 then set_driver true (esp_view h) else esp_view h;
  (** Printing and reading take their time. *)
  esp_print_view s h : esp_view (printf s h).2 = esp_view h;
  esp_read_view buf t h : esp_view (uart_read_bytes buf t h).2 = esp_view h;
  esp_read_length buf t h : (uart_read_bytes buf t h).1.1 <= Z.of_nat (length buf) ∧
    length (uart_read_bytes buf t h).1.2 = length buf;
  (** A delay of [n] ticks ends at or after the [n]-th tick interrupt. *)
  esp_delay_view n h : esp_view (vTaskDelay n h).2 = esp_view h;
  esp_delay_ticks n h : 0 <= n → tick_of h + n <= tick_of (vTaskDelay n h).2;
  esp_delay_time n h : 0 <= n →
    esp_us h <= esp_us (vTaskDelay n h).2 <= esp_us h + 10000 * n + esp_jitter H;
  esp_set_m0 l h : esp_view (gpio_set_level LORA_M0_PIN l h).2
    = {| (esp_view h) with v_mode := (l, (v_mode (esp_view h)).2) |};
  esp_set_m1 l h : esp_view (gpio_set_level LORA_M1_PIN l h).2
    = {| (esp_view h) with v_mode := ((v_mode (esp_view h)).1, l) |};
  (** In configuration mode the radio executes the documented commands or refuses them
      ([E22Regs.h]: FF FF FF, command not accepted or module not ready); in normal mode
      bytes are handed over when the call succeeds. *)
  esp_write_read h : in_config (esp_view h) →
    esp_view (uart_write_bytes read_command h).2 = sent_to read_command (esp_view h);
  esp_write_regs r h : in_config (esp_view h) →
    executed (write_command r) (λ v, set_key (set_regs r v)) (esp_view h)
      (esp_view (uart_write_bytes (write_command r) h).2);
  esp_write_crypt h : in_config (esp_view h) →
    executed crypt_command set_key (esp_view h) (esp_view (uart_write_bytes crypt_command h).2);
  esp_write_data l h : v_mode (esp_view h) = normal_mode →
    esp_view (uart_write_bytes l h).2 =
      if (uart_write_bytes l h).1 <? 0 then esp_view h
      else {| (esp_view h) with v_sent := v_sent (esp_view h) ++ [l] |};
  esp_read_truth size t h r : in_config (esp_view h) →
    e22_parseRegResponse (Some (uart_read_bytes (replicate size 0) t h).1.2)
      (u32 (uart_read_bytes (replicate size 0) t h).1.1) = Some r →
    r = v_regs (esp_view h);
}.

(** ** The contract, discharged *)
Section Contract.
Context {H : Type} `{EspLoraLaws H}.

Lemma print_registers_view n i buf (h : H) : esp_view (print_registers n i buf h).2 = esp_view h.
Proof.
  revert i h. induction n as [|n IH]; intros i h; [done|]. cbn. unfold mbind, M_bind.
  pose proof (esp_print_view (register_line (Z.of_nat i) (byte_at buf (3 + i))) h) as V.
  destruct (printf _ h) as [[] h1]. cbn in V. by rewrite IH.
Qed.

Lemma dump_view buf len (h : H) : esp_view (E22_logHexDump buf len h).2 = esp_view h.
Proof. unfold E22_logHexDump. case_match; [done|apply print_registers_view]. Qed.

(** Milliseconds as [EspLoraHal] reads them. *)
Lemma us_jitter (t t' j : Z) : 0 <= t -> t <= t' <= t + j -> t / 1000 <= t' / 1000 <= t / 1000 + (j / 1000 + 1).
Proof. intros. Z.to_euclidean_division_equations; lia. Qed.

Lemma ready_bind (h : H) : ∃ b, isAuxReady h = (b, (gpio_get_level LORA_AUX_PIN h).2).
Proof.
  cbn. unfold mbind, M_bind. destruct (gpio_get_level LORA_AUX_PIN h) as [l h1]. by eexists.
Qed.
Lemma now_bind (h : H) : nowMs h = (u64 (esp_us h / 1000), (esp_timer_get_time h).2).
Proof.
  cbn. unfold mbind, M_bind. pose proof (esp_time h) as E.
  destruct (esp_timer_get_time h) as [t h1]. cbn in E |- *. subst t.
  by rewrite Z.quot_div_nonneg by (try apply esp_us_range; lia).
Qed.

#[export] Instance EspLoraHal_contract : LoraHalContract H.
Proof.
  pose proof (esp_jitter_range (H:=H)) as Hj. pose proof (esp_phase_range (H:=H)) as Hp.
  refine {| hal_view := esp_view; hal_clock h := esp_us h / 1000; hal_ticks := tick_of;
            hal_jitter := esp_jitter H / 1000 + 1 |}; intros.
  - Z.to_euclidean_division_equations; lia.
  - by rewrite now_bind.
  - rewrite now_bind. cbn [snd]. apply us_jitter; [apply esp_us_range|apply esp_quiet_time].
  - destruct (ready_bind h) as [b ->]. cbn [snd].
    apply us_jitter; [apply esp_us_range|apply esp_quiet_get_level].
  - cbn [delayMs EspLoraHal]. rewrite esp_ms_to_ticks by lia.
    pose proof (esp_delay_time (ms / 10) h ltac:(Z.to_euclidean_division_equations; lia)).
    pose proof (esp_us_range h). Z.to_euclidean_division_equations; lia.
  - unfold tick_of. Z.to_euclidean_division_equations; lia.
  - rewrite now_bind. cbn [snd]. unfold tick_of. apply Z.div_le_mono; [lia|].
    destruct (esp_quiet_time h). lia.
  - destruct (ready_bind h) as [b ->]. cbn [snd]. unfold tick_of. apply Z.div_le_mono; [lia|].
    destruct (esp_quiet_get_level LORA_AUX_PIN h). lia.
  - cbn [delayMs EspLoraHal]. rewrite esp_ms_to_ticks by lia.
    pose proof (esp_delay_ticks (ms / 10) h ltac:(Z.to_euclidean_division_equations; lia)).
    assert (1 <= ms / 10) by (Z.to_euclidean_division_equations; lia). lia.
  - rewrite now_bind. apply esp_quiet_time.
  - destruct (ready_bind h) as [b ->]. apply esp_quiet_get_level.
  - apply esp_quiet_get_level.
  - apply esp_delay_view.
  - apply esp_quiet_flush.
  - apply esp_read_view.
  - apply dump_view.
  - cbn [setModePins EspLoraHal]. unfold mbind, M_bind.
    pose proof (esp_set_m0 m0 h) as V. destruct (gpio_set_level LORA_M0_PIN m0 h) as [[] h1].
    cbn [snd] in V. rewrite esp_set_m1, V. done.
  - by apply esp_write_read.
  - by apply esp_write_regs.
  - by apply esp_write_crypt.
  - eapply (esp_read_truth size (esp_pdMS_TO_TICKS t) h); eassumption.
Defined.

(** ** The set-up *)

(** Everything but the UART's own set-up. *)
Definition same_radio (v v' : lora_view) : Prop := v' = {| v with v_uart := v_uart v' |}.

#[local] Instance same_radio_preorder : PreOrder same_radio.
Proof. split; [by intros []|]. intros [] [] [] [=] [=]. by subst. Qed.

Lemma same_radio_sets v b d :
  same_radio v (set_baud b v) ∧ same_radio v (set_pins v) ∧ same_radio v (set_driver d v).
Proof. destruct v as [? [[? ?] ?] ? ? ?]. done. Qed.

Lemma uart_attempt_view (h : H) :
  same_radio (esp_view h) (esp_view (uart_attempt h).2) ∧
  ((uart_attempt h).1 = true → v_uart (esp_view (uart_attempt h).2) = uart_ready).
Proof.
  unfold uart_attempt, mbind, M_bind, mret, M_ret.
  pose proof (esp_installed_view h) as V0. destruct (uart_is_driver_installed h) as [b h0]. cbn [snd] in V0.
  set (m := if b then uart_driver_delete else λ s, ((), s)).
  assert (V1 : same_radio (esp_view h) (esp_view (m h0).2)).
  { unfold m. destruct b; [|cbn; by rewrite V0]. rewrite esp_delete_view, V0. by apply (same_radio_sets _ 0). }
  destruct (m h0) as [[] h1]. cbn [snd] in V1.
  pose proof (esp_param_view LORA_UART_BAUD h1) as V2. destruct (uart_param_config _ h1) as [e1 h2].
  pose proof (esp_pin_view h2) as V3. destruct (uart_set_pin h2) as [e2 h3].
  pose proof (esp_install_view 256 256 h3) as V4. destruct (uart_driver_install 256 256 h3) as [e3 h4].
  cbn [fst snd] in *. destruct (esp_view h1) as [? [[? ?] ?] ? ? ?].
  split; [etrans; [exact V1|]|];
    destruct e1, e2, e3; cbn in *; rewrite V2 in V3; rewrite V3 in V4; rewrite V4; done.
Qed.

(** The retry loop ends: at the latest the fifth failure gives up. *)
Lemma uart_setup_ends n failed (h : H) : LORA_UART_MAX_INIT_ATTEMPTS - failed <= Z.of_nat n → (0 < n)%nat →
  ∃ r h', uart_setup n failed h = Some (r, h') ∧ same_radio (esp_view h) (esp_view h') ∧
    (r = true → v_uart (esp_view h') = uart_ready).
Proof.
  revert failed h. induction n as [|n IH]; intros failed h Hn Hpos; [lia|].
  cbn [uart_setup]. unfold mbind, F_bind, mret, F_ret, lift. cbn [mbind option_bind].
  destruct (uart_attempt_view h) as [V Hr]. destruct (uart_attempt h) as [[] h1]; cbn [fst snd] in V, Hr; [by eauto 6|].
  unfold uart_init_retry_decision. destruct (Z.leb_spec LORA_UART_MAX_INIT_ATTEMPTS (failed + 1)); [by eauto 6|].
  pose proof (esp_delay_view (esp_pdMS_TO_TICKS 1000) h1) as V1.
  destruct (vTaskDelay (esp_pdMS_TO_TICKS 1000) h1) as [[] h2]. cbn [snd] in V1.
  destruct (esp_quiet_wdt h2) as [V2 _]. destruct (esp_task_wdt_reset h2) as [[] h3]. cbn [snd] in V2.
  destruct (IH (failed + 1) h3) as (r & h' & E & V' & Hr'); [unfold LORA_UART_MAX_INIT_ATTEMPTS in *; lia..|].
  exists r, h'. rewrite V2, V1 in V'. split; [done|]. split; [by etrans|done].
Qed.

Lemma hal_begin_ends n (h : H) : LORA_UART_MAX_INIT_ATTEMPTS <= Z.of_nat n →
  ∃ r h', hal_begin_ n h = Some (r, h') ∧ same_radio (esp_view h) (esp_view h') ∧
    (r = HAL_RESULT true → v_uart (esp_view h') = uart_ready).
Proof.
  intros Hn. unfold LORA_UART_MAX_INIT_ATTEMPTS in Hn.
  unfold hal_begin_, mbind, F_bind, mret, F_ret, lift. cbn [mbind option_bind].
  match goal with |- context [gpio_config ?p ?m h] => pose proof (esp_config_view p m h) as V1;
    destruct (gpio_config p m h) as [[] h1]; cbn [snd] in V1 end;
    [|eexists _, _; split; [done|]; by rewrite V1]. cbn [negb].
  match goal with |- context [gpio_config ?p ?m h1] => pose proof (esp_config_view p m h1) as V2;
    destruct (gpio_config p m h1) as [[] h2]; cbn [snd] in V2 end;
    [|eexists _, _; split; [done|]; by rewrite V2, V1].
  cbn [negb].
  destruct (uart_setup_ends n 0 h2) as (r & h3 & -> & V3 & Hr); [unfold LORA_UART_MAX_INIT_ATTEMPTS; lia|lia|].
  eexists _, _. split; [done|]. rewrite V2, V1 in V3. split; [done|]. intros [=]. auto.
Qed.
End Contract.

(** ** A board with a radio

    [refuse] makes the driver refuse bytes in normal mode; [beat] makes a heartbeat byte
    arrive at every read; [locked] makes the radio refuse writes of its registers.  The task's watchdog was fed at [fed] and has [barked] if it was
    left alone for longer than its 5 s. *)
Module FakeEsp.
Record state := { us : N; aux : Z; beat : bool; refuse : bool; locked : bool; view : lora_view; fed : N; barked : bool }.

Definition with_view (f : lora_view → lora_view) (s : state) : state := {| s with view := f (view s) |}.

Definition set_level (pin l : Z) (v : lora_view) : lora_view :=
  if pin =? LORA_M0_PIN then {| v with v_mode := (l, (v_mode v).2) |}
  else if pin =? LORA_M1_PIN then {| v with v_mode := ((v_mode v).1, l) |} else v.

Definition sent (data : list Z) (v : lora_view) : lora_view := {| v with v_sent := v_sent v ++ [data] |}.

Definition write (data : list Z) (s : state) : Z * state :=
  if bool_decide (v_mode (view s) = normal_mode) then
    if refuse s then (-1, s) else (Z.of_nat (length data), with_view (sent data) s)
  else (Z.of_nat (length data), with_view (λ v, sent data (if locked s then v else FakeE22.execute data v)) s).

Definition read (buf : list Z) (s : state) : Z * list Z :=
  if bool_decide (v_mode (view s) = config_mode) then
    if (12 <=? length buf)%nat then (12, FakeE22.answer (v_regs (view s)) ++ drop 12 buf) else (0, buf)
  else match buf with
       | _ :: buf' => if beat s then (1, UKS_HEARTBEAT_BYTE :: buf') else (0, buf)
       | [] => (0, [])
       end.

#[export] Instance esp : EspLora state := {
  gpio_config _ _ s := (true, s);
  gpio_set_level pin l s := ((), with_view (set_level pin l) s);
  gpio_get_level _ s := (aux s, s);
  uart_is_driver_installed s := ((v_uart (view s)).2, s);
  uart_driver_delete s := ((), with_view (set_driver false) s);
  uart_param_config baud s := (true, with_view (set_baud baud) s);
  uart_set_pin s := (true, with_view set_pins s);
  uart_driver_install _ _ s := (true, with_view (set_driver true) s);
  uart_flush s := ((), s);
  uart_write_bytes := write;
  uart_read_bytes buf _ s := (read buf s, s);
  uart_get_tx_buffer_free_size s := (Some 256, s);
  xTaskGetTickCount s := (u32 (Z.of_N (us s) / 10000), s);
  vTaskDelay n s :=
    let t := (us s + Z.to_N (10000 * n))%N in
    ((), {| s with us := t; barked := barked s || (fed s + 5000000 <? t)%N |});
  esp_timer_get_time s := (Z.of_N (us s), s);
  esp_task_wdt_reset s :=
    ((), {| s with fed := us s; barked := barked s || (fed s + 5000000 <? us s)%N |});
  printf _ s := ((), s);
  esp_pdMS_TO_TICKS ms := ms / 10;
}.
#[export] Instance world : EspLoraWorld state :=
  {| esp_view := view; esp_us s := Z.of_N (us s); esp_phase := 0; esp_jitter := 0 |}.

Lemma read_length buf s : (read buf s).1 <= Z.of_nat (length buf) ∧ length (read buf s).2 = length buf.
Proof.
  unfold read. destruct (bool_decide _).
  - destruct (Nat.leb_spec 12 (length buf)); [|split; [cbn; lia|done]]. cbn [fst snd].
    rewrite length_app, length_drop. cbn [FakeE22.answer length]. lia.
  - destruct buf; [done|]. destruct (beat s); cbn; lia.
Qed.

Lemma config_not_normal v : in_config v → bool_decide (v_mode v = normal_mode) = false.
Proof. intros [-> _]. by apply bool_decide_eq_false. Qed.

#[export] Instance laws : EspLoraLaws state.
Proof.
  constructor; try done; try (intros; split; [done|cbn; lia]); try (intros; apply read_length).
  - intros h. cbn. lia.
  - intros h. cbn. unfold tick_of. cbn. by rewrite Z.add_0_r.
  - intros n h Hn. unfold tick_of. cbn. Z.to_euclidean_division_equations; lia.
  - intros n h Hn. cbn. lia.
  - intros h Hc. cbn. unfold write. rewrite config_not_normal by done. cbn. by destruct (locked h).
  - intros [] h Hc. unfold executed. cbn. unfold write. rewrite config_not_normal by done. cbn. destruct (locked h); auto.
  - intros h Hc. unfold executed. cbn. unfold write. rewrite config_not_normal by done. cbn. destruct (locked h); auto.
  - intros l h Hn. cbn. unfold write. rewrite bool_decide_eq_true_2 by done.
    destruct (refuse h); [done|]. cbn. by rewrite (proj2 (Z.ltb_ge _ 0)) by lia.
  - intros size t h r [Hm _]. cbn. unfold read. rewrite bool_decide_eq_true_2 by done.
    rewrite length_replicate. destruct (12 <=? size)%nat; [|done]. destruct (v_regs (view h)). by intros [=].
Qed.

(** A board after power-on, with a factory-fresh radio. *)
Definition off (beat refuse : bool) : state :=
  {| us := 0; aux := LORA_AUX_READY_LEVEL; beat := beat; refuse := refuse; locked := false; fed := 0; barked := false;
     view := {| v_mode := (0, 0); v_uart := (None, false, false); v_sent := []; v_key := (0, 0);
                v_regs := Build_E22RegValues 0 0 0 98 0 23 0 |} |}.
End FakeEsp.
Export (hints) FakeEsp.
