(* ===== verification/E22Diagnostic.v ===== *)
(** [src/e22_diagnostic.cpp]: the bench image that reads the radio's registers, prints them
    and makes a first transmission.

    It shares the drivers of [EspLoraHal.v] with the vehicle firmware.  Its output is its
    purpose, so the log is part of the state: one entry per call of [ESP_LOGI], [ESP_LOGW]
    and [ESP_LOGE], with the level and the formatted text.  Texts are lists of character
    codes; [%.3f] of the frequency is exact, since a frequency is a multiple of an eighth. *)
From S2P Require Import Prelude SystemConfig Telemetry E22Config LoraLink EspLoraHal.
From Stdlib Require Import SpecFloat.
Open Scope Z_scope.

(* [src ESP_AKS/src/e22_diagnostic.cpp:31-31 DIAG_AUX_WAIT_MS] *)
Definition DIAG_AUX_WAIT_MS : Z := 500.
(* [src ESP_AKS/src/e22_diagnostic.cpp:32-32 DIAG_RX_WAIT_MS] *)
Definition DIAG_RX_WAIT_MS : Z := 500.

(** ** The texts of the registers *)

(* [src ESP_AKS/src/e22_diagnostic.cpp:40-52 DIAG_uartBaudStr] *)
Definition DIAG_uartBaudStr (b : Z) : list Z :=
  match b with
  | 0 => chars "1200"
  | 1 => chars "2400"
  | 2 => chars "4800"
  | 3 => chars "9600"
  | 4 => chars "19200"
  | 5 => chars "38400"
  | 6 => chars "57600"
  | 7 => chars "115200"
  | _ => chars "?"
  end.

(* [src ESP_AKS/src/e22_diagnostic.cpp:54-62 DIAG_parityStr] *)
Definition DIAG_parityStr (p : Z) : list Z :=
  match Z.land p 3 with
  | 0 => chars "8N1"
  | 1 => chars "8O1"
  | 2 => chars "8E1"
  | 3 => chars "8N1"
  | _ => chars "8N1"
  end.

(* [src ESP_AKS/src/e22_diagnostic.cpp:64-75 DIAG_airRateStr] *)
Definition DIAG_airRateStr (r : Z) : list Z :=
  match r with
  | 0 => chars "0.3 kbps"
  | 1 => chars "1.2 kbps"
  | 2 => chars "2.4 kbps"
  | 3 => chars "4.8 kbps"
  | 4 => chars "9.6 kbps"
  | 5 => chars "19.2 kbps"
  | 6 => chars "38.4 kbps"
  | _ => chars "62.5 kbps"
  end.

(* [src ESP_AKS/src/e22_diagnostic.cpp:77-83 DIAG_decodeReg0] *)
Definition DIAG_decodeReg0 (reg0 : Z) : list Z :=
  let baud := Z.land (Z.shiftr reg0 5) 7 in
  let parity := Z.land (Z.shiftr reg0 3) 3 in
  let air := Z.land reg0 7 in
  chars "  REG0  = 0x" ++ print_hex 2 reg0 ++ chars "  ->  UART: " ++ DIAG_uartBaudStr baud
  ++ chars " bps | parity: " ++ DIAG_parityStr parity ++ chars " | air rate: " ++ DIAG_airRateStr air.

(* [src ESP_AKS/src/e22_diagnostic.cpp:91-98 DIAG_subPacketStr] *)
Definition DIAG_subPacketStr (s : Z) : list Z :=
  match Z.land s 3 with
  | 0 => chars "240 B"
  | 1 => chars "128 B"
  | 2 => chars "64 B"
  | _ => chars "32 B"
  end.

(* [src ESP_AKS/src/e22_diagnostic.cpp:100-107 DIAG_txPowerStr] *)
Definition DIAG_txPowerStr (p : Z) : list Z :=
  match Z.land p 3 with
  | 0 => chars "en yuksek (T30D: 30 dBm)"
  | 1 => chars "orta-yuksek"
  | 2 => chars "orta-dusuk"
  | _ => chars "en dusuk (~10 dBm)"
  end.

(** A bit of a register as one of two words. *)
Definition bit_word (reg bit : Z) (on off : list Z) : list Z :=
  if Z.land (Z.shiftr reg bit) 1 =? 0 then off else on.

(* [src ESP_AKS/src/e22_diagnostic.cpp:109-116 DIAG_decodeReg1] *)
Definition DIAG_decodeReg1 (reg1 : Z) : list Z :=
  chars "  REG1  = 0x" ++ print_hex 2 reg1 ++ chars "  ->  alt-paket: "
  ++ DIAG_subPacketStr (Z.land (Z.shiftr reg1 6) 3) ++ chars " | RSSI ortam gurultusu: "
  ++ bit_word reg1 5 (chars "acik") (chars "kapali") ++ chars " | TX gucu: "
  ++ DIAG_txPowerStr (Z.land reg1 3).

(** [410.125f + (float)reg2]. *)
(* [src ESP_AKS/src/e22_diagnostic.cpp:122-122 DIAG_decodeReg2] *)
Definition DIAG_frequency (reg2 : Z) : spec_float :=
  SFadd F32.prec F32.emax (F32.make 3281 (-3)) (F32.of_Z reg2).

(** [%.3f] of a positive number whose thousandths are whole. *)
Definition print_thousandths (f : spec_float) : list Z :=
  let t := F32.trunc (match f with S754_finite s m e => S754_finite s (m * 1000) e | _ => f end) in
  print_int (t / 1000) ++ [46; 48 + t / 100 mod 10; 48 + t / 10 mod 10; 48 + t mod 10].

(* [src ESP_AKS/src/e22_diagnostic.cpp:121-124 DIAG_decodeReg2] *)
Definition DIAG_decodeReg2 (reg2 : Z) : list Z :=
  let freq := DIAG_frequency reg2 in
  chars "  REG2  = 0x" ++ print_hex 2 reg2 ++ chars "  ->  kanal " ++ print_int reg2 ++ chars "  ("
  ++ print_thousandths freq ++ chars " MHz)".

(* [src ESP_AKS/src/e22_diagnostic.cpp:134-142 DIAG_decodeReg3] *)
Definition DIAG_decodeReg3 (reg3 : Z) : list Z :=
  chars "  REG3  = 0x" ++ print_hex 2 reg3 ++ chars "  ->  RSSI byte: "
  ++ bit_word reg3 7 (chars "ekleniyor") (chars "eklenmiyor") ++ chars " | mod: "
  ++ bit_word reg3 6 (chars "fixed") (chars "transparan") ++ chars " | role: "
  ++ bit_word reg3 5 (chars "acik") (chars "kapali") ++ chars " | LBT: "
  ++ bit_word reg3 4 (chars "acik") (chars "kapali").

(** ** The log *)

Inductive log_level : Set := LOGI | LOGW | LOGE.
#[export] Instance log_level_eq_dec : EqDecision log_level.
Proof. solve_decision. Defined.

Record diag (H : Type) := { d_hal : H; d_log : list (log_level * list Z) }.
Arguments d_hal {H}. Arguments d_log {H}.

Definition ESP_LOG {H} (level : log_level) (text : list Z) : M (diag H) () :=
  λ d, ((), {| d_hal := d_hal d; d_log := d_log d ++ [(level, text)] |}).

Fixpoint ESP_LOGS {H} (lines : list (log_level * list Z)) : M (diag H) () :=
  match lines with
  | [] => mret ()
  | (level, text) :: lines => ESP_LOG level text;; ESP_LOGS lines
  end.

(** A driver call. *)
Definition hw {H A} (m : M H A) : M (diag H) A :=
  λ d, let '(a, h) := m (d_hal d) in (a, {| d_hal := h; d_log := d_log d |}).

(** What is made of the answer to the read command. *)
Inductive diag_answer := ANSWER_ERROR | ANSWER_BAD (rxLen : Z) | ANSWER_REGS (regs : E22RegValues).

(* [src ESP_AKS/src/e22_diagnostic.cpp:243-251 app_main] *)
Definition classify_answer (rxLen : Z) (resp : list Z) : diag_answer :=
  if (0 <? rxLen) && e22_isErrorResponse (Some resp) (u32 rxLen) then ANSWER_ERROR
  else
    match e22_parseRegResponse (Some resp) (u32 rxLen) with
    | None => ANSWER_BAD rxLen
    | Some regs => ANSWER_REGS regs
    end.

Definition MATCHES : log_level * list Z :=
  (LOGI, chars "Sozlesme karsilastirmasi: UYUMLU (E22_CONTRACT_REGS ile birebir)").

(* [src ESP_AKS/src/e22_diagnostic.cpp:243-271 app_main] *)
Definition answer_lines (a : diag_answer) : list (log_level * list Z) :=
  match a with
  | ANSWER_ERROR => [(LOGE, chars "E22 FF FF FF hata yaniti — komut reddedildi / modul hazir degil")]
  | ANSWER_BAD rxLen =>
      [(LOGE, chars "Eksik/hatali yanit: " ++ print_int rxLen ++ chars "/"
              ++ print_int (3 + E22_REG_BLOCK_LEN) ++ chars " byte alindi");
       (LOGE, chars "Olasiliklar: modul beslenmemis | yanlis kablo | AUX bagli degil")]
  | ANSWER_REGS regs =>
      [(LOGI, chars "-------- E22 Mevcut Parametreler --------");
       (LOGI, chars "  ADDH  = 0x" ++ print_hex 2 (addh regs));
       (LOGI, chars "  ADDL  = 0x" ++ print_hex 2 (addl regs) ++ chars "  ->  modul adresi: 0x"
              ++ print_hex 4 (Z.lor (Z.shiftl (addh regs) 8) (addl regs)));
       (LOGI, chars "  NETID = 0x" ++ print_hex 2 (netid regs));
       (LOGI, DIAG_decodeReg0 (reg0 regs)); (LOGI, DIAG_decodeReg1 (reg1 regs));
       (LOGI, DIAG_decodeReg2 (reg2 regs)); (LOGI, DIAG_decodeReg3 (reg3 regs));
       (LOGI, chars "  (CRYPT geri okunamaz — bu dump'ta yok)");
       (LOGI, chars "-----------------------------------------");
       (if e22_regsEqual regs E22_CONTRACT_REGS then MATCHES
        else (LOGW, chars "Sozlesme karsilastirmasi: FARKLI — normal firmware boot'ta yazacak"))]
  end.

(** ** The program *)

Section Diagnostic.
Context {H : Type} `{EspLora H}.

(** The wait for AUX, in ticks; the same loop stands twice in [app_main]. *)
(* [src ESP_AKS/src/e22_diagnostic.cpp:194-202 app_main] *)
Fixpoint aux_loop (fuel : nat) (t0 : Z) : F H bool :=
  match fuel with
  | O => λ _, None
  | S fuel =>
      tick ← lift xTaskGetTickCount;
      if u32 (tick - t0) <? esp_pdMS_TO_TICKS DIAG_AUX_WAIT_MS then
        level ← lift (gpio_get_level LORA_AUX_PIN);
        if level =? LORA_AUX_READY_LEVEL then mret true
        else lift (vTaskDelay (esp_pdMS_TO_TICKS 10));; aux_loop fuel t0
      else mret false
  end.

(* [src ESP_AKS/src/e22_diagnostic.cpp:286-294 app_main] *)
Definition aux_wait (fuel : nat) : F (diag H) bool :=
  λ d, '(b, h) ← (t0 ← lift xTaskGetTickCount; aux_loop fuel t0) (d_hal d);
       Some (b, {| d_hal := h; d_log := d_log d |}).

(** The banner, the pins and the UART; [false] is the restart by [ESP_ERROR_CHECK]. *)
(* [src ESP_AKS/src/e22_diagnostic.cpp:148-190 app_main] *)
Definition diag_setup : M (diag H) bool :=
  ESP_LOGS [(LOGI, chars "================================================");
            (LOGI, chars "  E22-400T30D-V2 DIAGNOSTIC — READ ONLY + TX SMOKE");
            (LOGI, chars "  Hicbir kalici yazma komutu gonderilmeyecek.");
            (LOGI, chars "================================================")];;
  modePins ← hw (gpio_config (Z.lor (Z.shiftl 1 LORA_M0_PIN) (Z.shiftl 1 LORA_M1_PIN)) GPIO_MODE_OUTPUT);
  if negb modePins then mret false
  else
    auxPin ← hw (gpio_config (Z.shiftl 1 LORA_AUX_PIN) GPIO_MODE_INPUT);
    if negb auxPin then mret false
    else
      hw (gpio_set_level LORA_M0_PIN LORA_MODE_CONFIG_M0_LEVEL);;
      hw (gpio_set_level LORA_M1_PIN LORA_MODE_CONFIG_M1_LEVEL);;
      ESP_LOG LOGI (chars "M0=" ++ print_int LORA_MODE_CONFIG_M0_LEVEL ++ chars " M1="
                    ++ print_int LORA_MODE_CONFIG_M1_LEVEL ++ chars "  ->  config mode");;
      hw (uart_param_config 9600);;
      hw uart_set_pin;;
      hw (uart_driver_install 256 256);;
      mret true.

(** The read command, its answer, and the report. *)
(* [src ESP_AKS/src/e22_diagnostic.cpp:210-271 app_main] *)
Definition diag_read : M (diag H) () :=
  hw uart_flush;;
  let '(len, buf) := e22_buildReadAllCommand (Some (replicate 3 0)) 3 in
  hw (uart_write_bytes (take (Z.to_nat len) (default [] buf)));;
  ESP_LOG LOGI (chars "Gonderildi: 0xC1 0x" ++ print_hex 2 E22_REG_BLOCK_START ++ chars " 0x"
                ++ print_hex 2 E22_REG_BLOCK_LEN ++ chars "  (mevcut parametreleri oku)");;
  r ← hw (uart_read_bytes (replicate (Z.to_nat (3 + E22_REG_BLOCK_LEN)) 0)
            (esp_pdMS_TO_TICKS DIAG_RX_WAIT_MS));
  let '(rxLen, resp) := r in
  ESP_LOG LOGI (chars "--- Ham yanit (" ++ print_int rxLen ++ chars " byte) ---");;
  (if 3 + E22_REG_BLOCK_LEN <=? rxLen
   then hw (print_registers (Z.to_nat E22_REG_BLOCK_LEN) 0 resp) else mret ());;
  ESP_LOGS (answer_lines (classify_answer rxLen resp)).

(** The C string in the first bytes of a buffer. *)
Fixpoint c_string (l : list Z) : list Z :=
  match l with
  | [] => []
  | c :: l => if c =? 0 then [] else c :: c_string l
  end.

Definition ping : list Z := chars "E22_DIAG_PING" ++ [13; 10].

(** The transmission and what comes back; the buffer has a 32nd cell for the terminator. *)
(* [src ESP_AKS/src/e22_diagnostic.cpp:298-315 app_main] *)
Definition diag_smoke : M (diag H) () :=
  hw uart_flush;;
  txBytes ← hw (uart_write_bytes ping);
  ESP_LOG LOGI (chars "TX smoke: " ++ print_int txBytes ++ chars " byte gonderildi");;
  r ← hw (uart_read_bytes (replicate 31 0) (esp_pdMS_TO_TICKS DIAG_RX_WAIT_MS));
  let '(echoLen, echoBuf) := r in
  if 0 <? echoLen then
    let echoBuf := <[Z.to_nat echoLen := 0]> (echoBuf ++ [0]) in
    ESP_LOG LOGI (chars "RX smoke: " ++ print_int echoLen ++ chars " byte alindi: " ++ c_string echoBuf)
  else
    ESP_LOG LOGI (chars "RX smoke: yanit yok (karsi uc dinlemiyor olabilir — beklenen)").

(** [false]: the chip was restarted; otherwise the program is in its final loop. *)
(* [src ESP_AKS/src/e22_diagnostic.cpp:147-322 app_main] *)
Definition app_main (fuel : nat) : F (diag H) bool :=
  ok ← lift diag_setup;
  if negb ok then mret false
  else
    lift (ESP_LOG LOGI (chars "AUX HIGH bekleniyor (max " ++ print_int DIAG_AUX_WAIT_MS ++ chars " ms)..."));;
    auxReady ← aux_wait fuel;
    lift (if auxReady : bool then ESP_LOG LOGI (chars "AUX HIGH  ->  modul hazir")
          else ESP_LOG LOGW (chars "AUX " ++ print_int DIAG_AUX_WAIT_MS
                             ++ chars " ms icinde HIGH olmadi, devam ediliyor"));;
    lift (hw (vTaskDelay (esp_pdMS_TO_TICKS 50)));;
    lift diag_read;;
    lift (hw (vTaskDelay (esp_pdMS_TO_TICKS 50)));;
    lift (hw (gpio_set_level LORA_M0_PIN LORA_MODE_NORMAL_M0_LEVEL));;
    lift (hw (gpio_set_level LORA_M1_PIN LORA_MODE_NORMAL_M1_LEVEL));;
    lift (ESP_LOG LOGI (chars "M0=" ++ print_int LORA_MODE_NORMAL_M0_LEVEL ++ chars " M1="
                        ++ print_int LORA_MODE_NORMAL_M1_LEVEL
                        ++ chars "  ->  normal transparent mod geri yuklendi"));;
    normAuxReady ← aux_wait fuel;
    lift (ESP_LOG LOGI (chars "Normal mod AUX durumu: "
                        ++ (if normAuxReady : bool then chars "HIGH (hazir)"
                            else chars "HIGH olmadi (timeout)")));;
    lift diag_smoke;;
    lift (hw uart_driver_delete);;
    lift (ESP_LOGS [(LOGI, chars "================================================");
                    (LOGI, chars "  Tani tamamlandi. Normal firmware flash'leyin.");
                    (LOGI, chars "================================================")]);;
    mret true.

(** One round of the final loop. *)
(* [src ESP_AKS/src/e22_diagnostic.cpp:323-326 app_main] *)
Definition diag_idle : M (diag H) () :=
  hw (vTaskDelay (esp_pdMS_TO_TICKS 10000));;
  ESP_LOG LOGI (chars "[E22_DIAG] Normal firmware flash'leyin: pio run -e esp32dev --target upload").
End Diagnostic.

(** ** Proofs *)

(** Every line but the verdicts starts with another letter. *)
Definition other (line : log_level * list Z) : Prop := head line.2 ≠ Some 83.

Lemma matches_not_other l : Forall other l → MATCHES ∉ l.
Proof. rewrite list_elem_of_In. intros Hl Hin. by apply (proj1 (Forall_forall _ _) Hl _ Hin). Qed.

(** The verdict is printed exactly for the contract's registers. *)
Lemma matches_answer a : MATCHES ∈ answer_lines a ↔ a = ANSWER_REGS E22_CONTRACT_REGS.
Proof.
  split; [|intros ->; cbn; repeat constructor].
  destruct a as [|n|r]; cbn [answer_lines].
  - intros Hin. exfalso. revert Hin. apply matches_not_other. by repeat constructor.
  - intros Hin. exfalso. revert Hin. apply matches_not_other. by repeat constructor.
  - rewrite !elem_of_cons, elem_of_nil. intros Hin.
    assert (Hno : ∀ lv c text, MATCHES = (lv, c :: text) → c = 83) by (by intros ? ? ? [=]).
    do 10 (destruct Hin as [Hin|Hin]; [by apply Hno in Hin|]).
    destruct Hin as [Hv|[]]. destruct (e22_regsEqual_spec r E22_CONTRACT_REGS) as [Hr|]; [by rewrite Hr|done].
Qed.

(** A frequency is exact: channel [n] is 410.125 + n MHz. *)
Lemma frequency_exact reg2 : is_u8 reg2 →
  match DIAG_frequency reg2 with
  | S754_finite false m e => e < 0 ∧ Z.pos m * 1000 = (410125 + 1000 * reg2) * 2 ^ (- e)
  | _ => False
  end.
Proof.
  intros Hr.
  set (exact n := match DIAG_frequency n with
    | S754_finite false m e => (e <? 0) && (Z.pos m * 1000 =? (410125 + 1000 * n) * 2 ^ (- e))
    | _ => false end).
  assert (Hall : forallb exact (map Z.of_nat (seq 0 256)) = true) by (by vm_compute).
  rewrite forallb_forall in Hall. unfold is_u8 in Hr.
  assert (Hx : exact reg2 = true).
  { apply Hall, in_map_iff. exists (Z.to_nat reg2). split; [lia|]. apply in_seq. lia. }
  revert Hx. unfold exact. destruct (DIAG_frequency reg2) as [|[]| |[] m e]; try done.
  by rewrite andb_true_iff, Z.ltb_lt, Z.eqb_eq.
Qed.

Section Correct.
Context {H : Type} `{EspLoraLaws H}.

(** The observed state, and a log that has only grown by lines without a verdict. *)
Definition quietly (log0 : list (log_level * list Z)) (v : lora_view) (d : diag H) : Prop :=
  esp_view (d_hal d) = v ∧ ∃ l, d_log d = log0 ++ l ∧ Forall other l.

Lemma t_log log0 v level text : head text ≠ Some 83 →
  triple (quietly log0 v) (ESP_LOG level text) (λ _, quietly log0 v).
Proof.
  intros Ht d (Hv & l & El & Hl). split; [done|]. exists (l ++ [(level, text)]). cbn.
  rewrite El, app_assoc. split; [done|]. apply Forall_app. split; [done|]. by repeat constructor.
Qed.

Lemma t_logs log0 v lines : Forall other lines →
  triple (quietly log0 v) (ESP_LOGS lines) (λ _, quietly log0 v).
Proof.
  induction 1 as [|[level text] lines Hl _ IH]; cbn [ESP_LOGS]; [apply (triple_ret () (λ _, quietly log0 v))|].
  eapply triple_bind; [by apply t_log|]. intros []. exact IH.
Qed.

(** A driver call that turns the view [v] into [v'] and answers with [R]. *)
Lemma t_hw {A} log0 v v' (m : M H A) (R : A → Prop) :
  (∀ h, esp_view h = v → esp_view (m h).2 = v' ∧ R (m h).1) →
  triple (quietly log0 v) (hw m) (λ a d, quietly log0 v' d ∧ R a).
Proof.
  intros Hm d (Hv & Hl). specialize (Hm (d_hal d) Hv). unfold hw. destruct (m (d_hal d)) as [a h].
  destruct Hm. by split.
Qed.

Lemma t_hw_ {A} log0 v v' (m : M H A) : (∀ h, esp_view h = v → esp_view (m h).2 = v') →
  triple (quietly log0 v) (hw m) (λ _, quietly log0 v').
Proof. intros Hm d Hd. by destruct (t_hw log0 v v' m (λ _, True) ltac:(auto) d Hd). Qed.

Lemma f_log log0 v level text : head text ≠ Some 83 →
  ftriple (quietly log0 v) (lift (ESP_LOG level text)) (λ _, quietly log0 v).
Proof. intros. by apply ftriple_lift, t_log. Qed.
Lemma f_hw {A} log0 v v' (m : M H A) : (∀ h, esp_view h = v → esp_view (m h).2 = v') →
  ftriple (quietly log0 v) (lift (hw m)) (λ _, quietly log0 v').
Proof. intros. by apply ftriple_lift, t_hw_. Qed.

(** The wait ends within one unit of fuel per tick of the timeout and one more: every round
    crosses a tick, and the calls of a round are far shorter than the tick counter's range. *)
Lemma aux_loop_ends fuel k0 (h : H) : k0 <= tick_of h <= k0 + 1000000 → (0 < fuel)%nat →
  50 - (tick_of h - k0) < Z.of_nat fuel →
  ∃ b h', aux_loop fuel (u32 k0) h = Some (b, h') ∧ esp_view h' = esp_view h.
Proof.
  pose proof (esp_jitter_range (H:=H)) as Hj. pose proof (esp_phase_range (H:=H)) as Hp.
  revert h. induction fuel as [|fuel IH]; intros h Hk Hpos Hf; [lia|].
  cbn [aux_loop]. unfold mbind, F_bind, mret, F_ret, lift. cbn [mbind option_bind].
  destruct (esp_quiet_tick h) as [V1 T1]. pose proof (esp_tick h) as E1.
  destruct (xTaskGetTickCount h) as [tick h1]. cbn [fst snd] in *. subst tick.
  rewrite esp_ms_to_ticks by done. change (DIAG_AUX_WAIT_MS / 10) with 50.
  assert (E : u32 (u32 (tick_of h) - u32 k0) = tick_of h - k0).
  { unfold u32, wrapu. rewrite <- Zminus_mod. apply Z.mod_small. change (2 ^ 32) with 4294967296. lia. }
  rewrite E. destruct (Z.ltb_spec (tick_of h - k0) 50); [|by exists false, h1].
  destruct (esp_quiet_get_level LORA_AUX_PIN h1) as [V2 T2].
  destruct (gpio_get_level LORA_AUX_PIN h1) as [level h2]. cbn [fst snd] in *.
  destruct (level =? LORA_AUX_READY_LEVEL); [exists true, h2; by rewrite V2|].
  rewrite esp_ms_to_ticks by done. change (10 / 10) with 1.
  pose proof (esp_delay_view 1 h2) as V3. pose proof (esp_delay_ticks 1 h2 ltac:(lia)).
  pose proof (esp_delay_time 1 h2 ltac:(lia)). destruct (vTaskDelay 1 h2) as [[] h3]. cbn [fst snd] in *.
  assert (Hle : tick_of h <= tick_of h2) by (unfold tick_of; apply Z.div_le_mono; lia).
  assert (Hup : tick_of h3 <= tick_of h + 700000).
  { unfold tick_of. Z.to_euclidean_division_equations; lia. }
  destruct (IH h3) as (b & h' & -> & V); [lia..|]. exists b, h'. split; [done|congruence].
Qed.

Lemma aux_wait_ends fuel log0 v : 50 < Z.of_nat fuel →
  ftriple (quietly log0 v) (aux_wait fuel) (λ _, quietly log0 v).
Proof.
  intros Hf d (Hv & Hl). unfold aux_wait, mbind, F_bind, lift. cbn [mbind option_bind].
  pose proof (esp_jitter_range (H:=H)) as Hj. pose proof (esp_phase_range (H:=H)) as Hp.
  destruct (esp_quiet_tick (d_hal d)) as [V1 T1]. pose proof (esp_tick (d_hal d)) as E1.
  destruct (xTaskGetTickCount (d_hal d)) as [tick h1]. cbn [fst snd] in *. subst tick.
  assert (tick_of (d_hal d) <= tick_of h1 <= tick_of (d_hal d) + 300000)
    by (unfold tick_of; Z.to_euclidean_division_equations; lia).
  destruct (aux_loop_ends fuel (tick_of (d_hal d)) h1) as (b & h' & -> & V); [lia..|].
  cbn [mbind option_bind]. eexists _, _. split; [done|]. split; [cbn; congruence|done].
Qed.
(** A driver call that changes nothing observed, by its law [l]. *)
Ltac same l := apply t_hw_; intros ? Hh; etrans; [apply l|exact Hh].
Ltac fsame l := apply f_hw; intros ? Hh; etrans; [apply l|exact Hh].

Section Setup.
(** The UART accepts its configuration. *)
Hypothesis baud_ok : ∀ h : H, (uart_param_config 9600 h).1 = true.
Hypothesis pins_ok : ∀ h : H, (uart_set_pin h).1 = true.
Hypothesis install_ok : ∀ h : H, (uart_driver_install 256 256 h).1 = true.

Definition config_view (v : lora_view) : lora_view :=
  {| v with v_mode := config_mode; v_uart := uart_ready |}.

Lemma config_view_eq v :
  set_driver true (set_pins (set_baud 9600 {| v with v_mode := config_mode |})) = config_view v.
Proof. by destruct v as [? [[? ?] ?] ? ? ?]. Qed.

Lemma mode0_view v l h : esp_view (H:=H) h = v →
  esp_view (gpio_set_level LORA_M0_PIN l h).2 = {| v with v_mode := (l, (v_mode v).2) |}.
Proof. intros <-. apply esp_set_m0. Qed.
Lemma mode1_view v l m0 m1 h : esp_view (H:=H) h = {| v with v_mode := (m0, m1) |} →
  esp_view (gpio_set_level LORA_M1_PIN l h).2 = {| v with v_mode := (m0, l) |}.
Proof. intros E. by rewrite esp_set_m1, E. Qed.

Lemma diag_setup_spec log0 v :
  triple (quietly log0 v) diag_setup (λ ok, if ok : bool then quietly log0 (config_view v) else quietly log0 v).
Proof.
  unfold diag_setup. step ltac:(apply t_logs; by repeat constructor).
  step ltac:(same esp_config_view). destruct a0; cbn [negb]; [|by intros d].
  step ltac:(same esp_config_view). destruct a0; cbn [negb]; [|by intros d].
  step ltac:(apply t_hw_, mode0_view). step ltac:(apply t_hw_, mode1_view).
  step ltac:(by apply t_log).
  step ltac:(apply t_hw_; intros h E; rewrite esp_param_view, baud_ok, E; reflexivity).
  step ltac:(apply t_hw_; intros h E; rewrite esp_pin_view, pins_ok, E; reflexivity).
  step ltac:(apply t_hw_; intros h E; rewrite esp_install_view, install_ok, E; reflexivity).
  intros d Hd. cbn. by rewrite <- config_view_eq.
Qed.

Definition sent (l : list Z) (v : lora_view) : lora_view := {| v with v_sent := v_sent v ++ [l] |}.

Lemma classify_truth v rxLen resp :
  (∀ r, e22_parseRegResponse (Some resp) (u32 rxLen) = Some r → r = v_regs v) →
  ∀ r, classify_answer rxLen resp = ANSWER_REGS r → r = v_regs v.
Proof. intros Ht r. unfold classify_answer. repeat case_match; intros [= <-]; auto. Qed.

(** The report after [log0]: lines, the answer, and the registers it shows. *)
Definition reported (log0 : list (log_level * list Z)) (v : lora_view) (log1 : list (log_level * list Z)) : Prop :=
  ∃ answer l, log1 = log0 ++ l ++ answer_lines answer ∧ Forall other l ∧
    ∀ r, answer = ANSWER_REGS r → r = v_regs v.

Lemma read_spec n t v (h : H) : in_config v → esp_view h = v →
  esp_view (uart_read_bytes (replicate n 0) t h).2 = v ∧
  ∀ regs, e22_parseRegResponse (Some (uart_read_bytes (replicate n 0) t h).1.2)
    (u32 (uart_read_bytes (replicate n 0) t h).1.1) = Some regs → regs = v_regs v.
Proof. intros Hc <-. split; [apply esp_read_view|]. intros regs. by apply esp_read_truth. Qed.

Lemma logs_result (d : diag H) lines :
  (ESP_LOGS lines d).2 = {| d_hal := d_hal d; d_log := d_log d ++ lines |}.
Proof.
  revert d. induction lines as [|[level text] lines IH]; intros d; cbn [ESP_LOGS].
  { cbn. rewrite app_nil_r. by destruct d. }
  unfold mbind, M_bind. cbn. rewrite IH. cbn. by rewrite <- app_assoc.
Qed.

Lemma t_hw_or {A} log0 v v1 v2 (m : M H A) :
  (∀ h, esp_view h = v → esp_view (m h).2 = v1 ∨ esp_view (m h).2 = v2) →
  triple (quietly log0 v) (hw m) (λ _ d, quietly log0 v1 d ∨ quietly log0 v2 d).
Proof.
  intros Hm d (Hv & Hl). specialize (Hm (d_hal d) Hv). unfold hw. destruct (m (d_hal d)) as [a h].
  destruct Hm; [left|right]; by split.
Qed.

Lemma diag_read_spec log0 v : in_config v →
  triple (quietly log0 v) diag_read
    (λ _ d, ∃ log1, reported log0 v log1 ∧ quietly log1 (sent read_command v) d).
Proof.
  intros Hc. unfold diag_read. step ltac:(apply t_hw_; intros h E; rewrite (proj1 (esp_quiet_flush h)); exact E).
  cbn [e22_buildReadAllCommand Z.ltb Z.compare Pos.compare Pos.compare_cont].
  change (take (Z.to_nat 3) (default [] (Some (fill read_command (replicate 3 0))))) with read_command.
  step ltac:(apply (t_hw_ log0 v (sent read_command v)); intros h <-; by apply esp_write_read).
  step ltac:(by apply t_log).
  step ltac:(apply (t_hw log0 _ (sent read_command v) _ (λ r, ∀ regs,
    e22_parseRegResponse (Some r.2) (u32 r.1) = Some regs → regs = v_regs (sent read_command v)));
    intros h E; by apply read_spec).
  destruct a2 as [rxLen resp]. apply triple_pure. intros Ht. cbn [fst snd] in Ht.
  step ltac:(by apply t_log).
  step ltac:(case_match; [same (print_registers_view (Z.to_nat E22_REG_BLOCK_LEN) 0 resp)|
    apply (triple_ret () (λ _, quietly log0 (sent read_command v)))]).
  intros d Hd. pose proof (classify_truth (sent read_command v) rxLen resp Ht) as Hr.
  set (answer := classify_answer rxLen resp) in *. destruct Hd as (Hv & l & El & Hl).
  exists (d_log d ++ answer_lines answer). split; [exists answer, l; by rewrite El, <- app_assoc|].
  rewrite (logs_result d (answer_lines answer)). split; [done|]. exists []. by rewrite app_nil_r.
Qed.

(** The first string of the echo's report is fixed. *)
Lemma diag_smoke_spec log0 v : v_mode v = normal_mode →
  triple (quietly log0 v) diag_smoke (λ _ d, quietly log0 v d ∨ quietly log0 (sent ping v) d).
Proof.
  intros Hm. unfold diag_smoke. step ltac:(apply t_hw_; intros h E; rewrite (proj1 (esp_quiet_flush h)); exact E).
  eapply triple_bind.
  { apply (t_hw_or log0 v v (sent ping v) (uart_write_bytes ping)). intros h <-.
    rewrite esp_write_data by done. destruct (_ <? 0); auto. }
  intros n. cbn beta.
  assert (Hrest : ∀ v, triple (quietly log0 v) (ESP_LOG LOGI (chars "TX smoke: " ++ print_int n ++ chars " byte gonderildi");;
    r ← hw (uart_read_bytes (replicate 31 0) (esp_pdMS_TO_TICKS DIAG_RX_WAIT_MS));
    let '(echoLen, echoBuf) := r in
    if 0 <? echoLen then
      ESP_LOG LOGI (chars "RX smoke: " ++ print_int echoLen ++ chars " byte alindi: "
                    ++ c_string (<[Z.to_nat echoLen := 0]> (echoBuf ++ [0])))
    else ESP_LOG LOGI (chars "RX smoke: yanit yok (karsi uc dinlemiyor olabilir — beklenen)")) (λ _, quietly log0 v)).
  { intros w. step ltac:(by apply t_log). step ltac:(same esp_read_view).
    match goal with |- triple _ (let '(_, _) := ?r in _) _ => destruct r as [m buf] end.
    destruct (0 <? m); by apply t_log. }
  intros d [Hd|Hd]; [left|right]; by apply Hrest.
Qed.
(** The rest after the smoke test. *)
Lemma tail_spec log0 v :
  ftriple (quietly log0 v)
    (lift (hw uart_driver_delete);;
     lift (ESP_LOGS [(LOGI, chars "================================================");
                     (LOGI, chars "  Tani tamamlandi. Normal firmware flash'leyin.");
                     (LOGI, chars "================================================")]);;
     mret true)
    (λ ok d, ok = true ∧ quietly log0 (set_driver false v) d).
Proof.
  fstep ltac:(apply f_hw; intros h E; rewrite esp_delete_view, E; reflexivity).
  fstep ltac:(apply ftriple_lift, t_logs; by repeat constructor).
  intros d Hd. by exists true, d.
Qed.

(** What [app_main] leaves: restarted with the radio as it was, or done. *)
Definition finished (log0 : list (log_level * list Z)) (v : lora_view) (ok : bool) (d : diag H) : Prop :=
  if ok then
    ∃ log1, reported log0 v log1 ∧ ∃ pinged, (pinged = [] ∨ pinged = [ping]) ∧
      quietly log1 {| v with v_mode := normal_mode; v_uart := (Some 9600, true, false);
                             v_sent := v_sent v ++ read_command :: pinged |} d
  else quietly log0 v d.

Lemma app_main_spec fuel log0 v : 50 < Z.of_nat fuel →
  ftriple (quietly log0 v) (app_main fuel) (finished log0 v).
Proof.
  intros Hf. unfold app_main. fstep ltac:(apply ftriple_lift, diag_setup_spec).
  destruct a; cbn [negb]; [|intros d Hd; by exists false, d].
  fstep ltac:(by apply f_log). fstep ltac:(by apply aux_wait_ends).
  fstep ltac:(destruct a0; by apply f_log). fstep ltac:(fsame esp_delay_view).
  fstep ltac:(by apply ftriple_lift, diag_read_spec). apply ftriple_ex. intros log1 Hrep.
  fstep ltac:(fsame esp_delay_view). fstep ltac:(apply f_hw, mode0_view). fstep ltac:(apply f_hw, mode1_view).
  fstep ltac:(by apply f_log). fstep ltac:(by apply aux_wait_ends). fstep ltac:(by apply f_log).
  fstep ltac:(by apply ftriple_lift, diag_smoke_spec).
  apply ftriple_or; eapply ftriple_mono; try apply tail_spec; intros ? d [-> Hd]; exists log1;
    (split; [exact Hrep|]); [exists []; split; [by left|exact Hd]|exists [ping]; split; [by right|]].
  revert Hd. unfold sent, set_driver. cbn. by rewrite <- app_assoc.
Qed.

Lemma diag_idle_view n (d : diag H) :
  esp_view (d_hal (Nat.iter n (λ d, (diag_idle d).2) d)) = esp_view (d_hal d).
Proof.
  assert (Hone : ∀ d1 : diag H, esp_view (d_hal (diag_idle d1).2) = esp_view (d_hal d1)).
  { intros d1. unfold diag_idle, mbind, M_bind, hw.
    pose proof (esp_delay_view (esp_pdMS_TO_TICKS 10000) (d_hal d1)) as V.
    destruct (vTaskDelay _ (d_hal d1)) as [[] h]. exact V. }
  induction n as [|n IH]; [done|]. by rewrite Nat.iter_succ, Hone.
Qed.

(** [C26] The diagnostic image is what its banner says, read only, on a UART that accepts
    its configuration: it reaches its final loop (fuel for one round per tick of its AUX wait),
    which leaves the radio alone for ever; registers and key are untouched, the only bytes sent are the read command and, back in normal mode,
    the test message.  The registers it reports, if it reports any, are the radio's, and the
    verdict "matches the contract" is logged exactly when those are the contract's. *)
Theorem diagnostic_reads_only fuel (d : diag H) :
  DIAG_AUX_WAIT_MS / 10 < Z.of_nat fuel →
  ∃ ok d', app_main fuel d = Some (ok, d') ∧
    let v := esp_view (d_hal d) in let v' := esp_view (d_hal d') in
    v_regs v' = v_regs v ∧ v_key v' = v_key v ∧
    (∀ n, esp_view (d_hal (Nat.iter n (λ d, (diag_idle d).2) d')) = v') ∧
    if ok : bool then
      v_mode v' = normal_mode ∧
      (v_sent v' = v_sent v ++ [read_command] ∨ v_sent v' = v_sent v ++ [read_command; ping]) ∧
      ∃ answer before after, d_log d' = d_log d ++ before ++ answer_lines answer ++ after ∧
        (∀ r, answer = ANSWER_REGS r → r = v_regs v) ∧
        (MATCHES ∈ before ++ answer_lines answer ++ after ↔ answer = ANSWER_REGS E22_CONTRACT_REGS)
    else v' = v.
Proof.
  intros Hf. destruct (app_main_spec fuel (d_log d) (esp_view (d_hal d)) Hf d) as (ok & d' & E & Hd).
  { split; [done|]. exists []. by rewrite app_nil_r. }
  exists ok, d'. split; [done|]. cbv zeta. pose proof (λ n, diag_idle_view n d') as Hn.
  destruct ok; [|by destruct Hd as [<- _]; auto].
  destruct Hd as (log1 & (answer & l & -> & Hl & Hr) & pinged & Hp & Hv & l2 & El & Hl2).
  do 2 (split; [by rewrite Hv|]). split; [exact Hn|]. rewrite Hv. cbn. split; [done|].
  split; [by destruct Hp as [->| ->]; auto|].
  exists answer, l, l2. split; [by rewrite El, <- !app_assoc|]. split; [done|].
  rewrite <- matches_answer, !elem_of_app.
  pose proof (matches_not_other l Hl). pose proof (matches_not_other l2 Hl2). tauto.
Qed.
End Setup.
End Correct.

Lemma diagnostic_reads_only_witness :
  ∃ ok d', app_main 51 {| d_hal := FakeEsp.off false false; d_log := [] |} = Some (ok, d') ∧
    v_regs (esp_view (d_hal d')) = Build_E22RegValues 0 0 0 98 0 23 0.
Proof.
  destruct (diagnostic_reads_only (H:=FakeEsp.state) ltac:(done) ltac:(done) ltac:(done) 51
    {| d_hal := FakeEsp.off false false; d_log := [] |} ltac:(done)) as (ok & d' & E & Hr & _).
  exists ok, d'. split; [exact E|]. etrans; [exact Hr|done].
Defined.

(** The dump of the simulated radio, and the line of a register that differs. *)
Lemma factory_report :
  match app_main 51 {| d_hal := FakeEsp.off false false; d_log := [] |} with
  | Some (true, d) =>
      (LOGI, chars "  REG0  = 0x62  ->  UART: 9600 bps | parity: 8N1 | air rate: 2.4 kbps") ∈ d_log d ∧
      (LOGI, chars "  REG2  = 0x17  ->  kanal 23  (433.125 MHz)") ∈ d_log d ∧
      v_sent (esp_view (d_hal d)) = [read_command; ping]
  | _ => False
  end.
Proof.
  set (r := app_main 51 _). vm_compute in r. subst r. cbv beta iota.
  split; [|split]; [apply (bool_decide_unpack _); by vm_compute..|done].
Qed.
