(* ===== verification/HMIHelpers.v ===== *)
(** [lib/HMIHelpers]: the texts and sentinels of the display, and the two senders that
    write a component's value to the Nextion panel when it changed.

    Texts are lists of ASCII codes.  The UART driver is the class [HmiUart], whose
    contract says which bytes went out and which came in. *)
From S2P Require Import Prelude SystemConfig Telemetry.
From stdpp Require Export strings.
Open Scope Z_scope.

(** The codes of a text. *)
Definition text (s : string) : list Z :=
  map (λ c, Z.of_nat (Ascii.nat_of_ascii c)) (String.list_ascii_of_string s).

(* [src ESP_AKS/lib/HMIHelpers/HMIHelpers.h:15-22 HMI_VcuState] *)
Inductive HMI_VcuState : Set :=
  HMI_INIT | HMI_IDLE | HMI_READY | HMI_DRIVE | HMI_EMERGENCY_STOP | HMI_FAULT.

(* [src ESP_AKS/lib/HMIHelpers/HMIHelpers.h:24-34 HMI_getStateText] *)
Definition HMI_getStateText (s : HMI_VcuState) : list Z :=
  match s with
  | HMI_INIT => text "INIT"
  | HMI_IDLE => text "IDLE"
  | HMI_READY => text "READY"
  | HMI_DRIVE => text "DRIVE"
  | HMI_EMERGENCY_STOP => text "ESTOP"
  | HMI_FAULT => text "FAULT"
  end.

(** [%02X] of a byte. *)
Definition hex_digit (d : Z) : Z := if d <? 10 then 48 + d else 55 + d.
Definition print_hex2 (b : Z) : list Z := [hex_digit (b / 16); hex_digit (b mod 16)].

(** The string left in a buffer of [outputSize] characters; [None] when it is not written. *)
(* [src ESP_AKS/lib/HMIHelpers/HMIHelpers.h:36-41 HMI_formatErrorText] *)
Definition HMI_formatErrorText (errorFlags : Z) (outputSize : nat) : option (list Z) :=
  if (outputSize =? 0)%nat then None
  else Some (take (outputSize - 1) (text "0x" ++ print_hex2 errorFlags)).

(* [src ESP_AKS/lib/HMIHelpers/HMIHelpers.h:43-48 HMI_getValidityText] *)
Definition HMI_getValidityText (dataValid timeoutActive : bool) : list Z :=
  if timeoutActive then text "TIMEOUT" else if dataValid then text "VALID" else text "INVALID".

(* [src ESP_AKS/lib/HMIHelpers/HMIHelpers.h:50-52 HMI_getContactorText] *)
Definition HMI_getContactorText (contactorClosed : bool) : list Z :=
  if contactorClosed then text "CLOSED" else text "OPEN".

(* [src ESP_AKS/lib/HMIHelpers/HMIHelpers.h:64-64 HMI_BATTERY_NO_DATA] *)
Definition HMI_BATTERY_NO_DATA : Z := 255.
(* [src ESP_AKS/lib/HMIHelpers/HMIHelpers.h:65-65 HMI_TEMP_NO_DATA] *)
Definition HMI_TEMP_NO_DATA : Z := -127.
(* [src ESP_AKS/lib/HMIHelpers/HMIHelpers.h:66-66 HMI_CELL_VOLTAGE_NO_DATA] *)
Definition HMI_CELL_VOLTAGE_NO_DATA : Z := 65535.
(* [src ESP_AKS/lib/HMIHelpers/HMIHelpers.h:68-68 HMI_SOC_SOURCE_VERIFIED] *)
Definition HMI_SOC_SOURCE_VERIFIED : bool := true.
(* [src ESP_AKS/lib/HMIHelpers/HMIHelpers.h:69-69 HMI_TEMP_SOURCE_VERIFIED] *)
Definition HMI_TEMP_SOURCE_VERIFIED : bool := true.

(* [src ESP_AKS/lib/HMIHelpers/HMIHelpers.h:72-79 HMI_batteryDisplayValue] *)
Definition HMI_batteryDisplayValue (sourceVerified bmsDataValid : bool) (socHundredths : Z) : Z :=
  if negb sourceVerified || negb bmsDataValid then HMI_BATTERY_NO_DATA
  else let percent := u16 (socHundredths / 100) in if 100 <? percent then 100 else u8 percent.

(* [src ESP_AKS/lib/HMIHelpers/HMIHelpers.h:81-87 HMI_temperatureDisplayValue] *)
Definition HMI_temperatureDisplayValue (sourceVerified bmsDataValid : bool) (temperatureC : Z) : Z :=
  if negb sourceVerified || negb bmsDataValid then HMI_TEMP_NO_DATA else temperatureC.

(* [src ESP_AKS/lib/HMIHelpers/HMIHelpers.h:101-103 HMI_packVoltageToXfloat] *)
Definition HMI_packVoltageToXfloat (packVoltageDeciV : Z) : Z := packVoltageDeciV.
(* [src ESP_AKS/lib/HMIHelpers/HMIHelpers.h:108-110 HMI_packCurrentToXfloat] *)
Definition HMI_packCurrentToXfloat (packCurrentCentiA : Z) : Z := packCurrentCentiA.

(** ** The UART of the panel *)

Class HmiUart (W : Type) := {
  hmi_param_config : M W bool;               (* == ESP_OK *)
  hmi_set_pin : M W bool;
  hmi_driver_install : M W bool;
  hmi_write : list Z → M W Z;                (* uart_write_bytes *)
  hmi_read : nat → Z → M W (Z * list Z);     (* uart_read_bytes: size, timeout; count, bytes *)
  hmi_delay : Z → M W ();                    (* vTaskDelay, milliseconds *)
  hmi_wdt_reset : M W ();                    (* esp_task_wdt_reset *)
}.

(** [hmi_tx]: bytes written so far; [hmi_rx]: bytes handed to the program so far;
    [hmi_rx_left]: how many more can arrive before the program next sleeps. *)
Class HmiUartContract (W : Type) `{HmiUart W} := {
  hmi_tx : W → list Z;
  hmi_rx : W → list Z;
  hmi_rx_left : W → nat;
  hmi_write_tx bs w : hmi_tx (hmi_write bs w).2 = hmi_tx w ++ bs;
  hmi_write_rx bs w : hmi_rx (hmi_write bs w).2 = hmi_rx w;
  hmi_read_spec n t w : let '((k, bs), w') := hmi_read n t w in
    hmi_tx w' = hmi_tx w ∧
    ((k <= 0 ∧ hmi_rx w' = hmi_rx w ∧ (hmi_rx_left w' <= hmi_rx_left w)%nat) ∨
     (0 < k ∧ k = Z.of_nat (length bs) ∧ (length bs <= n)%nat ∧ Forall is_u8 bs ∧
      hmi_rx w' = hmi_rx w ++ bs ∧ (hmi_rx_left w' < hmi_rx_left w)%nat));
}.

Definition end_bytes : list Z := [255; 255; 255].

(** [component.val=value] and [component.txt="value"], without the end bytes. *)
Definition numeric_command (component : list Z) (value : Z) : list Z :=
  component ++ text ".val=" ++ print_int value.
Definition text_command (component value : list Z) : list Z :=
  component ++ text ".txt=" ++ [34] ++ value ++ [34].

(** What [snprintf] leaves in a buffer of [size] characters, and the bytes that a write of
    [len] of them sends ([len] may exceed what was stored, never the buffer). *)
Definition snprintf_buf (size : nat) (s : list Z) : list Z :=
  take (size - 1) s ++ replicate (size - length (take (size - 1) s)) 0.

Section Senders.
Context {W : Type} `{HmiUart W}.

(* [src ESP_AKS/lib/HMIHelpers/HMIHelpers.cpp:8-12 HMI_sendEndBytes] *)
Definition HMI_sendEndBytes : M W () := hmi_write end_bytes;; mret ().

(* [src ESP_AKS/lib/HMIHelpers/HMIHelpers.cpp:14-28 HMI_sendNumericIfChanged] *)
Definition HMI_sendNumericIfChanged (component : list Z) (value lastValue : Z) (force : bool) : M W () :=
  if negb force && (value =? lastValue) then mret ()
  else
    let command := numeric_command component value in
    let commandLen := Z.of_nat (length command) in
    if commandLen <=? 0 then mret ()
    else hmi_write (take (Z.to_nat commandLen) (snprintf_buf 48 command));; HMI_sendEndBytes.

(* [src ESP_AKS/lib/HMIHelpers/HMIHelpers.cpp:30-44 HMI_sendTextIfChanged] *)
Definition HMI_sendTextIfChanged (component value lastValue : list Z) (force : bool) : M W () :=
  if negb force && bool_decide (value = lastValue) then mret ()
  else
    let command := text_command component value in
    let commandLen := Z.of_nat (length command) in
    if commandLen <=? 0 then mret ()
    else hmi_write (take (Z.to_nat commandLen) (snprintf_buf 64 command));; HMI_sendEndBytes.
End Senders.

(** ** Proofs *)

(** A command shorter than the buffer goes out unchanged. *)
Lemma snprintf_fits size s : (length s < size)%nat →
  take (Z.to_nat (Z.of_nat (length s))) (snprintf_buf size s) = s.
Proof.
  intros. unfold snprintf_buf. rewrite Nat2Z.id, (take_ge s) by lia.
  by rewrite take_app_length.
Qed.

Section SenderLemmas.
Context {W : Type} `{HmiUartContract W}.

(** A sender writes nothing when the value is unchanged, and otherwise the whole command
    followed by the end bytes. *)
Lemma write_command_tx s w :
  hmi_tx (W:=W) ((hmi_write s;; HMI_sendEndBytes) w).2 = hmi_tx w ++ s ++ end_bytes ∧
  hmi_rx ((hmi_write s;; HMI_sendEndBytes) w).2 = hmi_rx w.
Proof.
  unfold HMI_sendEndBytes, mbind, M_bind, mret, M_ret.
  pose proof (hmi_write_tx s w). pose proof (hmi_write_rx s w). destruct (hmi_write s w) as [? w1].
  pose proof (hmi_write_tx end_bytes w1). pose proof (hmi_write_rx end_bytes w1).
  destruct (hmi_write end_bytes w1) as [? w2]. cbn in *. rewrite app_assoc. split; congruence.
Qed.

Lemma sendNumeric_tx c v lv force w : is_i32 v → (length c <= 10)%nat →
  let w' := (HMI_sendNumericIfChanged c v lv force w).2 in
  hmi_tx (W:=W) w' = hmi_tx w ++ (if negb force && (v =? lv) then [] else numeric_command c v ++ end_bytes) ∧
  hmi_rx w' = hmi_rx w.
Proof.
  intros Hv Hc. unfold HMI_sendNumericIfChanged. destruct (negb force && (v =? lv)); cbn [snd];
    [by rewrite app_nil_r|].
  pose proof (print_signed_length v 9 ltac:(widths; cbn; lia)) as Hp.
  assert (Hl : (6 <= length (numeric_command c v) <= 26)%nat).
  { unfold numeric_command. rewrite !length_app. change (length (text ".val=")) with 5%nat.
    destruct (print_int v) eqn:E; [by apply print_int_not_nil in E|]. cbn [length] in *. lia. }
  rewrite (proj2 (Z.leb_gt _ 0)) by lia. rewrite snprintf_fits by lia. apply write_command_tx.
Qed.

Lemma sendText_tx c v lv force w : (length c <= 10)%nat → (length v <= 10)%nat →
  let w' := (HMI_sendTextIfChanged c v lv force w).2 in
  hmi_tx (W:=W) w' = hmi_tx w ++ (if negb force && bool_decide (v = lv) then []
                                  else text_command c v ++ end_bytes) ∧
  hmi_rx w' = hmi_rx w.
Proof.
  intros Hc Hv. unfold HMI_sendTextIfChanged. destruct (negb force && bool_decide (v = lv)); cbn [snd];
    [by rewrite app_nil_r|].
  assert (Hl : (7 <= length (text_command c v) <= 27)%nat).
  { unfold text_command. rewrite !length_app. change (length (text ".txt=")) with 5%nat. cbn [length]. lia. }
  rewrite (proj2 (Z.leb_gt _ 0)) by lia. rewrite snprintf_fits by lia. apply write_command_tx.
Qed.
End SenderLemmas.
