(* ===== verification/DisplayHMI.v ===== *)
(** [lib/DisplayHMI]: the display object: start-up, the change-driven refresh of the
    screen, and the reader of the panel's touch commands.

    The two function-local statics of [readTouchCommand] are the record [TouchParser]; the
    object is the only caller.  Loops that read until the UART is empty take fuel: the
    contract of the driver bounds what can still arrive. *)
From S2P Require Import Prelude SystemConfig Telemetry HMIHelpers.
Open Scope Z_scope.

(* [src ESP_AKS/lib/DisplayHMI/DisplayHMI.h:10-23 HMI_DisplayData] *)
Record HMI_DisplayData := {
  HMI_currentSpeed : Z;             (* uint16_t *)
  HMI_currentBattery : Z;           (* uint8_t *)
  HMI_motorRpm : Z;                 (* uint16_t *)
  HMI_motorTorqueFeedback : Z;      (* int16_t *)
  HMI_motorErrorFlags : Z;          (* uint8_t *)
  HMI_motorDataValid : bool;
  HMI_motorTimeoutActive : bool;
  HMI_bmsTemperatureC : Z;          (* int16_t *)
  HMI_bmsPackVoltageDeciV : Z;      (* uint16_t *)
  HMI_bmsPackCurrentCentiA : Z;     (* int32_t *)
  HMI_contactorClosed : bool;
  HMI_vcuState : HMI_VcuState;
}.

(* [src ESP_AKS/lib/DisplayHMI/DisplayHMI.cpp:15-15 HMI_DisplayData] *)
Definition HMI_DisplayData_zero : HMI_DisplayData := {|
  HMI_currentSpeed := 0; HMI_currentBattery := 0; HMI_motorRpm := 0;
  HMI_motorTorqueFeedback := 0; HMI_motorErrorFlags := 0; HMI_motorDataValid := false;
  HMI_motorTimeoutActive := false; HMI_bmsTemperatureC := 0; HMI_bmsPackVoltageDeciV := 0;
  HMI_bmsPackCurrentCentiA := 0; HMI_contactorClosed := false; HMI_vcuState := HMI_INIT |}.

(* [src ESP_AKS/lib/DisplayHMI/DisplayHMI.h:25-38 DisplayHMI] *)
Record DisplayHMI := {
  HMI_isInitialized : bool;
  HMI_hasCachedScreen : bool;
  HMI_lastScreenData : HMI_DisplayData;
}.

(* [src ESP_AKS/lib/DisplayHMI/DisplayHMI.cpp:12-15 DisplayHMI] *)
Definition newDisplayHMI : DisplayHMI :=
  {| HMI_isInitialized := false; HMI_hasCachedScreen := false;
     HMI_lastScreenData := HMI_DisplayData_zero |}.

(** [static int rxState; static uint8_t pendingCmd] *)
(* [src ESP_AKS/lib/DisplayHMI/DisplayHMI.cpp:138-139 readTouchCommand] *)
Record TouchParser := { rxState : Z; pendingCmd : Z }.
Definition touch_initial : TouchParser := {| rxState := 0; pendingCmd := 0 |}.

(** One byte through the frame [0x5A, command, ~command]. *)
(* [src ESP_AKS/lib/DisplayHMI/DisplayHMI.cpp:148-176 readTouchCommand] *)
Definition touch_byte (rxByte : Z) (p : TouchParser) : option Z * TouchParser :=
  if (rxByte =? 255) || (rxByte =? 0) then (None, {| p with rxState := 0 |})
  else if rxState p =? 0 then
    (None, if rxByte =? 90 then {| p with rxState := 1 |} else p)
  else if rxState p =? 1 then
    (None, {| rxState := 2; pendingCmd := rxByte |})
  else if rxState p =? 2 then
    let expectedChecksum := u8 (Z.lnot (pendingCmd p)) in
    let p := {| p with rxState := 0 |} in
    if rxByte =? expectedChecksum then (Some (pendingCmd p), p) else (None, p)
  else (None, p).

Section Display.
Context {W : Type} `{HmiUart W}.

(* [src ESP_AKS/lib/DisplayHMI/DisplayHMI.cpp:63-68 HMI_drainRxBuffer] *)
Fixpoint HMI_drainRxBuffer (fuel : nat) : F W () :=
  match fuel with
  | O => λ _, None
  | S fuel =>
      r ← lift (hmi_read 32 0);
      if 0 <? r.1 then HMI_drainRxBuffer fuel else mret ()
  end.

(** Answers the return value and the new object. *)
(* [src ESP_AKS/lib/DisplayHMI/DisplayHMI.cpp:17-61 begin] *)
Definition display_begin (fuel : nat) (d : DisplayHMI) : F W (bool * DisplayHMI) :=
  if HMI_isInitialized d then mret (true, d)
  else
    ok ← lift hmi_param_config;
    if negb ok then mret (false, d)
    else
      ok ← lift hmi_set_pin;
      if negb ok then mret (false, d)
      else
        ok ← lift hmi_driver_install;
        if negb ok then mret (false, d)
        else
          let d := {| d with HMI_isInitialized := true |} in
          HMI_drainRxBuffer fuel;;
          lift (hmi_write (text "bkcmd=0"));;
          lift HMI_sendEndBytes;;
          lift (hmi_delay 50);;
          HMI_drainRxBuffer fuel;;
          mret (true, d).

Definition error_text (flags : Z) : list Z := default [] (HMI_formatErrorText flags 16).

(* [src ESP_AKS/lib/DisplayHMI/DisplayHMI.cpp:70-124 updateScreen] *)
Definition updateScreen (x : HMI_DisplayData) (d : DisplayHMI) : M W DisplayHMI :=
  if negb (HMI_isInitialized d) then mret d
  else
    let force := negb (HMI_hasCachedScreen d) in
    let l := HMI_lastScreenData d in
    HMI_sendNumericIfChanged (text "speed") (HMI_currentSpeed x) (HMI_currentSpeed l) force;;
    HMI_sendNumericIfChanged (text "bat") (HMI_currentBattery x) (HMI_currentBattery l) force;;
    HMI_sendNumericIfChanged (text "rpm") (HMI_motorRpm x) (HMI_motorRpm l) force;;
    HMI_sendNumericIfChanged (text "torque") (HMI_motorTorqueFeedback x)
      (HMI_motorTorqueFeedback l) force;;
    HMI_sendNumericIfChanged (text "temp") (HMI_bmsTemperatureC x) (HMI_bmsTemperatureC l) force;;
    HMI_sendNumericIfChanged (text "packv") (HMI_packVoltageToXfloat (HMI_bmsPackVoltageDeciV x))
      (HMI_packVoltageToXfloat (HMI_bmsPackVoltageDeciV l)) force;;
    HMI_sendNumericIfChanged (text "packa") (HMI_packCurrentToXfloat (HMI_bmsPackCurrentCentiA x))
      (HMI_packCurrentToXfloat (HMI_bmsPackCurrentCentiA l)) force;;
    HMI_sendTextIfChanged (text "state") (HMI_getStateText (HMI_vcuState x))
      (HMI_getStateText (HMI_vcuState l)) force;;
    HMI_sendTextIfChanged (text "motorErr") (error_text (HMI_motorErrorFlags x))
      (error_text (HMI_motorErrorFlags l)) force;;
    HMI_sendTextIfChanged (text "valid")
      (HMI_getValidityText (HMI_motorDataValid x) (HMI_motorTimeoutActive x))
      (HMI_getValidityText (HMI_motorDataValid l) (HMI_motorTimeoutActive l)) force;;
    HMI_sendTextIfChanged (text "contactor") (HMI_getContactorText (HMI_contactorClosed x))
      (HMI_getContactorText (HMI_contactorClosed l)) force;;
    mret {| d with HMI_lastScreenData := x; HMI_hasCachedScreen := true |}.

(** The [do ... while] loop, from a byte already read. *)
(* [src ESP_AKS/lib/DisplayHMI/DisplayHMI.cpp:147-179 readTouchCommand] *)
Fixpoint touch_loop (fuel : nat) (rxByte : Z) (p : TouchParser) : F W (option Z * TouchParser) :=
  match fuel with
  | O => λ _, None
  | S fuel =>
      let '(command, p) := touch_byte rxByte p in
      match command with
      | Some c => mret (Some c, p)
      | None =>
          r ← lift (hmi_read 1 0);
          if r.1 =? 1 then touch_loop fuel (byte_at r.2 0) p else mret (None, p)
      end
  end.

(* [src ESP_AKS/lib/DisplayHMI/DisplayHMI.cpp:126-180 readTouchCommand] *)
Definition readTouchCommand (fuel : nat) (d : DisplayHMI) (p : TouchParser) :
    F W (option Z * TouchParser) :=
  if negb (HMI_isInitialized d) then mret (None, p)
  else
    r ← lift (hmi_read 1 10);
    if r.1 <=? 0 then mret (None, p) else touch_loop fuel (byte_at r.2 0) p.
End Display.

(** ** Touch frames *)

(** What the parser's state says of the bytes read so far. *)
Definition touch_inv (p : TouchParser) (log : list Z) : Prop :=
  rxState p = 0 ∨
  rxState p = 1 ∧ (∃ l, log = l ++ [90]) ∨
  rxState p = 2 ∧ 0 < pendingCmd p < 255 ∧ ∃ l, log = l ++ [90; pendingCmd p].

(** The last three bytes read are a well-formed frame for command [c]. *)
Definition framed (c : Z) (log : list Z) : Prop :=
  0 < c < 255 ∧ ∃ l, log = l ++ [90; c; 255 - c].

Lemma complement_byte c : is_u8 c → u8 (Z.lnot c) = 255 - c.
Proof. intros. unfold Z.lnot. zlia. Qed.

Lemma touch_byte_step b p log : is_u8 b → touch_inv p log →
  let '(r, p') := touch_byte b p in
  touch_inv p' (log ++ [b]) ∧ match r with Some c => framed c (log ++ [b]) | None => True end.
Proof.
  intros Hb Hp. unfold touch_byte.
  destruct (Z.eqb_spec b 255), (Z.eqb_spec b 0); cbn [orb]; try (by split; [left|]).
  assert (0 < b < 255) by (unfold is_u8 in Hb; lia).
  destruct Hp as [Hs|[[Hs [l ->]]|(Hs & Hc & l & ->)]]; rewrite Hs; cbn.
  - destruct (Z.eqb_spec b 90) as [->|]; (split; [|done]); [|by left]. right; left. split; [done|by exists log].
  - split; [|done]. right; right. cbn. split; [done|]. split; [done|]. exists l. by rewrite <- app_assoc.
  - rewrite complement_byte by (unfold is_u8; lia).
    destruct (Z.eqb_spec b (255 - pendingCmd p)) as [->|]; (split; [by left|]); [|done].
    split; [done|]. exists l. by rewrite <- app_assoc.
Qed.

(** The parser on a list of bytes: it stops behind the first complete frame and leaves the
    rest. *)
Fixpoint touch_run (p : TouchParser) (bs : list Z) : option Z * TouchParser * list Z :=
  match bs with
  | [] => (None, p, [])
  | b :: bs =>
      let '(r, p) := touch_byte b p in
      match r with Some c => (Some c, p, bs) | None => touch_run p bs end
  end.

Lemma touch_run_inv bs p log r p' : Forall is_u8 bs → touch_inv p log → touch_run p bs = (r, p', []) →
  touch_inv p' (log ++ bs) ∧ match r with Some c => framed c (log ++ bs) | None => True end.
Proof.
  intros Hb. revert p log. induction Hb as [|b bs Hb _ IH]; intros p log Hp; cbn [touch_run].
  { intros [= <- <-]. by rewrite app_nil_r. }
  pose proof (touch_byte_step b p log Hb Hp) as Hs. destruct (touch_byte b p) as [[c|] p1].
  - by intros [= <- <- ->].
  - intros E. replace (log ++ b :: bs) with ((log ++ [b]) ++ bs) by (by rewrite <- app_assoc).
    apply (IH p1); [apply Hs|done].
Qed.

(** A frame for a proper command, received in one piece by an idle parser, is reported. *)
Lemma touch_frame_accepted c q : 0 < c < 255 → rxState q = 0 →
  touch_run q [90; c; 255 - c] = (Some c, {| rxState := 0; pendingCmd := c |}, []).
Proof.
  intros Hc Hq. cbn [touch_run].
  assert (E1 : touch_byte 90 q = (None, {| q with rxState := 1 |})) by (unfold touch_byte; by rewrite Hq).
  assert (E2 : touch_byte c {| q with rxState := 1 |} = (None, {| rxState := 2; pendingCmd := c |})).
  { unfold touch_byte. by rewrite (proj2 (Z.eqb_neq c 255)), (proj2 (Z.eqb_neq c 0)) by lia. }
  rewrite E1, E2. unfold touch_byte.
  rewrite (proj2 (Z.eqb_neq (255 - c) 255)), (proj2 (Z.eqb_neq (255 - c) 0)) by lia.
  cbn -[u8 Z.sub Z.lnot]. rewrite complement_byte by (unfold is_u8; lia). by rewrite Z.eqb_refl.
Qed.

(** The parser does not look for a header inside a frame: after a lone header, or a frame
    that lost its last byte, an EMERGENCY STOP frame is not recognised. *)
Lemma stray_header_loses_estop :
  (touch_run touch_initial [90; 90; 3; 252]).1.1 = None ∧
  (touch_run touch_initial [90; 1; 90; 3; 252]).1.1 = None.
Proof. by vm_compute. Qed.

Section TouchProofs.
Context {W : Type} `{HmiUartContract W}.

Lemma touch_loop_spec fuel b p w : (hmi_rx_left (W:=W) w < fuel)%nat →
  ∃ r p' w' bs, (∀ fuel', (fuel <= fuel')%nat → touch_loop fuel' b p w = Some ((r, p'), w')) ∧
    hmi_tx w' = hmi_tx w ∧ hmi_rx w' = hmi_rx w ++ bs ∧ Forall is_u8 bs ∧ touch_run p (b :: bs) = (r, p', []).
Proof.
  revert b p w. induction fuel as [|fuel IH]; intros b p w Hf; [lia|].
  cbn [touch_run]. destruct (touch_byte b p) as [[c|] p1] eqn:Eb.
  - exists (Some c), p1, w, []. rewrite app_nil_r. split_and!; try done.
    intros [|n] Hn; [lia|]. cbn [touch_loop]. by rewrite Eb.
  - pose proof (hmi_read_spec 1 0 w) as Hr. destruct (hmi_read 1 0 w) as [[k bs] w1] eqn:E.
    assert (Hstep : ∀ n, touch_loop (S n) b p w =
      if k =? 1 then touch_loop n (byte_at bs 0) p1 w1 else Some ((None, p1), w1)).
    { intros n. cbn [touch_loop]. unfold mbind, F_bind, mret, F_ret, lift. rewrite Eb, E. cbn. by destruct (k =? 1). }
    destruct Hr as [Htx [(Hk & Hrx & Hl)|(Hk & Hkl & Hlen & Hu & Hrx & Hl)]].
    + exists None, p1, w1, []. rewrite Hrx, app_nil_r. split_and!; try done.
      intros [|n] Hn; [lia|]. by rewrite Hstep, (proj2 (Z.eqb_neq k 1)) by lia.
    + destruct bs as [|b1 [|]]; cbn in Hkl, Hlen; [lia| |lia]. subst k.
      destruct (IH b1 p1 w1) as (r & p' & w' & bs & E1 & Ht & Hbs & Hub & Hrun); [lia|].
      exists r, p', w', (b1 :: bs). rewrite Hbs, Hrx, <- app_assoc.
      split_and!; [|congruence|done|by inversion Hu; constructor|exact Hrun].
      intros [|n] Hn; [lia|]. rewrite Hstep. apply E1. lia.
Qed.

(** The reader always returns, sends nothing, and has put what it took from the UART
    through the parser. *)
Lemma readTouchCommand_spec fuel d p w : (hmi_rx_left (W:=W) w < fuel)%nat →
  ∃ r p' w' bs, (∀ fuel', (fuel <= fuel')%nat → readTouchCommand fuel' d p w = Some ((r, p'), w')) ∧
    hmi_tx w' = hmi_tx w ∧ hmi_rx w' = hmi_rx w ++ bs ∧ Forall is_u8 bs ∧ touch_run p bs = (r, p', []).
Proof.
  intros Hf. unfold readTouchCommand, mbind, F_bind, mret, F_ret, lift. cbn.
  destruct (HMI_isInitialized d); cbn; [|by exists None, p, w, []; rewrite app_nil_r].
  pose proof (hmi_read_spec 1 10 w) as Hr. destruct (hmi_read 1 10 w) as [[k bs] w1]. cbn.
  destruct Hr as [Htx [(Hk & Hrx & Hl)|(Hk & Hkl & Hlen & Hu & Hrx & Hl)]].
  - rewrite (proj2 (Z.leb_le k 0)) by lia. exists None, p, w1, []. by rewrite Hrx, app_nil_r.
  - rewrite (proj2 (Z.leb_gt k 0)) by lia. destruct bs as [|b1 [|]]; cbn in Hkl, Hlen; [lia| |lia].
    destruct (touch_loop_spec fuel b1 p w1) as (r & p' & w' & bs & E & Ht & Hbs & Hub & Hrun); [lia|].
    exists r, p', w', (b1 :: bs). change (byte_at [b1] 0) with b1. rewrite Hbs, Hrx, <- app_assoc.
    split_and!; [exact E|congruence|done|by inversion Hu; constructor|exact Hrun].
Qed.

(** [C27] A touch command is reported only when the last three bytes received are exactly
    [0x5A], the command and its complement, and such a frame that arrives alone at an idle
    parser is reported; the reader always returns (within the bytes that can arrive), sends
    nothing, takes no byte behind the frame it reports, keeps its invariant from call to
    call, so that frames may be split between calls, and can never report the values 0x00
    and 0xFF. *)
Theorem touch_commands_framed fuel d p w :
  touch_inv p (hmi_rx (W:=W) w) → (hmi_rx_left w < fuel)%nat →
  ∃ r p' w' bs, readTouchCommand fuel d p w = Some ((r, p'), w') ∧ hmi_tx w' = hmi_tx w ∧
    hmi_rx w' = hmi_rx w ++ bs ∧ touch_run p bs = (r, p', []) ∧ touch_inv p' (hmi_rx w') ∧
    match r with Some c => framed c (hmi_rx w') | None => True end ∧
    ∀ c, 0 < c < 255 → rxState p = 0 → bs = [90; c; 255 - c] → r = Some c.
Proof.
  intros Hp Hf. destruct (readTouchCommand_spec fuel d p w Hf) as (r & p' & w' & bs & E & Ht & Hbs & Hu & Hrun).
  exists r, p', w', bs. rewrite Hbs. destruct (touch_run_inv bs p _ r p' Hu Hp Hrun) as [Hi Hm].
  split_and!; try done; [by apply E|]. intros c Hc Hs ->. rewrite touch_frame_accepted in Hrun by done. congruence.
Qed.

(** ** Start-up *)

Lemma drain_ends fuel w : (hmi_rx_left (W:=W) w < fuel)%nat →
  ∃ w', ∀ fuel', (fuel <= fuel')%nat → HMI_drainRxBuffer fuel' w = Some ((), w').
Proof.
  revert w. induction fuel as [|fuel IH]; intros w Hf; [lia|].
  pose proof (hmi_read_spec 32 0 w) as Hr. destruct (hmi_read 32 0 w) as [[k bs] w1] eqn:E.
  assert (Hstep : ∀ n, HMI_drainRxBuffer (S n) w = if 0 <? k then HMI_drainRxBuffer n w1 else Some ((), w1)).
  { intros n. cbn [HMI_drainRxBuffer]. unfold mbind, F_bind, mret, F_ret, lift. rewrite E. cbn. by destruct (0 <? k). }
  destruct Hr as [_ [(Hk & _ & _)|(Hk & _ & _ & _ & _ & Hl)]].
  - exists w1. intros [|n] Hn; [lia|]. by rewrite Hstep, (proj2 (Z.ltb_ge 0 k)) by lia.
  - destruct (IH w1) as [w' Hw]; [lia|]. exists w'. intros [|n] Hn; [lia|].
    rewrite Hstep, (proj2 (Z.ltb_lt 0 k)) by lia. apply Hw. lia.
Qed.

(** [begin] returns, whatever the drivers answer: with success and an initialised object, or
    with the object as it was. *)
Lemma display_begin_ends d w : ∃ n ok d' (w' : W), (∀ fuel, (n <= fuel)%nat → display_begin fuel d w = Some ((ok, d'), w')) ∧
  HMI_isInitialized d' = ok ∧ (ok = false → d' = d).
Proof.
  unfold display_begin. destruct (HMI_isInitialized d) eqn:Hd.
  { exists 0%nat, true, d, w. by split. }
  unfold mbind, F_bind, mret, F_ret, lift. cbn -[text].
  destruct (hmi_param_config w) as [[] w1]; [|exists 0%nat, false, d, w1; by split]. cbn -[text].
  destruct (hmi_set_pin w1) as [[] w2]; [|exists 0%nat, false, d, w2; by split]. cbn -[text].
  destruct (hmi_driver_install w2) as [[] w3]; [|exists 0%nat, false, d, w3; by split]. cbn -[text].
  destruct (drain_ends (S (hmi_rx_left w3)) w3) as [w4 H4]; [lia|].
  destruct (hmi_write (text "bkcmd=0") w4) as [k w5] eqn:E5.
  destruct (HMI_sendEndBytes w5) as [u w6] eqn:E6. destruct (hmi_delay 50 w6) as [u' w7] eqn:E7.
  destruct (drain_ends (S (hmi_rx_left w7)) w7) as [w8 H8]; [lia|].
  exists (S (hmi_rx_left w3) + S (hmi_rx_left w7))%nat, true, {| d with HMI_isInitialized := true |}, w8.
  split; [|done]. intros fuel Hf. rewrite H4 by lia. cbn -[text]. rewrite E5, E6, E7. by rewrite H8 by lia.
Qed.
End TouchProofs.

(** ** Refreshing the screen *)

Inductive shown := Num (v : Z) | Txt (s : list Z).
#[export] Instance shown_eq_dec : EqDecision shown.
Proof. solve_decision. Defined.

(** The components of the page and what they show for a data set. *)
Definition fields (x : HMI_DisplayData) : list (list Z * shown) :=
  [(text "speed", Num (HMI_currentSpeed x)); (text "bat", Num (HMI_currentBattery x));
   (text "rpm", Num (HMI_motorRpm x)); (text "torque", Num (HMI_motorTorqueFeedback x));
   (text "temp", Num (HMI_bmsTemperatureC x)); (text "packv", Num (HMI_bmsPackVoltageDeciV x));
   (text "packa", Num (HMI_bmsPackCurrentCentiA x));
   (text "state", Txt (HMI_getStateText (HMI_vcuState x)));
   (text "motorErr", Txt (error_text (HMI_motorErrorFlags x)));
   (text "valid", Txt (HMI_getValidityText (HMI_motorDataValid x) (HMI_motorTimeoutActive x)));
   (text "contactor", Txt (HMI_getContactorText (HMI_contactorClosed x)))].

(** A command on the wire, and what a panel shows after a sequence of commands. *)
Definition wire (c : list Z * shown) : list Z :=
  (match c.2 with Num v => numeric_command c.1 v | Txt s => text_command c.1 s end) ++ end_bytes.
Definition panel := list Z → option shown.
Definition panel_apply (cs : list (list Z * shown)) (p : panel) : panel :=
  foldl (λ p c n, if decide (n = c.1) then Some c.2 else p n) p cs.
Definition shows (p : panel) (x : HMI_DisplayData) : Prop :=
  ∀ n v, (n, v) ∈ fields x → p n = Some v.

Record display_data_wf (x : HMI_DisplayData) : Prop := {
  dd_speed : is_u16 (HMI_currentSpeed x);
  dd_bat : is_u8 (HMI_currentBattery x);
  dd_rpm : is_u16 (HMI_motorRpm x);
  dd_torque : is_i16 (HMI_motorTorqueFeedback x);
  dd_temp : is_i16 (HMI_bmsTemperatureC x);
  dd_packv : is_u16 (HMI_bmsPackVoltageDeciV x);
  dd_packa : is_i32 (HMI_bmsPackCurrentCentiA x);
}.

(** The components that a refresh sends. *)
Definition changed (force : bool) (new old : list (list Z * shown)) : list (list Z * shown) :=
  map fst (filter (λ c, force = true ∨ c.1.2 ≠ c.2.2) (zip new old)).

Lemma field_names x : map fst (fields x) = map fst (fields HMI_DisplayData_zero).
Proof. done. Qed.

Lemma panel_apply_other cs p n : n ∉ map fst cs → panel_apply cs p n = p n.
Proof.
  revert p. induction cs as [|[m v] cs IH]; intros p Hn; [done|]. cbn in *.
  apply not_elem_of_cons in Hn as [Hn1 Hn2]. unfold panel_apply in *. cbn. rewrite IH by done. cbn.
  by rewrite decide_False.
Qed.

Lemma changed_names force new old n : n ∈ map fst (changed force new old) → n ∈ map fst new.
Proof.
  unfold changed. rewrite !list_elem_of_fmap. intros (c & -> & Hc). exists c. split; [done|].
  apply list_elem_of_fmap in Hc as ([c1 c2] & -> & Hc). apply list_elem_of_filter in Hc as [_ Hc].
  by apply elem_of_zip_l in Hc.
Qed.

(** Sending the changed components turns a panel that shows the old values into one that
    shows the new ones. *)
Lemma changed_shows force new old p :
  NoDup (map fst new) → map fst new = map fst old →
  (force = false → ∀ n v, (n, v) ∈ old → p n = Some v) →
  ∀ n v, (n, v) ∈ new → panel_apply (changed force new old) p n = Some v.
Proof.
  intros Hnd Hn. revert old p Hn. induction new as [|[m v] new IH]; intros [|[m' v'] old] p Hn Hp; cbn in *;
    [by intros ? ? ?%not_elem_of_nil|done|done|].
  injection Hn as <- Hn. apply NoDup_cons in Hnd as [Hm Hnd]. intros n u.
  assert (Hrest : ∀ q, (force = false → ∀ n v, (n, v) ∈ old → q n = Some v) →
    q m = Some v → (n, u) ∈ (m, v) :: new → panel_apply (changed force new old) q n = Some u).
  { intros q Hq Hqm [[= -> ->]|Hin]%elem_of_cons; [|by eapply IH].
    rewrite panel_apply_other; [done|]. intros Hc%changed_names. done. }
  unfold changed. cbn [zip zip_with]. cbn [fst snd].
  destruct (decide _) as [Hd|Hd].
  - cbn [map]. change (panel_apply (?c :: ?l) p) with (panel_apply l (panel_apply [c] p)).
    apply Hrest; cbn; [|by rewrite decide_True]. intros Hf k w Hk.
    rewrite decide_False; [apply Hp; [done|by right]|]. intros ->. apply Hm. rewrite Hn.
    apply list_elem_of_fmap. by exists (m, w).
  - apply Hrest; [intros; apply Hp; [done|by right]|].
    destruct force; [destruct Hd; by left|]. destruct (decide (v = v')) as [->|]; [|destruct Hd; by right].
    apply Hp; [done|left].
Qed.

Lemma changed_cons force c c' new old :
  changed force (c :: new) (c' :: old) = changed force [c] [c'] ++ changed force new old.
Proof.
  unfold changed. cbn [zip zip_with]. rewrite !filter_cons. by destruct (decide _).
Qed.

Lemma changed_one force c c' :
  changed force [c] [c'] = if decide (force = true ∨ c.2 ≠ c'.2) then [c] else [].
Proof. unfold changed. cbn [zip zip_with]. rewrite filter_cons. by destruct (decide _). Qed.

Section ScreenProofs.
Context {W : Type} `{HmiUartContract W}.

(** [m] answers [v], sends [bs] and reads nothing. *)
Definition emits {A} (m : M W A) (v : A) (bs : list Z) : Prop :=
  ∀ w, (m w).1 = v ∧ hmi_tx (m w).2 = hmi_tx w ++ bs ∧ hmi_rx (m w).2 = hmi_rx w.

Lemma emits_ret {A} (v : A) : emits (mret v) v [].
Proof. intros w. cbn. by rewrite app_nil_r. Qed.

Lemma emits_bind {A B} (m : M W A) (k : A → M W B) a v b1 b2 :
  emits m a b1 → emits (k a) v b2 → emits (m ≫= k) v (b1 ++ b2).
Proof.
  intros Hm Hk w. unfold mbind, M_bind. destruct (Hm w) as (E & Ht & Hr).
  destruct (m w) as [a' w1]. cbn in *. subst a'. destruct (Hk w1) as (E2 & Ht2 & Hr2).
  rewrite Ht2, Ht, Hr2, Hr, app_assoc. done.
Qed.

Definition wires (cs : list (list Z * shown)) : list Z := concat (map wire cs).

Lemma emits_numeric c v lv force : (length c <= 10)%nat → is_i32 v →
  emits (HMI_sendNumericIfChanged c v lv force) () (wires (changed force [(c, Num v)] [(c, Num lv)])).
Proof.
  intros Hc Hv w. destruct (sendNumeric_tx c v lv force w Hv Hc) as [Ht Hr].
  split; [by destruct ((HMI_sendNumericIfChanged c v lv force w).1)|]. rewrite Ht, Hr. split; [|done].
  f_equal. rewrite changed_one. unfold wires.
  destruct force, (Z.eqb_spec v lv) as [->|Hne]; cbn [negb andb snd]; first
    [rewrite decide_True by (first [by left|right; by intros [= ?]]); cbn [map concat]; by rewrite app_nil_r
    |rewrite decide_False by (intros [|[]]; done); done].
Qed.

Lemma emits_text c v lv force : (length c <= 10)%nat → (length v <= 10)%nat →
  emits (HMI_sendTextIfChanged c v lv force) () (wires (changed force [(c, Txt v)] [(c, Txt lv)])).
Proof.
  intros Hc Hv w. destruct (sendText_tx c v lv force w Hc Hv) as [Ht Hr].
  split; [by destruct ((HMI_sendTextIfChanged c v lv force w).1)|]. rewrite Ht, Hr. split; [|done].
  f_equal. rewrite changed_one. unfold wires.
  destruct force, (bool_decide_reflect (v = lv)) as [->|Hne]; cbn [negb andb snd]; first
    [rewrite decide_True by (first [by left|right; by intros [= ?]]); cbn [map concat]; by rewrite app_nil_r
    |rewrite decide_False by (intros [|[]]; done); done].
Qed.

Lemma emits_fields_step (m : M W ()) (k : M W DisplayHMI) v force c c' new old :
  emits m () (wires (changed force [c] [c'])) → emits k v (wires (changed force new old)) →
  emits (m;; k) v (wires (changed force (c :: new) (c' :: old))).
Proof.
  intros Hm Hk. rewrite changed_cons. unfold wires. rewrite map_app, concat_app.
  by eapply emits_bind.
Qed.

Lemma updateScreen_emits x d : display_data_wf x → HMI_isInitialized d = true →
  emits (updateScreen x d) {| d with HMI_lastScreenData := x; HMI_hasCachedScreen := true |}
    (wires (changed (negb (HMI_hasCachedScreen d)) (fields x) (fields (HMI_lastScreenData d)))).
Proof.
  intros [] Hi. unfold updateScreen. rewrite Hi. cbn [negb]. unfold fields.
  repeat (apply emits_fields_step;
    [first [apply emits_numeric; [cbn; lia|unfold HMI_packVoltageToXfloat, HMI_packCurrentToXfloat; widths; lia]
           |apply emits_text; [cbn; lia|]]|]); [..|apply emits_ret].
  - by destruct (HMI_vcuState x); cbn; lia.
  - cbn. lia.
  - unfold HMI_getValidityText. repeat case_match; cbn; lia.
  - unfold HMI_getContactorText. case_match; cbn; lia.
Qed.

(** [C28] A refresh leaves the panel showing exactly the new data, although it only sends
    the components whose value changed: the bytes on the wire are the commands of some list
    of components, and applying them to any panel that shows the data of the previous
    refresh (or to any panel at all, when there was none) gives a panel that shows every
    component of the new data; the object then remembers the new data as the shown ones. *)
Theorem updateScreen_shows x d w : display_data_wf x → HMI_isInitialized d = true →
  let '(d', w') := updateScreen x d w in
  d' = {| d with HMI_lastScreenData := x; HMI_hasCachedScreen := true |} ∧
  ∃ cs, hmi_tx (W:=W) w' = hmi_tx w ++ wires cs ∧
    ∀ p, (HMI_hasCachedScreen d = true → shows p (HMI_lastScreenData d)) → shows (panel_apply cs p) x.
Proof.
  intros Hx Hi. destruct (updateScreen_emits x d Hx Hi w) as (E & Ht & _).
  destruct (updateScreen x d w) as [d' w']. cbn [fst snd] in *. split; [done|].
  eexists. split; [exact Ht|]. intros p Hp n v Hin.
  refine (changed_shows _ _ _ p _ _ _ n v Hin); [|by rewrite !(field_names)|].
  - rewrite field_names. by apply (bool_decide_unpack _); vm_compute.
  - intros Hf. apply Hp. by destruct (HMI_hasCachedScreen d).
Qed.
End ScreenProofs.

(** ** A panel on a loop-back UART *)

Module FakePanel.
Record state := { tx : list Z; rx_log : list Z; rx_queue : list Z }.
#[export] Instance uart : HmiUart state := {
  hmi_param_config s := (true, s);
  hmi_set_pin s := (true, s);
  hmi_driver_install s := (true, s);
  hmi_write bs s := (Z.of_nat (length bs), {| s with tx := tx s ++ bs |});
  hmi_read n t s :=
    let bs := map u8 (take n (rx_queue s)) in
    ((Z.of_nat (length bs), bs), {| s with rx_log := rx_log s ++ bs; rx_queue := drop n (rx_queue s) |});
  hmi_delay t s := ((), s);
  hmi_wdt_reset s := ((), s);
}.
#[export] Instance contract : HmiUartContract state.
Proof.
  refine {| hmi_tx := tx; hmi_rx := rx_log; hmi_rx_left := λ s, length (rx_queue s) |}; try done.
  intros n t [tx0 log q]. cbn. split; [done|].
  destruct (take n q) as [|b bs] eqn:E; [left|right].
  - cbn. rewrite app_nil_r, length_drop. split_and!; [done..|lia].
  - assert (Hl : (length (b :: bs) <= n)%nat ∧ (length (b :: bs) <= length q)%nat).
    { rewrite <- E, length_take. lia. }
    assert (Hn : (0 < n)%nat) by (destruct n; [done|lia]).
    assert (Hq : (0 < length q)%nat) by (destruct q; [by destruct n|cbn; lia]).
    rewrite length_map, length_drop. split_and!; try done; cbn [length] in *; try lia.
    apply Forall_forall. intros z (? & -> & _)%list_elem_of_fmap. apply u8_range.
Defined.
Definition idle : state := {| tx := []; rx_log := []; rx_queue := [1; 90; 3; 252; 90; 2] |}.
Definition ready : DisplayHMI := {| newDisplayHMI with HMI_isInitialized := true |}.
Definition data : HMI_DisplayData := {| HMI_DisplayData_zero with HMI_currentSpeed := 42 |}.
End FakePanel.
Export (hints) FakePanel.

(** Noise, an EMERGENCY STOP frame and half a frame: the reader reports command 3. *)
Lemma touch_commands_framed_witness :
  ∃ p' w', readTouchCommand 7 FakePanel.ready touch_initial FakePanel.idle = Some ((Some 3, p'), w') ∧
    touch_inv p' (FakePanel.rx_log w') ∧ framed 3 (FakePanel.rx_log w').
Proof.
  destruct (touch_commands_framed 7 FakePanel.ready touch_initial FakePanel.idle)
    as (r & p' & w' & bs & E & _ & _ & _ & Hi & Hm & _); [by left|cbn; lia|].
  assert (Hr : option_map (λ x, x.1.1) (readTouchCommand 7 FakePanel.ready touch_initial FakePanel.idle)
    = Some (Some 3)) by (by vm_compute).
  rewrite E in Hr. cbn in Hr. injection Hr as ->. exists p', w'. auto.
Defined.

Lemma updateScreen_shows_witness :
  display_data_wf FakePanel.data ∧
  ∃ cs, FakePanel.tx (updateScreen FakePanel.data FakePanel.ready FakePanel.idle).2 = wires cs ∧
    shows (panel_apply cs (λ _, None)) FakePanel.data.
Proof.
  assert (Hw : display_data_wf FakePanel.data) by (constructor; split; done).
  split; [exact Hw|].
  pose proof (updateScreen_shows FakePanel.data FakePanel.ready FakePanel.idle Hw eq_refl) as H.
  destruct (updateScreen FakePanel.data FakePanel.ready FakePanel.idle) as [d' w'].
  destruct H as (_ & cs & Ht & Hs). exists cs. split; [exact Ht|]. apply Hs. discriminate.
Defined.
