(* ===== verification/BmsNextionPacket.v ===== *)
(** [lib/BmsAlgo/BmsNextionPacket]: the 75 components of the battery page (24 cell
    voltages, 24 bars, 24 balancing flags and three summary fields), sent to the panel
    under a byte budget per call, with a cache of what the panel already shows.

    The six copies of the compare/emit/store block of [buildBmsNextionCommands] are one
    function [process] over a [component]; the three loops and the three single blocks are
    the list [components] that it is folded over. *)
From S2P Require Import Prelude BmsAlgo Telemetry HMIHelpers.
From stdpp Require Import sets.
Open Scope Z_scope.

(* [src ESP_AKS/lib/BmsAlgo/BmsNextionPacket.h:57-73 BmsNextionCache] *)
Record BmsNextionCache := {
  c_cellVoltageMv : list Z;      (* uint16_t[24] *)
  c_cellBarFill : list Z;        (* uint8_t[24] *)
  c_balanceFlag : list Z;        (* uint8_t[24] *)
  c_cellMaxMv : Z;
  c_cellMinMv : Z;
  c_warningLevel : Z;
  isWarm : bool;
}.

(* [src ESP_AKS/lib/BmsAlgo/BmsNextionPacket.h:61-72 BmsNextionCache] *)
Definition newBmsNextionCache : BmsNextionCache := {|
  c_cellVoltageMv := replicate BMS_CELL_COUNT 0;
  c_cellBarFill := replicate BMS_CELL_COUNT 255;
  c_balanceFlag := replicate BMS_CELL_COUNT 255;
  c_cellMaxMv := 0; c_cellMinMv := 0; c_warningLevel := 255; isWarm := false |}.

(* [src ESP_AKS/lib/BmsAlgo/BmsNextionPacket.cpp:14-21 cellBarFill] *)
Definition cellBarFill (mv : Z) : Z :=
  if mv =? 65535 then 0
  else if mv <=? BMS_SOC_EMPTY_MV then 0
  else if BMS_SOC_FULL_MV <=? mv then 100
  else u8 (u32 (u32 (mv - BMS_SOC_EMPTY_MV) * 100) / (BMS_SOC_FULL_MV - BMS_SOC_EMPTY_MV)).

(** ** The components *)

Inductive component := Cell (i : nat) | Bar (i : nat) | Bal (i : nat) | CellMax | CellMin | Warn.
#[export] Instance component_eq_dec : EqDecision component.
Proof. solve_decision. Defined.

(** Name and index (or -1). *)
Definition component_name (k : component) : list Z * Z :=
  match k with
  | Cell i => (text "cell", Z.of_nat i)
  | Bar i => (text "j", Z.of_nat i)
  | Bal i => (text "bal", Z.of_nat i)
  | CellMax => (text "cellmax", -1)
  | CellMin => (text "cellmin", -1)
  | Warn => (text "warn", -1)
  end.

(** The value to show, and the value the driver's cache holds: the last one sent or, before
    that, the initial one of [newBmsNextionCache], which the panel has never seen. *)
Definition component_value (comp : BmsComputed) (raw : BmsPackData) (k : component) : Z :=
  match k with
  | Cell i => nth i (cellVoltageMv raw) 0
  | Bar i => cellBarFill (nth i (cellVoltageMv raw) 0)
  | Bal i => if nth i (balanceFlag comp) false then 1 else 0
  | CellMax => cellMaxMv comp
  | CellMin => cellMinMv comp
  | Warn => warningLevel comp
  end.

Definition cache_get (k : component) (c : BmsNextionCache) : Z :=
  match k with
  | Cell i => nth i (c_cellVoltageMv c) 0
  | Bar i => nth i (c_cellBarFill c) 0
  | Bal i => nth i (c_balanceFlag c) 0
  | CellMax => c_cellMaxMv c
  | CellMin => c_cellMinMv c
  | Warn => c_warningLevel c
  end.

Definition cache_set (k : component) (v : Z) (c : BmsNextionCache) : BmsNextionCache :=
  match k with
  | Cell i => {| c with c_cellVoltageMv := <[i := v]> (c_cellVoltageMv c) |}
  | Bar i => {| c with c_cellBarFill := <[i := v]> (c_cellBarFill c) |}
  | Bal i => {| c with c_balanceFlag := <[i := v]> (c_balanceFlag c) |}
  | CellMax => {| c with c_cellMaxMv := v |}
  | CellMin => {| c with c_cellMinMv := v |}
  | Warn => {| c with c_warningLevel := v |}
  end.

Definition cell_components : list component :=
  map Cell (seq 0 BMS_CELL_COUNT) ++ map Bar (seq 0 BMS_CELL_COUNT) ++ map Bal (seq 0 BMS_CELL_COUNT).
Definition summary_components : list component := [CellMax; CellMin; Warn].

(** ** The builder *)

(** The locals captured by [emitAndCheck], the cache, and the world of the callback. *)
(* [src ESP_AKS/lib/BmsAlgo/BmsNextionPacket.cpp:31-32 buildBmsNextionCommands] *)
Record emit_state (W : Type) := {
  currentBytes : Z;            (* size_t *)
  budgetExhausted : bool;
  allProcessed : bool;
  the_cache : BmsNextionCache;
  the_world : W;
}.
Arguments currentBytes {W} _.
Arguments budgetExhausted {W} _.
Arguments allProcessed {W} _.
Arguments the_cache {W} _.
Arguments the_world {W} _.

(** The text of a command: ["%s%u.val=%ld"] with an index, ["%s.val=%ld"] without. *)
Definition bms_command (compName : list Z) (index value : Z) : list Z :=
  compName ++ (if 0 <=? index then print_int index else []) ++ text ".val=" ++ print_int value.

Section Build.
Context {W : Type} (emit : list Z → W → W) (maxBytes : Z).

(* [src ESP_AKS/lib/BmsAlgo/BmsNextionPacket.cpp:35-56 emitAndCheck] *)
Definition emitAndCheck (compName : list Z) (index value : Z) (s : emit_state W) : bool * emit_state W :=
  if budgetExhausted s then (false, s)
  else
    let cmd := bms_command compName index value in
    let len := Z.of_nat (length cmd) in
    if len <=? 0 then (false, s)
    else if maxBytes <? currentBytes s + len + 3 then (false, {| s with budgetExhausted := true |})
    else (true, {| s with the_world := emit (take (Z.to_nat len) (snprintf_buf 40 cmd)) (the_world s);
                          currentBytes := currentBytes s + (len + 3) |}).

(* [src ESP_AKS/lib/BmsAlgo/BmsNextionPacket.cpp:63-121 buildBmsNextionCommands] *)
Definition process (comp : BmsComputed) (raw : BmsPackData) (force : bool) (k : component)
    (s : emit_state W) : emit_state W :=
  let v := component_value comp raw k in
  if force || negb (v =? cache_get k (the_cache s)) then
    let '(ok, s) := emitAndCheck (component_name k).1 (component_name k).2 v s in
    if ok : bool then {| s with the_cache := cache_set k v (the_cache s) |}
    else {| s with allProcessed := false |}
  else s.

(* [src ESP_AKS/lib/BmsAlgo/BmsNextionPacket.cpp:25-126 buildBmsNextionCommands] *)
Definition buildBmsNextionCommands (comp : BmsComputed) (raw : BmsPackData)
    (cache : BmsNextionCache) (forceFullRefresh updateCells : bool) (w : W) : BmsNextionCache * W :=
  let mustProcessCells := updateCells || forceFullRefresh || negb (isWarm cache) in
  let ks := (if mustProcessCells then cell_components else []) ++ summary_components in
  let s := foldl (λ s k, process comp raw forceFullRefresh k s)
             {| currentBytes := 0; budgetExhausted := false; allProcessed := true;
                the_cache := cache; the_world := w |} ks in
  let cache := the_cache s in
  (if allProcessed s then {| cache with isWarm := true |} else cache, the_world s).
End Build.

(** The default of the last parameter. *)
(* [src ESP_AKS/lib/BmsAlgo/BmsNextionPacket.h:78-78 buildBmsNextionCommands] *)
Definition default_maxBytes : Z := 90.

(** ** Proofs *)

Definition component_ok (k : component) : Prop :=
  match k with Cell i | Bar i | Bal i => (i < BMS_CELL_COUNT)%nat | _ => True end.
Definition cache_wf (c : BmsNextionCache) : Prop :=
  length (c_cellVoltageMv c) = BMS_CELL_COUNT ∧ length (c_cellBarFill c) = BMS_CELL_COUNT ∧
  length (c_balanceFlag c) = BMS_CELL_COUNT.

Lemma cache_get_set k k' v c : component_ok k → cache_wf c →
  cache_get k' (cache_set k v c) = if decide (k' = k) then v else cache_get k' c.
Proof.
  intros Hk (H1 & H2 & H3).
  destruct k, k'; cbn in *; rewrite ?nth_insert by lia; repeat case_decide; simplify_eq; done.
Qed.

Lemma cache_set_wf k v c : cache_wf c → cache_wf (cache_set k v c).
Proof. destruct k; unfold cache_wf; cbn; rewrite ?length_insert; tauto. Qed.

Lemma cache_set_warm k v c : isWarm (cache_set k v c) = isWarm c.
Proof. by destruct k. Qed.

(** The inputs are in the range of their types. *)
Record inputs_ok (comp : BmsComputed) (raw : BmsPackData) : Prop := {
  in_cells : Forall is_u16 (cellVoltageMv raw);
  in_max : is_u16 (cellMaxMv comp);
  in_min : is_u16 (cellMinMv comp);
  in_warn : is_u8 (warningLevel comp);
}.

Lemma component_value_range comp raw k : inputs_ok comp raw → is_u16 (component_value comp raw k).
Proof.
  intros [Hc Hmax Hmin Hw].
  assert (Hn : ∀ i, is_u16 (nth i (cellVoltageMv raw) 0)).
  { intros i. rewrite nth_lookup. destruct (cellVoltageMv raw !! i) eqn:E; cbn; [|by split].
    by eapply Forall_lookup in E. }
  destruct k; cbn; auto; [| |widths; lia].
  - unfold cellBarFill. repeat case_match; try by split. widths. zlia.
  - by case_match.
Qed.

(** A command and its end bytes take at most 20 bytes. *)
Definition command_of (comp : BmsComputed) (raw : BmsPackData) (k : component) : list Z :=
  bms_command (component_name k).1 (component_name k).2 (component_value comp raw k).
Definition cost (comp : BmsComputed) (raw : BmsPackData) (k : component) : Z :=
  Z.of_nat (length (command_of comp raw k)) + 3.

Lemma cost_bound comp raw k : component_ok k → inputs_ok comp raw → 4 <= cost comp raw k <= 20.
Proof.
  intros Hk Hi. unfold cost, command_of, bms_command.
  pose proof (component_value_range comp raw k Hi) as Hv.
  pose proof (print_unsigned_length (component_value comp raw k) 4 ltac:(widths; cbn; lia)).
  rewrite !length_app. change (length (text ".val=")) with 5%nat.
  assert (Hx : ∀ i, (i < BMS_CELL_COUNT)%nat →
    (length (if (0 <=? Z.of_nat i)%Z then print_int (Z.of_nat i) else []) <= 2)%nat).
  { intros i Hi'. unfold BMS_CELL_COUNT in Hi'. rewrite (proj2 (Z.leb_le _ _)) by lia.
    apply print_unsigned_length. cbn. lia. }
  destruct k; cbn [component_name fst snd component_ok] in *;
    try pose proof (Hx i Hk); cbn -[Z.of_nat print_int] in *; lia.
Qed.

Section BuildProofs.
Context {W : Type} (emit : list Z → W → W) (maxBytes : Z) (comp : BmsComputed) (raw : BmsPackData).
Context (Hin : inputs_ok comp raw).

Abbreviation value := (component_value comp raw).
Abbreviation run ks s := (foldl (λ s k, process emit maxBytes comp raw false k s) s ks).

(** The components of [ks] whose value differs from the cache. *)
Definition stale (ks : list component) (c : BmsNextionCache) : list component :=
  filter (λ k, value k ≠ cache_get k c) ks.

Definition emit_all (es : list component) (w : W) : W :=
  foldl (λ w k, emit (command_of comp raw k) w) w es.
Definition total_cost (es : list component) : Z := foldr (λ k z, cost comp raw k + z) 0 es.

Lemma stale_set k v ks c : component_ok k → cache_wf c → k ∉ ks →
  stale ks (cache_set k v c) = stale ks c.
Proof.
  intros Hk Hc. unfold stale. induction ks as [|k' ks IH]; intros Hn; [done|].
  apply not_elem_of_cons in Hn as [Hne Hn]. rewrite !filter_cons, IH by done.
  rewrite cache_get_set by done. by rewrite (decide_False (P := k' = k)).
Qed.

Lemma process_fresh k (s : emit_state W) : value k = cache_get k (the_cache s) →
  process emit maxBytes comp raw false k s = s.
Proof. intros E. unfold process. cbn [orb]. by rewrite E, Z.eqb_refl. Qed.

Lemma process_full k (s : emit_state W) : component_ok k → value k ≠ cache_get k (the_cache s) →
  budgetExhausted s = true ∨ maxBytes < currentBytes s + cost comp raw k →
  process emit maxBytes comp raw false k s
  = {| s with allProcessed := false; budgetExhausted := true |}.
Proof.
  intros Hk E Hs. pose proof (cost_bound comp raw k Hk Hin) as Hc. unfold process. cbn [orb].
  rewrite (proj2 (Z.eqb_neq _ _) E). cbn [negb]. unfold emitAndCheck.
  destruct (budgetExhausted s) eqn:Hb; [destruct s; cbn in *; by subst|].
  destruct Hs as [|Hs]; [done|]. unfold cost, command_of in *.
  by rewrite (proj2 (Z.leb_gt _ 0)), (proj2 (Z.ltb_lt maxBytes _)) by lia.
Qed.

Lemma process_emits k (s : emit_state W) : component_ok k → value k ≠ cache_get k (the_cache s) →
  budgetExhausted s = false → currentBytes s + cost comp raw k <= maxBytes →
  process emit maxBytes comp raw false k s
  = {| s with the_world := emit (command_of comp raw k) (the_world s);
              currentBytes := currentBytes s + cost comp raw k;
              the_cache := cache_set k (value k) (the_cache s) |}.
Proof.
  intros Hk E Hb Hs. pose proof (cost_bound comp raw k Hk Hin) as Hc. unfold process. cbn [orb].
  rewrite (proj2 (Z.eqb_neq _ _) E). cbn [negb]. unfold emitAndCheck. rewrite Hb.
  unfold cost, command_of in *.
  rewrite (proj2 (Z.leb_gt _ 0)), (proj2 (Z.ltb_ge maxBytes _)) by lia. by rewrite snprintf_fits by lia.
Qed.

Lemma stale_cons k ks c :
  stale (k :: ks) c = if decide (value k ≠ cache_get k c) then k :: stale ks c else stale ks c.
Proof. unfold stale. by rewrite filter_cons. Qed.

Lemma run_exhausted ks (s : emit_state W) : Forall component_ok ks → budgetExhausted s = true →
  run ks s = {| s with allProcessed := allProcessed s && bool_decide (stale ks (the_cache s) = []) |}.
Proof.
  revert s. induction ks as [|k ks IH]; intros s Hok Hs; cbn [foldl].
  - rewrite andb_true_r. by destruct s.
  - apply Forall_cons in Hok as [Hk Hok]. rewrite stale_cons.
    destruct (decide (value k ≠ cache_get k (the_cache s))) as [E|E].
    + rewrite process_full by auto. rewrite IH by done. destruct s; cbn in *; subst.
      by rewrite andb_false_r.
    + rewrite process_fresh by (by destruct (Z.eq_dec (value k) (cache_get k (the_cache s)))). by apply IH.
Qed.

(** The emitted components are a prefix of the stale ones, and the rest is left for later
    only when less than one command's room remains. *)
Definition run_post (ks : list component) (s s' : emit_state W) : Prop :=
  ∃ es rest,
    stale ks (the_cache s) = es ++ rest ∧ currentBytes s' = currentBytes s + total_cost es ∧
    currentBytes s' <= maxBytes ∧ the_world s' = emit_all es (the_world s) ∧
    (∀ k, cache_get k (the_cache s') = if decide (k ∈ es) then value k else cache_get k (the_cache s)) ∧
    cache_wf (the_cache s') ∧ isWarm (the_cache s') = isWarm (the_cache s) ∧
    allProcessed s' = allProcessed s && bool_decide (rest = []) ∧
    (rest ≠ [] → maxBytes < currentBytes s' + 20).

Lemma run_spec ks (s : emit_state W) :
  NoDup ks → Forall component_ok ks → cache_wf (the_cache s) →
  budgetExhausted s = false → currentBytes s <= maxBytes → run_post ks s (run ks s).
Proof.
  revert s. induction ks as [|k ks IH]; intros s Hnd Hok Hwf Hex Hb; cbn [foldl].
  { exists [], []. cbn. rewrite andb_true_r, Z.add_0_r. split_and!; done. }
  apply NoDup_cons in Hnd as [Hk Hnd]. pose proof Hok as [Hkok Hok']%Forall_cons.
  unfold run_post. rewrite stale_cons.
  destruct (decide (value k ≠ cache_get k (the_cache s))) as [E|E];
    [|rewrite process_fresh by (by destruct (Z.eq_dec (value k) (cache_get k (the_cache s)))); by apply IH].
  pose proof (cost_bound comp raw k Hkok Hin) as Hcost.
  destruct (Z.lt_ge_cases maxBytes (currentBytes s + cost comp raw k)) as [Hfull|Hfits].
  - rewrite process_full, run_exhausted by auto. exists [], (k :: stale ks (the_cache s)). cbn.
    rewrite andb_false_r, Z.add_0_r. split_and!; try done. intros _. lia.
  - rewrite process_emits by done. set (s1 := {| s with the_world := emit (command_of comp raw k) (the_world s);
      currentBytes := currentBytes s + cost comp raw k;
      the_cache := cache_set k (value k) (the_cache s) |}).
    destruct (IH s1) as (es & rest & H1 & H2 & H3 & H4 & H5 & H6 & H7 & H8 & H9);
      [done..|by apply cache_set_wf|done|done|].
    cbn in H1. rewrite stale_set in H1 by done. exists (k :: es), rest. rewrite H1.
    split_and!; try done.
    + rewrite H2. unfold total_cost, s1. cbn [foldr currentBytes]. lia.
    + intros k'. rewrite H5. cbn. rewrite cache_get_set by done.
      destruct (decide (k' ∈ es)), (decide (k' = k)) as [->|Hne], (decide (_ ∈ _ :: _)); set_solver.
    + rewrite H7. cbn. by rewrite cache_set_warm.
Qed.

Lemma total_cost_bound es : Forall component_ok es → total_cost es <= 20 * Z.of_nat (length es).
Proof.
  induction 1 as [|k es Hk _ IH]; unfold total_cost in *; cbn [foldr length]; [lia|].
  pose proof (cost_bound comp raw k Hk Hin). lia.
Qed.
End BuildProofs.

Definition all_components : list component := cell_components ++ summary_components.

Lemma components_ok : Forall component_ok all_components ∧ NoDup all_components.
Proof.
  split; [|by apply (bool_decide_unpack _); vm_compute].
  assert (H : forallb (λ k, match k with Cell i | Bar i | Bal i => (i <? BMS_CELL_COUNT)%nat | _ => true end)
            all_components = true) by by vm_compute.
  rewrite forallb_forall in H. apply Forall_forall. intros k Hk%list_elem_of_In%H.
  by destruct k; cbn; try apply Nat.ltb_lt.
Qed.

Lemma filter_all {A} (P : A → Prop) `{∀ x, Decision (P x)} l : Forall P l → filter P l = l.
Proof. induction 1 as [|x l Hx _ IH]; [done|]. rewrite filter_cons, decide_True, IH by done. done. Qed.
Lemma filter_none {A} (P : A → Prop) `{∀ x, Decision (P x)} l : Forall (λ x, ¬ P x) l → filter P l = [].
Proof. induction 1 as [|x l Hx _ IH]; [done|]. by rewrite filter_cons, decide_False. Qed.

(** What stays stale is what was not sent. *)
Lemma stale_after comp raw ks c c' es rest : NoDup ks → stale comp raw ks c = es ++ rest →
  (∀ k, cache_get k c' = if decide (k ∈ es) then component_value comp raw k else cache_get k c) →
  stale comp raw ks c' = rest.
Proof.
  intros Hnd Hs Hg.
  assert (Hsub : NoDup (es ++ rest)) by (rewrite <- Hs; unfold stale; by apply NoDup_filter).
  apply NoDup_app in Hsub as (_ & Hdis & _).
  transitivity (filter (λ k, k ∉ es) (stale comp raw ks c)).
  - unfold stale. rewrite list_filter_filter. apply list_filter_iff. intros k. rewrite Hg.
    destruct (decide (k ∈ es)); tauto.
  - rewrite Hs, filter_app, filter_none, filter_all; [done| |].
    + apply Forall_forall. intros k Hk He. by apply (Hdis k).
    + apply Forall_forall. intros k Hk He. done.
Qed.

Section Refresh.
Context {W : Type} (emit : list Z → W → W) (comp : BmsComputed) (raw : BmsPackData).

(** One call: what is sent, what the cache becomes, and what stays stale. *)
Definition refresh_post (cache : BmsNextionCache) (w : W) (cache' : BmsNextionCache) (w' : W) : Prop :=
  ∃ es rest,
    stale comp raw all_components cache = es ++ rest ∧
    w' = emit_all emit comp raw es w ∧ total_cost comp raw es <= default_maxBytes ∧
    (∀ k, cache_get k cache' = if decide (k ∈ es) then component_value comp raw k else cache_get k cache) ∧
    stale comp raw all_components cache' = rest ∧
    (rest = [] ∧ isWarm cache' = true ∨ (4 <= length es)%nat ∧ isWarm cache' = isWarm cache).

Lemma refresh_step cache w : inputs_ok comp raw → cache_wf cache →
  let '(cache', w') := buildBmsNextionCommands emit default_maxBytes comp raw cache false true w in
  cache_wf cache' ∧ refresh_post cache w cache' w'.
Proof.
  intros Hin Hwf. unfold buildBmsNextionCommands. cbn [orb]. fold all_components.
  set (s0 := {| currentBytes := 0; budgetExhausted := false; allProcessed := true;
                the_cache := cache; the_world := w |}). pose proof components_ok as [Hok Hnd].
  destruct (run_spec emit default_maxBytes comp raw Hin all_components s0 Hnd Hok Hwf eq_refl ltac:(done))
    as (es & rest & H1 & H2 & H3 & H4 & H5 & H6 & H7 & H8 & H9).
  set (s' := foldl _ s0 _) in *.
  change (the_cache s0) with cache in *. change (the_world s0) with w in *.
  change (currentBytes s0) with 0 in *. change (allProcessed s0) with true in *. cbn [andb] in H8.
  assert (Hes : Forall component_ok es).
  { apply Forall_forall. intros k Hk. rewrite Forall_forall in Hok. apply Hok.
    assert (Hk' : k ∈ stale comp raw all_components cache) by (rewrite H1; apply elem_of_app; by left).
    by apply list_elem_of_filter in Hk' as [_ ?]. }
  pose proof (total_cost_bound comp raw Hin es Hes) as Hcost.
  split; [by destruct (allProcessed s')|]. destruct (allProcessed s') eqn:Ha; symmetry in H8.
  - apply bool_decide_eq_true in H8 as ->. exists es, []. rewrite H4.
    split_and!; [done|done|lia|by apply H5| |by left].
    by apply (stale_after comp raw _ cache _ es []).
  - apply bool_decide_eq_false in H8. exists es, rest. rewrite H4.
    split_and!; [done|done|lia|by apply H5| |].
    + by apply (stale_after comp raw _ cache _ es rest).
    + right. split; [|done]. specialize (H9 H8). unfold default_maxBytes in *. lia.
Qed.

(** One component, whatever the flags: nothing happens but to the flags of the budget, or
    its current value is emitted within the budget and cached. *)
Lemma process_sends maxBytes force k (s : emit_state W) : inputs_ok comp raw → component_ok k →
  let s' := process emit maxBytes comp raw force k s in
  (the_cache s' = the_cache s ∧ the_world s' = the_world s ∧ currentBytes s' = currentBytes s) ∨
  (the_cache s' = cache_set k (component_value comp raw k) (the_cache s) ∧
   the_world s' = emit (command_of comp raw k) (the_world s) ∧
   currentBytes s' = currentBytes s + cost comp raw k ∧ currentBytes s' <= maxBytes).
Proof.
  intros Hin Hk. cbv zeta. pose proof (cost_bound comp raw k Hk Hin) as Hc.
  unfold process. destruct (_ || _); [|by left]. unfold emitAndCheck, cost, command_of in *.
  destruct (budgetExhausted s); [by left|]. rewrite (proj2 (Z.leb_gt _ 0)) by lia.
  destruct (Z.ltb_spec maxBytes (currentBytes s + Z.of_nat (length (bms_command (component_name k).1
    (component_name k).2 (component_value comp raw k))) + 3)); [by left|right].
  cbn -[Z.to_nat Z.of_nat snprintf_buf bms_command]. rewrite snprintf_fits by lia. split_and!; [done|done|lia|lia].
Qed.

Lemma process_all_sends maxBytes force ks (s : emit_state W) : inputs_ok comp raw → Forall component_ok ks →
  cache_wf (the_cache s) → currentBytes s <= maxBytes →
  let s' := foldl (λ s k, process emit maxBytes comp raw force k s) s ks in
  cache_wf (the_cache s') ∧ ∃ es, (∀ k, k ∈ es → k ∈ ks) ∧
    the_world s' = emit_all emit comp raw es (the_world s) ∧
    currentBytes s' = currentBytes s + total_cost comp raw es ∧ currentBytes s' <= maxBytes ∧
    ∀ k, cache_get k (the_cache s') =
         if decide (k ∈ es) then component_value comp raw k else cache_get k (the_cache s).
Proof.
  intros Hin. revert s. induction ks as [|k ks IH]; intros s Hok Hwf Hb; cbn [foldl].
  { split; [done|]. exists []. cbn. rewrite Z.add_0_r. by split_and!. }
  apply Forall_cons in Hok as [Hk Hok].
  destruct (process_sends maxBytes force k s Hin Hk) as [(Ec & Ew & Eb)|(Ec & Ew & Eb & Hle)].
  all: destruct (IH (process emit maxBytes comp raw force k s)) as (Hw & es & Hes & E1 & E2 & E3 & E4);
    [done|rewrite Ec; by try apply cache_set_wf|lia|]; split; [done|]; rewrite Ew, Ec in *.
  - exists es. rewrite E2, Eb in *. split_and!; try done. intros k' Hk'. right. by apply Hes.
  - exists (k :: es). split_and!; [|done|rewrite E2, Eb; cbn; fold (total_cost comp raw es); lia|done|].
    + intros k' [->|Hk']%elem_of_cons; [left|right; by apply Hes].
    + intros k'. rewrite E4, cache_get_set by done.
      destruct (decide (k' ∈ es)), (decide (k' = k)) as [->|Hne], (decide (_ ∈ _ :: _)); set_solver.
Qed.

(** Whatever the flags, a call emits current values within the budget, and the cache changes
    for exactly the components it emitted. *)
Definition sends (cache : BmsNextionCache) (w : W) (cache' : BmsNextionCache) (w' : W) : Prop :=
  ∃ es, (∀ k, k ∈ es → k ∈ all_components) ∧ w' = emit_all emit comp raw es w ∧
    total_cost comp raw es <= default_maxBytes ∧
    ∀ k, cache_get k cache' = if decide (k ∈ es) then component_value comp raw k else cache_get k cache.

Lemma build_sends cache force update w : inputs_ok comp raw → cache_wf cache →
  let '(cache', w') := buildBmsNextionCommands emit default_maxBytes comp raw cache force update w in
  cache_wf cache' ∧ sends cache w cache' w'.
Proof.
  intros Hin Hwf. unfold buildBmsNextionCommands. destruct components_ok as [Hok _].
  set (ks := (if _ || _ then _ else _) ++ _).
  assert (Hks : ∀ k, k ∈ ks → k ∈ all_components).
  { intros k. unfold ks, all_components. destruct (_ || _); [done|]. rewrite !elem_of_app. set_solver. }
  edestruct (process_all_sends default_maxBytes force ks {| currentBytes := 0; budgetExhausted := false;
    allProcessed := true; the_cache := cache; the_world := w |} Hin) as (Hw & es & Hes & E1 & E2 & E3 & E4);
    [|exact Hwf|done|].
  { apply Forall_forall. intros k Hk. rewrite Forall_forall in Hok. by apply Hok, Hks. }
  cbn [the_cache the_world currentBytes] in *. split; [by case_match|].
  exists es. split_and!; [by auto|exact E1|lia|]. intros k. specialize (E4 k). by destruct (allProcessed _).
Qed.

(** So a call makes no component stale: each cached value stays or becomes the current one. *)
Lemma build_cache cache force update w : inputs_ok comp raw → cache_wf cache →
  let cache' := (buildBmsNextionCommands emit default_maxBytes comp raw cache force update w).1 in
  cache_wf cache' ∧ ∀ k, cache_get k cache' = cache_get k cache ∨ cache_get k cache' = component_value comp raw k.
Proof.
  intros Hin Hwf. cbv zeta. pose proof (build_sends cache force update w Hin Hwf) as Hs.
  destruct (buildBmsNextionCommands _ _ _ _ _ _ _ w) as [c' w']. destruct Hs as (Hw & es & _ & _ & _ & Hg).
  split; [done|]. intros k. cbn [fst]. rewrite Hg. case_decide; auto.
Qed.

Lemma build_stale cache force update w : inputs_ok comp raw → cache_wf cache →
  (length (stale comp raw all_components (buildBmsNextionCommands emit default_maxBytes comp raw cache force update w).1)
   <= length (stale comp raw all_components cache))%nat.
Proof.
  intros Hin Hwf. destruct (build_cache cache force update w Hin Hwf) as [_ Hg]. unfold stale.
  induction all_components as [|k ks IH]; [done|]. rewrite !filter_cons.
  specialize (Hg k). repeat case_decide; cbn [length]; [lia| |lia|lia]. exfalso. destruct Hg; congruence.
Qed.

(** [n] calls with the same data. *)
Fixpoint refresh_n (n : nat) (x : BmsNextionCache * W) : BmsNextionCache * W :=
  match n with
  | O => x
  | S n => let '(cache, w) := refresh_n n x in
           buildBmsNextionCommands emit default_maxBytes comp raw cache false true w
  end.

(** A call that processes the cells without force leaves at least four fewer stale. *)
Lemma build_progress cache w : inputs_ok comp raw → cache_wf cache →
  (length (stale comp raw all_components (buildBmsNextionCommands emit default_maxBytes comp raw cache false true w).1)
   <= length (stale comp raw all_components cache) - 4)%nat.
Proof.
  intros Hin Hwf. pose proof (refresh_step cache w Hin Hwf) as Hs.
  destruct (buildBmsNextionCommands _ _ _ _ cache _ _ w) as [c2 w2]. cbn [fst].
  destruct Hs as [_ (es & rest & E & _ & _ & _ & E2 & Hr)]. rewrite E2, E, length_app.
  destruct Hr as [[-> _]|[Hl _]]; cbn [length]; lia.
Qed.

Lemma stale_nil k cache : length (stale comp raw all_components cache) = 0%nat → k ∈ all_components →
  cache_get k cache = component_value comp raw k.
Proof.
  intros Hl Hk. destruct (Z.eq_dec (component_value comp raw k) (cache_get k cache)) as [|Hne]; [done|]. exfalso.
  assert (Hs : k ∈ stale comp raw all_components cache)
    by (unfold stale; apply list_elem_of_filter; split; assumption).
  destruct (stale _ _ _ _); [by apply not_elem_of_nil in Hs|done].
Qed.

Lemma refresh_n_stale n cache w : inputs_ok comp raw → cache_wf cache →
  cache_wf (refresh_n n (cache, w)).1 ∧
  (length (stale comp raw all_components (refresh_n n (cache, w)).1) <= 75 - 4 * n)%nat.
Proof.
  intros Hin Hwf. induction n as [|n [IH1 IH2]].
  - split; [done|]. unfold stale. etransitivity; [apply length_filter|]. done.
  - cbn [refresh_n]. destruct (refresh_n n (cache, w)) as [c1 w1]. cbn [fst] in *.
    pose proof (build_progress c1 w1 Hin IH1). split; [by apply build_cache|lia].
Qed.

(** A refresh of the cell page respects its byte budget, never lies in its cache, and
    makes progress: the commands emitted (with their end bytes) take at most 90 bytes; they
    carry the current values of a prefix of the stale components; the cache changes for
    exactly those, to exactly the value sent; and unless everything stale was sent, at least
    four components were.  Data that does not change is therefore completely on the screen
    after 19 calls. *)
Theorem bms_refresh_progress cache w : inputs_ok comp raw → cache_wf cache →
  (let '(cache', w') := buildBmsNextionCommands emit default_maxBytes comp raw cache false true w in
   refresh_post cache w cache' w') ∧
  ∀ k, k ∈ all_components →
    cache_get k (refresh_n 19 (cache, w)).1 = component_value comp raw k.
Proof.
  intros Hin Hwf. split.
  - pose proof (refresh_step cache w Hin Hwf) as Hs.
    destruct (buildBmsNextionCommands _ _ _ _ _ _ _ w). apply Hs.
  - intros k Hk. destruct (refresh_n_stale 19 cache w Hin Hwf) as [_ Hl]. apply stale_nil; [lia|done].
Qed.
End Refresh.

Module SamplePack.
Definition raw : BmsPackData := {|
  cellVoltageMv := map (λ i, 3300 + Z.of_nat i) (seq 0 24); cellTempC := replicate 24 25;
  packCurrentMa := 0; isValid := true; cellDataValid := true |}.
Lemma inputs : inputs_ok (computePack raw) raw.
Proof. constructor; [|by vm_compute..]. by apply (bool_decide_unpack _); vm_compute. Qed.
End SamplePack.

(** From power-on, the last cell's voltage is in the cache after 19 calls. *)
Lemma bms_refresh_progress_witness :
  cache_get (Cell 23) (refresh_n (λ cmd log, log ++ [cmd]) (computePack SamplePack.raw) SamplePack.raw 19
    (newBmsNextionCache, [])).1 = 3323.
Proof.
  destruct (bms_refresh_progress (λ cmd log, log ++ [cmd]) (computePack SamplePack.raw) SamplePack.raw
    newBmsNextionCache []) as [_ Hc]; [exact SamplePack.inputs|done|].
  etransitivity; [apply (Hc (Cell 23))|done].
  apply (bool_decide_unpack _). by vm_compute.
Defined.
