(* ===== verification/AksSystem.v ===== *)
(** [src/main.cpp]: the composition of the firmware: start-up, the tasks' loop bodies, the
    adapters between the components, and the dispatch of touch commands.

    One step is one iteration of a task's loop; steps of different tasks interleave in any
    order.  Inside an iteration the components communicate only through the telemetry
    queue (a mailbox of one record), the control unit's event interface and the relay
    driver, whose operations are atomic.  [board] is the hardware side that the control
    unit's world consists of: the relay driver and the CAN object its torque sink reaches. *)
From S2P Require Import RelayManager CanManager CanParse CanManagerCorrect.
From S2P Require Import Prelude SystemConfig VehicleData FreeRtos BmsAlgo VcuSafety IRelayActuator.
From S2P Require Import VcuLogic VcuLogicCorrect.
From stdpp Require Import relations.
From S2P Require Import Telemetry HMIHelpers DisplayHMI BmsNextionPacket UplinkScheduler.
Import RelayManager(relay_world, rm, dev, contactor_closed, SpiMaster, Mcp23s17Read, Mcp23s17Write).
Import CanManager(can_world, cm, drv, emitted, TwaiDriver, CAN_Event(..)).
Open Scope Z_scope.

Section System.
Context {Q TQ S D : Type} `{FreeRtosQueue Q VcuEvent.t} `{FreeRtosQueue TQ TelemetryData}
  `{SpiMaster S} `{TwaiDriver D}.

Record board := {
  relays : relay_world S;
  can : can_world D;
  canForTorque : bool;        (* s_canForTorque != nullptr *)
}.

(** [g_relayActuator] on the whole board. *)
#[export] Instance board_relays : IRelayActuator board := {
  allOn b := {| b with relays := (RelayManager.allOn (relays b)).2 |};
  allOff s b := {| b with relays := (RelayManager.allOff s (relays b)).2 |};
  setRelay ch s b := {| b with relays := (RelayManager.setRelay ch s (relays b)).2 |};
  verifyIfDue t b := {| b with relays := (RelayManager.verifyIfDue t (relays b)).2 |};
  verifyOutputs b := let '(r, w) := RelayManager.verifyOutputs (relays b) in (r, {| b with relays := w |});
  hasActuatorFault b := RelayManager.hasActuatorFault (rm (relays b));
  clearActuatorFault b := {| b with relays := (RelayManager.clearActuatorFault (relays b)).2 |};
}.

(* [src ESP_AKS/src/main.cpp:118-122 CAN_torqueSink] *)
Definition CAN_torqueSink (torque : Z) (b : board) : board :=
  if canForTorque b
  then {| b with can := (CanManager.sendTorqueCommand (u16 torque) (can b)).2 |} else b.

(* [src ESP_AKS/src/main.cpp:40-40 TEL_sensorDataQueue] *)
Record aks := {
  the_board : board;
  the_vcu : vcu Q board;
  TEL_sensorDataQueue : option TQ;
}.

(* [src ESP_AKS/src/main.cpp:98-109 CAN_handleEvent] *)
Definition CAN_handleEvent (e : CAN_Event) (v : vcu Q board) : vcu Q board :=
  match e with
  | CAN_FAULT_DETECTED => postEvent VcuEvent.FAULT_DETECTED v
  | CAN_NONE => v
  end.

(* [src ESP_AKS/src/main.cpp:61-78 HMI_mapVcuState] *)
Definition HMI_mapVcuState (s : VcuState.t) : HMI_VcuState :=
  match s with
  | VcuState.INIT => HMI_INIT
  | VcuState.IDLE => HMI_IDLE
  | VcuState.READY => HMI_READY
  | VcuState.DRIVE => HMI_DRIVE
  | VcuState.EMERGENCY_STOP => HMI_EMERGENCY_STOP
  | VcuState.FAULT => HMI_FAULT
  end.

(* [src ESP_AKS/src/main.cpp:88-96 HMI_areAllContactorsClosed] *)
Definition HMI_areAllContactorsClosed (b : board) : bool :=
  forallb (λ ch, RelayManager.getRelayState (Z.of_nat ch) (rm (relays b)))
    (seq 0 (Z.to_nat RELAY_TOTAL_CHANNELS)).

(** [app_main] up to the creation of the tasks; [false] when it returned early. *)
(* [src ESP_AKS/src/main.cpp:701-765 app_main] *)
Definition app_main (mutexCreated : bool) (x : aks) : bool * aks :=
  let b := the_board x in
  let '(ok, r) := RelayManager.begin (relays b) in
  let b := {| b with relays := r |} in
  if negb ok then (false, {| x with the_board := b |})
  else
    let '(v, b) := init mutexCreated (the_vcu x) b in
    let v := setTorqueSink (Some CAN_torqueSink) v in
    let q := xQueueCreate 1 in
    (match q with None => false | Some _ => true end,
     {| the_board := b; the_vcu := v; TEL_sensorDataQueue := q |}).

(** The CAN task: set-up ([false]: the task deletes itself) and one loop iteration. *)
(* [src ESP_AKS/src/main.cpp:172-184 vTask_CAN_Comm] *)
Definition can_setup (x : aks) : bool * aks :=
  let b := the_board x in
  let w := {| (can b) with cm := CanManager.setEventCallback true (cm (can b)) |} in
  let '(ok, w) := CanManager.begin w in
  (ok, {| x with the_board := {| b with can := w; canForTorque := true |} |}).

(* [src ESP_AKS/src/main.cpp:203-205 vTask_CAN_Comm] *)
Definition can_snapshot (timer_us : Z) (b : board) : TelemetryData :=
  let d := CanManager.getTelemetryData (cm (can b)) in
  {| d with TEL_speedKmhX10 := rpmToSpeedKmhX10 (u16 (TEL_motorRpm d));
            TEL_timestampMs := u32 (timer_us / 1000) |}.

(* [src ESP_AKS/src/main.cpp:195-211 vTask_CAN_Comm] *)
Definition can_cycle (timer_us : Z) (x : aks) : aks :=
  let b := the_board x in
  let w := (CanManager.processRxMessages (can b)).2 in
  let events := drop (length (emitted (can b))) (emitted w) in
  let b := {| b with can := w |} in
  {| the_board := b;
     the_vcu := foldl (flip CAN_handleEvent) (the_vcu x) events;
     TEL_sensorDataQueue :=
       match TEL_sensorDataQueue x with
       | Some q => Some (xQueueOverwrite (can_snapshot timer_us b) q)
       | None => None
       end |}.

(* [src ESP_AKS/src/main.cpp:217-237 vTask_VCU_Logic] *)
Definition vcu_cycle (x : aks) : aks :=
  let v := match TEL_sensorDataQueue x with
           | Some q => match xQueuePeek q with
                       | Some d => setTelemetryData d (the_vcu x)
                       | None => the_vcu x
                       end
           | None => the_vcu x
           end in
  let '(v, b) := run v (the_board x) in
  {| x with the_vcu := v; the_board := b |}.

(** What the HMI task does with a touch command. *)
(* [src ESP_AKS/src/main.cpp:409-431 vTask_HMI_Display] *)
Definition hmi_dispatch (command : Z) (v : vcu Q board) : vcu Q board :=
  if command =? HMI_CMD_START then postEvent VcuEvent.START_REQUEST v
  else if command =? HMI_CMD_RESET then postEvent VcuEvent.RESET v
  else if command =? HMI_CMD_EMERGENCY_STOP then postEvent VcuEvent.EMERGENCY_STOP v
  else if command =? HMI_CMD_DRIVE_ENABLE then postEvent VcuEvent.DRIVE_ENABLE v
  else v.
End System.
Arguments board S D : clear implicits.
Arguments aks Q TQ S D : clear implicits.
Arguments relays {S D}. Arguments can {S D}. Arguments canForTorque {S D}.
Arguments the_board {Q TQ S D}. Arguments the_vcu {Q TQ S D}. Arguments TEL_sensorDataQueue {Q TQ S D}.

(** ** Reachable systems

    Start-up with both inits succeeding, then any interleaving of: CAN task set-up and
    iterations, control-unit ticks, touch commands, and changes of the hardware by itself
    (bus traffic; register upsets and brown-outs of the relay expander, which do not touch
    the driver object). *)
Section Reachable.
Context {Q TQ S D : Type} `{FreeRtosQueueLaws Q VcuEvent.t} `{FreeRtosQueueLaws TQ TelemetryData}
  `{Mcp23s17Read S} `{TwaiDriver D}.
Abbreviation system := (aks Q TQ S D).

Inductive sys_step : system → system → Prop :=
  | sys_can_setup x : sys_step x (can_setup x).2
  | sys_can t x : sys_step x (can_cycle t x)
  | sys_vcu x : sys_step x (vcu_cycle x)
  | sys_hmi c x : sys_step x {| x with the_vcu := hmi_dispatch c (the_vcu x) |}
  | sys_bus d x : sys_step x
      {| x with the_board := {| (the_board x) with
           can := {| (can (the_board x)) with drv := d |} |} |}
  | sys_chip c x : sys_step x
      {| x with the_board := {| (the_board x) with
           relays := {| (relays (the_board x)) with dev := c |} |} |}.

Definition sys_initial (c : S) (d : D) : system := {|
  the_board := {| relays := RelayManager.Build_relay_world RelayManager.relay_mgr_static c;
                  can := CanManager.Build_can_world CanManager.CanMgr_static d [];
                  canForTorque := false |};
  the_vcu := vcu_static; TEL_sensorDataQueue := None |}.

Definition sys_reachable (x : system) : Prop :=
  ∃ c d x0, app_main true (sys_initial c d) = (true, x0) ∧ xQueueCreate (Q:=Q) 8 ≠ None ∧ rtc sys_step x0 x.

(** ** Proofs *)

(** The board keeps the relay driver's contract; "open" is physical. *)
#[export] Instance board_contract : RelayActuatorContract (board S D).
Proof.
  pose (C := RelayManager.RelayManager_contract (D:=S)).
  refine {| ra_ok b := @ra_ok _ _ C (relays b); ra_commanded b := @ra_commanded _ _ C (relays b);
            ra_open b := @ra_open _ _ C (relays b) |}; intros; cbn.
  - by apply (ra_ok_allOn (RelayActuatorContract:=C)).
  - by apply (ra_ok_allOff (RelayActuatorContract:=C)).
  - by apply (ra_ok_verify (RelayActuatorContract:=C)).
  - by apply (ra_ok_clear (RelayActuatorContract:=C)).
  - by apply (ra_allOn (RelayActuatorContract:=C)).
  - by apply (ra_allOff (RelayActuatorContract:=C)).
  - by apply (ra_verify_commanded (RelayActuatorContract:=C)).
  - by apply (ra_clear_commanded (RelayActuatorContract:=C)).
  - by apply (ra_allOff_confirmed (RelayActuatorContract:=C)).
  - by apply (ra_latched_allOn (RelayActuatorContract:=C)).
  - by apply (ra_latched_allOff (RelayActuatorContract:=C)).
  - by apply (ra_latched_verify (RelayActuatorContract:=C)).
  - done.
Defined.

Lemma torque_sink_frame : sink_frame (W:=board S D) CAN_torqueSink.
Proof. intros t b Hb. unfold CAN_torqueSink. by destruct (canForTorque b). Qed.

Lemma rtc_post_events (l : list CAN_Event) v b :
  rtc vcu_step (v, b) (foldl (flip CAN_handleEvent) v l, b).
Proof.
  revert v. induction l as [|e l IH]; intros v; cbn [foldl]; [done|].
  etransitivity; [|apply IH]. destruct e; cbn; [done|]. apply rtc_once. constructor.
Qed.

(** A change of the board that keeps the driver object is a hardware step. *)
Lemma rtc_hardware v (b b' : board S D) : rm (relays b') = rm (relays b) → rtc vcu_step (v, b) (v, b').
Proof. intros E. apply rtc_once. constructor; cbn; by rewrite E. Qed.

(** Every system step is a sequence of the control unit's steps. *)
Lemma sys_step_vcu x y : sys_step x y →
  rtc vcu_step (the_vcu x, the_board x) (the_vcu y, the_board y).
Proof.
  intros [x0|t x0|x0|c x0|d x0|c x0]; cbn.
  - unfold can_setup. destruct (CanManager.begin _) as [ok w]. cbn. by apply rtc_hardware.
  - etransitivity; [by eapply (rtc_hardware _ _ {| (the_board x0) with can := _ |})|]. apply rtc_post_events.
  - unfold vcu_cycle. set (v := match TEL_sensorDataQueue x0 with Some _ => _ | None => _ end).
    assert (Hv : rtc vcu_step (the_vcu x0, the_board x0) (v, the_board x0)).
    { unfold v. destruct (TEL_sensorDataQueue x0) as [q|]; [|done]. destruct (xQueuePeek q); [|done].
      apply rtc_once. constructor. }
    etransitivity; [exact Hv|]. apply rtc_once.
    pose proof (step_run v (the_board x0)) as Hr. by destruct (run v (the_board x0)).
  - unfold hmi_dispatch. repeat case_match; try done; apply rtc_once; constructor.
  - by apply rtc_hardware.
  - by apply rtc_hardware.
Qed.

Lemma app_main_boot c d x : app_main true (sys_initial c d) = (true, x) → xQueueCreate (Q:=Q) 8 ≠ None →
  vcu_boot (the_vcu x, the_board x).
Proof.
  unfold app_main, sys_initial. cbn [the_board relays]. intros E Hq.
  pose proof (RelayManager.begin_ok
    (RelayManager.Build_relay_world RelayManager.relay_mgr_static c)) as Hb.
  destruct (RelayManager.begin _) as [[] r]; [|done]. cbn [negb] in E. specialize (Hb eq_refl).
  destruct (xQueueCreate (Q:=Q) 8) as [q|] eqn:Eq; [|done].
  set (b := {| relays := r |}) in E.
  pose proof (boot (Some CAN_torqueSink) q b) as Hboot.
  unfold init in *. cbn in *. rewrite Eq in *. cbn in *. injection E as _ <-. cbn.
  apply Hboot; [|exact Hb|done]. intros k [= <-]. apply torque_sink_frame.
Qed.

Lemma sys_vcu_reachable x : sys_reachable x → reachable (the_vcu x, the_board x).
Proof.
  intros (c & d & x0 & E & Hq & Hr). exists (the_vcu x0, the_board x0).
  split; [by eapply app_main_boot|]. clear E. induction Hr as [|x y z Hs _ IH]; [done|].
  etransitivity; [by apply sys_step_vcu|exact IH].
Qed.

Definition with_vcu (x : system) (y : vcu Q (board S D) * board S D) : system :=
  {| x with the_vcu := y.1; the_board := y.2 |}.

Lemma setTelemetry_same d (v : vcu Q (board S D)) : s_TEL_dataMutex v = true →
  s_TEL_latestData v = d → setTelemetryData d v = v.
Proof. intros Hm Hd. unfold setTelemetryData. rewrite Hm. destruct v; cbn in *; by subst. Qed.

(** While the mailbox holds the record the unit has already taken, cycles are ticks. *)
Lemma vcu_cycles n x q d v b : TEL_sensorDataQueue x = Some q → xQueuePeek q = Some d →
  vcu_inv v b → s_TEL_latestData v = d →
  Nat.iter n vcu_cycle (with_vcu x (v, b)) = with_vcu x (runs n (v, b)).
Proof.
  intros Hq Hp Hinv Hd.
  assert (Hn : vcu_inv (runs n (v, b)).1 (runs n (v, b)).2 ∧ s_TEL_latestData (runs n (v, b)).1 = d ∧
    Nat.iter n vcu_cycle (with_vcu x (v, b)) = with_vcu x (runs n (v, b))); [|apply Hn].
  induction n as [|n (Hi & Hl & E)]; [done|]. rewrite Nat.iter_succ, E.
  change (runs (Datatypes.S n) (v, b)) with (run (runs n (v, b)).1 (runs n (v, b)).2).
  destruct (runs n (v, b)) as [v1 b1]. cbn [fst snd] in *.
  split; [by apply inv_run|]. destruct (run v1 b1) as [v2 b2] eqn:Er.
  destruct (run_frame _ _ _ _ (vi_sink _ _ Hi) (vi_ok _ _ Hi) Er) as ([_ _ Hk _] & _ & _).
  split; [cbn; congruence|]. unfold vcu_cycle, with_vcu. cbn [TEL_sensorDataQueue the_vcu the_board fst snd].
  rewrite Hq, Hp, (setTelemetry_same d v1), Er by (done || apply Hi). done.
Qed.

(** The first cycle that sees the critical record enters a safe state. *)
Lemma critical_cycle v b : vcu_inv v b →
  hasCriticalCondition (s_TEL_latestData v) (s_state v) = true → ¬ is_safe_state (s_state v) →
  s_eStopPending v && s_faultPending v = false →
  let '(v', b') := run v b in
  is_safe_state (s_state v') ∧ s_stateTimer v' = 0 ∧ opened v' = false ∧
  s_eStopPending v' = false ∧ s_faultPending v' = false.
Proof.
  intros Hi Hc Hs Hf. rewrite run_cases.
  assert (Hns : bool_decide (s_state v = VcuState.EMERGENCY_STOP) = false ∧
                bool_decide (s_state v = VcuState.FAULT) = false).
  { unfold is_safe_state in Hs. split; apply bool_decide_eq_false_2; tauto. }
  destruct Hns as [-> ->]. rewrite !andb_true_r.
  destruct (s_eStopPending v), (s_faultPending v); try done;
    [split_and!; try done; by left|split_and!; try done; by right|].
  rewrite run_checks_cases.
  assert (Hp : preempt (check_inputs (ticked false v) b) (s_state (ticked false v)) = Some VcuState.FAULT).
  { unfold preempt, check_inputs. cbn. pose proof (vi_state _ _ Hi). unfold is_safe_state in Hs.
    destruct (s_state v); try tauto; rewrite Hc; by rewrite ?orb_true_r. }
  rewrite Hp. split_and!; try done. by right.
Qed.

(** From a safe state just entered, the control unit's cycles open the contactors. *)
Lemma opening_cycles x q d v b : TEL_sensorDataQueue x = Some q → xQueuePeek q = Some d →
  vcu_inv v b → s_TEL_latestData v = d →
  is_safe_state (s_state v) → s_stateTimer v = 0 → opened v = false →
  s_eStopPending v = false → s_faultPending v = false →
  hasCriticalCondition d (s_state v) = true ∨ VcuEvent.RESET ∉ queued v →
  ∃ n, (n <= 9)%nat ∧ let y := Nat.iter n vcu_cycle (with_vcu x (v, b)) in
    s_state (the_vcu y) = s_state v ∧
    RelayManager.s_relayState (rm (relays (the_board y))) = 0 ∧
    (RelayManager.s_actuatorFault (rm (relays (the_board y))) = false →
     ∀ ch, 0 <= ch < RELAY_TOTAL_CHANNELS → contactor_closed (dev (relays (the_board y))) ch = false).
Proof.
  intros Hq Hp Hi Hd Hsafe Ht Ho He Hf Hcr. destruct (vi_queue _ _ Hi) as (q1 & Hq1 & _ & Hl1).
  destruct (awaiting_open_runs (length (queued v)) v b) as (k & Hk1 & Hst & _ & Hm & Hopen);
    [done| |by rewrite Hd|by apply Hi|].
  - assert ((length (queued v) <= 8)%nat) by (unfold queued; by rewrite Hq1).
    constructor; [apply Hi..|done|done|done|lia|done].
  - exists (Datatypes.S k). split; [unfold queued in *; rewrite Hq1 in *; lia|].
    rewrite (vcu_cycles _ x q d v b) by done. cbn zeta. unfold with_vcu. cbn [the_vcu the_board].
    split_and!; [exact Hst|exact Hm|exact Hopen].
Qed.

(** End to end: when the CAN task has published a record with a critical measurement
    (pack voltage, temperature, current, cell voltage, motor error, timeout outside IDLE),
    then in any reachable state of the whole firmware that is not already a safe state, the
    control unit's next cycle enters FAULT (or E-STOP when that is pending), and within one
    further cycle per queued event plus one (at most 9, so 200 ms in all) every contactor is
    commanded open, and unless the relay driver latched an actuator fault, the expander's
    registers de-energise all ten of them.  A RESET that arrives meanwhile is refused. *)
Theorem critical_data_opens_contactors x q d :
  sys_reachable x → TEL_sensorDataQueue x = Some q → xQueuePeek q = Some d →
  hasCriticalCondition d (s_state (the_vcu x)) = true → ¬ is_safe_state (s_state (the_vcu x)) →
  s_eStopPending (the_vcu x) && s_faultPending (the_vcu x) = false →
  is_safe_state (s_state (the_vcu (vcu_cycle x))) ∧
  ∃ n, (n <= 9)%nat ∧ let y := Nat.iter n vcu_cycle (vcu_cycle x) in
    is_safe_state (s_state (the_vcu y)) ∧
    RelayManager.s_relayState (rm (relays (the_board y))) = 0 ∧
    (RelayManager.s_actuatorFault (rm (relays (the_board y))) = false →
     ∀ ch, 0 <= ch < RELAY_TOTAL_CHANNELS → contactor_closed (dev (relays (the_board y))) ch = false).
Proof.
  intros Hr%sys_vcu_reachable Hq Hp Hc Hs Hf.
  set (v0 := setTelemetryData d (the_vcu x)).
  pose proof (inv_reachable _ (reach_telemetry d _ _ Hr)) as Hi0. cbn [fst snd] in Hi0. fold v0 in Hi0.
  assert (Hd0 : s_TEL_latestData v0 = d).
  { pose proof (vi_mutex _ _ (inv_reachable _ Hr)) as Hm. unfold v0, setTelemetryData. cbn in Hm. by rewrite Hm. }
  assert (Hst0 : s_state v0 = s_state (the_vcu x) ∧ s_eStopPending v0 = s_eStopPending (the_vcu x) ∧
    s_faultPending v0 = s_faultPending (the_vcu x)) by (unfold v0, setTelemetryData; by case_match).
  destruct Hst0 as (Hst0 & He0 & Hf0).
  pose proof (critical_cycle v0 (the_board x) Hi0) as Hcyc. rewrite Hd0, Hst0, He0, Hf0 in Hcyc.
  specialize (Hcyc Hc Hs Hf). pose proof (inv_run _ _ Hi0) as Hi1.
  assert (Hx : vcu_cycle x = with_vcu x (run v0 (the_board x))).
  { unfold vcu_cycle. rewrite Hq, Hp. change (setTelemetryData d (the_vcu x)) with v0.
    destruct (run v0 (the_board x)) as [v1 b1]. unfold with_vcu. by rewrite <- Hq. }
  rewrite Hx. destruct (run v0 (the_board x)) as [v1 b1] eqn:Er.
  destruct (run_frame _ _ _ _ (vi_sink _ _ Hi0) (vi_ok _ _ Hi0) Er) as ([_ _ Hk _] & _ & _).
  destruct Hcyc as (Hsafe & Ht & Ho & He & Hff). cbn [fst snd] in Hi1. split; [exact Hsafe|].
  destruct (opening_cycles x q d v1 b1) as (n & Hn & Hst & Hm & Hopen); try done; [congruence| |].
  { left. by eapply critical_in_safe. }
  exists n. split; [exact Hn|]. cbn zeta. rewrite Hst. split_and!; [done|exact Hm|exact Hopen].
Qed.

Lemma sys_reachable_step x y : sys_reachable x → sys_step x y → sys_reachable y.
Proof. intros (c & d & x0 & E & Hq & Hr) Hs. exists c, d, x0. split_and!; [done..|by eapply rtc_r]. Qed.
End Reachable.

(** ** A vehicle on the bench

    The simulated expander and CAN controller: boot, healthy battery frames, START; then
    the pack overheats. *)
Import (hints) RelayManager.FakeChip CanManagerCorrect.FakeTwai.
Module Vehicle.
Abbreviation system := (aks (ListQueue VcuEvent.t) (ListQueue TelemetryData) RelayManager.FakeChip.t
  CanManagerCorrect.FakeTwai.t).
Definition e000 : CanParse.twai_message_t := CanParse.encodeE000 0 790 5000 5000.
Definition e001 (temp : Z) : CanParse.twai_message_t := CanParse.encodeE001 32900 33100 33000 25 temp.
Definition bus (frames : list CanParse.twai_message_t) : CanManagerCorrect.FakeTwai.t :=
  CanManagerCorrect.FakeTwai.Build_t frames 1000.
Definition with_bus (frames : list CanParse.twai_message_t) (x : system) : system :=
  {| x with the_board := {| (the_board x) with
       can := {| (can (the_board x)) with drv := bus frames |} |} |}.

Definition booted : system :=
  (app_main true (sys_initial RelayManager.FakeChip.reset_chip (bus [e000]))).2.
Definition healthy : system := can_cycle 1000000 (with_bus [e000; e001 26] (can_setup booted).2).
Definition started : system :=
  {| healthy with the_vcu := hmi_dispatch HMI_CMD_START (the_vcu healthy) |}.
Definition ready : system := vcu_cycle started.
Definition overheated : system := can_cycle 1100000 (with_bus [e000; e001 75] ready).

Lemma vehicle_booted_reachable : sys_reachable booted.
Proof.
  exists RelayManager.FakeChip.reset_chip, (bus [e000]), booted. split; [|by split].
  assert (E : (app_main (Q:=ListQueue VcuEvent.t) (TQ:=ListQueue TelemetryData) true
    (sys_initial RelayManager.FakeChip.reset_chip (bus [e000]))).1 = true) by (by vm_compute).
  unfold booted. destruct (app_main _ _) as [ok x]. cbn in *. by subst.
Qed.
Lemma with_bus_reachable frames x : sys_reachable x → sys_reachable (with_bus frames x).
Proof. intros Hx. exact (sys_reachable_step _ _ Hx (sys_bus (bus frames) x)). Qed.
Lemma healthy_reachable : sys_reachable healthy.
Proof.
  refine (sys_reachable_step _ _ _ (sys_can 1000000 _)). apply with_bus_reachable.
  exact (sys_reachable_step _ _ vehicle_booted_reachable (sys_can_setup booted)).
Qed.
Lemma vehicle_ready_reachable : sys_reachable ready.
Proof.
  refine (sys_reachable_step started _ _ (sys_vcu _)).
  exact (sys_reachable_step _ _ healthy_reachable (sys_hmi HMI_CMD_START healthy)).
Qed.
Lemma overheated_reachable : sys_reachable overheated.
Proof.
  refine (sys_reachable_step _ _ _ (sys_can 1100000 _)). apply with_bus_reachable, vehicle_ready_reachable.
Qed.
End Vehicle.

(** The contactors were closed, and the overheated pack opens them. *)
Lemma critical_data_opens_contactors_witness :
  HMI_areAllContactorsClosed (the_board Vehicle.ready) = true ∧
  ∃ n, (n <= 9)%nat ∧
    RelayManager.s_relayState (rm (relays (the_board
      (Nat.iter n vcu_cycle (vcu_cycle Vehicle.overheated))))) = 0.
Proof.
  split; [by vm_compute|].
  destruct (TEL_sensorDataQueue Vehicle.overheated) as [q|] eqn:Eq; [|by vm_compute in Eq].
  destruct (xQueuePeek q) as [d|] eqn:Ed.
  2:{ vm_compute in Eq. injection Eq as <-. by vm_compute in Ed. }
  destruct (critical_data_opens_contactors Vehicle.overheated q d) as (_ & n & Hn & _ & Hm & _);
    [exact Vehicle.overheated_reachable|exact Eq|exact Ed| 
    | |by vm_compute|exists n; split; [exact Hn|exact Hm]].
  - vm_compute in Eq. injection Eq as <-. vm_compute in Ed. injection Ed as <-. by vm_compute.
  - intros [H|H]; by vm_compute in H.
Defined.
