(* ===== verification/HmiTask.v ===== *)
(** [src/main.cpp], the HMI task: retry of the display's start-up, the screen data built
    from the telemetry mailbox, the battery page with its once-a-second schedule, and one
    loop iteration, which answers the touch command it read; what the screen shows of stale
    data; and under the page's schedule the panel catches up with the data, but for a zero
    that was never sent.

    Filtered values are single-precision floats ([F32] of [Telemetry.v]). *)
From S2P Require Import Prelude SystemConfig VehicleData BmsAlgo VcuSafety Telemetry HMIHelpers DisplayHMI BmsNextionPacket AksSystem.
From Stdlib Require Import SpecFloat.
Open Scope Z_scope.

Module Ema.
Definition add := SFadd F32.prec F32.emax.
Definition sub := SFsub F32.prec F32.emax.
(** The float nearest to 0.15. *)
(* [src ESP_AKS/src/main.cpp:276-276 HMI_EMA_ALPHA] *)
Definition HMI_EMA_ALPHA : spec_float := F32.make 10066330 (-26).
(** [alpha * target + (1 - alpha) * old] *)
(* [src ESP_AKS/src/main.cpp:295-297 vTask_HMI_Display] *)
Definition step (target old : spec_float) : spec_float :=
  add (F32.mul HMI_EMA_ALPHA target) (F32.mul (sub (F32.of_Z 1) HMI_EMA_ALPHA) old).
End Ema.

(** The locals and function statics of the task. *)
(* [src ESP_AKS/src/main.cpp:271-275 vTask_HMI_Display] *)
Record hmi_task := {
  HMI_display : DisplayHMI;
  HMI_touch : TouchParser;
  HMI_smoothedRpm : spec_float;
  HMI_smoothedSpeed : spec_float;
  BMS_hmiCache : BmsNextionCache;
  BMS_lastCellUpdateMs : Z;          (* uint32_t *)
  BMS_firstRun : bool;
}.

(* [src ESP_AKS/src/main.cpp:387-389 vTask_HMI_Display] *)
Definition hmi_task_initial : hmi_task := {|
  HMI_display := newDisplayHMI; HMI_touch := touch_initial;
  HMI_smoothedRpm := F32.of_Z 0; HMI_smoothedSpeed := F32.of_Z 0;
  BMS_hmiCache := newBmsNextionCache; BMS_lastCellUpdateMs := 0; BMS_firstRun := true |}.

(** The screen data, from the record in the mailbox if there is one. *)
(* [src ESP_AKS/src/main.cpp:281-325 vTask_HMI_Display] *)
Definition hmi_screen (mail : option TelemetryData) (state : VcuState.t) (contactors : bool)
    (s : hmi_task) : HMI_DisplayData * hmi_task :=
  let x := {| HMI_DisplayData_zero with HMI_currentBattery := HMI_BATTERY_NO_DATA;
                                        HMI_bmsTemperatureC := HMI_TEMP_NO_DATA |} in
  let '(x, s) :=
    match mail with
    | None => (x, s)
    | Some d =>
        let targetRpm := F32.of_Z (TEL_motorRpm d) in
        let targetSpeed := F32.div (F32.of_Z (TEL_speedKmhX10 d)) (F32.of_Z 10) in
        let rpm := Ema.step targetRpm (HMI_smoothedRpm s) in
        let speed := Ema.step targetSpeed (HMI_smoothedSpeed s) in
        ({| x with
            HMI_currentSpeed := u16 (F32.trunc speed);
            HMI_currentBattery := HMI_batteryDisplayValue HMI_SOC_SOURCE_VERIFIED
              (TEL_bmsDataValid d) (TEL_bmsSocHundredths d);
            HMI_motorRpm := u16 (F32.trunc rpm);
            HMI_motorErrorFlags := TEL_motorErrorFlags d;
            HMI_motorDataValid := TEL_motorDataValid d;
            HMI_motorTimeoutActive := TEL_motorTimeoutActive d;
            HMI_bmsTemperatureC := HMI_temperatureDisplayValue HMI_TEMP_SOURCE_VERIFIED
              (TEL_bmsDataValid d) (TEL_bmsTempHighestC d);
            HMI_bmsPackVoltageDeciV := TEL_bmsPackVoltageDeciV d;
            HMI_bmsPackCurrentCentiA := TEL_bmsCurrentCentiA d |},
         {| s with HMI_smoothedRpm := rpm; HMI_smoothedSpeed := speed |})
    end in
  ({| x with HMI_vcuState := HMI_mapVcuState state; HMI_contactorClosed := contactors |}, s).

(** The battery page's inputs: the pack snapshot and what is computed from it. *)
(* [src ESP_AKS/src/main.cpp:330-385 vTask_HMI_Display] *)
Definition bms_page (mail : option TelemetryData) : BmsPackData * BmsComputed :=
  let raw := {| cellVoltageMv := replicate BMS_CELL_COUNT 0; cellTempC := replicate BMS_CELL_COUNT 0;
                packCurrentMa := 0; isValid := false; cellDataValid := true |} in
  let invalid :=
    ({| raw with cellVoltageMv := replicate BMS_CELL_COUNT HMI_CELL_VOLTAGE_NO_DATA |},
     {| BmsComputed_zero with balanceFlag := replicate BMS_CELL_COUNT false;
        cellMaxMv := HMI_CELL_VOLTAGE_NO_DATA; cellMinMv := HMI_CELL_VOLTAGE_NO_DATA;
        warningLevel := BMS_WARN_CRITICAL |}) in
  match mail with
  | Some d =>
      if TEL_bmsDataValid d then
        let raw := {| raw with isValid := true; packCurrentMa := i32 (TEL_bmsCurrentCentiA d * 10);
                               cellDataValid := TEL_cellVoltageDataValid d |} in
        let raw :=
          if cellDataValid raw
          then {| raw with cellVoltageMv := map (λ i, nth i (TEL_bmsCellVoltages d) 0) (seq 0 BMS_CELL_COUNT) |}
          else {| raw with cellVoltageMv := replicate BMS_CELL_COUNT HMI_CELL_VOLTAGE_NO_DATA |} in
        (raw, computePack raw)
      else invalid
  | None => invalid
  end.

(** [(updateCells, forceRefresh)]: everything at first, the cells once a second. *)
(* [src ESP_AKS/src/main.cpp:391-403 vTask_HMI_Display] *)
Definition page_schedule (nowMs : Z) (s : hmi_task) : bool * bool * hmi_task :=
  if BMS_firstRun s then (true, true, {| s with BMS_firstRun := false; BMS_lastCellUpdateMs := nowMs |})
  else if 1000 <=? u32 (nowMs - BMS_lastCellUpdateMs s)
  then (true, false, {| s with BMS_lastCellUpdateMs := nowMs |})
  else (false, false, s).

Section Task.
Context {W : Type} `{HmiUart W}.

(* [src ESP_AKS/src/main.cpp:81-86 BMS_emitNextionCommand] *)
Definition BMS_emitNextionCommand (cmd : list Z) (w : W) : W := ((hmi_write cmd;; HMI_sendEndBytes) w).2.

(** At most five attempts; [false]: the task idles for ever. *)
(* [src ESP_AKS/src/main.cpp:247-269 vTask_HMI_Display] *)
Fixpoint hmi_setup (attempts fuel : nat) (d : DisplayHMI) : F W (bool * DisplayHMI) :=
  match attempts with
  | O => mret (false, d)
  | S attempts =>
      r ← display_begin fuel d;
      let '(ok, d) := r in
      if ok : bool then mret (true, d)
      else lift (hmi_delay 1000);; lift hmi_wdt_reset;; hmi_setup attempts fuel d
  end.

(** The battery page of one iteration. *)
(* [src ESP_AKS/src/main.cpp:328-407 vTask_HMI_Display] *)
Definition battery_page (mail' : option TelemetryData) (nowMs : Z) (s : hmi_task) : M W hmi_task :=
  let '(raw, comp) := bms_page mail' in
  let '(updateCells, force, s) := page_schedule nowMs s in
  cache ← buildBmsNextionCommands BMS_emitNextionCommand default_maxBytes comp raw
            (BMS_hmiCache s) force updateCells;
  mret {| s with BMS_hmiCache := cache |}.

(** One iteration; the mailbox exists, as after [app_main], and is read twice, once for the
    screen and once for the battery page (the CAN task may overwrite it in between). *)
(* [src ESP_AKS/src/main.cpp:278-435 vTask_HMI_Display] *)
Definition hmi_cycle (fuel : nat) (mail mail' : option TelemetryData) (state : VcuState.t) (contactors : bool)
    (timer_us : Z) (s : hmi_task) : F W (option Z * hmi_task) :=
  let '(x, s) := hmi_screen mail state contactors s in
  d ← lift (updateScreen x (HMI_display s));
  s ← lift (battery_page mail' (u32 (timer_us / 1000)) s);
  r ← readTouchCommand fuel d (HMI_touch s);
  let '(command, p) := r in
  mret (command, {| s with HMI_display := d; HMI_touch := p |}).
End Task.

(** ** The task returns *)
Section Ends.
Context {W : Type} `{HmiUartContract W}.

(** Start-up returns, whatever the drivers answer; the display is initialised exactly when
    it reports success. *)
Lemma hmi_setup_ends attempts d (w : W) : HMI_isInitialized d = false →
  ∃ n ok d' w', (∀ fuel, (n <= fuel)%nat → hmi_setup attempts fuel d w = Some ((ok, d'), w')) ∧
    HMI_isInitialized d' = ok.
Proof.
  revert w. induction attempts as [|attempts IH]; intros w Hd; [by exists 0%nat, false, d, w|].
  destruct (display_begin_ends d w) as (n & ok & d1 & w1 & E & Hi & Hf).
  destruct ok.
  - exists n, true, d1, w1. split; [|done]. intros fuel Hn. cbn [hmi_setup].
    unfold mbind, F_bind. by rewrite E by done.
  - rewrite (Hf eq_refl) in E. destruct (hmi_delay 1000 w1) as [u w2] eqn:E2.
    destruct (hmi_wdt_reset w2) as [u' w3] eqn:E3.
    destruct (IH w3 Hd) as (m & ok & d' & w' & Em & Hok). exists (n + m)%nat, ok, d', w'.
    split; [|done]. intros fuel Hn. cbn [hmi_setup]. unfold mbind, F_bind, lift.
    rewrite E by lia. cbn. rewrite E2. cbn. rewrite E3. apply Em. lia.
Qed.

(** So does an iteration. *)
Lemma hmi_cycle_ends mail mail' state closed timer_us s (w : W) :
  ∃ n command s' w', ∀ fuel, (n <= fuel)%nat →
    hmi_cycle fuel mail mail' state closed timer_us s w = Some ((command, s'), w').
Proof.
  unfold hmi_cycle. destruct (hmi_screen mail state closed s) as [x s1].
  destruct (updateScreen x (HMI_display s1) w) as [d w1] eqn:E1.
  destruct (battery_page mail' (u32 (timer_us / 1000)) s1 w1) as [s2 w2] eqn:E2.
  destruct (readTouchCommand_spec (S (hmi_rx_left w2)) d (HMI_touch s2) w2) as (r & p & w3 & bs & E & _); [lia|].
  eexists (S (hmi_rx_left w2)), r, _, w3. intros fuel Hn. unfold mbind, F_bind, mret, F_ret, lift.
  rewrite E1. cbn [mbind option_bind]. rewrite E2. cbn [mbind option_bind]. by rewrite E by done.
Qed.
End Ends.

(** ** Proofs *)

(** What the battery page shows when there is nothing to show. *)
Definition cells_blank (raw : BmsPackData) (comp : BmsComputed) : Prop :=
  ∀ i, (i < BMS_CELL_COUNT)%nat →
    component_value comp raw (Cell i) = HMI_CELL_VOLTAGE_NO_DATA ∧
    component_value comp raw (Bar i) = 0 ∧ component_value comp raw (Bal i) = 0.

Lemma blank_cells raw comp :
  cellVoltageMv raw = replicate BMS_CELL_COUNT HMI_CELL_VOLTAGE_NO_DATA →
  balanceFlag comp = replicate BMS_CELL_COUNT false → cells_blank raw comp.
Proof.
  intros Hc Hb i Hi. cbn. rewrite Hc, Hb, !nth_replicate by done. done.
Qed.

(** ** The page on the panel *)

(** Several iterations of the page, each with the record in the mailbox and the clock. *)
Definition page_iterations {W} `{HmiUart W} (its : list (option TelemetryData * Z)) (x : hmi_task * W) : hmi_task * W :=
  foldl (λ x it, battery_page it.1 it.2 x.1 x.2) x its.

(** The name of a component on the panel, and the command that shows a record's value. *)
Definition component_text (k : component) : list Z :=
  (component_name k).1 ++ (if 0 <=? (component_name k).2 then print_int (component_name k).2 else []).
Definition page_value (mail : option TelemetryData) (k : component) : Z :=
  component_value (bms_page mail).2 (bms_page mail).1 k.
Definition page_command (mail : option TelemetryData) (k : component) : list Z * shown :=
  (component_text k, Num (page_value mail k)).

Lemma component_text_inj k k' : k ∈ all_components → k' ∈ all_components →
  component_text k = component_text k' → k = k'.
Proof.
  assert (Hnd : NoDup (map component_text all_components)) by (by apply (bool_decide_unpack _); vm_compute).
  intros [i Hi]%list_elem_of_lookup [j Hj]%list_elem_of_lookup E.
  rewrite NoDup_alt in Hnd. specialize (Hnd i j (component_text k)).
  rewrite !list_lookup_fmap, Hi, Hj in Hnd. cbn in Hnd. rewrite E in Hnd. specialize (Hnd eq_refl eq_refl).
  congruence.
Qed.

(** The commands of the rest of the screen, which share the wire, have other names. *)
Lemma page_names_disjoint k x : k ∈ all_components → component_text k ∉ map fst (fields x).
Proof.
  assert (Hd : Forall (λ k, component_text k ∉ map fst (fields HMI_DisplayData_zero)) all_components)
    by (by apply (bool_decide_unpack _); vm_compute).
  rewrite Forall_forall in Hd. rewrite field_names. apply Hd.
Qed.

(** What has been sent since power-on, against the driver's cache: a component that was ever
    sent shows the cached value on any panel; one that never was is cached as at power-on. *)
Definition tracks (sent : list (list Z * shown)) (c : BmsNextionCache) : Prop :=
  ∀ k, k ∈ all_components →
    (component_text k ∈ map fst sent → ∀ p, panel_apply sent p (component_text k) = Some (Num (cache_get k c))) ∧
    (component_text k ∉ map fst sent → cache_get k c = cache_get k newBmsNextionCache).

Lemma panel_apply_app cs cs' p : panel_apply (cs ++ cs') p = panel_apply cs' (panel_apply cs p).
Proof. apply foldl_app. Qed.

Lemma page_command_shown mail es p k : (∀ k', k' ∈ es → k' ∈ all_components) → k ∈ all_components → k ∈ es →
  panel_apply (map (page_command mail) es) p (component_text k) = Some (Num (page_value mail k)).
Proof.
  intros Hes Hk. revert p. induction es as [|k' es IH] using rev_ind; intros p; [by intros ?%not_elem_of_nil|].
  rewrite map_app, panel_apply_app. intros Hin. cbn. case_decide as E.
  - apply component_text_inj in E as ->; [done|done|]. apply Hes, elem_of_app. right. by left.
  - apply IH; [intros; apply Hes, elem_of_app; by left|].
    apply elem_of_app in Hin as [?| ->%list_elem_of_singleton]; done.
Qed.

Lemma page_command_name mail es k : (∀ k', k' ∈ es → k' ∈ all_components) → k ∈ all_components →
  component_text k ∈ map fst (map (page_command mail) es) ↔ k ∈ es.
Proof.
  intros Hes Hk. rewrite map_map. cbn. rewrite list_elem_of_fmap. split; [|by eauto].
  intros (k' & E & Hk'). apply component_text_inj in E as ->; auto.
Qed.

Lemma tracks_sent mail sent c c' es : tracks sent c → (∀ k, k ∈ es → k ∈ all_components) →
  (∀ k, cache_get k c' = if decide (k ∈ es) then page_value mail k else cache_get k c) →
  tracks (sent ++ map (page_command mail) es) c'.
Proof.
  intros Ht Hes Hg k Hk. destruct (Ht k Hk) as [H1 H2]. rewrite map_app, elem_of_app, Hg.
  pose proof (page_command_name mail es k Hes Hk) as Hn. destruct (decide (k ∈ es)) as [Hin|Hin].
  - split; [|tauto]. intros _ p. rewrite panel_apply_app. by apply page_command_shown.
  - split; [|tauto]. intros Hs p. rewrite panel_apply_app, panel_apply_other by tauto. apply H1. tauto.
Qed.

Section Wire.
Context {W : Type} `{HmiUartContract W}.

Lemma emit_all_tx mail es (w : W) :
  hmi_tx (emit_all BMS_emitNextionCommand (bms_page mail).2 (bms_page mail).1 es w)
  = hmi_tx w ++ wires (map (page_command mail) es).
Proof.
  revert w. induction es as [|k es IH]; intros w; [by rewrite app_nil_r|].
  unfold emit_all in *. cbn [foldl]. rewrite IH. unfold BMS_emitNextionCommand.
  rewrite (proj1 (write_command_tx _ w)), <- app_assoc. f_equal. unfold wires. cbn [map concat]. f_equal.
  unfold wire, page_command, command_of, bms_command, numeric_command, component_text. cbn [fst snd].
  by rewrite <- !app_assoc.
Qed.

Lemma wires_cost mail es :
  Z.of_nat (length (wires (map (page_command mail) es))) = total_cost (bms_page mail).2 (bms_page mail).1 es.
Proof.
  unfold wires, total_cost. induction es as [|k es IH]; [done|]. cbn [map concat foldr].
  rewrite length_app, Nat2Z.inj_add, IH. f_equal.
  unfold wire, page_command, page_value, cost, command_of, bms_command, numeric_command, component_text.
  cbn [fst snd]. rewrite !length_app. change (length end_bytes) with 3%nat. lia.
Qed.
End Wire.

(** ** The page catches up *)

(** The clock readings of iterations [steps] milliseconds apart, from time [t] on. *)
Fixpoint stamps (t : Z) (steps : list Z) : list Z :=
  match steps with
  | [] => []
  | d :: steps => u32 (t + d) :: stamps (t + d) steps
  end.
Fixpoint elapsed (steps : list Z) : Z := match steps with [] => 0 | d :: steps => d + elapsed steps end.

Section Page.
Context {W : Type} `{HmiUart W} (mail : option TelemetryData).
Abbreviation comp := (bms_page mail).2.
Abbreviation raw := (bms_page mail).1.

(** The page over several iterations with the same record in the mailbox. *)
Definition page_run (nows : list Z) (x : hmi_task * W) : hmi_task * W :=
  page_iterations (map (pair mail) nows) x.

Definition to_send (s : hmi_task) : nat := length (stale comp raw all_components (BMS_hmiCache s)).
Definition since (t : Z) (s : hmi_task) : Z := u32 (t - BMS_lastCellUpdateMs s).

(** After an iteration the last update is less than a second old, and no component has
    become stale; a second after the last update, at least four fewer are. *)
Lemma page_step t s (w : W) : inputs_ok comp raw → cache_wf (BMS_hmiCache s) →
  let s' := (battery_page mail (u32 t) s w).1 in
  cache_wf (BMS_hmiCache s') ∧ BMS_firstRun s' = false ∧ (to_send s' <= to_send s)%nat ∧
  if BMS_firstRun s || (1000 <=? since t s) then
    since t s' = 0 ∧ (BMS_firstRun s = false → (to_send s' <= to_send s - 4)%nat)
  else BMS_lastCellUpdateMs s' = BMS_lastCellUpdateMs s.
Proof.
  intros Hin Hwf. unfold battery_page, to_send, since. destruct (bms_page mail) as [rw cp]. cbn [fst snd] in *.
  assert (Hsub : u32 (u32 t - BMS_lastCellUpdateMs s) = u32 (t - BMS_lastCellUpdateMs s))
    by (unfold u32, wrapu; by rewrite Zminus_mod_idemp_l).
  assert (H0 : u32 (t - u32 t) = 0) by (unfold u32, wrapu; rewrite Zminus_mod_idemp_r, Z.sub_diag; done).
  unfold page_schedule. rewrite Hsub. unfold mbind, M_bind, mret, M_ret.
  assert (Hb : ∀ force update, let '(c, _) := buildBmsNextionCommands BMS_emitNextionCommand default_maxBytes cp rw
      (BMS_hmiCache s) force update w in
    cache_wf c ∧ (length (stale cp rw all_components c) <= length (stale cp rw all_components (BMS_hmiCache s)))%nat ∧
    (force = false → update = true →
     (length (stale cp rw all_components c) <= length (stale cp rw all_components (BMS_hmiCache s)) - 4)%nat)).
  { intros force update.
    pose proof (build_cache BMS_emitNextionCommand cp rw (BMS_hmiCache s) force update w Hin Hwf) as [H1 _].
    pose proof (build_stale BMS_emitNextionCommand cp rw (BMS_hmiCache s) force update w Hin Hwf) as H2.
    pose proof (build_progress BMS_emitNextionCommand cp rw (BMS_hmiCache s) w Hin Hwf) as H3.
    destruct (buildBmsNextionCommands _ _ _ _ _ force update w) eqn:E. split; [exact H1|]. split; [exact H2|].
    intros -> ->. by rewrite E in H3. }
  destruct (BMS_firstRun s) eqn:Ef; cbn [orb]; [|destruct (1000 <=? _)]; cbn [BMS_hmiCache].
  - specialize (Hb true true). destruct (buildBmsNextionCommands _ _ _ _ _ _ _ w) as [c w']. destruct Hb as (? & ? & _).
    by split_and!.
  - specialize (Hb false true). destruct (buildBmsNextionCommands _ _ _ _ _ _ _ w) as [c w']. destruct Hb as (? & ? & Hp).
    split_and!; try done. intros _. by apply Hp.
  - specialize (Hb false false). destruct (buildBmsNextionCommands _ _ _ _ _ _ _ w) as [c w']. destruct Hb as (? & ? & _).
    by split_and!.
Qed.
Lemma elapsed_nonneg steps : Forall (λ d, 0 <= d <= 500) steps → 0 <= elapsed steps.
Proof. induction 1; cbn [elapsed]; lia. Qed.

Lemma since_nonneg t s : 0 <= since t s.
Proof. exact (proj1 (u32_range _)). Qed.

Lemma page_converges steps t s (w : W) :
  inputs_ok comp raw → cache_wf (BMS_hmiCache s) → BMS_firstRun s = false → since t s < 1000 →
  Forall (λ d, 0 <= d <= 500) steps →
  1500 * ((Z.of_nat (to_send s) + 3) / 4) <= elapsed steps + since t s →
  to_send (page_run (stamps t steps) (s, w)).1 = 0%nat.
Proof.
  intros Hin. revert t s w. induction steps as [|d steps IH]; intros t s w Hwf Hr Hs Hd He;
    cbn [elapsed stamps fst snd] in *; pose proof (since_nonneg t s) as H0t.
  { change (to_send s = 0%nat). revert He H0t Hs. generalize (since t s). intros e He H0t Hs. Z.to_euclidean_division_equations; lia. }
  inversion Hd as [|? ? Hd1 Hd2]; subst.
  change (page_run (u32 (t + d) :: stamps (t + d) steps) (s, w))
    with (page_run (stamps (t + d) steps) (battery_page mail (u32 (t + d)) s w)).
  destruct (page_step (t + d) s w Hin Hwf) as (Hwf' & Hr' & Hle & Hcase).
  destruct (battery_page mail (u32 (t + d)) s w) as [s' w']. cbn [fst] in *.
  assert (Hadd : since (t + d) s = since t s + d).
  { unfold since, u32, wrapu in *. change (2 ^ 32) with 4294967296 in *.
    replace (t + d - BMS_lastCellUpdateMs s) with (t - BMS_lastCellUpdateMs s + d) by lia.
    rewrite <- Zplus_mod_idemp_l. apply Z.mod_small. lia. }
  rewrite Hr, Hadd in Hcase. cbn [orb] in Hcase. destruct (Z.leb_spec 1000 (since t s + d)).
  - destruct Hcase as [Hz Hp]. specialize (Hp eq_refl). apply IH; [done|done|lia|done|].
    rewrite Hz. pose proof (elapsed_nonneg steps Hd2) as Hnn. revert He H0t Hs Hp Hnn. generalize (since t s). intros. Z.to_euclidean_division_equations; lia.
  - assert (Hsame : since (t + d) s' = since t s + d) by (unfold since at 1; rewrite Hcase; exact Hadd).
    apply IH; [done|done|lia|done|]. rewrite Hsame.
    revert He H0t Hs Hle. generalize (since t s). intros. Z.to_euclidean_division_equations; lia.
Qed.

Lemma page_inputs : (∀ d, mail = Some d → telemetry_wf d) → inputs_ok comp raw.
Proof.
  intros Hwf.
  assert (Hblank : Forall is_u16 (replicate BMS_CELL_COUNT HMI_CELL_VOLTAGE_NO_DATA))
    by (apply Forall_replicate; by split).
  unfold bms_page. destruct mail as [d|]; [|constructor; [exact Hblank|by split..]].
  specialize (Hwf d eq_refl). destruct (TEL_bmsDataValid d); [|constructor; [exact Hblank|by split..]].
  cbn [cellDataValid]. destruct (TEL_cellVoltageDataValid d); [|constructor; [exact Hblank|by split..]].
  set (cells := map (λ i, nth i (TEL_bmsCellVoltages d) 0) (seq 0 BMS_CELL_COUNT)).
  assert (Hn : ∀ i, (i < BMS_CELL_COUNT)%nat → is_u16 (nth i cells 0)).
  { intros i Hi. unfold cells. rewrite nth_map_seq by done. destruct Hwf as [_ _ _ Hl Hc].
    rewrite Forall_forall in Hc. apply Hc, list_elem_of_In, nth_In. rewrite Hl. exact Hi. }
  cbn [fst snd]. match goal with |- inputs_ok (computePack ?p) _ => set (pk := p) end.
  assert (Hpk : pack_wf pk).
  { constructor; cbn [pk cellVoltageMv cellTempC]; [done|done|exact Hn|].
    intros i Hi. rewrite nth_replicate by done. by split. }
  rewrite computePack_valid by done. destruct (scan_range pk Hpk) as (? & ? & _).
  constructor; cbn [cellMaxMv cellMinMv warningLevel]; [|done|done|].
  - apply Forall_forall. intros v Hv%list_elem_of_In. destruct (In_nth _ _ 0 Hv) as (i & Hi & <-). by apply Hn.
  - unfold warning_level. by repeat case_match.
Qed.

(** The highest temperature does not reach the page: all 24 are zero there. *)
Lemma page_ignores_temperature d temp :
  bms_page (Some {| d with TEL_bmsTempHighestC := temp |}) = bms_page (Some d).
Proof. done. Qed.

(** With the same record for 28.5 seconds, nothing is left to send. *)
Lemma page_caught_up t steps s (w : W) :
  (∀ d, mail = Some d → telemetry_wf d) → cache_wf (BMS_hmiCache s) →
  Forall (λ d, 0 <= d <= 500) steps → 28500 <= elapsed steps →
  ∀ k, k ∈ all_components →
    cache_get k (BMS_hmiCache (page_run (u32 t :: stamps t steps) (s, w)).1) = page_value mail k.
Proof.
  intros Hmail Hwf Hd He k Hk. pose proof (page_inputs Hmail) as Hin. apply stale_nil; [|done].
  change (page_run (u32 t :: stamps t steps) (s, w)) with (page_run (stamps t steps) (battery_page mail (u32 t) s w)).
  destruct (page_step t s w Hin Hwf) as (Hwf1 & Hr1 & Hle & Hcase).
  destruct (battery_page mail (u32 t) s w) as [s1 w1]. cbn [fst] in *.
  assert (Hn : (to_send s1 <= 75)%nat) by (unfold to_send, stale; etransitivity; [apply length_filter|done]).
  pose proof (since_nonneg t s1) as Hge. apply page_converges; [done..| |done|].
  - destruct (BMS_firstRun s || (1000 <=? since t s)) eqn:E; [lia|].
    apply orb_false_iff in E as [_ E%Z.leb_gt]. unfold since in *. by rewrite Hcase.
  - revert Hn He Hge. generalize (since t s1). intros. Z.to_euclidean_division_equations; lia.
Qed.
End Page.

Section OnPanel.
Context {W : Type} `{HmiUartContract W}.

(** One iteration sends current values, within the byte budget. *)
Lemma page_sends mail now s (w : W) : (∀ d, mail = Some d → telemetry_wf d) → cache_wf (BMS_hmiCache s) →
  let '(s', w') := battery_page mail now s w in
  cache_wf (BMS_hmiCache s') ∧ ∃ es, (∀ k, k ∈ es → k ∈ all_components) ∧
    hmi_tx w' = hmi_tx w ++ wires (map (page_command mail) es) ∧
    Z.of_nat (length (wires (map (page_command mail) es))) <= default_maxBytes ∧
    ∀ k, cache_get k (BMS_hmiCache s') = if decide (k ∈ es) then page_value mail k else cache_get k (BMS_hmiCache s).
Proof.
  intros Hm Hwf. pose proof (page_inputs mail Hm) as Hin. unfold battery_page.
  rewrite (surjective_pairing (bms_page mail)). destruct (page_schedule now s) as [[update force] s0] eqn:Es.
  assert (Ec : BMS_hmiCache s0 = BMS_hmiCache s) by (unfold page_schedule in Es; repeat case_match; by simplify_eq).
  unfold mbind, M_bind, mret, M_ret. rewrite Ec.
  pose proof (build_sends BMS_emitNextionCommand _ _ (BMS_hmiCache s) force update w Hin Hwf) as Hb.
  destruct (buildBmsNextionCommands _ _ _ _ _ _ _ w) as [c w']. destruct Hb as (Hc & es & Hes & -> & Hcost & Hg).
  split; [exact Hc|]. exists es. rewrite emit_all_tx, wires_cost. by split_and!.
Qed.

Lemma iterations_send its sent s (w : W) : (∀ d, Some d ∈ map fst its → telemetry_wf d) →
  cache_wf (BMS_hmiCache s) → tracks sent (BMS_hmiCache s) →
  let '(s', w') := page_iterations its (s, w) in
  cache_wf (BMS_hmiCache s') ∧ ∃ new, hmi_tx w' = hmi_tx w ++ wires new ∧ tracks (sent ++ new) (BMS_hmiCache s') ∧
    Z.of_nat (length (wires new)) <= default_maxBytes * Z.of_nat (length its) ∧
    ∀ c, c ∈ new → ∃ mail k, mail ∈ map fst its ∧ k ∈ all_components ∧ c = page_command mail k.
Proof.
  revert sent s w. induction its as [|[mail now] its IH]; intros sent s w Hm Hwf Ht.
  { split; [done|]. exists []. cbn. rewrite !app_nil_r. split_and!; [done|done|done|by intros ? ?%not_elem_of_nil]. }
  change (page_iterations ((mail, now) :: its) (s, w)) with (page_iterations its (battery_page mail now s w)).
  pose proof (page_sends mail now s w) as Hs.
  destruct (battery_page mail now s w) as [s1 w1]. destruct Hs as (Hwf1 & es & Hes & Htx & Hb & Hg);
    [intros d ->; apply Hm; left|done|].
  specialize (IH (sent ++ map (page_command mail) es) s1 w1 ltac:(intros d Hd; apply Hm; by right) Hwf1
    (tracks_sent mail sent _ _ es Ht Hes Hg)).
  destruct (page_iterations its (s1, w1)) as [s' w']. destruct IH as (Hwf' & new & Htx' & Ht' & Hb' & Hc).
  split; [done|]. exists (map (page_command mail) es ++ new). rewrite Htx', Htx, <- !app_assoc in *.
  assert (Ew : wires (map (page_command mail) es ++ new) = wires (map (page_command mail) es) ++ wires new)
    by (unfold wires; by rewrite map_app, concat_app).
  rewrite Ew. split_and!; [done|done|rewrite length_app; cbn [length]; lia|].
  intros c [(k & -> & Hk)%list_elem_of_fmap|(m & k & Hm' & Hk & ->)%Hc]%elem_of_app.
  - exists mail, k. split_and!; [left|by apply Hes|done].
  - exists m, k. by split_and!; [right|..].
Qed.

Lemma tracks_initial : tracks [] newBmsNextionCache.
Proof. intros k _. cbn. split; [by intros ?%not_elem_of_nil|done]. Qed.

Lemma cellBarFill_range mv : is_u16 mv → 0 <= cellBarFill mv <= 100.
Proof.
  intros Hv. unfold cellBarFill, BMS_SOC_EMPTY_MV, BMS_SOC_FULL_MV in *. repeat case_match; try lia.
  widths. zlia.
Qed.
Lemma computePack_level_small p : warningLevel (computePack p) ≠ 255.
Proof.
  unfold computePack. destruct (negb (isValid p)); [done|]. destruct (negb (cellDataValid p)); [done|].
  cbn [warningLevel]. unfold warning_level. by repeat case_match.
Qed.

(** The values that the cache holds at power-on and that can be current: a zero voltage. *)
Lemma never_sent mail k : (∀ d, mail = Some d → telemetry_wf d) → k ∈ all_components →
  cache_get k newBmsNextionCache = page_value mail k →
  page_value mail k = 0 ∧ match k with Cell _ | CellMax | CellMin => True | _ => False end.
Proof.
  intros Hm Hk E. destruct components_ok as [Hok _]. rewrite Forall_forall in Hok. apply Hok in Hk. clear Hok.
  assert (Hw : warningLevel (bms_page mail).2 ≠ 255).
  { unfold bms_page. destruct mail as [d|]; [|done].
    destruct (TEL_bmsDataValid d); [|done]. apply computePack_level_small. }
  pose proof (page_inputs mail Hm) as Hin.
  destruct k as [i|i|i| | |]; cbn [component_ok] in Hk; unfold page_value in E |- *;
    cbn [component_value cache_get newBmsNextionCache c_cellVoltageMv c_cellBarFill c_balanceFlag c_cellMaxMv
      c_cellMinMv c_warningLevel] in E |- *; rewrite ?nth_replicate in E by done; try by rewrite <- E.
  - pose proof (cellBarFill_range _ (component_value_range _ _ (Cell i) Hin)) as Hb. cbn in Hb. lia.
  - by case_match.
Qed.

(** [C30] The battery page catches up, on the panel.  From power-on, let the page run any
    iterations with any records, and then keep one record in the mailbox (whatever it holds,
    no data included) for 28.5 seconds, with iterations at most half a second apart.  The
    bytes on the wire are commands that carry the values of the record of their iteration,
    at most 90 bytes per iteration; so while the record stays, no component that shows its
    value ceases to.  At the end every component shows the record's value on the panel,
    whatever it showed at power-on, but for one case: a voltage (of a cell, the highest or the
    lowest) that is zero and was never sent, because the driver's cache starts with zero and
    takes it for shown; the panel then keeps what it had at power-on. *)
Theorem battery_page_catches_up before mail t steps (w : W) s1 w1 s2 w2 :
  (∀ d, Some d ∈ mail :: map fst before → telemetry_wf d) →
  Forall (λ d, 0 <= d <= 500) steps → 28500 <= elapsed steps →
  let nows := u32 t :: stamps t steps in
  page_iterations before (hmi_task_initial, w) = (s1, w1) → page_run mail nows (s1, w1) = (s2, w2) →
  ∃ old new, hmi_tx w1 = hmi_tx w ++ wires old ∧ hmi_tx w2 = hmi_tx w1 ++ wires new ∧
    (∀ c, c ∈ old → ∃ m k, m ∈ map fst before ∧ k ∈ all_components ∧ c = page_command m k) ∧
    (∀ c, c ∈ new → ∃ k, k ∈ all_components ∧ c = page_command mail k) ∧
    Z.of_nat (length (wires new)) <= 90 * Z.of_nat (length nows) ∧
    ∀ k p, k ∈ all_components →
      let shown := panel_apply (old ++ new) p (component_text k) in
      shown = Some (Num (page_value mail k)) ∨
      component_text k ∉ map fst (old ++ new) ∧ shown = p (component_text k) ∧ page_value mail k = 0 ∧
        match k with Cell _ | CellMax | CellMin => True | _ => False end.
Proof.
  intros Hm Hd He nows E1 E2.
  pose proof (iterations_send before [] hmi_task_initial w) as Hb. rewrite E1 in Hb.
  destruct Hb as (Hwf1 & old & Htx1 & Ht1 & _ & Hc1); [intros; apply Hm; by right|done|exact tracks_initial|].
  assert (Hmail : ∀ d, mail = Some d → telemetry_wf d) by (intros d ->; apply Hm; left).
  pose proof (page_caught_up mail t steps s1 w1 Hmail Hwf1 Hd He) as Hg. fold nows in Hg.
  pose proof (iterations_send (map (pair mail) nows) old s1 w1) as Hb. unfold page_run in *.
  rewrite E2 in Hb, Hg. cbn [fst] in Hg.
  assert (Hfst : ∀ m, m ∈ map fst (map (pair mail) nows) → m = mail).
  { intros m. rewrite map_map. by intros (? & -> & _)%list_elem_of_fmap. }
  destruct Hb as (_ & new & Htx2 & Ht2 & Hl & Hc2); [intros d Hd'%Hfst; by apply Hmail|done|exact Ht1|].
  exists old, new. split_and!; [done|done|done| |by rewrite length_map in Hl|].
  { intros c (m & k & ->%Hfst & Hk & ->)%Hc2. eauto. }
  intros k p Hk. cbv zeta. destruct (Ht2 k Hk) as [Hs Hn]. rewrite Hg in Hs, Hn by done.
  destruct (decide (component_text k ∈ map fst (old ++ new))) as [Hin|Hin]; [left; by apply Hs|right].
  split_and!; [done|by apply panel_apply_other|by apply (never_sent mail k), eq_sym, Hn|].
  by apply (never_sent mail k), eq_sym, Hn.
Qed.
End OnPanel.

Lemma battery_percent soc : is_u16 soc → HMI_batteryDisplayValue true true soc = Z.min 100 (soc / 100).
Proof.
  intros Hs. unfold HMI_batteryDisplayValue. cbn [negb orb].
  assert (0 <= soc / 100 < 656) by (widths; split; [apply Z.div_pos; lia|apply Z.div_lt_upper_bound; lia]).
  rewrite u16_id by (widths; lia). destruct (Z.ltb_spec 100 (soc / 100)); [lia|].
  rewrite u8_id by (widths; lia). lia.
Qed.

(** The averages that the speed and rpm gauges show: one step towards the record's values. *)
Definition gauge_rpm (d : TelemetryData) (s : hmi_task) : spec_float :=
  Ema.step (F32.of_Z (TEL_motorRpm d)) (HMI_smoothedRpm s).
Definition gauge_speed (d : TelemetryData) (s : hmi_task) : spec_float :=
  Ema.step (F32.div (F32.of_Z (TEL_speedKmhX10 d)) (F32.of_Z 10)) (HMI_smoothedSpeed s).

(** [C29] What the display shows as "no data", and what it does not.  Whatever the mailbox
    holds, the state and the contactor line are the current ones; the percentage and the
    temperature are the record's (percent capped at 100) exactly while its BMS data is valid
    and the "no data" sentinels otherwise; the battery page shows the record's cell voltages
    exactly while both validity flags hold, and otherwise blank cells, empty bars, no
    balancing marks and the CRITICAL (no BMS) or NO DATA (no cells) warning level.  But pack
    voltage and current, the motor's flags and the averaged rpm and speed are taken from the
    record whatever its validity flags say, and without a record are zero: the screen has no
    "no data" for them. *)
Theorem hmi_no_data_sentinels mail state contactors s :
  (∀ d, mail = Some d → telemetry_wf d) →
  let x := (hmi_screen mail state contactors s).1 in
  let '(raw, comp) := bms_page mail in
  HMI_vcuState x = HMI_mapVcuState state ∧ HMI_contactorClosed x = contactors ∧
  match mail with
  | Some d =>
      if TEL_bmsDataValid d then
        HMI_currentBattery x = Z.min 100 (TEL_bmsSocHundredths d / 100) ∧
        HMI_bmsTemperatureC x = TEL_bmsTempHighestC d ∧
        (if TEL_cellVoltageDataValid d
         then ∀ i, (i < BMS_CELL_COUNT)%nat →
                component_value comp raw (Cell i) = nth i (TEL_bmsCellVoltages d) 0
         else cells_blank raw comp ∧ component_value comp raw Warn = BMS_WARN_NO_DATA)
      else
        HMI_currentBattery x = HMI_BATTERY_NO_DATA ∧ HMI_bmsTemperatureC x = HMI_TEMP_NO_DATA ∧
        cells_blank raw comp ∧ component_value comp raw Warn = BMS_WARN_CRITICAL
  | None =>
      HMI_currentBattery x = HMI_BATTERY_NO_DATA ∧ HMI_bmsTemperatureC x = HMI_TEMP_NO_DATA ∧
      cells_blank raw comp ∧ component_value comp raw Warn = BMS_WARN_CRITICAL
  end ∧
  match mail with
  | Some d =>
      HMI_bmsPackVoltageDeciV x = TEL_bmsPackVoltageDeciV d ∧
      HMI_bmsPackCurrentCentiA x = TEL_bmsCurrentCentiA d ∧
      HMI_motorRpm x = u16 (F32.trunc (gauge_rpm d s)) ∧
      HMI_currentSpeed x = u16 (F32.trunc (gauge_speed d s)) ∧
      HMI_motorErrorFlags x = TEL_motorErrorFlags d ∧ HMI_motorDataValid x = TEL_motorDataValid d ∧
      HMI_motorTimeoutActive x = TEL_motorTimeoutActive d
  | None =>
      HMI_bmsPackVoltageDeciV x = 0 ∧ HMI_bmsPackCurrentCentiA x = 0 ∧ HMI_motorRpm x = 0 ∧
      HMI_currentSpeed x = 0 ∧ HMI_motorErrorFlags x = 0 ∧ HMI_motorDataValid x = false ∧
      HMI_motorTimeoutActive x = false
  end.
Proof.
  intros Hwf. destruct mail as [d|].
  - pose proof (wf_soc _ (Hwf d eq_refl)) as Hs. unfold hmi_screen, bms_page. cbn [fst].
    destruct (TEL_bmsDataValid d) eqn:Hv; cbn -[HMI_batteryDisplayValue nth seq map BMS_CELL_COUNT computePack
      replicate component_value Ema.step F32.div F32.of_Z F32.trunc u16].
    + destruct (TEL_cellVoltageDataValid d) eqn:Hc.
      * split_and!; try done; [by apply battery_percent|]. intros i Hi.
        unfold component_value. cbn [cellVoltageMv]. by rewrite nth_map_seq.
      * split_and!; try done; [by apply battery_percent|]. by apply blank_cells.
    + split_and!; try done. by apply blank_cells.
  - cbn -[nth BMS_CELL_COUNT replicate component_value].
    split_and!; try done. by apply blank_cells.
Qed.

(** The sample record of [Telemetry.v] has no valid BMS data, and a pack voltage. *)
Lemma hmi_no_data_sentinels_witness :
  let x := (hmi_screen (Some Sample.data) VcuState.IDLE false hmi_task_initial).1 in
  HMI_currentBattery x = 255 ∧ TEL_bmsDataValid Sample.data = false ∧
  HMI_bmsPackVoltageDeciV x = TEL_bmsPackVoltageDeciV Sample.data.
Proof.
  pose proof (hmi_no_data_sentinels (Some Sample.data) VcuState.IDLE false hmi_task_initial
    ltac:(intros d [= <-]; exact Sample.data_wf)) as H. cbv zeta in H |- *.
  destruct (bms_page (Some Sample.data)) as [raw comp]. destruct H as (_ & _ & (E & _) & E2 & _).
  split; [exact E|]. split; [by vm_compute|exact E2].
Defined.

(** A record with BMS data whose cell voltages are not valid. *)
Definition no_cells : TelemetryData :=
  {| Sample.data with TEL_bmsDataValid := true; TEL_cellVoltageDataValid := false |}.
Lemma no_cells_wf : telemetry_wf no_cells.
Proof. destruct Sample.data_wf. by constructor. Qed.

(** From power-on, 28.5 seconds of iterations every half second with that record. *)
Lemma battery_page_catches_up_witness :
  ∃ sent, hmi_tx (page_run (Some no_cells) (u32 0 :: stamps 0 (replicate 57 500))
      (hmi_task_initial, FakePanel.idle)).2 = wires sent ∧
    ∀ p, panel_apply sent p (text "warn") = Some (Num BMS_WARN_NO_DATA) ∧
         panel_apply sent p (text "cell23") = Some (Num HMI_CELL_VOLTAGE_NO_DATA).
Proof.
  assert (Hd : Forall (λ d, 0 <= d <= 500) (replicate 57 500)) by (by apply Forall_replicate).
  assert (He : 28500 <= elapsed (replicate 57 500)) by (clear; by vm_compute).
  assert (Hm : ∀ d, Some d ∈ [Some no_cells] → telemetry_wf d)
    by (intros d [= ->]%list_elem_of_singleton; exact no_cells_wf).
  destruct (page_run (Some no_cells) (u32 0 :: stamps 0 (replicate 57 500)) (hmi_task_initial, FakePanel.idle))
    as [s2 w2] eqn:E.
  destruct (battery_page_catches_up (W:=FakePanel.state) [] (Some no_cells) 0 (replicate 57 500) FakePanel.idle
    hmi_task_initial FakePanel.idle s2 w2 Hm Hd He eq_refl E) as (old & new & E1 & E2 & _ & _ & _ & Hp).
  clear E.
  exists (old ++ new). split.
  - cbn [snd]. rewrite E2, E1. unfold wires. by rewrite map_app, concat_app.
  - intros p. split.
    + destruct (Hp Warn p) as [Hs|(_ & _ & _ & [])]; [by apply (bool_decide_unpack _); vm_compute|exact Hs].
    + destruct (Hp (Cell 23) p) as [Hs|(_ & _ & Hz & _)]; [by apply (bool_decide_unpack _); vm_compute|exact Hs|].
      by vm_compute in Hz.
Defined.

(** In the same run the highest and the lowest cell voltage are zero, and no command for
    either is ever sent: the panel keeps what its design gave them. *)
Fixpoint occurs (pat bytes : list Z) : bool :=
  bool_decide (take (length pat) bytes = pat) || match bytes with [] => false | _ :: bytes => occurs pat bytes end.
Lemma zero_extremes_never_sent :
  let out := FakePanel.tx (page_run (Some no_cells) (u32 0 :: stamps 0 (replicate 57 500))
    (hmi_task_initial, FakePanel.idle)).2 in
  page_value (Some no_cells) CellMax = 0 ∧ page_value (Some no_cells) CellMin = 0 ∧
  occurs (text "cellmax") out = false ∧ occurs (text "cellmin") out = false ∧
  occurs (text "cell23.val=65535") out = true ∧ occurs (text "warn.val=3") out = true.
Proof. by vm_compute. Qed.
