(* ===== verification/LoraTask.v ===== *)
(** [src/main.cpp], the LoRa task: start-up, the gate in front of the transmitter, and the
    loop of the uplink, on the drivers of [EspLoraHal.v].

    The link monitor and the offline buffer are those of [UplinkScheduler.v]; the mailbox
    is an argument of an iteration ([None]: the queue does not exist).  The restart of the
    chip by a failed [ESP_ERROR_CHECK] is a final state. *)
From S2P Require Import Prelude SystemConfig VehicleData FreeRtos OfflineBuffer UplinkScheduler.
From S2P Require Import Telemetry E22Config LoraLink EspLoraHal.
Open Scope Z_scope.

Section Task.
Context {H : Type} `{EspLora H}.

(** [LoRa_TxCtx] with the objects it points to, and the deferral counter. *)
(* [src ESP_AKS/src/main.cpp:559-567 LoRa_TxCtx] *)
Record lora_ctx := {
  x_tel : Telemetry;
  x_hal : H;
  x_auxNotReadyLogged : bool;
  s_loraTxDeferredCount : Z;        (* uint32_t *)
}.

(* [src ESP_AKS/src/main.cpp:568-595 LoRa_txSend] *)
Definition LoRa_txSend (pkt : TelemetryData) (isReplay : bool) (c : lora_ctx) : bool * lora_ctx :=
  let '(ready, h) := isAuxReady (x_hal c) in
  let c := {| c with x_hal := h |} in
  if negb ready then (false, {| c with x_auxNotReadyLogged := true |})
  else
    let '(free, h) := uart_get_tx_buffer_free_size (x_hal c) in
    let c := {| c with x_hal := h |} in
    if match free with None => true | Some n => n <? LORA_TEL_FRAME_MAX_BYTES end
    then (false, {| c with s_loraTxDeferredCount := u32 (s_loraTxDeferredCount c + 1) |})
    else
      let '(t, h) := sendStatus uart_write_bytes (sanitizeForUplink pkt) (x_tel c) (x_hal c) in
      let c := {| c with x_tel := t; x_hal := h; x_auxNotReadyLogged := false |} in
      (true, if isReplay then {| c with x_hal := (feedWatchdog (x_hal c)).2 |} else c).

(** The locals of the task: scheduler, the offline buffer, the context and the last tick. *)
(* [src ESP_AKS/src/main.cpp:630-637 vTask_LoRa_UKS] *)
Record lora_task := {
  LO_sched : UplinkScheduler;
  LO_buffer : ob;
  LO_txCtx : lora_ctx;
  LO_bootMs : Z;                    (* uint64_t *)
  LO_lastTelemetryTick : Z;         (* TickType_t *)
}.

(** The bytes read in one iteration, each stamped with the time of its handling. *)
(* [src ESP_AKS/src/main.cpp:645-653 vTask_LoRa_UKS] *)
Fixpoint lora_rx (bytes : list Z) (u : UplinkScheduler) (h : H) : UplinkScheduler * H :=
  match bytes with
  | [] => (u, h)
  | b :: bytes =>
      let '(now, h) := nowMs h in
      let '(_, u) := onRxByte b now u in
      lora_rx bytes u h
  end.

(** The transmit tick: the existing queue's record, if it holds one. *)
(* [src ESP_AKS/src/main.cpp:676-690 vTask_LoRa_UKS] *)
Definition lora_tx (mailbox : option (option TelemetryData)) (s : lora_task) : lora_task :=
  match mailbox with
  | None => s
  | Some mail =>
      if negb (isLinkDown (LO_sched s)) then
        let '(_, b, c) := onTxTickLinkUp LoRa_txSend (match mail with Some _ => true | None => false end)
          (default TelemetryData_zero mail) (LO_sched s) (LO_buffer s) (LO_txCtx s) in
        {| s with LO_buffer := b; LO_txCtx := c |}
      else
        match mail with
        | None => s
        | Some d =>
            let c := LO_txCtx s in
            let '(now, h) := nowMs (x_hal c) in
            let '(_, (u, b)) := offlineSample now d (LO_sched s, LO_buffer s) in
            {| s with LO_sched := u; LO_buffer := b; LO_txCtx := {| c with x_hal := h |} |}
        end
  end.

(** A step on the hardware alone. *)
Definition on_hal (f : H → H) (s : lora_task) : lora_task :=
  {| s with LO_txCtx := {| (LO_txCtx s) with x_hal := f (x_hal (LO_txCtx s)) |} |}.

(** One iteration of the loop. *)
(* [src ESP_AKS/src/main.cpp:639-694 vTask_LoRa_UKS] *)
Definition lora_cycle (mailbox : option (option TelemetryData)) (s : lora_task) : lora_task :=
  let h := (esp_task_wdt_reset (x_hal (LO_txCtx s))).2 in
  let '((n, bytes), h) := uartRead (replicate 4 0) LORA_RX_TIMEOUT_MS h in
  let '(u, h) := lora_rx (take (Z.to_nat n) bytes) (LO_sched s) h in
  let '(now, h) := nowMs h in
  let '(_, u) := updateLink now (LO_bootMs s) (LO_buffer s) u in
  let '(tick, h) := xTaskGetTickCount h in
  let s := {| s with LO_sched := u; LO_txCtx := {| (LO_txCtx s) with x_hal := h |} |} in
  let s := if u32 (tick - LO_lastTelemetryTick s) <? esp_pdMS_TO_TICKS LORA_TX_PERIOD_MS then s
           else lora_tx mailbox {| s with LO_lastTelemetryTick := tick |} in
  on_hal (λ h, (vTaskDelay (esp_pdMS_TO_TICKS 10) h).2) s.

(** The task: restarted by a failed pin set-up, alive without telemetry, or running. *)
Inductive lora_state :=
  | LO_restarted (h : H)
  | LO_disabled (h : H)
  | LO_running (s : lora_task).

(* [src ESP_AKS/src/main.cpp:600-637 vTask_LoRa_UKS] *)
Definition lora_start (fuel : nat) (h : H) : option lora_state :=
  '(r, h) ← hal_begin_ fuel h;
  match r with
  | HAL_ABORT => Some (LO_restarted h)
  | HAL_RESULT false => Some (LO_disabled h)
  | HAL_RESULT true =>
      '(_, h) ← configureE22 fuel h;
      let tel := (telemetry_begin newTelemetry).2 in
      let sched := newUplinkScheduler LINK_TIMEOUT_MS BOOT_LINK_GRACE_MS OFFLINE_SAMPLE_PERIOD_MS
        REPLAY_BURST_PER_TICK LORA_UNKNOWN_BYTE_WARN_INTERVAL_MS in
      let '(bootMs, h) := nowMs h in
      Some (LO_running {|
        LO_sched := sched; LO_buffer := ob_static; LO_bootMs := bootMs; LO_lastTelemetryTick := 0;
        LO_txCtx := {| x_tel := tel; x_hal := h; x_auxNotReadyLogged := false;
                       s_loraTxDeferredCount := 0 |} |})
  end.

(** One iteration of whichever loop the task is in. *)
(* [src ESP_AKS/src/main.cpp:609-694 vTask_LoRa_UKS] *)
Definition lora_iteration (mailbox : option (option TelemetryData)) (x : lora_state) : lora_state :=
  match x with
  | LO_restarted h => LO_restarted h
  | LO_disabled h => LO_disabled (vTaskDelay (esp_pdMS_TO_TICKS 1000) (esp_task_wdt_reset h).2).2
  | LO_running s => LO_running (lora_cycle mailbox s)
  end.

(** The two flags other tasks read. *)
(* [src ESP_AKS/src/main.cpp:49-51 LoRa_IsLinkDown] *)
Definition LoRa_IsLinkDown (x : lora_state) : bool :=
  match x with LO_running s => isLinkDown (LO_sched s) | _ => false end.
(* [src ESP_AKS/src/main.cpp:57-59 LoRa_IsTelemetryDisabled] *)
Definition LoRa_IsTelemetryDisabled (x : lora_state) : bool :=
  match x with LO_disabled _ => true | _ => false end.
End Task.
Arguments lora_ctx H : clear implicits.
Arguments lora_task H : clear implicits.
Arguments lora_state H : clear implicits.

(** ** Proofs *)

Section Proofs.
Context {H : Type} `{EspLora H}.

(** [sendStatus] on an initialised object hands over the whole frame. *)
Lemma sendStatus_frame d t w : telemetry_wf d → is_u32 (TEL_sequenceCounter t) →
  TEL_isInitialized t = true →
  sendStatus uart_write_bytes d t w =
    (let '(written, w') := uart_write_bytes (frame_bytes (TEL_sequenceCounter t) d) w in
     (if written <? 0 then t else {| t with TEL_sequenceCounter := u32 (TEL_sequenceCounter t + 1) |}, w')).
Proof. intros Hd Hs Hi. by apply sendStatus_sends. Qed.

Lemma sanitize_wf d : telemetry_wf d → telemetry_wf (sanitizeForUplink d).
Proof.
  intros Hd. pose proof (sanitize_ranges d Hd) as (? & ? & ?). destruct Hd.
  constructor; cbn; try done; widths; lia.
Qed.

(** The gate in front of the transmitter.  Without AUX nothing is sent and the packet
    is refused; without room for a largest frame (120 bytes) in the transmit ring the send
    is deferred, counted and refused, so the write never blocks the receive path; otherwise
    the whole frame of the sanitised packet is handed to the driver, fits in the room, and
    the packet is reported as sent, even when the driver refused it: the result of the
    write shows only in the sequence number. *)
Theorem LoRa_txSend_gate pkt isReplay c h1 h2 ready free :
  telemetry_wf pkt → is_u32 (TEL_sequenceCounter (x_tel c)) → TEL_isInitialized (x_tel c) = true →
  isAuxReady (x_hal c) = (ready, h1) → uart_get_tx_buffer_free_size h1 = (free, h2) →
  let result := LoRa_txSend pkt isReplay c in
  let frame := frame_bytes (TEL_sequenceCounter (x_tel c)) (sanitizeForUplink pkt) in
  (ready = false → result = (false, {| c with x_hal := h1; x_auxNotReadyLogged := true |})) ∧
  (ready = true → (free = None ∨ ∃ n, free = Some n ∧ n < LORA_TEL_FRAME_MAX_BYTES) →
     result = (false, {| c with x_hal := h2;
                                s_loraTxDeferredCount := u32 (s_loraTxDeferredCount c + 1) |})) ∧
  (∀ n, ready = true → free = Some n → LORA_TEL_FRAME_MAX_BYTES <= n →
     Z.of_nat (length frame) <= n ∧ result.1 = true ∧
     x_tel result.2 = if (uart_write_bytes frame h2).1 <? 0 then x_tel c
                      else {| (x_tel c) with
                              TEL_sequenceCounter := u32 (TEL_sequenceCounter (x_tel c) + 1) |}).
Proof.
  intros Hd Hs Hi Ea Ef result frame. unfold result, LoRa_txSend. rewrite Ea. cbn [x_hal]. rewrite Ef.
  split_and!; [by intros ->| |].
  - intros ->. cbn [negb]. intros [->|(n & -> & Hn)]; [done|]. by rewrite (proj2 (Z.ltb_lt _ _) Hn).
  - intros n -> -> Hn. cbn [negb]. rewrite (proj2 (Z.ltb_ge _ _) Hn). cbn [x_tel x_hal].
    rewrite sendStatus_frame by (done || by apply sanitize_wf). fold frame.
    pose proof (frame_length _ _ (sanitize_wf pkt Hd) Hs) as Hl. fold frame in Hl.
    unfold LORA_TEL_FRAME_MAX_BYTES in Hn.
    destruct (uart_write_bytes frame h2) as [w h3]. cbn [fst snd x_tel]. split; [lia|].
    by destruct isReplay.
Qed.
End Proofs.

(** ** The uplink as the receiver sees it *)

(** The frames of the records [ds], numbered from zero. *)
Definition frames (ds : list TelemetryData) : list (list Z) :=
  imap (λ i d, frame_bytes (u32 (Z.of_nat i)) (sanitizeForUplink d)) ds.

Lemma frames_snoc ds d :
  frames (ds ++ [d]) = frames ds ++ [frame_bytes (u32 (Z.of_nat (length ds))) (sanitizeForUplink d)].
Proof. unfold frames. rewrite imap_app. cbn. by rewrite Nat.add_0_r. Qed.

Section Uplink.
Context {H : Type} `{EspLoraLaws H}.
(** The records that may be sent, and the radio as the start-up left it. *)
Variables (good : TelemetryData → Prop) (base : lora_view).
Hypothesis good_wf : ∀ d, good d → telemetry_wf d.

(** The transmitter has sent the frames of exactly [ds], in order and without a gap in the
    numbering, and nothing else has changed since start-up. *)
Record ctx_inv (ds : list TelemetryData) (c : lora_ctx H) : Prop := {
  ci_init : TEL_isInitialized (x_tel c) = true;
  ci_seq : TEL_sequenceCounter (x_tel c) = u32 (Z.of_nat (length ds));
  ci_view : esp_view (x_hal c) = {| base with v_sent := v_sent base ++ frames ds |};
  ci_mode : v_mode base = normal_mode;
  ci_good : Forall good ds;
}.

Lemma ctx_quiet ds c c' : ctx_inv ds c → x_tel c' = x_tel c → esp_view (x_hal c') = esp_view (x_hal c) →
  ctx_inv ds c'.
Proof. intros [? ? ? ? ?] Ht Hv. by constructor; rewrite ?Ht, ?Hv. Qed.

Lemma txSend_adds ds pkt isReplay c : good pkt → ctx_inv ds c →
  ∃ ds', (length ds' <= 1)%nat ∧ ctx_inv (ds ++ ds') (LoRa_txSend pkt isReplay c).2.
Proof.
  intros Hg Hc. pose proof (good_wf pkt Hg) as Hd. destruct Hc as [Hi Hs Hv Hm Hf].
  assert (Hsame : ∀ c', x_tel c' = x_tel c → esp_view (x_hal c') = esp_view (x_hal c) →
    ∃ ds', (length ds' <= 1)%nat ∧ ctx_inv (ds ++ ds') c').
  { intros c' Ht Hv'. exists []. rewrite app_nil_r. split; [cbn; lia|]. by apply (ctx_quiet ds c). }
  unfold LoRa_txSend.
  pose proof (hal_isAux_view (x_hal c)) as V1. destruct (isAuxReady (x_hal c)) as [[] h1]; cbn [snd] in V1;
    [cbn [negb x_hal]|by apply Hsame].
  destruct (esp_quiet_free h1) as [V2 _]. destruct (uart_get_tx_buffer_free_size h1) as [free h2]. cbn [snd] in V2.
  assert (V : esp_view h2 = esp_view (x_hal c)) by (rewrite V2; exact V1).
  destruct (match free with None => true | Some n => n <? LORA_TEL_FRAME_MAX_BYTES end); [by apply Hsame|].
  cbn [x_tel x_hal].
  rewrite sendStatus_frame; [|by apply sanitize_wf|rewrite Hs; apply u32_range|done]. rewrite Hs.
  pose proof (esp_write_data (frame_bytes (u32 (Z.of_nat (length ds))) (sanitizeForUplink pkt)) h2) as V3.
  rewrite V, Hv in V3. specialize (V3 Hm).
  destruct (uart_write_bytes (frame_bytes _ _) h2) as [n h3]. cbn [fst snd] in *.
  assert (V4 : esp_view (feedWatchdog h3).2 = esp_view h3) by apply esp_quiet_wdt.
  destruct (n <? 0).
  - apply Hsame; destruct isReplay; cbn in *; try done; by rewrite ?V4, V3, Hv.
  - exists [pkt]. split; [done|].
    assert (Hsent : v_sent base ++ frames ds ++ [frame_bytes (u32 (Z.of_nat (length ds))) (sanitizeForUplink pkt)]
      = v_sent base ++ frames (ds ++ [pkt])) by (by rewrite frames_snoc).
    constructor; [by destruct isReplay| | |done|by apply Forall_app; repeat constructor].
    + rewrite length_app. cbn [length]. destruct isReplay; cbn; widths; 
        change (2 ^ 32) with 4294967296 in *; rewrite Nat2Z.inj_add, Z.add_mod_idemp_l by lia; done.
    + rewrite <- Hsent, app_assoc. destruct isReplay; cbn in *; by rewrite ?V4, V3.
Qed.

Record lora_inv (ds : list TelemetryData) (s : lora_task H) : Prop := {
  li_ctx : ctx_inv ds (LO_txCtx s);
  li_buffer : ob_inv (LO_buffer s);
  li_good : Forall good (contents (LO_buffer s));
  li_burst : m_replayBurstPerTick (LO_sched s) = REPLAY_BURST_PER_TICK;
}.

Lemma lora_rx_view bytes u (h : H) :
  esp_view (lora_rx bytes u h).2 = esp_view h ∧
  m_replayBurstPerTick (lora_rx bytes u h).1 = m_replayBurstPerTick u.
Proof.
  revert u h. induction bytes as [|b bytes IH]; intros u h; [done|]. cbn [lora_rx].
  pose proof (hal_nowMs_view h) as V. destruct (nowMs h) as [now h1]. cbn [snd] in V.
  assert (E : m_replayBurstPerTick (onRxByte b now u).2 = m_replayBurstPerTick u).
  { unfold onRxByte, lora_note_unknown_byte. by branches. }
  destruct (onRxByte b now u) as [? u1]. cbn [snd] in E. destruct (IH u1 h1) as [-> ->]. done.
Qed.

Lemma updateLink_burst now boot b u :
  m_replayBurstPerTick (updateLink now boot b u).2 = m_replayBurstPerTick u.
Proof. unfold updateLink. by repeat case_match. Qed.
(** What one iteration may do: with the link down nothing is sent and at most the mailbox's
    record enters the buffer; with the link up the live frame and one burst are sent, and the
    buffer loses packets only at its front. *)
Definition cycle_effect (mailbox : option (option TelemetryData)) (ds : list TelemetryData)
    (s s' : lora_task H) : Prop :=
  ∃ ds', lora_inv (ds ++ ds') s' ∧
    if isLinkDown (LO_sched s') then
      ds' = [] ∧ (contents (LO_buffer s') = contents (LO_buffer s) ∨
        ∃ d, mailbox = Some (Some d) ∧ contents (LO_buffer s') = bounded_push d (contents (LO_buffer s)))
    else (length ds' <= 1 + Z.to_nat REPLAY_BURST_PER_TICK)%nat ∧
      ∃ k, (k <= Z.to_nat REPLAY_BURST_PER_TICK)%nat ∧
        contents (LO_buffer s') = drop k (contents (LO_buffer s)).

Lemma effect_idle mailbox ds s : lora_inv ds s → cycle_effect mailbox ds s s.
Proof.
  intros Hs. exists []. rewrite app_nil_r. split; [done|]. destruct (isLinkDown _); [auto|].
  split; [cbn; lia|]. exists 0%nat. split; [lia|done].
Qed.

Lemma bounded_push_good d l : good d → Forall good l → Forall good (bounded_push d l).
Proof.
  intros Hd Hl. unfold bounded_push. apply Forall_app. split; [|by repeat constructor].
  case_match; [|done]. by destruct Hl.
Qed.

Lemma offlineSample_effect now d u b :
  let '(_, (u', b')) := offlineSample now d (u, b) in
  m_linkDown u' = m_linkDown u ∧ m_replayBurstPerTick u' = m_replayBurstPerTick u ∧
  (b' = b ∨ b' = (ob_push d b).2).
Proof.
  unfold offlineSample. destruct (offline_should_sample _ _ _ _); cbn [negb]; [|auto].
  cbn [m_offlineHasSamples]. by destruct (m_offlineHasSamples u); cbn; auto.
Qed.

Lemma lora_tx_effect mailbox ds s : lora_inv ds s → (∀ d, mailbox = Some (Some d) → good d) →
  cycle_effect mailbox ds s (lora_tx mailbox s).
Proof.
  intros Hs Hg. unfold lora_tx. destruct mailbox as [mail|]; [|by apply effect_idle].
  destruct (isLinkDown (LO_sched s)) eqn:El; cbn [negb].
  - destruct mail as [d|]; [|by apply effect_idle]. specialize (Hg d eq_refl).
    pose proof (hal_nowMs_view (x_hal (LO_txCtx s))) as V.
    destruct (nowMs (x_hal (LO_txCtx s))) as [now h]. cbn [snd] in V. destruct Hs as [Hc Hb Hf Hu].
    assert (Hc' : ctx_inv ds {| (LO_txCtx s) with x_hal := h |}) by (by apply (ctx_quiet ds (LO_txCtx s))).
    destruct (ob_push_spec d (LO_buffer s) Hb) as (Hb' & _ & Ec).
    pose proof (offlineSample_effect now d (LO_sched s) (LO_buffer s)) as E.
    destruct (offlineSample now d (LO_sched s, LO_buffer s)) as [ok [u b]]. destruct E as (E1 & E2 & E3).
    rewrite Hu in E2. exists []. rewrite app_nil_r. destruct E3 as [->| ->].
    + split; [by constructor|]. cbn [LO_sched LO_buffer]. unfold isLinkDown in *. rewrite E1, El. auto.
    + split; [constructor; cbn [LO_txCtx LO_buffer LO_sched]; [done|done|by rewrite Ec; apply bounded_push_good|done]|].
      cbn [LO_sched LO_buffer]. unfold isLinkDown in *. rewrite E1, El, Ec. eauto 6.
  - pose proof (onTxTick_adds LoRa_txSend good (λ ds, ctx_inv ds) ltac:(intros; by apply txSend_adds)
      (match mail with Some _ => true | None => false end) (default TelemetryData_zero mail)
      (LO_sched s) (LO_buffer s) (LO_txCtx s) ds) as Ht.
    destruct Hs as [Hc Hb Hf Hu]. rewrite Hu in Ht.
    destruct (onTxTickLinkUp _ _ _ _ _ _) as [[k b'] c'].
    destruct Ht as (Hb' & (j & Hj & Ec) & ds' & Hl & Hc'); [done|done| |done|].
    { destruct mail; [auto|done]. }
    exists ds'. cbn. rewrite El. split; [|eauto].
    constructor; cbn; [done|done| |done]. rewrite Ec. by apply Forall_drop.
Qed.

Lemma on_hal_effect mailbox f ds s s' : (∀ h, esp_view (f h) = esp_view h) →
  cycle_effect mailbox ds s s' → cycle_effect mailbox ds s (on_hal f s').
Proof.
  intros Hf (ds' & [Hc Hb Hg Hu] & He). exists ds'. split; [|done]. constructor; try done.
  eapply ctx_quiet; [exact Hc|done|]. apply Hf.
Qed.

Lemma lora_cycle_spec mailbox ds s : lora_inv ds s → (∀ d, mailbox = Some (Some d) → good d) →
  cycle_effect mailbox ds s (lora_cycle mailbox s).
Proof.
  intros [Hc Hb Hf Hu] Hg. unfold lora_cycle.
  destruct (esp_quiet_wdt (x_hal (LO_txCtx s))) as [V1 _]. set (h1 := (esp_task_wdt_reset _).2) in *.
  pose proof (hal_read_view (replicate 4 0) LORA_RX_TIMEOUT_MS h1) as V2.
  destruct (uartRead (replicate 4 0) LORA_RX_TIMEOUT_MS h1) as [[n bytes] h2]. cbn [snd] in V2.
  destruct (lora_rx_view (take (Z.to_nat n) bytes) (LO_sched s) h2) as [V3 E3].
  destruct (lora_rx (take (Z.to_nat n) bytes) (LO_sched s) h2) as [u h3]. cbn [fst snd] in V3, E3.
  pose proof (hal_nowMs_view h3) as V4. destruct (nowMs h3) as [now h4]. cbn [snd] in V4.
  pose proof (updateLink_burst now (LO_bootMs s) (LO_buffer s) u) as E4.
  destruct (updateLink now (LO_bootMs s) (LO_buffer s) u) as [tr u']. cbn [snd] in E4.
  destruct (esp_quiet_tick h4) as [V5 _]. destruct (xTaskGetTickCount h4) as [tick h5]. cbn [snd] in V5.
  assert (V : esp_view h5 = esp_view (x_hal (LO_txCtx s))).
  { rewrite V5. etrans; [exact V4|]. etrans; [exact V3|]. etrans; [exact V2|exact V1]. }
  apply on_hal_effect; [intros; apply esp_delay_view|].
  assert (Hi : ∀ t, lora_inv ds {| s with LO_sched := u'; LO_lastTelemetryTick := t;
                                 LO_txCtx := {| (LO_txCtx s) with x_hal := h5 |} |}).
  { intros t. constructor; cbn; [by apply (ctx_quiet ds (LO_txCtx s))|done|done|congruence]. }
  destruct (_ <? _); [exact (effect_idle mailbox ds _ (Hi _))|exact (lora_tx_effect mailbox ds _ (Hi _) Hg)].
Qed.
End Uplink.

(** ** From start-up on *)

(** The task after one iteration per element of [mails]. *)
Definition lora_run {H} `{EspLora H} (x : lora_state H) (mails : list (option (option TelemetryData))) : lora_state H :=
  foldl (λ x m, lora_iteration m x) x mails.

Section Run.
Context {H : Type} `{EspLoraLaws H}.

(** What start-up leaves of a radio seen as [v]: normal mode, the UART set up, and the
    effect of some verdict of [configureE22]: untouched, or with the registers and the key
    written or refused. *)
Definition booted (v base : lora_view) : Prop :=
  ∃ verdict, config_effect verdict {| v with v_mode := normal_mode; v_uart := uart_ready |} base.

Lemma executed_keeps_mode data f v v' : (∀ v, v_mode (f v) = v_mode v) →
  executed data f v v' → v_mode v' = v_mode v.
Proof. intros Hf [->| ->]; [exact (Hf v)|done]. Qed.
Lemma booted_mode v base : booted v base → v_mode base = normal_mode.
Proof.
  intros [verdict Hv]. destruct verdict; cbn in Hv.
  - by rewrite Hv.
  - destruct Hv as [_ He]. apply executed_keeps_mode in He; [exact He|done].
  - destruct Hv as [He _]. apply executed_keeps_mode in He; [exact He|done].
Qed.

(** What start-up leaves: a radio as [configureE22] leaves it and nothing sent since, or no
    telemetry and the radio as it was. *)
Definition started (v : lora_view) (x : lora_state H) : Prop :=
  match x with
  | LO_restarted h | LO_disabled h => same_radio v (esp_view h)
  | LO_running s => ∃ base, booted v base ∧ ∀ good, lora_inv good base [] s
  end.

Lemma lora_start_ends fuel (h : H) : LORA_AUX_CFG_TIMEOUT_MS + 40 <= 10 * Z.of_nat fuel →
  ∃ x, lora_start fuel h = Some x ∧ started (esp_view h) x.
Proof.
  intros Hf. unfold lora_start. cbn [mbind option_bind].
  destruct (hal_begin_ends fuel h) as (r & h1 & -> & V & Hr);
    [unfold LORA_AUX_CFG_TIMEOUT_MS, LORA_UART_MAX_INIT_ATTEMPTS in *; lia|]. cbn [mbind option_bind].
  destruct r as [|[]]; [by eexists|specialize (Hr eq_refl)|by eexists].
  pose proof (configureE22_outcome fuel h1 (hal_view h1) Hf eq_refl) as Hcf. destruct (Hcf Hr) as (verdict & h2 & -> & Hc).
  cbn [mbind option_bind]. pose proof (hal_nowMs_view h2) as V2. destruct (nowMs h2) as [bootMs h3]. cbn [snd] in V2.
  assert (Hb : booted (esp_view h) (esp_view h2)).
  { exists verdict. unfold set_mode in Hc. change (hal_view h2) with (esp_view h2) in Hc.
    change (hal_view h1) with (esp_view h1) in Hc. rewrite V, Hr in Hc. exact Hc. }
  eexists. split; [done|]. exists (esp_view h2). split; [exact Hb|].
  intros good. constructor; cbn; [|apply ob_static_inv|done|done].
  constructor; cbn; [done|done| |by eapply booted_mode|done]. rewrite app_nil_r. etrans; [exact V2|].
  change (hal_view h2) with (esp_view h2). by destruct (esp_view h2).
Qed.

Lemma lora_run_inv good base mails ds s : (∀ d, good d → telemetry_wf d) →
  (∀ d, Some (Some d) ∈ mails → good d) → lora_inv good base ds s →
  ∃ ds' s', lora_run (LO_running s) mails = LO_running s' ∧ lora_inv good base ds' s'.
Proof.
  intros Hok. revert ds s. induction mails as [|m mails IH]; intros ds s Hg Hs; [by eauto|].
  destruct (lora_cycle_spec good base Hok m ds s Hs) as (ds' & Hs' & _); [intros d ->; apply Hg; left|].
  apply (IH (ds ++ ds') (lora_cycle m s)); [intros d Hd; apply Hg; by right|done].
Qed.

Lemma lora_run_idle v mails (x : lora_state H) :
  match x with LO_running _ => False | _ => started v x end →
  match lora_run x mails with LO_running _ => False | y => started v y end.
Proof.
  revert x. induction mails as [|m mails IH]; intros x Hx; [by destruct x|].
  apply IH. destruct x as [h|h|s]; cbn in *; [done| |done].
  rewrite esp_delay_view. by rewrite (proj1 (esp_quiet_wdt h)).
Qed.

(** A run from start-up: without telemetry, or with every record sent so far from the
    mailbox. *)
Lemma lora_run_ends fuel (h : H) mails : LORA_AUX_CFG_TIMEOUT_MS + 40 <= 10 * Z.of_nat fuel →
  (∀ d, Some (Some d) ∈ mails → telemetry_wf d) →
  let good d := telemetry_wf d ∧ Some (Some d) ∈ mails in
  ∃ x, lora_start fuel h = Some x ∧
    match lora_run x mails with
    | LO_restarted h' | LO_disabled h' => same_radio (esp_view h) (esp_view h')
    | LO_running s => ∃ base ds, booted (esp_view h) base ∧ lora_inv good base ds s
    end.
Proof.
  intros Hf Hm good. destruct (lora_start_ends fuel h Hf) as (x & E & Hx). exists x. split; [done|].
  destruct x as [h'|h'|s].
  - pose proof (lora_run_idle (esp_view h) mails (LO_restarted h') Hx) as Hr. by destruct (lora_run _ mails).
  - pose proof (lora_run_idle (esp_view h) mails (LO_disabled h') Hx) as Hr. by destruct (lora_run _ mails).
  - destruct Hx as (base & Hb & Hi).
    destruct (lora_run_inv good base mails [] s) as (ds & s' & -> & Hs'); [by intros ? []|by split; auto|done|].
    by exists base, ds.
Qed.

(** [C23] From power-on, whatever the radio, the pins and the UART do and whatever passes
    through the mailbox, start-up ends: the task is restarted or disabled, and then the radio
    keeps its mode, registers and key and never gets a byte; or it runs, with the radio in
    normal mode and, by the verdict of its configuration ([booted]): untouched (AUX never
    became ready), with the registers it had (right already, or the write refused), or with
    the contract's; the radio may refuse any write, and only a confirmed one is known to
    have left the contract's registers.  From then on nothing touches the radio's settings,
    and what has been transmitted is a sequence of frames of records that were in the
    mailbox, numbered from zero without a gap; the receiver accepts the frame of each record
    within its contract ([uplink_ok]; of the others nothing is said) and reads it back field
    by field. *)
Theorem uplink_stream_accepted fuel (h : H) mails :
  LORA_AUX_CFG_TIMEOUT_MS + 40 <= 10 * Z.of_nat fuel →
  (∀ d, Some (Some d) ∈ mails → telemetry_wf d) →
  ∃ x, lora_start fuel h = Some x ∧
    match lora_run x mails with
    | LO_restarted h' | LO_disabled h' => same_radio (esp_view h) (esp_view h')
    | LO_running s => ∃ base ds,
        booted (esp_view h) base ∧
        esp_view (x_hal (LO_txCtx s)) = {| base with v_sent := v_sent base ++ frames ds |} ∧
        v_mode base = normal_mode ∧
        ∀ i frame, frames ds !! i = Some frame → ∃ d,
          Some (Some d) ∈ mails ∧ frame = frame_bytes (u32 (Z.of_nat i)) (sanitizeForUplink d) ∧
          (uplink_ok d → parse_uks_frame frame = inr (frame_fields (u32 (Z.of_nat i)) (sanitizeForUplink d)))
    end.
Proof.
  intros Hf Hm. destruct (lora_run_ends fuel h mails Hf Hm) as (x & E & Hx). exists x. split; [done|].
  destruct (lora_run x mails) as [h'|h'|s]; [done..|].
  destruct Hx as (base & ds & Hb & [[_ _ Hv Hn Hg] _ _ _]). exists base, ds. do 3 (split; [done|]).
  intros i frame Hi. unfold frames in Hi. rewrite list_lookup_imap in Hi.
  destruct (ds !! i) as [d|] eqn:Ed; [|done]. injection Hi as <-.
  destruct (proj1 (Forall_lookup _ _) Hg i d Ed) as [Hd Hin]. exists d. do 2 (split; [done|]).
  intros Hok. apply uplink_frame_accepted; [done|apply u32_range].
Qed.

(** [C24] One iteration of the running task, after any run from start-up: with the link
    down not a byte is sent and the offline buffer at most takes in the mailbox's record,
    dropping its oldest entry when full; with the link up the live frame and one burst are
    sent at most, and the buffer only gives up packets at its front. *)
Theorem lora_cycle_effect fuel (h : H) mails mailbox x s :
  LORA_AUX_CFG_TIMEOUT_MS + 40 <= 10 * Z.of_nat fuel →
  (∀ d, Some (Some d) ∈ mailbox :: mails → telemetry_wf d) →
  lora_start fuel h = Some x → lora_run x mails = LO_running s →
  let s' := lora_cycle mailbox s in
  let sent s := v_sent (esp_view (x_hal (LO_txCtx s))) in
  ∃ new, sent s' = sent s ++ new ∧
    if LoRa_IsLinkDown (LO_running s') then
      new = [] ∧ (contents (LO_buffer s') = contents (LO_buffer s) ∨
        ∃ d, mailbox = Some (Some d) ∧ contents (LO_buffer s') = bounded_push d (contents (LO_buffer s)))
    else (length new <= 1 + Z.to_nat REPLAY_BURST_PER_TICK)%nat ∧
      ∃ k, (k <= Z.to_nat REPLAY_BURST_PER_TICK)%nat ∧
        contents (LO_buffer s') = drop k (contents (LO_buffer s)).
Proof.
  intros Hf Hm Ex Es s' sent.
  destruct (lora_start_ends fuel h Hf) as (x' & E & Hx). rewrite Ex in E. injection E as <-.
  destruct x as [h'|h'|s0].
  1: pose proof (lora_run_idle (esp_view h) mails (LO_restarted h') Hx) as Hr; by rewrite Es in Hr.
  1: pose proof (lora_run_idle (esp_view h) mails (LO_disabled h') Hx) as Hr; by rewrite Es in Hr.
  destruct Hx as (base & _ & Hi).
  destruct (lora_run_inv telemetry_wf base mails [] s0) as (ds & s1 & E1 & Hs); [done|intros d Hd; apply Hm; by right|done|].
  rewrite Es in E1. injection E1 as <-.
  destruct (lora_cycle_spec telemetry_wf base ltac:(done) mailbox ds s Hs) as (ds' & Hs' & He);
    [intros d ->; apply Hm; left|].
  destruct Hs as [[_ _ Hv _ _] _ _ _], Hs' as [[_ _ Hv' _ _] _ _ _].
  exists (drop (length (frames ds)) (frames (ds ++ ds'))). unfold sent, s'. rewrite Hv', Hv. cbn [v_sent].
  assert (Ef : frames (ds ++ ds') = frames ds ++ drop (length (frames ds)) (frames (ds ++ ds'))).
  { unfold frames at 1 4. rewrite imap_app, drop_app_length. done. }
  split; [rewrite <- app_assoc; by rewrite <- Ef|].
  cbn [LoRa_IsLinkDown]. fold s' in He |- *. destruct (isLinkDown (LO_sched s')).
  - destruct He as [-> He]. split; [|done]. by rewrite app_nil_r, drop_all.
  - destruct He as [Hl He]. split; [|done]. rewrite length_drop. unfold frames.
    rewrite !length_imap, length_app. lia.
Qed.
End Run.

(** ** Runs of the simulated board *)

Module Running.
(** A context in normal mode whose driver refuses every write. *)
Definition refusing : lora_ctx FakeEsp.state :=
  {| x_tel := {| TEL_isInitialized := true; TEL_sequenceCounter := 7 |}; x_hal := FakeEsp.off false true;
     x_auxNotReadyLogged := false; s_loraTxDeferredCount := 0 |}.

(** The task started on the board, and the mailbox of its first iterations: a second of
    records, an empty mailbox, a record again. *)
Abbreviation start := (lora_start 204 (FakeEsp.off true false)).
Definition mails : list (option (option TelemetryData)) :=
  replicate 100 (Some (Some Sample.data)) ++ [Some None; None; Some (Some Sample.data)].

Lemma mails_ok d : Some (Some d) ∈ mails → telemetry_wf d.
Proof.
  unfold mails. rewrite elem_of_app, elem_of_replicate. intros [[[= ->] _]|Hd]; [exact Sample.data_wf|].
  rewrite !elem_of_cons, elem_of_nil in Hd. destruct Hd as [?|[?|[[= ->]|[]]]]; [done..|exact Sample.data_wf].
Qed.
End Running.

Lemma LoRa_txSend_gate_witness :
  (LoRa_txSend Sample.data true Running.refusing).1 = true ∧
  x_tel (LoRa_txSend Sample.data true Running.refusing).2 = x_tel Running.refusing.
Proof.
  destruct (LoRa_txSend_gate Sample.data true Running.refusing (FakeEsp.off false true) (FakeEsp.off false true)
    true (Some 256)) as (_ & _ & Hs); [exact Sample.data_wf|by split|done|done|done|].
  destruct (Hs 256 eq_refl eq_refl) as (_ & E1 & E2); [done|]. split; [exact E1|exact E2].
Defined.

(** A replayed packet whose write the driver refused is dropped from the buffer: the
    scheduler hears "sent". *)
Lemma refused_replay_is_lost :
  let b := (ob_push Sample.data ob_static).2 in
  let '(sent, b', c) := replay LoRa_txSend 1 b Running.refusing in
  ob_count b = 1%nat ∧ sent = 1%nat ∧ ob_count b' = 0%nat ∧ x_tel c = x_tel Running.refusing.
Proof. by vm_compute. Qed.

Lemma uplink_stream_accepted_witness :
  ∃ x s, Running.start = Some x ∧ lora_run x Running.mails = LO_running s ∧
    length (v_sent (esp_view (x_hal (LO_txCtx s)))) = 4%nat ∧
    ∃ base ds, esp_view (x_hal (LO_txCtx s)) = {| base with v_sent := v_sent base ++ frames ds |} ∧
      v_mode base = normal_mode.
Proof.
  destruct (uplink_stream_accepted 204 (FakeEsp.off true false) Running.mails ltac:(done) Running.mails_ok)
    as (x & E & Hx).
  assert (Hn : (x ← Running.start; match lora_run x Running.mails with
      | LO_running s => Some (length (v_sent (esp_view (x_hal (LO_txCtx s))))) | _ => None end) = Some 4%nat)
    by (by vm_compute).
  rewrite E in Hn. cbn [mbind option_bind] in Hn.
  exists x. destruct (lora_run x Running.mails) as [h|h|s]; [done..|]. exists s.
  destruct Hx as (base & ds & _ & Hv & Hm & _). injection Hn as Hn. split; [exact E|]. split; [done|]. split; [done|].
  by exists base, ds.
Defined.

Lemma lora_cycle_effect_witness :
  match x ← Running.start; Some (lora_run x Running.mails) with
  | Some (LO_running s) => ∃ new,
      v_sent (esp_view (x_hal (LO_txCtx (lora_cycle (Some (Some Sample.data)) s))))
        = v_sent (esp_view (x_hal (LO_txCtx s))) ++ new
  | _ => False
  end.
Proof.
  destruct Running.start as [x|] eqn:Ex; [|by vm_compute in Ex]. cbn [mbind option_bind].
  destruct (lora_run x Running.mails) as [h|h|s] eqn:Es.
  1,2: exfalso; assert (Hn : (x ← Running.start; match lora_run x Running.mails with
      | LO_running s => Some () | _ => None end) = Some ()) by (by vm_compute);
    rewrite Ex in Hn; cbn [mbind option_bind] in Hn; by rewrite Es in Hn.
  destruct (lora_cycle_effect 204 (FakeEsp.off true false) Running.mails (Some (Some Sample.data)) x s)
    as (new & En & _); [done| |exact Ex|exact Es|by exists new].
  intros d [[= ->]|Hd]%elem_of_cons; [exact Sample.data_wf|by apply Running.mails_ok].
Defined.
