(* ===== verification/Watchdog.v ===== *)
(** The task watchdog and the LoRa task: [src/main.cpp] feeds it in every loop and between
    the attempts to set the UART up, but [LoraLink::configureE22] does not, although it waits
    for the radio up to three times and reads up to two answers.

    Time is that of [EspLoraHal]'s world.  A call is charged with the ticks it was asked to
    wait, a write with the bytes it may have to let out first, and both with a jitter, in
    which preemption by the other tasks of the core counts.  A triple over [awake] carries
    the time since the task last fed the watchdog through the program.  The start-up of the
    CAN task, which does not feed it either, ends within 3 s and twenty calls. *)
From S2P Require Import Prelude SystemConfig VehicleData OfflineBuffer UplinkScheduler.
From S2P Require Import CanManager CanManagerCorrect.
From S2P Require Import Telemetry E22Config LoraLink EspLoraHal LoraTask.
Import CanManager(can_world, drv, setc, call, call_, tryBitrate, detectBitrate, TwaiDriver(..), TwaiLaws(..)).
Open Scope Z_scope.

(** In microseconds. *)
(* [src ESP_AKS/sdkconfig.esp32dev:1458-1458 CONFIG_ESP_TASK_WDT_TIMEOUT_S] *)
Definition WDT_TIMEOUT_US : Z := 5 * 1000000.

(** A byte on the line: start bit, eight bits, stop bit. *)
Definition UART_BYTE_US : Z := 10 * 1000000 / LORA_UART_BAUD + 1.

(** The watchdog of the task: when it was last fed, and whether it has run out since the
    task subscribed. *)
Class EspWatchdog (H : Type) := {
  wdt_fed : H → Z;
  wdt_barked : H → bool;
}.

Section Calls.
Context {H : Type} `{EspLora H} `{EspLoraWorld H} `{EspWatchdog H}.

(** At most [n] microseconds pass, in which the watchdog may run out. *)
Definition spent (n : Z) (h h' : H) : Prop :=
  esp_us h <= esp_us h' <= esp_us h + n ∧ wdt_fed h' = wdt_fed h ∧
  wdt_barked h' = wdt_barked h || (WDT_TIMEOUT_US <? esp_us h' - wdt_fed h).
Definition takes {A} (n : Z) (m : M H A) : Prop := ∀ h, spent n h (m h).2.
End Calls.

Class EspWatchdogLaws (H : Type) `{EspLora H} `{EspLoraWorld H} `{EspWatchdog H} := {
  wdt_config pins mode : takes (esp_jitter H) (gpio_config pins mode);
  wdt_set_level pin l : takes (esp_jitter H) (gpio_set_level pin l);
  wdt_get_level pin : takes (esp_jitter H) (gpio_get_level pin);
  wdt_installed : takes (esp_jitter H) uart_is_driver_installed;
  wdt_delete : takes (esp_jitter H) uart_driver_delete;
  wdt_param baud : takes (esp_jitter H) (uart_param_config baud);
  wdt_pin : takes (esp_jitter H) uart_set_pin;
  wdt_install rx tx : takes (esp_jitter H) (uart_driver_install rx tx);
  wdt_flush : takes (esp_jitter H) uart_flush;
  wdt_free : takes (esp_jitter H) uart_get_tx_buffer_free_size;
  wdt_tick : takes (esp_jitter H) xTaskGetTickCount;
  wdt_time : takes (esp_jitter H) esp_timer_get_time;
  wdt_print l : takes (esp_jitter H) (printf l);
  (** A write waits until its last byte has found room in the transmit ring. *)
  wdt_write l : takes (UART_BYTE_US * Z.of_nat (length l) + esp_jitter H) (uart_write_bytes l);
  wdt_read buf n : 0 <= n → takes (10000 * n + esp_jitter H) (uart_read_bytes buf n);
  wdt_delay n : 0 <= n → takes (10000 * n + esp_jitter H) (vTaskDelay n);
  (** Feeding starts it anew; that it has run out is not forgotten. *)
  wdt_reset h : let h' := (esp_task_wdt_reset h).2 in
    esp_us h <= wdt_fed h' <= esp_us h' ∧ esp_us h' <= esp_us h + esp_jitter H ∧
    wdt_barked h' = wdt_barked h || (WDT_TIMEOUT_US <? wdt_fed h' - wdt_fed h);
}.

(** ** Rules *)
Section Rules.
Context {H : Type} `{EspLoraLaws H, EspWatchdog H, !EspWatchdogLaws H}.

Definition awake (a : Z) (h : H) : Prop := wdt_barked h = false ∧ esp_us h - wdt_fed h <= a.

Lemma awake_mono a b h : awake a h → a <= b → awake b h.
Proof. intros [? ?] ?. split; [done|lia]. Qed.

Lemma spent_fine n h h' : spent n h h' → esp_us h <= esp_us h' <= esp_us h + n ∧
  (esp_us h' - wdt_fed h <= WDT_TIMEOUT_US → wdt_fed h' = wdt_fed h ∧ wdt_barked h' = wdt_barked h).
Proof.
  intros (Ht & Ef & Eb). split; [done|]. intros Hl. split; [done|].
  by rewrite Eb, (proj2 (Z.ltb_ge _ _) Hl), orb_false_r.
Qed.

Lemma spent_awake n a h h' : spent n h h' → awake a h → a + n <= WDT_TIMEOUT_US → awake (a + n) h'.
Proof. intros [Ht Hs]%spent_fine [Hb Ha] Hl. destruct Hs as [Ef Eb]; [lia|]. split; [congruence|lia]. Qed.

Lemma takes_triple {A} n a (m : M H A) :
  takes n m → a + n <= WDT_TIMEOUT_US → triple (awake a) m (λ _, awake (a + n)).
Proof. intros Hm Hl h Hh. by apply (spent_awake n a h). Qed.

Lemma feed_awake a h : awake a h → a + esp_jitter H <= WDT_TIMEOUT_US →
  awake (esp_jitter H) (esp_task_wdt_reset h).2.
Proof.
  intros [Hb Ha] Hl. destruct (wdt_reset h) as (Hf & Ht & Eb). rewrite (proj2 (Z.ltb_ge _ _)) in Eb by lia.
  split; [by rewrite Eb, Hb|lia].
Qed.

(** ** The hardware layer *)
Lemma takes_now : takes (esp_jitter H) nowMs.
Proof. intros h. rewrite now_bind. apply wdt_time. Qed.
Lemma takes_aux : takes (esp_jitter H) isAuxReady.
Proof. intros h. destruct (ready_bind h) as [b ->]. apply wdt_get_level. Qed.

(** From here on a call without a wait takes at most 10 ms. *)
Hypothesis jitter_ms : esp_jitter H <= 10000.

Ltac wdt := pose proof (esp_jitter_range (H:=H));
  unfold WDT_TIMEOUT_US, LORA_AUX_MODE_TIMEOUT_MS, LORA_AUX_CFG_TIMEOUT_MS, LORA_CFG_READ_TIMEOUT_MS in *; lia.
(** One driver call. *)
Ltac call law := apply takes_triple; [apply law; try lia|wdt].

Lemma mode_awake a m0 m1 : a + 2 * esp_jitter H <= WDT_TIMEOUT_US →
  triple (awake a) (setModePins m0 m1) (λ _, awake (a + 2 * esp_jitter H)).
Proof.
  intros Hl. replace (a + 2 * esp_jitter H) with (a + esp_jitter H + esp_jitter H) by lia.
  cbn [setModePins EspLoraHal]. step ltac:(call wdt_set_level). call wdt_set_level.
Qed.

Lemma registers_awake n i buf a : a + Z.of_nat n * esp_jitter H <= WDT_TIMEOUT_US →
  triple (awake a) (print_registers n i buf) (λ _, awake (a + Z.of_nat n * esp_jitter H)).
Proof.
  pose proof (esp_jitter_range (H:=H)) as Hj.
  revert i a. induction n as [|n IH]; intros i a Hl; cbn [print_registers].
  - intros h Hh. eapply awake_mono; [exact Hh|lia].
  - step ltac:(call wdt_print).
    intros h Hh. eapply awake_mono; [apply (IH (Datatypes.S i) (a + esp_jitter H)); [lia|done]|lia].
Qed.

Lemma dump_awake label buf n a : a + 9 * esp_jitter H <= WDT_TIMEOUT_US →
  triple (awake a) (hexDumpE22 label buf n) (λ _, awake (a + 9 * esp_jitter H)).
Proof.
  intros Hl. pose proof (esp_jitter_range (H:=H)). cbn [hexDumpE22 EspLoraHal]. unfold E22_logHexDump.
  case_match; [|by apply (registers_awake 9)]. intros h Hh. eapply awake_mono; [exact Hh|lia].
Qed.

(** The clock decides when the wait for AUX ends: at most a round late. *)
Lemma wait_loop_spent fuel t0 timeoutMs h b h' : 0 <= t0 → 0 <= timeoutMs <= 60000 →
  wait_loop fuel (u64 (t0 / 1000)) timeoutMs h = Some (b, h') →
  t0 <= esp_us h <= t0 + 1000 * timeoutMs + 10000 + 3 * esp_jitter H → wdt_barked h = false →
  t0 + 1000 * timeoutMs + 10000 + 4 * esp_jitter H - wdt_fed h <= WDT_TIMEOUT_US →
  wdt_fed h' = wdt_fed h ∧ wdt_barked h' = false ∧
  esp_us h' <= t0 + 1000 * timeoutMs + 10000 + 4 * esp_jitter H.
Proof.
  intros Ht0 Ht. pose proof (esp_jitter_range (H:=H)) as Hj.
  revert h. induction fuel as [|fuel IH]; intros h E Hu Hb Hl; [done|].
  cbn [wait_loop] in E. unfold mbind, F_bind, mret, F_ret, lift in E. cbn [mbind option_bind] in E.
  destruct (spent_fine _ _ _ (takes_now h)) as [Tn Sn]. rewrite now_bind in E, Tn, Sn. cbn [fst snd mbind option_bind] in E, Tn, Sn.
  set (h1 := (esp_timer_get_time h).2) in *. destruct Sn as [Fn Bn]; [lia|].
  assert (Ed : u64 (u64 (esp_us h / 1000) - u64 (t0 / 1000)) = esp_us h / 1000 - t0 / 1000).
  { unfold u64, wrapu. rewrite <- Zminus_mod. apply Z.mod_small. zlia. }
  rewrite Ed in E. destruct (Z.ltb_spec (esp_us h / 1000 - t0 / 1000) timeoutMs) as [Hlt|Hge].
  2:{ injection E as <- <-. split_and!; [done|congruence|lia]. }
  assert (He : esp_us h < t0 + 1000 * timeoutMs) by zlia. clear Hlt Ed.
  destruct (spent_fine _ _ _ (takes_aux h1)) as [Ta Sa]. destruct (isAuxReady h1) as [ready h2]. cbn [fst snd] in E, Ta, Sa.
  destruct Sa as [Fa Ba]; [lia|]. destruct ready; [injection E as <- <-; split_and!; [congruence..|lia]|].
  cbn [delayMs EspLoraHal] in E. rewrite esp_ms_to_ticks in E by lia. change (10 / 10) with 1 in E.
  destruct (spent_fine _ _ _ (wdt_delay 1 ltac:(lia) h2)) as [Td Sd]. destruct (vTaskDelay 1 h2) as [[] h3]. cbn [fst snd] in E, Td, Sd.
  destruct Sd as [Fd Bd]; [lia|]. destruct (IH h3) as (? & ? & ?); [done|lia|congruence|lia|].
  split_and!; [congruence|done|lia].
Qed.

Lemma wait_awake fuel timeoutMs a : 0 <= timeoutMs <= 60000 → timeoutMs + 40 <= 10 * Z.of_nat fuel →
  a + 1000 * timeoutMs + 10000 + 4 * esp_jitter H <= WDT_TIMEOUT_US →
  ftriple (awake a) (waitAuxReady fuel timeoutMs) (λ _, awake (a + 1000 * timeoutMs + 10000 + 4 * esp_jitter H)).
Proof.
  intros Ht Hf Hl h [Hb Ha]. destruct (waitAuxReady_ends fuel timeoutMs h) as (b & h' & E & _); [lia|done|].
  exists b, h'. split; [done|]. pose proof (esp_jitter_range (H:=H)) as Hj. pose proof (esp_us_range h).
  unfold waitAuxReady, mbind, F_bind, lift in E. cbn [mbind option_bind] in E.
  destruct (spent_fine _ _ _ (takes_now h)) as [Tn Sn]. rewrite now_bind in E, Tn, Sn. cbn [fst snd mbind option_bind] in E, Tn, Sn.
  set (h1 := (esp_timer_get_time h).2) in *. destruct Sn as [Fn Bn]; [lia|].
  destruct (wait_loop_spent fuel (esp_us h) timeoutMs h1 b h') as (F' & B' & U'); try done; [lia|congruence|lia|].
  split; [done|lia].
Qed.

(** ** The configuration of the radio *)

Lemma read_awake buf timeoutMs a : 0 <= timeoutMs <= 60000 →
  a + 1000 * timeoutMs + esp_jitter H <= WDT_TIMEOUT_US →
  triple (awake a) (uartRead buf timeoutMs) (λ _, awake (a + 1000 * timeoutMs + esp_jitter H)).
Proof.
  intros Ht Hl h Hh. cbn [uartRead EspLoraHal]. rewrite esp_ms_to_ticks by lia.
  assert (Hd : 0 <= timeoutMs / 10 ∧ 10000 * (timeoutMs / 10) <= 1000 * timeoutMs) by zlia.
  eapply awake_mono; [eapply spent_awake; [apply wdt_read; lia|exact Hh|lia]|lia].
Qed.

Lemma delay_awake ms a : 0 <= ms <= 60000 → a + 1000 * ms + esp_jitter H <= WDT_TIMEOUT_US →
  triple (awake a) (vTaskDelay (esp_pdMS_TO_TICKS ms)) (λ _, awake (a + 1000 * ms + esp_jitter H)).
Proof.
  intros Ht Hl h Hh. rewrite esp_ms_to_ticks by lia.
  assert (Hd : 0 <= ms / 10 ∧ 10000 * (ms / 10) <= 1000 * ms) by zlia.
  eapply awake_mono; [eapply spent_awake; [apply wdt_delay; lia|exact Hh|lia]|lia].
Qed.

(** A command of at most twelve bytes. *)
Lemma command_awake l a : (length l <= 12)%nat → a + 12504 + esp_jitter H <= WDT_TIMEOUT_US →
  triple (awake a) (uartWrite l) (λ _, awake (a + 12504 + esp_jitter H)).
Proof.
  intros Hn Hl h Hh. pose proof (wdt_write l h) as Hw.
  change UART_BYTE_US with 1042 in Hw.
  eapply awake_mono; [eapply spent_awake; [exact Hw|exact Hh|lia]|lia].
Qed.

Lemma response_awake label size a : a + 500000 + 10 * esp_jitter H <= WDT_TIMEOUT_US →
  triple (awake a) (read_response label size) (λ _, awake (a + 500000 + 10 * esp_jitter H)).
Proof.
  intros Hl. pose proof (esp_jitter_range (H:=H)) as Hj. unfold read_response.
  replace (a + 500000 + 10 * esp_jitter H) with (a + 1000 * LORA_CFG_READ_TIMEOUT_MS + esp_jitter H + 9 * esp_jitter H)
    by (unfold LORA_CFG_READ_TIMEOUT_MS; lia).
  step ltac:(apply read_awake; wdt). step ltac:(apply dump_awake; wdt). by intros h Hh.
Qed.

(** Reading alone takes one answer; the volatile write of the key, two. *)
Lemma read_config_awake a : a + 1050000 + 24 * esp_jitter H <= WDT_TIMEOUT_US →
  triple (awake a) read_config
    (λ kept, awake (a + match kept with Some _ => 1050000 + 24 * esp_jitter H | None => 520000 + 12 * esp_jitter H end)).
Proof.
  intros Hl. unfold read_config. step ltac:(call wdt_flush).
  step ltac:(apply (command_awake read_command); [cbn; lia|wdt]). step ltac:(apply response_awake; wdt).
  match goal with r : Z * list Z |- _ => destruct r as [n buf] end.
  assert (Hkept : triple (awake (a + esp_jitter H + 12504 + esp_jitter H + 500000 + 10 * esp_jitter H))
    (mret None : M H (option key_log)) (λ kept, awake (a + match kept with Some _ => 1050000 + 24 * esp_jitter H | None => 520000 + 12 * esp_jitter H end))).
  { intros h Hh. eapply awake_mono; [exact Hh|]. cbn. wdt. }
  destruct (_ && _); [exact Hkept|]. case_match; [|exact Hkept]. case_match; [|exact Hkept].
  step ltac:(call wdt_flush). step ltac:(apply (command_awake crypt_command); [cbn; lia|wdt]).
  step ltac:(apply response_awake; wdt). intros h Hh. eapply awake_mono; [exact Hh|]. cbn. wdt.
Qed.

Lemma write_config_awake fuel a : LORA_AUX_CFG_TIMEOUT_MS + 40 <= 10 * Z.of_nat fuel →
  a + 2580000 + 17 * esp_jitter H <= WDT_TIMEOUT_US →
  ftriple (awake a) (write_config fuel) (λ _, awake (a + 2580000 + 17 * esp_jitter H)).
Proof.
  intros Hf Hl. unfold write_config. fstep ltac:(apply ftriple_lift; call wdt_flush).
  fstep ltac:(apply ftriple_lift, (command_awake (write_command E22_CONTRACT_REGS)); [cbn; lia|wdt]).
  fstep ltac:(apply ftriple_lift, (delay_awake 50); wdt).
  fstep ltac:(apply wait_awake; [done|done|wdt]). case_match.
  2:{ intros h Hh. eexists _, _. split; [done|]. eapply awake_mono; [exact Hh|wdt]. }
  fstep ltac:(apply ftriple_lift, response_awake; wdt).
  intros h Hh. eexists _, _. split; [done|]. eapply awake_mono; [exact Hh|wdt].
Qed.

Lemma config_session_awake fuel a : LORA_AUX_CFG_TIMEOUT_MS + 40 <= 10 * Z.of_nat fuel →
  a + 3100000 + 29 * esp_jitter H <= WDT_TIMEOUT_US →
  ftriple (awake a) (config_session fuel) (λ _, awake (a + 3100000 + 29 * esp_jitter H)).
Proof.
  intros Hf Hl. unfold config_session. fstep ltac:(apply ftriple_lift, read_config_awake; wdt).
  case_match; cbn iota.
  - intros h Hh. eexists _, _. split; [done|]. eapply awake_mono; [exact Hh|wdt].
  - fstep ltac:(apply write_config_awake; [done|wdt]). intros h Hh. eexists _, _. split; [done|].
    eapply awake_mono; [exact Hh|wdt].
Qed.

(** The whole configuration, without a meal. *)
Lemma configureE22_awake fuel a : LORA_AUX_CFG_TIMEOUT_MS + 40 <= 10 * Z.of_nat fuel →
  a + 4120000 + 42 * esp_jitter H <= WDT_TIMEOUT_US →
  ftriple (awake a) (configureE22 fuel) (λ _, awake (a + 4120000 + 42 * esp_jitter H)).
Proof.
  intros Hf Hl. unfold configureE22. fstep ltac:(apply ftriple_lift, mode_awake; wdt).
  fstep ltac:(apply wait_awake; [done|wdt|wdt]).
  eapply (ftriple_bind _ _ (λ _, awake (a + 3610000 + 35 * esp_jitter H))).
  { case_match.
    - eapply ftriple_mono; [apply config_session_awake; [done|wdt]|]. intros ? h Hh. eapply awake_mono; [exact Hh|wdt].
    - intros h Hh. eexists _, _. split; [done|]. eapply awake_mono; [exact Hh|wdt]. }
  intros verdict. fstep ltac:(apply ftriple_lift, mode_awake; wdt).
  fstep ltac:(apply wait_awake; [done|wdt|wdt]). fstep ltac:(apply ftriple_lift; cbn [auxRawLevel EspLoraHal]; call wdt_get_level).
  intros h Hh. eexists _, _. split; [done|]. eapply awake_mono; [exact Hh|wdt].
Qed.

(** ** The set-up of the UART *)

Lemma uart_attempt_awake a : a + 5 * esp_jitter H <= WDT_TIMEOUT_US →
  triple (awake a) uart_attempt (λ _, awake (a + 5 * esp_jitter H)).
Proof.
  intros Hl. unfold uart_attempt. step ltac:(call wdt_installed).
  eapply (triple_bind _ _ (λ _, awake (a + 2 * esp_jitter H))).
  { case_match.
    - intros h Hh. eapply awake_mono; [eapply spent_awake; [apply wdt_delete|exact Hh|wdt]|wdt].
    - intros h Hh. eapply awake_mono; [exact Hh|wdt]. }
  intros _. step ltac:(call wdt_param). step ltac:(call wdt_pin). step ltac:(call wdt_install).
  intros h Hh. eapply awake_mono; [exact Hh|wdt].
Qed.

(** Every second between two attempts is followed by a meal. *)
Lemma uart_setup_awake n failed : LORA_UART_MAX_INIT_ATTEMPTS - failed <= Z.of_nat n → (0 < n)%nat →
  ftriple (awake (3 * esp_jitter H)) (uart_setup n failed) (λ _, awake (8 * esp_jitter H)).
Proof.
  revert failed. induction n as [|n IH]; intros failed Hn Hpos; [lia|]. cbn [uart_setup].
  fstep ltac:(apply ftriple_lift, uart_attempt_awake; wdt).
  assert (Hend : ∀ b : bool, ftriple (awake (3 * esp_jitter H + 5 * esp_jitter H)) (mret b : F H bool)
    (λ _, awake (8 * esp_jitter H))).
  { intros b h Hh. eexists _, _. split; [done|]. eapply awake_mono; [exact Hh|wdt]. }
  case_match; [apply Hend|]. unfold uart_init_retry_decision.
  destruct (Z.leb_spec LORA_UART_MAX_INIT_ATTEMPTS (failed + 1)); [apply Hend|].
  fstep ltac:(apply ftriple_lift, (delay_awake 1000); wdt).
  eapply (ftriple_bind _ _ (λ _, awake (3 * esp_jitter H))).
  { apply ftriple_lift. intros h Hh. eapply awake_mono; [eapply feed_awake; [exact Hh|wdt]|wdt]. }
  intros _. apply IH; unfold LORA_UART_MAX_INIT_ATTEMPTS in *; lia.
Qed.

Lemma hal_begin_awake n : LORA_UART_MAX_INIT_ATTEMPTS <= Z.of_nat n →
  ftriple (awake (esp_jitter H)) (hal_begin_ n) (λ _, awake (8 * esp_jitter H)).
Proof.
  intros Hn. unfold hal_begin_. unfold LORA_UART_MAX_INIT_ATTEMPTS in Hn.
  fstep ltac:(apply ftriple_lift; call wdt_config). case_match.
  { intros h Hh. eexists _, _. split; [done|]. eapply awake_mono; [exact Hh|wdt]. }
  fstep ltac:(apply ftriple_lift; call wdt_config). case_match.
  { intros h Hh. eexists _, _. split; [done|]. eapply awake_mono; [exact Hh|wdt]. }
  eapply (ftriple_bind _ _ (λ _, awake (8 * esp_jitter H))); [|by intros ok h Hh; eexists _, _].
  intros h Hh. apply uart_setup_awake; [unfold LORA_UART_MAX_INIT_ATTEMPTS; lia|lia|].
  eapply awake_mono; [exact Hh|wdt].
Qed.

(** ** The loop *)

Definition lora_hw (x : lora_state H) : H :=
  match x with LO_restarted h | LO_disabled h => h | LO_running s => x_hal (LO_txCtx s) end.

(** What the task may have been awake for when it enters its loop: the configuration. *)
Definition START_US : Z := 4630000.

Lemma lora_start_awake fuel h : LORA_AUX_CFG_TIMEOUT_MS + 40 <= 10 * Z.of_nat fuel →
  awake (esp_jitter H) h → ∃ x, lora_start fuel h = Some x ∧ awake START_US (lora_hw x).
Proof.
  intros Hf Hh. unfold lora_start. unfold LORA_AUX_CFG_TIMEOUT_MS in Hf.
  destruct (hal_begin_awake fuel) with (s := h) as (r & h1 & -> & Hh1);
    [unfold LORA_UART_MAX_INIT_ATTEMPTS; lia|done|]. cbn [mbind option_bind].
  assert (Hs : awake START_US h1) by (eapply awake_mono; [exact Hh1|unfold START_US; wdt]).
  destruct r as [|[]]; [by eexists| |by eexists].
  destruct (configureE22_awake fuel (8 * esp_jitter H)) with (s := h1) as (u & h2 & -> & Hh2); [done|wdt|done|].
  cbn [mbind option_bind]. pose proof (takes_now h2) as Hn. destruct (nowMs h2) as [bootMs h3]. cbn [snd] in Hn.
  eexists. split; [done|]. cbn. eapply awake_mono; [eapply spent_awake; [exact Hn|exact Hh2|wdt]|unfold START_US; wdt].
Qed.

(** One send: 191 bytes at most. *)
Definition SEND_US : Z := 191 * UART_BYTE_US + 30000.

Lemma txSend_awake pkt isReplay c a : 0 <= a → awake a (x_hal c) → a + SEND_US + esp_jitter H <= WDT_TIMEOUT_US →
  let r := LoRa_txSend pkt isReplay c in
  awake (a + SEND_US) (x_hal r.2) ∧ (isReplay = true → r.1 = true → awake (esp_jitter H) (x_hal r.2)).
Proof.
  change SEND_US with 229022. intros Hpos Ha Hl r. subst r. unfold LoRa_txSend.
  pose proof (takes_aux (x_hal c)) as T1. destruct (isAuxReady (x_hal c)) as [ready h1]. cbn [snd] in T1.
  apply (spent_awake _ a) in T1; [|done|wdt]. destruct ready; cbn [negb x_hal].
  2:{ split; [eapply awake_mono; [exact T1|wdt]|done]. }
  pose proof (wdt_free h1) as T2. destruct (uart_get_tx_buffer_free_size h1) as [free h2]. cbn [snd] in T2.
  apply (spent_awake _ (a + esp_jitter H)) in T2; [|done|wdt].
  destruct (match free with None => true | Some n => _ end).
  { split; [eapply awake_mono; [exact T2|wdt]|done]. }
  cbn [x_hal x_tel].
  assert (Ts : ∀ d t, awake (a + 229022) (sendStatus uart_write_bytes d t h2).2).
  { intros d t. assert (Hid : awake (a + 229022) h2) by (eapply awake_mono; [exact T2|wdt]).
    unfold sendStatus. destruct (negb _); [done|]. destruct (_ <=? 0); [done|].
    match goal with |- context [uart_write_bytes ?l h2] => pose proof (wdt_write l h2) as T3; set (bs := l) in * end.
    assert (Hb : Z.of_nat (length bs) <= 191).
    { subst bs. rewrite length_take. case_match; lia. }
    change UART_BYTE_US with 1042 in T3. destruct (uart_write_bytes bs h2) as [w h3]. cbn [snd] in T3.
    apply (spent_awake _ (a + esp_jitter H + esp_jitter H)) in T3; [|done|wdt].
    assert (awake (a + 229022) h3) by (eapply awake_mono; [exact T3|wdt]). by case_match. }
  specialize (Ts (sanitizeForUplink pkt) (x_tel c)). destruct (sendStatus _ _ _ _) as [t h3]. cbn [snd] in Ts.
  destruct isReplay; cbn [snd fst x_hal]; [|done].
  pose proof (feed_awake _ _ Ts ltac:(wdt)) as Hf. change (feedWatchdog h3) with (esp_task_wdt_reset h3).
  split; [eapply awake_mono; [exact Hf|wdt]|done].
Qed.

(** A burst costs no more than its last send: the one that fails, or the first. *)
Lemma replay_awake n b c a : esp_jitter H <= a → awake a (x_hal c) → a + SEND_US + esp_jitter H <= WDT_TIMEOUT_US →
  awake (a + SEND_US) (x_hal (replay LoRa_txSend n b c).2).
Proof.
  intros Hj. change SEND_US with 229022. revert b c. induction n as [|n IH]; intros b c Ha Hl; cbn [replay].
  { eapply awake_mono; [exact Ha|wdt]. }
  destruct (ob_peek b) as [pkt|]; [|eapply awake_mono; [exact Ha|wdt]].
  destruct (txSend_awake pkt true c a) as [Hs Hr]; [wdt|done|change SEND_US with 229022; wdt|].
  change SEND_US with 229022 in Hs. destruct (LoRa_txSend pkt true c) as [[] c1]; cbn [negb fst snd] in *; [|done].
  specialize (IH (ob_drop_front b).2 c1). destruct (replay LoRa_txSend n _ c1) as [[k b'] c'].
  apply IH; [|done]. eapply awake_mono; [by apply Hr|done].
Qed.

Lemma tx_awake mailbox s a : esp_jitter H <= a → awake a (x_hal (LO_txCtx s)) →
  a + 2 * SEND_US + esp_jitter H <= WDT_TIMEOUT_US →
  awake (a + 2 * SEND_US) (x_hal (LO_txCtx (lora_tx mailbox s))).
Proof.
  intros Hj Ha Hl. pose proof (esp_jitter_range (H:=H)) as Hr.
  assert (Hid : awake (a + 2 * SEND_US) (x_hal (LO_txCtx s)))
    by (eapply awake_mono; [exact Ha|change SEND_US with 229022; lia]).
  unfold lora_tx. destruct mailbox as [mail|]; [|done]. destruct (negb (isLinkDown _)).
  - unfold onTxTickLinkUp.
    pose proof (replay_awake (Z.to_nat (m_replayBurstPerTick (LO_sched s))) (LO_buffer s) (LO_txCtx s) a Hj Ha) as Hb.
    destruct (replay _ _ _ _) as [[k b'] c']. cbn [snd] in Hb.
    specialize (Hb ltac:(change SEND_US with 229022 in *; lia)). set (live := default TelemetryData_zero mail).
    destruct (match mail with Some _ => true | None => false end).
    + destruct (txSend_awake live false c' (a + SEND_US)) as [Hs _];
        [change SEND_US with 229022; lia|done|change SEND_US with 229022 in *; lia|].
      destruct (LoRa_txSend live false c') as [ok c2]. cbn in Hs |- *. eapply awake_mono; [exact Hs|lia].
    + cbn. eapply awake_mono; [exact Hb|change SEND_US with 229022; lia].
  - destruct mail as [d|]; [|done]. pose proof (takes_now (x_hal (LO_txCtx s))) as Hn.
    destruct (nowMs (x_hal (LO_txCtx s))) as [now h]. cbn [snd] in Hn.
    destruct (offlineSample _ _ _) as [ok [u b]]. cbn.
    change SEND_US with 229022 in *. eapply awake_mono; [eapply spent_awake; [exact Hn|exact Ha|]|]; lia.
Qed.

Lemma rx_awake bytes u h a : awake a h → a + Z.of_nat (length bytes) * esp_jitter H <= WDT_TIMEOUT_US →
  awake (a + Z.of_nat (length bytes) * esp_jitter H) (lora_rx bytes u h).2.
Proof.
  pose proof (esp_jitter_range (H:=H)) as Hr.
  revert u h a. induction bytes as [|b bytes IH]; intros u h a Ha Hl; cbn [lora_rx length] in *.
  { eapply awake_mono; [exact Ha|lia]. }
  pose proof (takes_now h) as Hn. destruct (nowMs h) as [now h1]. cbn [snd] in Hn.
  apply (spent_awake _ a) in Hn; [|done|lia]. destruct (onRxByte b now u) as [? u1].
  eapply awake_mono; [apply (IH u1 h1 (a + esp_jitter H)); [done|lia]|lia].
Qed.

(** An iteration: the wait for bytes, two sends, the delay. *)
Lemma cycle_awake mailbox s : awake START_US (x_hal (LO_txCtx s)) →
  awake (2 * SEND_US + 160000) (x_hal (LO_txCtx (lora_cycle mailbox s))).
Proof.
  intros Ha. change SEND_US with 229022. change START_US with 4630000 in Ha. unfold lora_cycle.
  pose proof (feed_awake _ _ Ha ltac:(wdt)) as Hf. set (h1 := (esp_task_wdt_reset _).2) in *.
  pose proof (read_awake (replicate 4 0) LORA_RX_TIMEOUT_MS (esp_jitter H) ltac:(done) ltac:(unfold LORA_RX_TIMEOUT_MS; wdt) h1 Hf) as T2.
  destruct (esp_read_length (replicate 4 0) (esp_pdMS_TO_TICKS LORA_RX_TIMEOUT_MS) h1) as [_ Hlen].
  change (uart_read_bytes (replicate 4 0) (esp_pdMS_TO_TICKS LORA_RX_TIMEOUT_MS) h1)
    with (uartRead (replicate 4 0) LORA_RX_TIMEOUT_MS h1) in Hlen.
  destruct (uartRead (replicate 4 0) LORA_RX_TIMEOUT_MS h1) as [[n bytes] h2]. cbn [fst snd length replicate] in T2, Hlen.
  set (taken := take (Z.to_nat n) bytes).
  assert (Hn : Z.of_nat (length taken) <= 4) by (subst taken; rewrite length_take; lia).
  unfold LORA_RX_TIMEOUT_MS in T2.
  assert (T3 : awake (20000 + 6 * esp_jitter H) (lora_rx taken (LO_sched s) h2).2).
  { eapply awake_mono; [apply (rx_awake taken (LO_sched s) h2 _ T2)|]; pose proof (esp_jitter_range (H:=H)); unfold WDT_TIMEOUT_US; nia. }
  destruct (lora_rx taken (LO_sched s) h2) as [u h3]. cbn [snd] in T3.
  pose proof (takes_now h3) as T4. destruct (nowMs h3) as [now h4]. cbn [snd] in T4.
  apply (spent_awake _ (20000 + 6 * esp_jitter H)) in T4; [|done|wdt]. destruct (updateLink _ _ _ _) as [tr u'].
  pose proof (wdt_tick h4) as T5. destruct (xTaskGetTickCount h4) as [tick h5]. cbn [snd] in T5.
  apply (spent_awake _ (20000 + 6 * esp_jitter H + esp_jitter H)) in T5; [|done|wdt].
  assert (T6 : ∀ s', awake (20000 + 8 * esp_jitter H + 2 * SEND_US) (x_hal (LO_txCtx s')) →
    awake (2 * 229022 + 160000) (x_hal (LO_txCtx (on_hal (λ h, (vTaskDelay (esp_pdMS_TO_TICKS 10) h).2) s')))).
  { change SEND_US with 229022. intros s' Hs'. cbn. 
    eapply awake_mono; [apply (delay_awake 10 (20000 + 8 * esp_jitter H + 2 * 229022) ltac:(lia)); [|exact Hs']|]; wdt. }
  apply T6. case_match.
  - cbn. eapply awake_mono; [exact T5|change SEND_US with 229022; wdt].
  - eapply awake_mono; [apply (tx_awake _ _ (20000 + 8 * esp_jitter H))|]; cbn [LO_txCtx x_hal]; change SEND_US with 229022; [wdt| |wdt|wdt].
    eapply awake_mono; [exact T5|wdt].
Qed.

Lemma iteration_awake mailbox x : awake START_US (lora_hw x) →
  awake START_US (lora_hw (lora_iteration mailbox x)).
Proof.
  intros Hx. change START_US with 4630000 in *. destruct x as [h|h|s]; cbn [lora_iteration lora_hw] in *; [done| |].
  - eapply awake_mono; [apply (delay_awake 1000 (esp_jitter H) ltac:(lia)); [wdt|]|wdt].
    apply (feed_awake _ _ Hx). wdt.
  - eapply awake_mono; [apply cycle_awake; exact Hx|]. change SEND_US with 229022. lia.
Qed.

Lemma run_awake mails x : awake START_US (lora_hw x) → awake START_US (lora_hw (lora_run x mails)).
Proof.
  revert x. induction mails as [|m mails IH]; intros x Hx; [done|]. apply IH. by apply iteration_awake.
Qed.

(** [C25] The LoRa task never lets its watchdog run out.  Let each driver call without a wait
    take at most 10 ms, preemption by the other tasks included, and a write one byte-time per
    byte on top.  Then whatever the radio, its AUX pin, the UART driver and the mailbox do,
    start-up ends and the watchdog has not barked, although the set-up may take five attempts
    a second apart and the configuration of the radio waits for AUX three times and reads two
    answers without feeding it: at most 4.63 s of the 5 s pass.  The same holds after any
    number of iterations, and one iteration with telemetry leaves it alone for at most 0.62 s,
    with two frames to send that a slow transmitter makes room for byte by byte. *)
Theorem lora_feeds_watchdog fuel h mails mailbox :
  LORA_AUX_CFG_TIMEOUT_MS + 40 <= 10 * Z.of_nat fuel →
  wdt_barked h = false → esp_us h - wdt_fed h <= esp_jitter H →
  ∃ x, lora_start fuel h = Some x ∧
    let y := lora_run x mails in
    wdt_barked (lora_hw x) = false ∧ wdt_barked (lora_hw y) = false ∧
    esp_us (lora_hw y) - wdt_fed (lora_hw y) <= 4630000 ∧
    (∀ s, y = LO_running s →
       let h' := lora_hw (lora_iteration mailbox y) in esp_us h' - wdt_fed h' <= 620000).
Proof.
  intros Hf Hb Ha. destruct (lora_start_awake fuel h Hf (conj Hb Ha)) as (x & E & Hx).
  exists x. split; [done|]. intros y. pose proof (run_awake mails x Hx) as Hy. fold y in Hy.
  split_and!; [apply Hx|apply Hy..|]. intros s Es. rewrite Es in *. cbn [lora_iteration lora_hw].
  destruct (cycle_awake mailbox s Hy) as [_ Hc]. change SEND_US with 229022 in Hc. cbn in Hc. lia.
Qed.
End Rules.

(** ** The start-up of the CAN task

    It listens for a second at each of three bit rates and is not fed meanwhile. *)
Class TwaiClock (D : Type) := { twai_us : D → Z; twai_jitter : Z }.
Arguments twai_jitter D {_}.

Class TwaiTiming (D : Type) `{TwaiDriver D, TwaiClock D} := {
  time_mutex d : twai_us (xSemaphoreCreateMutex d).2 <= twai_us d + twai_jitter D;
  time_delete d : twai_us (vSemaphoreDelete d) <= twai_us d + twai_jitter D;
  time_install r d : twai_us (twai_driver_install r d).2 <= twai_us d + twai_jitter D;
  time_uninstall d : twai_us (twai_driver_uninstall d) <= twai_us d + twai_jitter D;
  time_start d : twai_us (twai_start d).2 <= twai_us d + twai_jitter D;
  time_stop d : twai_us (twai_stop d) <= twai_us d + twai_jitter D;
  time_receive n d : 0 <= n → twai_us (twai_receive n d).2 <= twai_us d + 10000 * n + twai_jitter D;
}.

Section CanStart.
Context {D : Type} `{TwaiLaws D, TwaiClock D, !TwaiTiming D}.
Hypothesis jitter_pos : 0 <= twai_jitter D.
Abbreviation j := (twai_jitter D).

Definition before (t : Z) (w : can_world D) : Prop := twai_us (drv w) <= t.

Lemma before_mono t t' w : before t w → t <= t' → before t' w.
Proof. unfold before. lia. Qed.
Lemma setc_before t f : triple (before t) (setc f) (λ _, before t).
Proof. by intros w Hw. Qed.
Lemma call_before {A} t n (f : D → A * D) : (∀ d, twai_us (f d).2 <= twai_us d + n) →
  triple (before t) (call f) (λ _, before (t + n)).
Proof.
  intros Hf w Hw. unfold call, before in *. specialize (Hf (drv w)). destruct (f (drv w)). cbn in *. lia.
Qed.
Lemma call__before t n (f : D → D) : (∀ d, twai_us (f d) <= twai_us d + n) →
  triple (before t) (call_ f) (λ _, before (t + n)).
Proof. intros Hf w Hw. unfold before in *. cbn. specialize (Hf (drv w)). lia. Qed.

Ltac late := let w := fresh in let Hw := fresh in intros w Hw; eapply before_mono; [exact Hw|cbn [length]; lia].

Lemma tryBitrate_before t rate : triple (before t) (tryBitrate rate) (λ _, before (t + 1000000 + 5 * j)).
Proof.
  unfold tryBitrate. step ltac:(apply call_before, time_install). case_match; [late|].
  step ltac:(apply call_before, time_start). case_match.
  - step ltac:(apply (call_before _ (1000000 + j))).
    { intros d. rewrite tick_rate by lia. pose proof (time_receive 100 d ltac:(lia)). change (1000 / 10) with 100. lia. }
    case_match; [step ltac:(apply setc_before); late|..].
    all: step ltac:(apply call__before, time_stop); step ltac:(apply call__before, time_uninstall); late.
  - step ltac:(apply call__before, time_uninstall). late.
Qed.

Lemma detectBitrate_before rates t :
  triple (before t) (detectBitrate rates) (λ _, before (t + Z.of_nat (length rates) * (1000000 + 5 * j))).
Proof.
  revert t. induction rates as [|rate rates IH]; intros t; cbn [detectBitrate length]; [late|].
  step ltac:(apply tryBitrate_before). case_match; [late|].
  intros w Hw. eapply before_mono; [by apply IH|lia].
Qed.

(** Whatever the bus and the driver do, the start-up takes at most three seconds and the
    time of twenty driver calls. *)
Theorem can_begin_in_time w : twai_us (drv (CanManager.begin w).2) <= twai_us (drv w) + 3000000 + 20 * j.
Proof.
  enough (Ht : triple (before (twai_us (drv w))) CanManager.begin (λ _, before (twai_us (drv w) + 3000000 + 20 * j)))
    by exact (Ht w (Z.le_refl _)).
  generalize (twai_us (drv w)). intros t. unfold CanManager.begin.
  eapply (triple_bind _ _ (λ _, before t)); [by intros w' Hw'|intros c]. case_match; [late|].
  step ltac:(apply call_before, time_mutex). step ltac:(apply setc_before). case_match; [late|].
  step ltac:(apply setc_before). step ltac:(apply detectBitrate_before). case_match.
  { step ltac:(apply setc_before). late. }
  step ltac:(apply setc_before). step ltac:(apply call_before, time_install). case_match.
  { step ltac:(apply call__before, time_delete). step ltac:(apply setc_before). late. }
  step ltac:(apply call_before, time_start). case_match.
  { step ltac:(apply call__before, time_uninstall). step ltac:(apply call__before, time_delete).
    step ltac:(apply setc_before). late. }
  step ltac:(apply setc_before). late.
Qed.
End CanStart.

(** On the simulated driver only reading the clock takes time: a tick. *)
#[export] Instance fake_twai_clock : TwaiClock CanManagerCorrect.FakeTwai.t :=
  {| twai_us d := 10000 * CanManagerCorrect.FakeTwai.clock d; twai_jitter := 10000 |}.
#[export] Instance fake_twai_timing : TwaiTiming CanManagerCorrect.FakeTwai.t.
Proof.
  constructor; intros; cbn; try lia. destruct (CanManagerCorrect.FakeTwai.pending d); cbn; lia.
Qed.

(** ** The board of [EspLoraHal], its radio dead *)
#[export] Instance fake_watchdog : EspWatchdog FakeEsp.state := {
  wdt_fed s := Z.of_N (FakeEsp.fed s);
  wdt_barked s := FakeEsp.barked s || (FakeEsp.fed s + 5000000 <? FakeEsp.us s)%N;
}.

Lemma fake_late f u : (f + 5000000 <? u)%N = (WDT_TIMEOUT_US <? Z.of_N u - Z.of_N f).
Proof. unfold WDT_TIMEOUT_US. destruct (N.ltb_spec (f + 5000000) u); symmetry; lia. Qed.

(** A call that takes no time. *)
Lemma fake_spent n (s s' : FakeEsp.state) : 0 <= n → FakeEsp.us s' = FakeEsp.us s → FakeEsp.fed s' = FakeEsp.fed s →
  FakeEsp.barked s' = FakeEsp.barked s → spent n s s'.
Proof.
  intros Hn Eu Ef Eb. unfold spent. cbn. rewrite Eu, Ef, Eb. split; [lia|]. split; [done|].
  rewrite fake_late. by destruct (FakeEsp.barked s), (_ <? _).
Qed.

#[export] Instance fake_watchdog_laws : EspWatchdogLaws FakeEsp.state.
Proof.
  constructor; intros; try (intros h; by apply fake_spent).
  - intros h. assert (0 <= UART_BYTE_US * Z.of_nat (length l)) by (change UART_BYTE_US with 1042; lia).
    apply fake_spent; [cbn; lia|..]; unfold uart_write_bytes, FakeEsp.esp, FakeEsp.write;
      by destruct (bool_decide _); [destruct (FakeEsp.refuse h)|].
  - intros h. apply fake_spent; [cbn; lia|done..].
  - intros h. unfold spent. cbn. split; [lia|]. split; [done|].
    rewrite !fake_late. destruct (FakeEsp.barked h); [done|]. rewrite !orb_false_l.
    destruct (Z.ltb_spec WDT_TIMEOUT_US (Z.of_N (FakeEsp.us h) - Z.of_N (FakeEsp.fed h))); [|by destruct (_ <? _)].
    rewrite (proj2 (Z.ltb_lt _ _)) by lia. done.
  - cbn. split; [lia|]. split; [lia|]. rewrite fake_late.
    rewrite (proj2 (N.ltb_ge (_ + 5000000) _)) by lia. rewrite orb_false_r.
    by destruct (FakeEsp.barked h), (_ <? _).
Qed.

(** AUX never rises: both waits run out, with the watchdog unfed for more than a second. *)
Definition dead_radio : FakeEsp.state := {| (FakeEsp.off false false) with FakeEsp.aux := 0 |}.

Lemma lora_feeds_watchdog_witness :
  ∃ x, lora_start 204 dead_radio = Some x ∧ wdt_barked (lora_hw x) = false ∧
    FakeEsp.us (lora_hw x) = 1000000%N ∧ FakeEsp.fed (lora_hw x) = 0%N.
Proof.
  assert (Hj : esp_jitter FakeEsp.state <= 10000) by done.
  destruct (lora_feeds_watchdog Hj 204 dead_radio [] None) as (x & E & Hb & _);
    [by vm_compute|done|by vm_compute|].
  exists x. split; [done|]. split; [exact Hb|].
  assert (Ef : option_map (λ x, (FakeEsp.us (lora_hw x), FakeEsp.fed (lora_hw x))) (lora_start 204 dead_radio)
    = Some (1000000%N, 0%N)) by (by vm_compute).
  rewrite E in Ef. injection Ef as E1 E2. exact (conj E1 E2).
Defined.
