(* ===== verification/OutageSim.v ===== *)
(** [tools/e2e]: the Python side of the end-to-end tests, without the tests: the contract
    ([contract.py], whose decoder is in [Telemetry.v]), the buffer ([offline_buffer_sim.py])
    and the simulator of the LoRa task ([aks_loop_sim.py]), and the proof that the simulator
    sends what the firmware's scheduler, buffer and frame printer send.

    A Python dict is a map from strings; a missing key ([KeyError]) is [None].  The tests call
    the simulator with a clock below 2^32 ms, so that its unbounded integers are the
    firmware's.  The sensor reading is a parameter of the loop; the simulator's own is a
    constant. *)
From S2P Require Import Prelude SystemConfig VehicleData OfflineBuffer UplinkScheduler Telemetry E22Config LoraTask.
From stdpp Require Import gmap strings.
Open Scope Z_scope.

(** ** The contract *)
Module Contract.
Abbreviation dict := (gmap string Z).
#[local] Open Scope string_scope.
#[local] Open Scope list_scope.
#[local] Open Scope Z_scope.

(* [src ESP_AKS/tools/e2e/contract.py:50-54 FIELD_ORDER] *)
Definition FIELD_ORDER : list string :=
  ["ver"; "seq"; "rpm"; "torque"; "motor_err"; "motor_valid"; "motor_timeout"; "cell_vmax"; "cell_vmin";
   "temp_h"; "temp_l"; "sys_state"; "pack_v"; "current"; "soc"; "bms_valid"; "ts_ms"; "spd_x10"].

(* [src ESP_AKS/tools/e2e/contract.py:92-94 sanitize_system_state] *)
Definition sanitize_system_state (raw : Z) : Z := if (1 <=? raw) && (raw <=? 4) then raw else 4.
(* [src ESP_AKS/tools/e2e/contract.py:97-99 sanitize_soc] *)
Definition sanitize_soc (raw : Z) : Z := if 10000 <? raw then 10000 else raw.
(* [src ESP_AKS/tools/e2e/contract.py:89-89 INT32_MIN] *)
Definition INT32_MIN : Z := -2147483648.
(* [src ESP_AKS/tools/e2e/contract.py:102-104 sanitize_current] *)
Definition sanitize_current (raw : Z) : Z := if raw =? INT32_MIN then INT32_MIN + 1 else raw.
(* [src ESP_AKS/tools/e2e/contract.py:110-114 clamp_spd_x10] *)
Definition clamp_spd_x10 (spd_x10 : Z) : Z := if 3000 <=? spd_x10 then 3000 else spd_x10.

(** [tag % (f[k1], f[k2], ...)] with the keys of a format of [%d] and [%u]. *)
Definition csv_line (tag : list Z) (keys : list string) (f : dict) : option (list Z) :=
  values ← mapM (λ k, f !! k) keys;
  Some (tag ++ concat (map (λ v, comma :: print_int v) values) ++ crlf).

(* [src ESP_AKS/tools/e2e/contract.py:164-178 build_tel_line] *)
Definition build_tel_line (f : dict) : option (list Z) := csv_line tel_tag FIELD_ORDER f.
(* [src ESP_AKS/tools/e2e/contract.py:192-206 build_forward_line] *)
Definition build_forward_line (frame : dict) : option (list Z) :=
  csv_line [67; 83; 86] ["ts_ms"; "spd_x10"; "temp_h"; "pack_v"; "soc"; "seq"] frame.

(** The decoder of [Telemetry.v] with the values under their names. *)
(* [src ESP_AKS/tools/e2e/contract.py:222-254 parse_uks_frame] *)
Definition parse_uks_frame (line : list Z) : UksRejection + dict :=
  match Telemetry.parse_uks_frame line with
  | inl reason => inl reason
  | inr values => inr (list_to_map (zip FIELD_ORDER values))
  end.

(** The radio's registers and key, and the heartbeat. *)
(* [src ESP_AKS/tools/e2e/contract.py:121-127 E22_REG0] *)
Definition E22_REGS : E22RegValues :=
  {| addh := 0; addl := 0; netid := 0; reg0 := 100; reg1 := 0; reg2 := 23; reg3 := 0 |}.
(* [src ESP_AKS/tools/e2e/contract.py:132-133 E22_CRYPT_H] *)
Definition E22_CRYPT : Z * Z := (90, 60).
(* [src ESP_AKS/tools/e2e/contract.py:146-146 LORA_HEARTBEAT_BYTE] *)
Definition LORA_HEARTBEAT_BYTE : Z := 176.
(* [src ESP_AKS/tools/e2e/contract.py:160-160 BOOT_LINK_GRACE_MS] *)
Definition BOOT_LINK_GRACE_MS : Z := 5000.
(* [src ESP_AKS/tools/e2e/contract.py:161-161 LINK_TIMEOUT_MS] *)
Definition LINK_TIMEOUT_MS : Z := 9000.
(* [src ESP_AKS/tools/e2e/contract.py:156-156 LORA_TX_PERIOD_MS] *)
Definition LORA_TX_PERIOD_MS : Z := 500.
(* [src ESP_AKS/tools/e2e/contract.py:157-157 OFFLINE_SAMPLE_PERIOD_MS] *)
Definition OFFLINE_SAMPLE_PERIOD_MS : Z := 1000.
(* [src ESP_AKS/tools/e2e/contract.py:158-158 OB_CAPACITY] *)
Definition OB_CAPACITY : nat := 75.
(* [src ESP_AKS/tools/e2e/contract.py:159-159 REPLAY_BURST_PER_TICK] *)
Definition REPLAY_BURST_PER_TICK : nat := 1.
End Contract.

(** ** The buffer *)
Module OfflineBufferSim.
(* [src ESP_AKS/tools/e2e/offline_buffer_sim.py:15-18 OfflineBufferSim] *)
Record t A := { capacity : nat; items : list A }.
Arguments Build_t {A}.
Arguments capacity {A}.
Arguments items {A}.
Section Sim.
Context {A : Type}.
Definition new (capacity : nat) : t A := {| capacity := capacity; items := [] |}.
(* [src ESP_AKS/tools/e2e/offline_buffer_sim.py:20-23 push] *)
Definition push (item : A) (b : t A) : t A :=
  let b := if (length (items b) =? capacity b)%nat then {| b with items := tail (items b) |} else b in
  {| b with items := items b ++ [item] |}.
(* [src ESP_AKS/tools/e2e/offline_buffer_sim.py:25-26 peek] *)
Definition peek (b : t A) : option A := head (items b).
(* [src ESP_AKS/tools/e2e/offline_buffer_sim.py:28-32 drop_front] *)
Definition drop_front (b : t A) : bool * t A :=
  match items b with [] => (false, b) | _ :: l => (true, {| b with items := l |}) end.
(* [src ESP_AKS/tools/e2e/offline_buffer_sim.py:34-35 count] *)
Definition count (b : t A) : nat := length (items b).
(* [src ESP_AKS/tools/e2e/offline_buffer_sim.py:37-38 is_empty] *)
Definition is_empty (b : t A) : bool := bool_decide (items b = []).
End Sim.
End OfflineBufferSim.

(** ** The simulator *)
Module Sim.
Import Contract.
#[local] Open Scope string_scope.
#[local] Open Scope list_scope.
#[local] Open Scope Z_scope.

(* [src ESP_AKS/tools/e2e/aks_loop_sim.py:23-27 EmittedPacket] *)
Inductive kind := Replay | Live.
(* [src ESP_AKS/tools/e2e/aks_loop_sim.py:23-27 EmittedPacket] *)
Record EmittedPacket := { tick_now_ms : Z; packet_kind : kind; fields : dict }.

(** The variables of the loop; [packets] and [buffered_outage_ts] are those of [SimResult]. *)
(* [src ESP_AKS/tools/e2e/aks_loop_sim.py:30-35 SimResult] *)
Record state := {
  packets : list EmittedPacket;
  buffered_outage_ts : list Z;
  buffer : OfflineBufferSim.t dict;
  seq : Z;
  last_offline_sample_ms : Z;
  has_offline_sample : bool;
}.

(* [src ESP_AKS/tools/e2e/aks_loop_sim.py:38-58 _sensor_reading] *)
Definition sensor_reading (now_ms : Z) : dict := list_to_map
  [("rpm", 1200); ("torque", 100); ("motor_err", 0); ("motor_valid", 1); ("motor_timeout", 0);
   ("cell_vmax", 37500); ("cell_vmin", 37400); ("temp_h", 28); ("temp_l", 26); ("sys_state", 2);
   ("pack_v", 780); ("current", 5000); ("soc", 8000); ("bms_valid", 1); ("ts_ms", now_ms); ("spd_x10", 250)].

(** [out[k] = f(out[k])] *)
Definition update (k : string) (f : Z → Z) (out : dict) : option dict :=
  v ← out !! k; Some (<[k := f v]> out).

(* [src ESP_AKS/tools/e2e/aks_loop_sim.py:61-68 _sanitize] *)
Definition sanitize (reading : dict) : option dict :=
  out ← update "sys_state" sanitize_system_state reading;
  out ← update "soc" sanitize_soc out;
  update "current" sanitize_current out.

(* [src ESP_AKS/tools/e2e/aks_loop_sim.py:150-154 contract_offline_should_sample] *)
Definition contract_offline_should_sample (now_ms last_sample_ms : Z) (has_sample : bool) : bool :=
  if negb has_sample then true else OFFLINE_SAMPLE_PERIOD_MS <=? now_ms - last_sample_ms.

(** Appends a packet with its version and the next sequence number. *)
(* [src ESP_AKS/tools/e2e/aks_loop_sim.py:118-133 run_outage_simulation] *)
Definition emit (now_ms : Z) (k : kind) (reading : dict) (s : state) : option state :=
  sent ← sanitize reading;
  let sent := <["seq" := seq s]> (<["ver" := VER]> sent) in
  Some {| s with seq := seq s + 1; packets := packets s ++ [Build_EmittedPacket now_ms k sent] |}.

(* [src ESP_AKS/tools/e2e/aks_loop_sim.py:114-125 run_outage_simulation] *)
Fixpoint replay_loop (n : nat) (now_ms : Z) (s : state) : option state :=
  match n with
  | O => Some s
  | S n =>
      match OfflineBufferSim.peek (buffer s) with
      | None => Some s
      | Some buffered =>
          s ← emit now_ms Replay buffered s;
          replay_loop n now_ms {| s with buffer := (OfflineBufferSim.drop_front (buffer s)).2 |}
      end
  end.

Section Loop.
Variable reading : Z → dict.
Variables outage_start_ms outage_end_ms : Z.

(* [src ESP_AKS/tools/e2e/aks_loop_sim.py:110-143 run_outage_simulation] *)
Definition tick (now_ms : Z) (s : state) : option state :=
  if negb ((outage_start_ms <=? now_ms) && (now_ms <? outage_end_ms)) then
    s ← replay_loop REPLAY_BURST_PER_TICK now_ms s;
    emit now_ms Live (reading now_ms) s
  else
    let r := reading now_ms in
    if contract_offline_should_sample now_ms (last_offline_sample_ms s) (has_offline_sample s) then
      let s := {| s with last_offline_sample_ms := now_ms; has_offline_sample := true;
                         buffer := OfflineBufferSim.push r (buffer s) |} in
      ts ← r !! "ts_ms";
      Some {| s with buffered_outage_ts := buffered_outage_ts s ++ [ts] |}
    else Some s.

(** The loop, with one unit of fuel per tick: [None] when it runs out. *)
(* [src ESP_AKS/tools/e2e/aks_loop_sim.py:108-147 run_outage_simulation] *)
Fixpoint loop (fuel : nat) (total_ms now_ms : Z) (s : state) : option state :=
  if now_ms <? total_ms then
    match fuel with
    | O => None
    | S fuel => s ← tick now_ms s; loop fuel total_ms (now_ms + LORA_TX_PERIOD_MS) s
    end
  else Some s.
End Loop.

(* [src ESP_AKS/tools/e2e/aks_loop_sim.py:93-108 run_outage_simulation] *)
Definition initial : state := {|
  packets := []; buffered_outage_ts := []; buffer := OfflineBufferSim.new OB_CAPACITY; seq := 0;
  last_offline_sample_ms := 0; has_offline_sample := false |}.

(** [math.ceil] of the quotient and [int] of the product with 1.5. *)
(* [src ESP_AKS/tools/e2e/aks_loop_sim.py:88-91 run_outage_simulation] *)
Definition default_post_live (outage_ms : Z) : Z :=
  let max_buffered := outage_ms / OFFLINE_SAMPLE_PERIOD_MS in
  let ticks_needed := - (- max_buffered / Z.of_nat REPLAY_BURST_PER_TICK) in
  Z.quot (ticks_needed * LORA_TX_PERIOD_MS * 3) 2.

(* [src ESP_AKS/tools/e2e/aks_loop_sim.py:71-147 run_outage_simulation] *)
Definition run_outage_simulation (fuel : nat) (reading : Z → dict) (pre_live_ms outage_ms : Z)
    (post_live_ms : option Z) : option state :=
  let post := default (default_post_live outage_ms) post_live_ms in
  loop reading pre_live_ms (pre_live_ms + outage_ms) fuel (pre_live_ms + outage_ms + post) 0 initial.
End Sim.

(** ** The firmware under the same outage *)

(** A telemetry record under the simulator's keys. *)
Definition reading_of (d : TelemetryData) : Contract.dict := list_to_map
  [("rpm", TEL_motorRpm d); ("torque", TEL_motorVoltageDeciV d); ("motor_err", TEL_motorErrorFlags d);
   ("motor_valid", Z.b2z (TEL_motorDataValid d)); ("motor_timeout", Z.b2z (TEL_motorTimeoutActive d));
   ("cell_vmax", TEL_bmsCellVoltageMaxDeciMv d); ("cell_vmin", TEL_bmsCellVoltageMinDeciMv d);
   ("temp_h", TEL_bmsTempHighestC d); ("temp_l", TEL_bmsTempLowestC d);
   ("sys_state", TEL_bmsSystemState d); ("pack_v", TEL_bmsPackVoltageDeciV d);
   ("current", TEL_bmsCurrentCentiA d); ("soc", TEL_bmsSocHundredths d);
   ("bms_valid", Z.b2z (TEL_bmsDataValid d)); ("ts_ms", TEL_timestampMs d); ("spd_x10", TEL_speedKmhX10 d)]%string.

(** A radio that takes everything: the sequence counter and what was sent. *)
Abbreviation radio := (Telemetry * list (Sim.kind * list Z))%type.
Definition radio_send (pkt : TelemetryData) (isReplay : bool) (w : radio) : bool * radio :=
  (true, sendStatus (λ bytes sent, (Z.of_nat (length bytes),
           sent ++ [(if isReplay then Sim.Replay else Sim.Live, bytes)])) (sanitizeForUplink pkt) w.1 w.2).

(** The scheduler, the buffer, the radio, and the records that were sampled. *)
Record uplink := { sched : UplinkScheduler; buf : ob; air : radio; taken : list TelemetryData }.

(** A transmit tick of the LoRa task ([lora_tx]), the link's state given. *)
Definition fw_tick (down : bool) (now : Z) (live : TelemetryData) (x : uplink) : uplink :=
  if negb down then
    let '(_, b, w) := onTxTickLinkUp radio_send true live (sched x) (buf x) (air x) in
    {| x with buf := b; air := w |}
  else
    let '(sampled, (u, b)) := offlineSample now live (sched x, buf x) in
    {| x with sched := u; buf := b; taken := if sampled : bool then taken x ++ [live] else taken x |}.

Definition fw_run (live : Z → TelemetryData) (start stop : Z) (nows : list Z) (x : uplink) : uplink :=
  foldl (λ x now, fw_tick ((start <=? now) && (now <? stop)) now (live now) x) x nows.

(** Scheduler, buffer and sequence counter as the task starts them; the link up. *)
Definition fw_initial : uplink := {|
  sched := newUplinkScheduler LINK_TIMEOUT_MS BOOT_LINK_GRACE_MS OFFLINE_SAMPLE_PERIOD_MS
             REPLAY_BURST_PER_TICK LORA_UNKNOWN_BYTE_WARN_INTERVAL_MS;
  buf := ob_static; air := ((telemetry_begin newTelemetry).2, []); taken := [] |}.

(** The ticks of a clock that stops at [total]. *)
Definition tick_times (total : Z) : list Z :=
  map (λ k, Contract.LORA_TX_PERIOD_MS * Z.of_nat k) (seq 0 (Z.to_nat ((total + 499) / 500))).

(** ** The agreement *)

(** The constants are the firmware's. *)
Lemma contract_constants :
  Contract.E22_REGS = E22_CONTRACT_REGS ∧ Contract.E22_CRYPT = (E22_CFG_CRYPT_H, E22_CFG_CRYPT_L) ∧
  Contract.LORA_HEARTBEAT_BYTE = UKS_HEARTBEAT_BYTE ∧ Contract.BOOT_LINK_GRACE_MS = BOOT_LINK_GRACE_MS ∧
  Contract.LINK_TIMEOUT_MS = LINK_TIMEOUT_MS ∧ Contract.LORA_TX_PERIOD_MS = LORA_TX_PERIOD_MS ∧
  Contract.OFFLINE_SAMPLE_PERIOD_MS = OFFLINE_SAMPLE_PERIOD_MS ∧ Contract.OB_CAPACITY = OB_CAPACITY ∧
  Z.of_nat Contract.REPLAY_BURST_PER_TICK = REPLAY_BURST_PER_TICK ∧ VER = LORA_PROTOCOL_VERSION ∧
  ∀ spd, Contract.clamp_spd_x10 spd = if TEL_SPD_X10_MAX <=? spd then TEL_SPD_X10_MAX else spd.
Proof. by split_and!. Qed.

Lemma sanitize_reading d : Sim.sanitize (reading_of d) = Some (reading_of (sanitizeForUplink d)).
Proof. destruct d. reflexivity. Qed.

(** The packet the simulator appends is the frame the firmware prints, under its names. *)
Lemma packet_line n d :
  Contract.build_tel_line (<["seq" := n]> (<["ver" := VER]> (reading_of d)))%string = Some (frame_bytes n d).
Proof. reflexivity. Qed.
Lemma packet_fields n d :
  (<["seq" := n]> (<["ver" := VER]> (reading_of d)))%string = list_to_map (zip Contract.FIELD_ORDER (frame_fields n d)).
Proof. reflexivity. Qed.

Definition kind_of (isReplay : bool) : Sim.kind := if isReplay then Sim.Replay else Sim.Live.

Section Agreement.
Variable good : TelemetryData → Prop.        (* the live records *)
Hypothesis good_wf : ∀ d, good d → telemetry_wf d.

(** A packet of the simulator and what the radio sent, for one record. *)
Definition same_packet (p : Sim.EmittedPacket) (f : Sim.kind * list Z) : Prop :=
  ∃ n d, good d ∧ is_u32 n ∧ Sim.fields p = list_to_map (zip Contract.FIELD_ORDER (frame_fields n (sanitizeForUplink d))) ∧
    f = (Sim.packet_kind p, frame_bytes n (sanitizeForUplink d)) ∧
    Contract.build_tel_line (Sim.fields p) = Some f.2.

Record agrees (bound : Z) (s : Sim.state) (x : uplink) : Prop := {
  ag_packets : Forall2 same_packet (Sim.packets s) (air x).2;
  ag_buffer : OfflineBufferSim.items (Sim.buffer s) = map reading_of (contents (buf x));
  ag_taken : Sim.buffered_outage_ts s = map TEL_timestampMs (taken x);
  ag_capacity : OfflineBufferSim.capacity (Sim.buffer s) = OB_CAPACITY;
  ag_inv : ob_inv (buf x);
  ag_wf : Forall good (contents (buf x));
  ag_begun : TEL_isInitialized (air x).1 = true;
  ag_seq : TEL_sequenceCounter (air x).1 = Sim.seq s;
  ag_bound : 0 <= Sim.seq s <= bound;
  ag_last : m_lastOfflineSampleMs (sched x) = Sim.last_offline_sample_ms s;
  ag_has : m_offlineHasSamples (sched x) = Sim.has_offline_sample s;
  ag_period : m_offlineSamplePeriodMs (sched x) = OFFLINE_SAMPLE_PERIOD_MS;
  ag_burst : m_replayBurstPerTick (sched x) = REPLAY_BURST_PER_TICK;
}.

Lemma radio_send_frame d r (w : radio) : telemetry_wf d → is_u32 (TEL_sequenceCounter w.1) →
  TEL_isInitialized w.1 = true →
  radio_send d r w = (true, ({| (w.1) with TEL_sequenceCounter := u32 (TEL_sequenceCounter w.1 + 1) |},
    w.2 ++ [(kind_of r, frame_bytes (TEL_sequenceCounter w.1) (sanitizeForUplink d))])).
Proof.
  intros Hd Hs Hi. unfold radio_send.
  destruct (sendStatus_whole_frame (λ bytes sent, (Z.of_nat (length bytes),
    sent ++ [(if r then Sim.Replay else Sim.Live, bytes)])) (sanitizeForUplink d) w.1 w.2) as [_ ->];
    [by apply sanitize_wf|done..|].
  cbn [fst snd]. by rewrite (proj2 (Z.ltb_ge _ 0)) by lia.
Qed.

(** Sending one record. *)
Lemma agrees_emit bound now r d s x : agrees bound s x → bound < 4294967295 → good d →
  ∃ s', Sim.emit now (kind_of r) (reading_of d) s = Some s' ∧ (radio_send d r (air x)).1 = true ∧
    Sim.buffer s' = Sim.buffer s ∧ agrees (bound + 1) s' {| x with air := (radio_send d r (air x)).2 |}.
Proof.
  intros [] Hb Hd. assert (Hu : is_u32 (Sim.seq s)) by (unfold is_u32; lia).
  unfold Sim.emit. rewrite sanitize_reading. cbn [mbind option_bind].
  eexists. split; [done|]. split; [done|]. split; [done|].
  rewrite radio_send_frame by (rewrite ?ag_seq0; auto). constructor; cbn; auto; [| |lia].
  - apply Forall2_app; [done|]. constructor; [|constructor]. exists (Sim.seq s), d. rewrite ag_seq0.
    split_and!; done.
  - rewrite ag_seq0. apply u32_id. unfold is_u32. lia.
Qed.

Lemma agrees_weaken bound bound' s x : bound <= bound' → agrees bound s x → agrees bound' s x.
Proof. intros Hb []. constructor; auto. lia. Qed.

(** Replay: at most one packet. *)
Lemma agrees_replay bound now s x : agrees bound s x → bound < 4294967295 →
  let '(_, b, w) := replay radio_send (Z.to_nat REPLAY_BURST_PER_TICK) (buf x) (air x) in
  ∃ s', Sim.replay_loop Contract.REPLAY_BURST_PER_TICK now s = Some s' ∧
    agrees (bound + 1) s' {| x with buf := b; air := w |}.
Proof.
  intros Hx Hb. change (Z.to_nat REPLAY_BURST_PER_TICK) with 1%nat.
  change Contract.REPLAY_BURST_PER_TICK with 1%nat. cbn [replay Sim.replay_loop].
  unfold OfflineBufferSim.peek. rewrite (ag_buffer _ _ _ Hx), ob_peek_spec by apply Hx.
  pose proof (ag_wf _ _ _ Hx) as Hwf. destruct (contents (buf x)) as [|d l] eqn:Hc; cbn [head map].
  - exists s. split; [done|]. apply (agrees_weaken bound); [lia|]. by destruct Hx.
  - inversion Hwf as [|? ? Hd Hl]; subst.
    destruct (agrees_emit bound now true d s x Hx Hb Hd) as (s' & Es & Hr & Hbuf & Hs').
    cbn [kind_of] in Es. rewrite Es. cbn [mbind option_bind].
    destruct (radio_send d true (air x)) as [ok w] eqn:Ew. cbn [fst snd] in *. subst ok. cbn [negb].
    eexists. split; [done|]. rewrite Hbuf. unfold OfflineBufferSim.drop_front.
    rewrite (ag_buffer _ _ _ Hx), Hc. cbn [map snd].
    destruct (ob_drop_front_spec (buf x) (ag_inv _ _ _ Hx)) as (Hi & Hc' & _). rewrite Hc in Hc'. cbn in Hc'.
    destruct Hs'. constructor; cbn in *; auto; try by rewrite Hc'. by rewrite <- Hbuf.
Qed.

Lemma agrees_tick bound (live : Z → TelemetryData) start stop now s x :
  agrees bound s x → bound < 4294967294 → good (live now) →
  0 <= Sim.last_offline_sample_ms s <= now → now < 4294967296 →
  ∃ s', Sim.tick (λ t, reading_of (live t)) start stop now s = Some s' ∧
    agrees (bound + 2) s' (fw_tick ((start <=? now) && (now <? stop)) now (live now) x) ∧
    0 <= Sim.last_offline_sample_ms s' <= now.
Proof.
  intros Hx Hb Hd Hl Hn. unfold Sim.tick, fw_tick. destruct (negb _).
  - unfold onTxTickLinkUp. rewrite (ag_burst _ _ _ Hx).
    pose proof (agrees_replay bound now s x Hx ltac:(lia)) as Hr.
    destruct (replay _ _ _ _) as [[k b] w]. destruct Hr as (s1 & -> & H1). cbn [mbind option_bind].
    destruct (agrees_emit (bound + 1) now false (live now) s1 _ H1 ltac:(lia) Hd) as (s2 & E2 & _ & _ & H2).
    cbn [kind_of air] in *. exists s2. rewrite E2.
    destruct (radio_send (live now) false w) as [ok w2]. split; [done|].
    split; [replace (bound + 2) with (bound + 1 + 1) by lia; exact H2|].
    rewrite <- (ag_last _ _ _ H2). cbn [sched]. by rewrite (ag_last _ _ _ Hx).
  - unfold Sim.contract_offline_should_sample, offlineSample, offline_should_sample.
    pose proof Hx as [Hp Hbuf Ht Hcap Hi Hwf Hin Hs Hbd Hlast Hhas Hper Hburst].
    rewrite Hhas, Hlast, Hper, u64_id by (unfold is_u64; lia).
    change Contract.OFFLINE_SAMPLE_PERIOD_MS with OFFLINE_SAMPLE_PERIOD_MS.
    destruct (if negb _ then true else _); cbn [negb].
    + cbn [mbind option_bind]. change (reading_of (live now) !! "ts_ms"%string) with (Some (TEL_timestampMs (live now))).
      eexists. split; [done|]. split; [|cbn; lia].
      destruct (ob_push_spec (live now) (buf x) Hi) as (Hi' & _ & Hc).
      constructor; cbn -[ob_push]; auto.
      * unfold OfflineBufferSim.push. rewrite Hbuf, Hcap, length_map, Hc. unfold bounded_push.
        destruct (_ =? _)%nat; cbn; rewrite ?Hbuf, map_app; [|done]. by destruct (contents (buf x)).
      * by rewrite Ht, map_app.
      * unfold OfflineBufferSim.push. by destruct (_ =? _)%nat.
      * rewrite Hc. unfold bounded_push. apply Forall_app. split; [|constructor; [done|constructor]].
        destruct (_ =? _)%nat; [|done]. destruct Hwf; [constructor|done].
      * lia.
      * by destruct (Sim.has_offline_sample s).
      * by destruct (Sim.has_offline_sample s) eqn:E; cbn; rewrite ?Hhas.
      * by destruct (Sim.has_offline_sample s).
      * by destruct (Sim.has_offline_sample s).
    + exists s. split; [done|]. split; [|done]. apply (agrees_weaken bound); [lia|]. by constructor.
Qed.

Lemma agrees_loop (live : Z → TelemetryData) start stop total n :
  (∀ t, good (live t)) → total <= 4294967296 → ∀ fuel k s x,
  Z.to_nat ((total + 499) / 500) = (k + n)%nat → (n <= fuel)%nat →
  agrees (2 * Z.of_nat k) s x → 0 <= Sim.last_offline_sample_ms s <= 500 * Z.of_nat k →
  ∃ s', Sim.loop (λ t, reading_of (live t)) start stop fuel total (500 * Z.of_nat k) s = Some s' ∧
    agrees (2 * Z.of_nat (k + n)) s' (fw_run live start stop (map (λ k, 500 * Z.of_nat k) (seq k n)) x).
Proof.
  intros Hg Ht. induction n as [|n IH]; intros fuel k s x Hk Hf Hx Hl.
  { exists s. rewrite Nat.add_0_r. split; [|done]. destruct fuel; cbn [Sim.loop];
      (rewrite (proj2 (Z.ltb_ge _ _)); [done|]); pose proof (Z_div_mod_eq_full (total + 499) 500);
      pose proof (Z.mod_pos_bound (total + 499) 500 ltac:(lia)); lia. }
  destruct fuel as [|fuel]; [lia|]. cbn [Sim.loop].
  assert (Hlt : 500 * Z.of_nat k < total).
  { pose proof (Z_div_mod_eq_full (total + 499) 500). pose proof (Z.mod_pos_bound (total + 499) 500 ltac:(lia)). lia. }
  rewrite (proj2 (Z.ltb_lt _ _) Hlt).
  destruct (agrees_tick (2 * Z.of_nat k) live start stop (500 * Z.of_nat k) s x) as (s1 & -> & H1 & Hl1); auto; try lia.
  cbn [mbind option_bind]. change Contract.LORA_TX_PERIOD_MS with 500.
  replace (500 * Z.of_nat k + 500) with (500 * Z.of_nat (S k)) by lia.
  destruct (IH fuel (S k) s1 (fw_tick ((start <=? 500 * Z.of_nat k) && (500 * Z.of_nat k <? stop))
    (500 * Z.of_nat k) (live (500 * Z.of_nat k)) x)) as (s2 & -> & H2); [lia|lia| |lia|].
  - by replace (2 * Z.of_nat (S k)) with (2 * Z.of_nat k + 2) by lia.
  - exists s2. split; [done|]. by replace (k + S n)%nat with (S k + n)%nat by lia.
Qed.

Lemma initial_agrees : agrees 0 Sim.initial fw_initial.
Proof. constructor; try apply ob_static_inv; cbn; try done; try lia; constructor. Qed.
End Agreement.

(** [C22] The simulator of the end-to-end tests is the firmware: for every course of the
    live record, start, length and aftermath of an outage, with one unit of fuel per tick,
    the Python loop ends without a missing key; the lines it would print are, byte for byte,
    kind and sequence number included, what the firmware's scheduler, offline buffer,
    sanitising gate and frame printer hand to a radio that takes everything; its buffer
    holds the records of the firmware's, and its list of sampled times those of the records
    the firmware sampled.  And if every record is within the contract, the receiver accepts
    every line and reads back the packet the simulator meant. *)
Theorem simulator_agrees (live : Z → TelemetryData) fuel pre outage post :
  (∀ t, telemetry_wf (live t)) → 0 <= pre → 0 <= outage →
  let total := pre + outage + default (Sim.default_post_live outage) post in
  total <= 4294967296 → total <= 500 * Z.of_nat fuel →
  let x := fw_run live pre (pre + outage) (tick_times total) fw_initial in
  ∃ s, Sim.run_outage_simulation fuel (λ t, reading_of (live t)) pre outage post = Some s ∧
    Forall2 (λ p f, f.1 = Sim.packet_kind p ∧ Contract.build_tel_line (Sim.fields p) = Some f.2)
      (Sim.packets s) (air x).2 ∧
    OfflineBufferSim.items (Sim.buffer s) = map reading_of (contents (buf x)) ∧
    Sim.buffered_outage_ts s = map TEL_timestampMs (taken x) ∧
    ((∀ t, uplink_ok (live t)) →
     Forall2 (λ p f, Contract.parse_uks_frame f.2 = inr (Sim.fields p)) (Sim.packets s) (air x).2).
Proof.
  intros Hwf Hpre Hout total Ht Hf x. set (good := λ d, ∃ t, d = live t).
  assert (Hgood : ∀ d, good d → telemetry_wf d) by (by intros d [t ->]).
  set (n := Z.to_nat ((total + 499) / 500)).
  destruct (agrees_loop good Hgood live pre (pre + outage) total n) with (fuel := fuel) (k := 0%nat)
    (s := Sim.initial) (x := fw_initial) as (s & Es & Hs).
  - intros t. by exists t.
  - done.
  - done.
  - pose proof (Z_div_mod_eq_full (total + 499) 500). pose proof (Z.mod_pos_bound (total + 499) 500 ltac:(lia)). lia.
  - apply initial_agrees.
  - cbn. lia.
  - exists s. split; [exact Es|]. destruct Hs as [Hp Hb Htk _ _ _ _ _ _ _ _ _ _].
    split; [|split; [exact Hb|split; [exact Htk|]]].
    + eapply Forall2_impl; [exact Hp|]. intros p f (m & d & _ & _ & _ & -> & E). by split.
    + intros Hok. eapply Forall2_impl; [exact Hp|]. intros p f (m & d & [t ->] & Hm & E & -> & _).
      unfold Contract.parse_uks_frame. cbn [snd]. by rewrite uplink_frame_accepted, E by done.
Qed.

(** The simulator's own readings, and the run of the outage test: sixty records are
    buffered, every one is replayed, and the buffer ends empty. *)
Definition sensor_data (now_ms : Z) : TelemetryData :=
  {| TelemetryData_zero with
     TEL_motorRpm := 1200; TEL_motorVoltageDeciV := 100; TEL_motorDataValid := true;
     TEL_bmsCellVoltageMaxDeciMv := 37500; TEL_bmsCellVoltageMinDeciMv := 37400; TEL_bmsTempHighestC := 28;
     TEL_bmsTempLowestC := 26; TEL_bmsSystemState := 2; TEL_bmsPackVoltageDeciV := 780;
     TEL_bmsCurrentCentiA := 5000; TEL_bmsSocHundredths := 8000; TEL_bmsDataValid := true;
     TEL_timestampMs := u32 now_ms; TEL_speedKmhX10 := 250 |}.
Lemma sensor_data_reading t : is_u32 t → reading_of (sensor_data t) = Sim.sensor_reading t.
Proof. intros Ht. unfold sensor_data. rewrite u32_id by done. reflexivity. Qed.
Lemma sensor_data_ok t : uplink_ok (sensor_data t).
Proof.
  assert (Hw : telemetry_wf (sensor_data t)).
  { constructor; cbn [sensor_data TEL_timestampMs]; try apply u32_range; try (by repeat constructor).
    all: cbn; try done; widths; lia. }
  split; [exact Hw|]. by split.
Qed.

Example outage_test :
  (s ← Sim.run_outage_simulation 214 Sim.sensor_reading 1000 60000 None;
   Some (Sim.buffered_outage_ts s,
         omap (λ p, match Sim.packet_kind p with Sim.Replay => Sim.fields p !! "ts_ms"%string | Sim.Live => None end)
           (Sim.packets s), OfflineBufferSim.is_empty (Sim.buffer s)))
  = let sampled := map (λ k, 1000 + 1000 * Z.of_nat k) (seq 0 60) in Some (sampled, sampled, true).
Proof. by vm_compute. Qed.

Lemma simulator_agrees_witness : ∃ s,
  Sim.run_outage_simulation 214 (λ t, reading_of (sensor_data t)) 1000 60000 None = Some s ∧
  length (Sim.packets s) = 152%nat ∧
  Forall2 (λ p f, Contract.parse_uks_frame f.2 = inr (Sim.fields p)) (Sim.packets s)
    (air (fw_run sensor_data 1000 61000 (tick_times 106000) fw_initial)).2.
Proof.
  destruct (simulator_agrees sensor_data 214 1000 60000 None) as (s & Es & _ & _ & _ & Hok).
  - intros t. apply sensor_data_ok.
  - done.
  - done.
  - by vm_compute.
  - by vm_compute.
  - assert (Hn : (s ← Sim.run_outage_simulation 214 (λ t, reading_of (sensor_data t)) 1000 60000 None;
      Some (length (Sim.packets s))) = Some 152%nat) by (by vm_compute).
    rewrite Es in Hn. injection Hn as Hn. exists s. split; [exact Es|]. split; [exact Hn|].
    apply Hok. intros t. apply sensor_data_ok.
Defined.
