(* ===== verification/EndToEnd.v ===== *)
(** From a frame on the CAN bus to open contactors, across the CAN task and the control
    unit's task: an E000 frame with a critical pack voltage, anywhere among the frames one
    cycle of the CAN task reads, reaches the state machine through the event callback and
    the bypass flag, with no help from the telemetry mailbox. *)
From S2P Require Import RelayManager CanManager CanParse CanManagerCorrect.
From S2P Require Import Prelude SystemConfig VehicleData FreeRtos VcuSafety IRelayActuator.
From S2P Require Import VcuLogic VcuLogicCorrect AksSystem.
From stdpp Require Import relations.
Import RelayManager(relay_world, rm, dev, contactor_closed, SpiMaster, Mcp23s17Read, Mcp23s17Write).
Import CanManager(can_world, cm, drv, emitted, TwaiDriver, CAN_Event(..)).
Open Scope Z_scope.

(** ** What the receive path leaves alone *)
Section Receive.
Context {D : Type} `{TwaiDriver D}.
Implicit Types w : can_world D.

(** The set-up stays, events are only appended; with [b], the remembered kind of pack
    voltage violation stays too. *)
Record grows (b : bool) w w' : Prop := {
  gr_init : isInitialized (cm w') = isInitialized (cm w);
  gr_mutex : s_mutex (cm w') = s_mutex (cm w);
  gr_callback : CAN_eventCallback (cm w') = CAN_eventCallback (cm w);
  gr_emitted : emitted w `prefix_of` emitted w';
  gr_flags : b = true → CAN_bmsPackFaultFlags (cm w') = CAN_bmsPackFaultFlags (cm w);
}.

#[export] Instance grows_preorder b : PreOrder (grows b).
Proof.
  split; [by intros w|]. intros w1 w2 w3 [] []. constructor; try congruence; [by etrans|].
  intros Hb. by etrans; auto.
Qed.

Definition tracks {A} (b : bool) (m : CanM (D := D) A) : Prop := ∀ w, grows b w (m w).2.

Lemma tracks_ret {A} b (a : A) : tracks b (mret a).
Proof. by intros w. Qed.
Lemma tracks_bind {A B} b (m : CanM A) (f : A → CanM B) :
  tracks b m → (∀ a, tracks b (f a)) → tracks b (mbind f m).
Proof.
  intros Hm Hf w. unfold mbind, M_bind. specialize (Hm w). destruct (m w) as [a w1].
  etrans; [exact Hm|apply Hf].
Qed.
Lemma tracks_gets {A} b (g : can_world D → A) : tracks b (gets g).
Proof. by intros w. Qed.
Lemma tracks_call {A} b (f : D → A * D) : tracks b (call f).
Proof. intros w. unfold call. by destruct (f (drv w)). Qed.
Lemma tracks_call_ b (f : D → D) : tracks b (call_ f).
Proof. by intros w. Qed.

#[local] Hint Resolve tracks_ret tracks_gets tracks_call tracks_call_ : aks.

(** Steps through a program; [setc] on other fields is by computation. *)
Ltac track := repeat first
  [ solve [auto with aks] | apply tracks_bind; [|intros ?] | solve [intros ?; by constructor]
  | match goal with |- tracks _ (match ?x with _ => _ end) => destruct x end ].

Lemma tracks_notify b x y : tracks b (notifyFaultIfNeeded x y).
Proof.
  unfold notifyFaultIfNeeded. track. intros w. constructor; try done. by apply prefix_app_r.
Qed.
#[local] Hint Resolve tracks_notify : aks.

Lemma tracks_E000 msg : tracks false (handleLbBmsE000 msg).
Proof. unfold handleLbBmsE000. track. Qed.

(** Frames that are not E000 data frames. *)
Definition is_E000 (msg : twai_message_t) : bool :=
  negb (rtr msg) && extd msg && (identifier msg =? CAN_ID_LB_BMS_E000).

Lemma tracks_other msg : is_E000 msg = false → tracks true (handleFrame msg).
Proof.
  intros He. unfold handleFrame, is_E000 in *. destruct (rtr msg); [track|]. cbn [negb andb] in He.
  unfold dispatch. destruct (extd msg); cbn [andb] in He; [rewrite He|].
  all: unfold handleLbBmsStub, handleLbBmsE001, handleCharger1806E5F4, handleMotorStatus,
    handleLbBmsE015, handleLbBmsE016, handleLbBmsE017, handleLbBmsE018, handleLbBmsE019,
    handleLbBmsE020, handleCells; track.
Qed.

Lemma grows_weaken b w w' : grows b w w' → grows false w w'.
Proof. by intros []. Qed.

Lemma tracks_frame msg : tracks false (handleFrame msg).
Proof.
  destruct (is_E000 msg) eqn:He; [|intros w; by eapply grows_weaken, tracks_other].
  unfold is_E000 in He. apply andb_prop in He as [[Hr Hx]%andb_prop Hi].
  apply negb_true_iff in Hr. unfold handleFrame, dispatch. rewrite Hr, Hx, Hi. apply tracks_E000.
Qed.

Lemma tracks_drain n : tracks false (drain n).
Proof.
  induction n as [|n IH]; cbn [drain]; [track|]. apply tracks_bind; [track|].
  intros [m| |]; [|track..]. apply tracks_bind; [apply tracks_frame|done].
Qed.

#[local] Hint Resolve tracks_drain : aks.

Lemma tracks_process : tracks false processRxMessages.
Proof.
  unfold processRxMessages, handleAlerts, updateMotorStatusValidity, updateBmsValidity,
    updateCellVoltageValidity, updateChargerValidity.
  track.
Qed.

Lemma tracks_detect l : tracks false (detectBitrate l).
Proof. induction l as [|r l IH]; cbn [detectBitrate]; unfold tryBitrate; track. Qed.

Lemma tracks_torque t : tracks false (sendTorqueCommand t).
Proof. unfold sendTorqueCommand. track. Qed.

(** An initialised object has its mutex, and the callback stays bound. *)
Definition can_running w : Prop :=
  CAN_eventCallback (cm w) = true ∧ (isInitialized (cm w) = true → s_mutex (cm w) = true).

Lemma grows_running b w w' : grows b w w' → can_running w → can_running w'.
Proof. unfold can_running. by intros [-> -> -> _ _]. Qed.

(** [begin], when it did not return at once. *)
Lemma begin_running w :
  CAN_eventCallback (cm w) = true → (isInitialized (cm w) = true → s_mutex (cm w) = true) →
  can_running (CanManager.begin w).2.
Proof.
  intros Hc Hi. unfold CanManager.begin, gets, mbind, M_bind, call at 1, setc at 1 2, modify.
  cbn zeta beta iota. destruct (isInitialized (cm w)) eqn:Ei; [by split; auto|].
  destruct (xSemaphoreCreateMutex (drv w)) as [[] d]; cbn [negb]; [|split; cbn; congruence].
  match goal with |- context [detectBitrate ?l ?w1] => pose proof (tracks_detect l w1) as Hg;
    destruct (detectBitrate l w1) as [found w2] end.
  destruct Hg as [Gi Gm Gc _ _]. cbn in Gi, Gm, Gc. rewrite Hc in Gc. rewrite Ei in Gi.
  destruct found; [by split|]. unfold setc, modify, call, call_, can_running. cbn.
  repeat (case_match; simplify_eq; cbn); split; cbn; congruence.
Qed.

(** ** The report of a pack voltage violation *)
Context `{!TwaiLaws D}.

Definition reports w w' : Prop :=
  ∃ l, emitted w' = emitted w ++ l ∧ CAN_FAULT_DETECTED ∈ l.

Lemma reports_after b w w1 w2 : reports w w1 → grows b w1 w2 → reports w w2.
Proof.
  intros (l & E & Hl) [_ _ _ [l' E'] _]. exists (l ++ l'). rewrite E', E, app_assoc.
  split; [done|]. apply elem_of_app. by left.
Qed.
Lemma reports_before b w w1 w2 : grows b w w1 → reports w1 w2 → reports w w2.
Proof.
  intros [_ _ _ [l' E'] _] (l & E & Hl). exists (l' ++ l). rewrite E, E', app_assoc.
  split; [done|]. apply elem_of_app. by right.
Qed.

Lemma E000_reports msg p w : is_E000 msg = true → s_mutex (cm w) = true →
  CAN_eventCallback (cm w) = true → parseLbBmsE000 msg TelemetryData_zero = Some p →
  pack_flag (TEL_bmsPackVoltageDeciV p) ≠ 0 →
  pack_flag (TEL_bmsPackVoltageDeciV p) ≠ CAN_bmsPackFaultFlags (cm w) →
  reports w (handleFrame msg w).2.
Proof.
  unfold is_E000. intros [[Hr%negb_true_iff Hx]%andb_prop Hi]%andb_prop Hm Hc Hp Hf Hn.
  unfold handleFrame, dispatch. rewrite Hr, Hx, Hi.
  destruct (handleLbBmsE000_effect msg p w Hm Hc Hp) as (_ & _ & _ & _ & E). eexists.
  split; [exact E|]. rewrite (proj2 (Z.eqb_neq _ _) Hf), (proj2 (Z.eqb_neq _ _) Hn).
  by apply list_elem_of_singleton.
Qed.

(** The first E000 frame of the queue is reached, whatever comes before and after. *)
Lemma drain_reports n pre msg post p w :
  rx_pending (drv w) = pre ++ msg :: post → (length pre < n)%nat →
  Forall (λ m, is_E000 m = false) pre → is_E000 msg = true →
  s_mutex (cm w) = true → CAN_eventCallback (cm w) = true →
  parseLbBmsE000 msg TelemetryData_zero = Some p →
  pack_flag (TEL_bmsPackVoltageDeciV p) ≠ 0 →
  pack_flag (TEL_bmsPackVoltageDeciV p) ≠ CAN_bmsPackFaultFlags (cm w) →
  reports w (drain n w).2.
Proof.
  revert pre w. induction n as [|n IH]; intros pre w Hq Hn Hpre He Hm Hc Hp Hf Hne; [lia|].
  cbn [drain]. unfold mbind, M_bind, call.
  destruct pre as [|m pre]; cbn [app] in Hq; destruct (rx_cons _ _ _ Hq) as (d' & -> & Hl).
  - pose proof (E000_reports msg p {| w with drv := d' |} He Hm Hc Hp Hf Hne) as Hrep.
    destruct (handleFrame msg _) as [[] w1]. eapply reports_after; [exact Hrep|apply tracks_drain].
  - apply Forall_cons in Hpre as [Hm0 Hpre].
    pose proof (tracks_other m Hm0 {| w with drv := d' |}) as Hg.
    pose proof (same_queue_frame m {| w with drv := d' |}) as Hs.
    destruct (handleFrame m _) as [[] w1]. cbn in Hs. pose proof Hg as [_ Gm Gc _ Gf].
    change (reports {| w with drv := d' |} (drain n w1).2).
    eapply (reports_before true); [exact Hg|].
    apply (IH pre); cbn in *; try congruence; try lia.
Qed.

Lemma tracks_updates : tracks false
  (updateMotorStatusValidity;; updateBmsValidity;; updateCellVoltageValidity;; updateChargerValidity).
Proof.
  unfold updateMotorStatusValidity, updateBmsValidity, updateCellVoltageValidity,
    updateChargerValidity. track.
Qed.

Lemma process_reports pre msg post p d w :
  isInitialized (cm w) = true → can_running w → twai_read_alerts (drv w) = (None, d) →
  rx_pending d = pre ++ msg :: post → (length pre < Z.to_nat CAN_RX_DRAIN_MAX)%nat →
  Forall (λ m, is_E000 m = false) pre → is_E000 msg = true →
  parseLbBmsE000 msg TelemetryData_zero = Some p →
  pack_flag (TEL_bmsPackVoltageDeciV p) ≠ 0 →
  pack_flag (TEL_bmsPackVoltageDeciV p) ≠ CAN_bmsPackFaultFlags (cm w) →
  reports w (processRxMessages w).2.
Proof.
  intros Hi [Hc Hm] Ha Hq Hn Hpre He Hp Hf Hne. specialize (Hm Hi).
  pose proof (drain_reports (Z.to_nat CAN_RX_DRAIN_MAX) pre msg post p {| w with drv := d |}
    Hq Hn Hpre He Hm Hc Hp Hf Hne) as Hrep.
  cbv [processRxMessages handleAlerts mbind M_bind gets call mret M_ret].
  rewrite Hi. cbn [negb]. rewrite Ha.
  change (reports w (drain (Z.to_nat CAN_RX_DRAIN_MAX) {| w with drv := d |}).2) in Hrep.
  cbn zeta beta iota.
  destruct (drain (Z.to_nat CAN_RX_DRAIN_MAX) {| w with drv := d |}) as [[] w2].
  eapply (reports_after false); [exact Hrep|]. exact (tracks_updates w2).
Qed.
End Receive.

(** ** The state machine's effect on the rest of its world *)
Section World.
Context {Q W : Type} `{FreeRtosQueueLaws Q VcuEvent.t} `{RelayActuatorContract W}.
Implicit Types (v : vcu Q W) (w : W).
Variable P : W → Prop.

(** A predicate that no actuator operation and no torque request falsifies. *)
Record untouched v : Prop := {
  un_allOn w : P w → P (allOn w);
  un_allOff s w : P w → P (allOff s w);
  un_verify t w : P w → P (verifyIfDue t w);
  un_clear w : P w → P (clearActuatorFault w);
  un_torque k t w : s_torqueSink v = Some k → P w → P (k t w);
}.

Lemma untouched_sink v v' : s_torqueSink v' = s_torqueSink v → untouched v → untouched v'.
Proof. intros E [? ? ? ? Hk]. constructor; auto. intros k t w. rewrite E. apply Hk. Qed.

Lemma periodic_untouched v w : untouched v → P w → P (periodic v w).2.
Proof.
  intros Hu Hw.
  assert (P (requestZeroTorque v w)).
  { unfold requestZeroTorque. case_match; [|done]. by eapply un_torque. }
  destruct Hu. unfold periodic, handleIdle, handleReady, handleDrive, handleEmergencyStop, handleFault.
  repeat (case_match; simplify_eq; cbn [snd]); auto.
Qed.

Lemma run_untouched v w : untouched v → P w → P (run v w).2.
Proof.
  intros Hu Hw. rewrite run_cases. repeat case_match; [done..|]. rewrite run_checks_cases. cbn zeta.
  set (w1 := verifyIfDue _ w). assert (Hw1 : P w1) by (by apply (un_verify _ Hu)).
  case_match; [done|]. destruct (noteWarning_eq (ticked false v)) as [b ->].
  set (v0 := {| _ with s_VCU_warningLogged := b |}).
  assert (Hu0 : untouched v0) by (by apply (untouched_sink v)).
  pose proof (pollEvent_spec v0) as Hp.
  destruct (queued v0) as [|e l]; [rewrite Hp; by apply periodic_untouched|].
  destruct Hp as (q & q' & _ & _ & _ & ->).
  destruct (handleEvent e _ w1) as [[ret v2] w2] eqn:E.
  assert (Hw2 : P w2).
  { unfold handleEvent in E. repeat (case_match; simplify_eq); auto. by apply (un_clear _ Hu). }
  destruct ret; [done|]. apply periodic_untouched; [|done].
  apply handleEvent_spec in E as ([_ Hk _ _] & _). by eapply untouched_sink; [|exact Hu0].
Qed.
End World.

(** ** The composed system *)
Section System.
Context {Q TQ S D : Type} `{FreeRtosQueueLaws Q VcuEvent.t} `{FreeRtosQueueLaws TQ TelemetryData}
  `{Mcp23s17Read S} `{TwaiLaws D}.
Abbreviation system := (aks Q TQ S D).
Implicit Types x y : system.

(** Start-up's wiring, which the tasks keep. *)
Record wired x : Prop := {
  wi_sink : s_torqueSink (the_vcu x) = Some CAN_torqueSink;
  wi_mailbox : ∃ q, TEL_sensorDataQueue x = Some q ∧ q_capacity q = 1%nat;
  wi_can : isInitialized (cm (can (the_board x))) = true → can_running (can (the_board x));
}.

Lemma handleEvents_frame (l : list CAN_Event) (v : vcu Q (board S D)) :
  let v' := foldl (flip CAN_handleEvent) v l in
  s_torqueSink v' = s_torqueSink v ∧ s_state v' = s_state v ∧
  s_eventQueue v' = s_eventQueue v ∧ s_eStopPending v' = s_eStopPending v ∧
  (s_eventQueue v ≠ None → CAN_FAULT_DETECTED ∈ l → s_faultPending v' = true) ∧
  (s_faultPending v = true → s_faultPending v' = true).
Proof.
  revert v. induction l as [|e l IH]; intros v; cbn [foldl].
  { split_and!; try done. by intros _ ?%not_elem_of_nil. }
  destruct (IH (flip CAN_handleEvent v e)) as (E1 & E2 & E3 & E4 & E5 & E6).
  rewrite E1, E2, E3, E4. destruct e; cbn [flip CAN_handleEvent] in *.
  { split_and!; auto. intros Hq [?|Hin]%elem_of_cons; [done|auto]. }
  unfold postEvent in *. destruct (s_eventQueue v) as [q|] eqn:Eq; cbn in *; rewrite ?Eq in *;
    split_and!; auto; done.
Qed.

Lemma wired_boot c d x : app_main true (sys_initial c d) = (true, x) →
  xQueueCreate (Q:=Q) 8 ≠ None → wired x.
Proof.
  unfold app_main, sys_initial. cbn [the_board relays].
  destruct (RelayManager.begin _) as [[] r]; [|done]. cbn [negb].
  destruct (init true _ _) as [v b] eqn:Ei. intros [= Hq <-] _.
  assert (Hb : can b = CanManager.Build_can_world CanManager.CanMgr_static d []).
  { unfold init in Ei. repeat (case_match; simplify_eq/=); done. }
  constructor; cbn [the_vcu the_board TEL_sensorDataQueue]; [done| |by rewrite Hb].
  destruct (xQueueCreate 1) as [q|] eqn:Eq; [|done]. exists q. split; [done|]. by destruct (q_create _ _ Eq).
Qed.

Lemma running_torque (c c' : can_world D) b : grows b c c' →
  (isInitialized (cm c) = true → can_running c) → isInitialized (cm c') = true → can_running c'.
Proof. intros Hg Hc Hi. eapply grows_running; [exact Hg|]. apply Hc. by rewrite <- (gr_init _ _ _ Hg). Qed.

Lemma wired_step x y : sys_reachable x → wired x → sys_step x y → wired y.
Proof.
  intros Hr Hw Hst. destruct Hst as [x0|t x0|x0|k x0|d x0|c x0];
    destruct Hw as [Hs (q & Hq & Hcap) Hc]; try (by constructor; eauto).
  - unfold can_setup. set (w := {| (can (the_board x0)) with cm := _ |}).
    pose proof (begin_running w eq_refl) as Hb.
    destruct (CanManager.begin w) as [ok w']. constructor; cbn; [done|by exists q|].
    intros _. apply Hb. intros Hi. by apply Hc.
  - pose proof (tracks_process (can (the_board x0))) as Hg.
    constructor; cbn [the_vcu the_board TEL_sensorDataQueue can_cycle].
    + by rewrite (proj1 (handleEvents_frame _ _)).
    + rewrite Hq. eexists. split; [done|]. by apply q_overwrite.
    + cbn. by eapply running_torque.
  - pose proof (inv_reachable _ (sys_vcu_reachable _ Hr)) as Hi. cbn [fst snd] in Hi.
    unfold vcu_cycle. set (v := match TEL_sensorDataQueue x0 with Some _ => _ | None => _ end).
    assert (Hv : vcu_inv v (the_board x0) ∧ s_torqueSink v = Some CAN_torqueSink).
    { unfold v. repeat case_match; try done. split; [by apply inv_telemetry|].
      unfold setTelemetryData. by case_match. }
    destruct Hv as [Hv Hsink]. destruct (run v (the_board x0)) as [v' b'] eqn:Er.
    destruct (run_frame _ _ _ _ (vi_sink _ _ Hv) (vi_ok _ _ Hv) Er) as ([_ Hk _ _] & _).
    constructor; cbn; [congruence|by eauto|].
    set (P := λ b : board S D, isInitialized (cm (can b)) = true → can_running (can b)).
    change (P (v', b').2). rewrite <- Er. apply run_untouched; [|exact Hc].
    constructor; try done.
    rewrite Hsink. intros k t b [= <-] Hb. unfold CAN_torqueSink. destruct (canForTorque b); [|done].
    unfold P. cbn. eapply running_torque; [apply tracks_torque|exact Hb].
  - constructor; cbn; eauto. unfold hmi_dispatch.
    destruct (postEvent_frame VcuEvent.START_REQUEST (the_vcu x0)) as (_ & _ & E1 & _).
    destruct (postEvent_frame VcuEvent.RESET (the_vcu x0)) as (_ & _ & E2 & _).
    destruct (postEvent_frame VcuEvent.EMERGENCY_STOP (the_vcu x0)) as (_ & _ & E3 & _).
    destruct (postEvent_frame VcuEvent.DRIVE_ENABLE (the_vcu x0)) as (_ & _ & E4 & _).
    repeat case_match; congruence.
Qed.

Lemma wired_reachable x : sys_reachable x → wired x.
Proof.
  intros (c & d & x0 & E & Hq & Hr).
  assert (sys_reachable x ∧ wired x) as [_ ?]; [|done]. revert x Hr.
  apply rtc_ind_r.
  - split; [by exists c, d, x0|by eapply wired_boot].
  - intros y z _ Hs [Hy Hw]. split; [by eapply sys_reachable_step|by eapply wired_step].
Qed.

(** One cycle of the CAN task that reports a fault, then one of the control unit. *)
Lemma fault_cycle t x :
  sys_reachable x → reports (can (the_board x)) (CanManager.processRxMessages (can (the_board x))).2 →
  s_state (the_vcu x) ≠ VcuState.FAULT → s_eStopPending (the_vcu x) = false →
  ∃ q d v b, let xc := can_cycle t x in
    TEL_sensorDataQueue xc = Some q ∧ xQueuePeek q = Some d ∧ d = can_snapshot t (the_board xc) ∧
    vcu_cycle xc = with_vcu xc (v, b) ∧ vcu_inv v b ∧ s_TEL_latestData v = d ∧
    s_state v = VcuState.FAULT ∧ s_stateTimer v = 0 ∧ opened v = false ∧
    s_eStopPending v = false ∧ s_faultPending v = false ∧ queued v = queued (the_vcu x).
Proof.
  intros Hr (l & El & Hl) Hst He. destruct (wired_reachable x Hr) as [_ (q & Hq & Hcap) _].
  pose proof (inv_reachable _ (sys_vcu_reachable _ Hr)) as Hx. cbn [fst snd] in Hx.
  assert (Hrc : sys_reachable (can_cycle t x)) by (by eapply sys_reachable_step; [|constructor]).
  pose proof (inv_reachable _ (sys_vcu_reachable _ Hrc)) as Hxc. cbn [fst snd] in Hxc.
  set (xc := can_cycle t x) in *.
  destruct (handleEvents_frame l (the_vcu x)) as (_ & Es & Eq & Ee & Ef & _).
  destruct (vi_queue _ _ Hx) as (q0 & Hq0 & _).
  assert (Ev : the_vcu xc = foldl (flip CAN_handleEvent) (the_vcu x) l).
  { cbn. by rewrite El, drop_app_length. }
  rewrite <- Ev in Es, Eq, Ee, Ef. specialize (Ef ltac:(congruence) Hl).
  set (d := can_snapshot t (the_board xc)).
  destruct (q_overwrite d q Hcap) as [Hitems _].
  exists (xQueueOverwrite d q), d.
  set (v0 := {| (the_vcu xc) with s_TEL_latestData := d |}).
  assert (Hset : setTelemetryData d (the_vcu xc) = v0).
  { unfold setTelemetryData. by rewrite (vi_mutex _ _ Hxc) at 1. }
  exists (transitionTo VcuState.FAULT (ticked false v0)), (the_board xc).
  assert (Hqc : TEL_sensorDataQueue xc = Some (xQueueOverwrite d q)) by (cbn; by rewrite Hq).
  assert (Hpk : xQueuePeek (xQueueOverwrite d q) = Some d) by (by rewrite q_peek, Hitems).
  assert (Hrun : run v0 (the_board xc) = (transitionTo VcuState.FAULT (ticked false v0), the_board xc)).
  { rewrite run_cases. unfold v0. cbn [s_eStopPending s_faultPending s_state].
    rewrite Ee, He, Ef, Es. cbn [andb]. by rewrite bool_decide_eq_false_2. }
  assert (Hinv : vcu_inv v0 (the_board xc)) by (rewrite <- Hset; by apply inv_telemetry).
  split_and!; try done.
  - unfold vcu_cycle. rewrite Hqc, Hpk, Hset, Hrun. unfold with_vcu. by rewrite <- Hqc.
  - pose proof (inv_run _ _ Hinv) as Hi. by rewrite Hrun in Hi.
  - change (queued (the_vcu xc) = queued (the_vcu x)). unfold queued. by rewrite Eq.
Qed.

(** [C1] From the bus to the contactors: in any reachable state of the firmware in which the
    CAN task runs, when an E000 frame with a pack voltage in the critical range is among
    the first 32 received frames (the first E000 frame of them, of another kind than the
    last violation) and the driver raises no alert, then one cycle of the CAN task and one
    of the control unit lead to FAULT from every other state, and at most 9 more cycles
    open all ten contactors, unless a RESET is queued while the published record is not
    critical.  Neither the frames before and after it nor the freshness of the rest of the
    battery data can delay this: the report takes the callback, not the mailbox. *)
Theorem pack_voltage_frame_opens_contactors t x d pre msg post p :
  sys_reachable x → isInitialized (cm (can (the_board x))) = true →
  twai_read_alerts (drv (can (the_board x))) = (None, d) →
  rx_pending d = pre ++ msg :: post → (length pre < Z.to_nat CAN_RX_DRAIN_MAX)%nat →
  Forall (λ m, is_E000 m = false) pre → is_E000 msg = true →
  parseLbBmsE000 msg TelemetryData_zero = Some p →
  TEL_bmsPackVoltageDeciV p <= BMS_CRITICAL_MIN_PACK_VOLTAGE_DECI_V ∨
    BMS_CRITICAL_MAX_PACK_VOLTAGE_DECI_V <= TEL_bmsPackVoltageDeciV p →
  pack_flag (TEL_bmsPackVoltageDeciV p) ≠ CAN_bmsPackFaultFlags (cm (can (the_board x))) →
  s_state (the_vcu x) ≠ VcuState.FAULT → s_eStopPending (the_vcu x) = false →
  let xc := can_cycle t x in
  hasCriticalCondition (can_snapshot t (the_board xc)) VcuState.FAULT = true ∨
    VcuEvent.RESET ∉ queued (the_vcu x) →
  s_state (the_vcu (vcu_cycle xc)) = VcuState.FAULT ∧
  ∃ n, (n <= 9)%nat ∧ let y := Nat.iter n vcu_cycle (vcu_cycle xc) in
    s_state (the_vcu y) = VcuState.FAULT ∧
    RelayManager.s_relayState (rm (relays (the_board y))) = 0 ∧
    (RelayManager.s_actuatorFault (rm (relays (the_board y))) = false →
     ∀ ch, 0 <= ch < RELAY_TOTAL_CHANNELS → contactor_closed (dev (relays (the_board y))) ch = false).
Proof.
  intros Hr Hi Ha Hq Hn Hpre He Hp Hv Hne Hst Hes xc Hreset.
  assert (Hf : pack_flag (TEL_bmsPackVoltageDeciV p) ≠ 0).
  { unfold pack_flag, BMS_CRITICAL_MIN_PACK_VOLTAGE_DECI_V, BMS_CRITICAL_MAX_PACK_VOLTAGE_DECI_V in *.
    destruct (Z.leb_spec (TEL_bmsPackVoltageDeciV p) 600); [done|].
    destruct (Z.leb_spec 876 (TEL_bmsPackVoltageDeciV p)); [done|lia]. }
  pose proof (wi_can _ (wired_reachable x Hr) Hi) as Hrun.
  pose proof (process_reports pre msg post p d _ Hi Hrun Ha Hq Hn Hpre He Hp Hf Hne) as Hrep.
  destruct (fault_cycle t x Hr Hrep Hst Hes)
    as (q & r & v & b & Hqc & Hpk & Hsnap & Hcyc & Hinv & Hd & Hs & Ht & Ho & He1 & Hf1 & Hqu).
  fold xc in Hqc, Hsnap, Hcyc. rewrite Hcyc. split; [exact Hs|].
  destruct (opening_cycles xc q r v b) as (n & Hn9 & Hst' & Hm & Hopen); try done; [by right| |].
  { rewrite Hs, Hsnap, Hqu. exact Hreset. }
  exists n. split; [exact Hn9|]. rewrite <- Hs. split_and!; [exact Hst'|exact Hm|exact Hopen].
Qed.
End System.

(** ** On the bench

    The vehicle of [AksSystem] is in READY; between a temperature frame and a healthy E000
    frame comes one with 59.0 V. *)
Import (hints) RelayManager.FakeChip CanManagerCorrect.FakeTwai.
Module Sagging.
Definition sagging : twai_message_t := encodeE000 0 590 5000 5000.
Definition frames : list twai_message_t := [Vehicle.e001 26; sagging; Vehicle.e000].
Definition x := Vehicle.with_bus frames Vehicle.ready.
Definition opened_after (n : nat) : Prop :=
  RelayManager.s_relayState (rm (relays (the_board
    (Nat.iter n vcu_cycle (vcu_cycle (can_cycle 1100000 x)))))) = 0.
Lemma reachable_x : sys_reachable x.
Proof. apply Vehicle.with_bus_reachable, Vehicle.vehicle_ready_reachable. Qed.
End Sagging.

Lemma pack_voltage_frame_opens_contactors_witness :
  HMI_areAllContactorsClosed (the_board Sagging.x) = true ∧
  ∃ n, (n <= 9)%nat ∧ Sagging.opened_after n.
Proof.
  split; [by vm_compute|].
  destruct (pack_voltage_frame_opens_contactors 1100000 Sagging.x (Vehicle.bus Sagging.frames)
    [CanManagerCorrect.FakeTwai.wire (Vehicle.e001 26)]
    (CanManagerCorrect.FakeTwai.wire Sagging.sagging)
    [CanManagerCorrect.FakeTwai.wire Vehicle.e000]
    {| TelemetryData_zero with TEL_bmsCurrentCentiA := 0; TEL_bmsPackVoltageDeciV := 590;
         TEL_bmsSocHundredths := 5000; TEL_bmsSoc2Hundredths := 5000; TEL_bmsDataValid := true |})
    as (_ & n & Hn & _ & Hm & _).
  - exact Sagging.reachable_x.
  - by vm_compute.
  - by vm_compute.
  - by vm_compute.
  - by vm_compute; lia.
  - constructor; [by vm_compute|constructor].
  - by vm_compute.
  - by vm_compute.
  - left. by vm_compute.
  - intros E. by vm_compute in E.
  - intros E. by vm_compute in E.
  - by vm_compute.
  - right. intros Hin. vm_compute in Hin. by apply not_elem_of_nil in Hin.
  - exists n. split; [exact Hn|exact Hm].
Defined.
