(* ===== verification/Firmware.v ===== *)
(** The four tasks of [src/main.cpp] on one machine, preempting each other.

    A step of a task ends after at most one access to something another task uses: the
    telemetry mailbox, the event interface of the control unit, its state, the relay
    driver's mask.  The CAN task handles the received frames in one step and then reports
    each event and publishes in further steps; the control unit's task takes the steps of
    [VcuTick]; the HMI task reads the mailbox, the state and the mask of the contactors
    channel by channel, reads the mailbox again and works the panel, and posts the command
    it read; the LoRa task's iteration touches the mailbox once.  The bus, the
    relay expander and the panel may change at any moment.  A schedule is a list of steps.

    [project] is the schedule as the control unit sees it, for the theorems of
    [VcuTickCorrect]. *)
From S2P Require Import RelayManager CanManager CanParse CanManagerCorrect.
From S2P Require Import Prelude SystemConfig VehicleData FreeRtos VcuSafety IRelayActuator.
From S2P Require Import VcuLogic VcuLogicCorrect VcuTick VcuTickCorrect.
From S2P Require Import Telemetry HMIHelpers DisplayHMI UplinkScheduler EspLoraHal AksSystem HmiTask LoraTask.
From stdpp Require Import relations.
Import RelayManager(relay_world, rm, dev, contactor_closed, SpiMaster, Mcp23s17Read, Mcp23s17Write).
Import CanManager(can_world, cm, drv, emitted, TwaiDriver, CAN_Event(..)).
Open Scope Z_scope.

(** Where the tasks are. *)
(* [src ESP_AKS/src/main.cpp:171-211 vTask_CAN_Comm] *)
Inductive can_point :=
  | CanStart
  | CanWaiting
  | CanReporting (events : list CAN_Event)     (* the callbacks still to be made *)
  | CanDeleted.

(* [src ESP_AKS/src/main.cpp:242-431 vTask_HMI_Display] *)
Inductive hmi_point :=
  | HmiStart
  | HmiDegraded
  | HmiWaiting
  | HmiState (mail : option TelemetryData)
  | HmiContactors (mail : option TelemetryData) (state : VcuState.t) (channel : nat)
  | HmiScreen (mail : option TelemetryData) (state : VcuState.t) (closed : bool)
  | HmiCommand (command : option Z).

Section Firmware.
Context {Q TQ S D P H : Type} `{FreeRtosQueue Q VcuEvent.t} `{FreeRtosQueue TQ TelemetryData}
  `{SpiMaster S} `{TwaiDriver D} `{HmiUart P} `{EspLora H}.

Record firmware := {
  sys : aks Q TQ S D;
  at_vcu : point;
  vcu_ticks : nat;                      (* iterations the control unit has finished *)
  at_can : can_point;
  at_hmi : hmi_point;
  hmi : hmi_task;
  panel : P;
  lora : H + lora_state H;              (* before and after its start-up *)
}.

(** What [app_main] leaves when it has created the tasks. *)
(* [src ESP_AKS/src/main.cpp:745-765 app_main] *)
Definition tasks_created (x : aks Q TQ S D) (p : P) (h : H) : firmware := {|
  sys := x; at_vcu := Done; vcu_ticks := 0; at_can := CanStart; at_hmi := HmiStart;
  hmi := hmi_task_initial; panel := p; lora := inl h |}.

Inductive step :=
  | CanStep (timer_us : Z)
  | VcuStep
  | HmiStep (fuel : nat) (timer_us : Z)
  | LoraStep
  | BusChange (d : D)                   (* traffic on the bus *)
  | ChipChange (c : S)                  (* upsets of the expander's registers *)
  | PanelChange (p : P).                (* touches *)

(** What a peek at [TEL_sensorDataQueue] finds. *)
Definition mailbox (x : aks Q TQ S D) : option TelemetryData :=
  match TEL_sensorDataQueue x with Some q => xQueuePeek q | None => None end.

Definition with_can_world (w : can_world D) (x : aks Q TQ S D) : aks Q TQ S D :=
  {| x with the_board := {| (the_board x) with can := w |} |}.

(* [src ESP_AKS/src/main.cpp:171-211 vTask_CAN_Comm] *)
Definition can_step (timer_us : Z) (x : firmware) : firmware :=
  match at_can x with
  | CanStart =>
      let '(ok, s) := can_setup (sys x) in
      {| x with sys := s; at_can := if ok : bool then CanWaiting else CanDeleted |}
  | CanWaiting =>
      let b := the_board (sys x) in
      let w := (CanManager.processRxMessages (can b)).2 in
      {| x with sys := with_can_world w (sys x);
                at_can := CanReporting (drop (length (emitted (can b))) (emitted w)) |}
  | CanReporting (e :: events) =>
      {| x with sys := {| (sys x) with the_vcu := CAN_handleEvent e (the_vcu (sys x)) |};
                at_can := CanReporting events |}
  | CanReporting [] =>
      {| x with sys := {| (sys x) with TEL_sensorDataQueue :=
                   match TEL_sensorDataQueue (sys x) with
                   | Some q => Some (xQueueOverwrite (can_snapshot timer_us (the_board (sys x))) q)
                   | None => None
                   end |};
                at_can := CanWaiting |}
  | CanDeleted => x
  end.

(* [src ESP_AKS/src/main.cpp:217-237 vTask_VCU_Logic] *)
Definition vcu_step_of (x : firmware) : action (board S D) :=
  if decide (at_vcu x = Done) then Begin (mailbox (sys x)) else Own.

(** The firmware as the control unit's task sees it, and back. *)
Definition view (x : firmware) : config Q (board S D) :=
  {| here := at_vcu x; unit_ := the_vcu (sys x); world := the_board (sys x); ticks := vcu_ticks x |}.
Definition put (c : config Q (board S D)) (x : firmware) : firmware :=
  {| x with sys := {| (sys x) with the_vcu := unit_ c; the_board := world c |};
            at_vcu := here c; vcu_ticks := ticks c |}.

(* [src ESP_AKS/src/main.cpp:242-431 vTask_HMI_Display] *)
Definition hmi_step (fuel : nat) (timer_us : Z) (x : firmware) : firmware :=
  match at_hmi x with
  | HmiStart =>
      match hmi_setup 5 fuel newDisplayHMI (panel x) with
      | Some ((ok, d), p) =>
          {| x with at_hmi := if ok : bool then HmiWaiting else HmiDegraded; panel := p;
                    hmi := {| (hmi x) with HMI_display := d |} |}
      | None => x
      end
  | HmiDegraded => {| x with panel := (hmi_wdt_reset (hmi_delay 1000 (panel x)).2).2 |}
  | HmiWaiting => {| x with at_hmi := HmiState (mailbox (sys x)); panel := (hmi_wdt_reset (panel x)).2 |}
  | HmiState mail => {| x with at_hmi := HmiContactors mail (getState (the_vcu (sys x))) 0 |}
  | HmiContactors mail state ch =>
      {| x with at_hmi :=
           if negb (RelayManager.getRelayState (Z.of_nat ch) (rm (relays (the_board (sys x)))))
           then HmiScreen mail state false
           else if Z.of_nat ch + 1 <? RELAY_TOTAL_CHANNELS then HmiContactors mail state (ch + 1)
           else HmiScreen mail state true |}
  | HmiScreen mail state closed =>
      match hmi_cycle fuel mail (mailbox (sys x)) state closed timer_us (hmi x) (panel x) with
      | Some ((command, s), p) => {| x with at_hmi := HmiCommand command; hmi := s; panel := p |}
      | None => x
      end
  | HmiCommand command =>
      {| x with sys := {| (sys x) with the_vcu :=
                   match command with Some c => hmi_dispatch c (the_vcu (sys x)) | None => the_vcu (sys x) end |};
                at_hmi := HmiWaiting; panel := (hmi_delay 100 (panel x)).2 |}
  end.

(** Enough for the start-up of the LoRa task: [lora_start_ends] asks for one unit per 10 ms
    of the 2 s the radio is waited for, and four more. *)
Definition LORA_START_FUEL : nat := 204.

(* [src ESP_AKS/src/main.cpp:600-694 vTask_LoRa_UKS] *)
Definition lora_step (x : firmware) : firmware :=
  match lora x with
  | inl h => match lora_start LORA_START_FUEL h with Some s => {| x with lora := inr s |} | None => x end
  | inr s =>
      {| x with lora := inr (lora_iteration
           (match TEL_sensorDataQueue (sys x) with Some q => Some (xQueuePeek q) | None => None end) s) |}
  end.

Definition fw_step (x : firmware) (l : step) : firmware :=
  match l with
  | CanStep t => can_step t x
  | VcuStep => put (act (view x) (vcu_step_of x)) x
  | HmiStep fuel t => hmi_step fuel t x
  | LoraStep => lora_step x
  | BusChange d => {| x with sys := with_can_world {| (can (the_board (sys x))) with drv := d |} (sys x) |}
  | ChipChange c =>
      {| x with sys := {| (sys x) with the_board := {| (the_board (sys x)) with
           relays := {| (relays (the_board (sys x))) with dev := c |} |} |} |}
  | PanelChange p => {| x with panel := p |}
  end.
Definition fw_exec (sched : list step) (x : firmware) : firmware := foldl fw_step x sched.

(** Power-on with a successful start-up, then any schedule. *)
Definition fw_reachable (x : firmware) : Prop :=
  ∃ c d s p h sched, app_main true (sys_initial c d) = (true, s) ∧ xQueueCreate (Q:=Q) 8 ≠ None ∧
    x = fw_exec sched (tasks_created s p h).
End Firmware.
Arguments firmware Q TQ S D P H : clear implicits.
Arguments step S D P : clear implicits.

(** ** The control unit's view of a schedule *)
Section Projection.
Context {Q TQ S D P H : Type} `{FreeRtosQueueLaws Q VcuEvent.t} `{FreeRtosQueueLaws TQ TelemetryData}
  `{Mcp23s17Read S} `{TwaiDriver D} `{HmiUart P} `{EspLora H}.
Abbreviation fw := (firmware Q TQ S D P H).
Implicit Types (x : fw) (l : step S D P) (sched : list (step S D P)).

(** The event a touch command posts. *)
Definition dispatched (c : Z) : option VcuEvent.t :=
  if c =? HMI_CMD_START then Some VcuEvent.START_REQUEST
  else if c =? HMI_CMD_RESET then Some VcuEvent.RESET
  else if c =? HMI_CMD_EMERGENCY_STOP then Some VcuEvent.EMERGENCY_STOP
  else if c =? HMI_CMD_DRIVE_ENABLE then Some VcuEvent.DRIVE_ENABLE
  else None.
Definition posted (e : option VcuEvent.t) : list (action (board S D)) :=
  match e with Some e => [Post e] | None => [] end.

Lemma dispatch_posts c (v : vcu Q (board S D)) :
  hmi_dispatch c v = match dispatched c with Some e => postEvent e v | None => v end.
Proof. unfold hmi_dispatch, dispatched. by ifs. Qed.

Definition set_can (w : can_world D) (b : board S D) : board S D := {| b with can := w |}.

(** What a step does to the control unit. *)
Definition seen x l : list (action (board S D)) :=
  match l with
  | CanStep _ =>
      match at_can x with
      | CanStart => [Env (λ b, let w := {| (can b) with cm := CanManager.setEventCallback true (cm (can b)) |} in
                               {| b with can := (CanManager.begin w).2; canForTorque := true |})]
      | CanWaiting => [Env (λ b, set_can (CanManager.processRxMessages (can b)).2 b)]
      | CanReporting (CAN_FAULT_DETECTED :: _) => [Post VcuEvent.FAULT_DETECTED]
      | _ => []
      end
  | VcuStep => [vcu_step_of x]
  | HmiStep _ _ =>
      match at_hmi x with HmiCommand (Some c) => posted (dispatched c) | _ => [] end
  | LoraStep => []
  | BusChange d => [Env (λ b, set_can {| (can b) with drv := d |} b)]
  | ChipChange c => [Env (λ b, {| b with relays := {| (relays b) with dev := c |} |})]
  | PanelChange _ => []
  end.

Fixpoint project sched x : list (action (board S D)) :=
  match sched with
  | [] => []
  | l :: sched => seen x l ++ project sched (fw_step x l)
  end.

Lemma view_step x l : view (fw_step x l) = exec (seen x l) (view x).
Proof.
  destruct l as [t| |fuel t| |d|c|p]; cbn [fw_step seen].
  - unfold can_step. destruct (at_can x) as [| |[|[] events]|]; try done.
    unfold can_setup, view, exec. cbn. by destruct (CanManager.begin _).
  - change (exec [vcu_step_of x] (view x)) with (act (view x) (vcu_step_of x)). by destruct (act _ _).
  - unfold hmi_step. destruct (at_hmi x) as [| | |mail|mail st ch|mail st cl|[c|]]; try done.
    + by destruct (hmi_setup _ _ _ _) as [[[ok d] p]|].
    + by destruct (hmi_cycle _ _ _ _ _ _ _ _) as [[[cmd s] p]|].
    + unfold view. cbn. rewrite dispatch_posts. by destruct (dispatched c).
  - unfold lora_step. destruct (lora x); [|done]. by destruct (lora_start _ _).
  - done.
  - done.
  - done.
Qed.

Lemma view_exec sched x : view (fw_exec sched x) = exec (project sched x) (view x).
Proof.
  revert x. induction sched as [|l sched IH]; intros x; [done|].
  cbn [project]. rewrite exec_app, <- view_step. apply IH.
Qed.

(** A step is at most one action, so prefixes of the projection are projections of prefixes. *)
Lemma seen_length x l : (length (seen x l) <= 1)%nat.
Proof.
  destruct l; cbn; repeat case_match; cbn; try lia; unfold posted; case_match; cbn; lia.
Qed.

Lemma project_prefix sched x pre post : project sched x = pre ++ post →
  ∃ s1 s2, sched = s1 ++ s2 ∧ project s1 x = pre.
Proof.
  revert x pre. induction sched as [|l sched IH]; intros x pre E.
  { cbn in E. destruct pre; [by exists [], []|done]. }
  cbn [project] in E. destruct pre as [|a pre]; [by exists [], (l :: sched)|].
  pose proof (seen_length x l) as Hl. destruct (seen x l) as [|a' [|]] eqn:Es; cbn in Hl; [| |lia].
  - destruct (IH _ _ E) as (s1 & s2 & -> & Hs). exists (l :: s1), s2. split; [done|]. cbn. by rewrite Es.
  - injection E as <- E. destruct (IH _ _ E) as (s1 & s2 & -> & Hs). exists (l :: s1), s2.
    split; [done|]. cbn. by rewrite Es, Hs.
Qed.

Lemma seen_ok x l : Forall (action_ok (W:=board S D)) (seen x l).
Proof.
  assert (Hrel : ∀ f : board S D → board S D, (∀ b, rm (relays (f b)) = rm (relays b)) →
    action_ok (Env f)) by (intros f Hf b Hb; cbn in *; by rewrite Hf).
  destruct l as [t| |fuel t| |d|c|p]; cbn [seen].
  - destruct (at_can x) as [| |[|[] events]|]; repeat (constructor; try by apply Hrel).
  - unfold vcu_step_of. case_decide; by repeat constructor.
  - destruct (at_hmi x) as [| | |?|? ? ?|? ? ?|[c|]]; try constructor. unfold posted. case_match; by repeat constructor.
  - constructor.
  - constructor; [by apply Hrel|constructor].
  - constructor; [by apply Hrel|constructor].
  - constructor.
Qed.

Lemma project_ok sched x : Forall (action_ok (W:=board S D)) (project sched x).
Proof.
  revert x. induction sched as [|l sched IH]; intros x; [constructor|]. cbn [project].
  apply Forall_app. split; [apply seen_ok|apply IH].
Qed.

Lemma fw_fine_reachable x : fw_reachable x → fine_reachable (view x).
Proof.
  intros (c & d & s & p & h & sched & E & Hq & ->).
  exists (view (tasks_created s p h)), (project sched (tasks_created s p h)).
  split_and!; [by eapply app_main_boot|done|apply project_ok|apply view_exec].
Qed.
Lemma fw_fine_inv x : fw_reachable x → fine_inv (view x).
Proof. intros Hx. by apply fine_reachable_inv, fw_fine_reachable. Qed.
End Projection.

(** ** The theorems *)
Section Theorems.
Context {Q TQ S D P H : Type} `{FreeRtosQueueLaws Q VcuEvent.t} `{FreeRtosQueueLaws TQ TelemetryData}
  `{Mcp23s17Read S} `{TwaiDriver D} `{HmiUartContract P} `{EspLora H}.
Abbreviation fw := (firmware Q TQ S D P H).
Implicit Types (x y : fw) (sched : list (step S D P)).

Definition contactors_open x : Prop :=
  ∀ ch, 0 <= ch < RELAY_TOTAL_CHANNELS → contactor_closed (dev (relays (the_board (sys x)))) ch = false.
Definition commanded x : Z := RelayManager.s_relayState (rm (relays (the_board (sys x)))).

(** In a schedule, every record the control unit peeks is critical; nobody asks for RESET. *)
Definition cause_stands sched x : Prop :=
  ∀ mail, Begin mail ∈ project sched x → ∃ d, mail = Some d ∧ critical d.
Definition no_reset sched x : Prop := Post VcuEvent.RESET ∉ project sched x.

Lemma promises standing sched x :
  (if standing : bool then cause_stands sched x else no_reset sched x) →
  Forall (promised (W:=board S D) standing) (project sched x).
Proof.
  intros Hc. pose proof (project_ok sched x) as Hok. rewrite Forall_forall in Hok |- *. intros a Ha.
  split; [auto|]. destruct a as [mail| |e|f]; try done; destruct standing; try done.
  - intros _. by apply Hc.
  - intros _ ->. by apply Hc.
Qed.

(** [C2] The contactors open under preemption.  Take any state the firmware can reach, with
    its four tasks anywhere in their loops, in which the control unit is in a safe state, or
    an E-STOP or FAULT request is pending, or a live state is about to test a critical
    record; let either every record the unit then takes from the mailbox be critical, or no
    RESET be queued or posted.  However the steps of the tasks interleave, whatever the
    bus, the panel and the relay expander do, once the unit has finished two iterations
    (three, from within one), one per RESET and two per E-STOP pending or posted meanwhile
    (FAULT requests cost nothing, however many the CAN task posts), it is in a safe state
    with all contactors commanded open; and from between two iterations there was a moment at which, unless the relay driver latched
    an actuator fault, all ten were de-energised. *)
Theorem firmware_opens_contactors (standing : bool) sched x :
  fw_reachable x → alerted standing (view x) → kept standing (view x) →
  (if standing then cause_stands sched x else no_reset sched x) →
  let y := fw_exec sched x in
  0 <= s_stateTimer (the_vcu (sys x)) < 4294967296 - 20 * (Z.of_nat (begins (project sched x)) + 1) →
  (vcu_ticks x + weight (the_vcu (sys x)) + urgent_posts (project sched x)
    + (if decide (at_vcu x = Done) then 2 else 3) <= vcu_ticks y)%nat →
  is_safe_state (s_state (the_vcu (sys y))) ∧ commanded y = 0 ∧
  (at_vcu x = Done → commanded x ≠ 0 → ∃ s1 s2, sched = s1 ++ s2 ∧ let z := fw_exec s1 x in
     commanded z = 0 ∧
     (RelayManager.s_actuatorFault (rm (relays (the_board (sys z)))) = false → contactors_open z)).
Proof.
  intros Hr Ha Hk Hc y Ht Hn. pose proof (view_exec sched x) as Ev.
  destruct (alarm_opens standing (project sched x) (view x)) as (Hs & Hm & Hop); try done.
  - by apply fw_fine_reachable.
  - by apply promises.
  - by rewrite <- Ev.
  - rewrite <- Ev in Hs, Hm. split_and!; [exact Hs|exact Hm|]. intros Hd Hc0.
    destruct (Hop Hd Hc0) as (pre & post & Ep & Hopen).
    destruct (project_prefix sched x pre post Ep) as (s1 & s2 & -> & <-). exists s1, s2. split; [done|].
    rewrite <- view_exec in Hopen. exact Hopen.
Qed.

Lemma fw_reachable_exec sched x : fw_reachable x → fw_reachable (fw_exec sched x).
Proof.
  intros (c & d & s & p & h & s0 & E & Hq & ->). exists c, d, s, p, h, (s0 ++ sched).
  split_and!; [done..|]. unfold fw_exec. by rewrite foldl_app.
Qed.

(** What the dispatch of an E-STOP command leaves. *)
Lemma estop_dispatched fuel t x :
  fw_reachable x → at_hmi x = HmiCommand (Some HMI_CMD_EMERGENCY_STOP) →
  VcuEvent.RESET ∉ queued (the_vcu (sys x)) → at_vcu x ≠ AtEvent VcuEvent.RESET →
  let x1 := fw_step x (HmiStep fuel t) in
  fw_reachable x1 ∧ alerted false (view x1) ∧ kept false (view x1) ∧ (weight (the_vcu (sys x1)) <= 2)%nat ∧
  s_stateTimer (the_vcu (sys x1)) = s_stateTimer (the_vcu (sys x)) ∧
  at_vcu x1 = at_vcu x ∧ vcu_ticks x1 = vcu_ticks x.
Proof.
  intros Hr Hh Hq Hv x1.
  assert (Ex : view x1 = {| (view x) with unit_ := postEvent VcuEvent.EMERGENCY_STOP (the_vcu (sys x)) |}).
  { unfold x1. cbn [fw_step]. unfold hmi_step. by rewrite Hh. }
  pose proof (fw_fine_inv x Hr) as Hx. destruct (fi_queue _ Hx) as (q & Eq & _ & _). cbn in Eq.
  set (v1 := {| (the_vcu (sys x)) with s_eStopPending := true |}).
  assert (Ep : postEvent VcuEvent.EMERGENCY_STOP (the_vcu (sys x)) = v1) by (unfold postEvent, v1; by rewrite Eq).
  rewrite Ep in Ex. assert (Hu1 : the_vcu (sys x1) = v1) by (by apply (f_equal unit_) in Ex).
  assert (Hk1 : at_vcu x1 = at_vcu x ∧ vcu_ticks x1 = vcu_ticks x)
    by (split; [by apply (f_equal here) in Ex|by apply (f_equal ticks) in Ex]).
  split_and!; [by apply (fw_reachable_exec [HmiStep fuel t])| | | |by rewrite Hu1|apply Hk1..].
  - right; left. by rewrite Ex.
  - rewrite Ex. split; [done|]. intros _. by split.
  - rewrite Hu1. unfold weight. rewrite (resets_none v1) by done. cbn. lia.
Qed.

(** From the panel to the contactors.  When the HMI task has read an E-STOP command
    from the panel, it posts it in its next step; if no RESET is queued, being handled or
    posted after that, then in every interleaving of the tasks, once the control unit has
    finished five iterations (100 ms), and two more per E-STOP that is posted meanwhile, it
    is in E-STOP or FAULT with all contactors commanded open, whatever it was
    doing when the command arrived. *)
Theorem panel_estop_opens_contactors fuel t sched x :
  fw_reachable x → at_hmi x = HmiCommand (Some HMI_CMD_EMERGENCY_STOP) →
  VcuEvent.RESET ∉ queued (the_vcu (sys x)) → at_vcu x ≠ AtEvent VcuEvent.RESET →
  let x1 := fw_step x (HmiStep fuel t) in
  let y := fw_exec sched x1 in
  no_reset sched x1 →
  0 <= s_stateTimer (the_vcu (sys x)) < 4294967296 - 20 * (Z.of_nat (begins (project sched x1)) + 1) →
  (vcu_ticks x + 5 + urgent_posts (project sched x1) <= vcu_ticks y)%nat →
  is_safe_state (s_state (the_vcu (sys y))) ∧ commanded y = 0.
Proof.
  intros Hr Hh Hq Hv x1 y Hnr Ht Hn.
  destruct (estop_dispatched fuel t x) as (Hr1 & Ha & Hk & Hw & Et & Ed & En); try done. fold x1 in Hr1, Ha, Hk, Hw, Et, Ed, En.
  pose proof (view_exec sched x1) as Ev.
  destruct (alarm_opens false (project sched x1) (view x1)) as (Hs & Hm & _); try done.
  - by apply fw_fine_reachable.
  - by apply (promises false).
  - cbn [view unit_]. by rewrite Et.
  - rewrite <- Ev. cbn [view here unit_ ticks]. fold y. rewrite En. destruct (decide _); lia.
  - rewrite <- Ev in Hs, Hm. by split.
Qed.

(** The channel loop stays inside the bank. *)
Definition channel_ok (k : hmi_point) : Prop :=
  match k with HmiContactors _ _ ch => (ch < Z.to_nat RELAY_TOTAL_CHANNELS)%nat | _ => True end.

Lemma channel_step x l : channel_ok (at_hmi x) → channel_ok (at_hmi (fw_step x l)).
Proof.
  intros Hx. destruct l as [t| |fuel t| |d|c|p]; cbn [fw_step]; try done.
  - unfold can_step. destruct (at_can x) as [| |[|e events]|]; try done. by destruct (can_setup _).
  - unfold hmi_step. destruct (at_hmi x) as [| | |mail|mail st ch|mail st cl|c] eqn:Hh; try (by rewrite ?Hh).
    + destruct (hmi_setup _ _ _ _) as [[[[] d] p]|]; by rewrite ?Hh.
    + cbn. unfold RELAY_TOTAL_CHANNELS. lia.
    + cbn [at_hmi]. destruct (negb _); [done|]. destruct (Z.ltb_spec (Z.of_nat ch + 1) RELAY_TOTAL_CHANNELS); [|done].
      cbn. lia.
    + destruct (hmi_cycle _ _ _ _ _ _ _ _) as [[[cmd s] p]|]; by rewrite ?Hh.
  - unfold lora_step. destruct (lora x); [|done]. by destruct (lora_start _ _).
Qed.

Lemma channel_reachable x : fw_reachable x → channel_ok (at_hmi x).
Proof.
  intros (c & d & s & p & h & sched & _ & _ & ->).
  induction sched as [|l sched IH] using rev_ind; [done|]. unfold fw_exec. rewrite foldl_app. by apply channel_step.
Qed.

(** Given fuel for the bytes of the panel, no step of the HMI task stands still. *)
Lemma hmi_moves x t : at_hmi x ≠ HmiDegraded →
  ∃ n, ∀ fuel, (n <= fuel)%nat → at_hmi (hmi_step fuel t x) ≠ at_hmi x.
Proof.
  intros Hd. unfold hmi_step. destruct (at_hmi x) as [| | |mail|mail st ch|mail st cl|c]; try done.
  - destruct (hmi_setup_ends 5 newDisplayHMI (panel x) eq_refl) as (n & ok & d & p & E & _).
    exists n. intros fuel Hn. rewrite E by done. by destruct ok.
  - by exists 0%nat.
  - by exists 0%nat.
  - exists 0%nat. intros _ _. cbn [at_hmi]. repeat case_match; try done. intros [=]. lia.
  - destruct (hmi_cycle_ends mail (mailbox (sys x)) st cl t (hmi x) (panel x)) as (n & cmd & s' & p & E).
    exists n. intros fuel Hn. by rewrite E by done.
  - by exists 0%nat.
Qed.

(** [C5] Safety under preemption: in every reachable state, at every point of every task,
    the control unit has left INIT for good; READY and DRIVE mean that all contactors are
    commanded closed, but for the moment between the transition to READY and the handler of
    the same iteration; once a safe state has opened them they stay commanded open while it
    lasts; and the command is all or nothing.  So what the HMI task finds out channel by
    channel for the panel's contactor line was true when it read the deciding channel.  And
    no task is stuck: given fuel for what the panel can still send, every step of the HMI
    task moves it on, unless its start-up failed. *)
Theorem firmware_invariant x :
  fw_reachable x →
  let s := s_state (the_vcu (sys x)) in
  s ≠ VcuState.INIT ∧
  (is_live_state s → commanded x = all_contactors ∨ (at_vcu x = AtPeriodic ∧ s = VcuState.READY)) ∧
  (opened (the_vcu (sys x)) = true → commanded x = 0) ∧
  (commanded x = 0 ∨ commanded x = all_contactors) ∧
  (∀ mail state ch fuel t closed, at_hmi x = HmiContactors mail state ch →
     at_hmi (fw_step x (HmiStep fuel t)) = HmiScreen mail state closed →
     closed = bool_decide (commanded x = all_contactors)) ∧
  (∀ t, at_hmi x ≠ HmiDegraded →
     ∃ n, ∀ fuel, (n <= fuel)%nat → at_hmi (fw_step x (HmiStep fuel t)) ≠ at_hmi x).
Proof.
  intros Hr s. destruct (fw_fine_inv x Hr) as [_ _ _ _ Hi _ Hl Ho Hm _]. cbn in *.
  split_and!; try done; [| |intros t; apply hmi_moves].
  - intros Hs. destruct (Hl Hs) as [?|(? & ? & _)]; auto.
  - intros mail state ch fuel t closed Hh. pose proof (channel_reachable x Hr) as Hch. rewrite Hh in Hch.
    cbn in Hch. unfold hmi_step. rewrite Hh.
    assert (Hg : RelayManager.getRelayState (Z.of_nat ch) (rm (relays (the_board (sys x))))
      = bool_decide (commanded x = all_contactors)).
    { rewrite RelayManager.getRelayState_bit by lia. unfold commanded.
      destruct Hm as [-> | ->].
      - by rewrite Z.bits_0.
      - unfold all_contactors. rewrite Z.ones_spec_low by lia. by rewrite bool_decide_eq_true_2. }
    rewrite Hg. case_bool_decide; cbn [negb]; [|by intros [= <-]]. case_match; [done|by intros [= <-]].
Qed.
End Theorems.

(** ** The vehicle of [AksSystem], with panel and radio *)
Import (hints) RelayManager.FakeChip CanManagerCorrect.FakeTwai.
Module Drill.
Abbreviation state := (firmware (ListQueue VcuEvent.t) (ListQueue TelemetryData) RelayManager.FakeChip.t
  CanManagerCorrect.FakeTwai.t FakePanel.state FakeEsp.state).
Abbreviation steps := (list (step RelayManager.FakeChip.t CanManagerCorrect.FakeTwai.t FakePanel.state)).

Definition power_on : state :=
  tasks_created Vehicle.booted {| FakePanel.tx := []; FakePanel.rx_log := []; FakePanel.rx_queue := [] |}
    (FakeEsp.off true false).
(** A touch frame arrives. *)
Definition touch (c : Z) : step RelayManager.FakeChip.t CanManagerCorrect.FakeTwai.t FakePanel.state :=
  PanelChange {| FakePanel.tx := []; FakePanel.rx_log := []; FakePanel.rx_queue := [90; c; 255 - c] |}.
(** The HMI task up to the dispatch of the command it reads. *)
Definition hmi_round (channels : nat) : steps := replicate (channels + 3) (HmiStep 100 0).
(** The CAN task sets itself up, receives, and publishes. *)
Definition can_round (t : Z) : steps := [CanStep t; CanStep t].
Definition to_ready : steps :=
  CanStep 0 :: BusChange (Vehicle.bus [Vehicle.e000; Vehicle.e001 26]) :: can_round 1000000 ++
  HmiStep 100 0 :: touch HMI_CMD_START :: hmi_round 1 ++ VcuStep :: HmiStep 100 0 :: replicate 10 VcuStep.
(** READY; the E-STOP frame has been read while the control unit is in the middle of a tick. *)
Definition stopping : state :=
  fw_exec (to_ready ++ LoraStep :: touch HMI_CMD_EMERGENCY_STOP :: hmi_round 10 ++ replicate 5 VcuStep) power_on.
Definition storm : steps :=
  replicate 7 VcuStep ++ can_round 1100000 ++ replicate 13 VcuStep ++ ChipChange RelayManager.FakeChip.reset_chip ::
  replicate 40 VcuStep.
(** READY, and a record of an overheated pack in the mailbox. *)
Definition overheated : state :=
  fw_exec (to_ready ++ BusChange (Vehicle.bus [Vehicle.e000; Vehicle.e001 75]) :: can_round 1100000) power_on.

Lemma boots : app_main (Q:=ListQueue VcuEvent.t) (TQ:=ListQueue TelemetryData) true
  (sys_initial RelayManager.FakeChip.reset_chip (Vehicle.bus [Vehicle.e000])) = (true, Vehicle.booted).
Proof.
  assert (E : (app_main (Q:=ListQueue VcuEvent.t) (TQ:=ListQueue TelemetryData) true
    (sys_initial RelayManager.FakeChip.reset_chip (Vehicle.bus [Vehicle.e000]))).1 = true) by (by vm_compute).
  unfold Vehicle.booted. destruct (app_main _ _) as [ok x]. cbn in *. by subst.
Qed.
Lemma drill_reachable sched : fw_reachable (fw_exec sched power_on).
Proof. eexists _, _, Vehicle.booted, _, _, sched. split_and!; [apply boots|done|reflexivity]. Qed.

(** What makes a computed list of actions keep the promises. *)
Definition action_critical (a : action (board RelayManager.FakeChip.t CanManagerCorrect.FakeTwai.t)) : bool :=
  match a with Begin (Some d) => hasCriticalCondition d VcuState.FAULT | Begin None => false | _ => true end.
Lemma stands_by sched (x : state) : forallb action_critical (project sched x) = true → cause_stands sched x.
Proof.
  intros Hf mail Hin%list_elem_of_In. rewrite forallb_forall in Hf. specialize (Hf _ Hin).
  destruct mail as [d|]; [by exists d|done].
Qed.
Definition action_reset (a : action (board RelayManager.FakeChip.t CanManagerCorrect.FakeTwai.t)) : bool :=
  match a with Post VcuEvent.RESET => true | _ => false end.
Lemma no_reset_by sched (x : state) : existsb action_reset (project sched x) = false → no_reset sched x.
Proof.
  intros Hf Hin%list_elem_of_In. assert (Ht : existsb action_reset (project sched x) = true); [|congruence].
  apply existsb_exists. by eexists.
Qed.
End Drill.

Lemma firmware_opens_contactors_witness :
  commanded Drill.overheated = all_contactors ∧ commanded (fw_exec Drill.storm Drill.overheated) = 0.
Proof.
  split; [by vm_compute|].
  apply (firmware_opens_contactors true Drill.storm Drill.overheated).
  - apply Drill.drill_reachable.
  - right; right; right. split; [done|]. split; [left; by vm_compute|]. vm_compute. lia.
  - split; [|done]. intros _ Hn. exfalso. apply Hn. by vm_compute.
  - apply Drill.stands_by. by vm_compute.
  - by vm_compute.
  - apply Nat.leb_le. by vm_compute.
Defined.

Lemma panel_estop_opens_contactors_witness :
  commanded Drill.stopping = all_contactors ∧
  commanded (fw_exec Drill.storm (fw_step Drill.stopping (HmiStep 0 0))) = 0.
Proof.
  split; [by vm_compute|].
  apply (panel_estop_opens_contactors 0 0 Drill.storm Drill.stopping).
  - apply Drill.drill_reachable.
  - by vm_compute.
  - intros Hin. vm_compute in Hin. by apply not_elem_of_nil in Hin.
  - by vm_compute.
  - apply Drill.no_reset_by. by vm_compute.
  - by vm_compute.
  - apply Nat.leb_le. by vm_compute.
Defined.

Lemma firmware_invariant_witness :
  commanded Drill.stopping = 0 ∨ commanded Drill.stopping = all_contactors.
Proof. apply (firmware_invariant Drill.stopping). apply Drill.drill_reachable. Defined.
