(* ===== verification/Timing.v ===== *)
(** Real time: how long the contactors may stay closed after an alarm.

    A timed schedule gives each step of [Firmware] the time at which it ended.  Two facts
    about the kernel make it a schedule of this firmware: the control unit's task, alone on
    its core and of the highest priority, ends an iteration at most [VCU_DELAY_US] and some
    slack after the one before ([on_time]); and [vTaskDelay] holds the HMI task for at least
    nine of the ten ticks it asks for ([rested]).  The CAN and LoRa tasks are not restricted.

    The panel thus posts at most one command per 90 ms, and the number of iterations that
    [VcuTickCorrect] allows for becomes a time. *)
From S2P Require Import RelayManager CanManager CanManagerCorrect.
From S2P Require Import Prelude SystemConfig VehicleData FreeRtos VcuSafety IRelayActuator.
From S2P Require Import VcuLogic VcuLogicCorrect VcuTick VcuTickCorrect.
From S2P Require Import HMIHelpers DisplayHMI EspLoraHal AksSystem HmiTask Firmware.
Import RelayManager(relay_world, rm, dev, SpiMaster, Mcp23s17Read).
Import CanManager(TwaiDriver, CAN_Event(..)).
Open Scope Z_scope.

(** [vTaskDelay(pdMS_TO_TICKS(20))] ends with the second tick interrupt of the 100 Hz kernel,
    [vTaskDelay(pdMS_TO_TICKS(100))] with the tenth, of which the first may follow at once. *)
(* [src ESP_AKS/src/main.cpp:235-235 vTask_VCU_Logic] *)
Definition VCU_DELAY_US : Z := 20000.
(* [src ESP_AKS/src/main.cpp:434-434 vTask_HMI_Display] *)
Definition HMI_DELAY_US : Z := 100000 - 10000.

Section Timing.
Context {Q TQ S D P H : Type} `{FreeRtosQueueLaws Q VcuEvent.t} `{FreeRtosQueueLaws TQ TelemetryData}
  `{Mcp23s17Read S} `{TwaiDriver D} `{HmiUartContract P} `{EspLora H}.
Abbreviation fw := (firmware Q TQ S D P H).
Abbreviation timed := (list (Z * step S D P)).
Implicit Types (x y : fw) (l : step S D P) (sched : list (step S D P)) (ts : timed).

Definition steps ts : list (step S D P) := map snd ts.

(** The stamps, in microseconds, from [t0] to [until]. *)
Fixpoint ordered (t0 until : Z) ts : bool :=
  match ts with
  | [] => t0 <=? until
  | (t, _) :: ts => (t0 <=? t) && ordered t until ts
  end.

(** No iteration of the control unit ends more than a period and [slack] after [last], the
    end of the one before, and none is overdue at the end. *)
Fixpoint on_time (slack last until : Z) ts x : bool :=
  match ts with
  | [] => until - last <=? VCU_DELAY_US + slack
  | (t, l) :: ts =>
      let y := fw_step x l in
      if (vcu_ticks y =? vcu_ticks x)%nat then on_time slack last until ts y
      else (t - last <=? VCU_DELAY_US + slack) && on_time slack t until ts y
  end.

(** The HMI task sleeps until [ready] between two iterations. *)
Fixpoint rested (ready : Z) ts x : bool :=
  match ts with
  | [] => true
  | (t, l) :: ts =>
      let y := fw_step x l in
      match l, at_hmi x with
      | HmiStep _ _, HmiWaiting => (ready <=? t) && rested ready ts y
      | HmiStep _ _, HmiCommand _ => rested (t + HMI_DELAY_US) ts y
      | _, _ => rested ready ts y
      end
  end.

(** ** How many iterations end *)

Lemma ticks_step x l :
  (vcu_ticks (fw_step x l) = vcu_ticks x ∧ (at_vcu (fw_step x l) = Done → at_vcu x = Done)) ∨
  (vcu_ticks (fw_step x l) = Datatypes.S (vcu_ticks x) ∧ l = VcuStep ∧ at_vcu x ≠ Done ∧ at_vcu (fw_step x l) = Done).
Proof.
  pose proof (view_step x l) as E. apply (f_equal ticks) in E as Et. cbn in Et. rewrite Et.
  apply (f_equal here) in E as Eh. cbn in Eh. rewrite Eh. clear E Et Eh.
  assert (Hpost : ∀ e, ticks (exec (posted e) (view x)) = vcu_ticks x ∧
    (here (exec (posted e) (view x)) = Done → at_vcu x = Done)) by (by intros [e|]).
  destruct l as [t| |fuel t| |d|c|p]; cbn [seen]; try (by left).
  - left. by repeat case_match.
  - unfold vcu_step_of. case_decide as Hd.
    + left. cbn. by rewrite decide_True.
    + change (exec [Own] (view x)) with (act (view x) Own). cbn [act].
      destruct (tick_step _) as [[k v] w]. cbn. case_decide as Hk; [right|left; tauto].
      destruct Hk as [? ->]. by split_and!.
  - left. by destruct (at_hmi x) as [| | |?|? ? ?|? ? ?|[c|]].
Qed.

Lemma ticks_mono sched x : (vcu_ticks x <= vcu_ticks (fw_exec sched x))%nat.
Proof.
  revert x. induction sched as [|l sched IH]; intros x; [done|].
  change (fw_exec (l :: sched) x) with (fw_exec sched (fw_step x l)).
  specialize (IH (fw_step x l)). destruct (ticks_step x l) as [[E _]|[E _]]; lia.
Qed.

(** A schedule on time ends enough iterations, and the first [n] of them in time. *)
Lemma on_time_prefix slack last now until ts x n :
  0 <= slack → last <= now → ordered now until ts = true → on_time slack last until ts x = true →
  (0 < n)%nat → Z.of_nat n * (VCU_DELAY_US + slack) < until - last →
  ∃ s1 s2 mid, ts = s1 ++ s2 ∧ vcu_ticks (fw_exec (steps s1) x) = (vcu_ticks x + n)%nat ∧
    ordered now mid s1 = true ∧ mid <= last + Z.of_nat n * (VCU_DELAY_US + slack).
Proof.
  intros Hs. revert last now x n. induction ts as [|[t l] ts IH]; intros last now x n Hl Ho Ht Hn Hu.
  { cbn in Ht. unfold VCU_DELAY_US in *. nia. }
  cbn [ordered on_time] in Ho, Ht. apply andb_prop in Ho as [Hnt Ho]. rewrite Z.leb_le in Hnt.
  destruct (ticks_step x l) as [[E _]|[E _]]; rewrite E in Ht.
  - rewrite Nat.eqb_refl in Ht.
    destruct (IH last t (fw_step x l) n) as (s1 & s2 & mid & -> & En & Hm & Hb); try done; [lia|].
    exists ((t, l) :: s1), s2, mid. split_and!; [done| | |done].
    + change (fw_exec (steps ((t, l) :: s1)) x) with (fw_exec (steps s1) (fw_step x l)). lia.
    + cbn [ordered]. rewrite Hm, andb_true_r. lia.
  - rewrite (proj2 (Nat.eqb_neq _ _)) in Ht by lia. apply andb_prop in Ht as [Hp Ht].
    rewrite Z.leb_le in Hp. destruct n as [|[|n]]; [lia| |].
    + exists [(t, l)], ts, t. split_and!; [done|cbn; lia|cbn; lia|lia].
    + destruct (IH t t (fw_step x l) (Datatypes.S n)) as (s1 & s2 & mid & -> & En & Hm & Hb); try done; [lia..|].
      exists ((t, l) :: s1), s2, mid. split_and!; [done| | |lia].
      * change (fw_exec (steps ((t, l) :: s1)) x) with (fw_exec (steps s1) (fw_step x l)). lia.
      * cbn [ordered]. rewrite Hm, andb_true_r. lia.
Qed.

Lemma ordered_span t0 until ts : ordered t0 until ts = true → t0 <= until.
Proof.
  revert t0. induction ts as [|[t l] ts IH]; intros t0; cbn [ordered]; [lia|].
  intros [Ht Hts]%andb_prop. specialize (IH t Hts). lia.
Qed.

Lemma rested_prefix ready s1 s2 x : rested ready (s1 ++ s2) x = true → rested ready s1 x = true.
Proof.
  revert ready x. induction s1 as [|[t l] s1 IH]; intros ready x; [done|]. cbn [rested app].
  destruct l; try apply IH. destruct (at_hmi x); try apply IH.
  intros [-> Hr]%andb_prop. by apply IH in Hr as ->.
Qed.

(** ** How many iterations begin, and how many events are posted *)

Definition begins_now x l : bool := match l with VcuStep => bool_decide (at_vcu x = Done) | _ => false end.

Lemma begins_seen x l : begins (seen x l) = Nat.b2n (begins_now x l).
Proof.
  unfold begins, begins_now. destruct l as [t| |fuel t| |d|c|p]; cbn [seen]; try done.
  - by repeat case_match.
  - unfold vcu_step_of. destruct (decide (at_vcu x = Done)).
    + by rewrite bool_decide_eq_true_2.
    + by rewrite bool_decide_eq_false_2.
  - repeat case_match; try done. unfold posted. by case_match.
Qed.

Lemma begins_ticks sched x :
  (begins (project sched x) + vcu_ticks x <=
   vcu_ticks (fw_exec sched x) + Nat.b2n (bool_decide (at_vcu x = Done)))%nat.
Proof.
  revert x. induction sched as [|l sched IH]; intros x; [cbn; lia|].
  change (fw_exec (l :: sched) x) with (fw_exec sched (fw_step x l)). cbn [project].
  specialize (IH (fw_step x l)). unfold begins in *. rewrite filter_app, length_app.
  fold (begins (seen x l)). rewrite begins_seen. unfold begins_now.
  assert (Hb : l = VcuStep → at_vcu x = Done → at_vcu (fw_step x l) ≠ Done).
  { intros -> Hd. cbn. unfold vcu_step_of. rewrite decide_True by done. cbn. by rewrite decide_True. }
  destruct (ticks_step x l) as [[E Ed]|(E & -> & Hn & Hd)].
  - rewrite E in IH. destruct l; cbn [Nat.b2n]; repeat case_bool_decide; cbn [Nat.b2n] in *; try lia; tauto.
  - rewrite E in IH. rewrite bool_decide_eq_true_2 in IH by done. rewrite bool_decide_eq_false_2 by done. cbn in *. lia.
Qed.

(** The earliest time of the panel's next command. *)
Definition awake (now ready : Z) x : Z := match at_hmi x with HmiWaiting => Z.max now ready | _ => now end.

Lemma urgent_app (s1 s2 : list (action (board S D))) :
  urgent_posts (s1 ++ s2) = (urgent_posts s1 + urgent_posts s2)%nat.
Proof.
  induction s1 as [|a s1 IH]; [done|]. cbn [app]. rewrite (urgent_cons a (s1 ++ s2)), (urgent_cons a s1), IH. lia.
Qed.

Lemma cost_dispatched c : (urgent_posts (posted (S:=S) (D:=D) (dispatched c)) <= 2)%nat.
Proof. unfold dispatched. ifs; cbn; lia. Qed.

(** The window after a command is shorter by one. *)
Lemma window_next now t until : now <= t <= until →
  2 + 2 * Z.max 0 (1 + (until - (t + HMI_DELAY_US)) / HMI_DELAY_US) <= 2 * Z.max 0 (1 + (until - now) / HMI_DELAY_US).
Proof.
  intros Ht. replace (until - (t + HMI_DELAY_US)) with (until - t + -1 * HMI_DELAY_US) by lia.
  rewrite Z.div_add by done.
  assert (0 <= (until - t) / HMI_DELAY_US) by (apply Z.div_pos; [lia|done]).
  assert ((until - t) / HMI_DELAY_US <= (until - now) / HMI_DELAY_US) by (apply Z.div_le_mono; [done|lia]).
  lia.
Qed.

Lemma ready_awake now ready x : ready <= now → awake now ready x = now.
Proof. unfold awake. destruct (at_hmi x); lia. Qed.

(** Only a dispatch of the HMI task costs anything. *)
Lemma seen_free x l : (∀ fuel t c, l = HmiStep fuel t → at_hmi x ≠ HmiCommand c) → urgent_posts (seen x l) = 0%nat.
Proof.
  intros Hc. destruct l as [t| |fuel t| |d|c|p]; cbn [seen]; try done.
  - repeat case_match; done.
  - unfold vcu_step_of. by destruct (decide _).
  - destruct (at_hmi x) as [| | |?|? ? ?|? ? ?|c] eqn:E; try done. by destruct (Hc fuel t c).
Qed.

Lemma hmi_unmoved x l : (∀ fuel t, l ≠ HmiStep fuel t) → at_hmi (fw_step x l) = at_hmi x.
Proof.
  intros Hl. destruct l as [t| |fuel t| |d|c|p]; cbn [fw_step]; try done.
  - unfold can_step. repeat case_match; try done. 
  - by destruct (Hl fuel t).
  - unfold lora_step. destruct (lora x); [|done]. by case_match.
Qed.

Lemma hmi_waits x fuel t : at_hmi (hmi_step fuel t x) = HmiWaiting →
  at_hmi x = HmiStart ∨ ∃ c, at_hmi x = HmiCommand c.
Proof.
  unfold hmi_step. destruct (at_hmi x) as [| | |mail|mail st ch|mail st cl|c] eqn:E; try (by rewrite ?E); auto.
  - cbn. by repeat case_match.
  - destruct (hmi_cycle _ _ _ _ _ _ _ _) as [[[cmd s'] p]|]; [done|by rewrite E].
  - intros _. right. by exists c.
Qed.

(** One command, at most two units, per 90 ms. *)
Lemma posts_bound now until ready ts x : ordered now until ts = true → rested ready ts x = true →
  Z.of_nat (urgent_posts (project (steps ts) x)) <= 2 * Z.max 0 (1 + (until - awake now ready x) / HMI_DELAY_US).
Proof.
  revert now ready x. induction ts as [|[t l] ts IH]; intros now ready x Ho Hr; [cbn; lia|].
  cbn [ordered rested] in Ho, Hr. apply andb_prop in Ho as [Hnt%Z.leb_le Ho].
  change (project (steps ((t, l) :: ts)) x) with (seen x l ++ project (steps ts) (fw_step x l)).
  assert (Hgo : ∀ e, awake now ready x <= e → urgent_posts (seen x l) = 0%nat →
    Z.of_nat (urgent_posts (project (steps ts) (fw_step x l))) <= 2 * Z.max 0 (1 + (until - e) / HMI_DELAY_US) →
    Z.of_nat (urgent_posts (seen x l ++ project (steps ts) (fw_step x l))) <=
      2 * Z.max 0 (1 + (until - awake now ready x) / HMI_DELAY_US)).
  { intros e He Hs Hp. rewrite urgent_app, Hs.
    assert ((until - e) / HMI_DELAY_US <= (until - awake now ready x) / HMI_DELAY_US); [|lia].
    apply Z.div_le_mono; [done|lia]. }
  assert (Hother : (∀ fuel t', l ≠ HmiStep fuel t') → rested ready ts (fw_step x l) = true →
    Z.of_nat (urgent_posts (seen x l ++ project (steps ts) (fw_step x l))) <=
      2 * Z.max 0 (1 + (until - awake now ready x) / HMI_DELAY_US)).
  { intros Hl Hr'. apply (Hgo (awake t ready (fw_step x l))).
    - unfold awake. rewrite hmi_unmoved by done. destruct (at_hmi x); lia.
    - apply seen_free. intros fuel t' c El. by destruct (Hl fuel t').
    - by apply IH. }
  destruct l as [t'| |fuel t'| |d|c|p]; try (by apply Hother). clear Hother.
  destruct (at_hmi x) as [| | |mail|mail st ch|mail st cl|c] eqn:E.
  7:{ cbn [fw_step] in *. specialize (IH t (t + HMI_DELAY_US) (hmi_step fuel t' x) Ho Hr).
      assert (Ea : awake t (t + HMI_DELAY_US) (hmi_step fuel t' x) = t + HMI_DELAY_US)
        by (unfold awake, hmi_step; rewrite E; cbn [at_hmi]; unfold HMI_DELAY_US; lia).
      assert (En : awake now ready x = now) by (unfold awake; by rewrite E).
      assert (Hs : (urgent_posts (seen x (HmiStep fuel t')) <= 2)%nat).
      { cbn [seen]. rewrite E. destruct c as [c|]; [apply cost_dispatched|cbn; lia]. }
      rewrite Ea in IH. rewrite En, urgent_app. pose proof (window_next now t until). 
      pose proof (ordered_span _ _ _ Ho). lia. }
  3:{ apply andb_prop in Hr as [Hrt%Z.leb_le Hr]. apply (Hgo t).
      - unfold awake. rewrite E. lia.
      - apply seen_free. intros ? ? c' [= _ _]. by rewrite E.
      - rewrite <- (ready_awake t ready (fw_step x (HmiStep fuel t')) Hrt). by apply IH. }
  all: apply (Hgo (awake t ready (fw_step x (HmiStep fuel t')))); [|apply seen_free; intros ? ? c' [= _ _]; by rewrite E|by apply IH].
  all: unfold awake; rewrite E; case_match; lia.
Qed.
(** ** The contactors *)

Lemma promised_app standing s1 s2 x :
  Forall (promised (W:=board S D) standing) (project (s1 ++ s2) x) →
  Forall (promised standing) (project s1 x) ∧ Forall (promised standing) (project s2 (fw_exec s1 x)).
Proof.
  assert (E : project (s1 ++ s2) x = project s1 x ++ project s2 (fw_exec s1 x)); [|by rewrite E, Forall_app].
  revert x. induction s1 as [|l s1 IH]; intros x; [done|]. cbn [app project].
  rewrite IH, app_assoc. done.
Qed.

Lemma kept_exec standing (sched : list (action (board S D))) (c : config Q (board S D)) :
  fine_inv c → kept standing c → alerted standing c → Forall (promised standing) sched →
  kept standing (exec sched c).
Proof.
  revert c. induction sched as [|a sched IH]; intros c Hc Hk Ha Hp; [done|].
  apply Forall_cons_1 in Hp as [Hpa Hp]. destruct (alerted_act standing c a Hc Hk Ha Hpa) as [Ha' Hk'].
  change (exec (a :: sched) c) with (exec sched (act c a)). apply IH; try done. by apply fine_act, Hpa.
Qed.

(** Within [n] periods, if [n] covers the commands that the panel can send in them. *)
Lemma open_within (n : nat) (standing : bool) slack last ready now until ts x :
  fw_reachable x → alerted standing (view x) → kept standing (view x) →
  Forall (promised standing) (project (steps ts) x) →
  0 <= s_stateTimer (the_vcu (sys x)) < 4294966296 → 
  0 <= slack → last <= now → ordered now until ts = true → on_time slack last until ts x = true →
  rested ready ts x = true → (0 < n < 40)%nat →
  let span := Z.of_nat n * (VCU_DELAY_US + slack) in
  span < until - now →
  Z.of_nat (weight (the_vcu (sys x))) + 3 + 2 * Z.max 0 (1 + (now + span - awake now ready x) / HMI_DELAY_US)
    <= Z.of_nat n →
  is_safe_state (s_state (the_vcu (sys (fw_exec (steps ts) x)))) ∧ commanded (fw_exec (steps ts) x) = 0.
Proof.
  intros Hr Ha Hk Hp Ht Hs Hl Ho Hot Hre Hn span Hu Hw.
  destruct (on_time_prefix slack last now until ts x n) as (s1 & s2 & mid & -> & En & Hm & Hb); try done; [lia|subst span; lia|].
  unfold steps in *. rewrite map_app in *. fold (steps s1) (steps s2) in *.
  apply promised_app in Hp as [Hp1 Hp2]. apply rested_prefix in Hre.
  pose proof (posts_bound now mid ready s1 x Hm Hre) as Hpb.
  assert ((mid - awake now ready x) / HMI_DELAY_US <= (now + span - awake now ready x) / HMI_DELAY_US)
    by (apply Z.div_le_mono; [done|subst span; lia]).
  pose proof (begins_ticks (steps s1) x) as Hbt. pose proof (view_exec (steps s1) x) as Ev.
  pose proof (fw_fine_inv x Hr) as Hx.
  destruct (alarm_opens standing (project (steps s1) x) (view x)) as (Hsf & Hc & _); try done.
  - by apply fw_fine_reachable.
  - cbn [view unit_]. destruct (bool_decide _); cbn [Nat.b2n] in Hbt; lia.
  - rewrite <- Ev. cbn [view here unit_ ticks]. destruct (decide _); lia.
  - pose proof (settled_exec standing (project (steps s2) (fw_exec (steps s1) x)) (view (fw_exec (steps s1) x))) as Hse.
    rewrite <- view_exec in Hse. unfold fw_exec in *. rewrite foldl_app in *. fold (fw_exec (steps s1) x) in *.
    destruct Hse as (? & _ & ?); try done.
    + by apply fw_fine_inv, fw_reachable_exec.
    + rewrite Ev in *. split_and!; [done| |done]. by apply kept_exec.
Qed.

(** [C3] Alarm to open contactors, in real time.  Take any state the firmware can reach with
    the control unit in a safe state, with an E-STOP or FAULT request pending, or in READY or
    DRIVE with a critical record about to be tested, and any timed schedule from it in which
    the control unit ends its iterations at most 22.7 ms apart and the HMI task sleeps its
    100 ms (less one tick); the CAN and LoRa tasks, the bus, the panel and the expander do
    what they like.  If no RESET is queued or asked for, the unit is in a safe state with all
    contactors commanded open 250 ms later, and from then on; if RESETs are, but every record
    the unit takes from the mailbox is critical, 700 ms later. *)
Theorem contactors_open_in_time (standing : bool) slack last ready now until ts x :
  fw_reachable x → alerted standing (view x) → kept standing (view x) →
  (if standing then cause_stands (steps ts) x else no_reset (steps ts) x) →
  0 <= s_stateTimer (the_vcu (sys x)) < 4294966296 →
  0 <= slack <= 2700 → last <= now → ordered now until ts = true → on_time slack last until ts x = true →
  rested ready ts x = true →
  now + (if standing then 700000 else 250000) <= until →
  let y := fw_exec (steps ts) x in
  is_safe_state (s_state (the_vcu (sys y))) ∧ commanded y = 0.
Proof.
  intros Hr Ha Hk Hc Ht Hs Hl Ho Hot Hre Hu y.
  assert (Haw : now <= awake now ready x) by (unfold awake; destruct (at_hmi x); lia).
  assert (Hd : ∀ n, (now + n * (VCU_DELAY_US + slack) - awake now ready x) / HMI_DELAY_US <=
    (n * (VCU_DELAY_US + slack)) / HMI_DELAY_US) by (intros n; apply Z.div_le_mono; [done|lia]).
  pose proof (fw_fine_inv x Hr) as Hx. destruct (fi_queue _ Hx) as (q & Eq & _ & Hq). cbn in Eq.
  apply (open_within (if standing then 29 else 11) standing slack last ready now until); try done; [by apply promises|lia|by destruct standing; lia|..].
  - destruct standing; unfold VCU_DELAY_US; lia.
  - pose proof (resets_length (the_vcu (sys x))) as Hrl. unfold queued in Hrl. rewrite Eq in Hrl.
    unfold weight. destruct standing.
    + specialize (Hd 29). assert (29 * (VCU_DELAY_US + slack) / HMI_DELAY_US < 8); [|destruct (s_eStopPending _); cbn; lia].
      apply Z.div_lt_upper_bound; unfold VCU_DELAY_US, HMI_DELAY_US; lia.
    + destruct Hk as [_ Hk]. destruct (Hk eq_refl) as [Hn _]. rewrite resets_none by done. specialize (Hd 11).
      assert (11 * (VCU_DELAY_US + slack) / HMI_DELAY_US < 3); [|destruct (s_eStopPending _); cbn; lia].
      apply Z.div_lt_upper_bound; unfold VCU_DELAY_US, HMI_DELAY_US; lia.
Qed.

(** [C4] Touch to open contactors, in real time.  When the HMI task posts the E-STOP command
    it has read from the panel, at the time [now], and no RESET is queued, being handled or
    asked for after that, then under the timing above the control unit is in E-STOP or FAULT
    with all contactors commanded open 160 ms later and from then on, in every interleaving
    of the tasks and whatever the unit was doing. *)
Theorem estop_touch_opens_in_time fuel t slack last now until ts x :
  fw_reachable x → at_hmi x = HmiCommand (Some HMI_CMD_EMERGENCY_STOP) →
  VcuEvent.RESET ∉ queued (the_vcu (sys x)) → at_vcu x ≠ AtEvent VcuEvent.RESET →
  let x1 := fw_step x (HmiStep fuel t) in
  no_reset (steps ts) x1 →
  0 <= s_stateTimer (the_vcu (sys x)) < 4294966296 →
  0 <= slack <= 2700 → last <= now → ordered now until ts = true → on_time slack last until ts x1 = true →
  rested (now + HMI_DELAY_US) ts x1 = true →
  now + 160000 <= until →
  let y := fw_exec (steps ts) x1 in
  is_safe_state (s_state (the_vcu (sys y))) ∧ commanded y = 0.
Proof.
  intros Hr Hh Hq Hv x1 Hn Ht Hs Hl Ho Hot Hre Hu y.
  assert (Ew : at_hmi x1 = HmiWaiting) by (unfold x1; cbn [fw_step]; unfold hmi_step; by rewrite Hh).
  destruct (estop_dispatched fuel t x) as (Hr1 & Ha & Hk & Hw & Et & _ & _); try done. fold x1 in Hr1, Ha, Hk, Hw, Et.
  clearbody x1.
  apply (open_within 7 false slack last (now + HMI_DELAY_US) now until); try done; try lia.
  - by apply (promises false).
  - unfold VCU_DELAY_US. lia.
  - assert (Ea : awake now (now + HMI_DELAY_US) x1 = now + HMI_DELAY_US)
      by (unfold awake; rewrite Ew; unfold HMI_DELAY_US; lia).
    rewrite Ea.
    assert ((now + Z.of_nat 7 * (VCU_DELAY_US + slack) - (now + HMI_DELAY_US)) / HMI_DELAY_US < 1); [|lia].
    apply Z.div_lt_upper_bound; unfold VCU_DELAY_US, HMI_DELAY_US; lia.
Qed.
End Timing.

(** A period of the control unit every 20 ms, a touch of the E-STOP and a round of the HMI
    task every 100 ms; upsets of the expander. *)
Import (hints) RelayManager.FakeChip CanManagerCorrect.FakeTwai.
Module Timeline.
Abbreviation timed := (list (Z * step RelayManager.FakeChip.t CanManagerCorrect.FakeTwai.t FakePanel.state)).
Definition period (k : nat) : timed :=
  map (λ l, (20000 * Z.of_nat k, l))
    (replicate 11 VcuStep ++
     if (k mod 5 =? 0)%nat
     then Drill.touch HMI_CMD_EMERGENCY_STOP :: replicate 5 (HmiStep 100 0) ++ [ChipChange RelayManager.FakeChip.reset_chip]
     else []).
Definition periods (n : nat) : timed := flat_map period (seq 1 n).
End Timeline.

Lemma contactors_open_in_time_witness :
  commanded Drill.overheated = all_contactors ∧
  commanded (fw_exec (steps (Timeline.periods 35)) Drill.overheated) = 0.
Proof.
  split; [by vm_compute|].
  apply (contactors_open_in_time true 500 0 0 0 700000).
  - apply Drill.drill_reachable.
  - right; right; right. split; [done|]. split; [left; by vm_compute|]. vm_compute. lia.
  - split; [|done]. intros _ Hn. exfalso. apply Hn. by vm_compute.
  - apply Drill.stands_by. by vm_compute.
  - by vm_compute.
  - lia.
  - lia.
  - by vm_compute.
  - by vm_compute.
  - by vm_compute.
  - lia.
Defined.

Lemma estop_touch_opens_in_time_witness :
  commanded Drill.stopping = all_contactors ∧
  commanded (fw_exec (steps (Timeline.periods 8)) (fw_step Drill.stopping (HmiStep 0 0))) = 0.
Proof.
  split; [by vm_compute|].
  apply (estop_touch_opens_in_time 0 0 500 0 0 160000 (Timeline.periods 8)).
  - apply Drill.drill_reachable.
  - by vm_compute.
  - intros Hin. vm_compute in Hin. by apply not_elem_of_nil in Hin.
  - by vm_compute.
  - apply Drill.no_reset_by. by vm_compute.
  - by vm_compute.
  - lia.
  - lia.
  - by vm_compute.
  - by vm_compute.
  - by vm_compute.
  - lia.
Defined.
