(* ===== verification/BusToGround.v ===== *)
(** From the CAN bus to the ground station, across the CAN task, the mailbox and the LoRa
    task: what any reachable vehicle publishes is well typed and carries the speed of its
    rpm, so that of everything transmitted the receiver drops exactly the frames whose rpm
    or motor voltage lies outside its contract. *)
From S2P Require Import RelayManager CanManager CanParse CanManagerCorrect.
From S2P Require Import Prelude SystemConfig VehicleData FreeRtos VcuSafety IRelayActuator.
From S2P Require Import VcuLogic VcuLogicCorrect VcuTick VcuTickCorrect AksSystem EndToEnd Firmware.
From S2P Require Import OfflineBuffer UplinkScheduler Telemetry E22Config LoraLink EspLoraHal HMIHelpers DisplayHMI HmiTask LoraTask.
From stdpp Require Import relations.
Import RelayManager(relay_world, rm, dev, SpiMaster, Mcp23s17Read, Mcp23s17Write).
Import CanManager(can_world, cm, drv, emitted, TwaiDriver, CAN_Event(..)).
Open Scope Z_scope.

(** What the CAN task publishes. *)
Definition published (d : TelemetryData) : Prop :=
  telemetry_wf d ∧ TEL_speedKmhX10 d = rpmToSpeedKmhX10 (u16 (TEL_motorRpm d)).

Section Publishing.
Context {Q TQ S D P R : Type} `{FreeRtosQueueLaws Q VcuEvent.t} `{FreeRtosQueueLaws TQ TelemetryData}
  `{Mcp23s17Read S} `{TwaiLaws D} `{HmiUart P} `{EspLoraLaws R}.
Abbreviation fw := (firmware Q TQ S D P R).
Implicit Types (x y : fw) (l : step S D P).

Lemma snapshot_published t (b : board S D) : can_inv (cm (can b)) → published (can_snapshot t b).
Proof.
  intros [Hwf _ _ _ _ _ _ _ _]. split; [|done]. unfold can_snapshot, CanManager.getTelemetryData.
  pose proof (rpmToSpeedKmhX10_clamped (u16 (TEL_motorRpm (CanManager.s_telemetryData (cm (can b)))))
    ltac:(apply u16_range)) as Hs.
  destruct Hwf. constructor; cbn; try done; try apply u32_range. widths. lia.
Qed.

Lemma torque_inv t (w : can_world D) : can_inv (cm w) → can_inv (cm (CanManager.sendTorqueCommand t w).2).
Proof.
  intros Hw. unfold CanManager.sendTorqueCommand, CanManager.setc, modify, gets, mbind, M_bind, mret, M_ret.
  repeat case_match; simplify_eq/=; try done; destruct Hw; by constructor.
Qed.


(** Start-up's wiring, the CAN object's invariant, and what the mailbox holds. *)
Record publishing x : Prop := {
  pu_sink : s_torqueSink (the_vcu (sys x)) = Some CAN_torqueSink;
  pu_mailbox : ∃ q, TEL_sensorDataQueue (sys x) = Some q ∧ q_capacity q = 1%nat ∧ Forall published (q_items q);
  pu_can : can_inv (cm (can (the_board (sys x))));
}.

Lemma publishing_same x y : publishing x →
  s_torqueSink (the_vcu (sys y)) = s_torqueSink (the_vcu (sys x)) →
  TEL_sensorDataQueue (sys y) = TEL_sensorDataQueue (sys x) →
  can_inv (cm (can (the_board (sys y)))) → publishing y.
Proof. intros [Hs Hq _] Es Eq Hc. constructor; rewrite ?Es, ?Eq; done. Qed.

(** A step of the control unit leaves the CAN object's record alone. *)
Lemma periodic_sink (v : vcu Q (board S D)) b : s_torqueSink (periodic v b).1 = s_torqueSink v.
Proof.
  unfold periodic, handleIdle, handleReady, handleDrive, handleEmergencyStop, handleFault.
  by repeat (case_match; simplify_eq/=).
Qed.
Lemma unit_step (v : vcu Q (board S D)) (b : board S D) k :
  s_torqueSink v = Some CAN_torqueSink → can_inv (cm (can b)) →
  let x := tick_step (k, v, b) in
  s_torqueSink x.1.2 = Some CAN_torqueSink ∧ can_inv (cm (can x.2)).
Proof.
  intros Hv Hb. destruct k; cbn [tick_step]; try done; try (by case_match).
  - destruct (noteWarning_eq v) as [w ->]. done.
  - unfold pollEvent. by repeat case_match; simplify_eq.
  - destruct (handleEvent e v b) as [[ret v2] b2] eqn:E. split.
    + apply handleEvent_spec in E as ([_ Hk _ _] & _). cbn. congruence.
    + unfold handleEvent in E. repeat (case_match; simplify_eq); auto.
  - pose proof (periodic_untouched (λ b : board S D, can_inv (cm (can b))) v b) as Hp.
    pose proof (periodic_sink v b) as Hk. destruct (periodic v b) as [v2 b2]. split; [by etrans|].
    apply Hp; [|done]. constructor; try done. rewrite Hv. intros k t b0 [= <-] Hb0. unfold CAN_torqueSink.
    destruct (canForTorque b0); [|done]. by apply torque_inv.
Qed.

Lemma publishing_can t x : publishing x → publishing (can_step t x).
Proof.
  intros Hx. pose proof Hx as [Hs (q & Eq & Hcap & Hq) Hc]. unfold can_step.
  destruct (at_can x) as [| |[|e events]|]; [| | | |done].
  - unfold can_setup. set (w := {| (can (the_board (sys x))) with cm := _ |}).
    pose proof (preserves_begin w) as Hb. destruct (CanManager.begin w) as [ok w'].
    apply (publishing_same x); try done. apply Hb. destruct Hc. by constructor.
  - apply (publishing_same x); try done. by apply preserves_process.
  - constructor; try done. cbn. rewrite Eq. eexists. split; [done|].
    destruct (q_overwrite (can_snapshot t (the_board (sys x))) q Hcap) as [-> Hcap'].
    split; [congruence|]. repeat constructor; by apply snapshot_published.
  - apply (publishing_same x); try done. cbn. unfold CAN_handleEvent. case_match; try done.
    by destruct (postEvent_frame VcuEvent.FAULT_DETECTED (the_vcu (sys x))) as (_ & _ & E & _).
Qed.

Lemma publishing_vcu x : publishing x → publishing (fw_step x VcuStep).
Proof.
  intros Hx. pose proof Hx as [Hs _ Hc]. cbn [fw_step]. unfold vcu_step_of. case_decide as Hd.
  - cbn [act]. rewrite decide_True by done. apply (publishing_same x); try done. cbn.
    case_match; [|done]. unfold setTelemetryData. by case_match.
  - pose proof (unit_step _ _ (at_vcu x) Hs Hc) as [Hs' Hc']. cbn [act view here unit_ world] in *.
    destruct (tick_step _) as [[k v] b]. by apply (publishing_same x); [|etrans|..].
Qed.

Lemma publishing_hmi fuel t x : publishing x → publishing (hmi_step fuel t x).
Proof.
  intros Hx. pose proof Hx as [_ _ Hc]. unfold hmi_step.
  destruct (at_hmi x) as [| | |?|? ? ?|? ? ?|c]; try done; repeat case_match; try done; try (by apply (publishing_same x)).
  apply (publishing_same x); try done. cbn. rewrite dispatch_posts. case_match; [|done].
  by match goal with |- context [postEvent ?e ?v] => destruct (postEvent_frame e v) as (_ & _ & -> & _) end.
Qed.

Lemma publishing_step x l : publishing x → publishing (fw_step x l).
Proof.
  intros Hx. destruct l as [t| |fuel t| |d|c|p].
  - by apply publishing_can.
  - by apply publishing_vcu.
  - by apply publishing_hmi.
  - cbn. unfold lora_step. repeat case_match; try done; by apply (publishing_same x); destruct Hx.
  - apply (publishing_same x); try done. apply Hx.
  - apply (publishing_same x); try done. apply Hx.
  - by apply (publishing_same x); destruct Hx.
Qed.

Lemma publishing_boot c d s (p : P) (h : R) : app_main true (sys_initial c d) = (true, s) →
  xQueueCreate (Q:=Q) 8 ≠ None → publishing (tasks_created s p h).
Proof.
  intros E Hq8. destruct (wired_boot c d s E Hq8) as [Hs (q & Hq & Hcap) _].
  unfold app_main, sys_initial in E. cbn [the_board relays] in E.
  destruct (RelayManager.begin _) as [[] r]; [|done]. cbn [negb] in E.
  destruct (init true _ _) as [v b] eqn:Ei. injection E as Eq <-.
  assert (Hb : can b = CanManager.Build_can_world CanManager.CanMgr_static d []).
  { unfold init in Ei. repeat (case_match; simplify_eq/=); done. }
  constructor; cbn in *; [done| |rewrite Hb; apply static_inv].
  exists q. split_and!; [done..|]. rewrite (proj1 (q_create _ _ Hq)). constructor.
Qed.
Lemma publishing_exec sched x : publishing x → publishing (fw_exec sched x).
Proof. revert x. induction sched as [|l sched IH]; intros x Hx; [done|]. by apply IH, publishing_step. Qed.

Lemma mailbox_published x d : publishing x → mailbox (sys x) = Some d → published d.
Proof.
  intros [_ (q & Eq & _ & Hq) _]. unfold mailbox. rewrite Eq, q_peek.
  destruct (q_items q) as [|d' l]; [done|]. intros [= ->]. by apply Forall_inv in Hq.
Qed.

Lemma lora_other l x : l ≠ LoraStep → lora (fw_step x l) = lora x.
Proof.
  intros Hl. destruct l as [t| |fuel t| |d|c|p]; try done; cbn.
  - unfold can_step. destruct (at_can x) as [| |[|e l]|]; try done. by destruct (can_setup _).
  - unfold hmi_step. by repeat case_match.
Qed.

(** The LoRa task, started on [h]: what it found in the mailbox was there at some moment of
    the schedule. *)
Lemma lora_fed sched x h : lora x = inl h →
  match lora (fw_exec sched x) with
  | inl h' => h' = h ∧ LoraStep ∉ sched
  | inr s => ∃ t mails, lora_start LORA_START_FUEL h = Some t ∧ s = lora_run t mails ∧
      ∀ d, Some (Some d) ∈ mails → ∃ s1 s2, sched = s1 ++ s2 ∧ mailbox (sys (fw_exec s1 x)) = Some d
  end.
Proof.
  intros E. induction sched as [|l sched IH] using rev_ind; cbn.
  { rewrite E. split; [done|apply not_elem_of_nil]. }
  assert (Hx : fw_exec (sched ++ [l]) x = fw_step (fw_exec sched x) l) by (unfold fw_exec; by rewrite foldl_app).
  rewrite Hx. clear Hx. set (y := fw_exec sched x) in *.
  assert (Hpre : ∀ d, (∃ s1 s2, sched = s1 ++ s2 ∧ mailbox (sys (fw_exec s1 x)) = Some d) →
    ∃ s1 s2, sched ++ [l] = s1 ++ s2 ∧ mailbox (sys (fw_exec s1 x)) = Some d).
  { intros d (s1 & s2 & -> & Hd). exists s1, (s2 ++ [l]). by rewrite app_assoc. }
  assert (Hl : l = LoraStep ∨ l ≠ LoraStep) by (destruct l; by (left + right)). destruct Hl as [->|Hne].
  - cbn [fw_step]. unfold lora_step. destruct (lora y) as [h'|s].
    + destruct IH as [-> _]. destruct (lora_start_ends LORA_START_FUEL h) as (t & -> & _); [done|].
      cbn. exists t, []. split_and!; [done..|]. by intros ? []%not_elem_of_nil.
    + destruct IH as (t & mails & Et & -> & Hm). cbn.
      set (m := match TEL_sensorDataQueue (sys y) with Some q => _ | None => _ end).
      exists t, (mails ++ [m]). split_and!; [done|unfold lora_run; by rewrite foldl_app|].
      intros d [Hd|Hd]%elem_of_app; [by apply Hpre, Hm|]. apply list_elem_of_singleton in Hd.
      exists sched, [LoraStep]. split; [done|]. fold y. unfold mailbox.
      unfold m in Hd. destruct (TEL_sensorDataQueue (sys y)); [|done]. by injection Hd.
  - rewrite (lora_other l y Hne). destruct (lora y) as [h'|s].
    + destruct IH as [-> Hn]. split; [done|]. rewrite not_elem_of_app, list_elem_of_singleton. naive_solver.
    + destruct IH as (t & mails & Et & -> & Hm). exists t, mails. eauto.
Qed.

(** [C6] From the bus to the ground station, under preemption.  Power on, with any radio
    module, and let the steps of the four tasks interleave in any order, whatever the bus
    carries.  Unless the LoRa task has not had its first step, its start-up has ended: in a
    restart or without telemetry the radio never gets a byte; otherwise the radio's configuration
    has ended with one of its verdicts ([booted]) and the bytes sent since are the frames of records that the CAN task published and that were in the
    mailbox at some moment, numbered from zero without a gap, and the receiver accepts a
    frame, and reads it back field by field, exactly when its rpm is in 0..20000 and its
    motor voltage at most 3276.7 V: no other value of any bus frame, sensor or counter makes
    it drop one. *)
Theorem ground_station_receives c d s (p : P) (h : R) sched :
  app_main true (sys_initial c d) = (true, s) → xQueueCreate (Q:=Q) 8 ≠ None →
  let boot := tasks_created s p h in
  match lora (fw_exec sched boot) with
  | inl h' => h' = h ∧ LoraStep ∉ sched
  | inr (LO_restarted h') | inr (LO_disabled h') => v_sent (esp_view h') = v_sent (esp_view h)
  | inr (LO_running s) => ∃ base ds,
      v_sent (esp_view (x_hal (LO_txCtx s))) = v_sent base ++ frames ds ∧
      booted (esp_view h) base ∧
      ∀ i d, ds !! i = Some d → published d ∧
        (∃ s1 s2, sched = s1 ++ s2 ∧ mailbox (sys (fw_exec s1 boot)) = Some d) ∧
        let frame := frame_bytes (u32 (Z.of_nat i)) (sanitizeForUplink d) in
        frames ds !! i = Some frame ∧
        (parse_uks_frame frame = inr (frame_fields (u32 (Z.of_nat i)) (sanitizeForUplink d)) ↔
         0 <= TEL_motorRpm d <= TEL_RPM_MAX ∧ TEL_motorVoltageDeciV d <= 32767)
  end.
Proof.
  intros E Hq boot. pose proof (lora_fed sched boot h eq_refl) as Hf.
  destruct (lora (fw_exec sched boot)) as [h'|st]; [done|]. destruct Hf as (t & mails & Et & -> & Hm).
  assert (Hpub : ∀ d, Some (Some d) ∈ mails → published d).
  { intros d0 (s1 & s2 & -> & Hd)%Hm. eapply mailbox_published; [|exact Hd].
    by apply publishing_exec, (publishing_boot c d). }
  destruct (lora_run_ends LORA_START_FUEL h mails) as (t' & Et' & Hx); [done|intros ? ?; by apply Hpub|].
  rewrite Et in Et'. injection Et' as <-.
  destruct (lora_run t mails) as [h'|h'|st]; [by rewrite Hx..|].
  destruct Hx as (base & ds & Hb & [[_ _ Hview _ Hg] _ _ _]). exists base, ds.
  split; [by rewrite Hview|]. split; [exact Hb|].
  intros i d0 Hi. destruct (proj1 (Forall_lookup _ _) Hg i d0 Hi) as [Hd Hin].
  split_and!; [by apply Hpub|by apply Hm|]. cbv zeta. split; [unfold frames; by rewrite list_lookup_imap, Hi|].
  apply frame_accepted_iff; [done|apply u32_range|]. destruct (Hpub d0 Hin) as [_ ->].
  apply rpmToSpeedKmhX10_clamped, u16_range.
Qed.
End Publishing.

(** ** On the bench

    Some seconds of a vehicle in READY, then overheated, on the simulated radio. *)
Import (hints) RelayManager.FakeChip CanManagerCorrect.FakeTwai.
Module OnAir.
Import Drill.
Definition flight : steps :=
  to_ready ++ replicate 61 LoraStep ++
  BusChange (Vehicle.bus [Vehicle.e000; Vehicle.e001 75]) :: can_round 1100000 ++ replicate 60 LoraStep.
Definition frames_out (x : state) : option nat :=
  match lora x with inr (LO_running s) => Some (length (v_sent (esp_view (x_hal (LO_txCtx s))))) | _ => None end.
Lemma on_air x n : frames_out x = Some n → ∃ s, lora x = inr (LO_running s) ∧
  length (v_sent (esp_view (x_hal (LO_txCtx s)))) = n.
Proof. unfold frames_out. destruct (lora x) as [h|[h|h|s]]; try done. intros [= <-]. by exists s. Qed.
End OnAir.

Lemma ground_station_receives_witness : ∃ s base ds,
  lora (fw_exec OnAir.flight Drill.power_on) = inr (LO_running s) ∧
  v_sent (esp_view (x_hal (LO_txCtx s))) = v_sent base ++ frames ds ∧
  length (v_sent (esp_view (x_hal (LO_txCtx s)))) = 4%nat.
Proof.
  destruct (OnAir.on_air (fw_exec OnAir.flight Drill.power_on) 4) as (s & Es & Hn); [by vm_compute|].
  pose proof (ground_station_receives _ _ _ (Firmware.panel Drill.power_on) (FakeEsp.off true false) OnAir.flight
    Drill.boots ltac:(discriminate)) as Hx. cbv zeta in Hx.
  rewrite (eq_refl : tasks_created Vehicle.booted (Firmware.panel Drill.power_on) (FakeEsp.off true false)
    = Drill.power_on), Es in Hx.
  destruct Hx as (base & ds & Hv & _). exists s, base, ds. split; [exact Es|split; [exact Hv|exact Hn]].
Defined.
