(* ===== verification/CanReplay.v ===== *)
(** [tools/can_replay/can_replay.cpp]: the host tool that feeds a recorded CAN session to
    the parsers of [CanParse.v] and checks the constants expected of an idle pack.

    Text is a list of character codes, as in [Telemetry.v].  The C library conversions the
    tool calls ([strtoul], [strtol], extraction of words) are modelled for the C locale and
    the 64-bit [long] of the hosts the tool is built for.  The file system is an argument
    of [main].  Messages are values of types of their own; the printed report is not
    modelled beyond the statistics it prints. *)
From S2P Require Import Prelude VehicleData CanParse.
From stdpp Require Import gmap.
From Stdlib Require Import Ascii String.
Open Scope Z_scope.

(** ** The C library *)

Definition isspace (c : Z) : bool := (c =? 32) || ((9 <=? c) && (c <=? 13)).

Fixpoint skip_while (p : Z → bool) (l : list Z) : list Z :=
  match l with
  | [] => []
  | c :: l' => if p c then skip_while p l' else l
  end.

Definition hex_digit (c : Z) : option Z :=
  if (48 <=? c) && (c <=? 57) then Some (c - 48)
  else if (65 <=? c) && (c <=? 70) then Some (c - 55)
  else if (97 <=? c) && (c <=? 102) then Some (c - 87)
  else None.
Definition dec_digit (c : Z) : option Z :=
  if (48 <=? c) && (c <=? 57) then Some (c - 48) else None.

(** The longest prefix of digits, as a number. *)
Fixpoint read_number (digit : Z → option Z) (base acc : Z) (l : list Z) : Z :=
  match l with
  | [] => acc
  | c :: l => match digit c with
              | Some d => read_number digit base (acc * base + d) l
              | None => acc
              end
  end.

(** An optional sign. *)
Definition read_sign (l : list Z) : bool * list Z :=
  match l with
  | c :: l' => if c =? 45 then (true, l') else if c =? 43 then (false, l') else (false, l)
  | [] => (false, [])
  end.

(** An optional [0x], taken only when a digit follows. *)
Definition skip_0x (l : list Z) : list Z :=
  match l with
  | z :: x :: c :: l' =>
      if (z =? 48) && ((x =? 120) || (x =? 88)) && bool_decide (is_Some (hex_digit c)) then c :: l' else l
  | _ => l
  end.

Definition ULONG_MAX : Z := 2 ^ 64 - 1.
Definition LONG_MAX : Z := 2 ^ 63 - 1.

(** [strtoul (s, nullptr, 16)] and [strtol (s, nullptr, 10)]. *)
Definition strtoul16 (s : list Z) : Z :=
  let '(neg, l) := read_sign (skip_while isspace s) in
  let v := read_number hex_digit 16 0 (skip_0x l) in
  if ULONG_MAX <? v then ULONG_MAX else if neg : bool then u64 (- v) else v.
Definition strtol10 (s : list Z) : Z :=
  let '(neg, l) := read_sign (skip_while isspace s) in
  let v := read_number dec_digit 10 0 l in
  if neg : bool then Z.max (- v) (- LONG_MAX - 1) else Z.min v LONG_MAX.

(** [while (std::getline (ss, item, delim))]: no item for an empty rest. *)
Fixpoint getlines (delim : Z) (acc l : list Z) : list (list Z) :=
  match l with
  | [] => match acc with [] => [] | _ => [acc] end
  | c :: l => if c =? delim then acc :: getlines delim [] l else getlines delim (acc ++ [c]) l
  end.

(** [while (hs >> word)]. *)
Fixpoint words (acc l : list Z) : list (list Z) :=
  match l with
  | [] => match acc with [] => [] | _ => [acc] end
  | c :: l =>
      if isspace c then match acc with [] => words [] l | _ => acc :: words [] l end
      else words (acc ++ [c]) l
  end.

(** ** Data *)

(* [src ESP_AKS/tools/can_replay/can_replay.cpp:30-35 Frame] *)
Record Frame := {
  isExt : bool;
  id : Z;                   (* uint32_t *)
  msg : twai_message_t;
  lineNo : Z;
}.

(** The reasons [parseLine] gives, with the values their messages show. *)
Inductive line_error :=
  | BadFieldCount (n : nat)
  | BadFormat (s : list Z)
  | BadDlc (s : list Z)
  | TooManyBytes
  | ByteCountMismatch (dlc : Z) (n : nat).

(** The violations, with the line they were found on. *)
Inductive violation :=
  | BadLine (line : Z) (e : line_error)
  | E000Short (line : Z)
  | E000PackVoltage (line : Z) (v : Z)
  | E000Bytes (line : Z)
  | E000Current (line : Z) (c : Z)
  | ChargerShort (line : Z)
  | ChargerSetpoint (line : Z) (v i : Z).

(* [src ESP_AKS/tools/can_replay/can_replay.cpp:37-42 Stats] *)
Record Stats := {
  total : Z;                              (* long *)
  countsById : gmap (list Z) Z;           (* std::map *)
  unknownIds : gset (list Z);             (* std::set *)
  violations : list violation;
  violationCount : Z;                     (* long *)
}.
(* [src ESP_AKS/tools/can_replay/can_replay.cpp:37-42 Stats] *)
Definition Stats_zero : Stats := {|
  total := 0; countsById := ∅; unknownIds := ∅; violations := []; violationCount := 0 |}.

(* [src ESP_AKS/tools/can_replay/can_replay.cpp:44-48 addViolation] *)
Definition addViolation (v : violation) (st : Stats) : Stats :=
  let st := {| st with violationCount := violationCount st + 1 |} in
  if (List.length (violations st) <? 20)%nat
  then {| st with violations := violations st ++ [v] |} else st.

(* [src ESP_AKS/tools/can_replay/can_replay.cpp:54-54 kExpectedPackVDeciV] *)
Definition kExpectedPackVDeciV : Z := 790.
(* [src ESP_AKS/tools/can_replay/can_replay.cpp:55-55 kExpectedChargerVsetDeciV] *)
Definition kExpectedChargerVsetDeciV : Z := 880.
(* [src ESP_AKS/tools/can_replay/can_replay.cpp:56-56 kExpectedChargerIsetDeciA] *)
Definition kExpectedChargerIsetDeciA : Z := 1000.
(* [src ESP_AKS/tools/can_replay/can_replay.cpp:59-62 kKnownExtIds] *)
Definition kKnownExtIds : list Z :=
  [0xE000; 0xE001; 0xE002; 0xE003; 0xE004; 0xE005; 0xE032; 0xE033; 0x1806E5F4].
(* [src ESP_AKS/tools/can_replay/can_replay.cpp:63-63 kKnownStdIds] *)
Definition kKnownStdIds : list Z := [0].

(* [src ESP_AKS/tools/can_replay/can_replay.cpp:65-71 trim] *)
Definition trim (s : list Z) : list Z :=
  let ws c := (c =? 32) || (c =? 9) || (c =? 13) || (c =? 10) in
  reverse (skip_while ws (reverse (skip_while ws s))).

(* [src ESP_AKS/tools/can_replay/can_replay.cpp:73-78 idKey] *)
Definition idKey (isExt : bool) (id : Z) : list Z :=
  chars (if isExt then "EXT" else "STD") ++ chars " 0x" ++ print_hex 8 id.

(** The loop over the words of the last field; [None] is the refusal of a ninth byte. *)
(* [src ESP_AKS/tools/can_replay/can_replay.cpp:114-123 parseLine] *)
Fixpoint read_bytes (toks : list (list Z)) (n : nat) (data : list Z) : option (nat * list Z) :=
  match toks with
  | [] => Some (n, data)
  | byteStr :: toks =>
      if (8 <=? n)%nat then None
      else read_bytes toks (S n) (<[n := u8 (strtoul16 byteStr)]> data)
  end.

(* [src ESP_AKS/tools/can_replay/can_replay.cpp:82-131 parseLine] *)
Definition parseLine (line : list Z) (lineNo : Z) : line_error + Frame :=
  match List.map trim (getlines 124 [] line) with
  | [fmt; idStr; dlcStr; hex] =>
      let parsed (isExt : bool) :=
        let id := u32 (strtoul16 idStr) in
        let dlc := strtol10 dlcStr in
        if (dlc <? 0) || (8 <? dlc) then inl (BadDlc dlcStr)
        else
          match read_bytes (words [] hex) 0 (replicate 8 0) with
          | None => inl TooManyBytes
          | Some (n, data) =>
              if negb (Z.of_nat n =? dlc) then inl (ByteCountMismatch dlc n)
              else inr {| isExt := isExt; id := id; lineNo := lineNo;
                          msg := {| identifier := id; extd := false; rtr := false;
                                    data_length_code := dlc; data := data |} |}
          end in
      if bool_decide (fmt = chars "EXT") then parsed true
      else if bool_decide (fmt = chars "STD") then parsed false
      else inl (BadFormat fmt)
  | parts => inl (BadFieldCount (List.length parts))
  end.

(** Adds a violation when a check fails. *)
Definition expect (ok : bool) (v : violation) (st : Stats) : Stats :=
  if ok then st else addViolation v st.

(** The parsers of the frames without known fields run and their result is dropped. *)
(* [src ESP_AKS/tools/can_replay/can_replay.cpp:133-221 processExtFrame] *)
Definition processExtFrame (f : Frame) (sessionAsserts : bool) (st : Stats) : Stats :=
  let where_ := lineNo f in
  if id f =? 0xE000 then
    match parseLbBmsE000 (msg f) TelemetryData_zero with
    | None => addViolation (E000Short where_) st
    | Some out =>
        if negb sessionAsserts then st
        else
          let st := expect (TEL_bmsPackVoltageDeciV out =? kExpectedPackVDeciV)
                      (E000PackVoltage where_ (TEL_bmsPackVoltageDeciV out)) st in
          let st := expect ((byte_at (data (msg f)) 2 =? 0x03) && (byte_at (data (msg f)) 3 =? 0x16))
                      (E000Bytes where_) st in
          let cur := TEL_bmsCurrentCentiA out in
          expect ((cur =? -10) || (cur =? -20)) (E000Current where_ cur) st
    end
  else if id f =? 0x1806E5F4 then
    match parseCharger1806E5F4 (msg f) with
    | None => addViolation (ChargerShort where_) st
    | Some cmd =>
        if negb sessionAsserts then st
        else expect ((chargeVoltageSetpointDeciV cmd =? kExpectedChargerVsetDeciV) &&
                     (chargeCurrentSetpointDeciA cmd =? kExpectedChargerIsetDeciA))
               (ChargerSetpoint where_ (chargeVoltageSetpointDeciV cmd) (chargeCurrentSetpointDeciA cmd)) st
    end
  else if (id f =? 0xE001) || (id f =? 0xE002) || (id f =? 0xE003) || (id f =? 0xE004)
       || (id f =? 0xE005) || (id f =? 0xE032) || (id f =? 0xE033) then st
  else {| st with unknownIds := unknownIds st ∪ {[ idKey true (id f) ]} |}.

(** One line of the log; the state is the statistics and the number of bad lines. *)
(* [src ESP_AKS/tools/can_replay/can_replay.cpp:251-277 main] *)
Definition processLine (sessionAsserts : bool) (line : list Z) (lineNo : Z) (s : Stats * Z) : Stats * Z :=
  let '(st, badLines) := s in
  let t := trim line in
  match t with
  | [] => s
  | c :: _ =>
      if c =? 35 then s
      else
        match parseLine t lineNo with
        | inl err => (addViolation (BadLine lineNo err) st, badLines + 1)
        | inr f =>
            let key := idKey (isExt f) (id f) in
            let st := {| st with total := total st + 1;
                                 countsById := <[key := default 0 (countsById st !! key) + 1]> (countsById st) |} in
            let st :=
              if isExt f then processExtFrame f sessionAsserts st
              else if negb (bool_decide (id f ∈ kKnownStdIds))
              then {| st with unknownIds := unknownIds st ∪ {[ idKey false (id f) ]} |}
              else st in
            (st, badLines)
        end
  end.

(* [src ESP_AKS/tools/can_replay/can_replay.cpp:251-277 main] *)
Fixpoint processLines (sessionAsserts : bool) (lines : list (list Z)) (lineNo : Z) (s : Stats * Z) : Stats * Z :=
  match lines with
  | [] => s
  | line :: lines =>
      processLines sessionAsserts lines (lineNo + 1) (processLine sessionAsserts line (lineNo + 1) s)
  end.

(** The arguments: the flag and the last other one. *)
(* [src ESP_AKS/tools/can_replay/can_replay.cpp:226-233 main] *)
Definition parseArgs (argv : list (list Z)) : bool * list Z :=
  foldl (λ '(sessionAsserts, path) a,
    if bool_decide (a = chars "--generic") then (false, path) else (sessionAsserts, a)) (true, []) argv.

(** [main] on the arguments after the program's name: the exit code, and what the report
    shows.  [open] is the file system. *)
(* [src ESP_AKS/tools/can_replay/can_replay.cpp:225-302 main] *)
Definition main (open : list Z → option (list Z)) (argv : list (list Z)) : Z * option (Stats * Z) :=
  let '(sessionAsserts, path) := parseArgs argv in
  match path with
  | [] => (2, None)
  | _ =>
      match open path with
      | None => (2, None)
      | Some content =>
          let '(st, badLines) := processLines sessionAsserts (getlines 10 [] content) 0 (Stats_zero, 0) in
          if 0 <? violationCount st then (1, Some (st, badLines)) else (0, Some (st, badLines))
      end
  end.

(** ** What a run checks *)

(** The rule for one frame. *)
Definition frame_rule (session : bool) (f : Frame) : Prop :=
  isExt f = true →
  let d := data (msg f) in
  (id f = 0xE000 → 8 <= data_length_code (msg f) ∧
     (session = true → byte_at d 2 = 0x03 ∧ byte_at d 3 = 0x16 ∧ byte_at d 0 = 0xFF ∧
                       (byte_at d 1 = 0xFF ∨ byte_at d 1 = 0xFE))) ∧
  (id f = 0x1806E5F4 → 4 <= data_length_code (msg f) ∧
     (session = true → byte_at d 0 = 0x03 ∧ byte_at d 1 = 0x70 ∧ byte_at d 2 = 0x03 ∧ byte_at d 3 = 0xE8)).

(** The rule for one line: blank, a comment, or a well-formed frame that keeps its rule. *)
Definition line_rule (session : bool) (line : list Z) (lineNo : Z) : Prop :=
  trim line = [] ∨ head (trim line) = Some 35 ∨
  ∃ f, parseLine (trim line) lineNo = inr f ∧ frame_rule session f.

Fixpoint lines_rule (session : bool) (lines : list (list Z)) (lineNo : Z) : Prop :=
  match lines with
  | [] => True
  | line :: lines => line_rule session line (lineNo + 1) ∧ lines_rule session lines (lineNo + 1)
  end.

(** ** Proofs: the statistics *)

Definition stats_ok (st : Stats) : Prop :=
  0 <= violationCount st ∧ List.length (violations st) = Nat.min 20 (Z.to_nat (violationCount st)).

(** The table of known identifiers, which nothing reads, agrees with the switch: an extended
    frame is counted as unknown exactly when its identifier is not in the table. *)
Lemma unknown_iff f session st : unknownIds st = ∅ →
  unknownIds (processExtFrame f session st) = if bool_decide (id f ∈ kKnownExtIds) then ∅ else {[ idKey true (id f) ]}.
Proof.
  intros Hu. assert (Hv : ∀ v st, unknownIds (addViolation v st) = unknownIds st)
    by (intros; unfold addViolation; by case_match).
  assert (He : ∀ ok v st, unknownIds (expect ok v st) = unknownIds st) by (intros [] ? ?; [done|apply Hv]).
  unfold processExtFrame. case_bool_decide as Hin.
  - unfold kKnownExtIds in Hin. rewrite !elem_of_cons, elem_of_nil in Hin.
    destruct Hin as [->|[->|[->|[->|[->|[->|[->|[->|[->|[]]]]]]]]]]; cbn -[parseLbBmsE000 parseCharger1806E5F4];
      repeat case_match; rewrite ?He, ?Hv, ?He; done.
  - assert (Hne : ∀ k, k ∈ kKnownExtIds → (id f =? k) = false) by (intros k Hk; apply Z.eqb_neq; intros E; apply Hin; by rewrite E).
    rewrite !Hne by (unfold kKnownExtIds; set_solver). cbn. rewrite Hu. set_solver.
Qed.

Lemma addViolation_ok v st : stats_ok st →
  stats_ok (addViolation v st) ∧ violationCount (addViolation v st) = violationCount st + 1.
Proof.
  intros [Hc Hl]. unfold addViolation, stats_ok. cbn [violations violationCount].
  destruct (Nat.ltb_spec (List.length (violations st)) 20); cbn [violations violationCount];
    rewrite ?length_app; cbn [List.length]; lia.
Qed.

(** [st'] follows [st] with no new violation exactly when [P]. *)
Definition clean_iff (P : Prop) (st st' : Stats) : Prop :=
  stats_ok st' ∧ violationCount st <= violationCount st' ∧
  (violationCount st' = violationCount st ↔ P).

Lemma clean_refl st : stats_ok st → clean_iff True st st.
Proof. intros ?. refine (conj _ (conj _ _)); [done|lia|done]. Qed.
Lemma clean_ext P Q st st' : P ↔ Q → clean_iff P st st' → clean_iff Q st st'.
Proof. intros E (? & ? & ?). refine (conj _ (conj _ _)); [done..|by rewrite <- E]. Qed.
Lemma clean_trans P Q st st1 st2 : clean_iff P st st1 → clean_iff Q st1 st2 → clean_iff (P ∧ Q) st st2.
Proof. intros (? & ? & E1) (? & ? & E2). refine (conj _ (conj _ _)); [done|lia|]. rewrite <- E1, <- E2. lia. Qed.
Lemma clean_add v st : stats_ok st → clean_iff False st (addViolation v st).
Proof. intros H. destruct (addViolation_ok v st H) as [H1 H2]. refine (conj _ (conj _ _)); [done|lia|lia]. Qed.
Lemma clean_expect ok v st : stats_ok st → clean_iff (ok = true) st (expect ok v st).
Proof.
  intros H. unfold expect. destruct ok.
  - eapply clean_ext; [|by apply clean_refl]. done.
  - eapply clean_ext; [|by apply clean_add]. done.
Qed.

(** ** Proofs: the rules *)

Lemma read_bytes_ok toks n data n' data' : read_bytes toks n data = Some (n', data') →
  Forall is_u8 data → Forall is_u8 data' ∧ List.length data' = List.length data.
Proof.
  revert n data. induction toks as [|t toks IH]; intros n data; cbn [read_bytes].
  { by intros [= -> ->]. }
  destruct (8 <=? n)%nat; [done|]. intros E Hd. apply IH in E; [|apply Forall_insert; auto with aks].
  by rewrite length_insert in E.
Qed.

Lemma parseLine_bytes l n f : parseLine l n = inr f → bytes_ok (msg f) ∧ lineNo f = n.
Proof.
  unfold parseLine. destruct (map trim _) as [|fmt [|idStr [|dlcStr [|hex []]]]]; try done.
  repeat case_match; try done; intros [= <-]; cbn;
    (split; [|done]); match goal with E : read_bytes _ _ _ = Some _ |- _ =>
      apply read_bytes_ok in E as [? _]; [done|by repeat constructor] end.
Qed.

Lemma E000_constants d0 d1 d2 d3 : is_u8 d0 → is_u8 d1 → is_u8 d2 → is_u8 d3 →
  ((u16 (be16 d2 d3) =? kExpectedPackVDeciV) = true ∧ (d2 =? 0x03) && (d3 =? 0x16) = true ∧
   (i32 (i16 (be16 d0 d1) * 10) =? -10) || (i32 (i16 (be16 d0 d1) * 10) =? -20) = true) ↔
  (d2 = 0x03 ∧ d3 = 0x16 ∧ d0 = 0xFF ∧ (d1 = 0xFF ∨ d1 = 0xFE)).
Proof.
  intros H0 H1 H2 H3. unfold kExpectedPackVDeciV.
  rewrite andb_true_iff, orb_true_iff, !Z.eqb_eq, u16_id by auto with aks.
  rewrite !be16_eq, i32_times10 by (done || apply i16_range).
  assert (E : i16 (d0 * 256 + d1) = if d0 * 256 + d1 <? 32768 then d0 * 256 + d1 else d0 * 256 + d1 - 65536).
  { destruct (Z.ltb_spec (d0 * 256 + d1) 32768); zlia. }
  rewrite E. widths. destruct (Z.ltb_spec (d0 * 256 + d1) 32768); lia.
Qed.

Lemma charger_constants d0 d1 d2 d3 : is_u8 d0 → is_u8 d1 → is_u8 d2 → is_u8 d3 →
  (u16 (be16 d0 d1) =? kExpectedChargerVsetDeciV) && (u16 (be16 d2 d3) =? kExpectedChargerIsetDeciA) = true ↔
  (d0 = 0x03 ∧ d1 = 0x70 ∧ d2 = 0x03 ∧ d3 = 0xE8).
Proof.
  intros H0 H1 H2 H3. unfold kExpectedChargerVsetDeciV, kExpectedChargerIsetDeciA.
  rewrite andb_true_iff, !Z.eqb_eq, !u16_id, !be16_eq by auto with aks. widths. lia.
Qed.

Lemma processExtFrame_clean f session st : isExt f = true → bytes_ok (msg f) → stats_ok st →
  clean_iff (frame_rule session f) st (processExtFrame f session st).
Proof.
  intros He Hb Hs. unfold processExtFrame, frame_rule.
  pose proof (λ i, byte_at_u8 (msg f) i Hb) as Hu.
  destruct (Z.eqb_spec (id f) 0xE000) as [Ei|Hn0].
  { unfold parseLbBmsE000. destruct (Z.ltb_spec (data_length_code (msg f)) 8).
    { eapply clean_ext; [|by apply clean_add]. split; [done|]. intros Hr. destruct (Hr He) as [Hr1 _].
      destruct (Hr1 Ei). lia. }
    destruct session; cbn [negb].
    - cbn zeta. match goal with |- clean_iff _ _ (expect ?o3 ?v3 (expect ?o2 ?v2 (expect ?o1 ?v1 _))) =>
        pose proof (clean_expect o1 v1 st Hs) as C1;
        pose proof (clean_expect o2 v2 _ (proj1 C1)) as C2;
        pose proof (clean_expect o3 v3 _ (proj1 C2)) as C3 end.
      eapply clean_ext; [|exact (clean_trans _ _ _ _ _ C1 (clean_trans _ _ _ _ _ C2 C3))].
      cbn [TEL_bmsPackVoltageDeciV TEL_bmsCurrentCentiA]. unfold field16.
      pose proof (E000_constants _ _ _ _ (Hu 0%nat) (Hu 1%nat) (Hu 2%nat) (Hu 3%nat)) as E.
      rewrite E. clear - Ei He H. split; [intros Hr _; split; [auto|rewrite Ei; done]|].
      intros Hr. by apply (Hr He).
    - eapply clean_ext; [|by apply clean_refl]. rewrite Ei. intuition (done || lia). }
  destruct (Z.eqb_spec (id f) 0x1806E5F4) as [Ei|Hn1].
  { unfold parseCharger1806E5F4. destruct (Z.ltb_spec (data_length_code (msg f)) 4).
    { eapply clean_ext; [|by apply clean_add]. split; [done|]. intros Hr. destruct (Hr He) as [_ Hr1].
      destruct (Hr1 Ei). lia. }
    destruct session; cbn [negb].
    - eapply clean_ext; [|by apply clean_expect].
      cbn [chargeVoltageSetpointDeciV chargeCurrentSetpointDeciA]. unfold field16.
      rewrite charger_constants by apply Hu. rewrite Ei. intuition done.
    - eapply clean_ext; [|by apply clean_refl]. rewrite Ei. intuition done. }
  assert (Hr : frame_rule session f) by (intros _; split; intros; congruence).
  eapply (clean_ext True); [split; [intros _; exact Hr|done]|]. case_match; exact (clean_refl st Hs).
Qed.

Lemma processLine_clean session line n s : stats_ok s.1 →
  clean_iff (line_rule session line n) s.1 (processLine session line n s).1.
Proof.
  destruct s as [st bad]. cbn [fst]. intros Hs. unfold processLine, line_rule.
  destruct (trim line) as [|c t] eqn:Et; [eapply clean_ext; [|by apply clean_refl]; tauto|].
  cbn [head]. destruct (Z.eqb_spec c 35) as [->|Hc]; [eapply clean_ext; [|by apply clean_refl]; tauto|].
  destruct (parseLine (c :: t) n) as [e|f] eqn:Ep; cbn [fst].
  - eapply clean_ext; [|by apply clean_add]. split; [done|].
    intros [?|[[= ?]|(f & ? & _)]]; done.
  - destruct (parseLine_bytes _ _ _ Ep) as [Hb _].
    match goal with |- context [processExtFrame f session ?st1] =>
      pose proof (processExtFrame_clean f session st1) as Hx;
      assert (H1 : stats_ok st1 ∧ violationCount st1 = violationCount st) by done end.
    assert (Hr : frame_rule session f ↔ ([c] = [] ∨ Some c = Some 35 ∨
      ∃ f0, inr (A:=line_error) f = inr f0 ∧ frame_rule session f0)) by naive_solver.
    destruct (isExt f) eqn:Hex.
    + eapply clean_ext; [|by apply (Hx eq_refl Hb (proj1 H1))]. naive_solver.
    + assert (frame_rule session f) by (unfold frame_rule; congruence).
      eapply (clean_ext True); [naive_solver|]. case_match; exact (clean_refl st Hs).
Qed.

Lemma processLines_clean session lines n s : stats_ok s.1 →
  clean_iff (lines_rule session lines n) s.1 (processLines session lines n s).1.
Proof.
  revert n s. induction lines as [|line lines IH]; intros n s Hs; cbn [lines_rule processLines].
  { by apply clean_refl. }
  pose proof (processLine_clean session line (n + 1) s Hs) as H1.
  eapply clean_trans; [exact H1|]. apply IH, H1.
Qed.

(** ** Proofs: the sniffer's lines *)

Definition ws (c : Z) : bool := (c =? 32) || (c =? 9) || (c =? 13) || (c =? 10).
Definition sp (n : nat) : list Z := replicate n 32.

(** Characters of the tokens: no white space, no separator, no sign. *)
Definition solid (c : Z) : Prop := isspace c = false ∧ c ≠ 124 ∧ c ≠ 45 ∧ c ≠ 43.
Lemma solid_ws c : solid c → ws c = false.
Proof.
  intros [H _]. unfold isspace, ws in *. apply orb_false_iff in H as [H1 H2].
  rewrite H1. destruct (Z.eqb_spec c 9), (Z.eqb_spec c 13), (Z.eqb_spec c 10); subst; done.
Qed.

Lemma skip_sp (p : Z → bool) n l : p 32 = true → skip_while p (sp n ++ l) = skip_while p l.
Proof. intros Hp. induction n as [|n IH]; [done|]. cbn. by rewrite Hp. Qed.
Lemma skip_none (p : Z → bool) l c : head l = Some c → p c = false → skip_while p l = l.
Proof. destruct l; [done|]. cbn. by intros [= ->] ->. Qed.

Lemma trim_pad a l b c d : head l = Some c → last l = Some d → ws c = false → ws d = false →
  trim (sp a ++ l ++ sp b) = l.
Proof.
  intros Hc Hd Wc Wd. unfold trim. fold ws. rewrite skip_sp by done.
  assert (H1 : skip_while ws (l ++ sp b) = l ++ sp b).
  { eapply skip_none; [|exact Wc]. destruct l; [done|]. exact Hc. }
  rewrite H1, reverse_app. unfold sp. rewrite reverse_replicate. fold (sp b).
  rewrite skip_sp by done. rewrite (skip_none _ _ d); [apply reverse_involutive| |done].
  by rewrite head_reverse.
Qed.
Lemma trim_sp a : trim (sp a) = [].
Proof.
  unfold trim. rewrite <- (app_nil_r (sp a)), skip_sp by done. done.
Qed.

Lemma getlines_piece acc l rest : Forall (λ c, c ≠ 124) l →
  getlines 124 acc (l ++ 124 :: rest) = (acc ++ l) :: getlines 124 [] rest.
Proof.
  intros Hl. revert acc. induction Hl as [|c l Hc _ IH]; intros acc; cbn.
  - by rewrite app_nil_r.
  - rewrite (proj2 (Z.eqb_neq _ _) Hc), IH. by rewrite <- app_assoc.
Qed.
Lemma getlines_last acc l : Forall (λ c, c ≠ 124) l →
  getlines 124 acc l = match acc ++ l with [] => [] | _ => [acc ++ l] end.
Proof.
  intros Hl. revert acc. induction Hl as [|c l Hc _ IH]; intros acc; cbn.
  - rewrite app_nil_r. by destruct acc.
  - rewrite (proj2 (Z.eqb_neq _ _) Hc), IH. by rewrite <- app_assoc.
Qed.

Fixpoint join (ws : list (list Z)) : list Z :=
  match ws with
  | [] => []
  | [w] => w
  | w :: ws => w ++ 32 :: join ws
  end.

Lemma words_token acc w rest : Forall solid w → acc ++ w ≠ [] →
  words acc (w ++ 32 :: rest) = (acc ++ w) :: words [] rest.
Proof.
  intros Hw. revert acc. induction Hw as [|c w [Hc _] _ IH]; intros acc Hne; cbn.
  - rewrite app_nil_r in *. by destruct acc.
  - rewrite Hc, IH; rewrite <- app_assoc; done.
Qed.
Lemma words_end acc w : Forall solid w → words acc w = match acc ++ w with [] => [] | _ => [acc ++ w] end.
Proof.
  intros Hw. revert acc. induction Hw as [|c w [Hc _] _ IH]; intros acc; cbn.
  - rewrite app_nil_r. by destruct acc.
  - rewrite Hc, IH. by rewrite <- app_assoc.
Qed.
Lemma words_join l : Forall (λ w, w ≠ [] ∧ Forall solid w) l → words [] (join l) = l.
Proof.
  induction 1 as [|w l [Hne Hw] Hl IH]; [done|]. cbn [join]. destruct l as [|w' l].
  - rewrite words_end by done. by destruct w.
  - rewrite words_token by done. cbn [app]. by rewrite IH.
Qed.

(** Hexadecimal. *)
Lemma hex_char_ok d : 0 <= d < 16 → hex_digit (hex_char d) = Some d ∧ solid (hex_char d).
Proof.
  intros Hd. unfold hex_char, hex_digit, solid, isspace. destruct (Z.ltb_spec d 10).
  - rewrite (proj2 (Z.leb_le 48 _)), (proj2 (Z.leb_le _ 57)) by lia. cbn [andb].
    rewrite (proj2 (Z.eqb_neq _ 32)), (proj2 (Z.leb_gt _ 13)), andb_false_r by lia.
    split; [f_equal; lia|]. split; [done|lia].
  - rewrite (proj2 (Z.leb_gt _ 57)), andb_false_r by lia.
    rewrite (proj2 (Z.leb_le 65 _)), (proj2 (Z.leb_le _ 70)) by lia. cbn [andb].
    rewrite (proj2 (Z.eqb_neq _ 32)), (proj2 (Z.leb_gt _ 13)), andb_false_r by lia.
    split; [f_equal; lia|]. split; [done|lia].
Qed.

Lemma print_hex_solid k v : Forall (λ c, solid c ∧ is_Some (hex_digit c)) (print_hex k v).
Proof.
  revert v. induction k as [|k IH]; intros v; cbn; [constructor|]. apply Forall_app. split; [done|].
  apply Forall_singleton. destruct (hex_char_ok (v mod 16)) as [-> ?]; [zlia|]. eauto.
Qed.

Lemma read_number_app l acc r : Forall (λ c, is_Some (hex_digit c)) l →
  read_number hex_digit 16 acc (l ++ r) = read_number hex_digit 16 (read_number hex_digit 16 acc l) r.
Proof.
  intros Hl. revert acc. induction Hl as [|c l [d Hd] _ IH]; intros acc; [done|]. cbn. by rewrite Hd, IH.
Qed.

Lemma read_print_hex k v : 0 <= v < 16 ^ Z.of_nat k → read_number hex_digit 16 0 (print_hex k v) = v.
Proof.
  revert v. induction k as [|k IH]; intros v Hv; [cbn in *; lia|]. cbn [print_hex].
  rewrite Nat2Z.inj_succ, Z.pow_succ_r in Hv by lia. rewrite read_number_app.
  - rewrite IH by (Z.to_euclidean_division_equations; lia). cbn.
    rewrite (proj1 (hex_char_ok (v mod 16) ltac:(zlia))). Z.to_euclidean_division_equations; lia.
  - eapply Forall_impl; [apply print_hex_solid|]. by intros c [].
Qed.

Lemma strtoul16_byte b : is_u8 b → strtoul16 (print_hex 2 b) = b.
Proof.
  intros Hb. pose proof (read_print_hex 2 b) as Hr. pose proof (print_hex_solid 2 b) as Hs.
  unfold strtoul16. destruct (print_hex 2 b) as [|c l] eqn:E; [done|].
  apply Forall_cons in Hs as [[(Hc & _ & H45 & H43) _] _].
  rewrite (skip_none _ _ c) by done. cbn [read_sign].
  rewrite (proj2 (Z.eqb_neq c 45)), (proj2 (Z.eqb_neq c 43)) by done.
  assert (Hx : skip_0x (c :: l) = c :: l) by (cbn in E; by injection E as <- <-).
  rewrite Hx, Hr by (unfold is_u8 in Hb; cbn; lia). unfold is_u8, ULONG_MAX in *.
  rewrite (proj2 (Z.ltb_ge _ _)); [done|]. cbn. lia.
Qed.

Lemma strtoul16_id k v : (1 <= k)%nat → 0 <= v < 16 ^ Z.of_nat k → is_u32 v →
  strtoul16 (48 :: 120 :: print_hex k v) = v.
Proof.
  intros Hk Hv H32. pose proof (read_print_hex k v Hv) as Hr. pose proof (print_hex_solid k v) as Hs.
  unfold strtoul16. cbn [skip_while isspace Z.eqb Z.leb Z.compare Pos.compare Pos.compare_cont Pos.eqb
    orb andb read_sign].
  destruct (print_hex k v) as [|c l] eqn:E.
  { destruct k; [lia|]. by apply app_nil in E as [_ E]. }
  apply Forall_cons in Hs as [[_ Hc] _]. unfold skip_0x. cbn [Z.eqb Pos.eqb andb orb].
  rewrite bool_decide_eq_true_2 by done. rewrite Hr. unfold is_u32, ULONG_MAX in *.
  rewrite (proj2 (Z.ltb_ge _ _)); [done|]. cbn. lia.
Qed.

Lemma strtol10_digit n : 0 <= n <= 8 → strtol10 [48 + n] = n.
Proof.
  intros Hn. assert (n = 0 ∨ n = 1 ∨ n = 2 ∨ n = 3 ∨ n = 4 ∨ n = 5 ∨ n = 6 ∨ n = 7 ∨ n = 8) by lia.
  repeat match goal with H : _ ∨ _ |- _ => destruct H as [->|H]; [done|] end. by subst.
Qed.

Lemma read_bytes_hex bs n data : Forall is_u8 bs → List.length data = 8%nat →
  (n + List.length bs <= 8)%nat →
  read_bytes (map (print_hex 2) bs) n data
  = Some ((n + List.length bs)%nat, take n data ++ bs ++ drop (n + List.length bs) data).
Proof.
  intros Hb. revert n data. induction Hb as [|b bs Hb _ IH]; intros n data Hd Hn; cbn [map read_bytes List.length].
  - by rewrite Nat.add_0_r, app_nil_l, take_drop.
  - cbn [List.length] in Hn. destruct (Nat.leb_spec 8 n); [lia|].
    rewrite strtoul16_byte, u8_id by done. rewrite IH by (rewrite ?length_insert; lia).
    f_equal. f_equal; [lia|]. rewrite (take_S_r _ _ b) by (apply list_lookup_insert_eq; lia).
    rewrite take_insert_ge, drop_insert_lt by lia. rewrite <- app_assoc. cbn.
    by rewrite Nat.add_succ_r.
Qed.

Lemma join_chars l : Forall (λ w, w ≠ [] ∧ Forall solid w) l →
  Forall (λ c, c ≠ 124) (join l) ∧ (l ≠ [] → ∃ d, last (join l) = Some d ∧ ws d = false).
Proof.
  assert (Hsol : ∀ w, Forall solid w → Forall (λ c, c ≠ 124) w).
  { intros w Hw. eapply Forall_impl; [exact Hw|]. by intros c (_ & ? & _). }
  induction 1 as [|w l [Hne Hw] Hl [IH1 IH2]]; [done|]. cbn [join]. destruct l as [|w' l].
  - split; [auto|]. intros _. destruct (last w) as [d|] eqn:E; [|by apply last_None in E].
    exists d. split; [done|]. apply solid_ws. apply last_Some_elem_of in E.
    by apply (proj1 (Forall_forall _ _) Hw).
  - split; [apply Forall_app; split; [auto|by constructor]|]. intros _.
    destruct IH2 as (d & E & Hd); [done|]. exists d. split; [|done].
    by rewrite last_app, last_cons, E.
Qed.

(** A line as the sniffer writes it, with any padding [p]: format, identifier in [k]
    hexadecimal digits, length, bytes. *)
Definition fmt_token (ext : bool) : list Z := chars (if ext then "EXT" else "STD").
Definition sniffer_line (p : nat → nat) (ext : bool) (k : nat) (id : Z) (bytes : list Z) : list Z :=
  sp (p 0%nat) ++ fmt_token ext ++ sp (p 1%nat) ++ 124 ::
  sp (p 2%nat) ++ (48 :: 120 :: print_hex k id) ++ sp (p 3%nat) ++ 124 ::
  sp (p 4%nat) ++ [48 + Z.of_nat (List.length bytes)] ++ sp (p 5%nat) ++ 124 ::
  sp (p 6%nat) ++ join (map (print_hex 2) bytes) ++ sp (p 7%nat).

Lemma pieces_split p0 fmt idt dlc hex :
  Forall (λ c, c ≠ 124) p0 → Forall (λ c, c ≠ 124) fmt → Forall (λ c, c ≠ 124) idt →
  Forall (λ c, c ≠ 124) dlc →
  getlines 124 [] ((p0 ++ fmt) ++ 124 :: idt ++ 124 :: dlc ++ 124 :: hex)
  = (p0 ++ fmt) :: idt :: dlc :: getlines 124 [] hex.
Proof. intros. rewrite !getlines_piece by (try apply Forall_app; done). done. Qed.

Lemma sp_plain n : Forall (λ c, c ≠ 124) (sp n).
Proof. by apply Forall_replicate. Qed.

Lemma token_trim a b t c : Forall solid t → head t = Some c → trim (sp a ++ t ++ sp b) = t.
Proof.
  intros Ht Hc. destruct (last t) as [d|] eqn:E; [|by apply last_None in E; subst].
  assert (Hs : ∀ x, x ∈ t → ws x = false).
  { intros x Hx. apply solid_ws. by apply (proj1 (Forall_forall _ _) Ht). }
  eapply trim_pad; [done|done|apply Hs|apply Hs]; [|by apply last_Some_elem_of].
  destruct t; [done|]. cbn in Hc. simplify_eq. by left.
Qed.

(** The line without its outer padding: the four fields, or three when there is no byte,
    because the last separator then ends the line. *)
Definition sniffer_fields (p : nat → nat) (ext : bool) (k : nat) (id : Z) (bytes : list Z) : list Z :=
  ([] ++ fmt_token ext ++ sp (p 1%nat)) ++ 124 ::
  (sp (p 2%nat) ++ (48 :: 120 :: print_hex k id) ++ sp (p 3%nat)) ++ 124 ::
  (sp (p 4%nat) ++ [48 + Z.of_nat (List.length bytes)] ++ sp (p 5%nat)) ++ 124 ::
  match bytes with [] => [] | _ => sp (p 6%nat) ++ join (map (print_hex 2) bytes) end.

Lemma hex_words bytes : Forall (λ w, w ≠ [] ∧ Forall solid w) (map (print_hex 2) bytes).
Proof.
  apply Forall_map, Forall_true. intros b. split; [by destruct (print_hex 1 (b / 16))|].
  eapply Forall_impl; [apply print_hex_solid|]. by intros c [].
Qed.

Lemma trim_sniffer p ext k id bytes : trim (sniffer_line p ext k id bytes) = sniffer_fields p ext k id bytes.
Proof.
  assert (Hh : ∃ c, ∀ l, head (fmt_token ext ++ l) = Some c ∧ ws c = false) by (destruct ext; by eexists).
  destruct Hh as [c Hc].
  assert (Hf : head (sniffer_fields p ext k id bytes) = Some c).
  { unfold sniffer_fields. rewrite app_nil_l, <- app_assoc. apply Hc. }
  destruct (join_chars _ (hex_words bytes)) as [_ Hl].
  destruct bytes as [|b bytes].
  - assert (E : sniffer_line p ext k id [] =
      sp (p 0%nat) ++ sniffer_fields p ext k id [] ++ sp (p 6%nat + p 7%nat)).
    { unfold sniffer_line, sniffer_fields, sp. rewrite replicate_add. cbn [map join app].
      repeat (rewrite <- ?app_assoc; cbn [app]). done. }
    rewrite E. eapply (trim_pad _ _ _ c 124); [exact Hf| |by apply (Hc [])|done].
    unfold sniffer_fields. rewrite !last_app, !last_cons, !last_app, !last_cons, !last_app, !last_cons. done.
  - destruct Hl as (d & Hd & Wd); [done|].
    assert (E : sniffer_line p ext k id (b :: bytes) =
      sp (p 0%nat) ++ sniffer_fields p ext k id (b :: bytes) ++ sp (p 7%nat)).
    { unfold sniffer_line, sniffer_fields.
      repeat (rewrite <- ?app_assoc; cbn [app]). done. }
    rewrite E. eapply (trim_pad _ _ _ c d); [exact Hf| |by apply (Hc [])|done].
    unfold sniffer_fields.
    rewrite last_app, last_cons, last_app, last_cons, last_app, last_cons, last_app, Hd. done.
Qed.

Lemma dlc_solid n : 0 <= n <= 8 → solid (48 + n).
Proof.
  intros Hn. unfold solid, isspace.
  rewrite (proj2 (Z.eqb_neq _ 32)), (proj2 (Z.leb_gt _ 13)), andb_false_r by lia. split; [done|lia].
Qed.

(** [C35] The sniffer's lines are read back.  Whatever the padding, a line that writes a
    frame as format, identifier in hexadecimal, length and data bytes is parsed to exactly
    that frame, the unused data bytes being zero; except that a frame without data bytes is
    refused, because its line ends with the last separator and so has three fields. *)
Theorem sniffer_line_parsed p ext k id bytes n :
  Forall is_u8 bytes → (List.length bytes <= 8)%nat →
  (1 <= k)%nat → 0 <= id < 16 ^ Z.of_nat k → is_u32 id →
  parseLine (trim (sniffer_line p ext k id bytes)) n =
  match bytes with
  | [] => inl (BadFieldCount 3)
  | _ => inr {| isExt := ext; id := id; lineNo := n;
                msg := {| identifier := id; extd := false; rtr := false;
                          data_length_code := Z.of_nat (List.length bytes);
                          data := bytes ++ replicate (8 - List.length bytes) 0 |} |}
  end.
Proof.
  intros Hb Hlen Hk Hid H32. rewrite trim_sniffer. unfold parseLine, sniffer_fields.
  assert (Hfmt : Forall (λ c, c ≠ 124) (fmt_token ext)) by (destruct ext; repeat constructor; done).
  assert (Hidt : Forall (λ c, solid c) (48 :: 120 :: print_hex k id)).
  { constructor; [done|]. constructor; [done|]. eapply Forall_impl; [apply print_hex_solid|]. by intros c []. }
  assert (Hdlc : Forall solid [48 + Z.of_nat (List.length bytes)]) by (constructor; [apply dlc_solid; lia|done]).
  assert (Hplain : ∀ t, Forall solid t → Forall (λ c, c ≠ 124) t).
  { intros t Ht. eapply Forall_impl; [exact Ht|]. by intros c (_ & ? & _). }
  rewrite !getlines_piece by (rewrite ?Forall_app; auto using sp_plain). rewrite !app_nil_l.
  cbn [map]. rewrite (token_trim (p 2%nat) _ (48 :: 120 :: print_hex k id) 48) by done.
  rewrite (token_trim (p 4%nat) _ [48 + Z.of_nat (List.length bytes)] _ Hdlc eq_refl).
  assert (Et : trim (fmt_token ext ++ sp (p 1%nat)) = fmt_token ext).
  { destruct ext; (eapply (token_trim 0); [repeat constructor; done|done]). }
  rewrite Et. destruct bytes as [|b bytes]; [done|]. set (bs := b :: bytes) in *.
  destruct (join_chars _ (hex_words bs)) as [Hj (d & Hd & Wd)]; [done|].
  rewrite getlines_last by (apply Forall_app; auto using sp_plain). rewrite app_nil_l.
  assert (Eh : ∀ l, match sp (p 6%nat) ++ join (map (print_hex 2) bs) with [] => [] | _ => [l : list Z] end = [l]).
  { intros l. destruct (sp (p 6%nat) ++ _) eqn:E; [|done]. apply app_nil in E as [_ E]. by rewrite E in Hd. }
  rewrite Eh. cbn [map].
  assert (Ehex : trim (sp (p 6%nat) ++ join (map (print_hex 2) bs)) = join (map (print_hex 2) bs)).
  { destruct (hex_char_ok (b / 16 mod 16)) as [_ Hc]; [zlia|].
    pose proof (trim_pad (p 6%nat) (join (map (print_hex 2) bs)) 0 (hex_char (b / 16 mod 16)) d) as Ht.
    cbn [sp replicate] in Ht. rewrite app_nil_r in Ht. apply Ht; [|done|by apply solid_ws|done].
    unfold bs. by destruct bytes. }
  rewrite Ehex, strtoul16_id, u32_id, strtol10_digit by (done || lia).
  rewrite (proj2 (Z.ltb_ge _ 0)), (proj2 (Z.ltb_ge 8 _)) by lia. cbn [orb].
  rewrite words_join by apply hex_words. rewrite read_bytes_hex by done.
  rewrite Nat.add_0_l, Z.eqb_refl. cbn [negb take app].
  rewrite drop_replicate. by destruct ext.
Qed.

(** [C36] The verdict of a run.  Without a path or a readable log the tool exits with 2;
    otherwise with 0 exactly when every line of the log is blank, a comment, or a
    well-formed frame that keeps its rule (E000 and charger frames long enough and, unless
    [--generic] was given, with the constants of the idle session, byte for byte), and with
    1 in every other case; the report then lists the first twenty violations at most. *)
Theorem replay_exit_code open argv session path :
  parseArgs argv = (session, path) →
  (path = [] ∨ open path = None → main open argv = (2, None)) ∧
  ∀ content, path ≠ [] → open path = Some content →
    ∃ code st badLines, main open argv = (code, Some (st, badLines)) ∧
      (code = 0 ∨ code = 1) ∧ (code = 0 ↔ lines_rule session (getlines 10 [] content) 0) ∧
      List.length (violations st) = Nat.min 20 (Z.to_nat (violationCount st)).
Proof.
  intros Ha. unfold main. rewrite Ha. split; [intros [->|E]; [done|rewrite E; by destruct path]|].
  intros content Hp Ho. destruct path as [|c path]; [done|]. rewrite Ho.
  destruct (processLines_clean session (getlines 10 [] content) 0 (Stats_zero, 0)) as ([Hc Hl] & Hle & Hiff); [done|].
  destruct (processLines _ _ _ _) as [st bad]. cbn [fst violationCount Stats_zero] in *.
  destruct (Z.ltb_spec 0 (violationCount st)); eexists _, st, bad; (split; [reflexivity|]).
  - split; [by right|]. split; [|done]. rewrite <- Hiff. lia.
  - split; [by left|]. split; [|done]. rewrite <- Hiff. lia.
Qed.

(** ** On a small log *)
Module Fixture.
Definition line_feed : list Z := [10].
Definition text : list Z :=
  chars "# idle pack" ++ line_feed ++
  chars "EXT | 0xE000     | 8 | FF FF 03 16 0F 5E 09 71" ++ line_feed ++
  chars "EXT | 0xE001     | 8 | 80 84 80 AB 80 96 19 19" ++ line_feed ++
  chars "EXT | 0x1806E5F4 | 8 | 03 70 03 E8 00 00 00 00" ++ line_feed ++
  chars "STD | 0x000      | 8 | 00 00 00 00 00 00 00 00".
Definition fs (path : list Z) : option (list Z) :=
  if bool_decide (path = chars "session.log") then Some text else None.
Definition padding (i : nat) : nat := nth i [0; 1; 1; 5; 1; 1; 1; 2]%nat 0%nat.
End Fixture.

Lemma replay_exit_code_witness :
  lines_rule true (getlines 10 [] Fixture.text) 0 ∧
  (main Fixture.fs [chars "missing.log"]).1 = 2.
Proof.
  split.
  - destruct (replay_exit_code Fixture.fs [chars "session.log"] true (chars "session.log") eq_refl) as [_ H].
    destruct (H Fixture.text) as (code & st & bad & E & _ & Hiff & _); [done|by vm_compute|].
    apply Hiff. assert (E0 : (main Fixture.fs [chars "session.log"]).1 = 0) by (by vm_compute).
    by rewrite E in E0.
  - destruct (replay_exit_code Fixture.fs [chars "missing.log"] true (chars "missing.log") eq_refl) as [H _].
    rewrite H; [done|]. right. by vm_compute.
Defined.

Lemma sniffer_line_parsed_witness :
  sniffer_line Fixture.padding true 4 0xE000 [255; 255; 3; 22; 15; 94; 9; 113]
  = chars "EXT | 0xE000     | 8 | FF FF 03 16 0F 5E 09 71  " ∧
  ∃ f, parseLine (trim (chars "EXT | 0xE000     | 8 | FF FF 03 16 0F 5E 09 71  ")) 7 = inr f ∧ id f = 0xE000.
Proof.
  split; [by vm_compute|]. eexists. split.
  - exact (sniffer_line_parsed Fixture.padding true 4 0xE000 [255; 255; 3; 22; 15; 94; 9; 113] 7
      ltac:(by repeat constructor) ltac:(cbn; lia) ltac:(lia) ltac:(done) ltac:(done)).
  - done.
Defined.
