(* ===== verification/NativeTests.v ===== *)
(** The assertions of the native tests ([test/test_native_*]), evaluated on the model: the
    definitions of this development behave as the repository's own tests say the code does.

    One example per test file or group of tests; the tests' fakes (the relay actuator that
    counts its calls, the SPI register file that logs the writes, the sender that records
    packets, the UARTs that collect bytes) are given again here.  Left out are
    [test_native_ready_motor], which compiles the interlock with another value of a
    configuration constant, and the cases of [test_native_hmi_helpers] with an invalid
    enumeration value.  One test, which the runner does not list, disagrees with the code
    ([reassert_test_fails]). *)
From S2P Require Import RelayManager CanManager CanParse.
From S2P Require Import Prelude SystemConfig VehicleData FreeRtos IRelayActuator VcuSafety VcuLogic.
From S2P Require Import BmsAlgo HMIHelpers BmsNextionPacket OfflineBuffer UplinkScheduler Telemetry E22Config.
From stdpp Require Import gmap.
Open Scope Z_scope.

#[local] Ltac evaluate := vm_compute; repeat split.

(** ** test_native_vcu_logic *)
Module VcuTests.
(** [mock_relay_actuator.cpp], with the calls in order. *)
Inductive call := AllOn | AllOff (silent : bool) | SetRelay | VerifyIfDue | Clear | Torque (t : Z).
#[export] Instance call_eq_dec : EqDecision call.
Proof. solve_decision. Defined.
Record mock := { calls : list call; actuatorFault : bool }.
Definition log (c : call) (m : mock) : mock := {| m with calls := calls m ++ [c] |}.
#[export] Instance mock_actuator : IRelayActuator mock := {
  allOn := log AllOn;
  allOff silent := log (AllOff silent);
  setRelay _ _ := log SetRelay;
  verifyIfDue _ := log VerifyIfDue;
  verifyOutputs m := (negb (actuatorFault m), m);
  hasActuatorFault := actuatorFault;
  clearActuatorFault m := log Clear {| m with actuatorFault := false |};
}.

(** [test_helpers.h] *)
Definition makeTelemetryDataValid : TelemetryData :=
  {| TelemetryData_zero with
     TEL_motorDataValid := true; TEL_bmsCellVoltageMaxDeciMv := 40000; TEL_bmsCellVoltageMinDeciMv := 39500;
     TEL_bmsTempHighestC := 25; TEL_bmsTempLowestC := 23; TEL_bmsSystemState := 2;
     TEL_bmsPackVoltageDeciV := 800; TEL_bmsSocHundredths := 8000; TEL_bmsDataValid := true |}.
Abbreviation valid := makeTelemetryDataValid.

Abbreviation world := (vcu (ListQueue VcuEvent.t) mock * mock)%type.
Inductive action := Ev (e : VcuEvent.t) | Run | Set_ (d : TelemetryData) | ActuatorFault | Spy | Reset.
Definition do (x : world) (a : action) : world :=
  let '(v, m) := x in
  match a with
  | Ev e => (postEvent e v, m)
  | Run => run v m
  | Set_ d => (setTelemetryData d v, m)
  | ActuatorFault => (v, {| m with actuatorFault := true |})
  | Spy => (setTorqueSink (Some (λ t, log (Torque t))) v, m)
  | Reset => (v, {| calls := []; actuatorFault := false |})
  end.
Definition initialised : world := init true vcu_static {| calls := []; actuatorFault := false |}.
Definition after (script : list action) : world := foldl do (do initialised (Set_ valid)) script.
Definition state (script : list action) : VcuState.t := getState (after script).1.
Definition count (c : call) (script : list action) : nat := length (filter (λ c', c' = c) (calls (after script).2)).

Definition start : list action := [Ev VcuEvent.START_REQUEST; Run].
Definition drive : list action := start ++ [Ev VcuEvent.DRIVE_ENABLE; Run].
Definition estop : list action := [Ev VcuEvent.EMERGENCY_STOP; Run].
Definition fault : list action := [Ev VcuEvent.FAULT_DETECTED; Run].
Definition reset : list action := [Set_ valid; Ev VcuEvent.RESET; Run].

Example test_init : (getState initialised.1, calls initialised.2) = (VcuState.IDLE, [AllOff false]).
Proof. evaluate. Qed.
Example test_state_machine :
  state start = VcuState.READY ∧ count AllOn start = 1%nat ∧
  state (Set_ {| valid with TEL_bmsDataValid := false |} :: start) = VcuState.IDLE ∧
  state (Set_ {| valid with TEL_bmsPackVoltageDeciV := 715 |} :: start) = VcuState.IDLE ∧
  count AllOn (Set_ {| valid with TEL_bmsPackVoltageDeciV := 715 |} :: start) = 0%nat ∧
  state drive = VcuState.DRIVE ∧ state estop = VcuState.EMERGENCY_STOP ∧
  state (drive ++ estop) = VcuState.EMERGENCY_STOP ∧ state fault = VcuState.FAULT ∧
  state (start ++ fault) = VcuState.FAULT ∧
  state (replicate 8 (Ev VcuEvent.START_REQUEST) ++ fault) = VcuState.FAULT ∧
  state (start ++ [Set_ {| valid with TEL_bmsPackVoltageDeciV := 590 |}; Run]) = VcuState.FAULT ∧
  state (start ++ [Set_ {| valid with TEL_bmsTempHighestC := 70 |}; Run]) = VcuState.FAULT ∧
  state (drive ++ [Set_ {| valid with TEL_bmsTimeoutActive := true; TEL_bmsDataValid := false |}; Run]) = VcuState.FAULT.
Proof. evaluate. Qed.
Example test_resets :
  state (fault ++ reset) = VcuState.IDLE ∧ state (estop ++ reset) = VcuState.IDLE ∧
  state (Set_ {| valid with TEL_motorErrorFlags := 1 |} :: fault ++ [Ev VcuEvent.RESET; Run]) = VcuState.FAULT ∧
  state [Ev VcuEvent.RESET; Run] = VcuState.IDLE ∧
  state [Set_ {| valid with TEL_motorTimeoutActive := true |}; Run] = VcuState.IDLE ∧
  state [Set_ {| valid with TEL_bmsSystemState := 4; TEL_bmsDataValid := false |}; Run] = VcuState.IDLE.
Proof. evaluate. Qed.
Definition offs (script : list action) : list call :=
  filter (λ c, c = AllOff false ∨ c = AllOff true) (calls (after (Reset :: script)).2).
Example test_opening :
  offs estop = [] ∧ offs (estop ++ [Run]) = [AllOff false] ∧ offs fault = [] ∧ offs (fault ++ [Run]) = [AllOff false] ∧
  offs (fault ++ replicate 50 Run) = [AllOff false] ∧ offs (fault ++ replicate 51 Run) = [AllOff false; AllOff true].
Proof. evaluate. Qed.
(** [test_fault_latches_contactors_off_once_and_reasserts], which no [RUN_TEST] names, expects
    the silent opening on the run at 1000 ms: the log time it measures from is set by the
    handler's first run, at 20 ms, and not at 0, so the opening comes at 1020 ms. *)
Definition reassert_test : bool := bool_decide (length (offs (fault ++ replicate 50 Run)) = 2%nat).
Example reassert_test_fails : reassert_test = false.
Proof. evaluate. Qed.
Example test_actuator_fault :
  count VerifyIfDue [Run; Run] = 2%nat ∧ state (ActuatorFault :: start) = VcuState.IDLE ∧
  count AllOn (ActuatorFault :: start) = 0%nat ∧ state (start ++ [ActuatorFault; Run]) = VcuState.FAULT ∧
  state (drive ++ [ActuatorFault; Run]) = VcuState.FAULT ∧
  (let s := start ++ [ActuatorFault; Run] ++ reset in
   (state s, count Clear s, actuatorFault (after s).2) = (VcuState.IDLE, 1%nat, false)).
Proof. evaluate. Qed.
Definition shutdown (script : list action) : list call :=
  filter (λ c, c ≠ VerifyIfDue) (calls (after (Reset :: script)).2).
Example test_shutdown_order :
  shutdown (Spy :: estop ++ [Run]) = [Torque 0; AllOff false] ∧
  shutdown (Spy :: fault ++ [Run]) = [Torque 0; AllOff false] ∧
  shutdown (estop ++ [Run]) = [AllOff false] ∧ frameEnabled = false.
Proof. evaluate. Qed.

(** [test_safety_thresholds.cpp], [test_reset_interlock.cpp] *)
Example test_currents :
  map isCurrentCritical [1290; 1300; 1400; 0; -1490; -1500; -2000] = [false; true; true; false; false; true; true] ∧
  map isCurrentWarning [1090; 1100; -890; -900] = [false; true; false; true].
Proof. evaluate. Qed.
Definition bands (ds : list TelemetryData) : list (bool * bool) :=
  map (λ d, (hasWarningCondition d, hasCriticalCondition d VcuState.READY)) ds.
Definition temp (t : Z) : TelemetryData := {| valid with TEL_bmsTempHighestC := t |}.
Definition amps (c : Z) : TelemetryData := {| valid with TEL_bmsCurrentCentiA := c |}.
Definition volts (v : Z) : TelemetryData := {| valid with TEL_bmsPackVoltageDeciV := v |}.
Example test_bands :
  bands (map temp [54; 55; 69; 70]) = [(false, false); (true, false); (true, false); (true, true)] ∧
  bands (map amps [990; 1100; 1300; -2000]) = [(false, false); (true, false); (true, true); (true, true)] ∧
  bands (map volts [730; 720; 600; 840; 852; 876])
  = [(false, false); (true, false); (true, true); (false, false); (true, false); (true, true)] ∧
  bands [valid; {| valid with TEL_bmsDataValid := false; TEL_bmsTempHighestC := 99; TEL_bmsPackVoltageDeciV := 500;
                              TEL_bmsCurrentCentiA := -2500 |}] = [(false, false); (false, false)].
Proof. evaluate. Qed.
Definition motor_timeout : TelemetryData := {| valid with TEL_motorTimeoutActive := true |}.
Definition bms_timeout : TelemetryData := {| valid with TEL_bmsTimeoutActive := true; TEL_bmsDataValid := false |}.
Example test_critical_by_state :
  map (hasCriticalCondition motor_timeout) [VcuState.IDLE; VcuState.READY; VcuState.DRIVE] = [false; true; true] ∧
  map (hasCriticalCondition bms_timeout) [VcuState.IDLE; VcuState.READY; VcuState.DRIVE] = [false; true; true] ∧
  map (λ d, hasCriticalCondition d VcuState.READY)
    [{| valid with TEL_motorErrorFlags := 1 |}; {| valid with TEL_bmsSystemState := 4 |};
     {| valid with TEL_bmsDataValid := false; TEL_motorErrorFlags := 4 |}] = [true; true; true].
Proof. evaluate. Qed.
Example test_reset_interlock :
  map (λ d, isResetInterlockSatisfied d VcuState.FAULT)
    [valid; {| valid with TEL_motorErrorFlags := 2 |}; {| valid with TEL_bmsSystemState := 4 |};
     {| valid with TEL_bmsSystemState := 4; TEL_bmsDataValid := false |}; temp 75; temp 60; amps (-2000);
     amps 990; volts 590; volts 900; motor_timeout; bms_timeout; volts 720]
  = [true; false; false; true; false; true; false; true; false; false; false; false; true] ∧
  isResetInterlockSatisfied valid VcuState.EMERGENCY_STOP = true.
Proof. evaluate. Qed.
End VcuTests.

(** ** test_native_relay: the chip of [fake_spi.cpp], its registers and the log of the writes *)
Module RelayTests.
Import RelayManager.
Record fake_spi := { s_regs : Z → Z; s_writes : list (Z * Z) }.
#[export] Instance fake_spi_master : SpiMaster fake_spi := {
  spi_bus_initialize d := (true, d);
  spi_bus_add_device d := (true, d);
  spi_device_transmit tx d :=
    let reg := byte_at tx 1 in
    if Z.testbit (byte_at tx 0) 0 then (Some [0; 0; s_regs d reg], d)
    else (Some [0; 0; 0], {| s_regs r := if r =? reg then byte_at tx 2 else s_regs d r;
                             s_writes := s_writes d ++ [(reg, byte_at tx 2)] |});
}.
Abbreviation world := (relay_world fake_spi).
Definition fresh : world := Build_relay_world relay_mgr_static {| s_regs _ := 0; s_writes := [] |}.
Definition set_reg (r v : Z) (w : world) : world :=
  {| w with dev := {| (dev w) with s_regs r' := if r' =? r then v else s_regs (dev w) r' |} |}.
Definition fake_spi_reset (w : world) : world := {| w with dev := {| (dev w) with s_writes := [] |} |}.
Definition exec {A} (m : RelayM A) (w : world) : world := (m w).2.
(** [primeRelay] *)
Definition primed : world := fake_spi_reset (exec begin fresh).
Definition writes {A} (m : RelayM A) (w : world) : list (Z * Z) := s_writes (dev (exec m w)).
Definition states (w : world) : list bool := map (λ ch, getRelayState ch (rm w)) (seqZ 0 10).

(** The latches are written before the pins become outputs. *)
Example test_begin :
  writes begin fresh = [(0x14, 0xFF); (0x15, 0xFF); (0x00, 0x00); (0x01, 0x00)] ∧
  (begin fresh).1 = true ∧ states (exec begin fresh) = replicate 10 false.
Proof. evaluate. Qed.
Example test_setRelay :
  writes (setRelay 0 true) primed = [(0x14, 0xFE); (0x15, 0xFF)] ∧
  writes (setRelay 0 false) (fake_spi_reset (exec (setRelay 0 true) primed)) = [(0x14, 0xFF); (0x15, 0xFF)] ∧
  writes (setRelay 8 true) primed = [(0x14, 0xFF); (0x15, 0xFE)] ∧
  writes (setRelay 9 true) primed = [(0x14, 0xFF); (0x15, 0xFD)] ∧
  writes (setRelay 10 true;; setRelay 255 true) primed = [] ∧ writes (setRelay 0 true) fresh = [] ∧
  (let w := exec (setRelay 0 true;; setRelay 1 true;; setRelay 2 true) primed in
   writes (setRelay 3 true) (fake_spi_reset w) = [(0x14, 0xF0); (0x15, 0xFF)]).
Proof. evaluate. Qed.
Example test_getRelayState :
  (let s := rm (exec (setRelay 3 true) primed) in (getRelayState 3 s, getRelayState 4 s)) = (true, false) ∧
  map (λ ch, getRelayState ch (rm primed)) [10; 99] = [false; false].
Proof. evaluate. Qed.
Example test_allOn_allOff :
  writes allOn primed = [(0x14, 0x00); (0x15, 0xFC)] ∧ states (exec allOn primed) = replicate 10 true ∧
  map snd (writes (allOff false) primed) = [0xFF; 0xFF] ∧
  states (exec (allOn;; allOff false) primed) = replicate 10 false ∧
  writes (allOff false) fresh = [] ∧ states (exec (allOff false) fresh) = replicate 10 false ∧
  writes allOn fresh = [].
Proof. evaluate. Qed.

Definition fault (w : world) : bool := hasActuatorFault (rm w).
Definition regs (w : world) : list Z :=
  map (s_regs (dev w)) [MCP23S17_OLATA; MCP23S17_OLATB; MCP23S17_IODIRA; MCP23S17_IODIRB].
Definition closed : world := fake_spi_reset (exec allOn primed).
Definition opened : world := fake_spi_reset (exec (allOff false) primed).
Definition as_input : world := set_reg MCP23S17_IODIRA 0xFF (set_reg MCP23S17_IODIRB 0xFF opened).
Example test_verifyOutputs :
  (let '(ok, w) := verifyOutputs closed in (ok, fault w, s_writes (dev w))) = (true, false, []) ∧
  (let '(ok, w) := verifyOutputs (set_reg MCP23S17_OLATA 0xFF closed) in
   (ok, fault w, regs w, (6 <=? length (s_writes (dev w)))%nat)) = (false, true, [0x00; 0xFC; 0; 0], true) ∧
  (let '(ok, w) := verifyOutputs as_input in (ok, fault w, regs w)) = (false, true, [0xFF; 0xFF; 0; 0]) ∧
  map fault [exec verifyOutputs (set_reg MCP23S17_OLATA 0x55 primed);
             exec (verifyOutputs;; clearActuatorFault) (set_reg MCP23S17_OLATA 0x55 primed)] = [true; false].
Proof. evaluate. Qed.
Definition corrupted : world := set_reg MCP23S17_OLATA 0xAA (exec (verifyIfDue 0) primed).
Example test_verifyIfDue :
  let early := exec (verifyIfDue (RELAY_VERIFY_PERIOD_MS - 20)) corrupted in
  map fault [early; exec (verifyIfDue RELAY_VERIFY_PERIOD_MS) early] = [false; true].
Proof. evaluate. Qed.
Example test_readRegister :
  map (λ r, (readRegister r primed).1) [MCP23S17_OLATA; MCP23S17_IODIRA] = [Some 0xFF; Some 0x00].
Proof. evaluate. Qed.
End RelayTests.

(** ** test_native_offline_buffer *)
Module OfflineBufferTests.
Definition pkt (v : Z) : TelemetryData := {| TelemetryData_zero with TEL_motorRpm := v |}.
Definition pushed (n : nat) : ob := foldl (λ b i, (ob_push (pkt (Z.of_nat i)) b).2) ob_static (seq 0 n).
Fixpoint pops (n : nat) (b : ob) : list (option Z) :=
  match n with
  | O => []
  | S n => let '(r, b) := ob_pop b in (TEL_motorRpm <$> r) :: pops n b
  end.
Definition peeked (b : ob) : option Z := TEL_motorRpm <$> ob_peek b.

Example test_buffer :
  pops 4 (pushed 3) = [Some 0; Some 1; Some 2; None] ∧
  ob_count (pushed OB_CAPACITY) = OB_CAPACITY ∧ ob_count (pushed (S OB_CAPACITY)) = OB_CAPACITY ∧
  pops 1 (pushed (S OB_CAPACITY)) = [Some 1] ∧ pops 1 (ob_reset (pushed 1)) = [None] ∧
  (peeked (pushed 1), ob_count (pushed 1)) = (Some 0, 1%nat) ∧ peeked (ob_reset (pushed 1)) = None ∧
  (let '(ok, b) := ob_drop_front (pushed 2) in (ok, ob_count b, peeked b)) = (true, 1%nat, Some 1) ∧
  (ob_drop_front ob_static).1 = false ∧ OB_CAPACITY = 75%nat.
Proof. evaluate. Qed.
Example test_offline_should_sample :
  [offline_should_sample 123456 0 false 1000; offline_should_sample 0 0 false 1000;
   offline_should_sample 1500 1000 true 1000; offline_should_sample 2000 1000 true 1000;
   offline_should_sample 5000 1000 true 1000] = [true; true; false; true; true].
Proof. evaluate. Qed.
(** An outage of [n] ticks of half a second, sampled at 1 Hz. *)
Definition outage (n : nat) : ob :=
  (foldl (λ x i, let '(last, seen, b) := x in
     let nowMs := 500 * Z.of_nat i in
     if offline_should_sample nowMs last seen 1000
     then (nowMs, true, (ob_push {| TelemetryData_zero with TEL_timestampMs := nowMs |} b).2) else x)
     (0, false, ob_static) (seq 0 n)).2.
Example test_outages :
  ob_count (outage 20) = 10%nat ∧ ob_count (outage 120) = 60%nat ∧
  TEL_timestampMs <$> ob_peek (outage 120) = Some 0.
Proof. evaluate. Qed.
End OfflineBufferTests.

(** ** test_native_link_monitor, test_native_lora_rx_handler, test_native_uart_init_retry,
       test_native_uplink_scheduler *)
Module UplinkTests.
Example test_link_timeout :
  [link_check_timeout 99999 0 3000; link_check_timeout 5000 4000 3000; link_check_timeout 5000 1000 3000;
   link_check_timeout 4000 1000 3000; link_check_timeout 5200 5100 3000]
  = [false; false; true; false; false] ∧
  map (λ '(now, hb, boot), link_check_timeout_with_boot_grace now hb 3000 boot 5000)
    [(4000, 0, 0); (5001, 0, 0); (5000, 0, 0); (6500, 6000, 0); (10000, 6000, 0);
     (104999, 0, 100000); (105001, 0, 100000)] = [false; true; false; false; true; false; true].
Proof. evaluate. Qed.
Example test_rx_bytes :
  map lora_classify_rx_byte [0xB0; 0xA1; 0xA2; 0xA3; 0xA4; 0x00; 0xFF] = KIND_HEARTBEAT :: replicate 6 KIND_UNKNOWN ∧
  lora_note_unknown_byte 1000 0 0 10000 = (false, 1, 0) ∧ lora_note_unknown_byte 10000 0 0 10000 = (true, 1, 10000) ∧
  lora_note_unknown_byte 15000 0 10000 10000 = (false, 1, 10000) ∧
  lora_note_unknown_byte 20000 0 10000 10000 = (true, 1, 20000).
Proof. evaluate. Qed.
Example test_uart_init_retry :
  map (λ '(n, m), uart_init_retry_decision n m)
    [(1, 5); (4, 5); (LORA_UART_MAX_INIT_ATTEMPTS - 1, LORA_UART_MAX_INIT_ATTEMPTS);
     (5, 5); (6, 5); (LORA_UART_MAX_INIT_ATTEMPTS, LORA_UART_MAX_INIT_ATTEMPTS); (0, 0)]
  = replicate 3 UART_RETRY ++ replicate 4 GIVE_UP_DISABLED.
Proof. evaluate. Qed.

Definition s0 : UplinkScheduler := newUplinkScheduler LINK_TIMEOUT_MS BOOT_LINK_GRACE_MS
  OFFLINE_SAMPLE_PERIOD_MS REPLAY_BURST_PER_TICK LORA_UNKNOWN_BYTE_WARN_INTERVAL_MS.
Definition mkPacket (ts : Z) : TelemetryData := {| TelemetryData_zero with TEL_timestampMs := ts |}.
(** [recordSend], with the flag that stands for a busy AUX. *)
Definition recordSend (ok : bool) (p : TelemetryData) (isReplay : bool) (w : list (bool * Z)) :
    bool * list (bool * Z) := if ok then (true, w ++ [(isReplay, TEL_timestampMs p)]) else (false, w).
Definition rx (script : list (Z * Z)) : list RxResult * UplinkScheduler :=
  foldl (λ x '(b, t), let '(r, s) := onRxByte b t x.2 in (x.1 ++ [r], s)) ([], s0) script.
Definition junk : Z := Z.lxor 0xB0 0xFF.
Example test_onRxByte :
  let t0 := LORA_UNKNOWN_BYTE_WARN_INTERVAL_MS in
  let '(rs, s) := rx [(0xB0, 1000); (junk, t0); (junk, t0 + 5); (junk, t0 + t0)] in
  (rs, m_unknownRxByteCount s) = ([HEARTBEAT; UNKNOWN_WARN; UNKNOWN_QUIET; UNKNOWN_WARN], 3).
Proof. evaluate. Qed.
Example test_boot_grace :
  let '(tr, s) := updateLink (BOOT_LINK_GRACE_MS - 1) 0 ob_static s0 in
  let '(tr', s') := updateLink (BOOT_LINK_GRACE_MS + 1) 0 ob_static s in
  (becameDown tr, isLinkDown s, becameDown tr', isLinkDown s') = (false, false, true, true).
Proof. evaluate. Qed.
Definition push2 (x y : Z) : ob := (ob_push (mkPacket y) (ob_push (mkPacket x) ob_static).2).2.
Example test_tx_tick :
  (let '(sent, b, w) := onTxTickLinkUp (recordSend false) true (mkPacket 999) s0 (push2 111 222) [] in
   (sent, ob_count b, w)) = (0%nat, 2%nat, []) ∧
  (let '(sent, b, w) := onTxTickLinkUp (recordSend true) true (mkPacket 999) s0 (push2 10 20) [] in
   (sent, ob_count b, w)) = (2%nat, 1%nat, [(true, 10); (false, 999)]).
Proof. evaluate. Qed.

(** [test_outage_offline_sampling_then_replay_drain]: link up, ten seconds of outage, recovery. *)
Definition down_at : Z := 1000 + LINK_TIMEOUT_MS + 1.
Definition recovered_at : Z := down_at + 10 * OFFLINE_SAMPLE_PERIOD_MS.
Definition sampled : list bool * (UplinkScheduler * ob) :=
  foldl (λ x i, let t := down_at + Z.of_nat i * OFFLINE_SAMPLE_PERIOD_MS in
                let '(oks, (s, b)) := x in
                let '(ok, y) := offlineSample t (mkPacket t) ((updateLink t 0 b s).2, b) in (oks ++ [ok], y))
    ([], ((updateLink down_at 0 ob_static (updateLink 1000 0 ob_static (onRxByte 0xB0 1000 s0).2).2).2, ob_static))
    (seq 0 10).
Definition recovery : LinkTransition * UplinkScheduler :=
  let '(s, b) := sampled.2 in updateLink recovered_at 0 b (onRxByte 0xB0 recovered_at s).2.
Definition drained : ob * list (bool * Z) :=
  foldl (λ x i, let '(_, b, w) := onTxTickLinkUp (recordSend true) true (mkPacket (50000 + Z.of_nat i))
                                    recovery.2 x.1 x.2 in (b, w)) (sampled.2.2, []) (seq 0 12).
Example test_outage_then_drain :
  sampled.1 = replicate 10 true ∧ ob_count sampled.2.2 = 10%nat ∧
  (let tr := recovery.1 in (becameUp tr, hadSamples tr, bufferedCount tr, firstTs tr, lastTs tr))
  = (true, true, 10%nat, down_at, down_at + 9 * OFFLINE_SAMPLE_PERIOD_MS) ∧
  ob_count drained.1 = 0%nat ∧
  map snd (filter (λ e, e.1 = true) drained.2)
  = map (λ i, down_at + Z.of_nat i * OFFLINE_SAMPLE_PERIOD_MS) (seq 0 10) ∧
  length (filter (λ e, e.1 = false) drained.2) = 12%nat.
Proof. evaluate. Qed.
End UplinkTests.

(** ** test_native_can_parsing, test_native_motor_debounce, test_native_bms_freshness *)
Module CanTests.
Definition msg (dlc : Z) (bytes : list Z) : twai_message_t :=
  {| identifier := 0; extd := false; rtr := false; data_length_code := dlc; data := bytes |}.
Definition e000 (bytes : list Z) : option (Z * Z * Z * Z * bool) :=
  d ← parseLbBmsE000 (msg 8 bytes) TelemetryData_zero;
  Some (TEL_bmsCurrentCentiA d, TEL_bmsPackVoltageDeciV d, TEL_bmsSocHundredths d, TEL_bmsSoc2Hundredths d,
        TEL_bmsDataValid d).
Definition temps (bytes : list Z) : option (Z * Z) :=
  d ← parseLbBmsE001 (msg 8 bytes) TelemetryData_zero; Some (TEL_bmsTempHighestC d, TEL_bmsTempLowestC d).

(** The sniffer's frames of session 3 and the hand-made ones. *)
Example test_e000 :
  map e000 [[0xFF; 0xF5; 0x03; 0x20; 0x26; 0x7D; 0x26; 0x58]; [0xFF; 0xF3; 0x03; 0x20; 0x26; 0x7D; 0x26; 0x58];
            [0xFF; 0xF1; 0x03; 0x20; 0x26; 0x7D; 0x26; 0x58]; [0x00; 0x0A; 0x02; 0x0E; 0x27; 0x10; 0; 0];
            [0xFF; 0xF6; 0x02; 0x0E; 0x27; 0x10; 0; 0]]
  = [Some (-110, 800, 9853, 9816, true); Some (-130, 800, 9853, 9816, true); Some (-150, 800, 9853, 9816, true);
     Some (100, 526, 10000, 0, true); Some (-100, 526, 10000, 0, true)] ∧
  parseLbBmsE000 (msg 7 [0; 0; 2; 0x0E; 0; 0; 0; 0]) TelemetryData_zero = None.
Proof. evaluate. Qed.
Definition charge (raw : Z) : option (Z * bool * bool) :=
  d ← parseLbBmsE000 (msg 8 [0; raw; 2; 0x0E; 0x27; 0x10; 0; 0]) TelemetryData_zero;
  let c := TEL_bmsCurrentCentiA d in Some (c, isCurrentWarning c, isCurrentCritical c).
Example test_current_scale :
  charge 0x82 = Some (BMS_CRITICAL_MAX_CHARGE_CURRENT_CENTI_A, true, true) ∧ charge 0x63 = Some (990, false, false).
Proof. evaluate. Qed.
Example test_e001 :
  map temps [[0x82; 0x1D; 0x82; 0x35; 0x82; 0x27; 0x19; 0x18]; [0; 0; 0; 0; 0; 0; 20; 30];
             [0; 0; 0; 0; 0; 0; 0xFB; 0xEC]; [0; 0; 0; 0; 0; 0; 0x28; 0xFB]; [0; 0; 0; 0; 0; 0; 0xFF; 0x10]]
  = [Some (25, 24); Some (30, 20); Some (-5, -20); Some (40, -5); Some (16, -1)] ∧
  (d ← parseLbBmsE001 (msg 8 [0x82; 0xE1; 0x86; 0x07; 0x83; 0xA0; 0x1C; 0x1C]) TelemetryData_zero;
   Some [TEL_bmsCellVoltageMinDeciMv d; TEL_bmsCellVoltageMaxDeciMv d; TEL_bmsCellVoltageAvgDeciMv d;
         TEL_bmsTempHighestC d; TEL_bmsTempLowestC d]) = Some [33505; 34311; 33696; 28; 28] ∧
  parseLbBmsE001 (msg 7 [0; 0; 0; 0; 0; 0; 20; 25]) TelemetryData_zero = None.
Proof. evaluate. Qed.
Definition cells (k : nat) (parse : twai_message_t → TelemetryData → option TelemetryData) (bytes : list Z) :=
  d ← parse (msg 8 bytes) TelemetryData_zero; Some (take 4 (drop k (TEL_bmsCellVoltages d))).
Definition typical : list Z := [0x61; 0xA8; 0x8E; 0x94; 0x75; 0x30; 0x7D; 0x00].
Example test_cell_voltages :
  cells 0 parseLbBmsE015 [0x83; 0x1B; 0x83; 0x1B; 0x83; 0x0E; 0x83; 0x2B] = Some [3356; 3356; 3355; 3357] ∧
  cells 0 parseLbBmsE015 typical = Some [2500; 3650; 3000; 3200] ∧
  cells 20 parseLbBmsE020 typical = Some [2500; 3650; 3000; 3200] ∧
  parseLbBmsE015 (msg 7 (replicate 8 0)) TelemetryData_zero = None.
Proof. evaluate. Qed.
Definition motor (bytes : list Z) : option (Z * Z * Z * bool * bool) :=
  m ← parseMotorStatus (msg 8 bytes); Some (rpm m, motorVoltageDeciV m, errorFlags m, isRunning m, CanParse.isValid m).
Example test_motor_status :
  map motor [[0x01; 0x90; 0; 240; 0; 0; 0; 0x01]; [0x12; 0x34; 0; 0; 0; 0; 0; 0]; [0xFF; 0xFF; 0; 0; 0; 0; 0; 0];
             [0; 0; 0x02; 0xD0; 0; 0; 0; 0]; [0; 0; 0; 0; 0; 0; 0; 0x42]; [0x03; 0xE8; 0; 240; 0; 0; 0; 0x01]]
  = [Some (400, 240, 0, true, true); Some (0x1234, 0, 0, false, true); Some (-1, 0, 0, false, true);
     Some (0, 720, 0, false, true); Some (0, 0, 0x42, false, true); Some (1000, 240, 0, true, true)] ∧
  map (λ dlc, parseMotorStatus (msg dlc (replicate 8 0xAA))) [2; 3; 7] = [None; None; None].
Proof. evaluate. Qed.
Definition charger (dlc : Z) (bytes : list Z) : option (Z * Z) :=
  c ← parseCharger1806E5F4 (msg dlc (bytes ++ [0; 0; 0; 0]));
  Some (chargeVoltageSetpointDeciV c, chargeCurrentSetpointDeciA c).
Example test_charger :
  [charger 3 [0x03; 0x70; 0x03; 0xE8]; charger 8 [0x03; 0x70; 0x03; 0xE8]; charger 4 [0x12; 0x34; 0xAB; 0xCD];
   charger 4 [0; 0; 0; 0]] = [None; Some (880, 1000); Some (0x1234, 0xABCD); Some (0, 0)].
Proof. evaluate. Qed.
Example test_pack_voltage_fault :
  map (λ v, checkPackVoltageFault v 600 876) [599; 600; 790; 601; 875; 876; 877]
  = [UNDERVOLTAGE; UNDERVOLTAGE; PackNone; PackNone; PackNone; OVERVOLTAGE; OVERVOLTAGE].
Proof. evaluate. Qed.
(** Across the wrap of the tick counter in the last two cases. *)
Definition timeout_cases : list (bool * bool * Z * Z) :=
  [(false, true, 1000, 0); (false, false, 1000, 0); (true, false, 10000, 0); (true, true, 499, 0);
   (true, true, 500, 0); (true, true, 1500, 0); (true, true, 12345, 12345); (true, true, 10, 0xFFFFFFFE);
   (true, true, 498, 0xFFFFFFFE)].
Example test_timeouts :
  map (λ '(seen, valid, now, last), isMotorStatusTimedOut seen valid now last 500) timeout_cases
  = [false; false; false; false; true; true; false; false; true] ∧
  map (λ '(seen, valid, now, last), isBmsStatusTimedOut seen valid now last 500) timeout_cases
  = [false; false; false; false; true; true; false; false; true].
Proof. evaluate. Qed.
Definition debounce (flags : list Z) : list bool * Z :=
  foldl (λ x f, let '(r, c) := motorErrorFaultConfirmed f x.2 MOTOR_ERROR_DEBOUNCE_FRAMES in (x.1 ++ [r], c))
    ([], 0) flags.
Example test_motor_debounce :
  MOTOR_ERROR_DEBOUNCE_FRAMES = 3 ∧ debounce [1; 1; 1] = ([false; false; true], 3) ∧
  debounce [1; 1; 0; 1; 1; 1] = ([false; false; false; false; false; true], 3) ∧
  debounce [2; 2; 2; 2; 0] = ([false; false; true; true; false], 0).
Proof. evaluate. Qed.
Example test_bms_freshness :
  map (λ '(saw0, last0, saw1, last1, now),
         let r := bms_evaluate_freshness saw0 last0 saw1 last1 now CAN_BMS_STATUS_TIMEOUT_MS in
         (dataValid r, timeoutActive r))
    [(true, 1000, true, 1000, 1000); (true, 1500, true, 1000, 1500); (true, 1499, true, 1000, 1499);
     (true, 1000, true, 1500, 1500); (true, 1000, false, 0, 1000); (false, 0, false, 0, 1000)]
  = [(true, false); (false, true); (true, false); (false, true); (false, false); (false, false)].
Proof. evaluate. Qed.
End CanTests.

(** ** test_native_bms_algo *)
Module BmsTests.
Import BmsAlgo.
Definition pack (cells temps : list Z) : BmsPackData :=
  {| cellVoltageMv := cells; cellTempC := temps; packCurrentMa := 0; isValid := true; cellDataValid := true |}.
Definition makePackWithCell0At (mv : Z) : BmsPackData := pack (mv :: replicate 23 3200) (replicate 24 25).
Definition makePackWithTemp0At (t : Z) : BmsPackData := pack (replicate 24 3200) (t :: replicate 23 25).
Definition makeUniformPack (mv : Z) : BmsPackData := pack (replicate 24 mv) (replicate 24 25).
Definition level (p : BmsPackData) : Z := warningLevel (computePack p).
Example test_warning_thresholds :
  map (λ mv, level (makePackWithCell0At mv)) [3650; 3651; 3550; 3551; 2500; 2499; 2800; 2799]
  = [BMS_WARN_WARNING; BMS_WARN_CRITICAL; BMS_WARN_OK; BMS_WARN_WARNING;
     BMS_WARN_WARNING; BMS_WARN_CRITICAL; BMS_WARN_OK; BMS_WARN_WARNING] ∧
  map (λ t, level (makePackWithTemp0At t)) [54; 55; 69; 70]
  = [BMS_WARN_OK; BMS_WARN_WARNING; BMS_WARN_WARNING; BMS_WARN_CRITICAL].
Proof. evaluate. Qed.
Example test_soc :
  map (λ mv, socPercent (computePack (makeUniformPack mv))) [2400; 2500; 3075; 3650; 3700] = [0; 0; 50; 100; 100].
Proof. evaluate. Qed.
Example test_balance :
  map (λ delta, hd true (balanceFlag (computePack (makePackWithCell0At (3200 + delta))))) [50; 51] = [false; true].
Proof. evaluate. Qed.
Definition imbalanced (verified : bool) : BmsComputed :=
  computePack {| (pack (2300 :: replicate 23 3300) (replicate 24 25)) with cellDataValid := verified |}.
Example test_cell_source :
  (let c := imbalanced false in (warningLevel c, balanceFlag c, socPercent c, cellDeltaMv c))
  = (BMS_WARN_NO_DATA, replicate 24 false, 0, 0) ∧
  (let c := imbalanced true in (warningLevel c, cellMinMv c, cellMaxMv c, cellMinIndex c))
  = (BMS_WARN_CRITICAL, 2300, 3300, 0).
Proof. evaluate. Qed.

(** [buildBmsNextionCommands] with [fake_nextion_capture]. *)
Definition capture (cmd : list Z) (w : list (list Z)) : list (list Z) := w ++ [cmd].
Definition build (maxBytes : Z) (force updateCells : bool) (comp : BmsComputed) (raw : BmsPackData)
    (cache : BmsNextionCache) : BmsNextionCache * list (list Z) :=
  buildBmsNextionCommands capture maxBytes comp raw cache force updateCells [].
Definition emitted (w : list (list Z)) (cmds : list string) : bool :=
  forallb (λ s, bool_decide (text s ∈ w)) cmds.
Definition raw0 : BmsPackData := pack (replicate 24 0) (replicate 24 0).
Definition fill0 (mv : Z) : list (list Z) :=
  (build 2000 true true BmsComputed_zero {| raw0 with cellVoltageMv := mv :: replicate 23 0 |} newBmsNextionCache).2.
Example test_cell_bar_fill :
  map (λ p, emitted (fill0 p.1) [p.2]) [(2500, "j0.val=0"); (3650, "j0.val=100"); (3075, "j0.val=50")]%string
  = [true; true; true].
Proof. evaluate. Qed.
Example test_cache_init :
  emitted (build 2000 false true BmsComputed_zero {| raw0 with cellVoltageMv := replicate 23 0 ++ [2500] |}
             newBmsNextionCache).2 ["j23.val=0"; "bal23.val=0"]%string = true.
Proof. evaluate. Qed.
Definition no_data : BmsPackData := {| raw0 with cellVoltageMv := replicate 24 65535 |}.
Definition sentinels (c : BmsComputed) : BmsComputed := {| c with cellMaxMv := 65535; cellMinMv := 65535 |}.
Example test_unverified_pipeline :
  let raw := {| no_data with cellDataValid := false |} in
  emitted (build 2000 true true (sentinels (computePack raw)) raw newBmsNextionCache).2
    ["cell0.val=65535"; "j0.val=0"; "bal0.val=0"; "warn.val=3"]%string = true.
Proof. evaluate. Qed.
Definition healthy : BmsComputed := {| BmsComputed_zero with cellMaxMv := 3300; cellMinMv := 3300 |}.
Definition raw33 : BmsPackData := {| raw0 with cellVoltageMv := replicate 24 3300 |}.
Example test_valid_to_invalid :
  let cache := (build 2000 true true healthy raw33 newBmsNextionCache).1 in
  let w := (build 2000 false true (sentinels {| BmsComputed_zero with warningLevel := 2 |})
              {| no_data with isValid := false |} cache).2 in
  (isWarm cache,
   emitted w ["cell0.val=65535"; "j0.val=0"; "warn.val=2"; "cellmax.val=65535"; "cellmin.val=65535"]%string,
   existsb (λ cmd, bool_decide (take 8 cmd = text "bal0.val")) w) = (true, true, false).
Proof. evaluate. Qed.
Definition bytes (w : list (list Z)) : Z := foldr Z.add 0 (map (λ cmd, Z.of_nat (length cmd) + 3) w).
(** The calls after the first, with the bytes of each. *)
Fixpoint drain (n : nat) (cache : BmsNextionCache) : BmsNextionCache * list Z :=
  match n with
  | O => (cache, [])
  | S n =>
      let '(cache, w) := build 90 false false healthy raw33 cache in
      let '(cache, sizes) := drain n cache in (cache, bytes w :: sizes)
  end.
Example test_byte_budget :
  let '(cache, w) := build 90 true true healthy raw33 newBmsNextionCache in
  let '(cache', sizes) := drain 18 cache in
  (bytes w <=? 90, isWarm cache, forallb (λ n, n <=? 90) sizes, isWarm cache') = (true, false, true, true).
Proof. evaluate. Qed.
End BmsTests.

(** ** test_native_telemetry *)
Module TelemetryTests.
Definition uart (bytes out : list Z) : Z * list Z := (Z.of_nat (length bytes), out ++ bytes).
Definition send (ds : list TelemetryData) (x : Telemetry * list Z) : Telemetry * list Z :=
  foldl (λ x d, sendStatus uart d x.1 x.2) x ds.
Definition begun : Telemetry := (telemetry_begin newTelemetry).2.
Definition line (d : TelemetryData) : list Z := (send [d] (begun, [])).2.
(** [text] of the line with its end. *)
Definition crlf_line (s : string) : list Z := text s ++ [13; 10].
Definition zero : TelemetryData := TelemetryData_zero.

Definition makeDistinctData : TelemetryData :=
  {| TelemetryData_zero with
     TEL_motorRpm := 1500; TEL_motorVoltageDeciV := 240; TEL_motorErrorFlags := 5; TEL_motorDataValid := true;
     TEL_bmsCellVoltageMaxDeciMv := 37734; TEL_bmsCellVoltageMinDeciMv := 37422; TEL_bmsTempHighestC := 32;
     TEL_bmsTempLowestC := 31; TEL_bmsSystemState := 2; TEL_bmsPackVoltageDeciV := 780;
     TEL_bmsCurrentCentiA := -181610; TEL_bmsSocHundredths := 6283; TEL_bmsDataValid := true;
     TEL_timestampMs := 12345; TEL_speedKmhX10 := 1413 |}.
Example test_full_format :
  line makeDistinctData = crlf_line "TEL,2,0,1500,240,5,1,0,37734,37422,32,31,2,780,-181610,6283,1,12345,1413".
Proof. evaluate. Qed.
Example test_fields :
  map line [ {| zero with TEL_motorVoltageDeciV := 245 |}; {| zero with TEL_bmsCurrentCentiA := -128 |};
             {| zero with TEL_bmsTempHighestC := -20 |}; {| zero with TEL_motorDataValid := true |};
             {| zero with TEL_motorTimeoutActive := true |}; {| zero with TEL_bmsDataValid := true |};
             {| zero with TEL_timestampMs := 99999 |}; {| zero with TEL_speedKmhX10 := 423 |} ]
  = map crlf_line ["TEL,2,0,0,245,0,0,0,0,0,0,0,0,0,0,0,0,0,0"; "TEL,2,0,0,0,0,0,0,0,0,0,0,0,0,-128,0,0,0,0";
                   "TEL,2,0,0,0,0,0,0,0,0,-20,0,0,0,0,0,0,0,0"; "TEL,2,0,0,0,0,1,0,0,0,0,0,0,0,0,0,0,0,0";
                   "TEL,2,0,0,0,0,0,1,0,0,0,0,0,0,0,0,0,0,0"; "TEL,2,0,0,0,0,0,0,0,0,0,0,0,0,0,0,1,0,0";
                   "TEL,2,0,0,0,0,0,0,0,0,0,0,0,0,0,0,0,99999,0"; "TEL,2,0,0,0,0,0,0,0,0,0,0,0,0,0,0,0,0,423"]%string.
Proof. evaluate. Qed.
Definition zeros (seqs : list string) : list Z :=
  concat (map (λ s, crlf_line (String.append "TEL,2," (String.append s ",0,0,0,0,0,0,0,0,0,0,0,0,0,0,0,0"))) seqs).
Example test_sequence :
  (send [zero] (newTelemetry, [])).2 = [] ∧ (send [zero; zero; zero] (begun, [])).2 = zeros ["0"; "1"; "2"]%string ∧
  (let '(t, _) := send [zero; zero] (begun, []) in (send [zero] ((telemetry_begin t).2, [])).2) = zeros ["0"]%string.
Proof. evaluate. Qed.
Example test_rpm_to_speed :
  map rpmToSpeedKmhX10 [0; 1500; 65535; 20000; 2843] = [0; 1583; 3000; 3000; 3000] ∧
  (rpmToSpeedKmhX10 2842 <? 3000) = true.
Proof. evaluate. Qed.
Definition half : SpecFloat.spec_float := F32.make 1 (-1).
Example test_rpm_to_speed_impl :
  rpmToSpeedKmhX10Impl 1500 half (F32.of_Z 1) false = 1413 ∧
  rpmToSpeedKmhX10Impl 1000 (F32.of_Z 1) (F32.of_Z 2) false = 942 ∧
  rpmToSpeedKmhX10Impl 500 half (F32.of_Z 5) true = 471 ∧
  rpmToSpeedKmhX10Impl 500 half (F32.of_Z 5) false = 94 ∧
  rpmToSpeedKmhX10Impl 65535 half (F32.of_Z 1) false = TEL_SPD_X10_MAX.
Proof. evaluate. Qed.
Definition INT32_MIN : Z := -2147483648.
Example test_sanitize :
  map sanitizeSystemState [1; 2; 3; 4; 0; 5] = [1; 2; 3; 4; 4; 4] ∧
  map sanitizeSoc [0; 6283; 10000; 10001; 65535] = [0; 6283; 10000; 10000; 10000] ∧
  map sanitizeCurrent [INT32_MIN; INT32_MIN + 1; -181610; 0; 2147483647]
  = [INT32_MIN + 1; INT32_MIN + 1; -181610; 0; 2147483647].
Proof. evaluate. Qed.
Definition uplinked (st soc current : Z) : Z * Z * Z * Z :=
  let out := sanitizeForUplink {| zero with TEL_bmsSystemState := st; TEL_bmsSocHundredths := soc;
                                            TEL_bmsCurrentCentiA := current; TEL_motorRpm := 1234 |} in
  (TEL_bmsSystemState out, TEL_bmsSocHundredths out, TEL_bmsCurrentCentiA out, TEL_motorRpm out).
Example test_sanitize_for_uplink :
  uplinked 2 6283 (-181610) = (2, 6283, -181610, 1234) ∧ uplinked 7 0 0 = (4, 0, 0, 1234) ∧
  uplinked 0 65535 INT32_MIN = (4, 10000, INT32_MIN + 1, 1234).
Proof. evaluate. Qed.
(** [test_replay_sanitize_and_seq.cpp]: peek, sanitise, send, drop. *)
Fixpoint replay (n : nat) (x : ob * (Telemetry * list Z)) : ob * (Telemetry * list Z) :=
  match n with
  | O => x
  | S n => match ob_peek x.1 with
           | None => x
           | Some d => replay n ((ob_drop_front x.1).2, send [sanitizeForUplink d] x.2)
           end
  end.
Definition buffer (ds : list TelemetryData) : ob := foldl (λ b d, (ob_push d b).2) ob_static ds.
Example test_replay_sanitizes :
  let '(b, (_, out)) := replay 1 (buffer [{| zero with TEL_bmsSystemState := 7 |}], (begun, [])) in
  (out, ob_is_empty b) = (crlf_line "TEL,2,0,0,0,0,0,0,0,0,0,0,4,0,0,0,0,0,0", true).
Proof. evaluate. Qed.
Definition at_ms (t : Z) : TelemetryData := {| zero with TEL_timestampMs := t |}.
Example test_replay_then_live :
  (send [sanitizeForUplink (at_ms 999999)] (replay 9 (buffer (map at_ms [0; 1000; 2000]), (begun, []))).2).2
  = concat (map crlf_line ["TEL,2,0,0,0,0,0,0,0,0,0,0,4,0,0,0,0,0,0"; "TEL,2,1,0,0,0,0,0,0,0,0,0,4,0,0,0,0,1000,0";
                           "TEL,2,2,0,0,0,0,0,0,0,0,0,4,0,0,0,0,2000,0";
                           "TEL,2,3,0,0,0,0,0,0,0,0,0,4,0,0,0,0,999999,0"]%string).
Proof. evaluate. Qed.
End TelemetryTests.

(** ** test_native_e22_config *)
Module E22Tests.
Definition reply (h a l : Z) (crypt : list Z) : list Z := [h; a; l; 0; 0; 0; 0x64; 0; 0x17; 0] ++ crypt.
Definition accepted (r : list Z) : option E22RegValues := e22_parseRegResponse (Some r) (Z.of_nat (length r)).
Example test_commands :
  e22_buildReadAllCommand (Some (replicate 3 0)) 3 = (3, Some [0xC1; 0x00; 0x09]) ∧
  (e22_buildReadAllCommand (Some (replicate 2 0)) 2).1 = 0 ∧
  e22_buildWriteCommand E22_CONTRACT_REGS (Some (replicate 12 0)) 12
  = (12, Some [0xC0; 0x00; 0x09; 0; 0; 0; 0x64; 0; 0x17; 0; 0x5A; 0x3C]) ∧
  (e22_buildWriteCommand E22_CONTRACT_REGS (Some (replicate 11 0)) 11).1 = 0 ∧
  e22_buildWriteCryptTempCommand (Some (replicate 5 0)) 5 = (5, Some [0xC2; 0x07; 0x02; 0x5A; 0x3C]) ∧
  (e22_buildWriteCryptTempCommand (Some (replicate 4 0)) 4).1 = 0.
Proof. evaluate. Qed.
Example test_responses :
  map accepted [reply 0xC1 0 9 [0xAB; 0xCD]; reply 0xC1 0 9 [0x99; 0xEE]] = replicate 2 (Some E22_CONTRACT_REGS) ∧
  map accepted [0xFF :: 0xFF :: 0xFF :: replicate 9 0; reply 0xC0 0 9 [0; 0]; reply 0xC1 1 9 [0; 0];
                reply 0xC1 0 5 [0; 0]; [0xC1; 0; 9; 0; 0; 0]] = replicate 5 None ∧
  e22_parseRegResponse None 12 = None ∧ e22_isErrorResponse (Some [0xFF; 0xFF; 0xFF]) 3 = true ∧
  e22_isErrorResponse (Some (reply 0xC1 0 9 [0; 0])) 12 = false ∧
  e22_regsEqual E22_CONTRACT_REGS {| E22_CONTRACT_REGS with reg2 := 1 |} = false.
Proof. evaluate. Qed.
End E22Tests.

(** ** test_native_hmi_helpers *)
Module HmiTests.
Example test_error_format :
  map (λ e, HMI_formatErrorText e 16) [0x00; 0xFF; 0x05; 0xAB] = map Some (map text ["0x00"; "0xFF"; "0x05"; "0xAB"]%string) ∧
  HMI_formatErrorText 0xFF 0 = None ∧ HMI_formatErrorText 0xFF 1 = Some [].
Proof. evaluate. Qed.
Example test_texts :
  map HMI_getStateText [HMI_INIT; HMI_IDLE; HMI_READY; HMI_DRIVE; HMI_EMERGENCY_STOP; HMI_FAULT]
  = map text ["INIT"; "IDLE"; "READY"; "DRIVE"; "ESTOP"; "FAULT"]%string ∧
  map (λ p, HMI_getValidityText p.1 p.2) [(true, false); (false, false); (false, true); (true, true)]
  = map text ["VALID"; "INVALID"; "TIMEOUT"; "TIMEOUT"]%string ∧
  map HMI_getContactorText [true; false] = map text ["CLOSED"; "OPEN"]%string.
Proof. evaluate. Qed.
Example test_no_data_display :
  map (λ '(src, valid, soc), HMI_batteryDisplayValue src valid soc)
    [(false, true, 8000); (false, false, 0); (true, false, 8000); (true, true, 8000); (true, true, 99);
     (true, true, 10000); (true, true, 65535)] = [255; 255; 255; 80; 0; 100; 100] ∧
  map (λ '(src, valid, t), HMI_temperatureDisplayValue src valid t)
    [(false, true, 25); (false, false, 0); (true, false, 25); (true, true, 25); (true, true, -10)]
  = [-127; -127; -127; 25; -10] ∧
  (HMI_SOC_SOURCE_VERIFIED, HMI_TEMP_SOURCE_VERIFIED) = (true, true) ∧
  map HMI_packVoltageToXfloat [800; 526; 0; 65535] = [800; 526; 0; 65535] ∧
  map HMI_packCurrentToXfloat [1250; -2000; 0] = [1250; -2000; 0].
Proof. evaluate. Qed.
(** [fake_uart.cpp]: the bytes written. *)
#[export] Instance fake_uart : HmiUart (list Z) := {
  hmi_param_config out := (true, out);
  hmi_set_pin out := (true, out);
  hmi_driver_install out := (true, out);
  hmi_write bs out := (Z.of_nat (length bs), out ++ bs);
  hmi_read _ _ out := ((0, []), out);
  hmi_delay _ out := ((), out);
  hmi_wdt_reset out := ((), out);
}.
Definition number (v last : Z) (force : bool) : list Z := (HMI_sendNumericIfChanged (text "speed") v last force []).2.
Definition label (v last : string) (force : bool) : list Z :=
  (HMI_sendTextIfChanged (text "state") (text v) (text last) force []).2.
Definition END : list Z := [0xFF; 0xFF; 0xFF].
Definition quoted (s : string) : list Z := text "state.txt=" ++ [34] ++ text s ++ [34] ++ END.
Example test_change_cache :
  [number 50 50 false; number 75 50 false; number 50 50 true; number (-123) 0 false]
  = [[]; text "speed.val=75" ++ END; text "speed.val=50" ++ END; text "speed.val=-123" ++ END] ∧
  [label "DRIVE" "DRIVE" false; label "DRIVE" "READY" false; label "IDLE" "IDLE" true]
  = [[]; quoted "DRIVE"; quoted "IDLE"] ∧
  (HMI_sendEndBytes []).2 = END.
Proof. evaluate. Qed.
End HmiTests.
